(* ===== verification/_CoqProject ===== *)
-Q . S2P
Prelude.v
Memory.v
BinaryStream.v
StreamSpec.v
StreamCodec.v
StreamTheorems.v
Config.v
PeerStats.v
Packet.v
Headers.v
ChannelBuffer.v
CongestionControl.v
CongestionTheorems.v
Reassembly.v
ReceiptTracker.v
RpcController.v
Encryption.v
Handshake.v
HandshakeTheorems.v
Socket.v
RemotePeer.v
PacketQueue.v
Peer.v
PacketFlow.v
Halting.v
DatagramTheorems.v
AckTheorems.v
PeerFrame.v
PeerInvariant.v
PeerEvents.v
Termination.v
Delivery.v
SplitDelivery.v
EndToEnd.v
Sessions.v
RpcFlow.v
CBindings.v
Concurrency.v
LockUse.v
LockTheorems.v
AwaitableEvent.v
Threads.v
OutOfBand.v
PeerConnect.v
ConnectFailure.v
Reliability.v
ReliableStream.v
Stall.v
AckFlow.v
