(* ===== verification/Prelude.v ===== *)
(** * Wirefox: a verification library

    Wirefox is a C++ library for reliable messaging over UDP (source/ and
    include/wirefox/ of the repository).  An application sends packets to connected
    peers; packets are cut into segments, put into datagrams, encrypted, sent,
    acknowledged, resent when lost, reassembled, put in order and handed to the
    application at the other end.  This library models that code as executable
    functions and proves what each part promises.

    ** The program

    A Peer owns a slot (RemotePeer) per connection, a PacketQueue and a UDP socket.
    To send, PacketQueue::EnqueueOutgoing serialises a Packet with a BinaryStream,
    cuts it into segments with a PacketHeader each, and appends them to the outbox
    of the slot.  The worker thread of the queue visits the slots; DoWriteCycle asks
    a slot for a datagram: either acknowledgements or, through DatagramBuilder, a
    DatagramHeader followed by packets chosen within the budgets of the
    CongestionControl; an EncryptionLayer encrypts it.  At the receiver
    OnReadFinished finds the slot by the address, decrypts, and gives the rest to
    the slot: the CongestionControl detects duplicates and gaps, the
    ReassemblyBuffer joins segments, a ChannelBuffer restores order, and the packet
    goes to the inbox.  Acknowledgements remove packets from the outbox and make
    the ReceiptTracker post receipts.  A connection is set up by a Handshaker,
    which runs an EncryptionAuthenticator when encryption is on; its messages and
    those of unknown peers travel out of band, through slot 0.  An RpcController
    maps identifiers to callbacks.  The C bindings wrap all this in handles.

    ** Files

    - Prelude: faults, the state monad, machine words, lists indexed by Z, the
      tactics [word_lia] and [zlen].
    - Memory: arrays with bounds and indeterminate cells, big-endian bytes, the
      host's byte order and evaluation order (class [Host]).
    - BinaryStream: include/wirefox/BinaryStream.h, source/BinaryStream.cpp.
      StreamSpec and StreamCodec: the abstract stream (a byte string with a cursor)
      and the simulation lemmas that every user of a stream is proved with.
      StreamTheorems: refinement, round trip of any sequence of fields, and the
      cases outside the contract.
    - Config: WirefoxConfig.h, Enumerations.h, WirefoxTime.{h,cpp}.
      PeerStats: PeerStats.{h,cpp}.
    - Packet: Packet.{h,cpp}.  Headers: PacketHeader.{h,cpp} and
      DatagramHeader.{h,cpp}, with their wire formats.
    - ChannelBuffer: ChannelBuffer.{h,cpp}, Channel.{h,cpp}.
    - CongestionControl: CongestionControl.{h,cpp} with CongestionControlWindow.
      CongestionTheorems: its invariant over all sequences of calls.
    - Reassembly: ReassemblyBuffer.{h,cpp}, and the arithmetic of segments.
    - ReceiptTracker: ReceiptTracker.{h,cpp}.  RpcController: RpcController.{h,cpp}.
    - Encryption: EncryptionLayer.h as the class [EncryptionLayer],
      EncryptionLayerNull and EncryptionLayerSodium as its instances, and the class
      [EncryptionLaws] that states what a layer promises to its users.
    - Handshake: EncryptionAuthenticator, Handshaker, HandshakerThreeWay
      ({h,cpp} each), over any layer.  HandshakeTheorems: the abstract machine on
      messages that the handshaker refines, and runs of two parties.
    - Socket: Socket.h and platform/desktop/SocketUDP.{h,cpp}; asio answers through
      the record [Asio].
    - RemotePeer: RemotePeer.{h,cpp} and DatagramBuilder.{h,cpp}.
      PacketQueue: the parts of PacketQueue.{h,cpp} that work on one connection:
      queueing, delivery and the write cycle.
      DatagramTheorems: from EnqueueOutgoing to the bytes of a datagram.
      AckTheorems: what acknowledgements and loss reports do to a connection.
    - Peer: Peer.{h,cpp}, as computations on the record [Peer] (slots, inbox, lookup
      cache, table of encryption layers, calls made to RPC callbacks).
      PacketFlow: the parts of PacketQueue.cpp that call back into Peer: the
      completion handlers and the worker thread.
    - PeerFrame: what the operations on a connection leave alone.  PeerInvariant:
      the invariant [peer_inv] of the slot table, the predicate [preserves] with its
      combinators, and one lemma per operation.  PeerEvents: the interface, the
      completions and the worker as one type of events, and the states reachable
      from the constructor.
    - Halting: that the operations of the components come to an end, and what a layer
      has to promise for that ([HaltingLayer]).  Termination: the loop over the
      packets of a datagram, the worker, and every event of a peer.
    - Delivery: the abstract receiver [accept_all], which works on messages, and
      OnReadFinished as its implementation.  SplitDelivery: the same for a packet
      that arrives in segments.  EndToEnd: a write cycle composed with
      the read handler of the other end, over any layer that satisfies the laws.
      AckFlow: the way back, from the acknowledgement that the receiver writes to the
      outbox and the receipts of the sender.
      Reliability: the read handler on the datagrams of a network that loses, repeats
      and reorders them.  ReliableStream: Send and the rounds of the worker, composed
      with it.  Stall: the worker on a connection that has forgotten what is in flight.
      RpcFlow: RpcSignal composed with OnSystemPacket.  Sessions: two peers that
      exchange datagrams, run as an example ([conversation_runs]), and theorems on
      stopping, timing out and looking up.
    - OutOfBand: messages to and from peers that are not connected, from
      EnqueueOutOfBand through slot 0 to OnUnconnectedMessage of the other end.
    - PeerConnect: Connect, its callback, OnNewIncomingPeer and the handshaker composed
      over slot 0: the effects of a handshaker on its peer, a message of the handshake
      from peer to peer, and the connection of two peers.  ConnectFailure: the worker
      on a connection attempt that nobody answers.
    - CBindings: WirefoxCBindings.{h,cpp}, with the two tables of handles; the address
      that operator new returns is an argument.
    - AwaitableEvent: AwaitableEvent.{h,cpp}.  Threads: the worker of PacketQueue, its
      constructor and Stop as a machine that the calls of other threads interrupt
      between any two statements of its loop.
    - Concurrency: programs with mutexes, their interleavings, races and waiting, and
      what a discipline that is checked on the code alone ([respects]) excludes.
      LockUse: what each function of the library does to the mutexes and to the
      members that threads share.  LockTheorems: that it follows the discipline.

    ** What the theorems show

    - Data survives: fields through a stream, headers, packets, segments in
      order, and encrypted messages are read back as written
      ([stream_fields_roundtrip], [packet_header_roundtrip],
      [datagram_header_roundtrip], [packet_datagram_roundtrip],
      [split_packet_roundtrip], [session_roundtrip]), and an RPC signal calls what
      was registered with what was sent ([rpc_call]).
    - From one application to the other: [outbox_to_inbox] (the datagram that a
      write cycle makes of the outbox has, at the other end, the effect of the
      abstract receiver on the same messages), [datagram_delivery], and
      [split_message_delivery] for user packets that do not fit one datagram.
      [acknowledged_delivery] goes once around: the messages of a datagram are
      delivered, acknowledged, taken off the outbox, and their receipts noted.
      All of these also say what happens when the messages fill the MTU up to the
      last seven bytes, which the header needs: the connection is given up.
      [reliable_ordered_stream] is the promise of an ordered channel: whatever the
      network does to the datagrams of any number of rounds, the other application
      receives the longest prefix of the stream that has arrived; it is about packets
      that are not split and datagrams with room for the header.
    - Every reachable state of a peer is well formed ([peer_invariant], by induction
      on the events); [lookups_agree] relates the cached lookups to the search;
      [packet_handles] is the contract of the handles of the C interface.
    - Every call returns: [every_call_returns], for any state that a peer can reach,
      any call and any bytes that arrive.
    - Implementations refine specifications: the stream, the handshaker and the
      registry of callbacks ([stream_refinement], [message_handling],
      [rpc_registry]).
    - What is queued is what is sent: [enqueue_segments] describes the outbox after
      EnqueueOutgoing, [datagram_contents] the bytes MakeDatagram makes of it;
      [acknowledgements_settle] and [lost_packets_become_due] say what leaves the
      outbox and what is sent again.
    - Delivery: [ordered_channel_delivery], [sequenced_channel_delivery],
      [split_receipt_exactly_once], [acknowledge_receipt], [update_posts_losses].
    - Congestion control: [flight_accounting], [window_and_budgets],
      [gaps_are_reported], [duplicates_are_suppressed], [rtt_statistics].
    - Threads: no interleaving deadlocks ([no_deadlock]); what a mutex guards is never
      accessed by two threads at once ([guarded_members]), both for callbacks that
      respect the order of the mutexes and do not join their thread; for other members
      the lock use alone does not exclude it ([unguarded_members]); the worker ends once
      it is told to, whatever runs between its statements ([stop_joins]), and the
      invariant of a peer holds there too ([interleaved_invariant]).
      [undisturbed_round] relates the round in one step, which the other files use, to
      the interleaved one.
    - Without a connection: [ping_answered].
    - Connecting: [handshake_completes] (two parties finish in four rounds, with any
      layer that satisfies the laws, or none), [attempt_gives_up] (what the peer does
      when nobody answers), [challenge_response]; [connection_established] composes Connect, the peers,
      their out-of-band messages and the handshake, for the client whose layer asks for
      no proof of identity.
    - Where the code leaves its contract, a theorem says for which inputs: for
      example [short_datagram_overread], [reordered_segments_overflow],
      [unreliable_pair_dangles], [lost_key_is_fatal], [full_datagram_disconnects],
      [split_system_packet_to_user], [stale_handle], [lost_packets_stall], [unknown_channel_throws], [send_after_stop],
      [worker_stops], [send_overtaken], [rebound_socket_is_dead], [stop_in_callback],
      [second_advertisement_overflows].

    ** Conventions

    - A w-bit integer is a Z; wrap-around is written out with [u8], [u16], [u32],
      [u64].  Undefined behaviour and exceptions are values of [fault], so "never
      faults" is part of every statement that ends in [Ret].
    - Asserts are compiled out, as in a release build.  What an assert guards is a
      hypothesis where a theorem needs it.
    - A stateful member function takes and returns its object.  Functions that read
      or write a stream run in the state monad [SM] on that stream.
    - The clock is read once per call and passed in as an argument; random bytes
      come from an argument [entropy].  In PeerEvents an operation, a
      completion handler or a round of the worker is one step, and any sequence of
      steps is a run; Threads splits the round at the statements of the loop, because
      the completion handlers use a slot without its mutex, and LockUse has every mutex
      and access but not the data.  Callbacks that a component makes into Peer are
      results of its functions (receipts, effects, requests to disconnect), on which
      Peer acts.
      Peer::Stop sleeps while the threads go on, so it is two steps.
    - A RemotePeer* is the index of its slot.
    - Shared encryption layers are entries of a table referred to by handles.
    - libsodium is a class of parameters ([Sodium]) whose documented behaviour is
      the class [SodiumLaws]; [model_sodium] shows that the laws can hold.

    ** Fuel and bounds

    - The loop that fills a datagram has two rounds more than its budget has bytes
      ([fill_fuel]): a round takes at least one byte off the budget or ends the loop
      ([fill_loop_spec], [fill_loop_halts]).
    - The loops of the 7-bit encoding run a fixed number of rounds that covers the
      width of the integer.  The loop that drains a channel has a round more than
      there are packets in it ([deliver_complete]).  The walk over n split packets has 1 + n + n * n rounds, because a nested
      walk is over one packet less ([ack_loop_halts]).  The loop over the packets of a
      datagram has one round more than the memory of the datagram has bytes
      ([loop_fuel]), and every header takes at least four ([packet_loop_halts]).
    - That the fuel is enough is [every_call_returns]; the other theorems state the
      result in full, which excludes running out as well.  The constructor draws
      numbers until one is not zero: [Peer_new] takes the list of the numbers drawn.
    - Streams are bounded by [max_len] = 2^62 bytes, below which no capacity
      computation wraps; packets by PACKET_MAX_LENGTH.

    ** Not modelled

    The network simulation and the debug output, which are compiled out; what a data
    race does, which the language leaves undefined (so a call that overlaps a statement of
    another thread on data that no mutex guards has no effect of its own); asio beyond the record [Asio]; the
    byte order functions of SocketUDP, which Memory describes; the headers that
    only declare an interface; examples and tests. *)

From stdpp Require Import base tactics list list_numbers numbers option gmap.
From Stdlib Require Import ZArith Lia.

Open Scope Z_scope.

(** ** Outcomes and faults

    The C++ code has undefined behaviour and exceptions; a model function
    returns [Ret] with its result or [Fail] with the reason execution left
    the defined part of the language. *)

Inductive fault : Type :=
  | OutOfBounds        (* access outside an allocated array *)
  | NullPointer        (* access through a null pointer *)
  | Dangling           (* access through a pointer or iterator that was invalidated *)
  | Uninitialised      (* an indeterminate value is used *)
  | BadAlloc           (* std::bad_alloc, std::length_error *)
  | OutOfRange         (* std::out_of_range of a checked container access *)
  | ShiftOverflow      (* a signed left shift whose result is not representable *)
  | RuntimeError       (* std::runtime_error *)
  | DivisionByZero
  | OutOfFuel.         (* the fuel of a modelled loop is exhausted *)

Inductive outcome (A : Type) : Type :=
  | Ret (a : A)
  | Fail (f : fault).
Arguments Ret {A} a.
Arguments Fail {A} f.

#[export] Instance fault_eq_dec : EqDecision fault.
Proof. solve_decision. Defined.

#[export] Instance outcome_ret : MRet outcome := fun A a => Ret a.
#[export] Instance outcome_bind : MBind outcome := fun A B k m =>
  match m with Ret a => k a | Fail f => Fail f end.

(** ** The state monad with faults *)

Definition ST (S A : Type) : Type := S -> outcome (A * S).

#[export] Instance st_ret {S} : MRet (ST S) := fun A a s => Ret (a, s).
#[export] Instance st_bind {S} : MBind (ST S) := fun A B k m s =>
  match m s with Ret (a, s') => k a s' | Fail f => Fail f end.

Definition get {S} : ST S S := fun s => Ret (s, s).
Definition put {S} (s : S) : ST S unit := fun _ => Ret (tt, s).
Definition modify {S} (f : S -> S) : ST S unit := fun s => Ret (tt, f s).
Definition fail {S A} (f : fault) : ST S A := fun _ => Fail f.
Definition lift {S A} (m : outcome A) : ST S A := fun s =>
  match m with Ret a => Ret (a, s) | Fail f => Fail f end.

(** Running a computation one bind at a time: the rewriting step of almost
    every proof about a handler. *)
Lemma bind_ret {S A B} (m : ST S A) (k : A -> ST S B) s a s' :
  m s = Ret (a, s') -> (m ≫= k) s = k a s'.
Proof. intros H. unfold mbind, st_bind. now rewrite H. Qed.

Lemma bind_get {S B} (k : S -> ST S B) s : (get ≫= k) s = k s s.
Proof. reflexivity. Qed.

Lemma bind_modify {S B} (f : S -> S) (k : unit -> ST S B) s :
  (modify f ≫= k) s = k tt (f s).
Proof. reflexivity. Qed.

Lemma bind_mret {S A B} (a : A) (k : A -> ST S B) s : (mret a ≫= k) s = k a s.
Proof. reflexivity. Qed.

Lemma bind_lift {S A B} (o : outcome A) (k : A -> ST S B) s a :
  o = Ret a -> (lift o ≫= k) s = k a s.
Proof. intros ->. reflexivity. Qed.

Lemma bind_fail {S A B} (m : ST S A) (k : A -> ST S B) s f : m s = Fail f -> (m ≫= k) s = Fail f.
Proof. intros H. unfold mbind, st_bind. now rewrite H. Qed.

(** ** Inverting a run

    A run that returned went through every step of the computation; the tactic
    [run_step H] takes the first step of the run [H] off, [run_all] all of them. *)

Lemma obind_inv {A B} (m : outcome A) (k : A -> outcome B) b :
  m ≫= k = Ret b -> exists a, m = Ret a /\ k a = Ret b.
Proof. destruct m as [a|]; [|discriminate]. intros H. now exists a. Qed.

Lemma bind_inv {S A B} (m : ST S A) (k : A -> ST S B) s b s' :
  (m ≫= k) s = Ret (b, s') -> exists a s1, m s = Ret (a, s1) /\ k a s1 = Ret (b, s').
Proof.
  unfold mbind, st_bind. destruct (m s) as [[a s1]|] eqn:E; [|discriminate]. intros H. now exists a, s1.
Qed.

Lemma lift_inv {S A} (o : outcome A) (s : S) a s' : lift o s = Ret (a, s') -> o = Ret a /\ s' = s.
Proof. destruct o; [|discriminate]. cbn. intros H. now injection H as <- <-. Qed.

Ltac run_step H :=
  lazymatch type of H with
  | Ret _ = Ret _ => injection H; clear H; intros; subst
  | Fail _ = Ret _ => discriminate H
  | fail _ _ = Ret _ => discriminate H
  | mret _ _ = Ret _ => injection H; clear H; intros; subst
  | mret _ = Ret _ => injection H; clear H; intros; subst
  | get _ = Ret _ => injection H; clear H; intros; subst
  | put _ _ = Ret _ => injection H; clear H; intros; subst
  | modify _ _ = Ret _ => injection H; clear H; intros; subst
  | lift _ _ = Ret _ => apply lift_inv in H as [H ->]
  | (get ≫= _) _ = Ret _ => rewrite bind_get in H; cbv beta in H
  | (_ ≫= _) _ = Ret _ =>
      let a := fresh "a" in let s1 := fresh "s" in let E := fresh "E" in
      apply bind_inv in H as (a & s1 & E & H); cbv beta in H
  | (_ ≫= _) = Ret _ =>
      let a := fresh "a" in let E := fresh "E" in
      apply obind_inv in H as (a & E & H); cbv beta in H
  | (match ?x with _ => _ end) = Ret _ => first [is_var x; destruct x | destruct x eqn:?]; try discriminate H
  | (match ?x with _ => _ end) _ = Ret _ => first [is_var x; destruct x | destruct x eqn:?]; try discriminate H
  | _ => idtac
  end.

(** Taking every run in the context apart. *)
Ltac run_all := repeat match goal with H : _ = Ret _ |- _ => progress run_step H end.

(** ** Machine integers

    A w-bit unsigned integer is a [Z] in [0, 2^w); arithmetic on it is the
    arithmetic of [Z] followed by the reduction below. *)

Definition u8 (x : Z) : Z := x mod 256.
Definition u16 (x : Z) : Z := x mod 65536.
Definition u32 (x : Z) : Z := x mod 4294967296.
Definition u64 (x : Z) : Z := x mod 18446744073709551616.

(** The value of a 32-bit pattern read as a signed [int]. *)
Definition s32 (x : Z) : Z :=
  let y := u32 x in if y <? 2147483648 then y else y - 4294967296.

Definition is_byte (b : Z) : Prop := 0 <= b < 256.

#[export] Instance is_byte_dec b : Decision (is_byte b).
Proof. unfold is_byte. apply _. Defined.

Ltac unfold_words := unfold u8, u16, u32, u64, is_byte in *.

(** Linear arithmetic with the reductions expanded. *)
Ltac word_lia := unfold_words; Z.div_mod_to_equations; lia.

Lemma u8_byte x : is_byte (u8 x).
Proof. word_lia. Qed.
Lemma u8_small x : 0 <= x < 256 -> u8 x = x.
Proof. apply Z.mod_small. Qed.
Lemma u16_small x : 0 <= x < 65536 -> u16 x = x.
Proof. apply Z.mod_small. Qed.
Lemma u32_small x : 0 <= x < 4294967296 -> u32 x = x.
Proof. apply Z.mod_small. Qed.
Lemma u64_small x : 0 <= x < 18446744073709551616 -> u64 x = x.
Proof. apply Z.mod_small. Qed.
Lemma u32_range x : 0 <= u32 x < 4294967296.
Proof. word_lia. Qed.
Lemma u64_range x : 0 <= u64 x < 18446744073709551616.
Proof. word_lia. Qed.

(** ** Lists indexed by [Z] *)

Definition zlength {A} (l : list A) : Z := Z.of_nat (length l).
Definition ztake {A} (n : Z) (l : list A) : list A := take (Z.to_nat n) l.
Definition zdrop {A} (n : Z) (l : list A) : list A := drop (Z.to_nat n) l.

Lemma zlength_nonneg {A} (l : list A) : 0 <= zlength l.
Proof. unfold zlength. lia. Qed.
Lemma zlength_nil {A} : zlength (@nil A) = 0.
Proof. reflexivity. Qed.
Lemma zlength_cons {A} (x : A) l : zlength (x :: l) = 1 + zlength l.
Proof. unfold zlength. cbn [length]. lia. Qed.
Lemma zlength_app {A} (l k : list A) : zlength (l ++ k) = zlength l + zlength k.
Proof. unfold zlength. rewrite length_app. lia. Qed.
Lemma zlength_map {A B} (f : A -> B) l : zlength (map f l) = zlength l.
Proof. unfold zlength. now rewrite List.length_map. Qed.
Lemma zlength_replicate {A} n (x : A) : zlength (replicate n x) = Z.of_nat n.
Proof. unfold zlength. now rewrite length_replicate. Qed.
Lemma zlength_ztake {A} n (l : list A) :
  0 <= n <= zlength l -> zlength (ztake n l) = n.
Proof. unfold zlength, ztake. intros. rewrite length_take. lia. Qed.
Lemma zlength_zdrop {A} n (l : list A) :
  0 <= n <= zlength l -> zlength (zdrop n l) = zlength l - n.
Proof. unfold zlength, zdrop. intros. rewrite length_drop. lia. Qed.
Lemma ztake_zdrop {A} n (l : list A) : ztake n l ++ zdrop n l = l.
Proof. apply take_drop. Qed.
Lemma ztake_0 {A} (l : list A) : ztake 0 l = [].
Proof. reflexivity. Qed.
Lemma zdrop_0 {A} (l : list A) : zdrop 0 l = l.
Proof. reflexivity. Qed.
Lemma ztake_app_l {A} n (l k : list A) :
  n = zlength l -> ztake n (l ++ k) = l.
Proof. intros ->. unfold ztake, zlength. rewrite Nat2Z.id. apply take_app_length. Qed.
Lemma zdrop_app_l {A} n (l k : list A) :
  n = zlength l -> zdrop n (l ++ k) = k.
Proof. intros ->. unfold zdrop, zlength. rewrite Nat2Z.id. apply drop_app_length. Qed.
Lemma ztake_all {A} n (l : list A) : zlength l <= n -> ztake n l = l.
Proof. unfold ztake, zlength. intros. apply take_ge. lia. Qed.
Lemma zdrop_all {A} n (l : list A) : zlength l <= n -> zdrop n l = [].
Proof. unfold zdrop, zlength. intros. apply drop_ge. lia. Qed.
Lemma ztake_le_app {A} n (l k : list A) :
  n <= zlength l -> ztake n (l ++ k) = ztake n l.
Proof. unfold ztake, zlength. intros. apply take_app_le. lia. Qed.
Lemma zdrop_le_app {A} n (l k : list A) :
  n <= zlength l -> zdrop n (l ++ k) = zdrop n l ++ k.
Proof. unfold zdrop, zlength. intros. apply drop_app_le. lia. Qed.
Lemma ztake_map {A B} (f : A -> B) n l : ztake n (map f l) = map f (ztake n l).
Proof. unfold ztake. symmetry. apply (fmap_take f). Qed.
Lemma zdrop_map {A B} (f : A -> B) n l : zdrop n (map f l) = map f (zdrop n l).
Proof. unfold zdrop. symmetry. apply (fmap_drop f). Qed.
Lemma zdrop_zdrop {A} n m (l : list A) :
  0 <= n -> 0 <= m -> zdrop n (zdrop m l) = zdrop (m + n) l.
Proof. unfold zdrop. intros. rewrite drop_drop. f_equal. lia. Qed.

Lemma app_snoc_cons {A} (l : list A) x k : l ++ x :: k = (l ++ [x]) ++ k.
Proof. now rewrite <- app_assoc. Qed.

Ltac pose_zlength l :=
  lazymatch goal with
  | _ : 0 <= zlength l |- _ => fail
  | _ => pose proof (zlength_nonneg l)
  end.

Ltac pose_zlengths :=
  repeat match goal with
  | |- context [zlength ?l] => pose_zlength l
  | _ : context [zlength ?l] |- _ => pose_zlength l
  end.

Create Rewrite HintDb zlen.
#[export] Hint Rewrite @zlength_nil @zlength_cons @zlength_app @zlength_map
  @zlength_replicate : zlen.
#[export] Hint Rewrite @zlength_ztake @zlength_zdrop using
  (autorewrite with zlen; pose_zlengths; lia) : zlen.

(** Length arithmetic over the lists above. *)
Ltac zlen := autorewrite with zlen in *; pose_zlengths; lia.

(** Forall and membership. *)
Lemma Forall_elem {A} (P : A -> Prop) l x : Forall P l -> x ∈ l -> P x.
Proof. intros H Hx. apply list_elem_of_lookup in Hx as [i Hi]. exact (Forall_lookup_1 _ _ _ _ H Hi). Qed.
Lemma Forall_intro {A} (P : A -> Prop) l : (forall x, x ∈ l -> P x) -> Forall P l.
Proof. intros H. apply Forall_lookup_2. intros i x Hi. apply H. apply list_elem_of_lookup. eauto. Qed.

(** ** std::map as the list of its entries in key order *)

(** std::map::emplace: no effect when the key is present. *)
Fixpoint emplace {P} (k : Z) (v : P) (m : list (Z * P)) : list (Z * P) :=
  match m with
  | [] => [(k, v)]
  | (k', v') :: r =>
      if k <? k' then (k, v) :: m else if k =? k' then m else (k', v') :: emplace k v r
  end.
