(* ===== verification/Memory.v ===== *)
(** * Memory: byte arrays, their bounds, and the byte order of the host

    The arrays behind [new uint8_t[n]], [memcpy], [memset] and the views the
    code takes of an integer's object representation.  A cell is [None] while
    its content is indeterminate, as after [new uint8_t[n]]. *)

From stdpp Require Import base tactics list list_numbers numbers option.
From Stdlib Require Import ZArith Lia.
From S2P Require Import Prelude.

Open Scope Z_scope.

Abbreviation cell := (option Z).

(** [new uint8_t[n]]: n indeterminate cells; a request above the size of the
    address space throws. *)
Definition alloc (n : Z) : outcome (list cell) :=
  if n <? 9223372036854775808 then Ret (replicate (Z.to_nat n) None) else Fail BadAlloc.

(** The source operand of a [memcpy] of [n] cells from [l + off]. *)
Definition mem_read (l : list cell) (off n : Z) : outcome (list cell) :=
  if decide (0 <= off /\ 0 <= n /\ off + n <= zlength l)
  then Ret (ztake n (zdrop off l)) else Fail OutOfBounds.

(** The destination operand of a [memcpy] or [memset] to [l + off]. *)
Definition mem_write (l : list cell) (off : Z) (data : list cell) : outcome (list cell) :=
  if decide (0 <= off /\ off + zlength data <= zlength l)
  then Ret (ztake off l ++ data ++ zdrop (off + zlength data) l) else Fail OutOfBounds.

(** Using the content of cells as byte values. *)
Definition bytes_of (l : list cell) : outcome (list Z) :=
  match mapM (fun c : cell => c) l with Some bs => Ret bs | None => Fail Uninitialised end.

Lemma alloc_ok n : 0 <= n < 9223372036854775808 ->
  alloc n = Ret (replicate (Z.to_nat n) None).
Proof. intros. unfold alloc. case_match eqn:E; [done|]. apply Z.ltb_ge in E. lia. Qed.

Lemma mem_read_ok l off n : 0 <= off -> 0 <= n -> off + n <= zlength l ->
  mem_read l off n = Ret (ztake n (zdrop off l)).
Proof. intros. unfold mem_read. rewrite decide_True; [done|lia]. Qed.

Lemma mem_write_ok l off data : 0 <= off -> off + zlength data <= zlength l ->
  mem_write l off data = Ret (ztake off l ++ data ++ zdrop (off + zlength data) l).
Proof. intros. unfold mem_write. rewrite decide_True; [done|lia]. Qed.

Lemma bytes_of_map bs : bytes_of (map Some bs) = Ret bs.
Proof.
  unfold bytes_of. replace (mapM _ (map Some bs)) with (Some bs); [done|].
  symmetry. apply mapM_Some. induction bs; constructor; auto.
Qed.

(** ** Byte order

    [be_bytes n v] lists the n bytes of v, most significant first;
    [object_bytes] is the order in which the host stores them.  [Host] fixes
    what the C++ standard leaves to the implementation and the code depends
    on: the byte order, and which operand of [|] is evaluated first. *)

Class Host : Type := {
  little_endian : bool;
  or_left_first : bool;
}.

Fixpoint be_bytes (n : nat) (v : Z) : list Z :=
  match n with
  | O => []
  | S k => u8 (Z.shiftr v (8 * Z.of_nat k)) :: be_bytes k v
  end.

Fixpoint be_val (l : list Z) : Z :=
  match l with
  | [] => 0
  | b :: r => u8 b * 2 ^ (8 * zlength r) + be_val r
  end.

Definition bswap (n : nat) (v : Z) : Z := be_val (rev (be_bytes n v)).

Section Host.
Context {host : Host}.

Definition object_bytes (n : nat) (v : Z) : list Z :=
  if little_endian then rev (be_bytes n v) else be_bytes n v.

Definition object_val (l : list Z) : Z :=
  if little_endian then be_val (rev l) else be_val l.

(** htons / htonl and ntohs / ntohl. *)
Definition hton (n : nat) (v : Z) : Z := if little_endian then bswap n v else v.
Definition ntoh (n : nat) (v : Z) : Z := if little_endian then bswap n v else v.
End Host.

Lemma be_bytes_length n v : zlength (be_bytes n v) = Z.of_nat n.
Proof. induction n; cbn [be_bytes]; [done|]. zlen. Qed.
#[export] Hint Rewrite be_bytes_length : zlen.

Lemma be_bytes_range n v : Forall is_byte (be_bytes n v).
Proof. induction n; cbn [be_bytes]; constructor; auto using u8_byte. Qed.

Lemma be_val_bytes n v : be_val (be_bytes n v) = v mod 2 ^ (8 * Z.of_nat n).
Proof.
  induction n as [|n IH]; cbn [be_bytes be_val]; [now rewrite Z.mod_1_r|].
  rewrite be_bytes_length, IH. unfold u8. rewrite Zmod_mod, Z.shiftr_div_pow2 by lia.
  replace (8 * Z.of_nat (S n)) with (8 * Z.of_nat n + 8) by lia.
  rewrite Z.pow_add_r by lia. change (2 ^ 8) with 256.
  assert (0 < 2 ^ (8 * Z.of_nat n)) by (apply Z.pow_pos_nonneg; lia).
  rewrite (Z.rem_mul_r v (2 ^ _) 256) by lia. lia.
Qed.

Lemma be_val_range l : 0 <= be_val l < 2 ^ (8 * zlength l).
Proof.
  induction l as [|b l IH]; cbn [be_val]; [done|]. pose proof (u8_byte b) as Hb.
  rewrite zlength_cons. pose proof (zlength_nonneg l).
  replace (8 * (1 + zlength l)) with (8 + 8 * zlength l) by lia.
  rewrite Z.pow_add_r by lia. change (2 ^ 8) with 256. unfold is_byte in Hb. nia.
Qed.

Lemma be_bytes_mod n m v : (n <= m)%nat ->
  be_bytes n (v mod 2 ^ (8 * Z.of_nat m)) = be_bytes n v.
Proof.
  induction n as [|n IH]; intros Hle; cbn [be_bytes]; [done|].
  rewrite IH by lia. f_equal. unfold u8.
  rewrite !Z.shiftr_div_pow2 by lia. change 256 with (2 ^ 8).
  replace (8 * Z.of_nat m) with (8 * Z.of_nat n + (8 * (Z.of_nat m - Z.of_nat n))) by lia.
  rewrite <- !Z.land_ones, <- !Z.shiftr_div_pow2 by lia.
  apply Z.bits_inj'; intros i Hi. rewrite !Z.land_spec.
  destruct (decide (i < 8)).
  - rewrite !Z.shiftr_spec, Z.land_spec, !Z.ones_spec_low by lia.
    now rewrite !andb_true_r.
  - rewrite (Z.ones_spec_high 8) by lia. now rewrite !andb_false_r.
Qed.

Lemma be_bytes_val l : Forall is_byte l -> be_bytes (length l) (be_val l) = l.
Proof.
  induction 1 as [|b l Hb Hl IH]; cbn [length be_bytes be_val]; [done|].
  pose proof (be_val_range l) as Hr. fold (zlength l). rewrite (u8_small b Hb).
  assert (0 < 2 ^ (8 * zlength l)) by (apply Z.pow_pos_nonneg; unfold zlength; lia).
  f_equal.
  - rewrite Z.shiftr_div_pow2 by (unfold zlength; lia).
    rewrite Z.div_add_l, (Z.div_small (be_val l)), Z.add_0_r by lia. now apply u8_small.
  - rewrite <- (be_bytes_mod _ (length l)) by lia. fold (zlength l).
    rewrite Z.add_comm, Z.mod_add, Z.mod_small by lia. done.
Qed.

Lemma be_bytes_val_n n l :
  Forall is_byte l -> zlength l = Z.of_nat n -> be_bytes n (be_val l) = l.
Proof. intros. replace n with (length l) by (unfold zlength in *; lia). now apply be_bytes_val. Qed.

Lemma zlength_rev {A} (l : list A) : zlength (rev l) = zlength l.
Proof. unfold zlength. now rewrite List.length_rev. Qed.
#[export] Hint Rewrite @zlength_rev : zlen.

Lemma Forall_rev_bytes (l : list Z) : Forall is_byte l -> Forall is_byte (rev l).
Proof. apply List.Forall_rev. Qed.

Lemma Forall_ztake {A} (P : A -> Prop) n l : Forall P l -> Forall P (ztake n l).
Proof. apply Forall_take. Qed.
Lemma Forall_zdrop {A} (P : A -> Prop) n l : Forall P l -> Forall P (zdrop n l).
Proof. apply Forall_drop. Qed.
Lemma Forall_app_bytes (l k : list Z) : Forall is_byte l -> Forall is_byte k -> Forall is_byte (l ++ k).
Proof. apply Forall_app_2. Qed.

Create HintDb bytes.
#[export] Hint Resolve be_bytes_range Forall_rev_bytes Forall_app_bytes u8_byte : bytes.
#[export] Hint Resolve Forall_nil_2 Forall_cons_2 Forall_ztake Forall_zdrop : bytes.

Section HostFacts.
Context {host : Host}.

(** In memory, a converted integer is stored most significant byte first
    whatever the host's order, and reading it back inverts that. *)
Lemma object_bytes_hton n v :
  object_bytes n (hton n v) = be_bytes n v.
Proof.
  unfold object_bytes, hton, bswap. destruct little_endian; [|done].
  rewrite be_bytes_val_n; [apply rev_involutive|auto with bytes|zlen].
Qed.

Lemma ntoh_object_val n l :
  Forall is_byte l -> zlength l = Z.of_nat n -> ntoh n (object_val l) = be_val l.
Proof.
  intros Hb Hn. unfold object_val, ntoh, bswap. destruct little_endian; [|done].
  rewrite be_bytes_val_n; [now rewrite rev_involutive|auto with bytes|zlen].
Qed.
End HostFacts.

Lemma be_bytes_app_32 v :
  be_bytes 4 (u32 (Z.shiftr v 32)) ++ be_bytes 4 (u32 v) = be_bytes 8 v.
Proof.
  assert (Hs : forall k, 0 <= k <= 24 ->
    u8 (Z.shiftr (u32 (Z.shiftr v 32)) k) = u8 (Z.shiftr v (32 + k)) /\
    u8 (Z.shiftr (u32 v) k) = u8 (Z.shiftr v k)).
  { intros k Hk. unfold u8, u32. change 4294967296 with (2 ^ 32). change 256 with (2 ^ 8).
    rewrite <- !Z.land_ones by lia.
    split; apply Z.bits_inj'; intros i Hi; rewrite !Z.land_spec.
    all: destruct (decide (i < 8)); [|rewrite (Z.ones_spec_high 8), !andb_false_r by lia; done].
    all: rewrite !Z.shiftr_spec, !Z.land_spec, ?Z.shiftr_spec by lia.
    all: rewrite !Z.ones_spec_low by lia; rewrite !andb_true_r; f_equal; lia. }
  cbn -[Z.shiftr u8 u32 Z.mul Z.of_nat].
  repeat match goal with |- context [u8 (Z.shiftr (u32 _) ?k)] =>
    let k' := eval vm_compute in k in change k with k' end.
  repeat match goal with |- context [u8 (Z.shiftr v ?k)] =>
    let k' := eval vm_compute in k in progress change k with k' end.
  repeat (destruct (Hs 24) as [-> ->]; [lia|]). repeat (destruct (Hs 16) as [-> ->]; [lia|]).
  repeat (destruct (Hs 8) as [-> ->]; [lia|]). repeat (destruct (Hs 0) as [-> ->]; [lia|]).
  reflexivity.
Qed.
