(* ===== verification/BinaryStream.v ===== *)
(** * BinaryStream: the in-memory byte stream

    Model of include/wirefox/BinaryStream.h and source/BinaryStream.cpp: every
    constructor and member function, over arrays with bounds and indeterminate
    cells.  [assert] is compiled out, as in a release build. *)

From stdpp Require Import base tactics list list_numbers numbers option.
From Stdlib Require Import ZArith Lia.
From S2P Require Import Prelude Memory.

Open Scope Z_scope.

(** [m_buffer_ro] is null, the owned array [m_buffer], a caller's array, or an
    array whose ownership was given away. *)
Inductive ro_ptr : Type :=
  | RoNull
  | RoSelf
  | RoUser (l : list cell)
  | RoDangling.

Record BinaryStream : Type := mkStream {
  m_buffer : option (list cell);
  m_buffer_ro : ro_ptr;
  m_capacity : Z;
  m_length : Z;
  m_position : Z;
  m_subBytePosition : Z;
  m_readonly : bool;
}.

Inductive WrapMode : Type := COPY | READONLY.

Definition set_buffer (b : option (list cell)) (s : BinaryStream) : BinaryStream :=
  mkStream b (m_buffer_ro s) (m_capacity s) (m_length s) (m_position s) (m_subBytePosition s) (m_readonly s).
Definition set_length (n : Z) (s : BinaryStream) : BinaryStream :=
  mkStream (m_buffer s) (m_buffer_ro s) (m_capacity s) n (m_position s) (m_subBytePosition s) (m_readonly s).
Definition set_position (n : Z) (s : BinaryStream) : BinaryStream :=
  mkStream (m_buffer s) (m_buffer_ro s) (m_capacity s) (m_length s) n (m_subBytePosition s) (m_readonly s).
Definition set_sub (n : Z) (s : BinaryStream) : BinaryStream :=
  mkStream (m_buffer s) (m_buffer_ro s) (m_capacity s) (m_length s) (m_position s) n (m_readonly s).

Definition ToNextPowerOfTwo (n : Z) : Z :=
  let n := u64 (n - 1) in
  let n := Z.lor n (Z.shiftr n 1) in
  let n := Z.lor n (Z.shiftr n 2) in
  let n := Z.lor n (Z.shiftr n 4) in
  let n := Z.lor n (Z.shiftr n 8) in
  let n := Z.lor n (Z.shiftr n 16) in
  u64 (n + 1).

(** What a pointer assigned from [m_buffer] points to. *)
Definition alias_of (b : option (list cell)) : ro_ptr :=
  match b with None => RoNull | Some _ => RoSelf end.

(** The array behind [m_buffer_ro]. *)
Definition deref_ro (s : BinaryStream) : outcome (list cell) :=
  match m_buffer_ro s with
  | RoNull => Fail NullPointer
  | RoSelf => match m_buffer s with Some l => Ret l | None => Fail NullPointer end
  | RoUser l => Ret l
  | RoDangling => Fail Dangling
  end.

Definition read_from (src : outcome (list cell)) (off n : Z) : outcome (list cell) :=
  if n =? 0 then Ret [] else (l ← src; mem_read l off n).

(** BinaryStream(size_t capacity) *)
Definition BinaryStream_new (capacity : Z) : outcome BinaryStream :=
  let cap := ToNextPowerOfTwo capacity in
  b ← (if 0 <? cap then (l ← alloc cap; mret (Some l)) else mret None);
  mret (mkStream b (alias_of b) cap 0 0 0 false).

(** BinaryStream(const uint8_t*, size_t, WrapMode); [src] is what the pointer
    dereferences to. *)
Definition BinaryStream_wrap (src : outcome (list cell)) (bufferlen : Z) (mode : WrapMode)
    : outcome BinaryStream :=
  match mode with
  | COPY =>
      let cap := ToNextPowerOfTwo bufferlen in
      b ← (if 0 <? cap
           then (l ← alloc cap; data ← read_from src 0 bufferlen;
                 l' ← mem_write l 0 data; mret (Some l'))
           else mret None);
      mret (mkStream b (alias_of b) cap bufferlen 0 0 false)
  | READONLY =>
      let ro := match src with
                | Ret l => RoUser l | Fail NullPointer => RoNull | Fail _ => RoDangling end in
      mret (mkStream None ro bufferlen bufferlen 0 0 true)
  end.

(** BinaryStream(const BinaryStream&) *)
Definition BinaryStream_copy (other : BinaryStream) : outcome BinaryStream :=
  BinaryStream_wrap (deref_ro other) (m_length other) COPY.

(** What a move leaves behind. *)
Definition moved_from : BinaryStream := mkStream None RoNull 0 0 0 0 false.

(** BinaryStream(BinaryStream&&): the new stream and the emptied one. *)
Definition BinaryStream_move (other : BinaryStream) : BinaryStream * BinaryStream :=
  (mkStream (m_buffer other) (m_buffer_ro other) (m_capacity other) (m_length other)
            (m_position other) (m_subBytePosition other) (m_readonly other), moved_from).

Abbreviation SM := (ST BinaryStream).

Definition Reallocate (newCapacity : Z) : SM unit :=
  s ← get;
  if m_readonly s then mret tt else
  let cap := Z.max (ToNextPowerOfTwo newCapacity) 1 in
  newBuffer ← lift (alloc cap);
  newBuffer ← (match m_buffer s with
    | None => mret newBuffer
    | Some old =>
        let bytesToCopy := Z.min (m_length s) cap in
        if 0 <? bytesToCopy
        then (data ← lift (mem_read old 0 bytesToCopy); lift (mem_write newBuffer 0 data))
        else mret newBuffer
    end);
  put (mkStream (Some newBuffer) RoSelf cap (m_length s) (m_position s)
                (m_subBytePosition s) (m_readonly s)).

(** operator=(const BinaryStream&) *)
Definition assign_copy (other : BinaryStream) : SM unit :=
  Reallocate (m_capacity other);;
  s ← get;
  data ← lift (read_from (deref_ro other) 0 (m_length other));
  b ← (match m_buffer s with
       | Some l => (l' ← lift (mem_write l 0 data); mret (Some l'))
       | None => if m_length other =? 0 then mret None else fail NullPointer
       end);
  put (mkStream b (alias_of b) (m_capacity s) (m_length other) (m_position other)
                (m_subBytePosition other) (m_readonly other)).

(** operator=(BinaryStream&&) on two distinct objects; returns what is left of
    the operand. *)
Definition assign_move (other : BinaryStream) : SM BinaryStream :=
  put (fst (BinaryStream_move other));; mret moved_from.

Definition Ensure (free : Z) : SM unit :=
  s ← get;
  if m_readonly s then mret tt else
  if free <=? u64 (m_capacity s - m_position s) then mret tt
  else Reallocate (u64 (m_position s + free)).

Definition Seek (position : Z) : SM unit :=
  modify (fun s => set_position (Z.min (Z.max position 0) (m_length s)) s).
Definition SeekToBegin : SM unit := Seek 0.
Definition SeekToEnd : SM unit := s ← get; Seek (m_length s).

Definition Align : SM unit := modify (fun s =>
  set_sub 0 (if 0 <? m_subBytePosition s then set_position (u64 (m_position s + 1)) s else s)).

(** Storing through [m_buffer + off]. *)
Definition store (off : Z) (data : list cell) : SM unit :=
  s ← get;
  match m_buffer s with
  | Some l => (l' ← lift (mem_write l off data); put (set_buffer (Some l') s))
  | None => if zlength data =? 0 then mret tt else fail NullPointer
  end.

(** [m_position += n; m_length = std::max(m_length, m_position);] *)
Definition advance (n : Z) : SM unit := modify (fun s =>
  let p := u64 (m_position s + n) in set_length (Z.max (m_length s) p) (set_position p s)).

Definition WriteByte (val : Z) : SM unit :=
  s ← get;
  if m_readonly s then mret tt else
  Align;; Ensure 1;;
  s ← get; store (m_position s) [Some (u8 val)];; advance 1.

Definition WriteZeroes (len : Z) : SM unit :=
  s ← get;
  if m_readonly s then mret tt else
  Align;; Ensure len;;
  s ← get; store (m_position s) (replicate (Z.to_nat len) (Some 0));; advance len.

(** WriteBytes(const void*, size_t): [data] is the source range. *)
Definition WriteBytes (data : list cell) : SM unit :=
  s ← get;
  if m_readonly s then mret tt else
  Align;; Ensure (zlength data);;
  s ← get; store (m_position s) data;; advance (zlength data).

(** WriteBytes(const BinaryStream&) *)
Definition WriteBytes_stream (other : BinaryStream) : SM unit :=
  s ← get;
  if m_readonly s then mret tt else
  data ← lift (read_from (deref_ro other) 0 (m_length other));
  WriteBytes data.

Definition SeekForce (position : Z) : SM unit :=
  s ← get;
  (if m_capacity s <=? position
   then SeekToEnd;; (s ← get; WriteZeroes (u64 (position - m_position s)))
   else mret tt);;
  Seek position.

Definition IsEOF (s : BinaryStream) (read : Z) : bool := u64 (m_length s - read) <? m_position s.

Definition Skip (num : Z) : SM bool :=
  s ← get;
  if IsEOF s num then mret false
  else put (set_position (u64 (m_position s + num)) s);; mret true.

Definition Reset : SM unit := modify (fun s =>
  mkStream None RoNull 0 0 0 (m_subBytePosition s) (m_readonly s)).

Definition Clear : SM unit :=
  s ← get; if m_readonly s then mret tt else put (set_length 0 (set_position 0 s)).

Definition IsEmpty (s : BinaryStream) : bool :=
  match m_buffer_ro s with RoNull => true | _ => m_length s =? 0 end.

(** ToArray(): a fresh array of [m_length] bytes filled from [m_buffer]. *)
Definition ToArray (s : BinaryStream) : outcome (list cell) :=
  _ ← alloc (m_length s);
  read_from (match m_buffer s with Some l => Ret l | None => Fail NullPointer end) 0 (m_length s).

(** ReleaseBuffer(size_t* length): the released array, and what is written
    through [length] when the stream is writable. *)
Definition ReleaseBuffer : SM (option (list cell) * option Z) :=
  s ← get;
  if m_readonly s then mret (None, None) else
  Align;;
  s ← get;
  put (mkStream None (match m_buffer_ro s with RoSelf => RoDangling | p => p end)
                0 0 0 (m_subBytePosition s) (m_readonly s));;
  mret (m_buffer s, Some (m_length s)).

(** Write(ISerializable&) and Read(ISerializable&): the object's own
    Serialize / Deserialize, run on an aligned stream. *)
Definition Write_serializable (Serialize : SM unit) : SM unit :=
  s ← get; if m_readonly s then mret tt else Align;; Serialize.
Definition Read_serializable (Deserialize : SM unit) : SM unit := Align;; Deserialize.

Section Io.
Context {host : Host}.

(** static IsLittleEndian() *)
Definition IsLittleEndian : bool := negb (hton 4 1 =? 1).

(** Write<T>(const T&): the object representation of a [sizeof(T)]-byte integer. *)
Definition Write_object (size : nat) (val : Z) : SM unit :=
  WriteBytes (map Some (object_bytes size val)).

Definition WriteInt16 (val : Z) : SM unit :=
  WriteBytes (map Some (object_bytes 2 (hton 2 (u16 val)))).

Definition WriteInt32 (val : Z) : SM unit :=
  WriteBytes (map Some (object_bytes 4 (hton 4 (u32 val)))).

Definition WriteInt64 (val : Z) : SM unit :=
  if IsLittleEndian
  then WriteInt32 (Z.land (Z.shiftr (u64 val) 32) 4294967295);;
       WriteInt32 (Z.land (u64 val) 4294967295)
  else WriteBytes (map Some (object_bytes 8 (u64 val))).

(** The do-while loop of Write7BitEncodedInt; a 32-bit value needs at most
    five rounds. *)
Fixpoint write7_loop (fuel : nat) (raw : Z) : SM unit :=
  match fuel with
  | O => fail OutOfFuel
  | S fuel =>
      let snippet := Z.land raw 127 in
      let raw := Z.shiftr raw 7 in
      let snippet := if 0 <? raw then Z.lor snippet 128 else snippet in
      WriteByte snippet;;
      if 0 <? raw then write7_loop fuel raw else mret tt
  end.

Definition Write7BitEncodedInt (val : Z) : SM unit := write7_loop 5 (u32 val).

Definition WriteBool (val : bool) : SM unit :=
  s ← get;
  if m_readonly s then mret tt else
  Ensure 1;;
  s ← get;
  (if m_subBytePosition s =? 0 then store (m_position s) [Some 0] else mret tt);;
  s ← get;
  (if val then
     old ← lift (read_from (match m_buffer s with Some l => Ret l | None => Fail NullPointer end)
                           (m_position s) 1);
     old ← lift (bytes_of old);
     store (m_position s)
       (map (fun b => Some (Z.lor b (Z.shiftr 128 (m_subBytePosition s)))) old)
   else mret tt);;
  modify (fun s =>
    let sub := m_subBytePosition s + 1 in
    if 7 <? sub
    then let p := u64 (m_position s + 1) in
         set_length (Z.max (m_length s) p) (set_position p (set_sub 0 s))
    else set_length (Z.max (m_length s) (u64 (m_position s + 1))) (set_sub sub s)).

Definition WriteString (str : list Z) : SM unit :=
  Write7BitEncodedInt (s32 (zlength str));;
  WriteBytes (map Some str).

Definition ReadByte : SM Z :=
  s ← get;
  if IsEOF s 1 then mret 0 else
  Align;;
  s ← get;
  cs ← lift (read_from (deref_ro s) (m_position s) 1);
  bs ← lift (bytes_of cs);
  put (set_position (u64 (m_position s + 1)) s);;
  mret (default 0 (head bs)).

(** ReadBytes(buffer, count): [None] when nothing was copied out. *)
Definition ReadBytes (count : Z) : SM (option (list cell)) :=
  s ← get;
  if IsEOF s count then mret None else
  Align;;
  s ← get;
  cs ← lift (read_from (deref_ro s) (m_position s) count);
  put (set_position (u64 (m_position s + count)) s);;
  mret (Some cs).

(** A local integer filled by ReadBytes: indeterminate when nothing was read. *)
Definition read_object (size : nat) : SM Z :=
  r ← ReadBytes (Z.of_nat size);
  match r with
  | None => fail Uninitialised
  | Some cs => bs ← lift (bytes_of cs); mret (object_val bs)
  end.

Definition ReadUInt16 : SM Z := v ← read_object 2; mret (ntoh 2 v).
Definition ReadUInt32 : SM Z := v ← read_object 4; mret (ntoh 4 v).

Definition ReadUInt64 : SM Z :=
  if IsLittleEndian then
    if or_left_first
    then hi ← ReadUInt32; lo ← ReadUInt32; mret (Z.lor (u64 (Z.shiftl hi 32)) lo)
    else lo ← ReadUInt32; hi ← ReadUInt32; mret (Z.lor (u64 (Z.shiftl hi 32)) lo)
  else read_object 8.

Definition ReadInt32 : SM Z := v ← ReadUInt32; mret (s32 v).

Definition ReadBool : SM bool :=
  s ← get;
  if IsEOF s 1 then mret false else
  cs ← lift (read_from (deref_ro s) (m_position s) 1);
  bs ← lift (bytes_of cs);
  let bit := negb (Z.land (default 0 (head bs)) (Z.shiftr 128 (m_subBytePosition s)) =? 0) in
  modify (fun s =>
    let sub := m_subBytePosition s + 1 in
    if 7 <? sub then set_position (u64 (m_position s + 1)) (set_sub 0 s) else set_sub sub s);;
  mret bit.

(** The for loop of Read7BitEncodedInt over i, i+1, ... 4. *)
Fixpoint read7_loop (rounds : nat) (i output : Z) : SM Z :=
  match rounds with
  | O => mret output
  | S rounds =>
      snippet ← ReadByte;
      let offset := 7 * i in
      let part := Z.shiftl (Z.land snippet 127) offset in
      if 4294967296 <=? part then fail ShiftOverflow else
      let output := Z.lor output part in
      if Z.land snippet 128 =? 0 then mret output else read7_loop rounds (i + 1) output
  end.

Definition Read7BitEncodedInt : SM Z := output ← read7_loop 5 0 0; mret (s32 output).

Definition ReadString : SM (list Z) :=
  len ← Read7BitEncodedInt;
  let length := u64 len in
  s ← get;
  if IsEOF s length then mret [] else
  cs ← lift (read_from (deref_ro s) (m_position s) length);
  bs ← lift (bytes_of cs);
  put (set_position (u64 (m_position s + length)) s);;
  mret bs.
End Io.
