(* ===== verification/StreamSpec.v ===== *)
(** * StreamSpec: what a BinaryStream promises

    An abstract stream is a byte string with a cursor.  [refines] relates a
    [BinaryStream] (arrays, capacity, indeterminate slack) to it, and [sim]
    states that a member function terminates without fault and performs the
    abstract step.  The headers and packets are verified against this
    interface. *)

From stdpp Require Import base tactics list list_numbers numbers option.
From Stdlib Require Import ZArith Lia.
From S2P Require Import Prelude Memory BinaryStream.

Open Scope Z_scope.

(** The largest stream the statements speak of: far below the address space,
    far above any packet. *)
Definition max_len : Z := 4611686018427387904.

Record AStream : Type := mkA {
  a_bytes : list Z;
  a_pos : Z;
  a_sub : Z;
}.

Record refines (s : BinaryStream) (a : AStream) : Prop := {
  rf_len : m_length s = zlength (a_bytes a);
  rf_cells : a_bytes a <> [] ->
    exists slack, deref_ro s = Ret (map Some (a_bytes a) ++ slack);
  rf_pos : m_position s = a_pos a;
  rf_range : 0 <= a_pos a <= zlength (a_bytes a);
  rf_sub : m_subBytePosition s = a_sub a;
  rf_sub_range : 0 <= a_sub a <= 7;
  rf_sub_in : 0 < a_sub a -> a_pos a < zlength (a_bytes a);
  rf_bytes : Forall is_byte (a_bytes a);
  rf_max : zlength (a_bytes a) <= max_len;
}.

Record writable (s : BinaryStream) : Prop := {
  wr_mode : m_readonly s = false;
  wr_alias : m_buffer_ro s = alias_of (m_buffer s);
  wr_cap : zlength (default [] (m_buffer s)) = m_capacity s;
  wr_len : m_length s <= m_capacity s;
  wr_max : m_capacity s <= max_len;
}.

(** [rel w s a]: s stands for a, and is writable when w is set. *)
Definition rel (w : bool) (s : BinaryStream) (a : AStream) : Prop :=
  refines s a /\ (w = true -> writable s).

Definition sim (w : bool) {A} (m : SM A) (a : AStream) (r : A) (a' : AStream) : Prop :=
  forall s, rel w s a -> exists s', m s = Ret (r, s') /\ rel w s' a'.

Lemma sim_bind w {A B} (m : SM A) (k : A -> SM B) a r a' r' a'' :
  sim w m a r a' -> sim w (k r) a' r' a'' -> sim w (m ≫= k) a r' a''.
Proof.
  intros Hm Hk s Hs. destruct (Hm s Hs) as (s1 & E1 & H1).
  destruct (Hk s1 H1) as (s2 & E2 & H2).
  exists s2. split; [|done]. now rewrite (bind_ret _ _ _ _ _ E1).
Qed.

Lemma sim_ret w {A} (r : A) a : sim w (mret r) a r a.
Proof. intros s Hs. now exists s. Qed.

Lemma sim_get w {A} (k : BinaryStream -> SM A) a r a' :
  (forall s, rel w s a -> sim w (k s) a r a') -> sim w (get ≫= k) a r a'.
Proof. intros H s Hs. rewrite bind_get. now apply H. Qed.

Lemma sim_weaken {A} (m : SM A) a r a' s :
  sim false m a r a' -> refines s a -> exists s', m s = Ret (r, s') /\ refines s' a'.
Proof.
  intros H Hs. destruct (H s) as (s' & E & [H' _]); [split; [done|discriminate]|]. eauto.
Qed.

(** ** Capacity rounding *)

Lemma log2_lt_pow2_0 x k : 0 < k -> 0 <= x < 2 ^ k -> Z.log2 x < k.
Proof. intros Hk Hx. destruct (Z.eq_dec x 0) as [->|]; [done|apply Z.log2_lt_pow2; lia]. Qed.

Lemma lor_lt_pow2 x y k : 0 < k -> 0 <= x < 2 ^ k -> 0 <= y < 2 ^ k -> 0 <= Z.lor x y < 2 ^ k.
Proof.
  intros Hk Hx Hy. split; [apply Z.lor_nonneg; lia|].
  destruct (Z.eq_dec (Z.lor x y) 0) as [->|Hne]; [lia|].
  apply Z.log2_lt_cancel. rewrite Z.log2_pow2, Z.log2_lor by lia.
  apply Z.max_lub_lt; now apply log2_lt_pow2_0.
Qed.

Lemma lor_ge_l x y : 0 <= y -> x <= Z.lor x y.
Proof.
  intros Hy. pose proof (Z.add_lor_land x (Z.ldiff y x)) as E.
  replace (Z.lor x (Z.ldiff y x)) with (Z.lor x y) in E.
  2:{ apply Z.bits_inj'; intros i Hi. rewrite !Z.lor_spec, Z.ldiff_spec.
      destruct (Z.testbit x i), (Z.testbit y i); done. }
  replace (Z.land x (Z.ldiff y x)) with 0 in E.
  2:{ apply Z.bits_inj'; intros i Hi. rewrite Z.land_spec, Z.ldiff_spec, Z.bits_0.
      destruct (Z.testbit x i), (Z.testbit y i); done. }
  enough (0 <= Z.ldiff y x) by lia. apply Z.ldiff_nonneg. lia.
Qed.

(** One smearing step of ToNextPowerOfTwo: bit i of [y] tells whether x has a
    bit set in a window above i, and or-ing the shifted value doubles the window. *)
Definition smeared (m x y : Z) : Prop :=
  forall i, 0 <= i -> Z.testbit y i = true <-> exists d, 0 <= d < m /\ Z.testbit x (i + d) = true.

Lemma smeared_step m x y : 0 <= m -> smeared m x y -> smeared (2 * m) x (Z.lor y (Z.shiftr y m)).
Proof.
  intros Hm H i Hi. rewrite Z.lor_spec, Z.shiftr_spec, orb_true_iff, (H i), (H (i + m)) by lia.
  split.
  - intros [(d & Hd & E)|(d & Hd & E)]; [exists d|exists (m + d)]; split; try lia;
      [done|now rewrite Z.add_assoc].
  - intros (d & Hd & E). destruct (decide (d < m)); [left; exists d; split; [lia|done]|].
    right. exists (d - m). split; [lia|]. now replace (i + m + (d - m)) with (i + d) by lia.
Qed.

Definition smear (x : Z) : Z :=
  let n := Z.lor x (Z.shiftr x 1) in
  let n := Z.lor n (Z.shiftr n 2) in
  let n := Z.lor n (Z.shiftr n 4) in
  let n := Z.lor n (Z.shiftr n 8) in
  Z.lor n (Z.shiftr n 16).

Lemma smear_bits x : smeared 32 x (smear x).
Proof.
  unfold smear.
  change 32 with (2 * 16). apply smeared_step; [lia|]. change 16 with (2 * 8) at 1.
  apply smeared_step; [lia|]. change 8 with (2 * 4) at 1.
  apply smeared_step; [lia|]. change 4 with (2 * 2) at 1.
  apply smeared_step; [lia|]. change 2 with (2 * 1) at 1.
  apply smeared_step; [lia|]. intros i Hi. split.
  - intros E. exists 0. split; [lia|]. now rewrite Z.add_0_r.
  - intros (d & Hd & E). now replace (i + d) with i in E by lia.
Qed.

Lemma smear_bounds x k : 0 < k -> 0 <= x < 2 ^ k -> x <= smear x < 2 ^ k.
Proof.
  intros Hk Hx.
  assert (Hstep : forall y d, 0 <= d -> 0 <= y < 2 ^ k ->
            y <= Z.lor y (Z.shiftr y d) /\ 0 <= Z.lor y (Z.shiftr y d) < 2 ^ k).
  { intros y d Hd Hy. assert (0 <= Z.shiftr y d <= y).
    { rewrite Z.shiftr_div_pow2 by lia. assert (0 < 2 ^ d) by (apply Z.pow_pos_nonneg; lia).
      split; [apply Z.div_pos; lia|]. apply Z.div_le_upper_bound; nia. }
    split; [apply lor_ge_l; lia|apply lor_lt_pow2; lia]. }
  unfold smear.
  destruct (Hstep x 1) as [G1 H1]; [lia..|]. destruct (Hstep _ 2 ltac:(lia) H1) as [G2 H2].
  destruct (Hstep _ 4 ltac:(lia) H2) as [G3 H3]. destruct (Hstep _ 8 ltac:(lia) H3) as [G4 H4].
  destruct (Hstep _ 16 ltac:(lia) H4) as [G5 H5]. lia.
Qed.

Lemma ToNextPowerOfTwo_smear n : 1 <= n <= max_len -> ToNextPowerOfTwo n = smear (n - 1) + 1.
Proof.
  intros Hn. unfold max_len in Hn. unfold ToNextPowerOfTwo.
  rewrite (u64_small (n - 1)) by lia. fold (smear (n - 1)).
  pose proof (smear_bounds (n - 1) 62 ltac:(lia) ltac:(lia)). rewrite u64_small; lia.
Qed.

Lemma ToNextPowerOfTwo_bounds n : 1 <= n <= max_len -> n <= ToNextPowerOfTwo n <= max_len.
Proof.
  intros Hn. rewrite ToNextPowerOfTwo_smear by done. unfold max_len in *.
  pose proof (smear_bounds (n - 1) 62 ltac:(lia) ltac:(lia)). lia.
Qed.

Lemma ToNextPowerOfTwo_0 : ToNextPowerOfTwo 0 = 0.
Proof. reflexivity. Qed.

(** ** Abstract operations *)

Definition a_align (a : AStream) : AStream :=
  mkA (a_bytes a) (if 0 <? a_sub a then a_pos a + 1 else a_pos a) 0.

(** Overwriting from the aligned cursor on. *)
Definition a_write (d : list Z) (a : AStream) : AStream :=
  let p := a_pos (a_align a) in
  mkA (ztake p (a_bytes a) ++ d ++ zdrop (p + zlength d) (a_bytes a)) (p + zlength d) 0.

Definition a_read (n : Z) (a : AStream) : list Z := ztake n (zdrop (a_pos (a_align a)) (a_bytes a)).
Definition a_skip (n : Z) (a : AStream) : AStream := mkA (a_bytes a) (a_pos (a_align a) + n) 0.

(** Moving the cursor: the sub-byte position is kept, as Seek keeps it. *)
Definition a_seek (p : Z) (a : AStream) : AStream :=
  mkA (a_bytes a) (Z.min (Z.max p 0) (zlength (a_bytes a))) (a_sub a).

(** ** The simulation, operation by operation *)

Lemma refines_nil s a : a_bytes a = [] -> m_length s = 0 -> m_position s = a_pos a -> a_pos a = 0 ->
  m_subBytePosition s = a_sub a -> a_sub a = 0 -> refines s a.
Proof. intros Hb Hl Hp Hp0 Hs Hs0. split; rewrite ?Hb in *; unfold max_len; try (done || lia || zlen). Qed.

Lemma read_backing s a off n :
  refines s a -> 0 <= off -> 0 <= n -> off + n <= zlength (a_bytes a) ->
  read_from (deref_ro s) off n = Ret (map Some (ztake n (zdrop off (a_bytes a)))).
Proof.
  intros H Hoff Hn Hle. unfold read_from. case_match eqn:E.
  - apply Z.eqb_eq in E as ->. reflexivity.
  - apply Z.eqb_neq in E. destruct (rf_cells s a H) as [slack ->].
    { intros Hnil. rewrite Hnil in Hle. zlen. }
    cbn. rewrite mem_read_ok by zlen.
    rewrite zdrop_le_app, ztake_le_app, zdrop_map, ztake_map by zlen. done.
Qed.

(** Moving the cursor keeps everything else. *)
Lemma rel_cursor w s a p k :
  rel w s a -> 0 <= p <= zlength (a_bytes a) -> 0 <= k <= 7 ->
  (0 < k -> p < zlength (a_bytes a)) ->
  rel w (set_sub k (set_position p s)) (mkA (a_bytes a) p k).
Proof.
  intros [[Hl Hc Hps Hr Hs Hsr Hsi Hby Hm] Hw] Hp Hk Hpk.
  split; [split; done|]. intros Hwr. destruct (Hw Hwr). split; done.
Qed.

Lemma set_sub_id s : set_sub (m_subBytePosition s) s = s.
Proof. now destruct s. Qed.
Lemma set_position_id s : set_position (m_position s) s = s.
Proof. now destruct s. Qed.

Lemma a_align_range s a : refines s a -> 0 <= a_pos (a_align a) <= zlength (a_bytes a).
Proof.
  intros H. pose proof (rf_range s a H). pose proof (rf_sub_in s a H). cbn.
  destruct (0 <? a_sub a) eqn:E; [apply Z.ltb_lt in E|]; lia.
Qed.

Lemma sim_Align w a : sim w Align a tt (a_align a).
Proof.
  intros s H. eexists. split; [reflexivity|]. destruct H as [H Hw].
  pose proof (a_align_range s a H) as Hr. pose proof (rf_max s a H). unfold max_len in *.
  unfold a_align in *. cbn in Hr |- *. rewrite (rf_sub s a H), (rf_pos s a H).
  destruct (0 <? a_sub a) eqn:E.
  - rewrite u64_small by lia. apply rel_cursor; [done|lia..].
  - rewrite <- (set_position_id s), (rf_pos s a H). apply rel_cursor; [done|lia..].
Qed.

Lemma writable_backing s a : refines s a -> writable s ->
  exists slack, default [] (m_buffer s) = map Some (a_bytes a) ++ slack.
Proof.
  intros H Hw. destruct (a_bytes a) as [|b bs] eqn:E; [now eexists|].
  destruct (rf_cells s a H) as [slack Hd]; [now rewrite E|]. exists slack.
  unfold deref_ro in Hd. rewrite (wr_alias s Hw), E in Hd.
  destruct (m_buffer s); cbn in *; [now injection Hd|done].
Qed.

Lemma alias_deref s : writable s ->
  deref_ro s = match m_buffer s with Some l => Ret l | None => Fail NullPointer end.
Proof. intros Hw. unfold deref_ro. rewrite (wr_alias s Hw). now destruct (m_buffer s). Qed.

Lemma sim_Reallocate a n :
  zlength (a_bytes a) <= n -> 1 <= n <= max_len ->
  forall s, rel true s a -> exists s', Reallocate n s = Ret (tt, s') /\ rel true s' a /\
    n <= m_capacity s' /\ is_Some (m_buffer s').
Proof.
  intros Hlen Hn s [H Hw]. specialize (Hw eq_refl).
  pose proof (ToNextPowerOfTwo_bounds n Hn) as Hcap. set (cap := ToNextPowerOfTwo n) in *.
  unfold Reallocate. rewrite bind_get, (wr_mode s Hw).
  replace (Z.max (ToNextPowerOfTwo n) 1) with cap by lia. cbv beta iota zeta.
  rewrite (bind_lift _ _ _ (replicate (Z.to_nat cap) None)) by (apply alloc_ok; unfold max_len in *; lia).
  destruct (writable_backing s a H Hw) as [slack Hb].
  assert (Hcopy : (match m_buffer s with
    | None => mret (replicate (Z.to_nat cap) None)
    | Some old =>
        if 0 <? Z.min (m_length s) cap
        then data ← lift (mem_read old 0 (Z.min (m_length s) cap));
             lift (mem_write (replicate (Z.to_nat cap) None) 0 data)
        else mret (replicate (Z.to_nat cap) None)
    end) s = Ret (map Some (a_bytes a) ++ replicate (Z.to_nat (cap - zlength (a_bytes a))) None, s)).
  { rewrite (rf_len s a H). replace (Z.min (zlength (a_bytes a)) cap) with (zlength (a_bytes a)) by lia.
    destruct (m_buffer s) as [old|]; cbn in Hb.
    - destruct (0 <? zlength (a_bytes a)) eqn:E.
      + subst old. rewrite (bind_lift _ _ _ (map Some (a_bytes a))).
        2:{ rewrite mem_read_ok by zlen. f_equal. now apply ztake_app_l; zlen. }
        unfold lift. rewrite mem_write_ok by zlen. f_equal. f_equal.
        rewrite ztake_0. cbn [app]. f_equal.
        unfold zdrop. rewrite drop_replicate. f_equal. zlen.
      + apply Z.ltb_ge in E. destruct (a_bytes a); [|zlen]. cbn. now rewrite Z.sub_0_r.
    - destruct (a_bytes a); [|done]. cbn. now rewrite Z.sub_0_r. }
  rewrite (bind_ret _ _ _ _ _ Hcopy). eexists. split; [reflexivity|].
  split; [split|split; cbn; [lia|eauto]].
  - destruct H as [Hl Hc Hps Hr Hs Hsr Hsi Hby Hm]. split; cbn; try done. intros _. eauto.
  - intros _. destruct Hw. split; cbn; try done; try lia; rewrite ?(rf_len s a H); zlen.
Qed.

(** Ensure: afterwards the owned array reaches n cells beyond the cursor. *)
Lemma sim_Ensure a n :
  0 <= n -> a_pos a + n <= max_len ->
  forall s, rel true s a -> exists s', Ensure n s = Ret (tt, s') /\ rel true s' a /\
    a_pos a + n <= m_capacity s' /\ (0 < n -> is_Some (m_buffer s')).
Proof.
  intros Hn Hmax s [H Hw]. pose proof (Hw eq_refl) as W.
  pose proof (rf_range s a H) as Hr. pose proof (wr_len s W) as Hl. pose proof (wr_max s W) as Hcm.
  rewrite (rf_len s a H) in Hl. unfold max_len in *.
  unfold Ensure. rewrite bind_get, (wr_mode s W). cbv beta iota.
  rewrite (rf_pos s a H), u64_small by lia. destruct (n <=? m_capacity s - a_pos a) eqn:E.
  - apply Z.leb_le in E. exists s. split; [done|]. split; [done|]. split; [lia|].
    intros Hn0. pose proof (wr_cap s W) as Hc. destruct (m_buffer s); [eauto|]. cbn in Hc.
    rewrite zlength_nil in Hc. lia.
  - apply Z.leb_gt in E. rewrite u64_small by lia.
    destruct (sim_Reallocate a (a_pos a + n)) with (s := s) as (s' & E' & H' & Hc & Hb);
      [lia|unfold max_len; lia|done|]. rewrite E'. eauto 10.
Qed.

Lemma map_Some_write (bs d : list Z) slack p :
  0 <= p <= zlength bs -> p + zlength d <= zlength (map Some bs ++ slack) ->
  exists slack', ztake p (map Some bs ++ slack) ++ map Some d ++ zdrop (p + zlength d) (map Some bs ++ slack)
    = map Some (ztake p bs ++ d ++ zdrop (p + zlength d) bs) ++ slack'.
Proof.
  intros Hp Hd. rewrite !map_app, ztake_le_app, ztake_map by zlen.
  destruct (decide (p + zlength d <= zlength bs)).
  - exists slack. rewrite zdrop_le_app, zdrop_map by zlen. now rewrite <- !app_assoc.
  - exists (zdrop (p + zlength d) (map Some bs ++ slack)).
    rewrite (zdrop_all _ bs) by lia. cbn. now rewrite app_nil_r, <- app_assoc.
Qed.

Lemma zlength_overwrite {A} (bs d : list A) p : 0 <= p <= zlength bs ->
  zlength (ztake p bs ++ d ++ zdrop (p + zlength d) bs) = Z.max (zlength bs) (p + zlength d).
Proof.
  intros Hp. destruct (decide (p + zlength d <= zlength bs)); [zlen|].
  rewrite (zdrop_all _ bs) by lia. zlen.
Qed.

(** Storing bytes through m_buffer + p and growing the length to cover them. *)
Lemma rel_store s a d p q k :
  rel true s a -> Forall is_byte d -> (d <> [] -> is_Some (m_buffer s)) ->
  0 <= p <= zlength (a_bytes a) -> p + zlength d <= m_capacity s ->
  let bs' := ztake p (a_bytes a) ++ d ++ zdrop (p + zlength d) (a_bytes a) in
  0 <= q <= zlength bs' -> 0 <= k <= 7 -> (0 < k -> q < zlength bs') ->
  exists s1, store p (map Some d) s = Ret (tt, s1) /\ m_position s1 = m_position s /\
    m_subBytePosition s1 = m_subBytePosition s /\ m_length s1 = m_length s /\
    rel true (set_length (zlength bs') (set_sub k (set_position q s1))) (mkA bs' q k).
Proof.
  intros [H Hw] Hd Hsome Hp Hcap bs' Hq Hk Hqk. pose proof (Hw eq_refl) as W.
  destruct (writable_backing s a H W) as [slack Eb].
  pose proof (wr_cap s W) as Hc. rewrite Eb in Hc. autorewrite with zlen in Hc.
  destruct (map_Some_write (a_bytes a) d slack p) as [slack' E']; [done|zlen|].
  pose proof (zlength_overwrite (a_bytes a) d p Hp) as Hlen. fold bs' in Hlen, E'.
  pose proof (wr_max s W). pose proof (rf_max s a H). pose proof (wr_len s W) as Hle.
  rewrite (rf_len s a H) in Hle.
  assert (Hz : zlength (map Some bs' ++ slack') = m_capacity s) by (rewrite <- E'; zlen).
  assert (Hby : Forall is_byte bs') by (unfold bs'; destruct H; auto with bytes).
  unfold store. rewrite bind_get. destruct (m_buffer s) as [l|] eqn:El; cbn in Eb.
  - subst l. rewrite (bind_lift _ _ _ (map Some bs' ++ slack')).
    2:{ rewrite mem_write_ok by zlen. now rewrite zlength_map, E'. }
    eexists. split; [reflexivity|]. do 3 (split; [reflexivity|]). split.
    + split; cbn; try done; try lia.
      intros _. exists slack'. unfold deref_ro. cbn. now rewrite (wr_alias s W), El.
    + intros _. destruct W. split; cbn; try done; [now rewrite wr_alias0, El|lia].
  - destruct d; [|now destruct Hsome]. exists s. split; [done|].
    do 3 (split; [reflexivity|]). symmetry in Eb. apply app_eq_nil in Eb as [Eb ->].
    apply map_eq_nil in Eb.
    assert (E0 : bs' = []) by (unfold bs', ztake, zdrop; rewrite Eb, take_nil, drop_nil; done).
    assert (m_capacity s = 0) by (rewrite <- Hc, Eb; reflexivity). clearbody bs'. subst bs'.
    destruct W. rewrite El in *. split; [split|intros _; split]; cbn; rewrite ?El; try done; try zlen.
Qed.

Lemma a_align_aligned a : a_sub a = 0 -> a_align a = a.
Proof. intros E. unfold a_align. rewrite E. cbn. rewrite <- E. now destruct a. Qed.

(** The aligned cursor leaves room for n more bytes. *)
Definition room (n : Z) (a : AStream) : Prop := a_pos (a_align a) + n <= max_len.

(** Align, Ensure, store, advance: the body WriteByte, WriteBytes and
    WriteZeroes share. *)
Lemma sim_append_body a d :
  Forall is_byte d -> room (zlength d) a ->
  sim true (s ← get;
            if m_readonly s then mret tt else
            Align;; Ensure (zlength d);;
            s ← get; store (m_position s) (map Some d);; advance (zlength d)) a tt (a_write d a).
Proof.
  intros Hd Hroom s Hs. pose proof (zlength_nonneg d).
  rewrite bind_get, (wr_mode s) by now apply Hs. cbv beta iota.
  destruct (sim_Align true a s Hs) as (s0 & E0 & H0). rewrite (bind_ret _ _ _ _ _ E0).
  destruct (sim_Ensure (a_align a) (zlength d)) with (s := s0) as (s1 & E1 & H1 & Hc & Hb); [done..|].
  rewrite (bind_ret _ _ _ _ _ E1), bind_get.
  pose proof (a_align_range s a (proj1 Hs)) as Hr.
  pose proof (zlength_overwrite (a_bytes a) d (a_pos (a_align a)) Hr) as Hlen.
  destruct (rel_store s1 (a_align a) d (a_pos (a_align a))
              (a_pos (a_align a) + zlength d) 0) as (s2 & E2 & Ep & Es & El & H2);
    [done|done|intros; apply Hb; destruct d; [done|zlen]|done|lia|cbn [a_bytes a_align]; rewrite Hlen; lia|lia|lia|].
  rewrite (rf_pos s1 _ (proj1 H1)), (bind_ret _ _ _ _ _ E2). eexists. split; [reflexivity|].
  replace (set_length _ _) with (set_length (zlength (a_bytes (a_write d a)))
    (set_sub 0 (set_position (a_pos (a_align a) + zlength d) s2))); [exact H2|].
  rewrite Ep, El, (rf_pos s1 _ (proj1 H1)), (rf_len s1 _ (proj1 H1)).
  unfold room, max_len in *. rewrite u64_small by lia. unfold a_write. cbn [a_bytes].
  rewrite Hlen. rewrite (rf_sub s1 _ (proj1 H1)) in Es. cbn in Es. destruct s2; cbn in *. now subst.
Qed.

Lemma sim_WriteBytes a d :
  Forall is_byte d -> room (zlength d) a -> sim true (WriteBytes (map Some d)) a tt (a_write d a).
Proof.
  intros Hd Hr. pose proof (sim_append_body a d Hd Hr) as H. unfold WriteBytes.
  now rewrite zlength_map.
Qed.

Lemma sim_WriteByte a b : room 1 a -> sim true (WriteByte b) a tt (a_write [u8 b] a).
Proof. intros Hr. apply (sim_append_body a [u8 b]); [auto with bytes|done]. Qed.

Lemma sim_WriteZeroes a n :
  0 <= n -> room n a -> sim true (WriteZeroes n) a tt (a_write (replicate (Z.to_nat n) 0) a).
Proof.
  intros Hn Hr. unfold WriteZeroes.
  replace (replicate (Z.to_nat n) (Some 0)) with (map Some (replicate (Z.to_nat n) 0))
    by apply (fmap_replicate Some).
  pose proof (sim_append_body a (replicate (Z.to_nat n) 0)) as H.
  rewrite zlength_replicate, Z2Nat.id in H by lia. apply H; [|done].
  apply Forall_replicate. unfold is_byte. lia.
Qed.

Lemma IsEOF_spec w s a n :
  rel w s a -> 0 <= n <= zlength (a_bytes a) ->
  IsEOF s n = (zlength (a_bytes a) - n <? a_pos a).
Proof.
  intros [H _] Hn. unfold IsEOF. rewrite (rf_len s a H), (rf_pos s a H).
  pose proof (rf_max s a H). unfold max_len in *. now rewrite u64_small by lia.
Qed.

Lemma IsEOF_false w s a n :
  rel w s a -> 0 <= n -> a_pos a + n <= zlength (a_bytes a) -> IsEOF s n = false.
Proof.
  intros H Hn Hle. pose proof (rf_range s a (proj1 H)).
  rewrite (IsEOF_spec w s a) by (done || lia). apply Z.ltb_ge. lia.
Qed.

(** Enough bytes remain past the aligned cursor. *)
Definition avail (n : Z) (a : AStream) : Prop := a_pos (a_align a) + n <= zlength (a_bytes a).

Lemma avail_unaligned n a : avail n a -> a_pos a + n <= zlength (a_bytes a).
Proof. unfold avail. cbn. destruct (0 <? a_sub a); lia. Qed.

Lemma sim_ReadBytes {host : Host} w a n :
  0 <= n -> avail n a -> sim w (ReadBytes n) a (Some (map Some (a_read n a))) (a_skip n a).
Proof.
  intros Hn Hav s Hs. unfold ReadBytes. rewrite bind_get.
  rewrite (IsEOF_false w s a) by (done || now apply avail_unaligned).
  destruct (sim_Align w a s Hs) as (s0 & E0 & H0). rewrite (bind_ret _ _ _ _ _ E0), bind_get.
  pose proof (a_align_range s a (proj1 Hs)) as Hr. unfold avail in Hav.
  rewrite (bind_lift _ _ _ (map Some (a_read n a))).
  2:{ rewrite (rf_pos s0 _ (proj1 H0)). apply (read_backing s0 (a_align a)); [apply H0|lia|lia|done]. }
  eexists. split; [reflexivity|]. rewrite (rf_pos s0 _ (proj1 H0)).
  pose proof (rf_max s a (proj1 Hs)). unfold max_len in *. rewrite u64_small by lia.
  rewrite <- (set_sub_id (set_position _ _)). cbn [m_subBytePosition set_position].
  rewrite (rf_sub s0 _ (proj1 H0)). apply (rel_cursor w s0 (a_align a)); [done|cbn in *; lia..].
Qed.

Lemma sim_read_object {host : Host} w a n :
  avail (Z.of_nat n) a ->
  sim w (read_object n) a (object_val (a_read (Z.of_nat n) a)) (a_skip (Z.of_nat n) a).
Proof.
  intros Hav. eapply sim_bind; [apply sim_ReadBytes; [lia|done]|]. cbv beta iota.
  intros s Hs. rewrite (bind_lift _ _ _ (a_read (Z.of_nat n) a)) by apply bytes_of_map. now exists s.
Qed.

Lemma a_read_length s a n : refines s a -> 0 <= n -> avail n a -> zlength (a_read n a) = n.
Proof.
  intros H Hn Hav. pose proof (a_align_range s a H). unfold a_read, avail in *.
  rewrite zlength_ztake; [done|]. rewrite zlength_zdrop; lia.
Qed.

Lemma sim_read_uint {host : Host} w a n :
  avail (Z.of_nat n) a ->
  sim w (v ← read_object n; mret (ntoh n v)) a (be_val (a_read (Z.of_nat n) a)) (a_skip (Z.of_nat n) a).
Proof.
  intros Hav s Hs. rewrite <- (ntoh_object_val n (a_read (Z.of_nat n) a)).
  - revert s Hs. eapply sim_bind; [now apply sim_read_object|apply sim_ret].
  - unfold a_read. destruct Hs as [[] _]. auto with bytes.
  - eapply a_read_length; [apply Hs|lia|done].
Qed.

Lemma sim_ReadUInt16 {host : Host} w a :
  avail 2 a -> sim w ReadUInt16 a (be_val (a_read 2 a)) (a_skip 2 a).
Proof. apply (sim_read_uint w a 2). Qed.

Lemma sim_ReadUInt32 {host : Host} w a :
  avail 4 a -> sim w ReadUInt32 a (be_val (a_read 4 a)) (a_skip 4 a).
Proof. apply (sim_read_uint w a 4). Qed.

Lemma sim_ReadByte {host : Host} w a :
  avail 1 a -> sim w ReadByte a (be_val (a_read 1 a)) (a_skip 1 a).
Proof.
  intros Hav s Hs. unfold ReadByte. rewrite bind_get.
  rewrite (IsEOF_false w s a) by (done || lia || now apply avail_unaligned).
  destruct (sim_Align w a s Hs) as (s0 & E0 & H0). rewrite (bind_ret _ _ _ _ _ E0), bind_get.
  pose proof (a_align_range s a (proj1 Hs)) as Hr.
  rewrite (bind_lift _ _ _ (map Some (a_read 1 a))).
  2:{ rewrite (rf_pos s0 _ (proj1 H0)). apply (read_backing s0 (a_align a)); [apply H0|lia|lia|done]. }
  rewrite (bind_lift _ _ _ (a_read 1 a)) by apply bytes_of_map.
  pose proof (a_read_length s a 1 (proj1 Hs) ltac:(lia) Hav) as Hlen.
  assert (Hb : Forall is_byte (a_read 1 a)) by (apply Forall_ztake, Forall_zdrop; exact (rf_bytes s a (proj1 Hs))).
  destruct (a_read 1 a) as [|b [|? ?]]; [zlen| |zlen]. inversion_clear Hb as [|? ? Hb1 _].
  eexists. split; [cbn; rewrite Z.mul_1_r, Z.add_0_r, (u8_small b Hb1); reflexivity|]. rewrite (rf_pos s0 _ (proj1 H0)).
  pose proof (rf_max s a (proj1 Hs)). unfold max_len, avail in *. rewrite u64_small by lia.
  rewrite <- (set_sub_id (set_position _ _)). cbn [m_subBytePosition set_position].
  rewrite (rf_sub s0 _ (proj1 H0)). apply (rel_cursor w s0 (a_align a)); [done|cbn in *; lia..].
Qed.

(** ** Single bits *)

Definition cur_byte (a : AStream) : Z :=
  if a_sub a =? 0 then 0 else default 0 (a_bytes a !! Z.to_nat (a_pos a)).

Definition with_bit (b : bool) (a : AStream) : Z :=
  if b then Z.lor (cur_byte a) (Z.shiftr 128 (a_sub a)) else cur_byte a.

Definition next_bit (a : AStream) : Z * Z :=
  if 7 <? a_sub a + 1 then (a_pos a + 1, 0) else (a_pos a, a_sub a + 1).

Definition a_write_bool (b : bool) (a : AStream) : AStream :=
  mkA (ztake (a_pos a) (a_bytes a) ++ [with_bit b a] ++ zdrop (a_pos a + 1) (a_bytes a))
      (fst (next_bit a)) (snd (next_bit a)).

Definition a_read_bool (a : AStream) : bool :=
  negb (Z.land (default 0 (a_bytes a !! Z.to_nat (a_pos a))) (Z.shiftr 128 (a_sub a)) =? 0).

Definition a_next_bit (a : AStream) : AStream := mkA (a_bytes a) (fst (next_bit a)) (snd (next_bit a)).

Lemma ztake_1_zdrop {A} (l : list A) p x : 0 <= p ->
  l !! Z.to_nat p = Some x -> ztake 1 (zdrop p l) = [x] /\ l = ztake p l ++ [x] ++ zdrop (p + 1) l.
Proof.
  intros Hp H. unfold ztake, zdrop. replace (Z.to_nat (p + 1)) with (S (Z.to_nat p)) by lia.
  rewrite (drop_S _ _ _ H). change (Z.to_nat 1) with 1%nat. split; [reflexivity|].
  cbn [app]. symmetry. rewrite <- (drop_S _ _ _ H). apply take_drop.
Qed.

Lemma lookup_map_Some (bs : list Z) (slack : list cell) i x :
  bs !! i = Some x -> (map Some bs ++ slack) !! i = Some (Some x).
Proof.
  intros H. apply lookup_app_l_Some. change (map Some bs) with (Some <$> bs).
  now rewrite list_lookup_fmap, H.
Qed.

Lemma bit_byte_range a b : Forall is_byte (a_bytes a) -> 0 <= a_sub a <= 7 -> is_byte (with_bit b a).
Proof.
  intros Hb Hs. assert (Hc : is_byte (cur_byte a)).
  { unfold cur_byte, is_byte. destruct (a_sub a =? 0); [lia|].
    destruct (a_bytes a !! Z.to_nat (a_pos a)) eqn:E; cbn; [|lia].
    exact (Forall_lookup_1 _ _ _ _ Hb E). }
  unfold with_bit. destruct b; [|done]. unfold is_byte in *.
  apply (lor_lt_pow2 _ _ 8); [lia|cbn; lia|]. rewrite Z.shiftr_div_pow2 by lia.
  assert (1 <= 2 ^ a_sub a) by (apply (Z.pow_le_mono_r 2 0); lia). change (2 ^ 8) with 256.
  split; [apply Z.div_pos; lia|]. apply Z.div_lt_upper_bound; nia.
Qed.

(** Rewriting one cell of the array twice, or with its own content. *)
Lemma mem_write_twice l p (x y : cell) : 0 <= p -> p + 1 <= zlength l ->
  mem_write (ztake p l ++ [x] ++ zdrop (p + 1) l) p [y]
    = Ret (ztake p l ++ [y] ++ zdrop (p + 1) l) /\
  mem_read (ztake p l ++ [x] ++ zdrop (p + 1) l) p 1 = Ret [x].
Proof.
  intros Hp Hl. rewrite mem_write_ok, mem_read_ok by zlen. split.
  - rewrite ztake_app_l by zlen. do 3 f_equal. rewrite app_assoc, zdrop_app_l by zlen. done.
  - rewrite zdrop_app_l by zlen. done.
Qed.

(** The two conditional stores of WriteBool amount to one store of the new byte. *)
Lemma write_bool_stores s a b l slack :
  refines s a -> m_buffer s = Some l -> l = map Some (a_bytes a) ++ slack ->
  a_pos a + 1 <= zlength l ->
  forall s', store (a_pos a) [Some (with_bit b a)] s = Ret (tt, s') ->
  exists s1, (if m_subBytePosition s =? 0 then store (m_position s) [Some 0] else mret tt) s = Ret (tt, s1) /\
    m_position s1 = a_pos a /\ m_subBytePosition s1 = a_sub a /\
    (if b then
       old ← lift (read_from (match m_buffer s1 with Some l => Ret l | None => Fail NullPointer end)
                             (m_position s1) 1);
       old ← lift (bytes_of old);
       store (m_position s1) (map (fun v => Some (Z.lor v (Z.shiftr 128 (m_subBytePosition s1)))) old)
     else mret tt) s1 = Ret (tt, s').
Proof.
  intros H El -> Hcap s'. pose proof (rf_range s a H) as Hr.
  rewrite (rf_sub s a H), (rf_pos s a H). unfold with_bit, cur_byte.
  set (l := map Some (a_bytes a) ++ slack) in *.
  destruct (mem_write_twice l (a_pos a) (Some 0) (Some (Z.lor 0 (Z.shiftr 128 (a_sub a))))) as [Hw Hrd]; [lia..|].
  destruct (a_sub a =? 0) eqn:E.
  - assert (Est : forall x, store (a_pos a) [x] s =
      Ret (tt, set_buffer (Some (ztake (a_pos a) l ++ [x] ++ zdrop (a_pos a + 1) l)) s)).
    { intros x. unfold store. rewrite bind_get, El.
      rewrite (bind_lift _ _ _ (ztake (a_pos a) l ++ [x] ++ zdrop (a_pos a + 1) l)); [done|].
      rewrite mem_write_ok by zlen. done. }
    rewrite !Est. intros [= <-]. eexists. split; [reflexivity|].
    split; [apply (rf_pos s a H)|]. split; [apply (rf_sub s a H)|].
    destruct b; [|done]. cbn [set_buffer m_position m_buffer m_subBytePosition].
    rewrite (rf_pos s a H), (rf_sub s a H). unfold read_from. cbn [Z.eqb mbind outcome_bind].
    rewrite (bind_lift _ _ _ _ Hrd), (bind_lift _ _ _ [0]) by done.
    unfold store. rewrite bind_get. cbn [set_buffer m_buffer map]. now rewrite (bind_lift _ _ _ _ Hw).
  - apply Z.eqb_neq in E. pose proof (rf_sub_in s a H) as Hin. pose proof (rf_sub_range s a H).
    destruct (a_bytes a !! Z.to_nat (a_pos a)) as [x|] eqn:Ex.
    2:{ apply lookup_ge_None_1 in Ex. unfold zlength in *. lia. }
    destruct (ztake_1_zdrop l (a_pos a) (Some x)) as [E1 E2]; [lia|now apply lookup_map_Some|].
    intros Hs. exists s. split; [done|]. split; [apply (rf_pos s a H)|]. split; [apply (rf_sub s a H)|].
    cbn [default] in Hs. destruct b.
    + rewrite El, (rf_pos s a H), (rf_sub s a H). unfold read_from. cbn [Z.eqb mbind outcome_bind].
      rewrite (bind_lift _ _ _ [Some x]) by (rewrite mem_read_ok by zlen; now rewrite E1).
      now rewrite (bind_lift _ _ _ [x]).
    + rewrite <- Hs. unfold store. rewrite bind_get, El.
      rewrite (bind_lift _ _ _ l); [destruct s; cbn in *; now subst|].
      rewrite mem_write_ok by zlen. now rewrite E2 at 3.
Qed.

Lemma sim_WriteBool {host : Host} a b :
  a_pos a + 1 <= max_len -> sim true (WriteBool b) a tt (a_write_bool b a).
Proof.
  intros Hmax s Hs. unfold WriteBool. rewrite bind_get, (wr_mode s) by now apply Hs. cbv beta iota.
  destruct (sim_Ensure a 1) with (s := s) as (s1 & E1 & H1 & Hc & Hb); [lia|done|done|].
  rewrite (bind_ret _ _ _ _ _ E1), bind_get.
  pose proof (rf_range s a (proj1 Hs)) as Hr. pose proof (rf_sub_range s a (proj1 Hs)) as Hsr.
  pose proof (rf_bytes s a (proj1 Hs)) as Hby.
  pose proof (zlength_overwrite (a_bytes a) [with_bit b a] (a_pos a) Hr) as Hlen.
  change (zlength [with_bit b a]) with 1 in Hlen.
  destruct (rel_store s1 a [with_bit b a] (a_pos a) (fst (next_bit a)) (snd (next_bit a)))
    as (s2 & E2 & Ep & Es & El & H2); try done; [|intros _; apply Hb; lia| | | |].
  1:{ auto using Forall_cons_2, bit_byte_range with bytes. }
  1-3: change (zlength [with_bit b a]) with 1; rewrite ?Hlen; unfold next_bit;
       destruct (7 <? a_sub a + 1) eqn:E7; cbn; try apply Z.ltb_ge in E7; lia.
  destruct (Hb ltac:(lia)) as [l Ebuf].
  destruct (writable_backing s1 a (proj1 H1) (proj2 H1 eq_refl)) as [slack Eb]. rewrite Ebuf in Eb.
  pose proof (wr_cap s1 (proj2 H1 eq_refl)) as Hcap. rewrite Ebuf in Hcap. cbn in Eb, Hcap.
  destruct (write_bool_stores s1 a b l slack (proj1 H1) Ebuf Eb ltac:(lia) s2 E2) as (s3 & E3 & Ep3 & Es3 & E4).
  rewrite (bind_ret _ _ _ _ _ E3), bind_get, (bind_ret _ _ _ _ _ E4). eexists. split; [reflexivity|].
  cbn [map] in H2. change (zlength [with_bit b a]) with 1 in H2. unfold a_write_bool, next_bit in *.
  rewrite (rf_pos s1 a (proj1 H1)) in Ep. rewrite (rf_sub s1 a (proj1 H1)) in Es.
  rewrite (rf_len s1 a (proj1 H1)) in El. rewrite Ep, Es, El.
  unfold max_len in Hmax. rewrite u64_small by lia. rewrite Hlen in H2.
  destruct (7 <? a_sub a + 1); cbn in *; destruct s2; cbn in *; now subst.
Qed.

Lemma sim_ReadBool {host : Host} w a :
  a_pos a + 1 <= zlength (a_bytes a) -> sim w ReadBool a (a_read_bool a) (a_next_bit a).
Proof.
  intros Hle s Hs. unfold ReadBool. rewrite bind_get, (IsEOF_false w s a) by (done || lia).
  pose proof (rf_range s a (proj1 Hs)) as Hr. pose proof (rf_sub_range s a (proj1 Hs)) as Hsr.
  destruct (a_bytes a !! Z.to_nat (a_pos a)) as [x|] eqn:Ex.
  2:{ apply lookup_ge_None_1 in Ex. unfold zlength in *. lia. }
  destruct (ztake_1_zdrop (a_bytes a) (a_pos a) x) as [E1 _]; [lia|done|].
  rewrite (bind_lift _ _ _ [Some x]).
  2:{ rewrite (rf_pos s a (proj1 Hs)), (read_backing s a) by (apply Hs || lia). now rewrite E1. }
  rewrite (bind_lift _ _ _ [x]) by done. cbn [head default].
  unfold a_read_bool. rewrite Ex, (rf_sub s a (proj1 Hs)). cbn [default]. eexists. split; [reflexivity|].
  rewrite (rf_sub s a (proj1 Hs)), (rf_pos s a (proj1 Hs)). unfold a_next_bit, next_bit.
  pose proof (rf_max s a (proj1 Hs)). unfold max_len in *. rewrite u64_small by lia.
  destruct (7 <? a_sub a + 1) eqn:E7; [|apply Z.ltb_ge in E7]; cbn.
  - change (set_position ?p (set_sub ?k s)) with (set_sub k (set_position p s)).
    apply rel_cursor; [done|lia..].
  - rewrite <- (set_position_id s) at 1. rewrite (rf_pos s a (proj1 Hs)).
    apply rel_cursor; [done|lia..].
Qed.

Lemma sim_Seek w a p : a_sub a = 0 -> sim w (Seek p) a tt (a_seek p a).
Proof.
  intros E s Hs. eexists. split; [reflexivity|]. rewrite (rf_len s a (proj1 Hs)).
  pose proof (rf_range s a (proj1 Hs)). unfold a_seek.
  rewrite <- (set_sub_id (set_position _ s)). cbn [m_subBytePosition set_position].
  rewrite (rf_sub s a (proj1 Hs)). apply rel_cursor; [done|lia..].
Qed.

Lemma sim_SeekToEnd w a : a_sub a = 0 -> sim w SeekToEnd a tt (a_seek (zlength (a_bytes a)) a).
Proof.
  intros E. apply sim_get. intros s Hs. rewrite (rf_len s a (proj1 Hs)). now apply sim_Seek.
Qed.

Lemma sim_Skip w a n : 0 <= n -> a_sub a = 0 -> a_pos a + n <= zlength (a_bytes a) ->
  sim w (Skip n) a true (mkA (a_bytes a) (a_pos a + n) 0).
Proof.
  intros Hn E Hle s Hs. unfold Skip. rewrite bind_get, (IsEOF_false w s a) by done.
  eexists. split; [reflexivity|]. rewrite (rf_pos s a (proj1 Hs)).
  pose proof (rf_range s a (proj1 Hs)). pose proof (rf_max s a (proj1 Hs)). unfold max_len in *.
  rewrite u64_small by lia. rewrite <- (set_sub_id (set_position _ s)).
  cbn [m_subBytePosition set_position]. rewrite (rf_sub s a (proj1 Hs)), E.
  apply rel_cursor; [done|lia..].
Qed.

(** ** Cursor forms

    [at_end bs]: writing at the end of bs; [at_bits bs bits]: in the middle of
    a flag byte; [cursor p r]: reading, p consumed and r left. *)

Definition at_end (bs : list Z) : AStream := mkA bs (zlength bs) 0.
Definition cursor (p r : list Z) : AStream := mkA (p ++ r) (zlength p) 0.

Fixpoint pack_from (i : Z) (bits : list bool) : Z :=
  match bits with
  | [] => 0
  | b :: r => Z.lor (if b then Z.shiftr 128 i else 0) (pack_from (i + 1) r)
  end.
Definition pack (bits : list bool) : Z := pack_from 0 bits.

Definition at_bits (bs : list Z) (bits : list bool) : AStream :=
  mkA (bs ++ [pack bits]) (zlength bs) (zlength bits).

Lemma a_write_end bs d : a_write d (at_end bs) = at_end (bs ++ d).
Proof.
  unfold a_write, at_end. cbn. rewrite ztake_all, zdrop_all, app_nil_r, zlength_app by zlen. done.
Qed.

Lemma a_write_bits bs bits d : 0 < zlength bits ->
  a_write d (at_bits bs bits) = at_end (bs ++ [pack bits] ++ d).
Proof.
  intros H. unfold a_write, at_bits, at_end. cbn [a_align a_bytes a_pos a_sub].
  rewrite (proj2 (Z.ltb_lt _ _) H), (ztake_all _ (bs ++ _)), zdrop_all by zlen.
  rewrite app_nil_r, <- app_assoc. f_equal; zlen.
Qed.

Lemma pack_from_app i bits b : pack_from i (bits ++ [b]) =
  Z.lor (pack_from i bits) (if b then Z.shiftr 128 (i + zlength bits) else 0).
Proof.
  revert i. induction bits as [|c r IH]; intros i; cbn [pack_from app].
  - change (zlength (@nil bool)) with 0. rewrite Z.add_0_r, Z.lor_0_r. reflexivity.
  - rewrite IH, Z.lor_assoc, zlength_cons. do 2 f_equal. destruct b; [f_equal; lia|done].
Qed.

Lemma a_write_bool_first bs b : a_write_bool b (at_end bs) = at_bits bs [b].
Proof.
  unfold a_write_bool, at_end, at_bits, with_bit, cur_byte, next_bit. cbn [a_sub a_pos a_bytes].
  rewrite ztake_all, zdrop_all by zlen. now destruct b.
Qed.

Lemma lookup_cursor {A} (p : list A) x r : (p ++ x :: r) !! Z.to_nat (zlength p) = Some x.
Proof. unfold zlength. rewrite Nat2Z.id. now apply list_lookup_middle. Qed.

Lemma a_write_bool_next bs bits b : 0 < zlength bits < 7 ->
  a_write_bool b (at_bits bs bits) = at_bits bs (bits ++ [b]).
Proof.
  intros H. unfold a_write_bool, at_bits, with_bit, cur_byte, next_bit. cbn [a_sub a_pos a_bytes].
  rewrite (proj2 (Z.eqb_neq (zlength bits) 0)) by lia.
  rewrite (proj2 (Z.ltb_ge 7 (zlength bits + 1))) by lia. cbn [fst snd].
  rewrite ztake_app_l, zdrop_all by zlen. rewrite lookup_cursor. cbn [default]. unfold pack. rewrite pack_from_app, Z.add_0_l. rewrite zlength_app. cbn [app].
  destruct b; [done|]. now rewrite Z.lor_0_r.
Qed.

Definition roomy (n : Z) (bs : list Z) : Prop := zlength bs + n <= max_len.

(** Where an append-mode write may start: at the end, or inside the last,
    partly filled flag byte, which it leaves as it is. *)
Inductive appending : AStream -> list Z -> Prop :=
  | app_end bs : appending (at_end bs) bs
  | app_bits bs bits : 0 < zlength bits -> appending (at_bits bs bits) (bs ++ [pack bits]).

Lemma a_write_appending a bs d : appending a bs -> a_write d a = at_end (bs ++ d).
Proof.
  intros [?|? bits Hb]; [apply a_write_end|].
  rewrite a_write_bits by done. now rewrite <- app_assoc.
Qed.

Lemma room_appending a bs n : appending a bs -> roomy n bs -> room n a.
Proof.
  intros [?|? bits Hb]; unfold roomy, room; cbn; [done|].
  rewrite (proj2 (Z.ltb_lt _ _) Hb). zlen.
Qed.

Lemma sim_app_bytes a bs d : appending a bs -> Forall is_byte d -> roomy (zlength d) bs ->
  sim true (WriteBytes (map Some d)) a tt (at_end (bs ++ d)).
Proof.
  intros Ha Hd Hr. rewrite <- (a_write_appending a) by done.
  apply sim_WriteBytes; [done|]. eauto using room_appending.
Qed.

Lemma sim_app_byte a bs b : appending a bs -> roomy 1 bs ->
  sim true (WriteByte b) a tt (at_end (bs ++ [u8 b])).
Proof.
  intros Ha Hr. rewrite <- (a_write_appending a) by done.
  apply sim_WriteByte. eauto using room_appending.
Qed.

Section IntWriters.
Context {host : Host}.

Lemma sim_app_int16 a bs v : appending a bs -> roomy 2 bs ->
  sim true (WriteInt16 v) a tt (at_end (bs ++ be_bytes 2 v)).
Proof.
  intros Ha Hr. unfold WriteInt16. rewrite object_bytes_hton.
  unfold u16. change 65536 with (2 ^ (8 * Z.of_nat 2)). rewrite be_bytes_mod by lia.
  apply sim_app_bytes; auto with bytes.
Qed.

Lemma sim_app_int32 a bs v : appending a bs -> roomy 4 bs ->
  sim true (WriteInt32 v) a tt (at_end (bs ++ be_bytes 4 v)).
Proof.
  intros Ha Hr. unfold WriteInt32. rewrite object_bytes_hton.
  unfold u32. change 4294967296 with (2 ^ (8 * Z.of_nat 4)). rewrite be_bytes_mod by lia.
  apply sim_app_bytes; auto with bytes.
Qed.

Lemma IsLittleEndian_spec : IsLittleEndian = little_endian.
Proof. unfold IsLittleEndian, hton. now destruct little_endian. Qed.

Lemma land_u32 x : Z.land x 4294967295 = u32 x.
Proof. change 4294967295 with (Z.ones 32). now rewrite Z.land_ones. Qed.

(** WriteInt64 emits the same eight bytes on either kind of host. *)
Lemma sim_app_int64 a bs v : appending a bs -> roomy 8 bs ->
  sim true (WriteInt64 v) a tt (at_end (bs ++ be_bytes 8 v)).
Proof.
  intros Ha Hr. unfold WriteInt64. rewrite IsLittleEndian_spec, !land_u32.
  replace (be_bytes 8 v) with (be_bytes 8 (u64 v)) by (unfold u64; apply (be_bytes_mod 8 8); lia).
  unfold roomy in *. destruct little_endian eqn:Hle.
  - rewrite <- (be_bytes_app_32 (u64 v)), app_assoc.
    eapply sim_bind; [apply sim_app_int32; [done|unfold roomy; lia]|].
    apply sim_app_int32; [constructor|unfold roomy; zlen].
  - unfold object_bytes. rewrite Hle. apply sim_app_bytes; auto with bytes.
Qed.

Lemma sim_app_bool_first bs b : roomy 1 bs -> sim true (WriteBool b) (at_end bs) tt (at_bits bs [b]).
Proof. intros Hr. rewrite <- a_write_bool_first. now apply sim_WriteBool. Qed.

Lemma sim_app_bool_next bs bits b : roomy 1 bs -> 0 < zlength bits < 7 ->
  sim true (WriteBool b) (at_bits bs bits) tt (at_bits bs (bits ++ [b])).
Proof. intros Hr Hb. rewrite <- a_write_bool_next by done. now apply sim_WriteBool. Qed.
End IntWriters.

(** ** Reading forms: p consumed, the next bytes first in r. *)

(** A read that may start inside a flag byte, which is skipped. *)
Inductive reading : AStream -> list Z -> list Z -> Prop :=
  | rd_cursor p r : reading (cursor p r) p r
  | rd_bits p b r k : 0 < k < 8 -> reading (mkA (p ++ b :: r) (zlength p) k) (p ++ [b]) r.

Lemma reading_align a p r : reading a p r ->
  a_bytes a = p ++ r /\ a_pos (a_align a) = zlength p.
Proof.
  intros [?|? ? ? k Hk]; cbn; [done|].
  rewrite (proj2 (Z.ltb_lt 0 k)), <- app_assoc by lia. split; [done|zlen].
Qed.

Lemma reading_avail a p r n : reading a p r -> n <= zlength r -> avail n a.
Proof. intros H Hn. destruct (reading_align _ _ _ H) as [E1 E2]. unfold avail. rewrite E1, E2. zlen. Qed.

Lemma reading_read a p d r n : reading a p (d ++ r) -> n = zlength d -> a_read n a = d.
Proof.
  intros H ->. destruct (reading_align _ _ _ H) as [E1 E2]. unfold a_read. rewrite E1, E2.
  now rewrite zdrop_app_l, ztake_app_l.
Qed.

Lemma reading_skip a p d r n : reading a p (d ++ r) -> n = zlength d -> a_skip n a = cursor (p ++ d) r.
Proof.
  intros H ->. destruct (reading_align _ _ _ H) as [E1 E2]. unfold a_skip, cursor. rewrite E1, E2.
  rewrite app_assoc. f_equal. zlen.
Qed.

Section IntReaders.
Context {host : Host} (w : bool).

Lemma sim_rd_bytes a p d r n : reading a p (d ++ r) -> n = zlength d ->
  sim w (ReadBytes n) a (Some (map Some d)) (cursor (p ++ d) r).
Proof.
  intros H ->. pose proof (sim_ReadBytes w a (zlength d)) as Hs.
  rewrite (reading_read a p d r), (reading_skip a p d r) in Hs by done.
  apply Hs; [apply zlength_nonneg|]. eapply reading_avail; [done|zlen].
Qed.

Lemma sim_rd_byte a p b r : reading a p (b :: r) -> sim w ReadByte a b (cursor (p ++ [b]) r).
Proof.
  intros H s0 Hs0. change (b :: r) with ([b] ++ r) in H. pose proof (sim_ReadByte w a) as Hs.
  assert (Hb : Forall is_byte (a_read 1 a)) by (apply Forall_ztake, Forall_zdrop; exact (rf_bytes s0 a (proj1 Hs0))).
  rewrite (reading_read a p [b] r) in Hs, Hb by done. rewrite (reading_skip a p [b] r) in Hs by done. inversion_clear Hb as [|? ? Hb1 _].
  replace (be_val [b]) with b in Hs by (cbn; now rewrite Z.mul_1_r, Z.add_0_r, (u8_small b Hb1)).
  apply Hs; [|done]. eapply reading_avail; [done|zlen].
Qed.

Lemma sim_rd_uint16 a p v r : reading a p (be_bytes 2 v ++ r) ->
  sim w ReadUInt16 a (u16 v) (cursor (p ++ be_bytes 2 v) r).
Proof.
  intros H. pose proof (sim_ReadUInt16 w a) as Hs.
  rewrite (reading_read a p (be_bytes 2 v) r), (reading_skip a p (be_bytes 2 v) r) in Hs by done.
  rewrite be_val_bytes in Hs. apply Hs. eapply reading_avail; [done|zlen].
Qed.

Lemma sim_rd_uint32 a p v r : reading a p (be_bytes 4 v ++ r) ->
  sim w ReadUInt32 a (u32 v) (cursor (p ++ be_bytes 4 v) r).
Proof.
  intros H. pose proof (sim_ReadUInt32 w a) as Hs.
  rewrite (reading_read a p (be_bytes 4 v) r), (reading_skip a p (be_bytes 4 v) r) in Hs by done.
  rewrite be_val_bytes in Hs. apply Hs. eapply reading_avail; [done|zlen].
Qed.

Lemma lor_hi_lo v : Z.lor (u64 (Z.shiftl (u32 (Z.shiftr (u64 v) 32)) 32)) (u32 (u64 v)) = u64 v.
Proof.
  pose proof (u64_range v) as Hr. set (x := u64 v) in *.
  rewrite (u32_small (Z.shiftr x 32)).
  2:{ rewrite Z.shiftr_div_pow2 by lia. change (2 ^ 32) with 4294967296. split; [apply Z.div_pos; lia|].
      apply Z.div_lt_upper_bound; lia. }
  rewrite u64_small.
  2:{ rewrite Z.shiftl_mul_pow2, Z.shiftr_div_pow2 by lia. change (2 ^ 32) with 4294967296.
      Z.div_mod_to_equations. lia. }
  unfold u32. change 4294967296 with (2 ^ 32). rewrite <- Z.land_ones by lia.
  apply Z.bits_inj'; intros i Hi. rewrite Z.lor_spec, Z.land_spec.
  destruct (decide (i < 32)).
  - rewrite Z.shiftl_spec_low, Z.ones_spec_low by lia. now rewrite andb_true_r.
  - rewrite Z.shiftl_spec, Z.shiftr_spec, Z.ones_spec_high by lia.
    rewrite andb_false_r, orb_false_r. f_equal. lia.
Qed.

(** ReadUInt64 inverts WriteInt64 when the left operand of [|] is read first. *)
Lemma sim_rd_uint64 a p v r : or_left_first = true -> reading a p (be_bytes 8 v ++ r) ->
  sim w ReadUInt64 a (u64 v) (cursor (p ++ be_bytes 8 v) r).
Proof.
  intros Ho H. unfold ReadUInt64. rewrite IsLittleEndian_spec, Ho. destruct little_endian eqn:Hle.
  - replace (be_bytes 8 v) with (be_bytes 8 (u64 v)) in * by (apply (be_bytes_mod 8 8); lia).
    rewrite <- (be_bytes_app_32 (u64 v)) in *. rewrite <- app_assoc in H.
    eapply sim_bind; [apply sim_rd_uint32; exact H|].
    eapply sim_bind; [apply sim_rd_uint32; constructor|]. rewrite app_assoc.
    rewrite (u32_small (u32 (Z.shiftr _ _))), (u32_small (u32 (u64 v))) by apply u32_range.
    rewrite lor_hi_lo. apply sim_ret.
  - pose proof (sim_read_object w a 8) as Hs.
    rewrite (reading_read a p (be_bytes 8 v) r), (reading_skip a p (be_bytes 8 v) r) in Hs by done.
    unfold object_val in Hs. rewrite Hle, be_val_bytes in Hs. apply Hs.
    eapply reading_avail; [done|zlen].
Qed.

Lemma sim_rd_bool a p b r k : 0 <= k <= 7 -> a = mkA (p ++ b :: r) (zlength p) k ->
  sim w ReadBool a (negb (Z.land b (Z.shiftr 128 k) =? 0))
    (if 7 <? k + 1 then cursor (p ++ [b]) r else mkA (p ++ b :: r) (zlength p) (k + 1)).
Proof.
  intros Hk ->. pose proof (sim_ReadBool w (mkA (p ++ b :: r) (zlength p) k)) as H.
  unfold a_read_bool, a_next_bit, next_bit in H. cbn [a_bytes a_pos a_sub] in H.
  rewrite lookup_cursor in H. cbn [default] in H.
  destruct (7 <? k + 1); cbn [fst snd] in H; [|apply H; zlen].
  unfold cursor. rewrite <- app_assoc, zlength_app. apply H. zlen.
Qed.
End IntReaders.
