(* ===== verification/StreamCodec.v ===== *)
(** * StreamCodec: variable-length integers, strings and fresh streams

    The simulation lemmas for the 7-bit encoding and the length-prefixed strings
    of BinaryStream, for its constructors, and for stores through its buffer
    pointer. *)

From stdpp Require Import base tactics list list_numbers numbers option.
From Stdlib Require Import ZArith Lia.
From S2P Require Import Prelude Memory BinaryStream StreamSpec.

Open Scope Z_scope.

(** The bytes of the 7-bit encoding of [raw]. *)
Fixpoint enc7 (fuel : nat) (raw : Z) : list Z :=
  match fuel with
  | O => []
  | S fuel =>
      let hi := Z.shiftr raw 7 in
      if 0 <? hi then Z.lor (Z.land raw 127) 128 :: enc7 fuel hi else [Z.land raw 127]
  end.

Lemma land_127 x : Z.land x 127 = x mod 128.
Proof. change 127 with (Z.ones 7). now rewrite Z.land_ones. Qed.

Lemma shiftr_7 x : Z.shiftr x 7 = x / 128.
Proof. now rewrite Z.shiftr_div_pow2. Qed.

Lemma low7_bits m : 0 <= m < 128 ->
  Z.land (Z.lor m 128) 127 = m /\ Z.land (Z.lor m 128) 128 = 128 /\ Z.land m 127 = m /\
  Z.land m 128 = 0 /\ Z.lor m 128 = m + 128.
Proof.
  intros Hm.
  assert (E : forallb (fun n => let m := Z.of_nat n in
      (Z.land (Z.lor m 128) 127 =? m) && (Z.land (Z.lor m 128) 128 =? 128) && (Z.land m 127 =? m)
      && (Z.land m 128 =? 0) && (Z.lor m 128 =? m + 128)) (seq 0 128) = true) by (vm_compute; reflexivity).
  rewrite forallb_forall in E. specialize (E (Z.to_nat m)).
  rewrite Z2Nat.id in E by lia. specialize (E ltac:(apply in_seq; lia)).
  repeat (apply andb_prop in E as [E ?]). repeat split; now apply Z.eqb_eq.
Qed.

Lemma split7 raw : 0 <= raw -> Z.lor (Z.land raw 127) (Z.shiftl (Z.shiftr raw 7) 7) = raw.
Proof.
  intros H. change 127 with (Z.ones 7). apply Z.bits_inj'; intros i Hi.
  rewrite Z.lor_spec, Z.land_spec. destruct (decide (i < 7)).
  - rewrite Z.ones_spec_low, Z.shiftl_spec_low by lia. now rewrite andb_true_r, orb_false_r.
  - rewrite Z.ones_spec_high, Z.shiftl_spec, Z.shiftr_spec by lia. rewrite andb_false_r. cbn. f_equal. lia.
Qed.

Lemma enc7_bytes n raw : 0 <= raw -> Forall is_byte (enc7 n raw).
Proof.
  revert raw. induction n as [|n IH]; intros raw Hr; cbn [enc7]; [constructor|].
  pose proof (Z.mod_pos_bound raw 128 ltac:(lia)). destruct (low7_bits (raw mod 128)) as (_ & _ & _ & _ & E); [lia|].
  rewrite land_127, shiftr_7. destruct (0 <? raw / 128).
  - constructor; [unfold is_byte; lia|]. apply IH. apply Z.div_pos; lia.
  - repeat constructor; unfold is_byte; lia.
Qed.

Lemma enc7_length n raw : zlength (enc7 n raw) <= Z.of_nat n.
Proof.
  revert raw. induction n as [|n IH]; intros raw; cbn [enc7]; [done|].
  specialize (IH (Z.shiftr raw 7)). destruct (0 <? Z.shiftr raw 7); zlen.
Qed.

Section Varint.
Context {host : Host}.

Lemma sim_write7_loop n a bs raw :
  0 <= raw < 2 ^ (7 * Z.of_nat n) -> (0 < n)%nat -> appending a bs -> roomy (Z.of_nat n) bs ->
  sim true (write7_loop n raw) a tt (at_end (bs ++ enc7 n raw)).
Proof.
  revert a bs raw. induction n as [|n IH]; intros a bs raw Hraw Hn Ha Hroom; [lia|].
  cbn [write7_loop enc7]. pose proof (Z.mod_pos_bound raw 128 ltac:(lia)) as Hm.
  destruct (low7_bits (raw mod 128) Hm) as (_ & _ & _ & _ & E).
  replace (7 * Z.of_nat (S n)) with (7 + 7 * Z.of_nat n) in Hraw by lia.
  rewrite Z.pow_add_r in Hraw by lia. change (2 ^ 7) with 128 in Hraw.
  rewrite land_127, shiftr_7. destruct (0 <? raw / 128) eqn:Eh.
  - apply Z.ltb_lt in Eh. unfold roomy in *.
    eapply sim_bind; [apply sim_app_byte; [done|unfold roomy; lia]|]. rewrite u8_small by lia.
    rewrite (app_snoc_cons _ _ (enc7 _ _)). apply IH; [|destruct n; [cbn in Hraw; Z.div_mod_to_equations; lia|lia]|constructor|unfold roomy; zlen].
    split; [lia|]. apply Z.div_lt_upper_bound; lia.
  - eapply sim_bind; [apply sim_app_byte; [done|unfold roomy in *; lia]|]. rewrite u8_small by lia.
    apply sim_ret.
Qed.

Lemma sim_read7_loop w n a p raw r i output :
  reading a p (enc7 n raw ++ r) -> 0 <= raw < 2 ^ (7 * Z.of_nat n) -> (0 < n)%nat ->
  0 <= i -> raw * 2 ^ (7 * i) < 4294967296 ->
  sim w (read7_loop n i output) a (Z.lor output (Z.shiftl raw (7 * i))) (cursor (p ++ enc7 n raw) r).
Proof.
  revert a p raw i output. induction n as [|n IH]; intros a p raw i output Ha Hraw Hn Hi Hb; [lia|].
  cbn [read7_loop enc7] in *. pose proof (Z.mod_pos_bound raw 128 ltac:(lia)) as Hm.
  pose proof (split7 raw ltac:(lia)) as Hsplit. rewrite land_127, shiftr_7 in *.
  destruct (low7_bits (raw mod 128) Hm) as (L1 & L2 & L3 & L4 & L5).
  assert (0 < 2 ^ (7 * i)) as Hp by (apply Z.pow_pos_nonneg; lia).
  assert (Hpart : (4294967296 <=? Z.shiftl (raw mod 128) (7 * i)) = false).
  { apply Z.leb_gt. rewrite Z.shiftl_mul_pow2 by lia. pose proof (Z.mod_le raw 128). nia. }
  replace (7 * Z.of_nat (S n)) with (7 + 7 * Z.of_nat n) in Hraw by lia.
  rewrite Z.pow_add_r in Hraw by lia. change (2 ^ 7) with 128 in Hraw.
  destruct (0 <? raw / 128) eqn:Eh; cbn [app] in *.
  - apply Z.ltb_lt in Eh. eapply sim_bind; [apply sim_rd_byte; exact Ha|]. cbv zeta.
    rewrite L1, Hpart, L2. cbn [Z.eqb].
    rewrite (app_snoc_cons _ _ (enc7 _ _)).
    replace (Z.lor output (Z.shiftl raw (7 * i))) with
      (Z.lor (Z.lor output (Z.shiftl (raw mod 128) (7 * i))) (Z.shiftl (raw / 128) (7 * (i + 1)))).
    + apply IH; [constructor| |destruct n; [cbn in Hraw; Z.div_mod_to_equations; lia|lia]|lia|].
      * split; [lia|]. apply Z.div_lt_upper_bound; lia.
      * replace (7 * (i + 1)) with (7 + 7 * i) by lia. rewrite Z.pow_add_r by lia. change (2 ^ 7) with 128.
        pose proof (Z.mul_div_le raw 128 ltac:(lia)). nia.
    + rewrite <- Z.lor_assoc. f_equal. rewrite <- Hsplit at 3.
      rewrite Z.shiftl_lor, Z.shiftl_shiftl by lia. do 2 f_equal. lia.
  - apply Z.ltb_ge in Eh. eapply sim_bind; [apply sim_rd_byte; exact Ha|]. cbv zeta.
    rewrite L3, Hpart, L4. cbn [Z.eqb].
    replace (raw mod 128) with raw at 1; [apply sim_ret|].
    rewrite Z.mod_small; [done|]. Z.div_mod_to_equations. lia.
Qed.

(** The wire form of an [int], of a string. *)
Definition varint (v : Z) : list Z := enc7 5 (u32 v).
Definition wire_string (str : list Z) : list Z := varint (zlength str) ++ str.

Lemma sim_app_varint a bs v : appending a bs -> roomy 5 bs ->
  sim true (Write7BitEncodedInt v) a tt (at_end (bs ++ varint v)).
Proof.
  intros Ha Hr. apply sim_write7_loop; [|lia|done|done].
  pose proof (u32_range v). cbn. lia.
Qed.

Lemma sim_rd_varint w a p v r : reading a p (varint v ++ r) ->
  sim w Read7BitEncodedInt a (s32 v) (cursor (p ++ varint v) r).
Proof.
  intros Ha. pose proof (u32_range v) as Hr.
  eapply sim_bind; [apply sim_read7_loop; [exact Ha|cbn; lia|lia|lia|cbn; lia]|].
  replace (s32 v) with (s32 (Z.lor 0 (Z.shiftl (u32 v) (7 * 0)))); [apply sim_ret|].
  rewrite Z.lor_0_l. cbn [Z.mul]. rewrite Z.shiftl_0_r.
  unfold s32, u32. now rewrite Z.mod_mod.
Qed.
End Varint.

(** ** Fresh streams *)

Lemma rel_empty s a : a_bytes a = [] -> a_pos a = 0 -> a_sub a = 0 ->
  m_length s = 0 -> m_position s = 0 -> m_subBytePosition s = 0 -> writable s -> rel true s a.
Proof. intros. split; [apply refines_nil; congruence|done]. Qed.

Lemma BinaryStream_new_rel capacity : 0 <= capacity <= max_len ->
  exists s, BinaryStream_new capacity = Ret s /\ rel true s (at_end []).
Proof.
  intros Hc. unfold BinaryStream_new. destruct (decide (capacity = 0)) as [->|Hne].
  - rewrite ToNextPowerOfTwo_0. eexists. split; [reflexivity|].
    apply rel_empty; try done; unfold max_len; split; cbn; try done.
  - pose proof (ToNextPowerOfTwo_bounds capacity) as Hb. set (cap := ToNextPowerOfTwo capacity) in *.
    rewrite (proj2 (Z.ltb_lt 0 cap)), alloc_ok by (unfold max_len in *; lia).
    eexists. split; [reflexivity|]. apply rel_empty; try done.
    split; cbn; try done; try lia. zlen.
Qed.

(** Wrapping an initialised array of bytes, read-only or as a copy. *)
Lemma BinaryStream_wrap_rel bs slack mode : Forall is_byte bs -> zlength bs <= max_len ->
  exists s, BinaryStream_wrap (Ret (map Some bs ++ slack)) (zlength bs) mode = Ret s /\
    rel (match mode with COPY => true | READONLY => false end) s (cursor [] bs).
Proof.
  intros Hb Hm. destruct mode; unfold BinaryStream_wrap.
  - destruct bs as [|b bs].
    { eexists. split; [reflexivity|]. apply rel_empty; try done; unfold max_len; split; cbn; done. }
    set (l := b :: bs) in *. assert (Hl : 1 <= zlength l) by (unfold l; zlen). clearbody l.
    pose proof (ToNextPowerOfTwo_bounds (zlength l) ltac:(lia)) as Hc. set (cap := ToNextPowerOfTwo (zlength l)) in *.
    rewrite (proj2 (Z.ltb_lt 0 cap)), alloc_ok by (unfold max_len in *; lia).
    cbn [mbind outcome_bind]. unfold read_from. rewrite (proj2 (Z.eqb_neq (zlength l) 0)) by lia.
    cbn [mbind outcome_bind]. rewrite mem_read_ok by zlen. cbn [mbind outcome_bind].
    rewrite zdrop_0, ztake_app_l by zlen. rewrite mem_write_ok by zlen. rewrite ztake_0. cbn [app].
    eexists. split; [reflexivity|]. split.
    + split; cbn; try done; unfold cursor; cbn; try zlen. intros _. unfold deref_ro. cbn. eauto.
    + intros _. split; cbn; try done; try lia. zlen.
  - eexists. split; [reflexivity|]. split; [|done]. split; cbn; try done; try zlen.
    intros _. unfold deref_ro. cbn. eauto.
Qed.

Section Strings.
Context {host : Host}.

Lemma varint_s32 v : varint (s32 v) = varint v.
Proof.
  unfold varint. f_equal. unfold s32. destruct (u32 v <? 2147483648).
  - apply u32_small, u32_range.
  - unfold u32. rewrite Zminus_mod, Z.mod_mod, Z.mod_same, Z.sub_0_r, Z.mod_mod; lia.
Qed.

Lemma sim_app_string a bs str : appending a bs -> Forall is_byte str ->
  roomy (5 + zlength str) bs -> sim true (WriteString str) a tt (at_end (bs ++ wire_string str)).
Proof.
  intros Ha Hs Hr. unfold WriteString, wire_string. pose proof (zlength_nonneg str). unfold roomy in *.
  eapply sim_bind; [apply sim_app_varint; [done|unfold roomy; lia]|]. rewrite varint_s32, app_assoc.
  apply sim_app_bytes; [constructor|done|]. unfold roomy, varint.
  pose proof (enc7_length 5 (u32 (zlength str))). zlen.
Qed.

Lemma sim_rd_string w a p str r : zlength str < 2147483648 ->
  reading a p (wire_string str ++ r) -> sim w ReadString a str (cursor (p ++ wire_string str) r).
Proof.
  intros Hlen Ha. unfold ReadString, wire_string in *. rewrite <- app_assoc in Ha.
  pose proof (zlength_nonneg str).
  eapply sim_bind; [apply sim_rd_varint; exact Ha|].
  assert (E : u64 (s32 (zlength str)) = zlength str).
  { unfold s32. rewrite (u32_small (zlength str)) by lia.
    rewrite (proj2 (Z.ltb_lt _ _)) by lia. apply u64_small. lia. }
  rewrite E, app_assoc. set (q := p ++ varint (zlength str)).
  intros s Hs. rewrite bind_get. rewrite (IsEOF_false w s _ _ Hs) by (cbn; zlen).
  rewrite (bind_lift _ _ _ (map Some str)).
  2:{ rewrite (rf_pos s _ (proj1 Hs)), (read_backing s _ _ _ (proj1 Hs)) by (cbn; zlen).
      cbn. now rewrite zdrop_app_l, ztake_app_l by done. }
  rewrite (bind_lift _ _ _ str) by apply bytes_of_map. eexists. split; [reflexivity|].
  pose proof (rf_max s _ (proj1 Hs)) as Hm. cbn in Hm. unfold max_len in Hm.
  rewrite (rf_pos s _ (proj1 Hs)). cbn [cursor a_pos]. rewrite u64_small by zlen.
  rewrite <- (set_sub_id (set_position _ s)). cbn [m_subBytePosition set_position].
  rewrite (rf_sub s _ (proj1 Hs)). cbn [cursor a_sub].
  replace (cursor (q ++ str) r) with (mkA (q ++ str ++ r) (zlength q + zlength str) 0)
    by (unfold cursor; rewrite <- app_assoc; f_equal; zlen).
  apply (rel_cursor w s (cursor q (str ++ r))); [done|cbn; zlen..].
Qed.
End Strings.

(** ** Storing through the buffer pointer, inside what was written *)

Lemma store_inside s p z d r q : rel true s (mkA (p ++ z ++ r) q 0) -> zlength z = zlength d -> Forall is_byte d ->
  exists s', store (zlength p) (map Some d) s = Ret (tt, s') /\ rel true s' (mkA (p ++ d ++ r) q 0).
Proof.
  intros Hs Hz Hd. pose proof (wr_len s (proj2 Hs eq_refl)) as Hlen. rewrite (rf_len s _ (proj1 Hs)) in Hlen.
  pose proof (rf_range s _ (proj1 Hs)) as Hq. cbn in Hlen, Hq.
  assert (Ebs : ztake (zlength p) (p ++ z ++ r) ++ d ++ zdrop (zlength p + zlength d) (p ++ z ++ r) = p ++ d ++ r).
  { rewrite ztake_app_l by done. f_equal. f_equal. rewrite app_assoc. apply zdrop_app_l. zlen. }
  destruct (rel_store s (mkA (p ++ z ++ r) q 0) d (zlength p) q 0) as (s1 & E & Ep & Es & El & H1);
    cbn [a_bytes]; rewrite ?Ebs; try done; try zlen.
  { intros Hne. pose proof (wr_cap s (proj2 Hs eq_refl)) as Hc. destruct (m_buffer s); [eauto|].
    cbn in Hc. destruct d; [done|]. autorewrite with zlen in *. pose_zlengths. lia. }
  exists s1. split; [exact E|]. cbn [a_bytes] in H1. rewrite Ebs in H1.
  replace (set_length _ _) with s1 in H1; [exact H1|].
  rewrite (rf_len s _ (proj1 Hs)) in El. rewrite (rf_pos s _ (proj1 Hs)) in Ep. rewrite (rf_sub s _ (proj1 Hs)) in Es.
  cbn in El, Ep, Es. destruct s1; cbn in *. subst. unfold set_length, set_sub, set_position. cbn. f_equal. zlen.
Qed.

(** ** Copying and appending whole streams *)

(** Reallocate on any owned array, whatever is in it. *)
Lemma Reallocate_writable n s : writable s -> 0 <= n <= max_len -> 0 <= m_length s ->
  exists l cap, Reallocate n s = Ret (tt, mkStream (Some l) RoSelf cap (m_length s) (m_position s) (m_subBytePosition s) false) /\
    zlength l = cap /\ n <= cap <= max_len.
Proof.
  intros W Hn Hl. assert (Hcap : exists cap, cap = Z.max (ToNextPowerOfTwo n) 1 /\ n <= cap <= max_len).
  { eexists. split; [reflexivity|]. destruct (decide (n = 0)) as [->|]; [rewrite ToNextPowerOfTwo_0; unfold max_len; lia|].
    pose proof (ToNextPowerOfTwo_bounds n ltac:(lia)). lia. }
  destruct Hcap as (cap & Ecap & Hcap). unfold Reallocate. rewrite bind_get, (wr_mode s W), <- Ecap. cbv beta iota zeta.
  rewrite (bind_lift _ _ _ (replicate (Z.to_nat cap) None)) by (apply alloc_ok; unfold max_len in *; lia).
  pose proof (wr_cap s W) as Hc. pose proof (wr_len s W) as Hlen.
  assert (Hz : zlength (replicate (Z.to_nat cap) (@None Z)) = cap) by (unfold zlength; rewrite length_replicate; lia).
  destruct (m_buffer s) as [old|]; [|exists (replicate (Z.to_nat cap) None), cap; done]. cbn in Hc.
  destruct (Z.ltb_spec 0 (Z.min (m_length s) cap)) as [Hlt|]; [|exists (replicate (Z.to_nat cap) None), cap; done].
  set (k := Z.min (m_length s) cap) in *.
  assert (Hd : zlength (ztake k (zdrop 0 old)) = k) by (rewrite zdrop_0; apply zlength_ztake; lia).
  eexists _, cap. split; [|split].
  - rewrite (bind_ret _ _ _ _ s) by (rewrite (bind_lift _ _ _ _ (mem_read_ok old 0 k ltac:(lia) ltac:(lia) ltac:(lia)));
      unfold lift; rewrite mem_write_ok by lia; reflexivity). reflexivity.
  - rewrite !zlength_app, ztake_0, Hd, zlength_zdrop by lia. change (zlength (@nil cell)) with 0. lia.
  - lia.
Qed.

(** operator=(const BinaryStream&) between writable streams. *)
Lemma assign_copy_rel last out a : writable last -> 0 <= m_length last -> rel true out a ->
  exists s, assign_copy out last = Ret (tt, s) /\ rel true s a.
Proof.
  intros W Hl0 [H Hw]. specialize (Hw eq_refl). pose proof (wr_max out Hw) as Hm. pose proof (wr_len out Hw) as Hlen.
  pose proof (rf_len out a H) as El. pose proof (zlength_nonneg (a_bytes a)) as Hz.
  destruct (Reallocate_writable (m_capacity out) last W ltac:(lia) Hl0) as (l & cap & E & Hcl & Hcap).
  unfold assign_copy. rewrite (bind_ret _ _ _ _ _ E), bind_get. set (r := mkStream _ _ _ _ _ _ _). cbn [m_buffer r].
  rewrite (bind_lift _ _ _ (map Some (a_bytes a))).
  2:{ rewrite (read_backing _ _ _ _ H) by lia. rewrite El, zdrop_0, ztake_all by lia. done. }
  rewrite (bind_ret _ _ _ (Some (map Some (a_bytes a) ++ zdrop (zlength (a_bytes a)) l)) r).
  2:{ unfold mbind, st_bind, lift. rewrite mem_write_ok by (rewrite ?zlength_map; lia).
      rewrite ztake_0, zlength_map, Z.add_0_l. reflexivity. }
  eexists. split; [reflexivity|]. split.
  - destruct H as [? Hc Hp Hr Hs Hsr Hsi Hb Hmx]. split; cbn; try done. intros _. eauto.
  - intros _. split; cbn; try done; try lia; [exact (wr_mode out Hw)|].
    rewrite zlength_app, zlength_map, zlength_zdrop by lia. lia.
Qed.

Lemma sim_app_stream w other a' a bs : rel w other a' -> appending a bs -> roomy (zlength (a_bytes a')) bs ->
  sim true (WriteBytes_stream other) a tt (at_end (bs ++ a_bytes a')).
Proof.
  intros [H _] Ha Hr s Hs. unfold WriteBytes_stream. rewrite bind_get, (wr_mode s (proj2 Hs eq_refl)). cbv beta iota.
  rewrite (bind_lift _ _ _ (map Some (a_bytes a'))).
  2:{ pose proof (zlength_nonneg (a_bytes a')). rewrite (read_backing _ _ _ _ H) by (rewrite ?(rf_len other a' H); lia).
      rewrite (rf_len other a' H), zdrop_0, ztake_all by lia. done. }
  apply (sim_app_bytes a bs); [done|exact (rf_bytes _ _ H)|done|done].
Qed.
