(* ===== verification/StreamTheorems.v ===== *)
(** * StreamTheorems: the main results about BinaryStream

    A generic round trip over sequences of typed fields, refinement of the
    abstract stream, capacity rounding, and the inputs on which the stream
    departs from its documentation. *)

From stdpp Require Import base tactics list list_numbers numbers option.
From Stdlib Require Import ZArith Lia.
From S2P Require Import Prelude Memory BinaryStream StreamSpec StreamCodec.

Open Scope Z_scope.

(** ** Typed fields *)

Inductive field : Type :=
  | FBool (b : bool)
  | FByte (v : Z)
  | FInt16 (v : Z)
  | FInt32 (v : Z)
  | FInt64 (v : Z)
  | FVarint (v : Z)
  | FString (str : list Z).

Inductive kind : Type := KBool | KByte | KInt16 | KInt32 | KInt64 | KVarint | KString.

Definition kind_of (f : field) : kind :=
  match f with
  | FBool _ => KBool | FByte _ => KByte | FInt16 _ => KInt16 | FInt32 _ => KInt32
  | FInt64 _ => KInt64 | FVarint _ => KVarint | FString _ => KString
  end.

Section Fields.
Context {host : Host}.

Definition write_field (f : field) : SM unit :=
  match f with
  | FBool b => WriteBool b | FByte v => WriteByte v | FInt16 v => WriteInt16 v
  | FInt32 v => WriteInt32 v | FInt64 v => WriteInt64 v
  | FVarint v => Write7BitEncodedInt v | FString str => WriteString str
  end.

Definition read_field (k : kind) : SM field :=
  match k with
  | KBool => b ← ReadBool; mret (FBool b)
  | KByte => v ← ReadByte; mret (FByte v)
  | KInt16 => v ← ReadUInt16; mret (FInt16 v)
  | KInt32 => v ← ReadUInt32; mret (FInt32 v)
  | KInt64 => v ← ReadUInt64; mret (FInt64 v)
  | KVarint => v ← Read7BitEncodedInt; mret (FVarint v)
  | KString => str ← ReadString; mret (FString str)
  end.

Fixpoint write_fields (fs : list field) : SM unit :=
  match fs with [] => mret tt | f :: fs => write_field f;; write_fields fs end.

Fixpoint read_fields (ks : list kind) : SM (list field) :=
  match ks with
  | [] => mret []
  | k :: ks => f ← read_field k; fs ← read_fields ks; mret (f :: fs)
  end.
End Fields.

(** Values in the range of the C++ parameter types. *)
Definition field_ok (f : field) : Prop :=
  match f with
  | FBool _ => True
  | FByte v => 0 <= v < 256
  | FInt16 v => 0 <= v < 65536
  | FInt32 v => 0 <= v < 4294967296
  | FInt64 v => 0 <= v < 18446744073709551616
  | FVarint v => -2147483648 <= v < 2147483648
  | FString str => Forall is_byte str /\ zlength str < 2147483648
  end.

Definition field_size (f : field) : Z :=
  match f with FString str => 9 + zlength str | _ => 9 end.

Definition fields_size (fs : list field) : Z := foldr (fun f n => field_size f + n) 0 fs.

(** The bytes of a field other than a single bit. *)
Definition field_wire (f : field) : list Z :=
  match f with
  | FBool _ => []
  | FByte v => [u8 v] | FInt16 v => be_bytes 2 v | FInt32 v => be_bytes 4 v
  | FInt64 v => be_bytes 8 v | FVarint v => varint v | FString str => wire_string str
  end.

(** Bits not yet closing a byte, and the bytes of a sequence that starts
    with [pend] such bits. *)
Definition flush (pend : list bool) : list Z := match pend with [] => [] | _ => [pack pend] end.

Fixpoint wire (pend : list bool) (fs : list field) : list Z :=
  match fs with
  | [] => flush pend
  | FBool b :: fs =>
      if zlength pend =? 7 then pack (pend ++ [b]) :: wire [] fs else wire (pend ++ [b]) fs
  | f :: fs => flush pend ++ field_wire f ++ wire [] fs
  end.

Fixpoint pending (pend : list bool) (fs : list field) : list bool :=
  match fs with
  | [] => pend
  | FBool b :: fs => pending (if zlength pend =? 7 then [] else pend ++ [b]) fs
  | _ :: fs => pending [] fs
  end.

(** Writer position: bs written, then [pend] bits. *)
Definition writing (bs : list Z) (pend : list bool) : AStream :=
  match pend with [] => at_end bs | _ => at_bits bs pend end.

Lemma writing_appending bs pend : appending (writing bs pend) (bs ++ flush pend).
Proof.
  destruct pend; cbn; [rewrite app_nil_r|]; constructor; zlen.
Qed.

Lemma testbit_shiftr_128 i k : 0 <= i <= 7 -> 0 <= k <= 7 -> Z.testbit (Z.shiftr 128 i) (7 - k) = (i =? k).
Proof.
  intros Hi Hk. rewrite Z.shiftr_spec by lia. change 128 with (2 ^ 7).
  destruct (Z.eqb_spec i k) as [->|].
  - now replace (7 - k + k) with 7 by lia.
  - apply Z.pow2_bits_false. lia.
Qed.

Lemma testbit_pack_from i bits k : 0 <= i -> i + zlength bits <= 8 -> 0 <= k <= 7 ->
  Z.testbit (pack_from i bits) (7 - k) =
    (if decide (k < i) then false else default false (bits !! Z.to_nat (k - i))).
Proof.
  revert i. induction bits as [|b r IH]; intros i Hi Hl Hk; cbn [pack_from].
  - rewrite Z.bits_0. now destruct (decide (k < i)).
  - rewrite zlength_cons in Hl. pose proof (zlength_nonneg r).
    rewrite Z.lor_spec, IH by lia.
    assert (Hb : Z.testbit (if b then Z.shiftr 128 i else 0) (7 - k) = b && (i =? k)).
    { destruct b; [apply testbit_shiftr_128; lia|apply Z.bits_0]. }
    rewrite Hb. destruct (decide (k < i)), (decide (k < i + 1)); try lia.
    + replace k with i by lia. rewrite Z.eqb_refl, Z.sub_diag. now rewrite andb_true_r, orb_false_r.
    + rewrite (proj2 (Z.eqb_neq i k)) by lia. rewrite andb_false_r. cbn [orb].
      replace (Z.to_nat (k - i)) with (S (Z.to_nat (k - (i + 1)))) by lia. done.
Qed.

(** Reading back bit k of a packed byte. *)
Lemma read_packed bits k b : zlength bits <= 8 -> 0 <= k <= 7 -> bits !! Z.to_nat k = Some b ->
  negb (Z.land (pack bits) (Z.shiftr 128 k) =? 0) = b.
Proof.
  intros Hl Hk E. pose proof (testbit_pack_from 0 bits k ltac:(lia) ltac:(lia) Hk) as Ht.
  rewrite decide_False, Z.sub_0_r, E in Ht by lia. cbn in Ht. fold (pack bits) in Ht.
  assert (Es : Z.shiftr 128 k = 2 ^ (7 - k)).
  { rewrite Z.shiftr_div_pow2 by lia. change 128 with (2 ^ 7). now rewrite <- Z.pow_sub_r by lia. }
  rewrite Es. destruct b.
  - rewrite (proj2 (Z.eqb_neq _ 0)); [done|]. intros H0.
    assert (Hc : Z.testbit (Z.land (pack bits) (2 ^ (7 - k))) (7 - k) = true)
      by (rewrite Z.land_spec, Ht, Z.pow2_bits_true by lia; done).
    rewrite H0, Z.bits_0 in Hc. done.
  - rewrite (proj2 (Z.eqb_eq _ 0)); [done|]. apply Z.bits_inj'; intros i Hi.
    rewrite Z.land_spec, Z.bits_0. destruct (decide (i = 7 - k)) as [->|]; [now rewrite Ht|].
    rewrite Z.pow2_bits_false by lia. apply andb_false_r.
Qed.

(** ** Writing a sequence *)

Lemma field_wire_size f : field_ok f -> zlength (field_wire f) < field_size f.
Proof.
  destruct f; cbn [field_wire field_size]; intros Hf; try zlen.
  - unfold varint. pose proof (enc7_length 5 (u32 v)). lia.
  - unfold wire_string, varint. pose proof (enc7_length 5 (u32 (zlength str))). zlen.
Qed.

Lemma field_size_ge f : 9 <= field_size f.
Proof. destruct f; cbn; zlen. Qed.

Lemma fields_size_nonneg fs : 0 <= fields_size fs.
Proof. induction fs as [|f fs IH]; cbn; [lia|]. pose proof (field_size_ge f). unfold fields_size in *. lia. Qed.

Lemma zlength_flush pend : zlength (flush pend) <= 1.
Proof. now destruct pend. Qed.

Lemma a_write_bool_last bs bits b : zlength bits = 7 ->
  a_write_bool b (at_bits bs bits) = at_end (bs ++ [pack (bits ++ [b])]).
Proof.
  intros H. unfold a_write_bool, at_bits, at_end, with_bit, cur_byte, next_bit. cbn [a_sub a_pos a_bytes].
  rewrite H. change (7 =? 0) with false. change (7 <? 7 + 1) with true. cbn [fst snd].
  rewrite ztake_app_l, zdrop_all, lookup_cursor by zlen. unfold pack. rewrite pack_from_app, H.
  cbn [default app]. destruct b; [|rewrite Z.lor_0_r]; f_equal; zlen.
Qed.

Section Sequences.
Context {host : Host}.

(** One non-bit field, from the end of the stream or from inside a flag byte. *)
Lemma sim_write_field a bs f : (forall b, f <> FBool b) -> field_ok f -> appending a bs ->
  roomy (field_size f) bs -> sim true (write_field f) a tt (at_end (bs ++ field_wire f)).
Proof.
  intros Hn Hf Ha Hr. unfold roomy in *.
  destruct f; cbn [write_field field_wire field_size] in *.
  - now destruct (Hn b).
  - apply sim_app_byte; [done|unfold roomy; lia].
  - apply sim_app_int16; [done|unfold roomy; lia].
  - apply sim_app_int32; [done|unfold roomy; lia].
  - apply sim_app_int64; [done|unfold roomy; lia].
  - apply sim_app_varint; [done|unfold roomy; lia].
  - apply sim_app_string; [done|apply Hf|unfold roomy; lia].
Qed.

Lemma sim_write_bool_field bs pend b : zlength pend <= 7 -> roomy 1 bs ->
  sim true (WriteBool b) (writing bs pend) tt
    (if zlength pend =? 7 then writing (bs ++ [pack (pend ++ [b])]) [] else writing bs (pend ++ [b])).
Proof.
  intros Hp Hr. destruct pend as [|c r]; [now apply sim_app_bool_first|].
  unfold writing at 1. destruct (Z.eqb_spec (zlength (c :: r)) 7) as [E|E].
  - cbn [writing]. rewrite <- a_write_bool_last by done. now apply sim_WriteBool.
  - apply sim_app_bool_next; [done|]. zlen.
Qed.

Lemma sim_write_fields fs : forall bs pend, Forall field_ok fs -> zlength pend <= 7 ->
  roomy (fields_size fs + 1) bs -> pending pend fs = [] ->
  sim true (write_fields fs) (writing bs pend) tt (at_end (bs ++ wire pend fs)).
Proof.
  induction fs as [|f fs IH]; intros bs pend Hf Hp Hr He.
  { cbn in He |- *. subst pend. cbn. rewrite app_nil_r. apply sim_ret. }
  inversion_clear Hf as [|? ? Hf1 Hf2]. cbn [fields_size foldr] in Hr. fold (fields_size fs) in Hr.
  pose proof (fields_size_nonneg fs). pose proof (field_size_ge f).
  unfold roomy in Hr. cbn [write_fields].
  assert (Hstep : (exists b, f = FBool b) \/ (forall b, f <> FBool b))
    by (destruct f; eauto; right; discriminate).
  destruct Hstep as [[b ->]|Hn].
  - eapply sim_bind; [apply sim_write_bool_field; [done|unfold roomy; lia]|].
    cbn [wire pending] in *. destruct (Z.eqb_spec (zlength pend) 7).
    + rewrite (app_snoc_cons bs _ (wire _ _)). apply (IH _ []); [done|zlen|unfold roomy; zlen|done].
    + apply IH; [done|zlen|unfold roomy; zlen|done].
  - pose proof (field_wire_size f Hf1). pose proof (zlength_flush pend).
    eapply sim_bind; [apply sim_write_field; [done|done|apply writing_appending|unfold roomy; zlen]|].
    replace (bs ++ wire pend (f :: fs)) with (((bs ++ flush pend) ++ field_wire f) ++ wire [] fs)
      by (destruct f; [now destruct (Hn b)|now rewrite <- !app_assoc..]).
    apply (IH _ []); [done|zlen|unfold roomy; zlen|]. destruct f; [now destruct (Hn b)|exact He..].
Qed.

(** ** Reading it back *)

Lemma sim_read_field w a p f r : (forall b, f <> FBool b) -> field_ok f -> or_left_first = true ->
  reading a p (field_wire f ++ r) -> sim w (read_field (kind_of f)) a f (cursor (p ++ field_wire f) r).
Proof.
  intros Hn Hf Ho Ha. destruct f; cbn [kind_of read_field field_wire field_ok] in *.
  - now destruct (Hn b).
  - rewrite u8_small in * by lia. eapply sim_bind; [apply sim_rd_byte; exact Ha|apply sim_ret].
  - eapply sim_bind; [apply sim_rd_uint16; exact Ha|]. rewrite u16_small by lia. apply sim_ret.
  - eapply sim_bind; [apply sim_rd_uint32; exact Ha|]. rewrite u32_small by lia. apply sim_ret.
  - eapply sim_bind; [apply sim_rd_uint64; [done|exact Ha]|]. rewrite u64_small by lia. apply sim_ret.
  - eapply sim_bind; [apply sim_rd_varint; exact Ha|].
    replace (s32 v) with v; [apply sim_ret|]. unfold s32. destruct (Z.ltb_spec (u32 v) 2147483648); word_lia.
  - eapply sim_bind; [apply sim_rd_string; [apply Hf|exact Ha]|apply sim_ret].
Qed.

Lemma wire_head fs : forall pend, pend <> [] -> zlength pend <= 7 ->
  exists more rest, wire pend fs = pack (pend ++ more) :: rest /\ zlength (pend ++ more) <= 8.
Proof.
  induction fs as [|f fs IH]; intros pend Hne Hp.
  { exists [], []. cbn. rewrite app_nil_r. destruct pend; [done|]. cbn. split; [done|lia]. }
  assert (Hflush : flush pend = [pack pend]) by now destruct pend.
  destruct f as [b| | | | | |]; cbn [wire]; rewrite ?Hflush;
    try (eexists [], _; rewrite app_nil_r; split; [reflexivity|lia]).
  destruct (Z.eqb_spec (zlength pend) 7); [eexists [b], _; split; [reflexivity|zlen]|].
  destruct (IH (pend ++ [b])) as (more & rest & E & Hl); [now destruct pend|zlen|].
  exists (b :: more), rest. rewrite E, <- app_assoc in *. now split.
Qed.

Definition reader (p : list Z) (pend : list bool) (r : list Z) : AStream :=
  mkA (p ++ r) (zlength p) (zlength pend).

Lemma reading_flush p pend r : zlength pend <= 7 ->
  reading (reader p pend (flush pend ++ r)) (p ++ flush pend) r.
Proof.
  intros H. destruct pend as [|b l]; unfold reader; cbn [flush app].
  - rewrite app_nil_r. apply rd_cursor.
  - apply rd_bits. zlen.
Qed.

Lemma sim_read_bool_field w p pend b byte bits r : pend ++ b :: bits = byte -> zlength byte <= 8 ->
  sim w ReadBool (reader p pend (pack byte :: r)) b
    (if zlength pend =? 7 then reader (p ++ [pack byte]) [] r else reader p (pend ++ [b]) (pack byte :: r)).
Proof.
  intros <- Hl. assert (Hp : 0 <= zlength pend <= 7) by zlen.
  pose proof (sim_rd_bool w _ p (pack (pend ++ b :: bits)) r (zlength pend) Hp eq_refl) as H.
  rewrite (read_packed _ _ b) in H by (auto using lookup_cursor).
  unfold reader. destruct (Z.eqb_spec (zlength pend) 7) as [E|E].
  - rewrite E in *. cbn in H. unfold cursor in H. exact H.
  - rewrite (proj2 (Z.ltb_ge _ _)) in H by lia. rewrite zlength_app. exact H.
Qed.

Lemma sim_read_fields w fs : forall p pend r, Forall field_ok fs -> zlength pend <= 7 ->
  or_left_first = true ->
  exists a', sim w (read_fields (map kind_of fs)) (reader p pend (wire pend fs ++ r)) fs a'.
Proof.
  induction fs as [|f fs IH]; intros p pend r Hf Hp Ho; [eexists; apply sim_ret|].
  inversion_clear Hf as [|? ? Hf1 Hf2]. cbn [map read_fields].
  assert (Hstep : (exists b, f = FBool b) \/ (forall b, f <> FBool b))
    by (destruct f; eauto; right; discriminate).
  destruct Hstep as [[b ->]|Hn].
  - cbn [wire]. assert (Hhead : exists more rest,
      (if zlength pend =? 7 then pack (pend ++ [b]) :: wire [] fs else wire (pend ++ [b]) fs)
        = pack (pend ++ b :: more) :: rest /\ zlength (pend ++ b :: more) <= 8).
    { destruct (Z.eqb_spec (zlength pend) 7); [eexists [], _; split; [reflexivity|zlen]|].
      destruct (wire_head fs (pend ++ [b])) as (more & rest & E & Hl); [now destruct pend|zlen|].
      rewrite <- app_assoc in *. eauto. }
    destruct Hhead as (more & rest & E & Hl).
    pose proof (sim_read_bool_field w p pend b _ more (rest ++ r) eq_refl Hl) as Hb. rewrite E.
    destruct (Z.eqb_spec (zlength pend) 7).
    + destruct (IH (p ++ [pack (pend ++ b :: more)]) [] r) as [a' Ha']; [done|zlen|done|].
      injection E as E1 E2. rewrite E2 in Ha'. exists a'. cbn [kind_of read_field].
      eapply sim_bind; [eapply sim_bind; [exact Hb|apply sim_ret]|].
      eapply sim_bind; [exact Ha'|apply sim_ret].
    + destruct (IH p (pend ++ [b]) r) as [a' Ha']; [done|zlen|done|].
      rewrite E in Ha'. exists a'. cbn [kind_of read_field].
      eapply sim_bind; [eapply sim_bind; [exact Hb|apply sim_ret]|].
      eapply sim_bind; [exact Ha'|apply sim_ret].
  - destruct (IH ((p ++ flush pend) ++ field_wire f) [] r) as [a' Ha']; [done|zlen|done|]. exists a'.
    replace (wire pend (f :: fs) ++ r) with (flush pend ++ field_wire f ++ wire [] fs ++ r)
      by (destruct f; [now destruct (Hn b)|cbn [wire]; now rewrite <- !app_assoc..]).
    eapply sim_bind; [apply sim_read_field; [done|done|done|apply reading_flush; done]|].
    eapply sim_bind; [exact Ha'|apply sim_ret].
Qed.
End Sequences.

(** ** Refinement of the abstract stream, over operation sequences *)

Inductive sop : Type :=
  | OAlign | OSeek (p : Z) | OSeekToBegin | OSeekToEnd | OSkip (n : Z)
  | OWriteByte (b : Z) | OWriteBytes (d : list Z) | OWriteZeroes (n : Z) | OWriteBool (b : bool)
  | OReadByte | OReadBytes (n : Z) | OReadUInt16 | OReadUInt32 | OReadBool.

Inductive sval : Type :=
  | VUnit | VBool (b : bool) | VNum (v : Z) | VBytes (r : option (list cell)).

Definition perform {host : Host} (o : sop) : SM sval :=
  match o with
  | OAlign => Align;; mret VUnit
  | OSeek p => Seek p;; mret VUnit
  | OSeekToBegin => SeekToBegin;; mret VUnit
  | OSeekToEnd => SeekToEnd;; mret VUnit
  | OSkip n => b ← Skip n; mret (VBool b)
  | OWriteByte b => WriteByte b;; mret VUnit
  | OWriteBytes d => WriteBytes (map Some d);; mret VUnit
  | OWriteZeroes n => WriteZeroes n;; mret VUnit
  | OWriteBool b => WriteBool b;; mret VUnit
  | OReadByte => v ← ReadByte; mret (VNum v)
  | OReadBytes n => r ← ReadBytes n; mret (VBytes r)
  | OReadUInt16 => v ← ReadUInt16; mret (VNum v)
  | OReadUInt32 => v ← ReadUInt32; mret (VNum v)
  | OReadBool => b ← ReadBool; mret (VBool b)
  end.

Fixpoint performs {host : Host} (os : list sop) : SM (list sval) :=
  match os with
  | [] => mret []
  | o :: os => v ← perform o; vs ← performs os; mret (v :: vs)
  end.

Definition room_b (n : Z) (a : AStream) : bool := (0 <=? n) && (a_pos (a_align a) + n <=? max_len).
Definition avail_b (n : Z) (a : AStream) : bool :=
  (0 <=? n) && (a_pos (a_align a) + n <=? zlength (a_bytes a)).
Definition guard_step (c : bool) (v : sval) (a : AStream) : option (sval * AStream) :=
  if c then Some (v, a) else None.

(** A read that the length check refuses: at most as many bytes are asked for
    as the whole stream holds, more than are left. *)
Definition refused (n : Z) (a : AStream) : bool :=
  (0 <=? n) && (n <=? zlength (a_bytes a)) && (zlength (a_bytes a) - n <? a_pos a).

(** The promise of the interface; [None] where it promises nothing. *)
Definition a_step (o : sop) (a : AStream) : option (sval * AStream) :=
  match o with
  | OAlign => Some (VUnit, a_align a)
  | OSeek p => guard_step (a_sub a =? 0) VUnit (a_seek p a)
  | OSeekToBegin => guard_step (a_sub a =? 0) VUnit (a_seek 0 a)
  | OSeekToEnd => guard_step (a_sub a =? 0) VUnit (a_seek (zlength (a_bytes a)) a)
  | OSkip n =>
      if refused n a then Some (VBool false, a)
      else guard_step (avail_b n a && (a_sub a =? 0)) (VBool true) (mkA (a_bytes a) (a_pos a + n) 0)
  | OWriteByte b => guard_step (room_b 1 a) VUnit (a_write [u8 b] a)
  | OWriteBytes d =>
      guard_step (room_b (zlength d) a && forallb (fun b => (0 <=? b) && (b <? 256)) d) VUnit (a_write d a)
  | OWriteZeroes n => guard_step (room_b n a) VUnit (a_write (replicate (Z.to_nat n) 0) a)
  | OWriteBool b => guard_step (a_pos a + 1 <=? max_len) VUnit (a_write_bool b a)
  | OReadByte =>
      if refused 1 a then Some (VNum 0, a)
      else guard_step (avail_b 1 a) (VNum (be_val (a_read 1 a))) (a_skip 1 a)
  | OReadBytes n =>
      if refused n a then Some (VBytes None, a)
      else guard_step (avail_b n a) (VBytes (Some (map Some (a_read n a)))) (a_skip n a)
  | OReadUInt16 => guard_step (avail_b 2 a) (VNum (be_val (a_read 2 a))) (a_skip 2 a)
  | OReadUInt32 => guard_step (avail_b 4 a) (VNum (be_val (a_read 4 a))) (a_skip 4 a)
  | OReadBool =>
      if refused 1 a then Some (VBool false, a)
      else guard_step (a_pos a + 1 <=? zlength (a_bytes a)) (VBool (a_read_bool a)) (a_next_bit a)
  end.

Fixpoint a_steps (os : list sop) (a : AStream) : option (list sval * AStream) :=
  match os with
  | [] => Some ([], a)
  | o :: os => '(v, a1) ← a_step o a; '(vs, a2) ← a_steps os a1; mret (v :: vs, a2)
  end.

Lemma sim_map w {A B} (m : SM A) (f : A -> B) a r a' :
  sim w m a r a' -> sim w (x ← m; mret (f x)) a (f r) a'.
Proof. intros H. eapply sim_bind; [exact H|apply sim_ret]. Qed.

Lemma sim_then w {B} (m : SM unit) (v : B) a a' : sim w m a tt a' -> sim w (m;; mret v) a v a'.
Proof. intros H. eapply sim_bind; [exact H|apply sim_ret]. Qed.

Lemma refused_IsEOF w s a n : rel w s a -> refused n a = true -> IsEOF s n = true.
Proof.
  intros Hs H. unfold refused in H. apply andb_true_iff in H as [H H3].
  apply andb_true_iff in H as [H1%Z.leb_le H2%Z.leb_le]. now rewrite (IsEOF_spec w s a).
Qed.

(** The early return of Skip, ReadByte, ReadBytes and ReadBool. *)
Lemma sim_refused {A} w a n (r : A) (k : BinaryStream -> SM A) : refused n a = true ->
  sim w (s ← get; if IsEOF s n then mret r else k s) a r a.
Proof. intros H. apply sim_get. intros s Hs. rewrite (refused_IsEOF w s a n) by done. apply sim_ret. Qed.

Lemma guard_step_inv c v a r : guard_step c v a = Some r -> c = true /\ r = (v, a).
Proof. unfold guard_step. destruct c; [|discriminate]. intros [=]. auto. Qed.

Lemma avail_b_spec n a : avail_b n a = true -> 0 <= n /\ avail n a.
Proof. intros H. apply andb_true_iff in H as [?%Z.leb_le ?%Z.leb_le]. done. Qed.

Lemma room_b_spec n a : room_b n a = true -> 0 <= n /\ room n a.
Proof. intros H. apply andb_true_iff in H as [?%Z.leb_le ?%Z.leb_le]. done. Qed.

Lemma forallb_bytes d : forallb (fun b => (0 <=? b) && (b <? 256)) d = true -> Forall is_byte d.
Proof.
  intros H. apply Forall_forall. intros x Hx. rewrite forallb_forall in H.
  specialize (H x Hx). unfold is_byte. lia.
Qed.

#[export] Hint Resolve sim_Align sim_Seek sim_SeekToEnd sim_WriteByte sim_WriteBytes sim_WriteZeroes
  sim_WriteBool sim_ReadByte sim_ReadBytes sim_ReadUInt16 sim_ReadUInt32 sim_ReadBool : bytes.

Lemma a_step_sim {host : Host} o a v a' : a_step o a = Some (v, a') -> sim true (perform o) a v a'.
Proof.
  destruct o; cbn [a_step perform]; intros H;
    repeat match type of H with (if ?c then _ else _) = _ => destruct c eqn:? end;
    try apply guard_step_inv in H as [G H]; injection H as ? ?; subst;
    repeat match goal with
    | G : andb _ _ = true |- _ => apply andb_true_iff in G as [? ?]
    | G : avail_b _ _ = true |- _ => apply avail_b_spec in G as [? ?]
    | G : room_b _ _ = true |- _ => apply room_b_spec in G as [? ?]
    | G : Z.eqb _ _ = true |- _ => apply Z.eqb_eq in G
    | G : Z.leb _ _ = true |- _ => apply Z.leb_le in G
    end.
  all: try apply sim_then.
  all: try (apply (sim_map true _ VBool)); try (apply (sim_map true _ VNum));
    try (apply (sim_map true _ VBytes)).
  all: auto using forallb_bytes with bytes.
  - exact (sim_Seek true a 0 ltac:(done)).
  - now apply (sim_refused true _ n).
  - apply sim_Skip; [done..|]. now apply avail_unaligned.
  - now apply (sim_refused true _ 1).
  - now apply (sim_refused true _ n).
  - now apply (sim_refused true _ 1).
Qed.

Lemma a_steps_sim {host : Host} os : forall a vs a',
  a_steps os a = Some (vs, a') -> sim true (performs os) a vs a'.
Proof.
  induction os as [|o os IH]; intros a vs a' H; cbn [a_steps performs] in *.
  { injection H as <- <-. apply sim_ret. }
  destruct (a_step o a) as [[v a1]|] eqn:E1; [|discriminate]. cbn in H.
  destruct (a_steps os a1) as [[vs' a2]|] eqn:E2; [|discriminate]. cbn in H. injection H as <- <-.
  eapply sim_bind; [exact (a_step_sim _ _ _ _ E1)|].
  eapply sim_bind; [exact (IH _ _ _ E2)|apply sim_ret].
Qed.

(** The bytes of a writable stream, copied out. *)
Lemma ToArray_rel s a : rel true s a -> ToArray s = Ret (map Some (a_bytes a)).
Proof.
  intros H. unfold ToArray. rewrite (rf_len s a (proj1 H)).
  pose proof (rf_max s a (proj1 H)). unfold max_len in *.
  rewrite alloc_ok by zlen. cbn [mbind outcome_bind]. unfold read_from.
  destruct (Z.eqb_spec (zlength (a_bytes a)) 0) as [E|E].
  { destruct (a_bytes a); [done|zlen]. }
  destruct (writable_backing s a (proj1 H) (proj2 H eq_refl)) as [slack Eb].
  destruct (m_buffer s) as [l|]; cbn in Eb.
  - subst l. cbn [mbind outcome_bind]. rewrite mem_read_ok by zlen. now rewrite zdrop_0, ztake_app_l by zlen.
  - destruct (a_bytes a); [zlen|discriminate].
Qed.

(** ** Capacity rounding *)

(** A value of which every bit below the leading one is set. *)
Lemma smear_ones x : 0 < x < 2 ^ 32 -> smear x = 2 ^ (Z.log2 x + 1) - 1.
Proof.
  intros Hx. assert (Hlog : Z.log2 x < 32) by (apply Z.log2_lt_pow2; lia).
  pose proof (Z.log2_nonneg x). pose proof (Z.log2_spec x ltac:(lia)) as [Hlo Hhi].
  pose proof (smear_bits x) as Hs. unfold smeared in Hs.
  replace (2 ^ (Z.log2 x + 1) - 1) with (Z.ones (Z.log2 x + 1)) by (rewrite Z.ones_equiv; lia).
  apply Z.bits_inj'; intros i Hi. apply eq_true_iff_eq. rewrite Hs by done. rewrite Z.ones_spec_iff by lia.
  split.
  - intros (d & Hd & Ht). destruct (decide (i <= Z.log2 x)); [lia|].
    rewrite Z.bits_above_log2 in Ht by lia. discriminate.
  - intros Hi2. exists (Z.log2 x - i). split; [lia|]. replace (i + (Z.log2 x - i)) with (Z.log2 x) by lia.
    apply Z.bit_log2. lia.
Qed.

(** For 1 <= n <= 2^32 the capacity computed by ToNextPowerOfTwo is the
    least power of two that is at least n. *)
Theorem capacity_is_least_power n : 1 <= n <= 4294967296 ->
  exists k, 0 <= k /\ ToNextPowerOfTwo n = 2 ^ k /\ n <= 2 ^ k /\
    forall j, 0 <= j -> n <= 2 ^ j -> 2 ^ k <= 2 ^ j.
Proof.
  intros Hn. rewrite ToNextPowerOfTwo_smear by (unfold max_len; lia).
  destruct (decide (n = 1)) as [->|Hne].
  { exists 0. split; [lia|]. split; [reflexivity|]. split; [lia|]. intros j Hj _.
    apply Z.pow_le_mono_r; lia. }
  rewrite smear_ones by (cbn; lia). exists (Z.log2 (n - 1) + 1).
  pose proof (Z.log2_nonneg (n - 1)). pose proof (Z.log2_spec (n - 1) ltac:(lia)) as [Hlo Hhi].
  unfold Z.succ in Hhi. split; [lia|]. split; [lia|]. split; [lia|]. intros j Hj Hnj.
  apply Z.pow_le_mono_r; [lia|]. destruct (decide (Z.log2 (n - 1) + 1 <= j)) as [|Hlt]; [done|].
  assert (2 ^ j <= 2 ^ Z.log2 (n - 1)) by (apply Z.pow_le_mono_r; lia). lia.
Qed.

Lemma capacity_is_least_power_witness : exists k, 0 <= k /\ ToNextPowerOfTwo 1200 = 2 ^ k /\ 1200 <= 2 ^ k /\
    forall j, 0 <= j -> 1200 <= 2 ^ j -> 2 ^ k <= 2 ^ j.
Proof. apply (capacity_is_least_power 1200). lia. Defined.

(** ** Round trip and refinement *)

#[local] Instance demo_host : Host := {| little_endian := true; or_left_first := true |}.

(** C13: a sequence of flags, integers, variable-length integers and strings in which the
    flags close their last byte (a field that is not a flag follows the last flag, or
    their number is a multiple of eight), written to a new stream of any capacity, is laid
    out as [wire] says whatever the byte order of the host (big-endian integers, flags
    packed eight to a byte from the top bit) and is read back unchanged from the
    beginning, when the compiler evaluates the operands of | from left to right. *)
Theorem stream_fields_roundtrip {host : Host} capacity fs :
  0 <= capacity <= max_len -> Forall field_ok fs -> fields_size fs < max_len ->
  pending [] fs = [] -> or_left_first = true ->
  exists s0 s1 s2 s3,
    BinaryStream_new capacity = Ret s0 /\ write_fields fs s0 = Ret (tt, s1) /\
    ToArray s1 = Ret (map Some (wire [] fs)) /\
    SeekToBegin s1 = Ret (tt, s2) /\ read_fields (map kind_of fs) s2 = Ret (fs, s3).
Proof.
  intros Hc Hf Hsz Hp Ho. destruct (BinaryStream_new_rel capacity Hc) as (s0 & E0 & H0).
  destruct (sim_write_fields fs [] [] Hf ltac:(zlen) ltac:(unfold roomy; zlen) Hp s0 H0) as (s1 & E1 & H1).
  destruct (sim_Seek true (at_end ([] ++ wire [] fs)) 0 eq_refl s1 H1) as (s2 & E2 & H2).
  replace (a_seek 0 _) with (reader [] [] (wire [] fs ++ [])) in H2
    by (unfold a_seek, reader; cbn; rewrite app_nil_r; f_equal; zlen).
  destruct (sim_read_fields true fs [] [] [] Hf ltac:(zlen) Ho) as [a' Ha'].
  destruct (Ha' s2 H2) as (s3 & E3 & _). exists s0, s1, s2, s3.
  now rewrite (ToArray_rel s1 _ H1).
Qed.

Lemma stream_fields_roundtrip_witness :
  let fs := [FBool true; FInt16 513; FVarint (-1); FString [104; 105]; FInt64 7] in
  exists s0 s1 s2 s3,
    BinaryStream_new 0 = Ret s0 /\ write_fields fs s0 = Ret (tt, s1) /\
    ToArray s1 = Ret (map Some (wire [] fs)) /\
    SeekToBegin s1 = Ret (tt, s2) /\ read_fields (map kind_of fs) s2 = Ret (fs, s3).
Proof.
  apply (stream_fields_roundtrip 0); [unfold max_len; lia| |reflexivity|reflexivity|reflexivity].
  repeat constructor; cbn; unfold is_byte; try lia.
Defined.

(** C22: BinaryStream implements the abstract stream: every sequence of writes,
    reads, skips and seeks that the abstract stream allows runs without fault
    and returns the abstract results, whatever the capacity and the slack
    behind it, and leaves a stream that again stands for the abstract one. *)
Theorem stream_refinement {host : Host} os s a vs a' :
  rel true s a -> a_steps os a = Some (vs, a') ->
  exists s', performs os s = Ret (vs, s') /\ rel true s' a' /\ ToArray s' = Ret (map Some (a_bytes a')).
Proof.
  intros Hs E. destruct (a_steps_sim os a vs a' E s Hs) as (s' & Es & Hs'). exists s'.
  split; [done|]. split; [done|]. now apply ToArray_rel.
Qed.

Lemma stream_refinement_witness :
  let os := [OWriteByte 7; OWriteBool true; OWriteBytes [1; 2; 3]; OSeekToBegin; OReadByte; OReadBool;
             OReadUInt16; OReadBytes 2; OSeek 3; OWriteByte 9] in
  exists s', performs os (mkStream None RoNull 0 0 0 0 false) =
      Ret ([VUnit; VUnit; VUnit; VUnit; VNum 7; VBool true; VNum 258; VBytes None; VUnit; VUnit], s') /\
    rel true s' (mkA [7; 128; 1; 9; 3] 4 0) /\
    ToArray s' = Ret (map Some (a_bytes (mkA [7; 128; 1; 9; 3] 4 0))).
Proof.
  apply (stream_refinement _ _ (at_end [])); [|vm_compute; reflexivity].
  now apply rel_empty.
Defined.

(** ** Where the stream leaves its documentation *)

(** IsEOF subtracts in size_t, so a request for more bytes than a stream
    holds passes the length check, and ReadBytes copies from outside the wrapped
    array instead of refusing. *)
Theorem oversized_read_leaves_the_array {host : Host} bs n :
  0 < zlength bs -> zlength bs < n -> n <= max_len ->
  exists s, BinaryStream_wrap (Ret (map Some bs)) (zlength bs) READONLY = Ret s /\
    IsEOF s n = false /\ ReadBytes n s = Fail OutOfBounds.
Proof.
  intros Hb Hn Hm. eexists. split; [reflexivity|]. unfold max_len in Hm.
  assert (E : IsEOF (mkStream None (RoUser (map Some bs)) (zlength bs) (zlength bs) 0 0 true) n = false).
  { unfold IsEOF. cbn. apply Z.ltb_ge. apply u64_range. }
  split; [exact E|]. unfold ReadBytes. rewrite bind_get, E. cbv beta iota.
  unfold Align. rewrite bind_modify. cbn [m_subBytePosition]. rewrite bind_get. cbn.
  unfold read_from. rewrite (proj2 (Z.eqb_neq n 0)) by lia. cbn [mbind outcome_bind].
  unfold mem_read. rewrite zlength_map, decide_False by lia. reflexivity.
Qed.

Lemma oversized_read_leaves_the_array_witness :
  exists s, BinaryStream_wrap (Ret (map Some [1; 2])) (zlength [1; 2]) READONLY = Ret s /\
    IsEOF s 6 = false /\ ReadBytes 6 s = Fail OutOfBounds.
Proof. apply (oversized_read_leaves_the_array [1; 2] 6); unfold zlength, max_len; cbn; lia. Defined.

(** Seek keeps the sub-byte position, so a single flag written to a new
    stream is not the flag read after SeekToBegin: the reader looks at the next
    bit of the byte and always returns false. *)
Theorem flag_lost_by_seek {host : Host} b :
  exists s, (WriteBool b;; SeekToBegin;; ReadBool) (mkStream None RoNull 0 0 0 0 false) = Ret (false, s).
Proof. destruct b; eexists; vm_compute; reflexivity. Qed.
