(* ===== verification/Config.v ===== *)
(** * Config: compile-time constants, enumerations and time

    Model of include/wirefox/WirefoxConfig.h, Enumerations.h and WirefoxTime.h
    with source/WirefoxTime.cpp.  A Timestamp and a Timespan are 64-bit
    nanosecond counts; Time::Now() is an argument of the operations that
    call it. *)

From stdpp Require Import base tactics numbers.
From Stdlib Require Import ZArith Lia.
From S2P Require Import Prelude.

Open Scope Z_scope.

(** ** namespace cfg *)

Definition WIREFOX_MAGIC : list Z := [87; 73; 82; 69; 70; 79; 88].
Definition WIREFOX_PROTOCOL_VERSION : Z := 0.
Definition MTU : Z := 1300.
Definition PACKETQUEUE_IN_LEN : Z := MTU.
Definition CONGESTION_WINDOW_SSTHRESH : Z := 65536.
Definition CONGESTION_RTT_HISTORY_LEN : Z := 32.
Definition PACKET_MAX_LENGTH : Z := 16777216.
Definition BINARYSTREAM_DEFAULT_CAPACITY : Z := 128.
Definition THREAD_SLEEP_PACKETQUEUE_TICK : Z := 5.
Definition CONNECT_RETRY_COUNT : Z := 4.
Definition CONNECT_RETRY_DELAY : Z := 2000.
Definition SEND_RETRY_COUNT : Z := 6.

(** ** Enumerations *)

Inductive ConnectResult : Type :=
  | IN_PROGRESS | CR_OK | CONNECT_FAILED | INCOMPATIBLE_PROTOCOL | INCOMPATIBLE_VERSION
  | INCOMPATIBLE_SECURITY | INCORRECT_REMOTE_IDENTITY | INCORRECT_PASSWORD | NO_FREE_SLOTS
  | ALREADY_CONNECTED | IP_RATE_LIMITED | BANNED.

Inductive ConnectionOrigin : Type := ORIGIN_INVALID | SELF | REMOTE.

Inductive ChannelMode : Type := UNORDERED | ORDERED | SEQUENCED.

#[export] Instance ConnectResult_eq_dec : EqDecision ConnectResult.
Proof. solve_decision. Defined.
#[export] Instance ConnectionOrigin_eq_dec : EqDecision ConnectionOrigin.
Proof. solve_decision. Defined.
#[export] Instance ChannelMode_eq_dec : EqDecision ChannelMode.
Proof. solve_decision. Defined.

(** PacketOptions: a bit mask in one byte. *)
Definition UNRELIABLE : Z := 0.
Definition RELIABLE : Z := 1.
Definition WITH_RECEIPT : Z := 2.

(** operator| and operator& of a bit mask enum. *)
Definition options_or (lhs rhs : Z) : Z := u8 (Z.lor lhs rhs).
Definition options_and (lhs rhs : Z) : bool := Z.land lhs rhs =? rhs.

(** PacketCommand: a byte; user commands start at USER_PACKET. *)
Definition PING : Z := 0.
Definition PONG : Z := 1.
Definition CONNECT_ATTEMPT : Z := 2.
Definition DISCONNECT_REQUEST : Z := 3.
Definition DISCONNECT_ACK : Z := 4.
Definition ADVERTISEMENT : Z := 5.
Definition RPC_SIGNAL : Z := 6.
Definition NOTIFY_CONNECT_SUCCESS : Z := 7.
Definition NOTIFY_CONNECT_FAILED : Z := 8.
Definition NOTIFY_CONNECTION_INCOMING : Z := 9.
Definition NOTIFY_CONNECTION_LOST : Z := 10.
Definition NOTIFY_DISCONNECTED : Z := 11.
Definition NOTIFY_RECEIPT_ACKED : Z := 12.
Definition NOTIFY_RECEIPT_LOST : Z := 13.
Definition NOTIFY_ADVERTISEMENT : Z := 14.
Definition USER_PACKET : Z := 15.

(** ** Time *)

Definition Timestamp_IsValid (t : Z) : bool := 0 <? t.
Definition Timestamp_add (t rhs : Z) : Z := u64 (t + rhs).
Definition Timestamp_sub (t rhs : Z) : Z := if t <? rhs then 0 else t - rhs.
Definition Elapsed (now test : Z) : bool := test <=? now.
Definition Between (lhs rhs : Z) : Z := if rhs <? lhs then u64 (lhs - rhs) else u64 (rhs - lhs).

Definition FromMilliseconds (milliseconds : Z) : Z := u64 (milliseconds * 1000000).
Definition FromSeconds (seconds : Z) : Z := u64 (seconds * 1000000000).
Definition ToMilliseconds (timespan : Z) : Z := s32 (Z.quot timespan 1000000).

Lemma Between_abs a b : 0 <= a < 18446744073709551616 -> 0 <= b < 18446744073709551616 ->
  Between a b = Z.abs (a - b).
Proof. intros Ha Hb. unfold Between. destruct (Z.ltb_spec b a); rewrite u64_small; lia. Qed.

Lemma options_and_bit lhs k : 0 <= k -> options_and lhs (2 ^ k) = Z.testbit lhs k.
Proof.
  intros Hk. unfold options_and. destruct (Z.testbit lhs k) eqn:E.
  - apply Z.eqb_eq, Z.bits_inj'; intros i Hi. rewrite Z.land_spec, Z.pow2_bits_eqb by lia.
    destruct (Z.eqb_spec k i) as [->|]; [now rewrite E|apply andb_false_r].
  - apply Z.eqb_neq. intros H. assert (Ht : Z.testbit (Z.land lhs (2 ^ k)) k = true)
      by (rewrite H; now apply Z.pow2_bits_true).
    rewrite Z.land_spec, E in Ht. discriminate.
Qed.
