(* ===== verification/PeerStats.v ===== *)
(** * PeerStats: per-connection counters

    Model of include/wirefox/PeerStats.h and source/PeerStats.cpp. *)

From stdpp Require Import base tactics gmap countable numbers.
From Stdlib Require Import ZArith Lia.
From S2P Require Import Prelude.

Open Scope Z_scope.

Inductive PeerStatID : Type :=
  | BYTES_SENT | BYTES_RECEIVED | BYTES_IN_FLIGHT | PACKETS_QUEUED | PACKETS_IN_QUEUE
  | PACKETS_SENT | PACKETS_RECEIVED | PACKETS_LOST | DATAGRAMS_SENT | DATAGRAMS_RECEIVED | CWND.

#[export] Instance PeerStatID_eq_dec : EqDecision PeerStatID.
Proof. solve_decision. Defined.

(** StrongEnumHash: the enumerator's number. *)
Definition stat_number (id : PeerStatID) : nat :=
  match id with
  | BYTES_SENT => 0 | BYTES_RECEIVED => 1 | BYTES_IN_FLIGHT => 2 | PACKETS_QUEUED => 3
  | PACKETS_IN_QUEUE => 4 | PACKETS_SENT => 5 | PACKETS_RECEIVED => 6 | PACKETS_LOST => 7
  | DATAGRAMS_SENT => 8 | DATAGRAMS_RECEIVED => 9 | CWND => 10
  end.

Definition stat_of_number (n : nat) : option PeerStatID :=
  [BYTES_SENT; BYTES_RECEIVED; BYTES_IN_FLIGHT; PACKETS_QUEUED; PACKETS_IN_QUEUE; PACKETS_SENT;
   PACKETS_RECEIVED; PACKETS_LOST; DATAGRAMS_SENT; DATAGRAMS_RECEIVED; CWND] !! n.

#[export] Instance PeerStatID_countable : Countable PeerStatID :=
  inj_countable stat_number stat_of_number ltac:(now intros []).

Record PeerStats : Type := mkStats { m_stats : gmap PeerStatID Z }.

Definition PeerStats_new : PeerStats := mkStats ∅.

Definition Stats_Get (s : PeerStats) (id : PeerStatID) : Z :=
  match m_stats s !! id with None => 0 | Some v => v end.

(** find, or emplace 0 and take the new entry *)
Definition find_or_create (id : PeerStatID) (m : gmap PeerStatID Z) : gmap PeerStatID Z :=
  match m !! id with None => <[id := 0]> m | Some _ => m end.

Definition Stats_Add (id : PeerStatID) (delta : Z) (s : PeerStats) : PeerStats :=
  let m := find_or_create id (m_stats s) in
  mkStats (alter (fun v => u64 (v + delta)) id m).

Definition Stats_Set (id : PeerStatID) (value : Z) (s : PeerStats) : PeerStats :=
  let m := find_or_create id (m_stats s) in
  mkStats (alter (fun _ => value) id m).

Lemma find_or_create_lookup id m j :
  find_or_create id m !! j = if decide (j = id) then Some (default 0 (m !! id)) else m !! j.
Proof.
  unfold find_or_create. destruct (decide (j = id)) as [->|Hne]; destruct (m !! id) eqn:E; try done.
  - now rewrite lookup_insert_eq.
  - now rewrite lookup_insert_ne.
Qed.

(** The observable effect of the two updates on every counter. *)
Lemma Stats_Add_Get id delta s j :
  Stats_Get (Stats_Add id delta s) j =
    if decide (j = id) then u64 (Stats_Get s id + delta) else Stats_Get s j.
Proof.
  unfold Stats_Get, Stats_Add; cbn [m_stats]. destruct (decide (j = id)) as [->|Hne].
  - rewrite lookup_alter_eq, find_or_create_lookup, decide_True by done. cbn. now destruct (m_stats s !! id).
  - rewrite lookup_alter_ne, find_or_create_lookup, decide_False by done. done.
Qed.

Lemma Stats_Set_Get id value s j :
  Stats_Get (Stats_Set id value s) j = if decide (j = id) then value else Stats_Get s j.
Proof.
  unfold Stats_Get, Stats_Set; cbn [m_stats]. destruct (decide (j = id)) as [->|Hne].
  - rewrite lookup_alter_eq, find_or_create_lookup, decide_True by done. done.
  - rewrite lookup_alter_ne, find_or_create_lookup, decide_False by done. done.
Qed.
