(* ===== verification/Packet.v ===== *)
(** * Packet: one message and its place in a datagram

    Model of include/wirefox/Packet.h and source/Packet.cpp. *)

From stdpp Require Import base tactics list list_numbers numbers option.
From Stdlib Require Import ZArith Lia.
From S2P Require Import Prelude Memory BinaryStream StreamSpec StreamCodec.

Open Scope Z_scope.

Record Packet : Type := mkPacket {
  pk_sender : Z;
  pk_command : Z;
  pk_length : Z;
  pk_data : option (list cell);
}.

(** CopyFrom(raw, count), raw being [src + off]. *)
Definition CopyFrom (src : outcome (list cell)) (off count : Z) : outcome (option (list cell)) :=
  match src with
  | Fail NullPointer => if off =? 0 then Ret None else if count =? 0 then Ret None else Fail NullPointer
  | _ =>
      if count =? 0 then Ret None
      else (_ ← alloc count; l ← src; data ← mem_read l off count; mret (Some data))
  end.

(** What a [unique_ptr<uint8_t[]>] dereferences to. *)
Definition data_ptr (d : option (list cell)) : outcome (list cell) :=
  match d with Some l => Ret l | None => Fail NullPointer end.

(** Packet(PacketCommand, const uint8_t*, size_t) *)
Definition Packet_from_buffer (cmd : Z) (src : outcome (list cell)) (datalen : Z) : outcome Packet :=
  d ← CopyFrom src 0 datalen; mret (mkPacket 0 cmd datalen d).

(** Packet(PacketCommand, const BinaryStream&) *)
Definition Packet_from_stream (cmd : Z) (data : BinaryStream) : outcome Packet :=
  d ← ToArray data; mret (mkPacket 0 cmd (m_length data) (Some d)).

(** Packet(PacketCommand, BinaryStream&&): the stream gives its array away. *)
Definition Packet_take_stream (cmd : Z) : SM Packet :=
  '(d, len) ← ReleaseBuffer; mret (mkPacket 0 cmd (default 0 len) d).

(** operator=(const Packet&) and the copy constructor *)
Definition Packet_copy (rhs : Packet) : outcome Packet :=
  d ← CopyFrom (data_ptr (pk_data rhs)) 0 (pk_length rhs);
  mret (mkPacket (pk_sender rhs) (pk_command rhs) (pk_length rhs) d).

(** operator=(Packet&&) on distinct objects: the target and what is left. *)
Definition Packet_move (rhs : Packet) : Packet * Packet := (rhs, mkPacket 0 0 0 None).

Definition GetStream (p : Packet) : outcome BinaryStream :=
  BinaryStream_wrap (data_ptr (pk_data p)) (pk_length p) READONLY.

Definition GetDatagramLength (p : Packet) : Z := u64 (pk_length p + 1).

Definition SetSender (sender : Z) (p : Packet) : Packet :=
  mkPacket sender (pk_command p) (pk_length p) (pk_data p).

Section Datagram.
Context {host : Host}.

Definition ToDatagram (p : Packet) : SM unit :=
  WriteByte (pk_command p);;
  match pk_data p with
  | Some l =>
      if 0 <? pk_length p
      then (data ← lift (mem_read l 0 (pk_length p)); WriteBytes data)
      else mret tt
  | None => mret tt
  end.

Definition FromDatagram (sender len : Z) : SM Packet :=
  cmd ← ReadByte;
  s ← get;
  d ← lift (CopyFrom (deref_ro s) (m_position s) (u64 (len - 1)));
  Skip (u64 (len - 1));;
  mret (mkPacket sender cmd (u64 (len - 1)) d).
End Datagram.

(** ** What a packet holds *)

(** [holds p cmd payload]: p is the message [cmd] with [payload]; its array may
    be longer than the payload. *)
Record holds (p : Packet) (cmd : Z) (payload : list Z) : Prop := {
  hd_cmd : pk_command p = cmd;
  hd_len : pk_length p = zlength payload;
  hd_data : payload <> [] -> exists slack, pk_data p = Some (map Some payload ++ slack);
}.

Definition payload_ptr (payload : list Z) : option (list cell) :=
  match payload with [] => None | _ => Some (map Some payload) end.

Lemma holds_exact sender cmd payload :
  holds (mkPacket sender cmd (zlength payload) (payload_ptr payload)) cmd payload.
Proof. split; [done|done|]. intros H. exists []. destruct payload; [done|]. cbn. now rewrite app_nil_r. Qed.

Lemma CopyFrom_ok l off payload rest :
  zdrop off l = map Some payload ++ rest -> 0 <= off <= zlength l -> zlength payload <= max_len ->
  CopyFrom (Ret l) off (zlength payload) = Ret (payload_ptr payload).
Proof.
  intros E Hoff Hmax. unfold CopyFrom, max_len in *.
  destruct (Z.eqb_spec (zlength payload) 0) as [E0|Hne].
  { destruct payload; [done|zlen]. }
  assert (Hl : zlength l - off = zlength payload + zlength rest)
    by (rewrite <- (zlength_zdrop off l) by lia; rewrite E; zlen).
  rewrite alloc_ok by zlen. cbn [mbind outcome_bind]. rewrite mem_read_ok by zlen.
  rewrite E, ztake_app_l by zlen. now destruct payload.
Qed.

Lemma CopyFrom_nil src off : CopyFrom src off 0 = Ret None.
Proof. unfold CopyFrom. destruct src as [|[]]; try done. now destruct (off =? 0). Qed.

(** ** Theorems *)

(** Copying a packet copies the message. *)
Lemma Packet_copy_holds p cmd payload : holds p cmd payload -> zlength payload <= max_len ->
  exists q, Packet_copy p = Ret q /\ holds q cmd payload /\ pk_sender q = pk_sender p.
Proof.
  intros [Hc Hl Hd] Hm. unfold Packet_copy. rewrite Hl. destruct payload as [|b r] eqn:Ep.
  - rewrite CopyFrom_nil. eexists. split; [reflexivity|]. split; [|done]. split; cbn; done.
  - rewrite <- Ep in *. destruct (Hd ltac:(now rewrite Ep)) as [slack ->]. cbn [data_ptr].
    rewrite (CopyFrom_ok _ 0 payload slack) by (rewrite ?zdrop_0; try done; zlen).
    eexists. split; [reflexivity|]. split; [|done]. rewrite Hc. apply holds_exact.
Qed.

(** The constructor that takes the array of a stream. *)
Lemma Packet_take_stream_holds cmd s a : rel true s a ->
  exists p s', Packet_take_stream cmd s = Ret (p, s') /\ holds p cmd (a_bytes a) /\ pk_sender p = 0.
Proof.
  intros [H Hw]. specialize (Hw eq_refl). destruct (writable_backing s a H Hw) as [slack Eb].
  unfold Packet_take_stream, ReleaseBuffer. unfold mbind, st_bind, get, put, mret, st_ret, Align, modify.
  rewrite (wr_mode s Hw). eexists _, _. split; [reflexivity|]. split; [|done]. split; cbn; [done| |].
  - destruct (0 <? m_subBytePosition s); cbn; apply (rf_len s a H).
  - intros Hne. exists slack. destruct (0 <? m_subBytePosition s); cbn; (destruct (m_buffer s); [cbn in Eb; congruence|]);
      destruct (a_bytes a); done.
Qed.

Section DatagramFacts.
Context {host : Host}.

Lemma sim_ToDatagram p cmd payload a bs : holds p cmd payload -> is_byte cmd -> Forall is_byte payload ->
  appending a bs -> roomy (1 + zlength payload) bs ->
  sim true (ToDatagram p) a tt (at_end (bs ++ cmd :: payload)).
Proof.
  intros [Hc Hl Hd] Hcmd Hp Ha Hr. unfold ToDatagram, roomy in *. pose proof (zlength_nonneg payload).
  eapply sim_bind; [apply sim_app_byte; [done|unfold roomy; lia]|].
  rewrite Hc, u8_small, Hl, (app_snoc_cons _ _ payload) by done. destruct payload as [|b r] eqn:Ep.
  - rewrite app_nil_r. destruct (pk_data p); apply sim_ret.
  - rewrite <- Ep in *. destruct (Hd ltac:(now rewrite Ep)) as [slack ->].
    rewrite (proj2 (Z.ltb_lt 0 (zlength payload))) by (rewrite Ep; zlen). cbv beta iota.
    intros s Hs. rewrite (bind_lift _ _ _ (map Some payload)).
    + apply (sim_app_bytes (at_end (bs ++ [cmd])) (bs ++ [cmd])); [constructor|done|unfold roomy; zlen|done].
    + rewrite mem_read_ok by zlen. now rewrite zdrop_0, ztake_app_l by zlen.
Qed.

Lemma sim_FromDatagram w sender a p cmd payload r :
  reading a p (cmd :: payload ++ r) -> zlength payload < 4294967296 ->
  sim w (FromDatagram sender (1 + zlength payload)) a
    (mkPacket sender cmd (zlength payload) (payload_ptr payload)) (cursor (p ++ cmd :: payload) r).
Proof.
  intros Ha Hlen. unfold FromDatagram. pose proof (zlength_nonneg payload).
  eapply sim_bind; [apply sim_rd_byte; exact Ha|]. apply sim_get. intros s Hs.
  replace (1 + zlength payload - 1) with (zlength payload) by lia. rewrite u64_small by lia.
  pose proof (rf_max s _ (proj1 Hs)) as Hm. cbn in Hm.
  assert (Ecopy : CopyFrom (deref_ro s) (m_position s) (zlength payload) = Ret (payload_ptr payload)).
  { destruct payload as [|b l] eqn:Ep; [apply CopyFrom_nil|]. rewrite <- Ep in *.
    destruct (rf_cells s _ (proj1 Hs)) as [slack ->]; [cbn; now destruct p|].
    rewrite (rf_pos s _ (proj1 Hs)). cbn.
    apply (CopyFrom_ok _ _ payload (map Some r ++ slack)); [|zlen|zlen].
    rewrite zdrop_le_app, zdrop_map by zlen. rewrite zdrop_app_l by done. now rewrite map_app, <- app_assoc. }
  intros s0 Hs0. rewrite (bind_lift _ _ _ _ Ecopy). revert s0 Hs0.
  eapply sim_bind; [apply sim_Skip; [lia|done|cbn; zlen]|].
  replace (mkA _ _ 0) with (cursor (p ++ cmd :: payload) r); [apply sim_ret|].
  unfold cursor. cbn. f_equal; [now rewrite <- !app_assoc|zlen].
Qed.
End DatagramFacts.

(** A packet of any command and payload survives the datagram: ToDatagram
    appends the command byte and the payload, GetDatagramLength is the number of
    bytes appended, and FromDatagram with that length reads the same command and
    payload back, tags them with the sender and stops right after them. *)
Theorem packet_datagram_roundtrip {host : Host} pkt cmd payload sender pre post :
  holds pkt cmd payload -> is_byte cmd -> Forall is_byte payload -> zlength payload < 4294967296 ->
  roomy (1 + zlength payload) pre ->
  sim true (ToDatagram pkt) (at_end pre) tt (at_end (pre ++ cmd :: payload)) /\
  GetDatagramLength pkt = zlength (cmd :: payload) /\
  exists pkt', sim false (FromDatagram sender (GetDatagramLength pkt)) (cursor pre ((cmd :: payload) ++ post))
      pkt' (cursor (pre ++ cmd :: payload) post) /\
    holds pkt' cmd payload /\ pk_sender pkt' = sender.
Proof.
  intros Hh Hc Hp Hl Hr. pose proof (zlength_nonneg payload).
  assert (Elen : GetDatagramLength pkt = 1 + zlength payload).
  { unfold GetDatagramLength. rewrite (hd_len _ _ _ Hh), u64_small by lia. lia. }
  split; [apply sim_ToDatagram; auto; constructor|]. split; [rewrite Elen; zlen|].
  eexists. rewrite Elen. split; [apply sim_FromDatagram; [constructor|done]|].
  split; [apply holds_exact|done].
Qed.

#[local] Instance demo_host : Host := {| little_endian := true; or_left_first := true |}.

Lemma packet_datagram_roundtrip_witness :
  let pkt := mkPacket 0 20 2 (Some [Some 5; Some 6; None]) in
  sim true (ToDatagram pkt) (at_end [9]) tt (at_end ([9] ++ [20; 5; 6])) /\
  GetDatagramLength pkt = zlength [20; 5; 6] /\
  exists pkt', sim false (FromDatagram 77 (GetDatagramLength pkt)) (cursor [9] ([20; 5; 6] ++ [1; 2]))
      pkt' (cursor ([9] ++ [20; 5; 6]) [1; 2]) /\
    holds pkt' 20 [5; 6] /\ pk_sender pkt' = 77.
Proof.
  apply (packet_datagram_roundtrip (mkPacket 0 20 2 (Some [Some 5; Some 6; None])) 20 [5; 6] 77 [9] [1; 2]).
  - split; [reflexivity|reflexivity|]. intros _. now exists [None].
  - unfold is_byte. lia.
  - repeat constructor; unfold is_byte; lia.
  - reflexivity.
  - unfold roomy, max_len. vm_compute. discriminate.
Defined.
