(* ===== verification/Headers.v ===== *)
(** * Headers: the packet header and the datagram header

    Model of source/PacketHeader.{h,cpp} and source/DatagramHeader.{h,cpp}.
    Deserialize fills in the object it is called on, so it takes the old
    header and returns the new one; fields it does not read keep their value. *)

From stdpp Require Import base tactics list list_numbers numbers option.
From Stdlib Require Import ZArith Lia.
From S2P Require Import Prelude Memory BinaryStream StreamSpec StreamCodec StreamTheorems Config.

Open Scope Z_scope.

Record PacketHeader : Type := mkPH {
  flag_segment : bool;
  flag_jumbo : bool;
  ph_id : Z;
  ph_options : Z;
  ph_channel : Z;
  ph_sequence : Z;
  ph_length : Z;
  ph_offset : Z;
  splitContainer : Z;
  splitIndex : Z;
}.

(** PacketHeader() = default *)
Definition PacketHeader_default : PacketHeader := mkPH false false 0 UNRELIABLE 0 0 0 0 0 0.

Record DatagramHeader : Type := mkDH {
  flag_data : bool;
  flag_link : bool;
  dh_acks : list Z;
  dh_nacks : list Z;
  datagramID : Z;
  dataLength : Z;
}.

Definition DatagramHeader_default : DatagramHeader := mkDH false false [] [] 0 0.

Section Headers.
Context {host : Host}.

Definition PacketHeader_Serialize (h : PacketHeader) : SM unit :=
  WriteBool (flag_segment h);;
  WriteBool (flag_jumbo h);;
  WriteInt32 (ph_id h);;
  WriteByte (ph_options h);;
  WriteByte (ph_channel h);;
  (if ph_channel h =? 0 then mret tt else WriteInt32 (ph_sequence h));;
  (if flag_jumbo h
   then WriteInt32 (ph_length h);; WriteInt32 (ph_offset h)
   else WriteInt16 (Z.land (ph_length h) 65535);; WriteInt16 (Z.land (ph_offset h) 65535));;
  if flag_segment h || (0 <? ph_offset h)
  then WriteInt32 (splitContainer h);; WriteInt32 (splitIndex h)
  else mret tt.

Definition PacketHeader_Deserialize (h : PacketHeader) : SM (bool * PacketHeader) :=
  s ← get;
  if IsEOF s 7 then mret (false, h) else
  seg ← ReadBool;
  jumbo ← ReadBool;
  id ← ReadUInt32;
  options ← ReadByte;
  channel ← ReadByte;
  sequence ← (if channel =? 0 then mret (ph_sequence h) else ReadUInt32);
  let h := mkPH seg jumbo id options channel sequence (ph_length h) (ph_offset h)
             (splitContainer h) (splitIndex h) in
  s ← get;
  if IsEOF s (if jumbo then 8 else 4) then mret (false, h) else
  length ← (if jumbo then ReadUInt32 else ReadUInt16);
  offset ← (if jumbo then ReadUInt32 else ReadUInt16);
  let h := mkPH seg jumbo id options channel sequence length offset (splitContainer h) (splitIndex h) in
  let ok := (length <=? PACKET_MAX_LENGTH) && (offset <? PACKET_MAX_LENGTH) in
  if seg || (0 <? offset) then
    s ← get;
    if IsEOF s 8 then mret (false, h) else
    container ← ReadUInt32;
    index ← ReadUInt32;
    mret (ok, mkPH seg jumbo id options channel sequence length offset container index)
  else mret (ok, h).

(** for (auto id : acks) outstream.WriteInt32(id); *)
Fixpoint write_ids (ids : list Z) : SM unit :=
  match ids with [] => mret tt | id :: ids => WriteInt32 id;; write_ids ids end.

(** A non-empty ack or nak list: its length less one, capped at 255, and
    every element. *)
Definition write_id_list (ids : list Z) : SM unit :=
  match ids with
  | [] => mret tt
  | _ => WriteByte (u8 (Z.min (zlength ids) 256 - 1));; write_ids ids
  end.

Definition DatagramHeader_Serialize (h : DatagramHeader) : SM unit :=
  WriteBool (flag_data h);;
  WriteBool (flag_link h);;
  WriteBool (negb (bool_decide (dh_acks h = [])));;
  WriteBool (negb (bool_decide (dh_nacks h = [])));;
  WriteInt32 (datagramID h);;
  write_id_list (dh_acks h);;
  write_id_list (dh_nacks h);;
  if flag_data h then WriteInt16 (u16 (dataLength h)) else mret tt.

Fixpoint read_ids (n : nat) : SM (list Z) :=
  match n with
  | O => mret []
  | S n => id ← ReadUInt32; ids ← read_ids n; mret (id :: ids)
  end.

Definition read_id_list (present : bool) (old : list Z) : SM (list Z) :=
  if present then n ← ReadByte; read_ids (Z.to_nat (n + 1)) else mret old.

Definition DatagramHeader_Deserialize (h : DatagramHeader) : SM (bool * DatagramHeader) :=
  s ← get;
  if IsEOF s 5 then mret (false, h) else
  data ← ReadBool;
  link ← ReadBool;
  hasAcks ← ReadBool;
  hasNacks ← ReadBool;
  id ← ReadUInt32;
  acks ← read_id_list hasAcks (dh_acks h);
  nacks ← read_id_list hasNacks (dh_nacks h);
  let h := mkDH data link acks nacks id (dataLength h) in
  if data then
    s ← get;
    if IsEOF s 4 then mret (false, h) else
    len ← ReadUInt16;
    let h := mkDH data link acks nacks id len in
    s ← get;
    mret (negb (IsEOF s len), h)
  else mret (true, h).
End Headers.

(** ** The wire format *)

Definition wire_packet_header (h : PacketHeader) : list Z :=
  [pack [flag_segment h; flag_jumbo h]] ++ be_bytes 4 (ph_id h) ++ [ph_options h] ++ [ph_channel h] ++
  (if ph_channel h =? 0 then [] else be_bytes 4 (ph_sequence h)) ++
  (if flag_jumbo h then be_bytes 4 (ph_length h) ++ be_bytes 4 (ph_offset h)
   else be_bytes 2 (ph_length h) ++ be_bytes 2 (ph_offset h)) ++
  (if flag_segment h || (0 <? ph_offset h) then be_bytes 4 (splitContainer h) ++ be_bytes 4 (splitIndex h) else []).

(** Values in range, and a length that fits the width the flag selects. *)
Record ph_ok (h : PacketHeader) : Prop := {
  phok_id : 0 <= ph_id h < 4294967296;
  phok_options : is_byte (ph_options h);
  phok_channel : is_byte (ph_channel h);
  phok_sequence : 0 <= ph_sequence h < 4294967296;
  phok_container : 0 <= splitContainer h < 4294967296;
  phok_index : 0 <= splitIndex h < 4294967296;
  phok_length : 0 <= ph_length h <= PACKET_MAX_LENGTH;
  phok_offset : 0 <= ph_offset h < PACKET_MAX_LENGTH;
  phok_small : flag_jumbo h = false -> ph_length h < 65536 /\ ph_offset h < 65536;
}.

(** The header a reader whose object was [old] ends up with. *)
Definition ph_merge (old h : PacketHeader) : PacketHeader :=
  mkPH (flag_segment h) (flag_jumbo h) (ph_id h) (ph_options h) (ph_channel h)
    (if ph_channel h =? 0 then ph_sequence old else ph_sequence h) (ph_length h) (ph_offset h)
    (if flag_segment h || (0 <? ph_offset h) then splitContainer h else splitContainer old)
    (if flag_segment h || (0 <? ph_offset h) then splitIndex h else splitIndex old).

Definition wire_ids (ids : list Z) : list Z := flat_map (be_bytes 4) ids.
Definition wire_id_list (ids : list Z) : list Z :=
  match ids with [] => [] | _ => (Z.min (zlength ids) 256 - 1) :: wire_ids ids end.

Definition dh_flags (h : DatagramHeader) : list bool :=
  [flag_data h; flag_link h; negb (bool_decide (dh_acks h = [])); negb (bool_decide (dh_nacks h = []))].

Definition wire_datagram_header (h : DatagramHeader) : list Z :=
  [pack (dh_flags h)] ++ be_bytes 4 (datagramID h) ++ wire_id_list (dh_acks h) ++
  wire_id_list (dh_nacks h) ++ (if flag_data h then be_bytes 2 (dataLength h) else []).

(** ** The length of a written stream *)

(** Writing never makes a stream shorter. *)
Definition lengthens {A} (m : SM A) : Prop := forall s a s', m s = Ret (a, s') -> m_length s <= m_length s'.

Lemma lengthens_bind {A B} (m : SM A) (k : A -> SM B) : lengthens m -> (forall a, lengthens (k a)) -> lengthens (m ≫= k).
Proof. intros Hm Hk s b s' E. run_step E. apply Hm in E0. apply Hk in E. lia. Qed.
Lemma lengthens_get {A} (k : BinaryStream -> SM A) : (forall s, lengthens (k s)) -> lengthens (get ≫= k).
Proof. intros Hk s a s' E. run_step E. exact (Hk _ _ _ _ E). Qed.
Lemma lengthens_ret {A} (a : A) : lengthens (mret a).
Proof. intros s b s' E. run_step E. lia. Qed.
Lemma lengthens_lift {A} (o : outcome A) : lengthens (lift o).
Proof. intros s b s' E. run_step E. lia. Qed.
Lemma lengthens_modify f : (forall s, m_length s <= m_length (f s)) -> lengthens (modify f).
Proof. intros H s b s' E. run_step E. apply H. Qed.

Lemma Align_lengthens : lengthens Align.
Proof. intros s a s' E. unfold Align in E. run_step E. destruct (0 <? _); cbn; lia. Qed.
Lemma Ensure_lengthens n : lengthens (Ensure n).
Proof. intros s a s' E. unfold Ensure, Reallocate in E. run_all; cbn; lia. Qed.
Lemma store_lengthens off d : lengthens (store off d).
Proof. intros s a s' E. unfold store in E. run_all; cbn; lia. Qed.
Lemma advance_lengthens n : lengthens (advance n).
Proof. intros s a s' E. unfold advance in E. run_step E. cbn. lia. Qed.

Create HintDb lengthens.
#[export] Hint Constants Opaque : lengthens.
#[export] Hint Resolve Align_lengthens Ensure_lengthens store_lengthens advance_lengthens : lengthens.
Ltac lengthening := repeat
  lazymatch goal with
  | |- lengthens (mret _) => apply lengthens_ret
  | |- lengthens (lift _) => apply lengthens_lift
  | |- lengthens (get ≫= _) => apply lengthens_get; intros ?
  | |- lengthens (_ ≫= _) => apply lengthens_bind; [|intros ?]
  | |- lengthens (match ?x with _ => _ end) => destruct x
  | |- lengthens _ => solve [auto with lengthens nocore]
  end.

Lemma WriteByte_lengthens v : lengthens (WriteByte v).
Proof. unfold WriteByte. lengthening. Qed.
Lemma WriteBytes_lengthens d : lengthens (WriteBytes d).
Proof. unfold WriteBytes. lengthening. Qed.
#[export] Hint Resolve WriteByte_lengthens WriteBytes_lengthens : lengthens.
Lemma WriteInt16_lengthens {host : Host} v : lengthens (WriteInt16 v).
Proof. apply WriteBytes_lengthens. Qed.
Lemma WriteInt32_lengthens {host : Host} v : lengthens (WriteInt32 v).
Proof. apply WriteBytes_lengthens. Qed.
#[export] Hint Resolve WriteInt16_lengthens WriteInt32_lengthens : lengthens.
Lemma WriteBool_lengthens b : lengthens (WriteBool b).
Proof. unfold WriteBool. lengthening. apply lengthens_modify. intros t. destruct (7 <? _); cbn; lia. Qed.
#[export] Hint Resolve WriteBool_lengthens : lengthens.

Lemma WriteBool_nonempty b s u s' : WriteBool b s = Ret (u, s') -> m_readonly s = false -> m_position s = 0 -> 0 < m_length s'.
Proof.
  unfold WriteBool. intros E Hr Hp. run_step E. rewrite Hr in E. apply bind_inv in E as (u1 & s1 & E1 & E).
  assert (P1 : m_position s1 = 0) by (unfold Ensure, Reallocate in E1; run_all; done). clear E1. run_step E.
  assert (Hst : forall off d s a s', store off d s = Ret (a, s') -> m_position s' = m_position s) by (clear; intros off d s a s' ES; unfold store in ES; run_all; done).
  apply bind_inv in E as (u2 & s2 & E2 & E). assert (P2 : m_position s2 = 0) by (destruct (_ =? 0); [apply Hst in E2; congruence|run_all; done]). run_step E.
  apply bind_inv in E as (u3 & s3 & E3 & E). assert (P3 : m_position s3 = 0) by (destruct b; run_all; try done; erewrite Hst; eassumption). run_step E. rewrite P3.
  change (u64 (0 + 1)) with 1. destruct (7 <? _); cbn; lia.
Qed.

(** A serialised header is not empty. *)
Lemma PacketHeader_Serialize_nonempty {host : Host} h s u s' : PacketHeader_Serialize h s = Ret (u, s') -> m_readonly s = false -> m_position s = 0 -> 0 < m_length s'.
Proof.
  unfold PacketHeader_Serialize. intros E Hr Hp. run_step E. pose proof (WriteBool_nonempty _ _ _ _ E0 Hr Hp) as H1. revert E.
  match goal with |- ?m _ = _ -> _ => enough (L : lengthens m) by (intros E; apply L in E; lia) end. lengthening.
Qed.

(** ** Proof automation for header codecs *)

Lemma sim_eq w {A} (m : SM A) a r a1 a2 : sim w m a r a1 -> a1 = a2 -> sim w m a r a2.
Proof. now intros ? <-. Qed.

Ltac roomy_lia := unfold roomy in *; zlen.

(** One append at the end of the stream. *)
Ltac wr_step :=
  match goal with
  | |- sim _ (WriteInt32 _) _ _ _ => apply sim_app_int32; [constructor; zlen|roomy_lia]
  | |- sim _ (WriteInt16 _) _ _ _ => apply sim_app_int16; [constructor; zlen|roomy_lia]
  | |- sim _ (WriteByte _) _ _ _ => apply sim_app_byte; [constructor; zlen|roomy_lia]
  | |- sim _ (WriteBool _) (at_end _) _ _ => apply sim_app_bool_first; roomy_lia
  | |- sim _ (WriteBool _) (at_bits _ _) _ _ => apply sim_app_bool_next; [roomy_lia|zlen]
  | |- sim _ (mret _) _ _ _ => apply sim_ret
  end.

(** A sequence of them. *)
Ltac wr_all :=
  lazymatch goal with
  | |- sim _ (_ ≫= _) _ _ _ => eapply sim_bind; [wr_all|cbv beta; wr_all]
  | _ => wr_step
  end.

(** One read at the cursor, the next bytes being the field's. *)
Ltac rd_step :=
  match goal with
  | |- sim _ ReadUInt32 _ _ _ => eapply sim_rd_uint32; econstructor; lia
  | |- sim _ ReadUInt16 _ _ _ => eapply sim_rd_uint16; econstructor; lia
  | |- sim _ ReadByte _ _ _ => eapply sim_rd_byte; econstructor; lia
  | |- sim _ (mret _) _ _ _ => apply sim_ret
  end.

Ltac rd := eapply sim_bind; [rd_step|cbv beta].

(** A length check that passes. *)
Lemma sim_eof_check w {A} n a (r : A) a' e (k : SM A) : 0 <= n -> a_pos a + n <= zlength (a_bytes a) ->
  sim w k a r a' -> sim w (s ← get; if IsEOF s n then mret e else k) a r a'.
Proof. intros Hn Hle H. apply sim_get. intros s Hs. now rewrite (IsEOF_false w s a). Qed.

Section HeaderFacts.
Context {host : Host}.

Lemma land_u16 v : be_bytes 2 (Z.land v 65535) = be_bytes 2 v.
Proof.
  change 65535 with (Z.ones 16). rewrite Z.land_ones by lia.
  change (2 ^ 16) with (2 ^ (8 * Z.of_nat 2)). apply (be_bytes_mod 2 2). lia.
Qed.

Lemma sim_PacketHeader_Serialize bs h : ph_ok h -> roomy 64 bs ->
  sim true (PacketHeader_Serialize h) (at_end bs) tt (at_end (bs ++ wire_packet_header h)).
Proof.
  intros [] Hr. unfold PacketHeader_Serialize, wire_packet_header.
  destruct (ph_channel h =? 0), (flag_jumbo h), (flag_segment h || (0 <? ph_offset h));
    (eapply sim_eq; [wr_all|]); rewrite ?land_u16, !u8_small by done; cbn [app];
    rewrite <- !app_assoc; reflexivity.
Qed.

(** Two flag bits at the head of a flag byte. *)
Lemma sim_rd_two_bits w {A} p b1 b2 more r (k : bool -> bool -> SM A) v a' :
  zlength (b1 :: b2 :: more) <= 8 ->
  sim w (k b1 b2) (mkA (p ++ pack (b1 :: b2 :: more) :: r) (zlength p) 2) v a' ->
  sim w (x ← ReadBool; y ← ReadBool; k x y) (cursor p (pack (b1 :: b2 :: more) :: r)) v a'.
Proof.
  intros Hl Hk.
  pose proof (sim_rd_bool w _ p (pack (b1 :: b2 :: more)) r 0 ltac:(lia) eq_refl) as H0.
  pose proof (sim_rd_bool w _ p (pack (b1 :: b2 :: more)) r 1 ltac:(lia) eq_refl) as H1.
  rewrite (read_packed _ 0 b1) in H0 by (done || lia). rewrite (read_packed _ 1 b2) in H1 by (done || lia).
  eapply sim_bind; [exact H0|]. eapply sim_bind; [exact H1|exact Hk].
Qed.

Lemma ph_sanity h : ph_ok h ->
  (ph_length h <=? PACKET_MAX_LENGTH) && (ph_offset h <? PACKET_MAX_LENGTH) = true.
Proof. intros []. apply andb_true_iff. split; [apply Z.leb_le|apply Z.ltb_lt]; lia. Qed.

Lemma sim_PacketHeader_Deserialize w old p h r : ph_ok h ->
  sim w (PacketHeader_Deserialize old) (cursor p (wire_packet_header h ++ r)) (true, ph_merge old h)
    (cursor (p ++ wire_packet_header h) r).
Proof.
  intros Hok. pose proof (ph_sanity h Hok) as Hs. destruct Hok as [H1 H2 H3 H4 H5 H6 H7 H8 H9].
  unfold PACKET_MAX_LENGTH in H7, H8. unfold PacketHeader_Deserialize, wire_packet_header, ph_merge.
  destruct (ph_channel h =? 0) eqn:Ec, (flag_jumbo h) eqn:Ej; cbn [app]; rewrite <- ?app_assoc; cbn [app];
  (apply sim_eof_check; [lia|destruct (flag_segment h || _); cbn; zlen|]; apply sim_rd_two_bits; [zlen|];
   do 3 rd; rewrite Ec; rd; cbv zeta; apply sim_eof_check; [lia|cbn; zlen|]; do 2 rd).
  all: rewrite ?(u16_small (ph_length h)), ?(u16_small (ph_offset h)), ?(u32_small (ph_length h)),
    ?(u32_small (ph_offset h)), ?(u32_small (ph_id h)), ?(u32_small (ph_sequence h)) by lia.
  all: cbn [flag_segment ph_offset splitContainer splitIndex]; rewrite Hs.
  all: destruct (flag_segment h || (0 <? ph_offset h)).
  all: try (apply sim_eof_check; [lia|cbn; zlen|]; rewrite <- ?app_assoc; do 2 rd;
    rewrite (u32_small (splitContainer h)), (u32_small (splitIndex h)) by lia).
  all: eapply sim_eq; [apply sim_ret|rewrite <- ?app_assoc; cbn [app]; rewrite <- ?app_assoc; reflexivity].
Qed.

Lemma zlength_wire_ids ids : zlength (wire_ids ids) = 4 * zlength ids.
Proof. induction ids as [|x l IH]; [done|].
  change (wire_ids (x :: l)) with (be_bytes 4 x ++ wire_ids l).
  rewrite zlength_app, IH, be_bytes_length, zlength_cons. lia.
Qed.

Definition ids_size (ids : list Z) : Z := 1 + 4 * zlength ids.

Lemma zlength_wire_id_list ids : zlength (wire_id_list ids) <= ids_size ids.
Proof.
  unfold wire_id_list, ids_size. destruct ids as [|x l]; [zlen|].
  rewrite zlength_cons, zlength_wire_ids. lia.
Qed.

Lemma sim_write_ids ids : forall bs, roomy (4 * zlength ids) bs ->
  sim true (write_ids ids) (at_end bs) tt (at_end (bs ++ wire_ids ids)).
Proof.
  induction ids as [|x l IH]; intros bs Hr; cbn [write_ids].
  { rewrite app_nil_r. apply sim_ret. }
  rewrite zlength_cons in Hr. pose proof (zlength_nonneg l). unfold roomy in Hr.
  eapply sim_bind; [wr_step|]. change (wire_ids (x :: l)) with (be_bytes 4 x ++ wire_ids l).
  rewrite app_assoc. apply IH. roomy_lia.
Qed.

Lemma sim_write_id_list a bs ids : appending a bs -> a = at_end bs -> roomy (ids_size ids) bs ->
  sim true (write_id_list ids) a tt (at_end (bs ++ wire_id_list ids)).
Proof.
  intros _ -> Hr. unfold write_id_list, wire_id_list, ids_size in *. pose proof (zlength_nonneg ids).
  destruct ids as [|x l] eqn:E; [rewrite app_nil_r; apply sim_ret|]. rewrite <- E in *.
  assert (1 <= zlength ids) by (rewrite E; zlen). unfold roomy in Hr.
  eapply sim_bind; [wr_step|]. rewrite (u8_small (u8 _)) by apply u8_byte. rewrite u8_small by lia.
  rewrite (app_snoc_cons _ _ (wire_ids _)). apply sim_write_ids. roomy_lia.
Qed.

(** Room for a datagram header with its lists. *)
Definition dh_size (h : DatagramHeader) : Z := 16 + ids_size (dh_acks h) + ids_size (dh_nacks h).

Lemma sim_DatagramHeader_Serialize bs h : roomy (dh_size h) bs ->
  sim true (DatagramHeader_Serialize h) (at_end bs) tt (at_end (bs ++ wire_datagram_header h)).
Proof.
  intros Hr. unfold DatagramHeader_Serialize, wire_datagram_header, dh_flags, dh_size in *.
  pose proof (zlength_wire_id_list (dh_acks h)). pose proof (zlength_wire_id_list (dh_nacks h)).
  assert (0 < ids_size (dh_acks h)) by (unfold ids_size; zlen).
  assert (0 < ids_size (dh_nacks h)) by (unfold ids_size; zlen). unfold roomy in Hr.
  do 5 (eapply sim_bind; [wr_step|]).
  do 2 (eapply sim_bind; [apply sim_write_id_list; [constructor|reflexivity|roomy_lia]|]).
  destruct (flag_data h).
  - eapply sim_eq; [wr_step|]. unfold u16. change 65536 with (2 ^ (8 * Z.of_nat 2)).
    rewrite be_bytes_mod by lia. cbn [app]. now rewrite <- !app_assoc.
  - eapply sim_eq; [wr_step|]. cbn [app]. now rewrite app_nil_r, <- !app_assoc.
Qed.

Lemma sim_read_ids w ids : forall p r, Forall (fun x => 0 <= x < 4294967296) ids ->
  sim w (read_ids (length ids)) (cursor p (wire_ids ids ++ r)) ids (cursor (p ++ wire_ids ids) r).
Proof.
  induction ids as [|x l IH]; intros p r Hx; cbn [length read_ids].
  { unfold wire_ids. cbn. rewrite app_nil_r. apply sim_ret. }
  inversion_clear Hx. change (wire_ids (x :: l)) with (be_bytes 4 x ++ wire_ids l). rewrite <- app_assoc.
  rd. rewrite u32_small by done. eapply sim_bind; [apply IH; done|]. rewrite app_assoc. apply sim_ret.
Qed.

(** What is read back: at most 256 of the identifiers. *)
Lemma sim_read_id_list w old ids p r : Forall (fun x => 0 <= x < 4294967296) ids ->
  sim w (read_id_list (negb (bool_decide (ids = []))) old) (cursor p (wire_id_list ids ++ r))
    (if bool_decide (ids = []) then old else take 256 ids)
    (cursor (p ++ ztake (1 + 4 * 256) (wire_id_list ids)) (zdrop (1 + 4 * 256) (wire_id_list ids) ++ r)).
Proof.
  intros Hx. unfold read_id_list, wire_id_list. destruct ids as [|x l] eqn:E.
  { cbn. rewrite app_nil_r. apply sim_ret. }
  rewrite <- E in *. rewrite bool_decide_eq_false_2 by (rewrite E; done). cbn [negb].
  assert (Hl : 1 <= zlength ids) by (rewrite E; zlen). cbn [app].
  eapply sim_bind; [rd_step|]. cbv beta.
  set (n := take 256 ids). assert (Hn : zlength n = Z.min (zlength ids) 256)
    by (unfold n, zlength; rewrite length_take; lia).
  replace (Z.to_nat (Z.min (zlength ids) 256 - 1 + 1)) with (length n) by (clearbody n; unfold zlength in *; lia).
  assert (Ew : wire_ids ids = wire_ids n ++ wire_ids (drop 256 ids)).
  { unfold n, wire_ids. rewrite <- flat_map_app. now rewrite take_drop. }
  assert (Ed : zdrop (1 + 4 * 256) (Z.min (zlength ids) 256 - 1 :: wire_ids ids) = wire_ids (drop 256 ids)
    /\ ztake (1 + 4 * 256) (Z.min (zlength ids) 256 - 1 :: wire_ids ids) = Z.min (zlength ids) 256 - 1 :: wire_ids n).
  { rewrite Ew. destruct (decide (zlength ids <= 256)).
    - rewrite (drop_ge ids 256) by (unfold zlength in *; lia). change (wire_ids []) with (@nil Z).
      rewrite app_nil_r, zdrop_all, ztake_all by (rewrite zlength_cons, zlength_wire_ids; lia). done.
    - rewrite app_comm_cons, zdrop_app_l, ztake_app_l by (rewrite zlength_cons, zlength_wire_ids; lia). done. }
  destruct Ed as [-> ->]. rewrite Ew, <- app_assoc, (app_snoc_cons p _ (wire_ids n)).
  apply sim_read_ids. unfold n. now apply Forall_take.
Qed.

Lemma sim_read_id_list_small w old ids p r : Forall (fun x => 0 <= x < 4294967296) ids -> zlength ids <= 256 ->
  sim w (read_id_list (negb (bool_decide (ids = []))) old) (cursor p (wire_id_list ids ++ r))
    (if bool_decide (ids = []) then old else ids) (cursor (p ++ wire_id_list ids) r).
Proof.
  intros Hx Hl. pose proof (sim_read_id_list w old ids p r Hx) as H.
  pose proof (zlength_wire_id_list ids). unfold ids_size in *.
  rewrite ztake_all, zdrop_all in H by lia. rewrite take_ge in H by (unfold zlength in *; lia). exact H.
Qed.

(** The four flags and the identifier that open a datagram. *)
Lemma sim_rd_datagram_head w {A} p b1 b2 b3 b4 id r (k : bool -> bool -> bool -> bool -> Z -> SM A) v a' :
  0 <= id < 4294967296 ->
  sim w (k b1 b2 b3 b4 id) (cursor (p ++ [pack [b1; b2; b3; b4]] ++ be_bytes 4 id) r) v a' ->
  sim w (x1 ← ReadBool; x2 ← ReadBool; x3 ← ReadBool; x4 ← ReadBool; x ← ReadUInt32; k x1 x2 x3 x4 x)
    (cursor p (pack [b1; b2; b3; b4] :: be_bytes 4 id ++ r)) v a'.
Proof.
  intros Hid Hk. set (rest := be_bytes 4 id ++ r).
  assert (Hb : zlength [b1; b2; b3; b4] <= 8) by zlen.
  eapply sim_bind; [exact (sim_read_bool_field w p [] b1 _ _ rest eq_refl Hb)|].
  eapply sim_bind; [exact (sim_read_bool_field w p [b1] b2 _ _ rest eq_refl Hb)|].
  eapply sim_bind; [exact (sim_read_bool_field w p [b1; b2] b3 _ _ rest eq_refl Hb)|].
  eapply sim_bind; [exact (sim_read_bool_field w p [b1; b2; b3] b4 _ _ rest eq_refl Hb)|].
  unfold reader, rest. cbn [app]. change (if zlength _ =? 7 then _ else ?x) with x.
  change (zlength [b1; b2; b3; b4]) with 4. eapply sim_bind; [rd_step|].
  rewrite u32_small by done. rewrite <- app_assoc. exact Hk.
Qed.

Record dh_ok (h : DatagramHeader) : Prop := {
  dhok_id : 0 <= datagramID h < 4294967296;
  dhok_len : 0 <= dataLength h < 65536;
  dhok_acks : Forall (fun x => 0 <= x < 4294967296) (dh_acks h);
  dhok_nacks : Forall (fun x => 0 <= x < 4294967296) (dh_nacks h);
}.

Definition dh_merge (old h : DatagramHeader) : DatagramHeader :=
  mkDH (flag_data h) (flag_link h)
    (if bool_decide (dh_acks h = []) then dh_acks old else dh_acks h)
    (if bool_decide (dh_nacks h = []) then dh_nacks old else dh_nacks h)
    (datagramID h) (if flag_data h then dataLength h else dataLength old).

(** Both lists within what a count byte can say; when there is data, the
    payload is there and has at least two bytes. *)
Lemma sim_DatagramHeader_Deserialize w old p h r : dh_ok h ->
  zlength (dh_acks h) <= 256 -> zlength (dh_nacks h) <= 256 ->
  (flag_data h = true -> dataLength h <= zlength r /\ 2 <= zlength r) ->
  sim w (DatagramHeader_Deserialize old) (cursor p (wire_datagram_header h ++ r)) (true, dh_merge old h)
    (cursor (p ++ wire_datagram_header h) r).
Proof.
  intros [Hid Hlen Ha Hn] La Ln Hr. unfold DatagramHeader_Deserialize, wire_datagram_header, dh_merge, dh_flags.
  cbn [app]. rewrite <- !app_assoc.
  apply sim_eof_check; [lia|cbn; zlen|]. apply sim_rd_datagram_head; [done|].
  eapply sim_bind; [apply sim_read_id_list_small; done|].
  eapply sim_bind; [apply sim_read_id_list_small; done|]. cbv zeta.
  destruct (flag_data h).
  - destruct (Hr eq_refl) as [Hr1 Hr2]. apply sim_eof_check; [lia|cbn; zlen|]. rd.
    rewrite u16_small by done. apply sim_get. intros s Hs.
    rewrite (IsEOF_false w s _ _ Hs) by (cbn; zlen). cbn [dh_acks dh_nacks negb].
    eapply sim_eq; [apply sim_ret|]. cbn [app]. now rewrite <- !app_assoc.
  - cbn [app dh_acks dh_nacks dataLength]. eapply sim_eq; [apply sim_ret|].
    cbn [app]. now rewrite app_nil_r, <- !app_assoc.
Qed.

(** More than 256 acks, nothing else: the count byte stops at 256 and the rest
    of the list is left in the stream. *)
Lemma sim_DatagramHeader_overflow w p link acks id r :
  dh_ok (mkDH false link acks [] id 0) -> 256 < zlength acks ->
  sim w (DatagramHeader_Deserialize DatagramHeader_default)
    (cursor p (wire_datagram_header (mkDH false link acks [] id 0) ++ r))
    (true, mkDH false link (take 256 acks) [] id 0)
    (cursor (p ++ ztake 1030 (wire_datagram_header (mkDH false link acks [] id 0)))
       (wire_ids (drop 256 acks) ++ r)).
Proof.
  intros [Hid Hlen Ha Hn] La. unfold DatagramHeader_Deserialize, wire_datagram_header, dh_flags in *.
  cbn [flag_data flag_link dh_acks dh_nacks datagramID dataLength app wire_id_list] in *.
  rewrite (bool_decide_eq_false_2 (acks = [])) by (intros ->; zlen).
  rewrite (bool_decide_eq_true_2 ([] = [])) by done. cbn [negb]. rewrite !app_nil_r, <- !app_assoc.
  apply sim_eof_check; [lia|cbn; zlen|]. apply sim_rd_datagram_head; [done|].
  pose proof (sim_read_id_list w [] acks (p ++ [pack [false; link; true; false]] ++ be_bytes 4 id) r Ha) as H.
  rewrite (bool_decide_eq_false_2 (acks = [])) in H by (intros ->; zlen). cbn [negb] in H.
  eapply sim_bind; [exact H|]. eapply sim_bind; [apply sim_ret|]. cbv zeta.
  assert (Hw : wire_id_list acks = (255 :: wire_ids (take 256 acks)) ++ wire_ids (drop 256 acks)).
  { unfold wire_id_list. destruct acks as [|x l] eqn:E; [zlen|]. rewrite <- E in *.
    rewrite Z.min_r by lia. cbn [app]. f_equal. unfold wire_ids. now rewrite <- flat_map_app, take_drop. }
  assert (Hz : zlength (255 :: wire_ids (take 256 acks)) = 1025).
  { rewrite zlength_cons, zlength_wire_ids. unfold zlength in *. rewrite length_take. lia. }
  rewrite Hw. rewrite zdrop_app_l, ztake_app_l by (rewrite Hz; lia).
  eapply sim_eq; [apply sim_ret|]. rewrite <- !app_assoc. do 2 f_equal.
  rewrite (app_assoc (be_bytes 4 id)), app_comm_cons, ztake_app_l; [done|].
  rewrite zlength_cons, zlength_app, Hz, be_bytes_length. lia.
Qed.
End HeaderFacts.

(** ** Theorems *)

#[local] Instance demo_host : Host := {| little_endian := true; or_left_first := true |}.

(** C23: a packet header whose fields are in range is written as [wire_packet_header]
    says, and reading it into a default header gives the same header back and leaves the
    cursor right behind it; the sequence number of channel 0 and the split fields of an
    unsplit packet are not transmitted. (The layout is that of the code;
    docs/md/WireFormat.md describes another one.) *)
Theorem packet_header_roundtrip {host : Host} h pre post :
  ph_ok h -> roomy 64 pre ->
  (ph_channel h = 0 -> ph_sequence h = 0) ->
  (flag_segment h = false -> ph_offset h = 0 -> splitContainer h = 0 /\ splitIndex h = 0) ->
  sim true (PacketHeader_Serialize h) (at_end pre) tt (at_end (pre ++ wire_packet_header h)) /\
  sim false (PacketHeader_Deserialize PacketHeader_default) (cursor pre (wire_packet_header h ++ post))
    (true, h) (cursor (pre ++ wire_packet_header h) post).
Proof.
  intros Hok Hr Hseq Hsplit. split; [now apply sim_PacketHeader_Serialize|].
  replace h with (ph_merge PacketHeader_default h) at 2; [now apply sim_PacketHeader_Deserialize|].
  pose proof (phok_offset h Hok). destruct h as [seg jumbo id opt ch sq len off con idx]; cbn in *. unfold ph_merge; cbn.
  destruct (Z.eqb_spec ch 0) as [->|]; [rewrite Hseq by done|]; destruct seg; cbn; try done;
    destruct (Z.ltb_spec 0 off); try done; destruct Hsplit as [-> ->]; done || lia.
Qed.

Lemma packet_header_roundtrip_witness :
  let h := mkPH true false 7 3 2 5 1200 2400 4 2 in
  sim true (PacketHeader_Serialize h) (at_end []) tt (at_end ([] ++ wire_packet_header h)) /\
  sim false (PacketHeader_Deserialize PacketHeader_default) (cursor [] (wire_packet_header h ++ [1]))
    (true, h) (cursor ([] ++ wire_packet_header h) [1]).
Proof.
  apply (packet_header_roundtrip (mkPH true false 7 3 2 5 1200 2400 4 2) [] [1]).
  - split; cbn; unfold is_byte, PACKET_MAX_LENGTH; try lia.
  - unfold roomy, max_len. vm_compute. discriminate.
  - discriminate.
  - discriminate.
Defined.

(** C24: a datagram header with at most 256 acks and 256 naks round-trips: it is written
    as [wire_datagram_header] says and read back into a default header unchanged, with the
    cursor at the payload, provided a payload that is announced is present and at least
    two bytes long. (The count on the wire is one less than the length of the list, as in
    the code; docs/md/WireFormat.md says that it is the length.) *)
Theorem datagram_header_roundtrip {host : Host} h pre post :
  dh_ok h -> roomy (dh_size h) pre -> zlength (dh_acks h) <= 256 -> zlength (dh_nacks h) <= 256 ->
  (flag_data h = true -> dataLength h <= zlength post /\ 2 <= zlength post) ->
  (flag_data h = false -> dataLength h = 0) ->
  sim true (DatagramHeader_Serialize h) (at_end pre) tt (at_end (pre ++ wire_datagram_header h)) /\
  sim false (DatagramHeader_Deserialize DatagramHeader_default) (cursor pre (wire_datagram_header h ++ post))
    (true, h) (cursor (pre ++ wire_datagram_header h) post).
Proof.
  intros Hok Hr Ha Hn Hd Hz. split; [now apply sim_DatagramHeader_Serialize|].
  replace h with (dh_merge DatagramHeader_default h) at 2; [now apply sim_DatagramHeader_Deserialize|].
  destruct h as [data link acks nacks id len]; cbn in *. unfold dh_merge; cbn.
  destruct (bool_decide_reflect (acks = [])) as [->|], (bool_decide_reflect (nacks = [])) as [->|], data;
    try rewrite Hz by done; done.
Qed.

Lemma datagram_header_roundtrip_witness :
  let h := mkDH true true [3; 4] [9] 17 3 in
  sim true (DatagramHeader_Serialize h) (at_end []) tt (at_end ([] ++ wire_datagram_header h)) /\
  sim false (DatagramHeader_Deserialize DatagramHeader_default) (cursor [] (wire_datagram_header h ++ [1; 2; 3]))
    (true, h) (cursor ([] ++ wire_datagram_header h) [1; 2; 3]).
Proof.
  apply (datagram_header_roundtrip (mkDH true true [3; 4] [9] 17 3) [] [1; 2; 3]).
  - split; cbn; try lia; repeat constructor; lia.
  - unfold roomy, max_len. vm_compute. discriminate.
  - vm_compute. discriminate.
  - vm_compute. discriminate.
  - intros _. vm_compute. split; discriminate.
  - discriminate.
Defined.

(** A header with more than 256 acks is written with a count of 256 and all
    the acks: the receiver takes the first 256 and goes on parsing at the 257th
    ack as if it were what follows the header. *)
Theorem datagram_header_ack_overflow {host : Host} link acks id pre post :
  dh_ok (mkDH false link acks [] id 0) -> roomy (dh_size (mkDH false link acks [] id 0)) pre ->
  256 < zlength acks ->
  let h := mkDH false link acks [] id 0 in
  sim true (DatagramHeader_Serialize h) (at_end pre) tt (at_end (pre ++ wire_datagram_header h)) /\
  sim false (DatagramHeader_Deserialize DatagramHeader_default) (cursor pre (wire_datagram_header h ++ post))
    (true, mkDH false link (take 256 acks) [] id 0)
    (cursor (pre ++ ztake 1030 (wire_datagram_header h)) (wire_ids (drop 256 acks) ++ post)).
Proof.
  intros Hok Hr Hl h. split; [now apply sim_DatagramHeader_Serialize|].
  now apply sim_DatagramHeader_overflow.
Qed.

Lemma datagram_header_ack_overflow_witness :
  let acks := replicate 257 1 in
  let h := mkDH false true acks [] 5 0 in
  sim true (DatagramHeader_Serialize h) (at_end []) tt (at_end ([] ++ wire_datagram_header h)) /\
  sim false (DatagramHeader_Deserialize DatagramHeader_default) (cursor [] (wire_datagram_header h ++ []))
    (true, mkDH false true (take 256 acks) [] 5 0)
    (cursor ([] ++ ztake 1030 (wire_datagram_header h)) (wire_ids (drop 256 acks) ++ [])).
Proof.
  apply (datagram_header_ack_overflow true (replicate 257 1) 5 [] []).
  - split; cbn [dh_acks dh_nacks datagramID dataLength]; try lia; [|constructor].
    apply Forall_replicate. lia.
  - unfold roomy, max_len. vm_compute. discriminate.
  - vm_compute. reflexivity.
Defined.

(** A datagram of one to four bytes is not rejected as incomplete: the
    length check wraps around, and Deserialize reads the datagram's identifier
    from outside the received bytes. *)
Theorem short_datagram_overread {host : Host} bs : 0 < zlength bs < 5 ->
  exists s, BinaryStream_wrap (Ret (map Some bs)) (zlength bs) READONLY = Ret s /\
    DatagramHeader_Deserialize DatagramHeader_default s = Fail OutOfBounds.
Proof.
  intros H. eexists. split; [reflexivity|].
  destruct bs as [|b1 [|b2 [|b3 [|b4 [|b5 r]]]]]; [zlen|vm_compute; reflexivity..|zlen].
Qed.

Lemma short_datagram_overread_witness :
  exists s, BinaryStream_wrap (Ret (map Some [64; 0; 0])) (zlength [64; 0; 0]) READONLY = Ret s /\
    DatagramHeader_Deserialize DatagramHeader_default s = Fail OutOfBounds.
Proof. apply (short_datagram_overread [64; 0; 0]). split; reflexivity. Defined.
