(* ===== verification/ChannelBuffer.v ===== *)
(** * ChannelBuffer: ordered and sequenced delivery

    Model of source/ChannelBuffer.{h,cpp}, include/wirefox/Channel.h with
    source/Channel.cpp, and of the loop of PacketQueue::HandleIncomingPacket
    that feeds a channel and drains it.  The backlog, a std::map, is the list of
    its entries in key order. *)

From stdpp Require Import base tactics sets list list_numbers numbers option sorting.
From Stdlib Require Import ZArith Lia.
From S2P Require Import Prelude Config.

Open Scope Z_scope.

Record Channel : Type := mkChannel { ch_id : Z; ch_mode : ChannelMode }.

Definition Channel_default : Channel := mkChannel 0 UNORDERED.
Definition IsDefault (c : Channel) : bool := ch_id c =? 0.
Definition RequiresReliability (c : Channel) : bool := bool_decide (ch_mode c = ORDERED).

Definition halfSpan : Z := 2147483647.

Definition SequenceLessThan (lhs rhs : Z) : bool :=
  negb (lhs =? rhs) && (u32 (rhs - lhs) <? halfSpan).
Definition SequenceGreaterThanOrEqual (lhs rhs : Z) : bool :=
  (lhs =? rhs) || (halfSpan <? u32 (rhs - lhs)).

Section ChannelBuffer.
Context {P : Type}.

Record ChannelBuffer : Type := mkCB {
  m_backlog : list (Z * P);
  m_nextEnqueue : Z;
  m_nextDequeue : Z;
  m_outgoing : Z;
  m_index : Z;
}.

Definition ChannelBuffer_new (index : Z) : ChannelBuffer := mkCB [] 0 0 0 index.

(** [mode] is what GetMode() returns: the peer's setting for the channel. *)
Definition Enqueue (mode : ChannelMode) (sequence : Z) (packet : P) (c : ChannelBuffer) : ChannelBuffer :=
  if bool_decide (mode = SEQUENCED) then
    if SequenceLessThan sequence (m_nextEnqueue c) then c
    else mkCB (emplace sequence packet (m_backlog c)) (u32 (sequence + 1)) (m_nextDequeue c)
              (m_outgoing c) (m_index c)
  else mkCB (emplace sequence packet (m_backlog c)) (m_nextEnqueue c) (m_nextDequeue c)
            (m_outgoing c) (m_index c).

Definition IsEligible (mode : ChannelMode) (c : ChannelBuffer) (sequence : Z) : bool :=
  if bool_decide (mode = ORDERED) then SequenceGreaterThanOrEqual (m_nextDequeue c) sequence else true.

Definition Dequeue (mode : ChannelMode) (c : ChannelBuffer) : option P * ChannelBuffer :=
  match m_backlog c with
  | [] => (None, c)
  | (k, payload) :: rest =>
      if IsEligible mode c k
      then (Some payload, mkCB rest (m_nextEnqueue c) (u32 (k + 1)) (m_outgoing c) (m_index c))
      else (None, c)
  end.

Definition GetNextOutgoing (c : ChannelBuffer) : Z * ChannelBuffer :=
  (m_outgoing c, mkCB (m_backlog c) (m_nextEnqueue c) (m_nextDequeue c) (u32 (m_outgoing c + 1)) (m_index c)).

(** [while (eligiblePacket) { m_inbox.push(...); eligiblePacket = channel->Dequeue(); }];
    each round takes an entry off the backlog, so its length bounds the rounds. *)
Fixpoint drain_loop (fuel : nat) (mode : ChannelMode) (c : ChannelBuffer) : list P * ChannelBuffer :=
  match fuel with
  | O => ([], c)
  | S fuel =>
      match Dequeue mode c with
      | (None, c) => ([], c)
      | (Some p, c) => let '(ps, c) := drain_loop fuel mode c in (p :: ps, c)
      end
  end.

(** The channel branch of PacketQueue::HandleIncomingPacket: the packets pushed
    to the inbox. *)
Definition deliver (mode : ChannelMode) (sequence : Z) (packet : P) (c : ChannelBuffer)
    : list P * ChannelBuffer :=
  let c := Enqueue mode sequence packet c in
  drain_loop (S (length (m_backlog c))) mode c.

Fixpoint deliver_all (mode : ChannelMode) (arrivals : list (Z * P)) (c : ChannelBuffer)
    : list P * ChannelBuffer :=
  match arrivals with
  | [] => ([], c)
  | (k, p) :: arrivals =>
      let '(ps, c) := deliver mode k p c in
      let '(qs, c) := deliver_all mode arrivals c in (ps ++ qs, c)
  end.
End ChannelBuffer.
Arguments ChannelBuffer : clear implicits.
Arguments ChannelBuffer_new {P}.

(** The loop ends because Dequeue has nothing more, never for want of rounds. *)
Lemma drain_complete {P} mode fuel : forall c : ChannelBuffer P, (length (m_backlog c) < fuel)%nat ->
  Dequeue mode (drain_loop fuel mode c).2 = (None, (drain_loop fuel mode c).2).
Proof.
  induction fuel as [|fuel IH]; intros c Hf; [lia|]. cbn [drain_loop]. destruct (Dequeue mode c) as [[p|] c1] eqn:E.
  - assert (Hl : (length (m_backlog c1) < fuel)%nat).
    { unfold Dequeue in E. destruct (m_backlog c) as [|[k v] rest]; [discriminate|]. destruct (IsEligible mode c k); [|discriminate].
      injection E as _ <-. cbn in *. lia. }
    specialize (IH c1 Hl). now destruct (drain_loop fuel mode c1).
  - unfold Dequeue in E |- *. destruct (m_backlog c) as [|[k v] rest] eqn:Eb; [injection E as <-; cbn; now rewrite Eb|].
    destruct (IsEligible mode c k) eqn:Ee; [discriminate|]. injection E as <-. cbn. now rewrite Eb, Ee.
Qed.
Lemma deliver_complete {P} mode sequence packet (c : ChannelBuffer P) :
  Dequeue mode (deliver mode sequence packet c).2 = (None, (deliver mode sequence packet c).2).
Proof. apply drain_complete. lia. Qed.

(** ** Comparison *)

Lemma SGE_spec next k : 0 <= next < 2147483648 -> 0 <= k < 2147483648 ->
  SequenceGreaterThanOrEqual next k = (k <=? next).
Proof.
  intros Hn Hk. unfold SequenceGreaterThanOrEqual, halfSpan.
  destruct (Z.leb_spec k next), (Z.eqb_spec next k); cbn; try lia; apply Z.ltb_lt || apply Z.ltb_ge; word_lia.
Qed.

Lemma SLT_spec k next : 0 <= k < 2147483647 -> 0 <= next < 2147483647 ->
  SequenceLessThan k next = (k <? next).
Proof.
  intros Hk Hn. unfold SequenceLessThan, halfSpan.
  destruct (Z.ltb_spec k next), (Z.eqb_spec k next); cbn; try lia; apply Z.ltb_lt || apply Z.ltb_ge; word_lia.
Qed.

(** ** Ordered delivery *)

Section Ordered.
Context {P : Type} (pay : Z -> P).

Definition entries (ks : list Z) : list (Z * P) := map (fun k => (k, pay k)) ks.

Lemma emplace_entries k ks : StronglySorted Z.lt ks -> k ∉ ks ->
  exists ks', emplace k (pay k) (entries ks) = entries ks' /\ StronglySorted Z.lt ks' /\
    length ks' = S (length ks) /\ forall i, i ∈ ks' <-> i = k \/ i ∈ ks.
Proof.
  induction ks as [|x r IH]; intros Hs Hn; cbn [entries map emplace].
  { exists [k]. split; [done|]. split; [repeat constructor|]. split; [done|]. set_solver. }
  inversion_clear Hs as [|? ? Hs' Hx].
  destruct (Z.ltb_spec k x) as [Hlt|Hge].
  { exists (k :: x :: r). split; [done|]. split; [|split; [done|set_solver]].
    constructor; [now constructor|]. constructor; [done|]. eapply Forall_impl; [exact Hx|]. cbn. lia. }
  rewrite (proj2 (Z.eqb_neq k x)) by set_solver.
  destruct IH as (ks' & E & Hs2 & Hl & Hm); [done|set_solver|]. exists (x :: ks').
  split; [cbn; f_equal; exact E|]. split; [|split; [cbn; lia|intros i; rewrite !elem_of_cons, Hm; tauto]].
  constructor; [done|]. apply Forall_forall. intros i [->|Hi]%Hm.
  - apply not_elem_of_cons in Hn as [? _]. lia.
  - rewrite Forall_forall in Hx. now apply Hx.
Qed.

Definition limit : Z := 2147483647.

Lemma drain_ordered ks : forall d fuel (c : ChannelBuffer P),
  m_backlog c = entries ks -> StronglySorted Z.lt ks -> Forall (fun k => d <= k < limit) ks ->
  m_nextDequeue c = d -> 0 <= d <= limit -> (length ks < fuel)%nat ->
  exists m ks' c', drain_loop fuel ORDERED c = (map pay (seqZ d m), c') /\ 0 <= m /\
    m_backlog c' = entries ks' /\ StronglySorted Z.lt ks' /\ Forall (fun k => d + m < k < limit) ks' /\
    m_nextDequeue c' = d + m /\ d + m <= limit /\ forall i, i ∈ ks <-> d <= i < d + m \/ i ∈ ks'.
Proof.
  induction ks as [|x r IH]; intros d fuel c Eb Hs Hr Ed Hd Hf; (destruct fuel as [|fuel]; [lia|]);
    cbn [drain_loop]; unfold Dequeue; rewrite Eb; cbn [entries map].
  { exists 0, [], c. rewrite Z.add_0_r. repeat split; try done; try lia; try (intros []; lia || done). set_solver. }
  inversion_clear Hs as [|? ? Hs' Hx]. inversion_clear Hr as [|? ? Hxd Hr']. unfold limit in *.
  unfold IsEligible. rewrite bool_decide_eq_true_2, Ed, SGE_spec by (done || lia).
  destruct (Z.leb_spec x d) as [Hle|Hgt].
  - assert (x = d) as -> by lia.
    edestruct (IH (d + 1) fuel (mkCB (entries r) (m_nextEnqueue c) (u32 (d + 1)) (m_outgoing c) (m_index c)))
      as (m & ks' & c' & E & Hm & Eb' & Hs2 & Hf' & En & Hl & Hi); try done; try lia.
    { apply Forall_and. split; [eapply Forall_impl; [exact Hx|cbn; lia]|].
      eapply Forall_impl; [exact Hr'|cbn; lia]. }
    { cbn. apply u32_small. lia. }
    { cbn in Hf. lia. }
    exists (m + 1), ks', c'. fold (entries r). rewrite E. rewrite (seqZ_cons d (m + 1)) by lia. cbn [map].
    replace (Z.pred (m + 1)) with m by lia. replace (Z.succ d) with (d + 1) by lia.
    replace (d + (m + 1)) with (d + 1 + m) by lia. repeat split; try done; try lia.
    + intros [->|Hi']%elem_of_cons; [lia|]. apply Hi in Hi'. destruct Hi'; [left; lia|auto].
    + rewrite elem_of_cons, Hi. intros [?|?]; [destruct (decide (i = d)); [auto|right; left; lia]|auto].
  - exists 0, (x :: r), c. rewrite Z.add_0_r. repeat split; try done; try lia.
    + now constructor.
    + constructor; [lia|]. rewrite Forall_forall in Hr', Hx |- *.
      intros k Hk. specialize (Hr' k Hk). specialize (Hx k Hk). lia.
    + auto.
    + intros [?|?]; [lia|done].
Qed.

(** After the arrivals [rs], [out] has been pushed to the inbox: the longest
    run 0, 1, ... that has arrived, and the rest waits in the backlog. *)
Definition channel_inv (rs : list Z) (out : list P) (c : ChannelBuffer P) : Prop :=
  exists d ks, m_backlog c = entries ks /\ StronglySorted Z.lt ks /\ Forall (fun k => d < k < limit) ks /\
    m_nextDequeue c = d /\ 0 <= d <= limit /\ out = map pay (seqZ 0 d) /\
    forall i, i ∈ rs <-> 0 <= i < d \/ i ∈ ks.

Lemma length_entries ks : length (entries ks) = length ks.
Proof. apply length_map. Qed.

Lemma channel_step rs out c i ps c' : channel_inv rs out c -> i ∉ rs -> 0 <= i < limit ->
  deliver ORDERED i (pay i) c = (ps, c') -> channel_inv (i :: rs) (out ++ ps) c'.
Proof.
  intros (d & ks & Eb & Hs & Hr & Ed & Hd & -> & Hm) Hi Hlim E.
  unfold deliver, Enqueue in E. rewrite bool_decide_eq_false_2, Eb in E by done. cbn [m_backlog] in E.
  assert (Hik : i ∉ ks) by (intros Hk; apply Hi, Hm; auto).
  assert (Hdi : d <= i) by (destruct (decide (d <= i)); [done|exfalso; apply Hi, Hm; left; lia]).
  destruct (emplace_entries i ks Hs Hik) as (ks1 & E1 & Hs1 & Hl1 & Hm1).
  rewrite E1, length_entries in E.
  destruct (drain_ordered ks1 d (S (length ks1))
              (mkCB (entries ks1) (m_nextEnqueue c) (m_nextDequeue c) (m_outgoing c) (m_index c)))
    as (m & ks2 & c2 & E2 & Hm0 & Eb2 & Hs2 & Hr2 & En2 & Hl2 & Hm2); try done; try lia.
  { rewrite Forall_forall in Hr |- *. intros k [->|Hk]%Hm1; [lia|]. specialize (Hr k Hk). lia. }
  rewrite E2 in E. injection E as <- <-. exists (d + m), ks2. repeat split; try done; try lia.
  - rewrite <- map_app. f_equal. rewrite seqZ_app by lia. now rewrite Z.add_0_l.
  - intros [->|Hj]%elem_of_cons.
    + destruct (proj1 (Hm2 i)) as [?|?]; [apply Hm1; auto|left; lia|auto].
    + apply Hm in Hj as [?|Hj]; [left; lia|]. destruct (proj1 (Hm2 i0)) as [?|?]; [apply Hm1; auto|left; lia|auto].
  - intros [?|?].
    + destruct (decide (i0 < d)); [apply elem_of_cons; right; apply Hm; left; lia|].
      destruct (proj1 (Hm1 i0)) as [->|?]; [apply Hm2; left; lia|apply list_elem_of_here|].
      apply elem_of_cons. right. apply Hm. auto.
    + destruct (proj1 (Hm1 i0)) as [->|?]; [apply Hm2; auto|apply list_elem_of_here|].
      apply elem_of_cons. right. apply Hm. auto.
Qed.

Lemma channel_run ks : forall rs out c, channel_inv rs out c -> NoDup ks ->
  Forall (fun k => 0 <= k < limit /\ k ∉ rs) ks ->
  exists rs', channel_inv rs' (out ++ fst (deliver_all ORDERED (entries ks) c))
                (snd (deliver_all ORDERED (entries ks) c)) /\ forall i, i ∈ rs' <-> i ∈ rs \/ i ∈ ks.
Proof.
  induction ks as [|k ks IH]; intros rs out c Hc Hn Hf.
  { exists rs. cbn. rewrite app_nil_r. split; [done|]. set_solver. }
  apply NoDup_cons in Hn as [Hk Hn]. inversion_clear Hf as [|? ? [Hk1 Hk2] Hf'].
  cbn [entries map deliver_all]. fold (entries ks).
  destruct (deliver ORDERED k (pay k) c) as [ps c1] eqn:E1.
  pose proof (channel_step rs out c k ps c1 Hc Hk2 Hk1 E1) as Hc1.
  destruct (IH (k :: rs) (out ++ ps) c1 Hc1 Hn) as (rs' & Hc' & Hm).
  { rewrite Forall_forall in Hf' |- *. intros j Hj. destruct (Hf' j Hj) as [? ?]. split; [done|]. set_solver. }
  destruct (deliver_all ORDERED (entries ks) c1) as [qs c2]. cbn [fst snd] in *.
  rewrite <- app_assoc in Hc'. exists rs'. split; [done|]. intros i. rewrite Hm, !elem_of_cons. tauto.
Qed.

Lemma channel_new index : channel_inv [] [] (ChannelBuffer_new index).
Proof.
  exists 0, []. unfold limit. split; [done|]. split; [constructor|]. split; [constructor|].
  split; [done|]. split; [lia|]. split; [done|]. intros i. rewrite elem_of_nil. split; [done|].
  intros [?|?]; [lia|done].
Qed.
End Ordered.

(** C14: on an ordered channel, whatever order distinct packets arrive in, the
    inbox receives them in sequence order, without gap or duplicate: exactly the
    longest run 0 .. d-1 that has arrived; when the arrivals are a permutation of
    0 .. n-1 (n < 2^31) all n are delivered. *)
Theorem ordered_channel_delivery {P} (pay : Z -> P) index ks :
  NoDup ks -> Forall (fun k => 0 <= k < limit) ks ->
  exists d, 0 <= d /\
    fst (deliver_all ORDERED (map (fun k => (k, pay k)) ks) (ChannelBuffer_new index)) = map pay (seqZ 0 d) /\
    (forall i, 0 <= i < d -> i ∈ ks) /\ (d ∉ ks) /\ (forall n, 0 <= n -> (ks ≡ₚ seqZ 0 n) -> d = n).
Proof.
  intros Hn Hf. destruct (channel_run pay ks [] [] _ (channel_new pay index) Hn) as (rs & Hc & Hm).
  { eapply Forall_impl; [exact Hf|]. cbn. intros k Hk. split; [done|]. apply not_elem_of_nil. }
  destruct Hc as (d & ks' & _ & _ & Hr & _ & Hd & E & Hrs). cbn [app] in E. exists d.
  assert (Hks : forall i, i ∈ ks <-> i ∈ rs) by (intros i; rewrite Hm; set_solver).
  assert (Hdk : d ∉ ks).
  { intros [?|Hk]%Hks%Hrs; [lia|]. rewrite Forall_forall in Hr. specialize (Hr d Hk). lia. }
  split; [lia|]. split; [exact E|]. split; [intros i Hi; apply Hks, Hrs; auto|]. split; [exact Hdk|].
  intros n Hn0 Hp. rewrite Hp in Hdk. rewrite elem_of_seqZ in Hdk.
  assert (Hlast : d <= n); [|lia]. destruct (decide (d <= n)); [done|].
  assert (n ∈ ks) as Hin by (apply Hks, Hrs; left; lia). rewrite Hp, elem_of_seqZ in Hin. lia.
Qed.

Lemma ordered_channel_delivery_witness :
  exists d, 0 <= d /\
    fst (deliver_all ORDERED (map (fun k => (k, 100 + k)) [2; 0; 3; 1]) (ChannelBuffer_new 1)) =
      map (fun k => 100 + k) (seqZ 0 d) /\
    (forall i, 0 <= i < d -> i ∈ [2; 0; 3; 1]) /\ (d ∉ [2; 0; 3; 1]) /\
    (forall n, 0 <= n -> ([2; 0; 3; 1] ≡ₚ seqZ 0 n) -> d = n).
Proof.
  apply (ordered_channel_delivery (fun k => 100 + k) 1 [2; 0; 3; 1]).
  - repeat (apply NoDup_cons; split; [set_solver by lia|]). apply NoDup_nil_2.
  - unfold limit. repeat constructor; lia.
Defined.

(** ** Sequenced delivery *)

(** The arrivals at least as new as everything before them. *)
Fixpoint newest {P} (next : Z) (l : list (Z * P)) : list (Z * P) :=
  match l with
  | [] => []
  | (k, p) :: l => if k <? next then newest next l else (k, p) :: newest (k + 1) l
  end.

Lemma newest_above {P} (l : list (Z * P)) : forall next, Forall (fun k => next <= k) (map fst (newest next l)).
Proof.
  induction l as [|[k p] l IH]; intros next; cbn; [constructor|]. destruct (Z.ltb_spec k next); [done|].
  constructor; [done|]. eapply Forall_impl; [apply IH|]. cbn. lia.
Qed.

Lemma newest_sorted {P} (l : list (Z * P)) : forall next, StronglySorted Z.lt (map fst (newest next l)).
Proof.
  induction l as [|[k p] l IH]; intros next; cbn; [constructor|]. destruct (k <? next); [done|].
  constructor; [done|]. eapply Forall_impl; [apply (newest_above l (k + 1))|]. cbn. lia.
Qed.

Lemma newest_sublist {P} (l : list (Z * P)) : forall next, newest next l `sublist_of` l.
Proof.
  induction l as [|[k p] l IH]; intros next; cbn; [constructor|]. destruct (k <? next); now constructor.
Qed.

(** A sequenced channel never holds anything back. *)
Lemma deliver_sequenced {P} k (p : P) c : m_backlog c = [] -> 0 <= m_nextEnqueue c < 2147483647 ->
  0 <= k < 2147483646 ->
  exists c', deliver SEQUENCED k p c = (if k <? m_nextEnqueue c then [] else [p], c') /\
    m_backlog c' = [] /\ m_nextEnqueue c' = (if k <? m_nextEnqueue c then m_nextEnqueue c else k + 1).
Proof.
  intros Eb Hn Hk. unfold deliver, Enqueue. rewrite bool_decide_eq_true_2, SLT_spec by (reflexivity || lia).
  destruct (k <? m_nextEnqueue c).
  - exists c. rewrite Eb. cbn. unfold Dequeue. now rewrite Eb.
  - rewrite Eb. cbn. eexists. split; [reflexivity|]. split; [done|]. cbn. apply u32_small. lia.
Qed.

Lemma deliver_all_sequenced {P} (l : list (Z * P)) : forall c, m_backlog c = [] ->
  0 <= m_nextEnqueue c < 2147483647 -> Forall (fun kp => 0 <= fst kp < 2147483646) l ->
  fst (deliver_all SEQUENCED l c) = map snd (newest (m_nextEnqueue c) l).
Proof.
  induction l as [|[k p] l IH]; intros c Eb Hn Hf; [done|]. inversion_clear Hf as [|? ? Hk Hf']. cbn in Hk.
  destruct (deliver_sequenced k p c Eb Hn Hk) as (c' & E & Eb' & En). cbn [deliver_all newest].
  rewrite E. specialize (IH c' Eb'). rewrite En in IH.
  destruct (deliver_all SEQUENCED l c') as [qs c2]. cbn [fst] in *.
  destruct (k <? m_nextEnqueue c); cbn; rewrite IH; try done; lia.
Qed.

(** C36: on a sequenced channel exactly the arrivals newer than every earlier one
    are delivered, each at once: the delivered packets are a subsequence of the
    arrivals with strictly increasing sequence numbers (numbers below 2^31 - 2). *)
Theorem sequenced_channel_delivery {P} index (l : list (Z * P)) :
  Forall (fun kp => 0 <= fst kp < 2147483646) l ->
  fst (deliver_all SEQUENCED l (ChannelBuffer_new index)) = map snd (newest 0 l) /\
  StronglySorted Z.lt (map fst (newest 0 l)) /\ newest 0 l `sublist_of` l.
Proof.
  intros Hf. split; [|split; [apply newest_sorted|apply newest_sublist]].
  apply (deliver_all_sequenced l (ChannelBuffer_new index)); [done|cbn; lia|done].
Qed.

Lemma sequenced_channel_delivery_witness :
  fst (deliver_all SEQUENCED [(1, 10); (0, 11); (4, 12); (2, 13); (5, 14)] (ChannelBuffer_new 2)) =
    map snd (newest 0 [(1, 10); (0, 11); (4, 12); (2, 13); (5, 14)]) /\
  StronglySorted Z.lt (map fst (newest 0 [(1, 10); (0, 11); (4, 12); (2, 13); (5, 14)])) /\
  newest 0 [(1, 10); (0, 11); (4, 12); (2, 13); (5, 14)] `sublist_of` [(1, 10); (0, 11); (4, 12); (2, 13); (5, 14)].
Proof.
  apply (sequenced_channel_delivery 2 [(1, 10); (0, 11); (4, 12); (2, 13); (5, 14)]).
  repeat constructor; cbn; lia.
Defined.

(** ** Wrap-around of the sequence number *)

Lemma emplace_head {P} k (v w : P) r : 0 <= k -> exists r', emplace k v ((0, w) :: r) = (0, w) :: r'.
Proof.
  intros Hk. cbn. rewrite (proj2 (Z.ltb_ge k 0)) by done. destruct (k =? 0); eauto.
Qed.

Lemma stalled_step {P} k (p w : P) r c : 0 <= k -> m_backlog c = (0, w) :: r -> m_nextDequeue c = 4294967295 ->
  exists c' r', deliver ORDERED k p c = ([], c') /\ m_backlog c' = (0, w) :: r' /\ m_nextDequeue c' = 4294967295.
Proof.
  intros Hk Eb Ed. unfold deliver, Enqueue. rewrite bool_decide_eq_false_2, Eb by done.
  destruct (emplace_head k p w r Hk) as [r' ->]. eexists _, r'. cbn [m_backlog length drain_loop Dequeue].
  unfold IsEligible. cbn [m_nextDequeue]. rewrite Ed. cbn. split; [reflexivity|]. now cbn.
Qed.

(** The backlog is sorted by plain number, so when packet 0 of the next
    cycle overtakes packet 2^32-1 an ordered channel stalls for good: packet 0 is
    the first entry and never eligible, and no later arrival delivers anything. *)
Theorem ordered_channel_stalls_at_wrap {P} (p : P) arrivals c :
  m_backlog c = [] -> m_nextDequeue c = 4294967295 -> Forall (fun kp => 0 <= fst kp) arrivals ->
  fst (deliver_all ORDERED ((0, p) :: arrivals) c) = [].
Proof.
  intros Eb Ed Hf. assert (H0 : exists c', deliver ORDERED 0 p c = ([], c') /\ m_backlog c' = [(0, p)] /\
    m_nextDequeue c' = 4294967295).
  { unfold deliver, Enqueue, Dequeue. rewrite bool_decide_eq_false_2, Eb by done.
    cbn [emplace m_backlog length drain_loop]. unfold Dequeue, IsEligible. cbn [m_backlog m_nextDequeue].
    rewrite Ed. cbn. eexists. split; [reflexivity|]. now cbn. }
  cbn [deliver_all]. destruct H0 as (c' & -> & Eb' & Ed').
  assert (Hrun : forall l c r, Forall (fun kp => 0 <= fst kp) l -> m_backlog c = (0, p) :: r ->
    m_nextDequeue c = 4294967295 -> fst (deliver_all ORDERED l c) = []).
  { clear. induction l as [|[k v] l IH]; intros c r Hf Eb Ed; [done|]. inversion_clear Hf as [|? ? Hk Hf']. cbn in Hk.
    destruct (stalled_step k v p r c Hk Eb Ed) as (c' & r' & E & Eb' & Ed'). cbn [deliver_all]. rewrite E.
    specialize (IH c' r' Hf' Eb' Ed'). now destruct (deliver_all ORDERED l c'). }
  specialize (Hrun arrivals c' [] Hf Eb' Ed'). now destruct (deliver_all ORDERED arrivals c').
Qed.

Lemma ordered_channel_stalls_at_wrap_witness :
  fst (deliver_all ORDERED ((0, 20) :: [(4294967295, 19); (1, 21); (2, 22)]) (mkCB [] 0 4294967295 0 1)) = [].
Proof.
  apply (ordered_channel_stalls_at_wrap 20 [(4294967295, 19); (1, 21); (2, 22)]); [reflexivity|reflexivity|].
  repeat constructor; cbn; lia.
Defined.
