(* ===== verification/CongestionControl.v ===== *)
(** * CongestionControl: acknowledgements, round-trip times and the send window

    Model of source/CongestionControl.{h,cpp} and of the only implementation,
    source/CongestionControlWindow.{h,cpp}; one record holds the members of both
    classes.  [now] is the clock reading of the call. *)

From stdpp Require Import base tactics gmap list list_numbers numbers option.
From Stdlib Require Import ZArith Lia.
From S2P Require Import Prelude Config PeerStats.

Open Scope Z_scope.

Inductive RecvState : Type := NEW | DUPLICATE.

Record DatagramInFlight : Type := mkFlight { fl_bytes : Z; fl_sent : Z }.

Record CongestionControl : Type := mkCC {
  m_nextPacket : Z;
  m_nextDatagram : Z;
  m_remoteDatagram : Z;
  m_nextUpdate : Z;
  m_oldestUnsentAck : Z;
  m_bytesInFlight : Z;
  m_rttHistory : list Z;
  m_rttMin : Z;
  m_rttMax : Z;
  m_rttAvg : Z;
  m_datagramHistory : gmap Z Z;
  m_packetHistory : gmap Z Z;
  m_outgoing : list (Z * DatagramInFlight);
  m_acks : list Z;
  m_nacks : list Z;
  m_window : Z;
  m_threshold : Z;
}.

(** Constructors of CongestionControl and CongestionControlWindow *)
Definition CongestionControl_new (now : Z) : CongestionControl :=
  mkCC 0 0 0 now 0 0 [] 0 0 0 ∅ ∅ [] [] [] MTU CONGESTION_WINDOW_SSTHRESH.

(** Field updates used below. *)
Definition set_ids (np nd : Z) (c : CongestionControl) : CongestionControl :=
  mkCC np nd (m_remoteDatagram c) (m_nextUpdate c) (m_oldestUnsentAck c) (m_bytesInFlight c)
    (m_rttHistory c) (m_rttMin c) (m_rttMax c) (m_rttAvg c) (m_datagramHistory c) (m_packetHistory c)
    (m_outgoing c) (m_acks c) (m_nacks c) (m_window c) (m_threshold c).
Definition set_flight (bytes : Z) (out : list (Z * DatagramInFlight)) (c : CongestionControl) : CongestionControl :=
  mkCC (m_nextPacket c) (m_nextDatagram c) (m_remoteDatagram c) (m_nextUpdate c) (m_oldestUnsentAck c) bytes
    (m_rttHistory c) (m_rttMin c) (m_rttMax c) (m_rttAvg c) (m_datagramHistory c) (m_packetHistory c)
    out (m_acks c) (m_nacks c) (m_window c) (m_threshold c).
Definition set_rtt (hist : list Z) (mn mx avg : Z) (c : CongestionControl) : CongestionControl :=
  mkCC (m_nextPacket c) (m_nextDatagram c) (m_remoteDatagram c) (m_nextUpdate c) (m_oldestUnsentAck c)
    (m_bytesInFlight c) hist mn mx avg (m_datagramHistory c) (m_packetHistory c)
    (m_outgoing c) (m_acks c) (m_nacks c) (m_window c) (m_threshold c).
Definition set_history (next : Z) (dh ph : gmap Z Z) (c : CongestionControl) : CongestionControl :=
  mkCC (m_nextPacket c) (m_nextDatagram c) (m_remoteDatagram c) next (m_oldestUnsentAck c)
    (m_bytesInFlight c) (m_rttHistory c) (m_rttMin c) (m_rttMax c) (m_rttAvg c) dh ph
    (m_outgoing c) (m_acks c) (m_nacks c) (m_window c) (m_threshold c).
Definition set_acks (remote oldest : Z) (acks nacks : list Z) (c : CongestionControl) : CongestionControl :=
  mkCC (m_nextPacket c) (m_nextDatagram c) remote (m_nextUpdate c) oldest (m_bytesInFlight c)
    (m_rttHistory c) (m_rttMin c) (m_rttMax c) (m_rttAvg c) (m_datagramHistory c) (m_packetHistory c)
    (m_outgoing c) acks nacks (m_window c) (m_threshold c).
Definition set_window (window threshold : Z) (c : CongestionControl) : CongestionControl :=
  mkCC (m_nextPacket c) (m_nextDatagram c) (m_remoteDatagram c) (m_nextUpdate c) (m_oldestUnsentAck c)
    (m_bytesInFlight c) (m_rttHistory c) (m_rttMin c) (m_rttMax c) (m_rttAvg c) (m_datagramHistory c)
    (m_packetHistory c) (m_outgoing c) (m_acks c) (m_nacks c) window threshold.

(** ** CongestionControl.cpp *)

Definition halfSpan : Z := 2147483647.
Definition SequenceGreaterThan (lhs rhs : Z) : bool := negb (lhs =? rhs) && (halfSpan <? u32 (rhs - lhs)).
Definition SequenceLessThan (lhs rhs : Z) : bool := negb (lhs =? rhs) && (u32 (rhs - lhs) <? halfSpan).

Definition expired (now life : Z) (t : Z) : bool := Timestamp_add t life <=? now.

(** The loop over m_outgoing: what is left of the byte count and of the map. *)
Fixpoint prune_flight (now life bytes : Z) (out : list (Z * DatagramInFlight))
    : Z * list (Z * DatagramInFlight) :=
  match out with
  | [] => (bytes, [])
  | (id, pif) :: out =>
      if expired now life (fl_sent pif)
      then prune_flight now life (u64 (bytes - fl_bytes pif)) out
      else let '(bytes, out) := prune_flight now life bytes out in (bytes, (id, pif) :: out)
  end.

Definition prune_history (now : Z) (m : gmap Z Z) : gmap Z Z :=
  filter (fun kv => expired now (FromSeconds 10) kv.2 = false) m.

(** CongestionControl::Update *)
Definition Update_base (now : Z) (stats : PeerStats) (c : CongestionControl) : PeerStats * CongestionControl :=
  if negb (Elapsed now (m_nextUpdate c)) then (stats, c) else
  let '(bytes, out) := prune_flight now (u64 (m_rttAvg c * 16)) (m_bytesInFlight c) (m_outgoing c) in
  let c := set_flight bytes out c in
  let c := set_history (Timestamp_add now (FromMilliseconds 20))
             (prune_history now (m_datagramHistory c)) (prune_history now (m_packetHistory c)) c in
  (Stats_Set BYTES_IN_FLIGHT bytes stats, c).

Definition GetNextPacketID (c : CongestionControl) : Z * CongestionControl :=
  (m_nextPacket c, set_ids (u32 (m_nextPacket c + 1)) (m_nextDatagram c) c).
Definition GetNextDatagramID (c : CongestionControl) : Z * CongestionControl :=
  (m_nextDatagram c, set_ids (m_nextPacket c) (u32 (m_nextDatagram c + 1)) c).
Definition PeekNextDatagramID (c : CongestionControl) : Z := m_nextDatagram c.

Definition GetRTTHistoryAvailable (c : CongestionControl) : bool := 2 <=? zlength (m_rttHistory c).
Definition GetAverageRTT (c : CongestionControl) : Z := u32 (ToMilliseconds (m_rttAvg c)).

(** MakeAckList(acks, nacks) called with two empty vectors. *)
Definition MakeAckList (c : CongestionControl) : list Z * list Z * CongestionControl :=
  (m_acks c, m_nacks c, set_acks (m_remoteDatagram c) (m_oldestUnsentAck c) [] [] c).

(** The loop of RecalculateRTT: sum, maximum and minimum. *)
Definition rtt_fold (h : list Z) : Z * Z * Z :=
  fold_left (fun '(sum, mx, mn) entry => (u64 (sum + entry), Z.max mx entry, Z.min mn entry)) h
    (0, 0, 18446744073709551615).

(** Called on a history that was just appended to, so the divisor is not zero. *)
Definition RecalculateRTT (c : CongestionControl) : CongestionControl :=
  let '(sum, mx, mn) := rtt_fold (m_rttHistory c) in
  set_rtt (m_rttHistory c) mn mx (sum / zlength (m_rttHistory c)) c.

Definition NotifySendingBytes (now outgoing bytes : Z) (c : CongestionControl) : CongestionControl :=
  set_flight (u64 (m_bytesInFlight c + bytes)) (emplace outgoing (mkFlight bytes now) (m_outgoing c)) c.

Fixpoint find_flight (id : Z) (out : list (Z * DatagramInFlight)) : option DatagramInFlight :=
  match out with
  | [] => None
  | (k, f) :: out => if k =? id then Some f else find_flight id out
  end.
Fixpoint erase_flight (id : Z) (out : list (Z * DatagramInFlight)) : list (Z * DatagramInFlight) :=
  match out with
  | [] => []
  | (k, f) :: out => if k =? id then out else (k, f) :: erase_flight id out
  end.

(** m_rttHistory.push_back(rtt), dropping the oldest when over the limit *)
Definition push_rtt (rtt : Z) (h : list Z) : list Z :=
  let h := h ++ [rtt] in if CONGESTION_RTT_HISTORY_LEN <? zlength h then tail h else h.

(** CongestionControl::NotifyReceivedAck *)
Definition NotifyReceivedAck_base (now recv : Z) (c : CongestionControl) : CongestionControl :=
  match find_flight recv (m_outgoing c) with
  | None => c
  | Some f =>
      let rtt := Between now (fl_sent f) in
      let c := RecalculateRTT (set_rtt (push_rtt rtt (m_rttHistory c)) (m_rttMin c) (m_rttMax c) (m_rttAvg c) c) in
      set_flight (u64 (m_bytesInFlight c - fl_bytes f)) (erase_flight recv (m_outgoing c)) c
  end.

(** [while (skipped > 0) { m_nacks.push_back(recv - skipped); skipped--; }] *)
Fixpoint nack_loop (skipped : nat) (recv : Z) : list Z :=
  match skipped with O => [] | S n => u32 (recv - Z.of_nat skipped) :: nack_loop n recv end.

Definition NotifyReceivedDatagram (now recv : Z) (isAckDatagram : bool) (c : CongestionControl)
    : RecvState * CongestionControl :=
  match m_datagramHistory c !! recv with
  | Some _ => (DUPLICATE, c)
  | None =>
      let c := set_history (m_nextUpdate c) (<[recv := now]> (m_datagramHistory c)) (m_packetHistory c) c in
      let oldest := if bool_decide (m_acks c = []) && bool_decide (m_nacks c = [])
                    then now else m_oldestUnsentAck c in
      let expected := m_remoteDatagram c in
      let nacks := if SequenceGreaterThan recv expected
                   then m_nacks c ++ nack_loop (Z.to_nat (u32 (recv - expected))) recv else m_nacks c in
      let acks := if isAckDatagram then m_acks c else m_acks c ++ [recv] in
      (NEW, set_acks (u32 (recv + 1)) oldest acks nacks c)
  end.

Definition NotifyReceivedPacket (now recv : Z) (c : CongestionControl) : RecvState * CongestionControl :=
  match m_packetHistory c !! recv with
  | Some _ => (DUPLICATE, c)
  | None => (NEW, set_history (m_nextUpdate c) (m_datagramHistory c) (<[recv := now]> (m_packetHistory c)) c)
  end.

(** ** CongestionControlWindow.cpp *)

Definition Update (now : Z) (stats : PeerStats) (c : CongestionControl) : PeerStats * CongestionControl :=
  let '(stats, c) := Update_base now stats c in (Stats_Set CWND (m_window c) stats, c).

Definition GetRetransmissionBudget (c : CongestionControl) : Z := Z.min (m_bytesInFlight c) MTU.

Definition GetTransmissionBudget (c : CongestionControl) : Z :=
  Z.min (if m_window c <=? m_bytesInFlight c then 0 else m_window c - m_bytesInFlight c)
        (u64 (MTU - GetRetransmissionBudget c)).

Definition GetRetransmissionRTO (retries : Z) (c : CongestionControl) : Z :=
  let baseDelay := FromMilliseconds THREAD_SLEEP_PACKETQUEUE_TICK in
  if negb (GetRTTHistoryAvailable c) then u64 (FromMilliseconds 100 + baseDelay) else
  let variance := u64 (m_rttMax c - m_rttMin c) in
  let rto := u64 (2 * m_rttAvg c + 4 * variance + baseDelay) in
  u64 (rto * u32 (retries + 1)).

Definition GetNeedsToSendAcks (now : Z) (c : CongestionControl) : bool :=
  if bool_decide (m_acks c = []) && bool_decide (m_nacks c = []) then false
  else (10 <? zlength (m_acks c) + zlength (m_nacks c)) ||
       Elapsed now (Timestamp_add (m_oldestUnsentAck c) (FromMilliseconds 10)).

Definition GetIsSlowStart (c : CongestionControl) : bool := m_window c <=? m_threshold c.

Definition NotifyReceivedAck (now recv : Z) (c : CongestionControl) : CongestionControl :=
  let c := NotifyReceivedAck_base now recv c in
  if GetIsSlowStart c
  then set_window (u64 (m_window c + MTU)) (m_threshold c) c
  else set_window (u64 (m_window c + (MTU * MTU / m_window c + MTU / 8))) (m_threshold c) c.

Definition NotifyReceivedNakGroup (c : CongestionControl) : CongestionControl :=
  set_window MTU (Z.max (m_window c / 2) (MTU * 2)) c.
