(* ===== verification/CongestionTheorems.v ===== *)
(** * CongestionTheorems: invariants of the congestion manager

    Every sequence of calls PacketQueue and RemotePeer can make is a list of
    [event]s; the invariant [cc_inv] holds after each of them.  The theorems
    bound the bytes in flight, the round-trip statistics, the window and the
    budgets, and characterise acknowledgement, gap detection and duplicate
    suppression. *)

From stdpp Require Import base tactics gmap list list_numbers numbers option sorting.
From Stdlib Require Import ZArith Lia.
From S2P Require Import Prelude Config PeerStats CongestionControl.

Open Scope Z_scope.

(** ** Events *)

(** One call from the rest of the library; sending takes the next datagram ID
    and reports its bytes, as DoWriteCycle does. *)
Inductive event : Type :=
  | ESend (now bytes : Z)
  | EAck (now recv : Z)
  | ENakGroup
  | ERecv (now recv : Z) (isAck : bool)
  | EPacket (now recv : Z)
  | EUpdate (now : Z)
  | EAckList
  | EPacketID.

Definition step (e : event) (c : CongestionControl) : CongestionControl :=
  match e with
  | ESend now bytes => let '(id, c) := GetNextDatagramID c in NotifySendingBytes now id bytes c
  | EAck now recv => NotifyReceivedAck now recv c
  | ENakGroup => NotifyReceivedNakGroup c
  | ERecv now recv isAck => snd (NotifyReceivedDatagram now recv isAck c)
  | EPacket now recv => snd (NotifyReceivedPacket now recv c)
  | EUpdate now => snd (Update now PeerStats_new c)
  | EAckList => snd (MakeAckList c)
  | EPacketID => snd (GetNextPacketID c)
  end.

Definition run (es : list event) (c : CongestionControl) : CongestionControl := fold_left (fun c e => step e c) es c.

(** Clock readings below 2^58 ns (nine years of uptime), datagrams below 4 GiB. *)
Definition clock_limit : Z := 288230376151711744.
Definition event_ok (e : event) : Prop :=
  match e with
  | ESend now bytes => 0 <= now < clock_limit /\ 0 <= bytes < 4294967296
  | EAck now _ | ERecv now _ _ | EPacket now _ | EUpdate now => 0 <= now < clock_limit
  | _ => True
  end.

Definition flight_sum (out : list (Z * DatagramInFlight)) : Z := foldr (fun kf n => fl_bytes kf.2 + n) 0 out.

(** ** The invariant after n events *)

Record cc_inv (n : Z) (c : CongestionControl) : Prop := {
  ci_next : 0 <= m_nextDatagram c <= n;
  ci_sorted : StronglySorted Z.lt (map fst (m_outgoing c));
  ci_keys : Forall (fun kf => 0 <= fst kf < m_nextDatagram c) (m_outgoing c);
  ci_flight : Forall (fun kf => 0 <= fl_bytes (snd kf) < 4294967296 /\ 0 <= fl_sent (snd kf) < clock_limit) (m_outgoing c);
  ci_len : zlength (m_outgoing c) <= n;
  ci_bytes : m_bytesInFlight c = flight_sum (m_outgoing c);
  ci_hist : zlength (m_rttHistory c) <= CONGESTION_RTT_HISTORY_LEN;
  ci_rtts : Forall (fun r => 0 <= r < clock_limit) (m_rttHistory c);
  ci_empty : m_rttHistory c = [] -> m_rttAvg c = 0;
  ci_bounds : m_rttHistory c <> [] ->
    m_rttMin c ∈ m_rttHistory c /\ m_rttMax c ∈ m_rttHistory c /\
    Forall (fun r => m_rttMin c <= r <= m_rttMax c) (m_rttHistory c) /\
    m_rttMin c <= m_rttAvg c <= m_rttMax c;
  ci_window : MTU <= m_window c <= MTU * (n + 1);
  ci_threshold : 2 * MTU <= m_threshold c;
}.

Lemma flight_sum_bounds out :
  Forall (fun kf => 0 <= fl_bytes (snd kf) < 4294967296 /\ 0 <= fl_sent (snd kf) < clock_limit) out ->
  0 <= flight_sum out <= 4294967296 * zlength out.
Proof.
  induction 1 as [|[k f] out [Hf _] _ IH]; [cbn; zlen|]. unfold flight_sum in *. cbn in *. zlen.
Qed.

(** std::map insertion at the end. *)
Lemma emplace_snoc {P} k (v : P) m : Forall (fun kv => fst kv < k) m -> emplace k v m = m ++ [(k, v)].
Proof.
  induction 1 as [|[k' v'] m Hk _ IH]; [done|]. cbn in *.
  rewrite (proj2 (Z.ltb_ge k k')), (proj2 (Z.eqb_neq k k')) by lia. now rewrite IH.
Qed.

Lemma sorted_snoc l x : StronglySorted Z.lt l -> Forall (fun y => y < x) l -> StronglySorted Z.lt (l ++ [x]).
Proof.
  induction 1 as [|y l Hl IH Hy]; intros Hx; [repeat constructor|]. inversion_clear Hx. cbn.
  constructor; [auto|]. apply Forall_app. auto.
Qed.

Lemma flight_sum_app l k : flight_sum (l ++ k) = flight_sum l + flight_sum k.
Proof. induction l as [|x l IH]; cbn; [done|]. unfold flight_sum in *. lia. Qed.

(** Entries removed. *)
Lemma sublist_Forall {A} (P : A -> Prop) (l k : list A) : l `sublist_of` k -> Forall P k -> Forall P l.
Proof. induction 1; inversion_clear 1; auto. Qed.

Lemma sublist_sorted (l k : list Z) : l `sublist_of` k -> StronglySorted Z.lt k -> StronglySorted Z.lt l.
Proof.
  induction 1 as [|x l k H IH|x l k H IH]; inversion_clear 1; [constructor|constructor|]; eauto using sublist_Forall.
Qed.

Lemma erase_sublist id out : erase_flight id out `sublist_of` out.
Proof. induction out as [|[k f] out IH]; cbn; [constructor|]. destruct (k =? id); repeat constructor; auto. Qed.

Lemma erase_flight_sum id out f : find_flight id out = Some f ->
  flight_sum (erase_flight id out) = flight_sum out - fl_bytes f /\ (id, f) ∈ out.
Proof.
  induction out as [|[k g] out IH]; cbn; [done|]. intros E. rewrite elem_of_cons.
  destruct (Z.eqb_spec k id) as [->|Hne].
  - injection E as ->. split; [unfold flight_sum; lia|auto].
  - destruct (IH E) as [E1 E2]. split; [unfold flight_sum in *; cbn; lia|auto].
Qed.

Lemma prune_flight_spec now life out : forall bytes out' bytes',
  prune_flight now life bytes out = (bytes', out') ->
  out' `sublist_of` out /\
  (Forall (fun kf => 0 <= fl_bytes (snd kf)) out -> bytes = flight_sum out -> flight_sum out < 18446744073709551616 ->
   bytes' = flight_sum out').
Proof.
  cut (forall bytes out' bytes' slack, prune_flight now life bytes out = (bytes', out') ->
    out' `sublist_of` out /\ (Forall (fun kf => 0 <= fl_bytes (snd kf)) out -> 0 <= slack ->
      bytes = slack + flight_sum out -> slack + flight_sum out < 18446744073709551616 ->
      bytes' = slack + flight_sum out')).
  { intros H bytes out' bytes' E. destruct (H _ _ _ 0 E) as [? Hb]. split; [done|]. intros. now apply Hb. }
  induction out as [|[k f] out IH]; intros bytes out' bytes' slack; cbn [prune_flight].
  { intros [= <- <-]. split; [constructor|]. auto. }
  destruct (expired now life (fl_sent f)).
  - intros E. destruct (IH _ _ _ slack E) as [Hs Hb]. split; [now constructor|].
    intros Hf Hsl Hbytes Hlt. inversion_clear Hf as [|? ? Hf1 Hf2]. cbn in Hf1, Hbytes, Hlt.
    assert (0 <= flight_sum out) by (clear - Hf2; induction Hf2; cbn in *; unfold flight_sum in *; lia).
    unfold flight_sum in *. cbn in *. apply Hb; [done|done| |lia]. rewrite u64_small; lia.
  - destruct (prune_flight now life bytes out) as [b2 out2] eqn:E. intros [= <- <-].
    destruct (IH _ _ _ (slack + fl_bytes f) E) as [Hs Hb]. split; [now constructor|].
    intros Hf Hsl Hbytes Hlt. inversion_clear Hf as [|? ? Hf1 Hf2]. cbn in Hf1.
    unfold flight_sum in *. cbn in *. rewrite Hb; [lia|done|lia..].
Qed.

(** ** Round-trip statistics *)

Definition rtt_sum (h : list Z) : Z := foldr Z.add 0 h.

Lemma rtt_sum_bounds lo hi h : Forall (fun r => lo <= r <= hi) h ->
  lo * zlength h <= rtt_sum h <= hi * zlength h.
Proof.
  induction 1 as [|r h Hr _ IH]; [rewrite zlength_nil; cbn; lia|]. rewrite zlength_cons.
  unfold rtt_sum in *. cbn [foldr]. lia.
Qed.

Lemma rtt_fold_gen h : forall s mx mn, Forall (fun r => 0 <= r < clock_limit) h -> 0 <= s ->
  s + clock_limit * zlength h < 18446744073709551616 ->
  exists mx' mn', fold_left (fun '(sum, mx, mn) entry => (u64 (sum + entry), Z.max mx entry, Z.min mn entry))
      h (s, mx, mn) = (s + rtt_sum h, mx', mn') /\
    mx <= mx' /\ mn' <= mn /\ Forall (fun r => mn' <= r <= mx') h /\
    (mx' = mx \/ mx' ∈ h) /\ (mn' = mn \/ mn' ∈ h).
Proof.
  induction h as [|r h IH]; intros s mx mn Hf Hs Hlt; cbn [fold_left].
  { exists mx, mn. cbn. rewrite Z.add_0_r. repeat split; auto; lia. }
  inversion_clear Hf as [|? ? Hr Hf']. rewrite zlength_cons in Hlt. pose proof (zlength_nonneg h).
  unfold clock_limit in *. rewrite u64_small by nia.
  destruct (IH (s + r) (Z.max mx r) (Z.min mn r)) as (mx' & mn' & E & H1 & H2 & H3 & H4 & H5); [done|lia|lia|].
  exists mx', mn'. rewrite E. split; [unfold rtt_sum; cbn [foldr]; do 2 f_equal; lia|].
  split; [lia|]. split; [lia|]. split; [constructor; [lia|done]|]. rewrite !elem_of_cons.
  split; [destruct H4; [destruct (Z.max_spec mx r); naive_solver lia|auto]|].
  destruct H5; [destruct (Z.min_spec mn r); naive_solver lia|auto].
Qed.

Lemma rtt_fold_spec h : Forall (fun r => 0 <= r < clock_limit) h -> h <> [] -> zlength h <= 32 ->
  exists mx mn, rtt_fold h = (rtt_sum h, mx, mn) /\ mx ∈ h /\ mn ∈ h /\
    Forall (fun r => mn <= r <= mx) h /\ mn <= rtt_sum h / zlength h <= mx.
Proof.
  intros Hf Hne Hl.
  destruct (rtt_fold_gen h 0 0 18446744073709551615) as (mx & mn & E & H1 & H2 & H3 & H4 & H5);
    [done|lia|unfold clock_limit; lia|].
  exists mx, mn. split; [exact E|]. destruct h as [|r h]; [done|].
  assert (Hin : r ∈ r :: h) by apply list_elem_of_here.
  pose proof (Forall_forall (fun r => 0 <= r < clock_limit) (r :: h)) as [Hr _]. specialize (Hr Hf r Hin).
  pose proof (Forall_forall (fun r => mn <= r <= mx) (r :: h)) as [Hb _]. specialize (Hb H3 r Hin).
  unfold clock_limit in *.
  assert (Hmx : mx ∈ r :: h) by (destruct H4 as [->|]; [replace 0 with r by lia; done|done]).
  assert (Hmn : mn ∈ r :: h) by (destruct H5 as [->|]; [lia|done]).
  pose proof (rtt_sum_bounds mn mx _ H3). assert (1 <= zlength (r :: h)) by zlen.
  repeat split; try done.
  - apply Z.div_le_lower_bound; lia.
  - apply Z.div_le_upper_bound; lia.
Qed.

Lemma push_rtt_spec rtt h : zlength h <= 32 -> 0 <= rtt < clock_limit ->
  Forall (fun r => 0 <= r < clock_limit) h ->
  push_rtt rtt h <> [] /\ zlength (push_rtt rtt h) <= 32 /\ Forall (fun r => 0 <= r < clock_limit) (push_rtt rtt h).
Proof.
  intros Hl Hr Hf. unfold push_rtt, CONGESTION_RTT_HISTORY_LEN.
  assert (Ha : Forall (fun r => 0 <= r < clock_limit) (h ++ [rtt])) by (apply Forall_app; auto).
  destruct (Z.ltb_spec 32 (zlength (h ++ [rtt]))) as [Hgt|Hle].
  - destruct h as [|x h]; [cbn in Hgt; zlen|]. cbn [app tail] in *. inversion_clear Ha.
    split; [now destruct h|]. split; [zlen|done].
  - split; [now destruct h|]. done.
Qed.

(** ** Preservation *)

Ltac inv_fields H := destruct H as [Hnext Hsorted Hkeys Hflight Hlen Hbytes Hhist Hrtts Hempty Hbounds Hwin Hthr].

(** A step that leaves flights, round trips and window alone. *)
Lemma cc_inv_same n m c c' : cc_inv n c -> n <= m -> m_nextDatagram c' = m_nextDatagram c ->
  m_outgoing c' = m_outgoing c -> m_bytesInFlight c' = m_bytesInFlight c ->
  m_rttHistory c' = m_rttHistory c -> m_rttAvg c' = m_rttAvg c -> m_rttMin c' = m_rttMin c ->
  m_rttMax c' = m_rttMax c -> m_window c' = m_window c -> m_threshold c' = m_threshold c -> cc_inv m c'.
Proof.
  intros H Hm E1 E2 E3 E4 E5 E6 E7 E8 E9. inv_fields H. unfold MTU in *.
  split; rewrite ?E1, ?E2, ?E3, ?E4, ?E5, ?E6, ?E7, ?E8, ?E9; try done; unfold MTU; lia.
Qed.

Lemma cc_inv_new now : cc_inv 0 (CongestionControl_new now).
Proof.
  split; cbn; try done; try constructor; try (unfold MTU, CONGESTION_WINDOW_SSTHRESH; lia).
Qed.

Lemma step_send n c now bytes : cc_inv n c -> 0 <= n < 2147483648 -> event_ok (ESend now bytes) ->
  cc_inv (n + 1) (step (ESend now bytes) c).
Proof.
  intros H Hn [Hnow Hb]. inv_fields H. cbn [step GetNextDatagramID]. unfold NotifySendingBytes.
  pose proof (flight_sum_bounds _ Hflight) as Hfs. unfold MTU in *.
  cbn [set_ids set_flight m_outgoing m_bytesInFlight m_nextDatagram m_window m_threshold m_rttHistory
       m_rttAvg m_rttMin m_rttMax].
  assert (Ee : emplace (m_nextDatagram c) (mkFlight bytes now) (m_outgoing c) =
               m_outgoing c ++ [(m_nextDatagram c, mkFlight bytes now)]).
  { apply emplace_snoc. eapply Forall_impl; [exact Hkeys|]. cbn. lia. }
  rewrite (u32_small (m_nextDatagram c + 1)) by lia.
  split; cbn [set_ids set_flight m_outgoing m_bytesInFlight m_nextDatagram m_window m_threshold m_rttHistory
       m_rttAvg m_rttMin m_rttMax]; rewrite ?Ee, ?u64_small; try done; try lia.
  - rewrite map_app. apply sorted_snoc; [done|]. apply Forall_map. eapply Forall_impl; [exact Hkeys|]. cbn. lia.
  - apply Forall_app. split; [eapply Forall_impl; [exact Hkeys|cbn; lia]|]. repeat constructor; cbn; lia.
  - apply Forall_app. split; [done|]. repeat constructor; cbn; lia.
  - zlen.
  - rewrite flight_sum_app. cbn. lia.
  - unfold MTU. lia.
Qed.

Lemma Forall_and_bytes (out : list (Z * DatagramInFlight)) :
  Forall (fun kf => 0 <= fl_bytes (snd kf) < 4294967296 /\ 0 <= fl_sent (snd kf) < clock_limit) out ->
  Forall (fun kf => 0 <= fl_bytes (snd kf)) out.
Proof. intros H. eapply Forall_impl; [exact H|]. cbn. lia. Qed.

(** Removing flights and lowering the byte count accordingly. *)
Lemma cc_inv_flight n c out : cc_inv n c -> out `sublist_of` m_outgoing c ->
  cc_inv n (set_flight (flight_sum out) out c).
Proof.
  intros H Hs. inv_fields H. split; cbn; try done.
  - eapply sublist_sorted; [|exact Hsorted]. now apply fmap_sublist.
  - eapply sublist_Forall; [exact Hs|done].
  - eapply sublist_Forall; [exact Hs|done].
  - apply sublist_length in Hs. unfold zlength in *. lia.
Qed.

Lemma cc_inv_rtt n c rtt : cc_inv n c -> 0 <= rtt < clock_limit ->
  cc_inv n (RecalculateRTT (set_rtt (push_rtt rtt (m_rttHistory c)) (m_rttMin c) (m_rttMax c) (m_rttAvg c) c)).
Proof.
  intros H Hr. inv_fields H.
  destruct (push_rtt_spec rtt (m_rttHistory c) Hhist Hr Hrtts) as (Hne & Hl & Hf).
  destruct (rtt_fold_spec _ Hf Hne Hl) as (mx & mn & E & Hmx & Hmn & Hall & Havg).
  unfold RecalculateRTT. cbn [m_rttHistory set_rtt]. rewrite E. split; cbn; done.
Qed.

(** The window grows by at most one MTU per ack. *)
Lemma cc_inv_grow n c delta : cc_inv n c -> 0 <= n < 2147483648 -> 0 <= delta <= MTU ->
  cc_inv (n + 1) (set_window (u64 (m_window c + delta)) (m_threshold c) c).
Proof.
  intros H Hn Hd. inv_fields H. unfold MTU in *. split; cbn; unfold MTU; try done; try lia.
  rewrite u64_small by lia. lia.
Qed.

Lemma step_ack n c now recv : cc_inv n c -> 0 <= n < 2147483648 -> event_ok (EAck now recv) ->
  cc_inv (n + 1) (step (EAck now recv) c).
Proof.
  intros H Hn Hnow. cbn [step]. unfold NotifyReceivedAck.
  assert (Hbase : cc_inv n (NotifyReceivedAck_base now recv c)).
  { unfold NotifyReceivedAck_base. destruct (find_flight recv (m_outgoing c)) as [f|] eqn:E; [|done].
    destruct (erase_flight_sum _ _ _ E) as [Es Hin].
    pose proof (ci_flight n c H) as Hfl. rewrite Forall_forall in Hfl.
    destruct (Hfl _ Hin) as [Hb Hsent]. cbn in Hb, Hsent, Hnow. unfold clock_limit in *.
    assert (Hrtt : 0 <= Between now (fl_sent f) < clock_limit)
      by (rewrite Between_abs; unfold clock_limit; lia).
    pose proof (cc_inv_rtt n c _ H Hrtt) as H'. set (c1 := RecalculateRTT _) in *.
    assert (E1 : m_outgoing c1 = m_outgoing c /\ m_bytesInFlight c1 = m_bytesInFlight c)
      by (unfold c1, RecalculateRTT; destruct (rtt_fold _) as [[] ?]; done).
    destruct E1 as [-> ->]. rewrite (ci_bytes n c H).
    pose proof (erase_sublist recv (m_outgoing c)) as Hsub.
    assert (Hfs : 0 <= flight_sum (erase_flight recv (m_outgoing c)) < 18446744073709551616).
    { pose proof (flight_sum_bounds _ (sublist_Forall _ _ _ Hsub (ci_flight n c H))).
      pose proof (ci_len n c H). apply sublist_length in Hsub. unfold zlength in *. lia. }
    rewrite <- Es, u64_small by lia.
    replace (erase_flight recv (m_outgoing c)) with (erase_flight recv (m_outgoing c1)) in *
      by (unfold c1, RecalculateRTT; now destruct (rtt_fold _) as [[] ?]).
    apply cc_inv_flight; [done|]. apply erase_sublist. }
  set (c' := NotifyReceivedAck_base now recv c) in *. unfold GetIsSlowStart.
  destruct (Z.leb_spec (m_window c') (m_threshold c')); (apply cc_inv_grow; [done|done|]); [unfold MTU; lia|].
  pose proof (ci_threshold n c' Hbase) as Ht. unfold MTU in *. change (1300 / 8) with 162.
  assert (1300 * 1300 / m_window c' <= 650) by (apply Z.div_le_upper_bound; lia).
  assert (0 <= 1300 * 1300 / m_window c') by (apply Z.div_pos; lia). lia.
Qed.

Lemma step_nak n c : cc_inv n c -> 0 <= n -> cc_inv (n + 1) (step ENakGroup c).
Proof.
  intros H Hn. inv_fields H. unfold MTU in *. split; cbn; unfold MTU; try done; try lia.
Qed.

Lemma step_update n c now : cc_inv n c -> 0 <= n < 2147483648 -> cc_inv (n + 1) (step (EUpdate now) c).
Proof.
  intros H Hn. cbn [step]. unfold Update, Update_base.
  destruct (negb (Elapsed now (m_nextUpdate c))); [eapply cc_inv_same; [exact H|lia|done..]|].
  destruct (prune_flight now _ _ _) as [bytes out] eqn:E. cbn [snd].
  destruct (prune_flight_spec _ _ _ _ _ _ E) as [Hs Hb].
  pose proof (flight_sum_bounds _ (ci_flight n c H)). pose proof (ci_len n c H).
  rewrite Hb; [|apply Forall_and_bytes, H|apply H|lia].
  eapply cc_inv_same; [exact (cc_inv_flight n c out H Hs)|lia|done..].
Qed.

Lemma step_inv n c e : cc_inv n c -> 0 <= n < 2147483648 -> event_ok e -> cc_inv (n + 1) (step e c).
Proof.
  intros H Hn He. destruct e.
  - now apply step_send.
  - now apply step_ack.
  - apply step_nak; [done|lia].
  - cbn [step]. unfold NotifyReceivedDatagram.
    destruct (m_datagramHistory c !! recv); (eapply cc_inv_same; [exact H|lia|done..]).
  - cbn [step]. unfold NotifyReceivedPacket.
    destruct (m_packetHistory c !! recv); (eapply cc_inv_same; [exact H|lia|done..]).
  - now apply step_update.
  - eapply cc_inv_same; [exact H|lia|done..].
  - eapply cc_inv_same; [exact H|lia|done..].
Qed.

Lemma run_inv es : forall n c, cc_inv n c -> 0 <= n -> n + zlength es <= 2147483648 -> Forall event_ok es ->
  cc_inv (n + zlength es) (run es c).
Proof.
  induction es as [|e es IH]; intros n c H Hn Hl Hf; cbn; [now rewrite zlength_nil, Z.add_0_r|].
  inversion_clear Hf. rewrite zlength_cons in *. pose proof (zlength_nonneg es).
  replace (n + (1 + zlength es)) with (n + 1 + zlength es) by lia. apply IH; [|lia|lia|done].
  apply step_inv; [done|lia|done].
Qed.

Lemma run_new es now : zlength es <= 2147483648 -> Forall event_ok es ->
  cc_inv (zlength es) (run es (CongestionControl_new now)).
Proof. intros Hl Hf. apply (run_inv es 0); [apply cc_inv_new|lia|lia|done]. Qed.

(** ** Gaps *)

Lemma SGT_spec r e : 0 <= e <= 2147483647 -> 0 <= r <= 2147483647 -> SequenceGreaterThan r e = (e <? r).
Proof.
  intros He Hr. unfold SequenceGreaterThan, halfSpan.
  destruct (Z.ltb_spec e r), (Z.eqb_spec r e); cbn; try lia; apply Z.ltb_lt || apply Z.ltb_ge; word_lia.
Qed.

Lemma nack_loop_seqZ n : forall r, Z.of_nat n <= r < 4294967296 -> nack_loop n r = seqZ (r - Z.of_nat n) (Z.of_nat n).
Proof.
  induction n as [|n IH]; intros r Hr; [done|]. cbn [nack_loop]. rewrite IH by lia.
  rewrite (seqZ_cons _ (Z.of_nat (S n))), u32_small by lia. f_equal. f_equal; lia.
Qed.

(** Arrivals: the ID of a datagram, and whether it has acknowledgements only. *)
Definition receive (now : Z) (rs : list (Z * bool)) (c : CongestionControl) : CongestionControl :=
  fold_left (fun c r => snd (NotifyReceivedDatagram now r.1 r.2 c)) rs c.

(** The arrivals that carry data. *)
Definition data_ids (rs : list (Z * bool)) : list Z := omap (fun r => if r.2 : bool then None else Some r.1) rs.

(** Receiver state after the datagrams [rs]: expecting [e]. *)
Record gap_inv (arrivals : list (Z * bool)) (e : Z) (c : CongestionControl) (rs := map fst arrivals) : Prop := {
  gi_expected : m_remoteDatagram c = e;
  gi_range : 0 <= e <= 2147483647;
  gi_below : Forall (fun r => 0 <= r < e) rs;
  gi_acks : m_acks c = data_ids arrivals;
  gi_nodup : NoDup (m_nacks c);
  gi_nacks : forall i, i ∈ m_nacks c <-> 0 <= i < e /\ i ∉ rs;
  gi_hist : forall i, is_Some (m_datagramHistory c !! i) <-> i ∈ rs;
  gi_last : e = 0 \/ (e - 1) ∈ rs;
}.

Lemma gap_step now arrivals e c r isAck : gap_inv arrivals e c -> e <= r < 2147483647 ->
  gap_inv (arrivals ++ [(r, isAck)]) (r + 1) (snd (NotifyReceivedDatagram now r isAck c)).
Proof.
  intros [H1 H2 H3 H4 H5 H6 H7 _] Hr. unfold NotifyReceivedDatagram. set (rs := map fst arrivals) in *.
  assert (Hnr : r ∉ rs) by (intros Hi; rewrite Forall_forall in H3; specialize (H3 r Hi); lia).
  destruct (m_datagramHistory c !! r) eqn:Eh.
  { exfalso. apply Hnr, H7. rewrite Eh. eauto. }
  cbn [snd]. set (c1 := set_history _ _ _ c).
  assert (En : (if SequenceGreaterThan r (m_remoteDatagram c1)
      then m_nacks c1 ++ nack_loop (Z.to_nat (u32 (r - m_remoteDatagram c1))) r else m_nacks c1) =
      m_nacks c ++ seqZ e (r - e)).
  { unfold c1. cbn [set_history m_remoteDatagram m_nacks]. rewrite H1, SGT_spec by lia.
    destruct (Z.ltb_spec e r).
    - rewrite u32_small, nack_loop_seqZ by lia. f_equal. f_equal; lia.
    - replace (r - e) with 0 by lia. now rewrite app_nil_r. }
  rewrite En. split; rewrite ?map_app; fold rs; cbn.
  - apply u32_small. lia.
  - lia.
  - apply Forall_app. split; [eapply Forall_impl; [exact H3|cbn; lia]|repeat constructor; lia].
  - unfold data_ids. rewrite omap_app, H4. destruct isAck; cbn; now rewrite ?app_nil_r.
  - apply NoDup_app. split; [done|]. split; [|apply NoDup_seqZ].
    intros i [Hi _]%H6 Hj%elem_of_seqZ. lia.
  - intros i. rewrite elem_of_app, elem_of_seqZ, H6, not_elem_of_app, list_elem_of_singleton.
    rewrite Forall_forall in H3. split.
    + intros [[? ?]|?]; [split; [lia|]; split; [done|lia]|]. split; [lia|]. split; [|lia].
      intros Hi. specialize (H3 i Hi). lia.
    + intros [? [? ?]]. destruct (decide (i < e)); [left; split; [lia|done]|right; lia].
  - intros i. rewrite elem_of_app, list_elem_of_singleton, <- H7.
    destruct (decide (i = r)) as [->|]; [rewrite lookup_insert_eq; split; eauto|].
    rewrite lookup_insert_ne by done. split; [auto|]. intros [?|?]; done.
  - right. rewrite elem_of_app, list_elem_of_singleton. right. lia.
Qed.

Lemma gap_run now rs' : forall rs e c, gap_inv rs e c -> StronglySorted Z.lt (map fst rs') ->
  Forall (fun r => e <= r < 2147483647) (map fst rs') ->
  exists e', gap_inv (rs ++ rs') e' (receive now rs' c).
Proof.
  induction rs' as [|[r isAck] rs' IH]; intros rs e c H Hs Hf; cbn in *.
  { exists e. now rewrite app_nil_r. }
  inversion_clear Hs as [|? ? Hs' Hr]. inversion_clear Hf as [|? ? Hr1 Hf'].
  rewrite (app_snoc_cons rs (r, isAck) rs'). eapply IH; [eapply gap_step; [exact H|done]|done|].
  apply Forall_and. split; [eapply Forall_impl; [exact Hr|cbn; lia]|eapply Forall_impl; [exact Hf'|cbn; lia]].
Qed.

Lemma gap_new now : gap_inv [] 0 (CongestionControl_new now).
Proof.
  split; cbn; [done|lia|constructor|done|constructor| | |auto].
  - intros i. rewrite elem_of_nil. split; [done|]. intros []; lia.
  - intros i. rewrite lookup_empty, elem_of_nil. split; [now intros []|done].
Qed.

(** ** Duplicate suppression *)

(** A record made at [t] outlives every clean-up before [t] + 10 s. *)
Definition before (t : Z) (e : event) : Prop :=
  match e with EUpdate now => 0 <= now < t + FromSeconds 10 | _ => True end.

Lemma prune_keeps now t r (m : gmap Z Z) : m !! r = Some t -> 0 <= t < clock_limit ->
  now < t + FromSeconds 10 -> prune_history now m !! r = Some t.
Proof.
  intros E Ht Hn. unfold prune_history. apply map_lookup_filter_Some. split; [done|]. cbn.
  unfold expired, Timestamp_add. unfold clock_limit in *. change (FromSeconds 10) with 10000000000 in *.
  rewrite u64_small by lia. apply Z.leb_gt. lia.
Qed.

Lemma step_keeps_datagram e t r c : m_datagramHistory c !! r = Some t -> 0 <= t < clock_limit ->
  before t e -> m_datagramHistory (step e c) !! r = Some t.
Proof.
  intros E Ht Hb. destruct e; cbn [step]; try exact E.
  - unfold NotifyReceivedAck, NotifyReceivedAck_base, RecalculateRTT.
    destruct (find_flight recv (m_outgoing c)); [destruct (rtt_fold _) as [[] ?]|];
      destruct (GetIsSlowStart _); exact E.
  - unfold NotifyReceivedDatagram. destruct (m_datagramHistory c !! recv) eqn:Er; [done|]. cbn.
    rewrite lookup_insert_ne; [done|]. congruence.
  - unfold NotifyReceivedPacket. now destruct (m_packetHistory c !! recv).
  - unfold Update, Update_base. destruct (negb (Elapsed now (m_nextUpdate c))); [done|].
    destruct (prune_flight now _ _ _). cbn. apply prune_keeps; [done|done|]. cbn in Hb. lia.
Qed.

Lemma step_keeps_packet e t r c : m_packetHistory c !! r = Some t -> 0 <= t < clock_limit ->
  before t e -> m_packetHistory (step e c) !! r = Some t.
Proof.
  intros E Ht Hb. destruct e; cbn [step]; try exact E.
  - unfold NotifyReceivedAck, NotifyReceivedAck_base, RecalculateRTT.
    destruct (find_flight recv (m_outgoing c)); [destruct (rtt_fold _) as [[] ?]|];
      destruct (GetIsSlowStart _); exact E.
  - unfold NotifyReceivedDatagram. now destruct (m_datagramHistory c !! recv).
  - unfold NotifyReceivedPacket. destruct (m_packetHistory c !! recv) eqn:Er; [done|]. cbn.
    rewrite lookup_insert_ne; [done|]. congruence.
  - unfold Update, Update_base. destruct (negb (Elapsed now (m_nextUpdate c))); [done|].
    destruct (prune_flight now _ _ _). cbn. apply prune_keeps; [done|done|]. cbn in Hb. lia.
Qed.

Lemma run_keeps (look : CongestionControl -> option Z) t es : forall c,
  (forall e c, look c = Some t -> before t e -> look (step e c) = Some t) ->
  look c = Some t -> Forall (before t) es -> look (run es c) = Some t.
Proof.
  induction es as [|e es IH]; intros c Hk E Hf; cbn; [done|]. inversion_clear Hf. apply IH; auto.
Qed.

(** ** Theorems *)

Definition demo_events : list event :=
  [ESend 1000 200; ESend 2000 300; ERecv 2500 0 false; EAck 50002000 0; EUpdate 60000000; ESend 61000000 100;
   EAck 90000000 1; ENakGroup; EAck 90000001 2].

Lemma demo_events_ok : Forall event_ok demo_events.
Proof. unfold demo_events. repeat constructor; cbn; unfold clock_limit; lia. Qed.

(** C15: after any sequence of at most 2^31 calls the byte count of the
    congestion manager is exactly the sum over the datagrams it tracks, each
    datagram is tracked once and under an ID that was handed out; no byte is
    counted twice and the counter never wraps. *)
Theorem flight_accounting es now :
  zlength es <= 2147483648 -> Forall event_ok es ->
  let c := run es (CongestionControl_new now) in
  m_bytesInFlight c = flight_sum (m_outgoing c) /\ 0 <= m_bytesInFlight c /\
  StronglySorted Z.lt (map fst (m_outgoing c)) /\
  Forall (fun kf => 0 <= fst kf < m_nextDatagram c) (m_outgoing c).
Proof.
  intros Hl Hf c. pose proof (run_new es now Hl Hf) as H. fold c in H.
  pose proof (flight_sum_bounds _ (ci_flight _ _ H)). inv_fields H. rewrite Hbytes. tauto || (repeat split; done || lia).
Qed.

Lemma flight_accounting_witness :
  let c := run demo_events (CongestionControl_new 0) in
  m_bytesInFlight c = flight_sum (m_outgoing c) /\ 0 <= m_bytesInFlight c /\
  StronglySorted Z.lt (map fst (m_outgoing c)) /\
  Forall (fun kf => 0 <= fst kf < m_nextDatagram c) (m_outgoing c).
Proof. apply (flight_accounting demo_events 0); [vm_compute; discriminate|apply demo_events_ok]. Defined.

(** C25: the window never drops below one MTU and grows by at most one MTU per
    call; the bytes offered for new and for resent packets fit one MTU together,
    and new data never exceeds what the window leaves free. *)
Theorem window_and_budgets es now :
  zlength es <= 2147483648 -> Forall event_ok es ->
  let c := run es (CongestionControl_new now) in
  MTU <= m_window c <= MTU * (zlength es + 1) /\
  0 <= GetRetransmissionBudget c /\ 0 <= GetTransmissionBudget c /\
  GetRetransmissionBudget c + GetTransmissionBudget c <= MTU /\
  (m_bytesInFlight c <= m_window c -> m_bytesInFlight c + GetTransmissionBudget c <= m_window c) /\
  (m_window c <= m_bytesInFlight c -> GetTransmissionBudget c = 0).
Proof.
  intros Hl Hf c. pose proof (run_new es now Hl Hf) as H. fold c in H.
  pose proof (flight_sum_bounds _ (ci_flight _ _ H)). pose proof (ci_bytes _ _ H) as Hb.
  pose proof (ci_window _ _ H). unfold GetTransmissionBudget, GetRetransmissionBudget, MTU in *.
  rewrite u64_small by lia. destruct (Z.leb_spec (m_window c) (m_bytesInFlight c)); lia.
Qed.

Lemma window_and_budgets_witness :
  let c := run demo_events (CongestionControl_new 0) in
  MTU <= m_window c <= MTU * (zlength demo_events + 1) /\
  0 <= GetRetransmissionBudget c /\ 0 <= GetTransmissionBudget c /\
  GetRetransmissionBudget c + GetTransmissionBudget c <= MTU /\
  (m_bytesInFlight c <= m_window c -> m_bytesInFlight c + GetTransmissionBudget c <= m_window c) /\
  (m_window c <= m_bytesInFlight c -> GetTransmissionBudget c = 0).
Proof. apply (window_and_budgets demo_events 0); [vm_compute; discriminate|apply demo_events_ok]. Defined.

(** C29: the round-trip history holds at most 32 samples; once it has one, the
    minimum and the maximum are samples that bound all others, the average lies
    between them, and the retransmission delay is computed without wrapping:
    twice the average plus four times the spread plus one tick, times the number
    of attempts, for every attempt PacketQueue makes. *)
Theorem rtt_statistics es now retries :
  zlength es <= 2147483648 -> Forall event_ok es -> 0 <= retries <= SEND_RETRY_COUNT ->
  let c := run es (CongestionControl_new now) in
  zlength (m_rttHistory c) <= CONGESTION_RTT_HISTORY_LEN /\
  (m_rttHistory c <> [] ->
    m_rttMin c ∈ m_rttHistory c /\ m_rttMax c ∈ m_rttHistory c /\
    Forall (fun r => m_rttMin c <= r <= m_rttMax c) (m_rttHistory c) /\
    m_rttMin c <= m_rttAvg c <= m_rttMax c) /\
  GetRetransmissionRTO retries c =
    (if 2 <=? zlength (m_rttHistory c)
     then (2 * m_rttAvg c + 4 * (m_rttMax c - m_rttMin c) + 5000000) * (retries + 1) else 105000000).
Proof.
  intros Hl Hf Hr c. pose proof (run_new es now Hl Hf) as H. fold c in H. inv_fields H.
  split; [done|]. split; [exact Hbounds|].
  unfold GetRetransmissionRTO, GetRTTHistoryAvailable, SEND_RETRY_COUNT in *.
  change (FromMilliseconds THREAD_SLEEP_PACKETQUEUE_TICK) with 5000000.
  destruct (Z.leb_spec 2 (zlength (m_rttHistory c))) as [H2|H2]; cbn [negb]; [|reflexivity].
  destruct Hbounds as (Hmn & Hmx & _ & Havg); [destruct (m_rttHistory c); [cbn in H2; zlen|done]|].
  rewrite Forall_forall in Hrtts. pose proof (Hrtts _ Hmn). pose proof (Hrtts _ Hmx). unfold clock_limit in *.
  rewrite (u64_small (m_rttMax c - m_rttMin c)) by lia. rewrite (u32_small (retries + 1)) by lia.
  rewrite (u64_small (_ + _)) by lia. apply u64_small. nia.
Qed.

Lemma rtt_statistics_witness :
  let c := run demo_events (CongestionControl_new 0) in
  zlength (m_rttHistory c) <= CONGESTION_RTT_HISTORY_LEN /\
  (m_rttHistory c <> [] ->
    m_rttMin c ∈ m_rttHistory c /\ m_rttMax c ∈ m_rttHistory c /\
    Forall (fun r => m_rttMin c <= r <= m_rttMax c) (m_rttHistory c) /\
    m_rttMin c <= m_rttAvg c <= m_rttMax c) /\
  GetRetransmissionRTO 1 c =
    (if 2 <=? zlength (m_rttHistory c)
     then (2 * m_rttAvg c + 4 * (m_rttMax c - m_rttMin c) + 5000000) * (1 + 1) else 105000000).
Proof.
  apply (rtt_statistics demo_events 0 1); [vm_compute; discriminate|apply demo_events_ok|].
  unfold SEND_RETRY_COUNT. lia.
Defined.

(** C27: of the datagrams that arrive in increasing order, some of them missing, those
    with data are acknowledged, in that order, and those that only acknowledge are not;
    and exactly the IDs below the newest that did not arrive are reported lost, each
    once. *)
Theorem gaps_are_reported now rs : StronglySorted Z.lt (map fst rs) -> Forall (fun r => 0 <= r < 2147483647) (map fst rs) ->
  let '(acks, nacks, _) := MakeAckList (receive now rs (CongestionControl_new now)) in
  acks = data_ids rs /\ NoDup nacks /\
  forall i, i ∈ nacks <-> (0 <= i /\ (i ∉ map fst rs) /\ exists r, (r ∈ map fst rs) /\ i < r).
Proof.
  intros Hs Hf. destruct (gap_run now rs [] 0 _ (gap_new now) Hs) as [e [H1 H2 H3 H4 H5 H6 _ H8]].
  { eapply Forall_impl; [exact Hf|]. cbn. lia. }
  cbn [app MakeAckList] in *. split; [done|]. split; [done|]. intros i. rewrite H6. split.
  - intros [Hi Hn]. split; [lia|]. split; [done|]. destruct H8 as [->|Hl]; [lia|]. exists (e - 1).
    split; [done|]. assert (i <> e - 1) by congruence. lia.
  - intros (Hi & Hn & r & Hr & Hlt). rewrite Forall_forall in H3. specialize (H3 r Hr). split; [lia|done].
Qed.

Lemma gaps_are_reported_witness :
  let '(acks, nacks, _) := MakeAckList (receive 7 [(1, false); (2, true); (5, false)] (CongestionControl_new 7)) in
  acks = [1; 5] /\ NoDup nacks /\
  forall i, i ∈ nacks <-> (0 <= i /\ (i ∉ [1; 2; 5]) /\ exists r, (r ∈ [1; 2; 5]) /\ i < r).
Proof. apply (gaps_are_reported 7 [(1, false); (2, true); (5, false)]); repeat constructor; cbn; lia. Defined.

(** C28: a datagram that was accepted is reported as a duplicate on every later arrival
    as long as no clean-up runs 10 seconds or more after the acceptance, whatever else
    happens in between; and so is a packet. *)
Theorem duplicates_are_suppressed now later id c c1 es :
  0 <= now < clock_limit -> Forall (before now) es ->
  (forall isAck isAck', NotifyReceivedDatagram now id isAck c = (NEW, c1) -> fst (NotifyReceivedDatagram later id isAck' (run es c1)) = DUPLICATE) /\
  (NotifyReceivedPacket now id c = (NEW, c1) -> fst (NotifyReceivedPacket later id (run es c1)) = DUPLICATE).
Proof.
  intros Hn Hf. unfold NotifyReceivedDatagram, NotifyReceivedPacket. split.
  - intros isAck isAck' E. assert (H : m_datagramHistory c1 !! id = Some now).
    { destruct (m_datagramHistory c !! id); [discriminate|]. injection E as <-. cbn. apply lookup_insert_eq. }
    now rewrite (run_keeps (fun c => m_datagramHistory c !! id) now es) by eauto using step_keeps_datagram.
  - intros E. assert (H : m_packetHistory c1 !! id = Some now).
    { destruct (m_packetHistory c !! id); [discriminate|]. injection E as <-. cbn. apply lookup_insert_eq. }
    now rewrite (run_keeps (fun c => m_packetHistory c !! id) now es) by eauto using step_keeps_packet.
Qed.

(** Packet 0 in datagram 0, both of which arrive again after an update and another datagram. *)
Lemma duplicates_are_suppressed_witness :
  let c := snd (NotifyReceivedDatagram 20 0 false (CongestionControl_new 0)) in
  let c' := run [EUpdate 30; ERecv 31 5 false] (snd (NotifyReceivedPacket 20 0 c)) in
  fst (NotifyReceivedDatagram 70 0 true c') = DUPLICATE /\ fst (NotifyReceivedPacket 70 0 c') = DUPLICATE.
Proof.
  intros c c'. split.
  - change c' with (run [EPacket 20 0; EUpdate 30; ERecv 31 5 false] c).
    apply (duplicates_are_suppressed 20 70 0 (CongestionControl_new 0) c [EPacket 20 0; EUpdate 30; ERecv 31 5 false]) with (isAck := false); [unfold clock_limit; lia| |reflexivity].
    repeat constructor; cbn; vm_compute; discriminate || reflexivity.
  - apply (duplicates_are_suppressed 20 70 0 c (snd (NotifyReceivedPacket 20 0 c)) [EUpdate 30; ERecv 31 5 false]); [unfold clock_limit; lia| |reflexivity].
    repeat constructor; cbn; vm_compute; discriminate || reflexivity.
Defined.

(** What a first arrival changes. *)
Lemma recv_new now r c : m_datagramHistory c !! r = None ->
  let c' := snd (NotifyReceivedDatagram now r false c) in
  m_acks c' = m_acks c ++ [r] /\
  m_nacks c' = (if SequenceGreaterThan r (m_remoteDatagram c)
                then m_nacks c ++ nack_loop (Z.to_nat (u32 (r - m_remoteDatagram c))) r else m_nacks c) /\
  m_remoteDatagram c' = u32 (r + 1) /\ m_datagramHistory c' = <[r := now]> (m_datagramHistory c).
Proof. intros E. unfold NotifyReceivedDatagram. now rewrite E. Qed.

(** NotifyReceivedDatagram moves the expected ID back when an older
    datagram arrives late, so datagrams that did arrive are reported lost: if r
    is followed by an unseen older q and then by r + 1, then r, already
    acknowledged, is in the next list of losses. *)
Theorem late_datagram_causes_false_nak now q r c :
  0 <= q < r -> r < 2147483647 ->
  m_datagramHistory c !! q = None -> m_datagramHistory c !! r = None -> m_datagramHistory c !! (r + 1) = None ->
  let c' := receive now [(r, false); (q, false); (r + 1, false)] c in r ∈ m_acks c' /\ r ∈ m_nacks c'.
Proof.
  intros Hq Hr E1 E2 E3. unfold receive. cbn [fold_left fst snd].
  destruct (recv_new now r c E2) as (A1 & N1 & R1 & D1). set (c1 := snd (NotifyReceivedDatagram now r false c)) in *.
  destruct (recv_new now q c1) as (A2 & N2 & R2 & D2); [rewrite D1, lookup_insert_ne by lia; done|].
  set (c2 := snd (NotifyReceivedDatagram now q false c1)) in *.
  destruct (recv_new now (r + 1) c2) as (A3 & N3 & R3 & D3).
  { now rewrite D2, D1, !lookup_insert_ne by lia. }
  set (c3 := snd (NotifyReceivedDatagram now (r + 1) false c2)) in *.
  rewrite A3, N3, A2, A1, R2. rewrite (u32_small (q + 1)), SGT_spec, (proj2 (Z.ltb_lt (q + 1) (r + 1))) by lia.
  rewrite u32_small, nack_loop_seqZ by lia. rewrite !elem_of_app, elem_of_seqZ, !list_elem_of_singleton. lia.
Qed.

Lemma late_datagram_causes_false_nak_witness :
  let c' := receive 5 [(2, false); (1, false); (2 + 1, false)] (CongestionControl_new 5) in 2 ∈ m_acks c' /\ 2 ∈ m_nacks c'.
Proof. apply (late_datagram_causes_false_nak 5 1 2); reflexivity || lia. Defined.

(** Before the first round-trip sample the expiry time of a datagram in
    flight is zero, so every clean-up forgets all of them: the acks that arrive
    afterwards find nothing to measure and no sample is ever recorded, and the
    byte count restarts from zero. *)
Theorem cleanup_before_first_sample es now t recv stats :
  zlength es <= 2147483648 -> Forall event_ok es ->
  let c := run es (CongestionControl_new now) in
  m_rttHistory c = [] -> Forall (fun kf => fl_sent (snd kf) <= t) (m_outgoing c) -> m_nextUpdate c <= t ->
  let c' := snd (Update t stats c) in
  m_outgoing c' = [] /\ m_bytesInFlight c' = 0 /\ m_rttHistory (NotifyReceivedAck t recv c') = [].
Proof.
  intros Hl Hf c Eh Hs Hu. pose proof (run_new es now Hl Hf) as H. fold c in H. cbv zeta.
  unfold Update, Update_base. unfold Elapsed. rewrite (proj2 (Z.leb_le _ _) Hu). cbn [negb].
  rewrite (ci_empty _ _ H Eh). destruct (prune_flight t _ _ _) as [bytes out] eqn:E.
  assert (Eo : out = []).
  { clear - E Hs H. assert (Hfl := ci_flight _ _ H). revert E Hs Hfl. generalize (m_bytesInFlight c), (m_outgoing c).
    intros b l. revert b. induction l as [|[k f] l IH]; intros b E Hs Hfl; cbn in E; [congruence|].
    inversion_clear Hs. inversion_clear Hfl as [|? ? [_ Hsent] ?]. cbn in *. unfold clock_limit in *.
    unfold expired, Timestamp_add in E. rewrite Z.add_0_r, u64_small, (proj2 (Z.leb_le _ _)) in E by lia. eauto. }
  destruct (prune_flight_spec _ _ _ _ _ _ E) as [_ Hb].
  pose proof (flight_sum_bounds _ (ci_flight _ _ H)). pose proof (ci_len _ _ H).
  rewrite Hb by (apply Forall_and_bytes, H || apply H || lia). subst out. cbn [snd].
  split; [done|]. split; [done|]. unfold NotifyReceivedAck, NotifyReceivedAck_base. cbn.
  destruct (GetIsSlowStart _); exact Eh.
Qed.

Lemma cleanup_before_first_sample_witness :
  let c := run [ESend 1000000 500] (CongestionControl_new 0) in
  let c' := snd (Update 20000000 PeerStats_new c) in
  m_outgoing c' = [] /\ m_bytesInFlight c' = 0 /\ m_rttHistory (NotifyReceivedAck 20000000 0 c') = [].
Proof.
  apply (cleanup_before_first_sample [ESend 1000000 500] 0 20000000 0 PeerStats_new).
  - vm_compute. discriminate.
  - repeat constructor; cbn; unfold clock_limit; lia.
  - reflexivity.
  - repeat constructor; vm_compute; discriminate.
  - vm_compute. discriminate.
Defined.

(** The wrap-around comparison of datagram IDs is right for all distances
    but one: an ID up to 2^31 - 1 ahead is greater and never the other way round,
    while two IDs exactly 2^31 apart are each greater than the other. *)
Theorem sequence_comparison a d : 0 <= a < 4294967296 -> 0 < d < 4294967296 ->
  SequenceGreaterThan (u32 (a + d)) a = (d <=? 2147483648) /\
  SequenceGreaterThan a (u32 (a + d)) = (2147483648 <=? d) /\
  SequenceLessThan a (u32 (a + d)) = (d <=? 2147483646).
Proof.
  intros Ha Hd. unfold SequenceGreaterThan, SequenceLessThan, halfSpan.
  assert (Hne : u32 (a + d) <> a) by word_lia.
  rewrite (proj2 (Z.eqb_neq (u32 (a + d)) a)), (proj2 (Z.eqb_neq a (u32 (a + d)))) by auto. cbn [negb andb].
  assert (E1 : u32 (a - u32 (a + d)) = 4294967296 - d) by word_lia.
  assert (E2 : u32 (u32 (a + d) - a) = d) by word_lia. rewrite E1, E2. lia.
Qed.

Lemma sequence_comparison_witness :
  SequenceGreaterThan (u32 (4294967290 + 10)) 4294967290 = (10 <=? 2147483648) /\
  SequenceGreaterThan 4294967290 (u32 (4294967290 + 10)) = (2147483648 <=? 10) /\
  SequenceLessThan 4294967290 (u32 (4294967290 + 10)) = (10 <=? 2147483646).
Proof. apply (sequence_comparison 4294967290 10); lia. Defined.
