(* ===== verification/Reassembly.v ===== *)
(** * Reassembly: splitting a packet into segments and putting it together again

    Model of source/ReassemblyBuffer.{h,cpp}, of the segment headers built by the
    loop of PacketQueue::EnqueueOutgoing, and of PacketQueue::HandleSplitPacket up
    to the delivery of the packet. *)

From stdpp Require Import base tactics gmap sets list list_numbers numbers option.
From Stdlib Require Import ZArith Lia.
From S2P Require Import Prelude Memory BinaryStream StreamSpec StreamCodec Config Packet Headers.

Open Scope Z_scope.

(** ** The sender *)

Definition CHUNK_SIZE : Z := MTU - 100.

(** Number of segments for a serialized packet of [len] bytes. *)
Definition segment_count (len : Z) : Z := u64 (len - 1) / CHUNK_SIZE + 1.

(** Bytes of segment i: [std::min(fullLength - i * CHUNK_SIZE, CHUNK_SIZE)]. *)
Definition segment_length (fullLength i : Z) : Z := Z.min (u64 (fullLength - i * CHUNK_SIZE)) CHUNK_SIZE.

Definition segment_header (packetLength fullLength id options channel sequence container i : Z) : PacketHeader :=
  mkPH (i <? segment_count fullLength - 1) (65535 <=? packetLength) id options channel sequence
    (u32 (segment_length fullLength i)) (u32 (i * CHUNK_SIZE)) container (u32 i).

(** ** The receiver *)

Record SplitPacket : Type := mkSplit {
  sp_received : gset Z;
  sp_blob : BinaryStream;
  sp_last : Z;
}.

Definition SplitPacket_new : outcome SplitPacket :=
  blob ← BinaryStream_new BINARYSTREAM_DEFAULT_CAPACITY; mret (mkSplit ∅ blob 0).

Abbreviation ReassemblyBuffer := (gmap Z SplitPacket).

Section Receiver.
Context {host : Host}.

(** Insert(header, instream), run on the input stream. *)
Definition Insert (h : PacketHeader) (rb : ReassemblyBuffer) : SM ReassemblyBuffer :=
  split ← lift (match rb !! splitContainer h with Some sp => mret sp | None => SplitPacket_new end);
  '(_, blob) ← lift (SeekForce (ph_offset h) (sp_blob split));
  '(_, blob) ← lift (WriteZeroes (ph_length h) blob);
  data ← ReadBytes (ph_length h);
  '(_, blob) ← lift (match data with
                     | Some cs => store (ph_offset h) cs blob
                     | None => Ret (tt, blob)
                     end);
  let last := if flag_segment h then sp_last split else splitIndex h in
  mret (<[splitContainer h := mkSplit ({[splitIndex h]} ∪ sp_received split) blob last]> rb).

(** Reassemble(container); [sender] is m_remote->id. *)
Definition Reassemble (sender container : Z) (rb : ReassemblyBuffer)
    : outcome (option Packet * ReassemblyBuffer) :=
  match rb !! container with
  | None => Ret (None, rb)
  | Some split =>
      if (sp_last split =? 0) || negb (Z.of_nat (size (sp_received split)) =? u32 (sp_last split + 1))
      then Ret (None, rb)
      else
        '(_, blob) ← SeekToBegin (sp_blob split);
        '(packet, _) ← FromDatagram sender (m_length blob) blob;
        mret (Some packet, delete container rb)
  end.

(** PacketQueue::HandleSplitPacket up to the hand-over of the packet. *)
Definition HandleSplitPacket (sender : Z) (h : PacketHeader) (rb : ReassemblyBuffer)
    : SM (option Packet * ReassemblyBuffer) :=
  rb ← Insert h rb;
  lift (Reassemble sender (splitContainer h) rb).

(** Segments arriving one after the other, each at the cursor of its datagram. *)
Fixpoint feed (sender : Z) (arrivals : list (PacketHeader * BinaryStream)) (rb : ReassemblyBuffer)
    : outcome (list (option Packet) * ReassemblyBuffer) :=
  match arrivals with
  | [] => Ret ([], rb)
  | (h, instream) :: arrivals =>
      '(r, rb, _) ← HandleSplitPacket sender h rb instream;
      '(rs, rb) ← feed sender arrivals rb;
      mret (r :: rs, rb)
  end.

(** ** One segment at the end of what is there *)

Lemma sim_SeekForce_end bs : roomy 0 bs -> sim true (SeekForce (zlength bs)) (at_end bs) tt (at_end bs).
Proof.
  intros Hr. unfold SeekForce.
  assert (Hseek : a_seek (zlength bs) (at_end bs) = at_end bs)
    by (unfold a_seek, at_end; cbn; f_equal; zlen).
  pose proof (sim_Seek true (at_end bs) (zlength bs) eq_refl) as Hs. rewrite Hseek in Hs.
  apply sim_get. intros s0 _. eapply sim_bind; [|exact Hs].
  destruct (m_capacity s0 <=? zlength bs); [|apply sim_ret].
  pose proof (sim_SeekToEnd true (at_end bs) eq_refl) as He. cbn [at_end a_bytes] in He.
  fold (at_end bs) in He. rewrite Hseek in He. eapply sim_bind; [exact He|].
  apply sim_get. intros s Hs2. rewrite (rf_pos s _ (proj1 Hs2)). cbn [at_end a_pos].
  rewrite Z.sub_diag. change (u64 0) with 0. pose proof (sim_WriteZeroes (at_end bs) 0 ltac:(lia)) as Hz.
  cbn [Z.to_nat replicate] in Hz. rewrite a_write_end, app_nil_r in Hz. apply Hz.
  unfold room. cbn. unfold roomy in Hr. lia.
Qed.

(** Filling the zeroes just appended. *)
Lemma store_tail s bs d : rel true s (at_end (bs ++ replicate (length d) 0)) -> Forall is_byte d ->
  exists s', store (zlength bs) (map Some d) s = Ret (tt, s') /\ rel true s' (at_end (bs ++ d)).
Proof.
  intros Hs Hd. unfold at_end in *.
  replace (bs ++ replicate (length d) 0) with (bs ++ replicate (length d) 0 ++ []) in Hs by now rewrite app_nil_r.
  destruct (store_inside s bs _ d [] _ Hs) as (s' & E & H'); [unfold zlength; now rewrite length_replicate|done|].
  exists s'. split; [done|]. rewrite !app_nil_r in H'. replace (zlength (bs ++ d)) with (zlength (bs ++ replicate (length d) 0)); [done|].
  unfold zlength. rewrite !length_app, length_replicate. done.
Qed.

(** Insert with the segment that continues the blob. *)
Lemma Insert_next h rb split instream bs d p r :
  (rb !! splitContainer h = Some split \/ (rb !! splitContainer h = None /\ SplitPacket_new = Ret split)) ->
  rel true (sp_blob split) (at_end bs) -> rel false instream (cursor p (d ++ r)) -> Forall is_byte d ->
  ph_offset h = zlength bs -> ph_length h = zlength d -> roomy (zlength d) bs ->
  exists blob instream', rel true blob (at_end (bs ++ d)) /\ rel false instream' (cursor (p ++ d) r) /\
    Insert h rb instream = Ret (<[splitContainer h := mkSplit ({[splitIndex h]} ∪ sp_received split) blob
      (if flag_segment h then sp_last split else splitIndex h)]> rb, instream').
Proof.
  intros Hsp Hb Hin Hd Eo El Hr. unfold Insert, roomy in *. rewrite Eo, El.
  pose proof (zlength_nonneg d). rewrite (bind_lift _ _ _ split) by (destruct Hsp as [->|[-> ->]]; done).
  destruct (sim_SeekForce_end bs ltac:(unfold roomy; lia) _ Hb) as (b1 & E1 & H1).
  rewrite (bind_lift _ _ _ (tt, b1)) by done. cbv beta iota.
  destruct (sim_WriteZeroes (at_end bs) (zlength d) ltac:(lia) ltac:(unfold room; cbn; lia) b1 H1) as (b2 & E2 & H2).
  rewrite (bind_lift _ _ _ (tt, b2)) by done. cbv beta iota.
  rewrite a_write_end in H2. replace (Z.to_nat (zlength d)) with (length d) in H2 by (unfold zlength; lia).
  destruct (sim_rd_bytes false _ p d r (zlength d) (rd_cursor p (d ++ r)) eq_refl instream Hin) as (in' & E3 & Hin').
  rewrite (bind_ret _ _ _ _ _ E3). cbv beta iota.
  destruct (store_tail b2 bs d H2 Hd) as (b3 & E4 & H4).
  rewrite (bind_lift _ _ _ (tt, b3)) by done. cbv beta iota. exists b3, in'. split; [exact H4|]. split; [exact Hin'|reflexivity].
Qed.

(** Not yet complete: Reassemble leaves everything as it is. *)
Lemma Reassemble_waits sender container rb split : rb !! container = Some split -> sp_last split = 0 ->
  Reassemble sender container rb = Ret (None, rb).
Proof. intros E El. unfold Reassemble. now rewrite E, El. Qed.

Lemma Reassemble_done sender container rb split cmd payload :
  rb !! container = Some split -> sp_last split <> 0 ->
  Z.of_nat (size (sp_received split)) = u32 (sp_last split + 1) ->
  rel true (sp_blob split) (at_end (cmd :: payload)) -> zlength payload < 4294967296 ->
  Reassemble sender container rb =
    Ret (Some (mkPacket sender cmd (zlength payload) (payload_ptr payload)), delete container rb).
Proof.
  intros E El Es Hb Hlen. unfold Reassemble. rewrite E, (proj2 (Z.eqb_neq _ 0)), (proj2 (Z.eqb_eq _ _) Es) by done.
  cbn [orb negb]. destruct (sim_Seek true (at_end (cmd :: payload)) 0 eq_refl _ Hb) as (b1 & E1 & H1).
  change SeekToBegin with (Seek 0). rewrite E1. cbn [mbind outcome_bind].
  replace (a_seek 0 (at_end (cmd :: payload))) with (cursor [] (cmd :: payload ++ [])) in H1
    by (unfold a_seek, cursor; cbn; rewrite app_nil_r; f_equal; zlen).
  rewrite (rf_len b1 _ (proj1 H1)). cbn [cursor a_bytes app].
  replace (zlength (cmd :: payload ++ [])) with (1 + zlength payload) by zlen.
  destruct (sim_FromDatagram true sender (cursor [] (cmd :: payload ++ [])) [] cmd payload []) with (s := b1)
    as (b2 & E2 & _); [constructor|done|done|]. now rewrite E2.
Qed.
End Receiver.

(** ** Splitting *)

Definition chunk (full : list Z) (i : Z) : list Z := ztake CHUNK_SIZE (zdrop (i * CHUNK_SIZE) full).

Lemma segment_count_bounds n : 1 <= n <= max_len ->
  (segment_count n - 1) * CHUNK_SIZE < n <= segment_count n * CHUNK_SIZE /\ 1 <= segment_count n.
Proof.
  intros Hn. unfold segment_count, max_len in *. rewrite u64_small by lia.
  change CHUNK_SIZE with 1200. Z.div_mod_to_equations. lia.
Qed.

Lemma chunk_length full i : 0 <= i < segment_count (zlength full) -> 1 <= zlength full <= max_len ->
  zlength (chunk full i) = segment_length (zlength full) i /\ 0 < zlength (chunk full i).
Proof.
  intros Hi Hl. destruct (segment_count_bounds _ Hl) as [Hb _]. unfold chunk, segment_length, max_len in *.
  change CHUNK_SIZE with 1200 in *. assert (i * 1200 < zlength full) by nia. rewrite u64_small by lia.
  unfold zlength, ztake, zdrop in *. rewrite length_take, length_drop. lia.
Qed.

(** The first i chunks are the first i * CHUNK_SIZE bytes. *)
Lemma chunk_next full i : 0 <= i ->
  ztake ((i + 1) * CHUNK_SIZE) full = ztake (i * CHUNK_SIZE) full ++ chunk full i.
Proof.
  intros Hi. unfold chunk, ztake, zdrop. change CHUNK_SIZE with 1200.
  replace (Z.to_nat ((i + 1) * 1200)) with (Z.to_nat (i * 1200) + Z.to_nat 1200)%nat by lia.
  symmetry. apply take_take_drop.
Qed.

Lemma chunk_prefix_length (full : list Z) i : 0 <= i < segment_count (zlength full) -> 1 <= zlength full <= max_len ->
  zlength (ztake (i * CHUNK_SIZE) full) = i * CHUNK_SIZE.
Proof.
  intros Hi Hl. destruct (segment_count_bounds _ Hl) as [Hb _]. change CHUNK_SIZE with 1200 in *.
  apply zlength_ztake. nia.
Qed.

(** The values of the header of segment i are not cut off. *)
Lemma segment_values full i : 1 <= zlength full <= PACKET_MAX_LENGTH -> 0 <= i < segment_count (zlength full) ->
  u32 (i * CHUNK_SIZE) = i * CHUNK_SIZE /\ u32 (segment_length (zlength full) i) = zlength (chunk full i) /\ u32 i = i /\
  0 <= i * CHUNK_SIZE < zlength full /\ 0 < zlength (chunk full i) <= CHUNK_SIZE.
Proof.
  intros Hl Hi. assert (Hn : 1 <= zlength full <= max_len) by (unfold max_len, PACKET_MAX_LENGTH in *; lia).
  destruct (chunk_length full i Hi Hn) as [El Hp]. rewrite El in *.
  destruct (segment_count_bounds _ Hn) as [Hb _]. unfold segment_length, PACKET_MAX_LENGTH in *. change CHUNK_SIZE with 1200 in *.
  rewrite !u32_small; [|nia|lia|nia]. repeat split; nia.
Qed.

(** ** Arrival in order *)

Section InOrder.
Context {host : Host} (sender container options channel sequence cmd : Z) (payload : list Z).
Let full := cmd :: payload.
Let n := zlength full.

(** Segment i of the packet at the cursor of some datagram. *)
Definition arrives (i : Z) (hs : PacketHeader * BinaryStream) : Prop :=
  exists id p r, fst hs = segment_header (zlength payload) n id options channel sequence container i /\
    rel false (snd hs) (cursor p (chunk full i ++ r)).

Context (Hbytes : Forall is_byte full) (Hlen : CHUNK_SIZE < n <= PACKET_MAX_LENGTH).

Lemma seg_offset i : 0 <= i < segment_count n -> u32 (i * CHUNK_SIZE) = i * CHUNK_SIZE /\
  u32 (segment_length n i) = zlength (chunk full i) /\ u32 i = i.
Proof.
  intros Hi. destruct (segment_values full i) as (H1 & H2 & H3 & _); [unfold CHUNK_SIZE, MTU in Hlen; fold n; lia|done|]. auto.
Qed.

Lemma received_next i : 0 <= i -> ({[i]} ∪ list_to_set (seqZ 0 i) : gset Z) = list_to_set (seqZ 0 (i + 1)).
Proof.
  intros Hi. apply set_eq. intros x. rewrite elem_of_union, elem_of_singleton, !elem_of_list_to_set, !elem_of_seqZ. lia.
Qed.

Lemma received_size i : 0 <= i -> Z.of_nat (size (list_to_set (seqZ 0 i) : gset Z)) = i.
Proof. intros Hi. rewrite size_list_to_set by apply NoDup_seqZ. rewrite length_seqZ. lia. Qed.

(** The first i segments have arrived. *)
Definition assembling (i : Z) (rb : ReassemblyBuffer) : Prop := exists split,
  (rb !! container = Some split \/ (rb !! container = None /\ SplitPacket_new = Ret split)) /\
  sp_received split = list_to_set (seqZ 0 i) /\ sp_last split = 0 /\ rel true (sp_blob split) (at_end (ztake (i * CHUNK_SIZE) full)).

(** The header of segment i, as far as the buffer looks at it. *)
Definition of_segment (i : Z) (h : PacketHeader) : Prop :=
  splitContainer h = container /\ ph_offset h = u32 (i * CHUNK_SIZE) /\ ph_length h = u32 (segment_length n i) /\
  flag_segment h = (i <? segment_count n - 1) /\ splitIndex h = u32 i.

Definition whole_packet : Packet := mkPacket sender cmd (zlength payload) (payload_ptr payload).

(** Segment i arrives when it is its turn: the last one completes the packet. *)
Lemma next_segment i h rb s p r : 0 <= i < segment_count n -> of_segment i h -> assembling i rb -> rel false s (cursor p (chunk full i ++ r)) ->
  exists rb' s', rel false s' (cursor (p ++ chunk full i) r) /\ delete container rb' = delete container rb /\
    HandleSplitPacket sender h rb s = Ret (if i <? segment_count n - 1 then None else Some whole_packet, rb', s') /\
    if i <? segment_count n - 1 then assembling (i + 1) rb' else rb' = delete container rb.
Proof.
  intros Hi (Hc & Ho & Hl & Hf & Hx) (split & Hsp & Hrec & Hlast & Hblob) Hs. destruct (seg_offset i Hi) as (Eo & El & Ei).
  assert (Hn : 1 <= n <= max_len) by (unfold max_len, PACKET_MAX_LENGTH, CHUNK_SIZE, MTU in *; lia).
  destruct (segment_count_bounds n Hn) as [Hb _]. destruct (chunk_length full i Hi Hn) as [Ec Hc0]. fold n in Ec.
  pose proof (chunk_prefix_length full i Hi Hn) as Epre. fold n in Epre.
  destruct (Insert_next h rb split s (ztake (i * CHUNK_SIZE) full) (chunk full i) p r) as (blob & s' & Hblob' & Hs' & E);
    [rewrite Hc; exact Hsp|done|done|unfold chunk; auto with bytes|lia|lia| |].
  { unfold roomy, max_len, PACKET_MAX_LENGTH in *. rewrite Epre, Ec. unfold segment_length. change CHUNK_SIZE with 1200 in *. lia. }
  unfold HandleSplitPacket. rewrite (bind_ret _ _ _ _ _ E). clear E.
  rewrite <- chunk_next in Hblob' by lia. rewrite Hrec, Hlast, Hc, Hf, Hx, Ei, received_next by lia.
  destruct (Z.ltb_spec i (segment_count n - 1)) as [Hlt|Hge]; unfold lift.
  - rewrite (Reassemble_waits _ _ _ _ (lookup_insert_eq _ _ _)) by done. eexists _, s'. split; [exact Hs'|]. split; [apply delete_insert_eq|].
    split; [reflexivity|]. eexists. split; [left; apply lookup_insert_eq|]. done.
  - replace (i + 1) with (segment_count n) in * by lia.
    assert (Hall : ztake (segment_count n * CHUNK_SIZE) full = full) by (apply ztake_all; fold n; lia). rewrite Hall in Hblob'.
    rewrite (Reassemble_done _ _ _ _ cmd payload (lookup_insert_eq _ _ _)); cbn [sp_last sp_received sp_blob].
    + eexists _, s'. split; [exact Hs'|]. split; [rewrite delete_delete_eq; apply delete_insert_eq|]. split; [reflexivity|]. apply delete_insert_eq.
    + change CHUNK_SIZE with 1200 in *. nia.
    + rewrite received_size by lia. unfold PACKET_MAX_LENGTH in *. change CHUNK_SIZE with 1200 in *. rewrite u32_small by nia. lia.
    + exact Hblob'.
    + unfold PACKET_MAX_LENGTH, n, full in *. zlen.
Qed.

Lemma feed_from arrivals : forall i rb,
  Forall2 arrives (seqZ i (segment_count n - i)) arrivals -> 0 <= i < segment_count n -> assembling i rb ->
  feed sender arrivals rb = Ret (replicate (Z.to_nat (segment_count n - i - 1)) None ++ [Some whole_packet], delete container rb).
Proof.
  induction arrivals as [|[h s] arrivals IH]; intros i rb Hf Hi Ha.
  { apply Forall2_length in Hf. rewrite length_seqZ in Hf. cbn in Hf. lia. }
  rewrite seqZ_cons in Hf by lia. inversion_clear Hf as [|? ? ? ? (id & p & r & Eh & Hs) Hf']. cbn in Eh, Hs.
  destruct (next_segment i h rb s p r Hi) as (rb' & s' & _ & Hdel & E & Hnext); [subst h; done|done|done|]. cbn [feed]. rewrite E.
  cbn [mbind outcome_bind]. destruct (Z.ltb_spec i (segment_count n - 1)).
  - rewrite (IH (i + 1) rb'); [|now replace (segment_count n - (i + 1)) with (Z.pred (segment_count n - i)) by lia|lia|done].
    cbn [mbind outcome_bind]. rewrite Hdel.
    now replace (Z.to_nat (segment_count n - i - 1)) with (S (Z.to_nat (segment_count n - (i + 1) - 1))) by lia.
  - replace arrivals with (@nil (PacketHeader * BinaryStream)).
    + cbn [feed mbind outcome_bind]. rewrite Hnext. now replace (Z.to_nat (segment_count n - i - 1)) with 0%nat by lia.
    + apply Forall2_length in Hf'. rewrite length_seqZ in Hf'. destruct arrivals; [done|]. cbn in Hf'. lia.
Qed.
End InOrder.

(** ** Theorems *)

(** A read-only stream over a caller's array. *)
Definition readonly (bs : list Z) : BinaryStream :=
  mkStream None (RoUser (map Some bs)) (zlength bs) (zlength bs) 0 0 true.

Lemma readonly_rel bs : Forall is_byte bs -> zlength bs <= max_len -> rel false (readonly bs) (cursor [] bs).
Proof.
  intros Hb Hm. split; [|discriminate]. split; cbn; try done; try zlen.
  intros _. exists []. unfold deref_ro. cbn. now rewrite app_nil_r.
Qed.

Lemma SplitPacket_new_rel : exists split, SplitPacket_new = Ret split /\ sp_received split = ∅ /\
  sp_last split = 0 /\ rel true (sp_blob split) (at_end []).
Proof.
  unfold SplitPacket_new. destruct (BinaryStream_new_rel BINARYSTREAM_DEFAULT_CAPACITY) as (s & -> & Hs);
    [unfold BINARYSTREAM_DEFAULT_CAPACITY, max_len; lia|].
  eexists. split; [reflexivity|]. done.
Qed.

(** A packet too long for one segment, cut up as EnqueueOutgoing cuts it,
    is reassembled when its segments arrive in order, each in its own datagram:
    nothing is handed over before the last segment, then exactly the original
    command and payload, tagged with the sender, and the buffer is left as it was
    before the first. *)
Theorem split_packet_roundtrip {host : Host} sender container options channel sequence cmd payload arrivals rb :
  Forall is_byte (cmd :: payload) -> CHUNK_SIZE < zlength (cmd :: payload) <= PACKET_MAX_LENGTH ->
  rb !! container = None ->
  Forall2 (arrives container options channel sequence cmd payload)
    (seqZ 0 (segment_count (zlength (cmd :: payload)))) arrivals ->
  exists pkt, feed sender arrivals rb =
      Ret (replicate (Z.to_nat (segment_count (zlength (cmd :: payload)) - 1)) None ++ [Some pkt], rb) /\
    holds pkt cmd payload /\ pk_sender pkt = sender.
Proof.
  intros Hb Hl Hrb Hf. set (n := zlength (cmd :: payload)) in *.
  assert (Hn : 1 <= n <= max_len) by (unfold max_len, PACKET_MAX_LENGTH, CHUNK_SIZE, MTU in *; lia).
  destruct (segment_count_bounds n Hn) as [_ Hs]. destruct SplitPacket_new_rel as (split & E & Er & El & Hblob).
  eexists. split; [|split; [apply holds_exact|reflexivity]].
  rewrite (feed_from sender container options channel sequence cmd payload Hb Hl arrivals 0 rb).
  - fold n. rewrite Z.sub_0_r. now rewrite delete_id.
  - now rewrite Z.sub_0_r.
  - fold n. lia.
  - exists split. auto.
Qed.

#[local] Instance demo_host : Host := {| little_endian := true; or_left_first := true |}.

Definition demo_payload : list Z := replicate 1300 7.

Lemma demo_chunk_rel i : rel false (readonly (chunk (20 :: demo_payload) i)) (cursor [] (chunk (20 :: demo_payload) i ++ [])).
Proof.
  rewrite app_nil_r. apply readonly_rel.
  - unfold chunk. apply Forall_ztake, Forall_zdrop. constructor; [unfold is_byte; lia|].
    apply Forall_replicate. unfold is_byte. lia.
  - unfold chunk, zlength, ztake, zdrop. rewrite length_take, length_drop. cbn. unfold max_len. lia.
Qed.

Lemma split_packet_roundtrip_witness :
  let h i := segment_header 1300 1301 (50 + i) 1 0 0 9 i in
  exists pkt, feed 77 [(h 0, readonly (chunk (20 :: demo_payload) 0)); (h 1, readonly (chunk (20 :: demo_payload) 1))] ∅ =
      Ret (replicate (Z.to_nat (segment_count (zlength (20 :: demo_payload)) - 1)) None ++ [Some pkt], ∅) /\
    holds pkt 20 demo_payload /\ pk_sender pkt = 77.
Proof.
  apply (split_packet_roundtrip 77 9 1 0 0 20 demo_payload).
  - constructor; [unfold is_byte; lia|]. apply Forall_replicate. unfold is_byte. lia.
  - vm_compute. split; [reflexivity|discriminate].
  - apply lookup_empty.
  - change (seqZ 0 (segment_count (zlength (20 :: demo_payload)))) with [0; 1].
    repeat constructor; [exists 50|exists 51]; exists [], []; (split; [reflexivity|apply demo_chunk_rel]).
Defined.

(** SeekForce compares with the capacity instead of the length, so when the
    fourth segment of a packet overtakes the third, Insert copies it past the end
    of the blob's array; the same segments in order are fine. *)
Theorem reordered_segments_overflow {host : Host} sender b :
  let seg i := (segment_header 4799 4800 (10 + i) 1 0 0 9 i, readonly (replicate 1200 b)) in
  feed sender [seg 0; seg 1; seg 3] ∅ = Fail OutOfBounds /\
  exists rb, feed sender [seg 0; seg 1; seg 2] ∅ = Ret ([None; None; None], rb).
Proof. split; [vm_compute; reflexivity|]. eexists. vm_compute. reflexivity. Qed.
