(* ===== verification/ReceiptTracker.v ===== *)
(** * ReceiptTracker: delivery receipts for packets and split packets

    Model of source/ReceiptTracker.{h,cpp}.  The map of split packets is the list
    of its entries in iteration order; Acknowledge erases entries while it walks
    them and calls itself, so the walk carries the entries before and after its
    iterator and faults when the recursive call erased the entry it stands on.
    The calls of Peer::OnMessageReceipt are returned in order. *)

From stdpp Require Import base tactics gmap sets list list_numbers numbers option sorting.
From Stdlib Require Import ZArith Lia.
From S2P Require Import Prelude Config.

Open Scope Z_scope.

Abbreviation splits := (list (Z * gset Z)).

(** OnMessageReceipt(id, acked) *)
Abbreviation receipt := (Z * bool)%type.

Record ReceiptTracker : Type := mkRT {
  m_splits : splits;
  m_tracker : gset Z;
}.

Definition ReceiptTracker_new : ReceiptTracker := mkRT [] ∅.

Definition Track (id : Z) (t : ReceiptTracker) : ReceiptTracker := mkRT (m_splits t) ({[id]} ∪ m_tracker t).

(** unordered_map::emplace: no effect when the key is present. *)
Definition RegisterSplitPacket (container : Z) (segments : gset Z) (t : ReceiptTracker) : ReceiptTracker :=
  if bool_decide (container ∈ map fst (m_splits t)) then t
  else mkRT ((container, segments) :: m_splits t) (m_tracker t).

(** The entries before key k, and from k on. *)
Fixpoint split_at (k : Z) (l : splits) : option (splits * splits) :=
  match l with
  | [] => None
  | (k', s) :: r =>
      if k' =? k then Some ([], l)
      else match split_at k r with Some (p, q) => Some ((k', s) :: p, q) | None => None end
  end.

(** The end of Acknowledge: post the receipt of a tracked packet. *)
Definition post_ack (id : Z) (t : ReceiptTracker) : ReceiptTracker * list receipt :=
  if bool_decide (id ∈ m_tracker t) then (mkRT (m_splits t) (m_tracker t ∖ {[id]}), [(id, true)]) else (t, []).

(** The while loop of Acknowledge, [it] standing at the head of [rest]; the
    recursive call starts a loop of its own from the beginning. *)
Fixpoint ack_loop (fuel : nat) (id : Z) (before rest : splits) (tracker : gset Z)
    : outcome (ReceiptTracker * list receipt) :=
  match fuel with
  | O => Fail OutOfFuel
  | S fuel =>
      match rest with
      | [] => Ret (post_ack id (mkRT before tracker))
      | (container, segs) :: rest =>
          let segs := segs ∖ {[id]} in
          if bool_decide (segs = ∅) then
            '(t, rs) ← ack_loop fuel container [] (before ++ rest) tracker;
            '(before, rest) ← (match rest with
              | [] => Ret (m_splits t, [])
              | (k, _) :: _ => match split_at k (m_splits t) with Some pq => Ret pq | None => Fail Dangling end
              end);
            '(t, rs') ← ack_loop fuel id before rest (m_tracker t);
            mret (t, rs ++ rs')
          else ack_loop fuel id (before ++ [(container, segs)]) rest tracker
      end
  end.

(** Every nested walk is over one group less. *)
Definition ack_fuel (t : ReceiptTracker) : nat := (1 + length (m_splits t) + length (m_splits t) * length (m_splits t))%nat.

Definition Acknowledge (id : Z) (t : ReceiptTracker) : outcome (ReceiptTracker * list receipt) :=
  ack_loop (ack_fuel t) id [] (m_splits t) (m_tracker t).

(** A datagram of the sentbox, as far as Update looks at it. *)
Record SentDatagram : Type := mkSent { sd_discard : Z; sd_packets : list Z }.

(** The loop over the packets of an expired datagram. *)
Fixpoint lose_packets (packets : list Z) (tracker : gset Z) : gset Z * list receipt :=
  match packets with
  | [] => (tracker, [])
  | id :: packets =>
      if bool_decide (id ∈ tracker)
      then let '(tracker, rs) := lose_packets packets (tracker ∖ {[id]}) in (tracker, (id, false) :: rs)
      else lose_packets packets tracker
  end.

(** Update(): remove_if over the sentbox with the losses as side effect. *)
Fixpoint Update_sentbox (now : Z) (sentbox : list SentDatagram) (tracker : gset Z)
    : list SentDatagram * gset Z * list receipt :=
  match sentbox with
  | [] => ([], tracker, [])
  | d :: sentbox =>
      if Elapsed now (sd_discard d)
      then let '(tracker, rs) := lose_packets (sd_packets d) tracker in
           let '(kept, tracker, rs') := Update_sentbox now sentbox tracker in (kept, tracker, rs ++ rs')
      else let '(kept, tracker, rs) := Update_sentbox now sentbox tracker in (d :: kept, tracker, rs)
  end.

Definition Receipt_Update (now : Z) (sentbox : list SentDatagram) (t : ReceiptTracker)
    : list SentDatagram * ReceiptTracker * list receipt :=
  let '(kept, tracker, rs) := Update_sentbox now sentbox (m_tracker t) in (kept, mkRT (m_splits t) tracker, rs).

(** ** Well-formed trackers *)

(** Packet IDs are unique, so no split packet is a segment of another, and
    groups are registered with at least one segment. *)
Record rt_wf (s : splits) : Prop := {
  wf_keys : NoDup (map fst s);
  wf_nonempty : Forall (fun cs => snd cs <> ∅) s;
  wf_flat : forall c cs, c ∈ map fst s -> cs ∈ s -> c ∉ snd cs;
}.

(** The groups after id was acknowledged, and the containers completed. *)
Definition without (id : Z) (s : splits) : splits := map (fun cs => (fst cs, snd cs ∖ {[id]})) s.
Definition open_groups (id : Z) (s : splits) : splits := filter (fun cs => snd cs <> ∅) (without id s).
Definition completed (id : Z) (s : splits) : list Z := map fst (filter (fun cs => snd cs = ∅) (without id s)).

Fixpoint post_acks (ids : list Z) (tracker : gset Z) : gset Z * list receipt :=
  match ids with
  | [] => (tracker, [])
  | id :: ids =>
      if bool_decide (id ∈ tracker)
      then let '(tracker, rs) := post_acks ids (tracker ∖ {[id]}) in (tracker, (id, true) :: rs)
      else post_acks ids tracker
  end.

(** Acknowledging an ID that is in no group. *)
Lemma ack_loop_foreign id rest : forall fuel before tracker,
  (length rest < fuel)%nat -> Forall (fun cs => snd cs <> ∅ /\ id ∉ snd cs) rest ->
  ack_loop fuel id before rest tracker = Ret (post_ack id (mkRT (before ++ rest) tracker)).
Proof.
  induction rest as [|[c segs] rest IH]; intros fuel before tracker Hf Hr; (destruct fuel as [|fuel]; [lia|]); cbn [ack_loop].
  { now rewrite app_nil_r. }
  inversion_clear Hr as [|? ? [Hne Hni] Hr']. cbn [snd] in *. cbn [length] in Hf.
  replace (segs ∖ {[id]}) with segs by set_solver. rewrite bool_decide_eq_false_2 by done.
  rewrite IH by (done || lia). now rewrite <- app_assoc.
Qed.

Lemma split_at_app k s p q : k ∉ map fst p -> split_at k (p ++ (k, s) :: q) = Some (p, (k, s) :: q).
Proof.
  induction p as [|[k' s'] p IH]; cbn; intros Hk; [now rewrite Z.eqb_refl|].
  apply not_elem_of_cons in Hk as [? ?]. rewrite (proj2 (Z.eqb_neq k' k)) by auto. now rewrite IH.
Qed.

Lemma rt_wf_sub s s' : rt_wf s -> map fst s' `sublist_of` map fst s -> Forall (fun cs => snd cs <> ∅) s' ->
  (forall cs, cs ∈ s' -> exists cs0, cs0 ∈ s /\ snd cs ⊆ snd cs0) -> rt_wf s'.
Proof.
  intros [H1 H2 H3] Hs Hne Hsub. split; [|done|].
  - eapply sublist_NoDup; [exact H1|exact Hs].
  - intros c cs Hc Hcs Hin. destruct (Hsub cs Hcs) as (cs0 & Hcs0 & Hle).
    apply (H3 c cs0); [|done|set_solver]. eapply elem_of_submseteq; [exact Hc|]. now apply sublist_submseteq.
Qed.

Lemma rt_wf_drop before cs rest : rt_wf (before ++ cs :: rest) -> rt_wf (before ++ rest).
Proof.
  intros H. eapply rt_wf_sub; [exact H| | |].
  - rewrite !map_app. apply sublist_app; [done|]. cbn. now constructor.
  - pose proof (wf_nonempty _ H) as Hn. apply Forall_app in Hn as [? Hn]. inversion_clear Hn. now apply Forall_app.
  - intros cs' Hcs. exists cs'. split; [|done]. set_solver.
Qed.

Lemma rt_wf_shrink before c segs id rest : rt_wf (before ++ (c, segs) :: rest) -> segs ∖ {[id]} <> ∅ ->
  rt_wf ((before ++ [(c, segs ∖ {[id]})]) ++ rest).
Proof.
  intros H Hne. rewrite <- app_assoc. cbn [app]. eapply rt_wf_sub; [exact H| | |].
  - now rewrite !map_app.
  - pose proof (wf_nonempty _ H) as Hn. apply Forall_app in Hn as [? Hn]. inversion_clear Hn.
    apply Forall_app. split; [done|]. now constructor.
  - intros cs [Hcs|[->|Hcs]%elem_of_cons]%elem_of_app.
    + exists cs. split; [set_solver|done].
    + exists (c, segs). split; [set_solver|]. cbn. set_solver.
    + exists cs. split; [set_solver|done].
Qed.

Lemma post_ack_tracker id s tr : post_ack id (mkRT s tr) =
  (mkRT s (fst (post_acks [id] tr)), snd (post_acks [id] tr)).
Proof. unfold post_ack. cbn. now destruct (bool_decide (id ∈ tr)). Qed.

Lemma post_acks_app l k tr : post_acks (l ++ k) tr =
  (fst (post_acks k (fst (post_acks l tr))), snd (post_acks l tr) ++ snd (post_acks k (fst (post_acks l tr)))).
Proof.
  revert tr. induction l as [|x l IH]; intros tr; cbn; [now destruct (post_acks k tr)|].
  destruct (bool_decide (x ∈ tr)); rewrite IH; [|done]. now destruct (post_acks l (tr ∖ {[x]})).
Qed.

(** The whole loop, without reference to iterators. *)
Lemma ack_loop_spec id rest : forall fuel before tracker,
  rt_wf (before ++ rest) -> (length rest + length (before ++ rest) < fuel)%nat ->
  ack_loop fuel id before rest tracker =
    Ret (mkRT (before ++ open_groups id rest) (fst (post_acks (completed id rest ++ [id]) tracker)),
         snd (post_acks (completed id rest ++ [id]) tracker)).
Proof.
  induction rest as [|[c segs] rest IH]; intros fuel before tracker Hwf Hf; (destruct fuel as [|fuel]; [lia|]);
    cbn [ack_loop].
  { now rewrite post_ack_tracker, app_nil_r. }
  unfold open_groups, completed, without. cbn [map fst snd]. rewrite !filter_cons. cbn [snd].
  rewrite length_app in Hf. cbn [length] in Hf. destruct (bool_decide_reflect (segs ∖ {[id]} = ∅)) as [E|E].
  - rewrite decide_False by auto. rewrite decide_True by done.
    pose proof (rt_wf_drop _ _ _ Hwf) as Hwf'.
    assert (Hc : Forall (fun cs => snd cs <> ∅ /\ c ∉ snd cs) (before ++ rest)).
    { apply Forall_intro. intros cs Hcs. split.
      - exact (Forall_elem _ _ _ (wf_nonempty _ Hwf') Hcs).
      - apply (wf_flat _ Hwf).
        + rewrite map_app. apply elem_of_app. right. apply list_elem_of_here.
        + apply elem_of_app in Hcs as [|]; apply elem_of_app; [auto|]. right. now apply list_elem_of_further. }
    rewrite ack_loop_foreign by (done || rewrite length_app; lia). cbn [app]. rewrite post_ack_tracker. cbn [mbind outcome_bind].
    assert (Es : (match rest with [] => Ret (before ++ rest, []) | (k, _) :: _ =>
        match split_at k (before ++ rest) with Some pq => Ret pq | None => Fail Dangling end end) = Ret (before, rest)).
    { destruct rest as [|[k s] rest]; [now rewrite app_nil_r|]. rewrite split_at_app; [done|].
      pose proof (wf_keys _ Hwf') as Hk. rewrite map_app in Hk. apply NoDup_app in Hk as (_ & Hk & _).
      intros Hin. apply (Hk k Hin). apply list_elem_of_here. }
    cbn [m_splits]. rewrite Es. cbn [mbind outcome_bind]. rewrite IH by (done || rewrite length_app; lia).
    cbn [mbind outcome_bind m_tracker].
    change (map fst (_ :: ?l) ++ [id]) with ([c] ++ (map fst l ++ [id])). now rewrite (post_acks_app [c]).
  - rewrite decide_True by done. rewrite decide_False by done.
    rewrite IH; [|now apply rt_wf_shrink|rewrite !length_app; cbn; lia].
    now rewrite <- app_assoc.
Qed.

Lemma open_groups_wf id s : rt_wf s -> rt_wf (open_groups id s).
Proof.
  intros H. unfold open_groups. eapply rt_wf_sub; [exact H| | |].
  - replace (map fst s) with (map fst (without id s)) by (unfold without; rewrite map_map; done).
    apply fmap_sublist, sublist_filter.
  - apply Forall_intro. intros cs Hcs. now apply list_elem_of_filter in Hcs as [? _].
  - intros cs Hcs. apply list_elem_of_filter in Hcs as [_ Hcs]. unfold without in Hcs.
    apply list_elem_of_fmap in Hcs as (cs0 & -> & Hcs0). exists cs0. split; [done|]. cbn. set_solver.
Qed.

Lemma Acknowledge_spec id t : rt_wf (m_splits t) ->
  Acknowledge id t =
    Ret (mkRT (open_groups id (m_splits t)) (fst (post_acks (completed id (m_splits t) ++ [id]) (m_tracker t))),
         snd (post_acks (completed id (m_splits t) ++ [id]) (m_tracker t))) /\
  rt_wf (open_groups id (m_splits t)).
Proof.
  intros H. split; [|now apply open_groups_wf]. unfold Acknowledge, ack_fuel.
  apply (ack_loop_spec id (m_splits t) _ []); [done|]. cbn [app]. nia.
Qed.

(** ** Counting receipts *)

Definition acks_of (c : Z) (rs : list receipt) : nat := length (filter (fun r => r = (c, true)) rs).

Lemma acks_of_app c rs rs' : acks_of c (rs ++ rs') = (acks_of c rs + acks_of c rs')%nat.
Proof. unfold acks_of. now rewrite filter_app, length_app. Qed.

Lemma post_acks_tracker c ids : forall tr, c ∈ fst (post_acks ids tr) <-> (c ∈ tr) /\ (c ∉ ids).
Proof.
  induction ids as [|x ids IH]; intros tr; cbn [post_acks]; [cbn; set_solver|].
  destruct (bool_decide_reflect (x ∈ tr)) as [Hx|Hx].
  - specialize (IH (tr ∖ {[x]})). destruct (post_acks ids (tr ∖ {[x]})). cbn [fst] in *. rewrite IH. set_solver.
  - rewrite IH. set_solver.
Qed.

Lemma post_acks_count c ids : forall tr,
  acks_of c (snd (post_acks ids tr)) = if bool_decide (c ∈ tr /\ c ∈ ids) then 1%nat else 0%nat.
Proof.
  induction ids as [|x ids IH]; intros tr; cbn [post_acks].
  { rewrite bool_decide_eq_false_2; [done|]. intros [_ H]. now apply elem_of_nil in H. }
  destruct (bool_decide_reflect (x ∈ tr)) as [Hx|Hx].
  - specialize (IH (tr ∖ {[x]})). destruct (post_acks ids (tr ∖ {[x]})) as [tr' rs]. cbn [snd] in *.
    unfold acks_of in *. rewrite filter_cons. destruct (decide ((x, true) = (c, true))) as [[= ->]|Hne].
    + cbn [length]. rewrite IH, bool_decide_eq_false_2 by set_solver. rewrite bool_decide_eq_true_2; [done|].
      split; [done|]. apply list_elem_of_here.
    + rewrite IH. assert (x <> c) by congruence. repeat case_bool_decide; set_solver.
  - rewrite IH. repeat case_bool_decide; set_solver.
Qed.

Lemma key_unique {B} (s : list (Z * B)) c a b : NoDup (map fst s) -> (c, a) ∈ s -> (c, b) ∈ s -> a = b.
Proof.
  induction s as [|[k v] s IH]; cbn; [intros _ H; now apply elem_of_nil in H|].
  intros [Hk Hn]%NoDup_cons [[= -> ->]|Ha]%elem_of_cons [[= ]|Hb]%elem_of_cons; subst; try done; [| |auto].
  - exfalso. apply Hk. apply list_elem_of_fmap. now exists (k, b).
  - exfalso. apply Hk. apply list_elem_of_fmap. now exists (k, a).
Qed.

(** A group is completed exactly when its last segment is acknowledged. *)
Lemma completed_spec id s c segs : rt_wf s -> (c, segs) ∈ s -> (c ∈ completed id s) <-> segs ∖ {[id]} = ∅.
Proof.
  intros Hwf Hin. unfold completed, without. rewrite list_elem_of_fmap. split.
  - intros ([c' segs'] & -> & Hf). apply list_elem_of_filter in Hf as [E Hf]. cbn in E.
    apply list_elem_of_fmap in Hf as ([c1 s1] & [= -> ->] & Hs1). cbn in *.
    now rewrite (key_unique s c1 segs s1 (wf_keys _ Hwf) Hin Hs1).
  - intros E. exists (c, segs ∖ {[id]}). split; [done|]. apply list_elem_of_filter. split; [done|].
    apply list_elem_of_fmap. now exists (c, segs).
Qed.

(** Acknowledgements in sequence, all receipts in order. *)
Fixpoint acknowledge_all (ids : list Z) (t : ReceiptTracker) : outcome (ReceiptTracker * list receipt) :=
  match ids with
  | [] => Ret (t, [])
  | id :: ids =>
      '(t, rs) ← Acknowledge id t; '(t, rs') ← acknowledge_all ids t; mret (t, rs ++ rs')
  end.

(** A packet that is no longer tracked gets no receipt. *)
Lemma untracked_silent c ids : forall t, rt_wf (m_splits t) -> (c ∉ m_tracker t) ->
  exists t' rs, acknowledge_all ids t = Ret (t', rs) /\ (c ∉ m_tracker t') /\ acks_of c rs = 0%nat.
Proof.
  induction ids as [|id ids IH]; intros t Hwf Hc; cbn [acknowledge_all]; [eexists _, _; split; [reflexivity|done]|].
  destruct (Acknowledge_spec id t Hwf) as [-> Hwf']. cbn [mbind outcome_bind].
  destruct (IH (mkRT (open_groups id (m_splits t)) (fst (post_acks (completed id (m_splits t) ++ [id]) (m_tracker t)))))
    as (t' & rs & E & Ht & Hrs); [done|cbn [m_tracker]; rewrite post_acks_tracker; tauto|].
  rewrite E. cbn [mbind outcome_bind]. eexists _, _. split; [reflexivity|]. split; [done|].
  rewrite acks_of_app, post_acks_count, Hrs, bool_decide_eq_false_2; [done|tauto].
Qed.

Lemma segs_cons (segs : gset Z) id ids :
  segs ∖ {[id]} ⊆ list_to_set ids <-> segs ⊆ list_to_set (id :: ids).
Proof.
  split; intros H x Hx.
  - rewrite elem_of_list_to_set, elem_of_cons. destruct (decide (x = id)) as [->|Hne]; [auto|right].
    apply (elem_of_list_to_set (C := gset Z)), H, elem_of_difference. now rewrite not_elem_of_singleton.
  - apply elem_of_difference in Hx as [Hx Hn]. rewrite not_elem_of_singleton in Hn.
    specialize (H x Hx). rewrite elem_of_list_to_set, elem_of_cons in *. destruct H; done.
Qed.

(** A split packet whose segments are still open. *)
Lemma split_progress c ids : forall t segs, rt_wf (m_splits t) -> (c, segs) ∈ m_splits t -> (c ∈ m_tracker t) ->
  (c ∉ ids) ->
  exists t' rs, acknowledge_all ids t = Ret (t', rs) /\
    acks_of c rs = (if bool_decide (segs ⊆ list_to_set ids) then 1%nat else 0%nat) /\
    (c ∈ m_tracker t' <-> ~ (segs ⊆ list_to_set ids)).
Proof.
  induction ids as [|id ids IH]; intros t segs Hwf Hin Hc Hni; cbn [acknowledge_all].
  { eexists _, _. split; [reflexivity|]. pose proof (Forall_elem _ _ _ (wf_nonempty _ Hwf) Hin) as Hne. cbn in Hne.
    assert (Hns : ~ segs ⊆ list_to_set []) by set_solver. rewrite bool_decide_eq_false_2 by done. done. }
  destruct (Acknowledge_spec id t Hwf) as [-> Hwf']. cbn [mbind outcome_bind].
  apply not_elem_of_cons in Hni as [Hne Hni]. pose proof (completed_spec id _ _ _ Hwf Hin) as Hcomp.
  set (L := completed id (m_splits t) ++ [id]) in *.
  assert (HcL : c ∈ L <-> segs ∖ {[id]} = ∅)
    by (unfold L; rewrite elem_of_app, list_elem_of_singleton, Hcomp; tauto).
  set (t1 := mkRT (open_groups id (m_splits t)) (fst (post_acks L (m_tracker t)))).
  destruct (decide (segs ∖ {[id]} = ∅)) as [E|E].
  - destruct (untracked_silent c ids t1) as (t' & rs & E1 & Ht & Hrs);
      [done|unfold t1; cbn [m_tracker]; rewrite post_acks_tracker; tauto|].
    rewrite E1. cbn [mbind outcome_bind]. eexists _, _. split; [reflexivity|].
    assert (Hs : segs ⊆ list_to_set (id :: ids)) by (apply segs_cons; rewrite E; apply empty_subseteq).
    rewrite acks_of_app, post_acks_count, Hrs, !bool_decide_eq_true_2 by tauto. tauto.
  - destruct (IH t1 (segs ∖ {[id]})) as (t' & rs & E1 & Hrs & Ht); [done| | |done|].
    + unfold t1, open_groups, without. cbn [m_splits]. apply list_elem_of_filter. split; [done|].
      apply list_elem_of_fmap. now exists (c, segs).
    + unfold t1. cbn [m_tracker]. rewrite post_acks_tracker. tauto.
    + rewrite E1. cbn [mbind outcome_bind]. eexists _, _. split; [reflexivity|].
      pose proof (segs_cons segs id ids) as Hs.
      rewrite acks_of_app, post_acks_count, Hrs, (bool_decide_eq_false_2 (c ∈ _ /\ _)) by tauto.
      split; [|tauto]. cbn [Nat.add]. repeat case_bool_decide; tauto.
Qed.

(** ** Losses *)

Definition lost_packets (now : Z) (sentbox : list SentDatagram) : list Z :=
  flat_map sd_packets (filter (fun d => Elapsed now (sd_discard d) = true) sentbox).

Lemma lose_packets_spec ids : forall tr, exists tr' rs, lose_packets ids tr = (tr', rs) /\
  NoDup rs /\ (forall x, x ∈ tr' <-> x ∈ tr /\ x ∉ ids) /\
  (forall x b, (x, b) ∈ rs <-> b = false /\ x ∈ tr /\ x ∈ ids).
Proof.
  induction ids as [|i ids IH]; intros tr; cbn [lose_packets].
  { eexists _, _. split; [reflexivity|]. split; [constructor|]. split; [set_solver|]. set_solver. }
  destruct (bool_decide_reflect (i ∈ tr)) as [Hi|Hi].
  - destruct (IH (tr ∖ {[i]})) as (tr' & rs & -> & Hnd & Ht & Hr). eexists _, _. split; [reflexivity|].
    split; [constructor; [rewrite Hr; set_solver|done]|]. split; [intros x; rewrite Ht; set_solver|].
    intros x b. rewrite elem_of_cons, Hr. destruct (decide (x = i)) as [->|]; set_solver.
  - destruct (IH tr) as (tr' & rs & -> & Hnd & Ht & Hr). eexists _, _. split; [reflexivity|].
    split; [done|]. split; [intros x; rewrite Ht; set_solver|]. intros x b. rewrite Hr. set_solver.
Qed.

Lemma Update_sentbox_spec now sentbox : forall tr, exists tr' rs,
  Update_sentbox now sentbox tr = (filter (fun d => Elapsed now (sd_discard d) = false) sentbox, tr', rs) /\
  NoDup rs /\ (forall x, x ∈ tr' <-> x ∈ tr /\ x ∉ lost_packets now sentbox) /\
  (forall x b, (x, b) ∈ rs <-> b = false /\ x ∈ tr /\ x ∈ lost_packets now sentbox).
Proof.
  unfold lost_packets. induction sentbox as [|d sentbox IH]; intros tr; cbn [Update_sentbox].
  { eexists _, _. split; [reflexivity|]. cbn. split; [constructor|]. split; [set_solver|set_solver]. }
  rewrite !filter_cons. destruct (Elapsed now (sd_discard d)) eqn:E.
  - rewrite decide_False by done. rewrite decide_True by done. cbn [flat_map].
    destruct (lose_packets_spec (sd_packets d) tr) as (tr1 & rs1 & -> & Hnd1 & Ht1 & Hr1).
    destruct (IH tr1) as (tr2 & rs2 & -> & Hnd2 & Ht2 & Hr2). eexists _, _. split; [reflexivity|].
    set (rest := flat_map sd_packets (filter (fun d => Elapsed now (sd_discard d) = true) sentbox)) in *.
    split; [|split].
    + apply NoDup_app. split; [done|]. split; [|done]. intros [x b] H1 H2.
      apply Hr1 in H1 as (_ & _ & ?). apply Hr2 in H2 as (_ & [_ ?]%Ht1 & _). done.
    + intros x. rewrite Ht2, Ht1, not_elem_of_app. tauto.
    + intros x b. rewrite !elem_of_app, Hr1, Hr2, Ht1.
      destruct (decide (x ∈ sd_packets d)); tauto.
  - rewrite decide_True by done. rewrite decide_False by done.
    destruct (IH tr) as (tr' & rs & -> & H). eexists _, _. split; [reflexivity|done].
Qed.

(** ** Theorems *)

(** C21: the receipt of a split packet is posted exactly once, exactly when the
    last of its segments has been acknowledged, for every order of the
    acknowledgements, with repetitions and acknowledgements of other packets in
    between, and the walk over the open groups never stands on an erased entry. *)
Theorem split_receipt_exactly_once c segs ids t :
  rt_wf (m_splits t) -> (c, segs) ∈ m_splits t -> (c ∈ m_tracker t) -> (c ∉ ids) ->
  exists t' rs, acknowledge_all ids t = Ret (t', rs) /\
    acks_of c rs = (if bool_decide (segs ⊆ list_to_set ids) then 1%nat else 0%nat).
Proof.
  intros Hwf Hin Hc Hni. destruct (split_progress c ids t segs Hwf Hin Hc Hni) as (t' & rs & E & Hrs & _). eauto.
Qed.

Definition demo_tracker : ReceiptTracker := RegisterSplitPacket 5 {[6; 7]} (Track 5 (Track 9 ReceiptTracker_new)).

Lemma demo_tracker_wf : rt_wf (m_splits demo_tracker).
Proof.
  change (m_splits demo_tracker) with [(5, {[6; 7]} : gset Z)]. split.
  - apply NoDup_singleton.
  - repeat constructor. cbn. intros H. assert (Hx : 6 ∈ ({[6; 7]} : gset Z)) by set_solver. rewrite H in Hx.
    now apply elem_of_empty in Hx.
  - intros c cs ->%list_elem_of_singleton ->%list_elem_of_singleton. cbn. set_solver by lia.
Qed.

Lemma split_receipt_exactly_once_witness :
  exists t' rs, acknowledge_all [6; 9; 6; 7; 7] demo_tracker = Ret (t', rs) /\
    acks_of 5 rs = (if bool_decide (({[6; 7]} : gset Z) ⊆ list_to_set [6; 9; 6; 7; 7]) then 1%nat else 0%nat).
Proof.
  apply (split_receipt_exactly_once 5 {[6; 7]} [6; 9; 6; 7; 7] demo_tracker).
  - apply demo_tracker_wf.
  - apply list_elem_of_singleton. reflexivity.
  - cbn. set_solver.
  - set_solver by lia.
Defined.

(** Acknowledging a packet posts one receipt for it when it is tracked and
    none otherwise, and stops tracking it, so acknowledging it again is silent. *)
Theorem acknowledge_receipt id t : rt_wf (m_splits t) ->
  exists t' rs, Acknowledge id t = Ret (t', rs) /\ rt_wf (m_splits t') /\ (id ∉ m_tracker t') /\
    acks_of id rs = (if bool_decide (id ∈ m_tracker t) then 1%nat else 0%nat) /\
    exists t'' rs', Acknowledge id t' = Ret (t'', rs') /\ acks_of id rs' = 0%nat.
Proof.
  intros Hwf. destruct (Acknowledge_spec id t Hwf) as [-> Hwf']. eexists _, _. split; [reflexivity|].
  split; [done|]. set (L := completed id (m_splits t) ++ [id]).
  assert (HL : id ∈ L) by (unfold L; apply elem_of_app; right; now apply list_elem_of_singleton).
  cbn [m_tracker m_splits]. split; [rewrite post_acks_tracker; tauto|].
  rewrite post_acks_count. split; [repeat case_bool_decide; tauto|].
  destruct (Acknowledge_spec id (mkRT (open_groups id (m_splits t)) (fst (post_acks L (m_tracker t)))) Hwf') as [-> _].
  eexists _, _. split; [reflexivity|]. rewrite post_acks_count, bool_decide_eq_false_2; [done|].
  cbn [m_tracker]. rewrite post_acks_tracker. tauto.
Qed.

Lemma acknowledge_receipt_witness :
  exists t' rs, Acknowledge 9 demo_tracker = Ret (t', rs) /\ rt_wf (m_splits t') /\ (9 ∉ m_tracker t') /\
    acks_of 9 rs = (if bool_decide (9 ∈ m_tracker demo_tracker) then 1%nat else 0%nat) /\
    exists t'' rs', Acknowledge 9 t' = Ret (t'', rs') /\ acks_of 9 rs' = 0%nat.
Proof. apply (acknowledge_receipt 9 demo_tracker demo_tracker_wf). Defined.

(** Update keeps exactly the datagrams whose time has not come, in order,
    posts one negative receipt for each tracked packet of the others, and stops
    tracking exactly those packets. *)
Theorem update_posts_losses now sentbox t : exists t' rs,
  Receipt_Update now sentbox t = (filter (fun d => Elapsed now (sd_discard d) = false) sentbox, t', rs) /\
  m_splits t' = m_splits t /\ NoDup rs /\
  (forall x, x ∈ m_tracker t' <-> x ∈ m_tracker t /\ x ∉ lost_packets now sentbox) /\
  (forall x b, (x, b) ∈ rs <-> b = false /\ x ∈ m_tracker t /\ x ∈ lost_packets now sentbox).
Proof.
  unfold Receipt_Update. destruct (Update_sentbox_spec now sentbox (m_tracker t)) as (tr & rs & -> & H).
  eexists _, _. split; [reflexivity|]. done.
Qed.
