(* ===== verification/RpcController.v ===== *)
(** * RpcController: callbacks registered under an identifier

    Model of source/RpcController.{h,cpp}.  An identifier is the list of the
    values of its bytes; the functions work on the terminated array that c_str()
    gives.  A callback is a value of any type; Signal returns the calls it makes,
    in order, each with the stream built for it. *)

From stdpp Require Import base tactics gmap sets list list_numbers numbers option.
From Stdlib Require Import ZArith Lia.
From S2P Require Import Prelude Memory BinaryStream StreamSpec StreamCodec.

Open Scope Z_scope.

(** The implementation-defined sign of char. *)
Class CharSign : Type := { char_signed : bool }.

Definition c_str (identifier : list Z) : list Z := identifier ++ [0].

Section Rpc.
Context {sign : CharSign}.

(** [int c = *str] for a byte b. *)
Definition char_value (b : Z) : Z := if char_signed && (128 <=? b) then b - 256 else b.

(** The do-while loop, [str] being the rest of the array. *)
Fixpoint djb2_loop (hash : Z) (str : list Z) : outcome Z :=
  match str with
  | [] => Fail OutOfBounds
  | c :: str =>
      let hash := u64 (u64 (u64 (Z.shiftl hash 5) + hash) + char_value c) in
      match str with
      | [] => Fail OutOfBounds
      | c' :: _ => if c' =? 0 then Ret hash else djb2_loop hash str
      end
  end.

Definition djb2hash (str : list Z) : outcome Z := djb2_loop 5381 str.

Section Controller.
Context {callback : Type}.

Abbreviation RpcController := (gmap Z (list callback)).

Definition Slot (identifier : list Z) (fn : callback) (m_slots : RpcController) : outcome RpcController :=
  hash ← djb2hash (c_str identifier);
  mret (<[hash := default [] (m_slots !! hash) ++ [fn]]> m_slots).

Definition RemoveSlot (identifier : list Z) (m_slots : RpcController) : outcome RpcController :=
  hash ← djb2hash (c_str identifier);
  mret (delete hash m_slots).

(** One call of a callback: who sent the signal, and the private stream. *)
Record invocation : Type := mkCall { call_fn : callback; call_sender : Z; call_params : BinaryStream }.

(** The loop over the group: a new read-only stream for every callback. *)
Fixpoint invoke_all (sender : Z) (params : BinaryStream) (fns : list callback) : outcome (list invocation) :=
  match fns with
  | [] => Ret []
  | fn :: fns =>
      copy ← BinaryStream_wrap (deref_ro params) (m_length params) READONLY;
      calls ← invoke_all sender params fns;
      mret (mkCall fn sender copy :: calls)
  end.

Definition Signal (identifier : list Z) (sender : Z) (params : BinaryStream) (m_slots : RpcController)
    : outcome (list invocation) :=
  hash ← djb2hash (c_str identifier);
  match m_slots !! hash with
  | None => Ret []
  | Some fns => invoke_all sender params fns
  end.
End Controller.
End Rpc.

Arguments invocation : clear implicits.

(** ** The hash *)

(** Identifiers for which the hash is defined and looks at every byte. *)
Definition proper_identifier (identifier : list Z) : Prop :=
  identifier <> [] /\ Forall (fun b => 0 < b < 256) identifier.

#[export] Instance proper_identifier_dec i : Decision (proper_identifier i).
Proof. unfold proper_identifier. apply _. Defined.

Section Hash.
Context {sign : CharSign}.

Definition hash_step (hash c : Z) : Z := u64 (33 * hash + char_value c).
Definition hash_of (identifier : list Z) : Z := foldl hash_step 5381 identifier.

Lemma djb2_step hash c : u64 (u64 (u64 (Z.shiftl hash 5) + hash) + char_value c) = hash_step hash c.
Proof.
  unfold hash_step, u64. rewrite Z.shiftl_mul_pow2 by lia. change (2 ^ 5) with 32.
  rewrite (Zplus_mod_idemp_l (hash * 32)), Zplus_mod_idemp_l. f_equal. lia.
Qed.

Lemma djb2_loop_cons hash c c' str : djb2_loop hash (c :: c' :: str) =
  if c' =? 0 then Ret (hash_step hash c) else djb2_loop (hash_step hash c) (c' :: str).
Proof. rewrite <- djb2_step. reflexivity. Qed.

Lemma djb2_loop_spec c cs : Forall (fun b => 0 < b < 256) cs -> forall hash,
  djb2_loop hash (c :: cs ++ [0]) = Ret (foldl hash_step (hash_step hash c) cs).
Proof.
  intros Hcs. revert c. induction Hcs as [|c' cs Hc' Hcs IH]; intros c hash; cbn [app foldl]; rewrite djb2_loop_cons; [done|].
  rewrite (proj2 (Z.eqb_neq c' 0)) by lia. now rewrite IH.
Qed.

Lemma djb2hash_proper i : proper_identifier i -> djb2hash (c_str i) = Ret (hash_of i).
Proof.
  intros [Hne Hi]. destruct Hi as [|c cs Hc Hcs]; [done|]. unfold djb2hash, c_str. cbn [app]. now rewrite djb2_loop_spec.
Qed.

(** Adding one to a letter and taking 33 from the next one keeps the hash. *)
Lemma hash_of_swap pre a b suf : 0 < a < 127 -> 33 < b < 128 ->
  hash_of (pre ++ (a + 1) :: (b - 33) :: suf) = hash_of (pre ++ a :: b :: suf).
Proof.
  intros Ha Hb. unfold hash_of. rewrite !foldl_app. cbn [foldl]. f_equal. set (h := foldl _ _ pre). unfold hash_step, u64.
  assert (Hv : forall x, 0 < x < 128 -> char_value x = x)
    by (intros x Hx; unfold char_value; rewrite (proj2 (Z.leb_gt 128 x)) by lia; now rewrite andb_false_r).
  rewrite !Hv by lia. rewrite <- (Zplus_mod_idemp_l (33 * _)), Zmult_mod_idemp_r, Zplus_mod_idemp_l.
  symmetry. rewrite <- (Zplus_mod_idemp_l (33 * _)), Zmult_mod_idemp_r, Zplus_mod_idemp_l. f_equal. lia.
Qed.
End Hash.

(** ** The registry *)

Section Registry.
Context {sign : CharSign} {callback : Type}.

Inductive rpc_op : Type :=
  | OpSlot (identifier : list Z) (fn : callback)
  | OpRemove (identifier : list Z).

Definition op_identifier (o : rpc_op) : list Z :=
  match o with OpSlot i _ => i | OpRemove i => i end.

Definition rpc_step (o : rpc_op) (m : gmap Z (list callback)) : outcome (gmap Z (list callback)) :=
  match o with OpSlot i fn => Slot i fn m | OpRemove i => RemoveSlot i m end.

Fixpoint rpc_run (os : list rpc_op) (m : gmap Z (list callback)) : outcome (gmap Z (list callback)) :=
  match os with [] => Ret m | o :: os => m ← rpc_step o m; rpc_run os m end.

(** What is promised: the registrations that were not removed, oldest first. *)
Definition reg_step (reg : list (list Z * callback)) (o : rpc_op) : list (list Z * callback) :=
  match o with
  | OpSlot i fn => reg ++ [(i, fn)]
  | OpRemove i => filter (fun r => fst r <> i) reg
  end.

Definition registered (os : list rpc_op) : list (list Z * callback) := foldl reg_step [] os.

Definition callbacks_for (i : list Z) (reg : list (list Z * callback)) : list callback :=
  map snd (filter (fun r => fst r = i) reg).

(** The groups are the registrations by identifier. *)
Definition reg_rel (ids : list (list Z)) (m : gmap Z (list callback)) (reg : list (list Z * callback)) : Prop :=
  forall i, i ∈ ids -> default [] (m !! hash_of i) = callbacks_for i reg.

Context (ids : list (list Z)).
Context (Hproper : Forall proper_identifier ids).
Context (Hinj : forall i j, i ∈ ids -> j ∈ ids -> hash_of i = hash_of j -> i = j).

Lemma callbacks_for_slot i j fn reg : callbacks_for i (reg ++ [(j, fn)]) =
  callbacks_for i reg ++ (if decide (j = i) then [fn] else []).
Proof.
  unfold callbacks_for. rewrite list.filter_app, map_app. f_equal. rewrite list.filter_cons. cbn [fst].
  destruct (decide (j = i)); done.
Qed.

Lemma callbacks_for_remove i j reg :
  callbacks_for i (filter (fun r => fst r <> j) reg) = (if decide (i = j) then [] else callbacks_for i reg).
Proof.
  unfold callbacks_for. induction reg as [|[k fn] reg IH]; [now destruct (decide (i = j))|].
  rewrite (list.filter_cons (fun r => fst r <> j)). cbn [fst]. destruct (decide (k <> j)) as [Hk|Hk].
  - rewrite !list.filter_cons. cbn [fst]. destruct (decide (k = i)) as [->|]; [|exact IH].
    rewrite decide_False by done. cbn [map snd]. rewrite IH. now rewrite decide_False.
  - apply dec_stable in Hk as ->. rewrite IH. destruct (decide (i = j)) as [|Hij]; [done|].
    rewrite list.filter_cons. cbn [fst]. rewrite decide_False; auto.
Qed.

Lemma rpc_step_rel o m reg : op_identifier o ∈ ids -> reg_rel ids m reg ->
  exists m', rpc_step o m = Ret m' /\ reg_rel ids m' (reg_step reg o).
Proof.
  intros Ho Hrel. pose proof (Forall_elem _ _ _ Hproper Ho) as Hp.
  destruct o as [j fn|j]; cbn [op_identifier rpc_step reg_step] in *; unfold Slot, RemoveSlot;
    rewrite djb2hash_proper by done; cbn [mbind outcome_bind]; eexists; (split; [reflexivity|]); intros i Hi.
  - rewrite callbacks_for_slot, <- Hrel by done. destruct (decide (j = i)) as [->|Hne].
    + now rewrite lookup_insert_eq.
    + rewrite lookup_insert_ne, app_nil_r by (intros E; apply Hne; now apply Hinj). done.
  - rewrite callbacks_for_remove. destruct (decide (i = j)) as [->|Hne]; [now rewrite lookup_delete_eq|].
    rewrite lookup_delete_ne by (intros E; apply Hne; symmetry; now apply Hinj). now apply Hrel.
Qed.

Lemma rpc_run_rel os : forall m reg, Forall (fun o => op_identifier o ∈ ids) os -> reg_rel ids m reg ->
  exists m', rpc_run os m = Ret m' /\ reg_rel ids m' (foldl reg_step reg os).
Proof.
  induction os as [|o os IH]; intros m reg Hos Hrel; [eauto|]. inversion_clear Hos as [|? ? Ho Hos'].
  destruct (rpc_step_rel o m reg Ho Hrel) as (m1 & E & H1). cbn [rpc_run foldl]. rewrite E. cbn [mbind outcome_bind].
  now apply IH.
Qed.
End Registry.
Arguments rpc_op : clear implicits.

(** Every callback gets a stream of its own with the whole payload. *)
Lemma invoke_all_spec {callback : Type} w sender params a (fns : list callback) : rel w params a ->
  exists calls, invoke_all sender params fns = Ret calls /\ map call_fn calls = fns /\
    Forall (fun c => call_sender c = sender /\ rel false (call_params c) (cursor [] (a_bytes a))) calls.
Proof.
  intros Hp. induction fns as [|fn fns (calls & E & Hf & Hc)]; [now exists []|]. cbn [invoke_all].
  assert (Hw : exists s, BinaryStream_wrap (deref_ro params) (m_length params) READONLY = Ret s /\
    rel false s (cursor [] (a_bytes a))).
  { destruct (decide (a_bytes a = [])) as [En|Hne].
    - eexists. split; [reflexivity|]. split; [|done]. apply refines_nil; cbn; rewrite ?(rf_len _ _ (proj1 Hp)), ?En; done.
    - destruct (rf_cells _ _ (proj1 Hp) Hne) as [slack ->]. rewrite (rf_len _ _ (proj1 Hp)).
      apply (BinaryStream_wrap_rel _ slack READONLY); [apply (rf_bytes _ _ (proj1 Hp))|apply (rf_max _ _ (proj1 Hp))]. }
  destruct Hw as (s & -> & Hs). cbn [mbind outcome_bind]. rewrite E. cbn [mbind outcome_bind].
  eexists. split; [reflexivity|]. cbn. rewrite Hf. auto.
Qed.

(** ** Claims *)

(** C31: the controller implements a registry by identifier: after any sequence
    of registrations and removals, a signal calls exactly the callbacks
    registered under its identifier and not removed since, in the order of
    registration, each once, with the sender and with a read-only stream of its
    own at the beginning of the whole payload; for identifiers that are not empty,
    have no NUL byte and do not collide under the hash. *)
Theorem rpc_registry {sign : CharSign} {callback : Type} (os : list (rpc_op callback)) i sender w params a :
  Forall proper_identifier (i :: map op_identifier os) ->
  (forall x y, x ∈ i :: map op_identifier os -> y ∈ i :: map op_identifier os ->
     djb2hash (c_str x) = djb2hash (c_str y) -> x = y) ->
  rel w params a ->
  exists m calls, rpc_run os ∅ = Ret m /\ Signal i sender params m = Ret calls /\
    map call_fn calls = callbacks_for i (registered os) /\
    Forall (fun c => call_sender c = sender /\ rel false (call_params c) (cursor [] (a_bytes a))) calls.
Proof.
  intros Hp Hinj Hparams. set (ids := i :: map op_identifier os) in *.
  assert (Hinj' : forall x y, x ∈ ids -> y ∈ ids -> hash_of x = hash_of y -> x = y).
  { intros x y Hx Hy E. apply Hinj; [done..|]. rewrite !djb2hash_proper by (eapply Forall_elem; eauto). congruence. }
  destruct (rpc_run_rel ids Hp Hinj' os ∅ []) as (m & E & Hrel).
  { apply Forall_intro. intros o Ho. unfold ids. right. now apply list_elem_of_fmap_2. }
  { intros j _. now rewrite lookup_empty. }
  assert (Hi : i ∈ ids) by (unfold ids; left). specialize (Hrel i Hi). fold (registered os) in Hrel.
  destruct (invoke_all_spec w sender params a (callbacks_for i (registered os)) Hparams) as (calls & Ec & Hf & Hall).
  exists m, calls. split; [done|]. split; [|done]. unfold Signal.
  rewrite djb2hash_proper by (eapply Forall_elem; eauto). cbn [mbind outcome_bind].
  destruct (m !! hash_of i) as [fns|]; cbn [default from_option id] in Hrel; rewrite <- Hrel in Ec; done.
Qed.

Lemma rpc_registry_witness : let sign : CharSign := Build_CharSign true in
  exists m calls, rpc_run [OpSlot [65] 1; OpSlot [66] 2; OpSlot [65] 3; OpRemove [66]; OpSlot [66] 4] ∅ = Ret m /\
    Signal [65] 7 moved_from m = Ret calls /\
    map call_fn calls = callbacks_for [65] (registered [OpSlot [65] 1; OpSlot [66] 2; OpSlot [65] 3; OpRemove [66]; OpSlot [66] 4]) /\
    Forall (fun c => call_sender c = 7 /\ rel false (call_params c) (cursor [] (a_bytes (at_end [])))) calls.
Proof.
  intros sign. apply (rpc_registry _ _ _ false).
  - repeat constructor; discriminate || lia.
  - assert (H : Forall (fun x => Forall (fun y => x = y \/ djb2hash (c_str x) <> djb2hash (c_str y))
      [[65]; [65]; [66]; [65]; [66]; [66]]) [[65]; [65]; [66]; [65]; [66]; [66]]).
    { repeat (apply List.Forall_cons || apply List.Forall_nil); solve [left; reflexivity | right; vm_compute; discriminate]. }
    intros x y Hx Hy E. pose proof (Forall_elem _ _ _ (Forall_elem _ _ _ H Hx) Hy) as [|]; done.
  - split; [apply refines_nil|]; done.
Defined.

(** Identifiers collide systematically: raising one letter by one and
    lowering the next by 33 keeps the hash, so a signal for the one identifier
    calls the callbacks of the other, and removing the one removes the other. *)
Theorem identifier_collisions {sign : CharSign} {callback : Type} pre x y suf (fn : callback) (m : gmap Z (list callback)) :
  0 < x < 127 -> 33 < y < 128 -> Forall (fun b => 0 < b < 256) (pre ++ suf) ->
  let i := pre ++ x :: y :: suf in let j := pre ++ (x + 1) :: (y - 33) :: suf in
  i <> j /\ (forall sender params, Signal j sender params m = Signal i sender params m) /\
  Slot j fn m = Slot i fn m /\ RemoveSlot j m = RemoveSlot i m.
Proof.
  intros Hx Hy [Hpre Hsuf]%Forall_app i j. assert (E : djb2hash (c_str j) = djb2hash (c_str i)).
  { rewrite !djb2hash_proper; unfold i, j; [now rewrite hash_of_swap|..];
      (split; [now destruct pre|]); apply Forall_app; repeat constructor; try done; lia. }
  split.
  - unfold i, j. intros H. apply app_inv_head in H. injection H. lia.
  - unfold Signal, Slot, RemoveSlot. now rewrite E.
Qed.

(** "Ab" and "BA". *)
Lemma identifier_collisions_witness : let sign : CharSign := Build_CharSign true in
  let i := [] ++ 65 :: 98 :: [] in let j := [] ++ (65 + 1) :: (98 - 33) :: [] in
  i <> j /\ (forall sender params, Signal j sender params ∅ = Signal i sender params (∅ : gmap Z (list unit))) /\
  Slot j tt ∅ = Slot i tt ∅ /\ RemoveSlot j (∅ : gmap Z (list unit)) = RemoveSlot i ∅.
Proof. intros sign. apply (identifier_collisions [] 65 98 []); [lia|lia|constructor]. Defined.

(** The hash is the same under both signs of char for ASCII identifiers and
    differs for others, and the empty identifier makes it read behind the array. *)
Theorem hash_portability :
  (forall i, proper_identifier i -> Forall (fun b => b < 128) i ->
     @djb2hash (Build_CharSign true) (c_str i) = @djb2hash (Build_CharSign false) (c_str i)) /\
  @djb2hash (Build_CharSign true) (c_str [233]) <> @djb2hash (Build_CharSign false) (c_str [233]) /\
  (forall sign, @djb2hash sign (c_str []) = Fail OutOfBounds).
Proof.
  split; [|split; [vm_compute; discriminate|reflexivity]]. intros i Hp Ha.
  rewrite !djb2hash_proper by done. f_equal. unfold hash_of. generalize 5381.
  induction Ha as [|b i Hb Ha IH] in Hp |- *; intros h; [done|]. cbn [foldl].
  assert (E : @hash_step (Build_CharSign true) h b = @hash_step (Build_CharSign false) h b).
  { unfold hash_step, char_value. cbn. now rewrite (proj2 (Z.leb_gt 128 b)). }
  rewrite E. destruct i as [|b' i]; [done|]. apply IH. destruct Hp as [_ Hp]. inversion_clear Hp. now split.
Qed.
