(* ===== verification/Encryption.v ===== *)
(** * Encryption: the encryption layer and its two implementations

    Model of source/EncryptionLayer.h (the interface, a type class),
    EncryptionLayerNull.h, EncryptionLayerSodium.{h,cpp}.  libsodium is not part
    of the repository: the functions that are used of it are the fields of
    [Sodium], their documented behaviour is [SodiumLaws].  Values drawn from its
    random generator depend on an entropy argument.  Arrays of known length
    (keys, nonces, challenges) are lists of bytes. *)

From stdpp Require Import base tactics list list_numbers numbers option.
From Stdlib Require Import ZArith Lia.
From S2P Require Import Prelude Memory BinaryStream StreamSpec StreamCodec Config.

Open Scope Z_scope.

(** ** The interface *)

Record Keypair : Type := mkKeypair { key_public : list Z; key_secret : list Z }.

(** The virtual functions; operations on a stream run on that stream. *)
Class EncryptionLayer (crypto : Type) : Type := {
  GetNeedsToBail : crypto -> bool;
  GetKeyLength : Z;
  GetOverhead : Z;
  GetEphemeralPublicKey : crypto -> outcome BinaryStream;
  SetCryptoEstablished : crypto -> crypto;
  GetCryptoEstablished : crypto -> bool;
  GetNeedsChallenge : crypto -> bool;
  CreateChallenge : Z -> crypto -> SM crypto;
  HandleChallengeIncoming : crypto -> BinaryStream -> SM (bool * BinaryStream);
  HandleChallengeResponse : crypto -> SM bool;
  HandleKeyExchange : ConnectionOrigin -> crypto -> SM (bool * crypto);
  SetLocalIdentity : option Keypair -> crypto -> crypto;
  ExpectRemoteIdentity : crypto -> SM crypto;
  Encrypt : Z -> BinaryStream -> crypto -> outcome BinaryStream;
  Decrypt : crypto -> SM (BinaryStream * crypto);
}.

Arguments GetKeyLength crypto {_}.
Arguments GetOverhead crypto {_}.

(** ** EncryptionLayerNull *)

#[export] Instance EncryptionLayerNull : EncryptionLayer unit := {|
  GetNeedsToBail _ := false;
  GetKeyLength := 0;
  GetOverhead := 0;
  GetEphemeralPublicKey _ := BinaryStream_new 0;
  SetCryptoEstablished c := c;
  GetCryptoEstablished _ := false;
  GetNeedsChallenge _ := false;
  CreateChallenge _ c := mret c;
  HandleChallengeIncoming _ instream := mret (true, instream);
  HandleChallengeResponse _ := mret true;
  HandleKeyExchange _ c := mret (true, c);
  SetLocalIdentity _ c := c;
  ExpectRemoteIdentity c := mret c;
  Encrypt _ plaintext _ := BinaryStream_copy plaintext;
  Decrypt c := ciphertext ← get; copy ← lift (BinaryStream_copy ciphertext); mret (copy, c);
|}.

(** ** libsodium *)

Class Sodium : Type := {
  sodium_init : Z;
  NONCE_LEN : Z;                  (* crypto_secretbox_xchacha20poly1305_NONCEBYTES *)
  MAC_LEN : Z;                    (* crypto_secretbox_xchacha20poly1305_MACBYTES *)
  SEAL_LEN : Z;                   (* crypto_box_SEALBYTES *)
  randombytes_buf : Z -> Z -> list Z;                       (* entropy, length *)
  crypto_box_keypair : Z -> list Z * list Z;                (* entropy: public, secret *)
  crypto_kx_keypair : Z -> list Z * list Z;
  crypto_kx_client_session_keys : list Z -> list Z -> list Z -> option (list Z * list Z);
  crypto_kx_server_session_keys : list Z -> list Z -> list Z -> option (list Z * list Z);
  crypto_box_seal : Z -> list Z -> list Z -> list Z;        (* entropy, message, public key *)
  crypto_box_seal_open : list Z -> list Z -> list Z -> option (list Z);
  crypto_secretbox_easy : list Z -> list Z -> list Z -> list Z;          (* message, nonce, key *)
  crypto_secretbox_open_easy : list Z -> list Z -> list Z -> option (list Z);
  sodium_memcmp : list Z -> list Z -> Z;
  sodium_memzero : list Z -> list Z;
}.

(** ** EncryptionLayerSodium *)

Definition KEY_LENGTH : Z := 32.
Definition CHALLENGE_LENGTH : Z := 64.

Record EncryptionLayerSodium : Type := mkSodium {
  m_identity : option Keypair;
  m_kx : option Keypair;
  m_remote_identity_pk : list Z;
  m_issued_challenge : list Z;
  m_key_rx : list Z;
  m_key_tx : list Z;
  m_error : bool;
  m_established : bool;
  m_remoteIdentityKnown : bool;
  m_remoteAuthExpected : bool;
}.

Definition zeroes (n : Z) : list Z := replicate (Z.to_nat n) 0.

(** An access through a [shared_ptr<Keypair>]. *)
Definition deref_key (k : option Keypair) : outcome Keypair :=
  match k with Some k => Ret k | None => Fail NullPointer end.

(** A local array filled by ReadBytes and then used. *)
Definition read_array (n : Z) : SM (list Z) :=
  r ← ReadBytes n;
  match r with None => fail Uninitialised | Some cs => lift (bytes_of cs) end.

Section Sodium.
Context {sodium : Sodium}.

Definition PreallocateBuffer (len : Z) : outcome BinaryStream :=
  buffer ← BinaryStream_new len;
  '(_, buffer) ← WriteZeroes len buffer;
  '(_, buffer) ← SeekToBegin buffer;
  mret buffer.

Definition Keypair_default : outcome Keypair :=
  if sodium_init <? 0 then Fail RuntimeError else Ret (mkKeypair (zeroes KEY_LENGTH) (zeroes KEY_LENGTH)).

Definition CreateIdentity (entropy : Z) : outcome Keypair :=
  _ ← Keypair_default; let '(pk, sk) := crypto_box_keypair entropy in mret (mkKeypair pk sk).

Definition CreateKeyExchange (entropy : Z) : outcome Keypair :=
  _ ← Keypair_default; let '(pk, sk) := crypto_kx_keypair entropy in mret (mkKeypair pk sk).

(** Keypair(key_secret, key_public) *)
Definition Keypair_from (secret public : outcome (list cell)) : outcome Keypair :=
  sk ← read_from secret 0 KEY_LENGTH; sk ← bytes_of sk;
  pk ← read_from public 0 KEY_LENGTH; pk ← bytes_of pk;
  mret (mkKeypair pk sk).

(** CopyTo(out_secret, out_public): what the two buffers hold afterwards. *)
Definition CopyTo (k : Keypair) (out_secret out_public : list cell) : outcome (list cell * list cell) :=
  s ← mem_write out_secret 0 (map Some (key_secret k));
  p ← mem_write out_public 0 (map Some (key_public k));
  mret (s, p).

(** ~Keypair(): what it leaves in memory. *)
Definition Keypair_destroy (k : Keypair) : Keypair :=
  mkKeypair (sodium_memzero (key_public k)) (sodium_memzero (key_secret k)).

Definition EncryptionLayerSodium_new (entropy : Z) : outcome EncryptionLayerSodium :=
  if sodium_init <? 0 then Fail RuntimeError else
  kx ← CreateKeyExchange entropy;
  mret (mkSodium None (Some kx) (zeroes KEY_LENGTH) (zeroes CHALLENGE_LENGTH) (zeroes KEY_LENGTH) (zeroes KEY_LENGTH)
          false false false false).

(** ~EncryptionLayerSodium(): what it leaves in memory. *)
Definition EncryptionLayerSodium_destroy (c : EncryptionLayerSodium) : EncryptionLayerSodium :=
  mkSodium None None (sodium_memzero (m_remote_identity_pk c)) (m_issued_challenge c) (m_key_rx c)
    (sodium_memzero (sodium_memzero (m_key_tx c))) (m_error c) (m_established c) (m_remoteIdentityKnown c)
    (m_remoteAuthExpected c).

(** operator=(EncryptionLayerSodium&&) on distinct objects: target and operand. *)
Definition EncryptionLayerSodium_move (this other : EncryptionLayerSodium) : EncryptionLayerSodium * EncryptionLayerSodium :=
  (mkSodium (m_identity other) (m_kx other) (m_remote_identity_pk other) (m_issued_challenge this) (m_key_rx other)
     (m_key_tx other) (m_error other) (m_established other) (m_remoteIdentityKnown other) (m_remoteAuthExpected other),
   mkSodium None None (sodium_memzero (m_remote_identity_pk other)) (m_issued_challenge other)
     (sodium_memzero (m_key_rx other)) (sodium_memzero (m_key_tx other)) false false false false).

Definition set_keys (rx tx : list Z) (c : EncryptionLayerSodium) : EncryptionLayerSodium :=
  mkSodium (m_identity c) (m_kx c) (m_remote_identity_pk c) (m_issued_challenge c) rx tx (m_error c) (m_established c)
    (m_remoteIdentityKnown c) (m_remoteAuthExpected c).

Definition set_error (c : EncryptionLayerSodium) : EncryptionLayerSodium :=
  mkSodium (m_identity c) (m_kx c) (m_remote_identity_pk c) (m_issued_challenge c) (m_key_rx c) (m_key_tx c) true
    (m_established c) (m_remoteIdentityKnown c) (m_remoteAuthExpected c).

Definition Sodium_GetOverhead : Z := u64 (NONCE_LEN + MAC_LEN).

Definition Sodium_GetEphemeralPublicKey (c : EncryptionLayerSodium) : outcome BinaryStream :=
  ret ← BinaryStream_new KEY_LENGTH;
  kx ← deref_key (m_kx c);
  '(_, ret) ← WriteBytes (map Some (key_public kx)) ret;
  '(_, ret) ← SeekToBegin ret;
  mret ret.

Definition Sodium_SetCryptoEstablished (c : EncryptionLayerSodium) : EncryptionLayerSodium :=
  mkSodium (m_identity c) (m_kx c) (m_remote_identity_pk c) (m_issued_challenge c) (m_key_rx c) (m_key_tx c) (m_error c)
    true (m_remoteIdentityKnown c) (m_remoteAuthExpected c).

(** CreateChallenge(outstream) *)
Definition Sodium_CreateChallenge (entropy : Z) (c : EncryptionLayerSodium) : SM EncryptionLayerSodium :=
  let challenge := randombytes_buf entropy CHALLENGE_LENGTH in
  let encrypted := crypto_box_seal entropy challenge (m_remote_identity_pk c) in
  WriteBytes (map Some encrypted);;
  mret (mkSodium (m_identity c) (m_kx c) (m_remote_identity_pk c) challenge (m_key_rx c) (m_key_tx c) (m_error c)
          (m_established c) (m_remoteIdentityKnown c) true).

(** HandleKeyExchange(origin, pubkey); another origin leaves the keys alone. *)
Definition Sodium_HandleKeyExchange (origin : ConnectionOrigin) (c : EncryptionLayerSodium) : SM (bool * EncryptionLayerSodium) :=
  remotekey ← read_array KEY_LENGTH;
  c ← (match origin with
       | SELF =>
           kx ← lift (deref_key (m_kx c));
           mret (match crypto_kx_client_session_keys (key_public kx) (key_secret kx) remotekey with
                 | Some (rx, tx) => set_keys rx tx c | None => set_error c end)
       | REMOTE =>
           kx ← lift (deref_key (m_kx c));
           mret (match crypto_kx_server_session_keys (key_public kx) (key_secret kx) remotekey with
                 | Some (rx, tx) => set_keys rx tx c | None => set_error c end)
       | ORIGIN_INVALID => mret c
       end);
  mret (negb (m_error c), c).

Definition Sodium_HandleChallengeResponse (c : EncryptionLayerSodium) : SM bool :=
  response ← read_array CHALLENGE_LENGTH;
  mret (sodium_memcmp response (m_issued_challenge c) =? 0).

(** HandleChallengeIncoming(instream, answer), run on the answer. *)
Definition Sodium_HandleChallengeIncoming (c : EncryptionLayerSodium) (instream : BinaryStream) : SM (bool * BinaryStream) :=
  '(encrypted, instream) ← lift (read_array (CHALLENGE_LENGTH + SEAL_LEN) instream);
  identity ← lift (deref_key (m_identity c));
  match crypto_box_seal_open encrypted (key_public identity) (key_secret identity) with
  | None => mret (false, instream)
  | Some decrypted => WriteBytes (map Some decrypted);; mret (true, instream)
  end.

Definition Sodium_SetLocalIdentity (keypair : option Keypair) (c : EncryptionLayerSodium) : EncryptionLayerSodium :=
  mkSodium keypair (m_kx c) (m_remote_identity_pk c) (m_issued_challenge c) (m_key_rx c) (m_key_tx c) (m_error c)
    (m_established c) (m_remoteIdentityKnown c) (m_remoteAuthExpected c).

(** ExpectRemoteIdentity(pubkey), run on pubkey; the member keeps its content
    when nothing was read. *)
Definition Sodium_ExpectRemoteIdentity (c : EncryptionLayerSodium) : SM EncryptionLayerSodium :=
  r ← ReadBytes KEY_LENGTH;
  pk ← (match r with None => mret (m_remote_identity_pk c) | Some cs => lift (bytes_of cs) end);
  mret (mkSodium (m_identity c) (m_kx c) pk (m_issued_challenge c) (m_key_rx c) (m_key_tx c) (m_error c)
          (m_established c) true (m_remoteAuthExpected c)).

Definition Sodium_Encrypt (entropy : Z) (plaintext : BinaryStream) (c : EncryptionLayerSodium) : outcome BinaryStream :=
  ciphertext ← PreallocateBuffer (u64 (m_length plaintext + MAC_LEN + NONCE_LEN));
  let nonce := randombytes_buf entropy NONCE_LEN in
  '(_, ciphertext) ← WriteBytes (map Some nonce) ciphertext;
  m ← read_from (deref_ro plaintext) 0 (m_length plaintext);
  m ← bytes_of m;
  '(_, ciphertext) ← store NONCE_LEN (map Some (crypto_secretbox_easy m nonce (m_key_tx c))) ciphertext;
  '(_, ciphertext) ← SeekToBegin ciphertext;
  mret ciphertext.

(** Decrypt(ciphertext), run on the ciphertext; the plaintext is indeterminate
    when it cannot be opened. *)
Definition Sodium_Decrypt (c : EncryptionLayerSodium) : SM (BinaryStream * EncryptionLayerSodium) :=
  SeekToBegin;;
  nonce ← ReadBytes NONCE_LEN;
  s ← get;
  if m_length s <? MAC_LEN + NONCE_LEN then
    copy ← lift (BinaryStream_copy s); mret (copy, set_error c)
  else
  nonce ← (match nonce with None => fail Uninitialised | Some cs => lift (bytes_of cs) end);
  let ciphertext_len := m_length s - NONCE_LEN in
  let plaintext_len := ciphertext_len - MAC_LEN in
  plaintext ← lift (PreallocateBuffer plaintext_len);
  sealed ← lift (read_from (deref_ro s) NONCE_LEN ciphertext_len);
  sealed ← lift (bytes_of sealed);
  match crypto_secretbox_open_easy sealed nonce (m_key_rx c) with
  | Some m =>
      '(_, plaintext) ← lift (store 0 (map Some m) plaintext); mret (plaintext, c)
  | None =>
      '(_, plaintext) ← lift (store 0 (replicate (Z.to_nat plaintext_len) None) plaintext); mret (plaintext, set_error c)
  end.

#[export] Instance SodiumLayer : EncryptionLayer EncryptionLayerSodium := {|
  GetNeedsToBail := m_error;
  GetKeyLength := KEY_LENGTH;
  GetOverhead := Sodium_GetOverhead;
  GetEphemeralPublicKey := Sodium_GetEphemeralPublicKey;
  SetCryptoEstablished := Sodium_SetCryptoEstablished;
  GetCryptoEstablished := m_established;
  GetNeedsChallenge := m_remoteIdentityKnown;
  CreateChallenge := Sodium_CreateChallenge;
  HandleChallengeIncoming := Sodium_HandleChallengeIncoming;
  HandleChallengeResponse := Sodium_HandleChallengeResponse;
  HandleKeyExchange := Sodium_HandleKeyExchange;
  SetLocalIdentity := Sodium_SetLocalIdentity;
  ExpectRemoteIdentity := Sodium_ExpectRemoteIdentity;
  Encrypt := Sodium_Encrypt;
  Decrypt := Sodium_Decrypt;
|}.
End Sodium.

(** ** What the layers promise *)

(** A layer has a public key that it can send. *)
Definition has_key {crypto} `{EncryptionLayer crypto} (c : crypto) (key : list Z) : Prop :=
  zlength key = GetKeyLength crypto /\ Forall is_byte key /\
  exists st, GetEphemeralPublicKey c = Ret st /\ rel true st (cursor [] key).

(** The contract between an encryption layer and its users, for a connecting
    layer c and an accepting layer s: [ready] before the key exchange, [linked]
    with session keys that fit, [vouched] when the identity that c expects, if
    it expects one, is the identity of s. *)
Class EncryptionLaws (crypto : Type) {layer : EncryptionLayer crypto} : Type := {
  ready : crypto -> crypto -> Prop;
  linked : crypto -> crypto -> Prop;
  vouched : crypto -> crypto -> Prop;
  law_key_length : 0 <= GetKeyLength crypto <= 1024;
  law_overhead : 0 <= GetOverhead crypto <= 4096;
  law_linked_sym c s : linked c s -> linked s c;
  law_no_error c s : linked c s -> GetNeedsToBail c = false;
  law_established c s : linked c s -> linked (SetCryptoEstablished c) s;
  law_vouched_established c s : vouched c s -> vouched (SetCryptoEstablished c) (SetCryptoEstablished s);
  law_needs c : GetNeedsChallenge (SetCryptoEstablished c) = GetNeedsChallenge c;
  law_exchange c s : ready c s -> exists kc ks c' s', has_key c kc /\ has_key s' ks /\
    linked c' s' /\ vouched c' s' /\ GetNeedsChallenge c' = GetNeedsChallenge c /\
    (forall w st, rel w st (cursor [] ks) -> exists st', HandleKeyExchange SELF c st = Ret (true, c', st')) /\
    (forall w st, rel w st (cursor [] kc) -> exists st', HandleKeyExchange REMOTE s st = Ret (true, s', st'));
  law_challenge c s entropy : vouched c s -> linked c s -> GetNeedsChallenge c = true ->
    exists c' question answer, linked c' s /\ GetCryptoEstablished c' = GetCryptoEstablished c /\ Forall is_byte question /\ Forall is_byte answer /\
    zlength question <= 4096 /\ zlength answer <= 4096 /\
    (forall bs, roomy (zlength question) bs ->
       sim true (CreateChallenge entropy c) (at_end bs) c' (at_end (bs ++ question))) /\
    (forall w st p r bs, rel w st (cursor p (question ++ r)) -> roomy (zlength answer) bs ->
       exists st', sim true (HandleChallengeIncoming s st) (at_end bs) (true, st') (at_end (bs ++ answer))) /\
    (forall w p r, sim w (HandleChallengeResponse c') (cursor p (answer ++ r)) true (cursor (p ++ answer) r));
  law_encrypt c s entropy w plain a : linked c s -> rel w plain a -> zlength (a_bytes a) + 4096 <= max_len ->
    exists st sealed, Encrypt entropy plain c = Ret st /\ rel true st (cursor [] sealed) /\
    zlength sealed = zlength (a_bytes a) + GetOverhead crypto /\
    (forall w st, rel w st (cursor [] sealed) ->
       exists plain' st', Decrypt s st = Ret (plain', s, st') /\ rel true plain' (cursor [] (a_bytes a)));
}.

(** Copying a stream gives a stream at the beginning of the same bytes. *)
Lemma BinaryStream_copy_rel w s a : rel w s a ->
  exists s', BinaryStream_copy s = Ret s' /\ rel true s' (cursor [] (a_bytes a)).
Proof.
  intros [H _]. unfold BinaryStream_copy. pose proof (rf_max s a H) as Hm. destruct (a_bytes a) as [|b bs] eqn:E.
  - rewrite (rf_len s a H), E. eexists. split; [reflexivity|].
    apply rel_empty; try done; unfold max_len; split; cbn; done.
  - rewrite <- E in *. destruct (rf_cells s a H) as [slack ->]; [now rewrite E|]. rewrite (rf_len s a H).
    exact (BinaryStream_wrap_rel _ slack COPY (rf_bytes s a H) Hm).
Qed.

#[export] Instance EncryptionLayerNull_laws : EncryptionLaws unit.
Proof.
  refine {| ready _ _ := True; linked _ _ := True; vouched _ _ := True |}; try (cbn; lia || done).
  - intros [] [] _. assert (Hk : has_key tt []).
    { split; [done|]. split; [constructor|]. apply (BinaryStream_new_rel 0). unfold max_len. lia. }
    exists [], [], tt, tt. cbn. repeat split; eauto; try apply Hk.
  - intros c s e w plain a _ Hp Hm. destruct (BinaryStream_copy_rel w plain a Hp) as (st & E & Hst).
    exists st, (a_bytes a). split; [done|]. split; [done|]. split; [cbn; lia|].
    intros w' st' Hst'. destruct (BinaryStream_copy_rel w' st' _ Hst') as (p' & E' & Hp').
    exists p', st'. split; [|done]. cbn [Decrypt EncryptionLayerNull]. rewrite bind_get, (bind_lift _ _ _ p') by done. now destruct s.
Defined.

(** ** libsodium's documented behaviour *)

Class SodiumLaws {sodium : Sodium} : Prop := {
  law_init : 0 <= sodium_init;
  law_lengths : 0 <= NONCE_LEN <= 1024 /\ 0 <= MAC_LEN <= 1024 /\ 0 <= SEAL_LEN <= 1024;
  law_random e n : 0 <= n -> zlength (randombytes_buf e n) = n /\ Forall is_byte (randombytes_buf e n);
  law_kx_keypair e : let '(pk, sk) := crypto_kx_keypair e in zlength pk = 32 /\ Forall is_byte pk;
  law_kx e e' : let '(cpk, csk) := crypto_kx_keypair e in let '(spk, ssk) := crypto_kx_keypair e' in
    exists k1 k2, crypto_kx_client_session_keys cpk csk spk = Some (k1, k2) /\
                  crypto_kx_server_session_keys spk ssk cpk = Some (k2, k1);
  law_seal e m pk : Forall is_byte m ->
    zlength (crypto_box_seal e m pk) = zlength m + SEAL_LEN /\ Forall is_byte (crypto_box_seal e m pk);
  law_seal_open e e' m : Forall is_byte m -> let '(pk, sk) := crypto_box_keypair e in
    crypto_box_seal_open (crypto_box_seal e' m pk) pk sk = Some m;
  law_secretbox m n k : Forall is_byte m ->
    zlength (crypto_secretbox_easy m n k) = zlength m + MAC_LEN /\ Forall is_byte (crypto_secretbox_easy m n k);
  law_secretbox_open m n k : Forall is_byte m -> crypto_secretbox_open_easy (crypto_secretbox_easy m n k) n k = Some m;
  law_memcmp a b : zlength a = zlength b -> sodium_memcmp a b = 0 <-> a = b;
  law_memzero l : sodium_memzero l = replicate (length l) 0;
}.

Section SodiumProofs.
Context {sodium : Sodium} {laws : SodiumLaws}.

Lemma sim_read_array w a p d r n : reading a p (d ++ r) -> n = zlength d ->
  sim w (read_array n) a d (cursor (p ++ d) r).
Proof.
  intros H Hn. unfold read_array. eapply sim_bind; [apply (@sim_rd_bytes (Build_Host true true) w a p d r n H Hn)|].
  intros s Hs. exists s. split; [|done]. unfold lift. now rewrite bytes_of_map.
Qed.

Lemma PreallocateBuffer_rel len : 0 <= len <= max_len ->
  exists st, PreallocateBuffer len = Ret st /\ rel true st (cursor [] (zeroes len)).
Proof.
  intros Hl. unfold PreallocateBuffer. destruct (BinaryStream_new_rel len Hl) as (s0 & -> & H0).
  cbn [mbind outcome_bind]. destruct (sim_WriteZeroes (at_end []) len) with (s := s0) as (s1 & E1 & H1);
    [lia|apply (room_appending _ _ _ (app_end [])); unfold roomy; zlen|done|]. rewrite E1. cbn [mbind outcome_bind].
  rewrite a_write_end in H1. cbn [app] in H1. fold (zeroes len) in H1.
  destruct (sim_Seek true (at_end (zeroes len)) 0 eq_refl s1 H1) as (s2 & E2 & H2).
  change SeekToBegin with (Seek 0). rewrite E2. exists s2. split; [reflexivity|].
  replace (a_seek 0 (at_end (zeroes len))) with (cursor [] (zeroes len)) in H2; [done|].
  unfold a_seek, cursor. cbn. f_equal. zlen.
Qed.

(** Sending the session's bytes through a stream of known content. *)
Lemma seek_begin_rel w s bs q : rel w s (mkA bs q 0) -> exists s', SeekToBegin s = Ret (tt, s') /\ rel w s' (cursor [] bs).
Proof.
  intros H. destruct (sim_Seek w (mkA bs q 0) 0 eq_refl s H) as (s' & E & H'). exists s'. split; [exact E|].
  replace (a_seek 0 (mkA bs q 0)) with (cursor [] bs) in H'; [done|]. unfold a_seek, cursor. cbn. f_equal. zlen.
Qed.

Lemma Sodium_Encrypt_spec entropy w plain a c : rel w plain a -> zlength (a_bytes a) + 4096 <= max_len ->
  let nonce := randombytes_buf entropy NONCE_LEN in
  exists st, Sodium_Encrypt entropy plain c = Ret st /\
    rel true st (cursor [] (nonce ++ crypto_secretbox_easy (a_bytes a) nonce (m_key_tx c))).
Proof.
  intros Hp Hm nonce. destruct law_lengths as (Hn & Hmac & _). pose proof (zlength_nonneg (a_bytes a)) as Hl0.
  destruct (law_random entropy NONCE_LEN) as [Hnl Hnb]; [lia|]. fold nonce in Hnl, Hnb.
  pose proof (rf_bytes _ _ (proj1 Hp)) as Hab. destruct (law_secretbox (a_bytes a) nonce (m_key_tx c) Hab) as [Hbl Hbb].
  set (box := crypto_secretbox_easy _ _ _) in *.
  unfold Sodium_Encrypt. rewrite (rf_len _ _ (proj1 Hp)). unfold max_len in Hm.
  rewrite u64_small by lia. set (n := zlength (a_bytes a)) in *.
  destruct (PreallocateBuffer_rel (n + MAC_LEN + NONCE_LEN)) as (s0 & -> & H0); [unfold max_len; lia|].
  cbn [mbind outcome_bind]. fold nonce.
  destruct (sim_WriteBytes (cursor [] (zeroes (n + MAC_LEN + NONCE_LEN))) nonce Hnb) with (s := s0) as (s1 & E1 & H1);
    [unfold room, max_len; cbn [a_align cursor a_pos a_sub]; change (zlength (@nil Z)) with 0; cbn [Z.ltb Z.compare]; lia|done|]. rewrite E1. cbn [mbind outcome_bind].
  assert (Ez : a_write nonce (cursor [] (zeroes (n + MAC_LEN + NONCE_LEN))) = mkA (nonce ++ zeroes (n + MAC_LEN) ++ []) NONCE_LEN 0).
  { unfold a_write, cursor, zeroes. cbn [a_align a_bytes a_pos a_sub app Z.ltb Z.compare]. change (zlength (@nil Z)) with 0.
    rewrite ztake_0, Hnl, app_nil_r. cbn [app]. f_equal. f_equal. unfold zdrop. rewrite drop_replicate. f_equal. lia. }
  rewrite Ez in H1. rewrite (read_backing _ _ _ _ (proj1 Hp)) by (fold n; lia). cbn [mbind outcome_bind].
  rewrite zdrop_0, ztake_all, bytes_of_map by (fold n; lia). cbn [mbind outcome_bind].
  destruct (store_inside s1 nonce _ box [] _ H1) as (s2 & E2 & H2); [|exact Hbb|].
  { unfold zeroes, zlength at 1. rewrite length_replicate. lia. }
  rewrite Hnl in E2. fold box. rewrite E2. cbn [mbind outcome_bind].
  destruct (seek_begin_rel _ _ _ _ H2) as (s3 & E3 & H3). rewrite E3. exists s3. split; [reflexivity|]. now rewrite app_nil_r in H3.
Qed.

Lemma Sodium_Decrypt_spec w st nonce m c : Forall is_byte m -> zlength nonce = NONCE_LEN ->
  zlength m + 4096 <= max_len ->
  rel w st (cursor [] (nonce ++ crypto_secretbox_easy m nonce (m_key_rx c))) ->
  exists plain st', Sodium_Decrypt c st = Ret (plain, c, st') /\ rel true plain (cursor [] m).
Proof.
  intros Hmb Hnl Hm Hst. destruct law_lengths as (Hn & Hmac & _). pose proof (zlength_nonneg m) as Hm0.
  destruct (law_secretbox m nonce (m_key_rx c) Hmb) as [Hbl Hbb]. pose proof (law_secretbox_open m nonce (m_key_rx c) Hmb) as Hopen.
  set (box := crypto_secretbox_easy _ _ _) in *. unfold max_len in Hm.
  unfold Sodium_Decrypt. destruct (seek_begin_rel w st _ _ Hst) as (s0 & E0 & H0). rewrite (bind_ret _ _ _ _ _ E0).
  destruct (@sim_rd_bytes (Build_Host true true) w _ [] nonce box NONCE_LEN (rd_cursor [] (nonce ++ box)) (eq_sym Hnl) s0 H0)
    as (s1 & E1 & H1). rewrite (bind_ret _ _ _ _ _ E1), bind_get.
  rewrite (rf_len _ _ (proj1 H1)). cbn [cursor a_bytes app]. rewrite zlength_app, Hnl, Hbl.
  rewrite (proj2 (Z.ltb_ge _ _)) by lia. rewrite (bind_lift _ _ _ nonce) by apply bytes_of_map.
  replace (NONCE_LEN + (zlength m + MAC_LEN) - NONCE_LEN - MAC_LEN) with (zlength m) by lia.
  destruct (PreallocateBuffer_rel (zlength m)) as (p0 & Ep0 & Hp0); [unfold max_len; lia|].
  rewrite (bind_lift _ _ _ p0) by done. rewrite (bind_lift _ _ _ (map Some box)).
  2:{ rewrite (read_backing _ _ _ _ (proj1 H1)) by (cbn [cursor a_bytes app]; rewrite ?zlength_app; lia).
      cbn [cursor a_bytes app]. rewrite zdrop_app_l by done. rewrite ztake_all by lia. done. }
  rewrite (bind_lift _ _ _ box) by apply bytes_of_map. rewrite Hopen.
  replace (cursor [] (zeroes (zlength m))) with (mkA ([] ++ zeroes (zlength m) ++ []) 0 0) in Hp0 by (unfold cursor; now rewrite app_nil_r).
  destruct (store_inside p0 [] _ m [] _ Hp0) as (p1 & E2 & H2); [|done|].
  { unfold zeroes, zlength at 1. rewrite length_replicate. lia. }
  change (zlength (@nil Z)) with 0 in E2. rewrite (bind_lift _ _ _ _ E2). exists p1, s1. split; [reflexivity|].
  rewrite app_nil_r in H2. exact H2.
Qed.

Definition kx_pair (entropy : Z) : Keypair := mkKeypair (fst (crypto_kx_keypair entropy)) (snd (crypto_kx_keypair entropy)).

(** The session keys of the two ends fit, and neither end has an error. *)
Definition sodium_linked (c s : EncryptionLayerSodium) : Prop :=
  m_key_rx c = m_key_tx s /\ m_key_tx c = m_key_rx s /\ m_error c = false /\ m_error s = false.

(** The identity that c expects, if any, is the genuine identity of s. *)
Definition sodium_vouched (c s : EncryptionLayerSodium) : Prop :=
  m_remoteIdentityKnown c = true -> exists e, m_remote_identity_pk c = fst (crypto_box_keypair e) /\
    m_identity s = Some (mkKeypair (fst (crypto_box_keypair e)) (snd (crypto_box_keypair e))).

Definition sodium_ready (c s : EncryptionLayerSodium) : Prop :=
  m_error c = false /\ m_error s = false /\ sodium_vouched c s /\
  exists e e', m_kx c = Some (kx_pair e) /\ m_kx s = Some (kx_pair e').

Lemma sodium_has_key c e : m_kx c = Some (kx_pair e) -> has_key c (key_public (kx_pair e)).
Proof.
  intros E. pose proof (law_kx_keypair e) as Hk. unfold kx_pair in *. destruct (crypto_kx_keypair e) as [pk sk].
  cbn [key_public fst snd] in *. destruct Hk as [Hl Hb]. split; [done|]. split; [done|].
  cbn [GetEphemeralPublicKey SodiumLayer]. unfold Sodium_GetEphemeralPublicKey.
  destruct (BinaryStream_new_rel KEY_LENGTH) as (s0 & -> & H0); [unfold KEY_LENGTH, max_len; lia|]. cbn [mbind outcome_bind].
  rewrite E. cbn [deref_key mbind outcome_bind key_public].
  destruct (sim_app_bytes (at_end []) [] pk (app_end []) Hb) with (s := s0) as (s1 & E1 & H1);
    [unfold roomy, max_len; zlen|done|]. rewrite E1. cbn [mbind outcome_bind app] in *.
  destruct (seek_begin_rel _ _ _ _ H1) as (s2 & E2 & H2). rewrite E2. now exists s2.
Qed.

(** Both halves of the key exchange, on streams that hold the other's key. *)
Lemma sodium_exchange c s e e' : m_kx c = Some (kx_pair e) -> m_kx s = Some (kx_pair e') ->
  m_error c = false -> m_error s = false ->
  exists k1 k2,
    (forall w st, rel w st (cursor [] (key_public (kx_pair e'))) ->
       exists st', Sodium_HandleKeyExchange SELF c st = Ret (true, set_keys k1 k2 c, st')) /\
    (forall w st, rel w st (cursor [] (key_public (kx_pair e))) ->
       exists st', Sodium_HandleKeyExchange REMOTE s st = Ret (true, set_keys k2 k1 s, st')).
Proof.
  intros Ec Es Hc Hs. pose proof (law_kx_keypair e) as Hk. pose proof (law_kx_keypair e') as Hk'. pose proof (law_kx e e') as Hkx.
  unfold kx_pair in *. destruct (crypto_kx_keypair e) as [pk sk], (crypto_kx_keypair e') as [pk' sk'].
  cbn [key_public key_secret fst snd] in *. destruct Hkx as (k1 & k2 & E1 & E2). exists k1, k2.
  assert (Hrd : forall w st key, zlength key = 32 -> rel w st (cursor [] key) ->
    exists st', read_array KEY_LENGTH st = Ret (key, st')).
  { intros w st key Hl Hst. destruct (sim_read_array w (cursor [] key) [] key [] KEY_LENGTH) with (s := st) as (st' & E & _);
      [rewrite app_nil_r; constructor|done|done|]. eauto. }
  split; intros w st Hst; [destruct (Hrd w st pk' (proj1 Hk') Hst) as (st' & E)|destruct (Hrd w st pk (proj1 Hk) Hst) as (st' & E)];
    exists st'; unfold Sodium_HandleKeyExchange; rewrite (bind_ret _ _ _ _ _ E), ?Ec, ?Es.
  - rewrite (bind_ret _ _ _ (set_keys k1 k2 c) st'); [cbn [set_keys m_error]; now rewrite Hc|].
    rewrite (bind_lift _ _ _ (mkKeypair pk sk)) by done. cbn [key_public key_secret]. now rewrite E1.
  - rewrite (bind_ret _ _ _ (set_keys k2 k1 s) st'); [cbn [set_keys m_error]; now rewrite Hs|].
    rewrite (bind_lift _ _ _ (mkKeypair pk' sk')) by done. cbn [key_public key_secret]. now rewrite E2.
Qed.

#[export] Instance SodiumLayer_laws : EncryptionLaws EncryptionLayerSodium.
Proof.
  refine {| ready := sodium_ready; linked := sodium_linked; vouched := sodium_vouched |}.
  - cbn. unfold KEY_LENGTH. lia.
  - destruct law_lengths as (Hn & Hm & _). cbn. unfold Sodium_GetOverhead. rewrite u64_small; lia.
  - intros c s (H1 & H2 & H3 & H4). repeat split; congruence.
  - intros c s (H1 & H2 & H3 & H4). exact H3.
  - intros c s H. exact H.
  - intros c s H. exact H.
  - done.
  - intros c s (Hc & Hs & Hv & e & e' & Ec & Es).
    destruct (sodium_exchange c s e e' Ec Es Hc Hs) as (k1 & k2 & H1 & H2).
    exists (key_public (kx_pair e)), (key_public (kx_pair e')), (set_keys k1 k2 c), (set_keys k2 k1 s).
    repeat split; try done; try (now apply (sodium_has_key c)); now apply (sodium_has_key (set_keys k2 k1 s)).
  - intros c s entropy Hv (L1 & L2 & L3 & L4) Hn. destruct (Hv Hn) as (e & Epk & Eid).
    destruct law_lengths as (_ & _ & Hseal).
    destruct (law_random entropy CHALLENGE_LENGTH) as [Hrl Hrb]; [unfold CHALLENGE_LENGTH; lia|].
    set (answer := randombytes_buf entropy CHALLENGE_LENGTH) in *.
    destruct (law_seal entropy answer (m_remote_identity_pk c) Hrb) as [Hql Hqb].
    set (question := crypto_box_seal entropy answer (m_remote_identity_pk c)) in *.
    pose proof (law_seal_open e entropy answer Hrb) as Hopen. destruct (crypto_box_keypair e) as [pk sk] eqn:Ee.
    cbn [fst snd] in *. rewrite <- Epk in Hopen. fold question in Hopen. unfold CHALLENGE_LENGTH in Hrl.
    eexists _, question, answer. split; [|split; [|split; [done|split; [done|split; [lia|split; [lia|split; [|split]]]]]]].
    3:{ intros bs Hr. unfold CreateChallenge, SodiumLayer, Sodium_CreateChallenge. fold answer question.
        eapply sim_bind; [apply (sim_app_bytes _ bs question (app_end bs) Hqb Hr)|apply sim_ret]. }
    + done.
    + done.
    + intros w st p r bs Hst Hr. cbn [HandleChallengeIncoming SodiumLayer]. unfold Sodium_HandleChallengeIncoming.
      destruct (sim_read_array w _ p question r (CHALLENGE_LENGTH + SEAL_LEN) (rd_cursor p (question ++ r))) with (s := st)
        as (st' & E & _); [unfold CHALLENGE_LENGTH; lia|done|].
      exists st'. intros o Ho. rewrite (bind_lift _ _ _ (question, st')) by done. cbv beta iota. rewrite Eid.
      rewrite (bind_lift _ _ _ (mkKeypair pk sk)) by done. cbn [key_public key_secret]. rewrite <- Epk, Hopen.
      destruct (sim_app_bytes _ bs answer (app_end bs) Hrb Hr o Ho) as (o' & E' & Ho').
      rewrite (bind_ret _ _ _ _ _ E'). now exists o'.
    + intros w p r. cbn [HandleChallengeResponse SodiumLayer]. unfold Sodium_HandleChallengeResponse.
      eapply sim_bind; [apply (sim_read_array w _ p answer r CHALLENGE_LENGTH (rd_cursor p (answer ++ r)) (eq_sym Hrl))|].
      cbn [m_issued_challenge]. rewrite (proj2 (law_memcmp answer answer eq_refl) eq_refl). apply sim_ret.
  - intros c s entropy w plain a (L1 & L2 & L3 & L4) Hp Hm. pose proof (rf_bytes _ _ (proj1 Hp)) as Hb.
    destruct (Sodium_Encrypt_spec entropy w plain a c Hp Hm) as (st & E & Hst).
    set (nonce := randombytes_buf entropy NONCE_LEN) in *. set (box := crypto_secretbox_easy _ _ _) in *.
    destruct law_lengths as (Hn & Hmac & _). destruct (law_random entropy NONCE_LEN) as [Hnl Hnb]; [lia|]. fold nonce in Hnl, Hnb.
    destruct (law_secretbox (a_bytes a) nonce (m_key_tx c) Hb) as [Hbl Hbb]. fold box in Hbl, Hbb.
    exists st, (nonce ++ box). split; [exact E|]. split; [exact Hst|]. split.
    + rewrite zlength_app, Hnl, Hbl. cbn [GetOverhead SodiumLayer]. unfold Sodium_GetOverhead. rewrite u64_small; lia.
    + intros w' st' Hst'. cbn [Decrypt SodiumLayer]. unfold box in Hst'. rewrite L2 in Hst'.
      exact (Sodium_Decrypt_spec w' st' nonce (a_bytes a) s Hb Hnl Hm Hst').
Defined.
End SodiumProofs.

(** ** A concrete library that satisfies the laws

    The boxes carry the key they were made with in front of the message; opening
    one with another key fails. *)

Definition model_sodium : Sodium := {|
  sodium_init := 0;
  NONCE_LEN := 24;
  MAC_LEN := 32;
  SEAL_LEN := 32;
  randombytes_buf e n := replicate (Z.to_nat n) (u8 e);
  crypto_box_keypair e := (replicate 32 (u8 e), replicate 32 (u8 e));
  crypto_kx_keypair e := (replicate 32 (u8 e), replicate 32 (u8 e));
  crypto_kx_client_session_keys pk sk remote := Some (map u8 remote, map u8 pk);
  crypto_kx_server_session_keys pk sk remote := Some (map u8 remote, map u8 pk);
  crypto_box_seal e m pk := map u8 (take 32 (pk ++ replicate 32 0)) ++ m;
  crypto_box_seal_open c pk sk :=
    if bool_decide (take 32 c = map u8 (take 32 (sk ++ replicate 32 0))) then Some (drop 32 c) else None;
  crypto_secretbox_easy m n k := map u8 (take 32 (k ++ replicate 32 0)) ++ m;
  crypto_secretbox_open_easy c n k :=
    if bool_decide (take 32 c = map u8 (take 32 (k ++ replicate 32 0))) then Some (drop 32 c) else None;
  sodium_memcmp a b := if bool_decide (a = b) then 0 else -1;
  sodium_memzero l := replicate (length l) 0;
|}.

Lemma key_tag_length (k : list Z) : length (map u8 (take 32 (k ++ replicate 32 0))) = 32%nat.
Proof. rewrite List.length_map, length_take, length_app, length_replicate. lia. Qed.

Lemma map_u8_bytes l : Forall is_byte (map u8 l).
Proof. apply Forall_fmap. apply Forall_intro. intros x _. apply u8_byte. Qed.

Lemma model_sodium_laws : @SodiumLaws model_sodium.
Proof.
  assert (Htag : forall (k m : list Z), take 32 (map u8 (take 32 (k ++ replicate 32 0)) ++ m) =
      map u8 (take 32 (k ++ replicate 32 0)) /\ drop 32 (map u8 (take 32 (k ++ replicate 32 0)) ++ m) = m)
    by (intros k m; split; [apply take_app_length'|apply drop_app_length']; symmetry; apply key_tag_length).
  assert (Hbox : forall (k m : list Z), Forall is_byte m ->
      zlength (map u8 (take 32 (k ++ replicate 32 0)) ++ m) = zlength m + 32 /\
      Forall is_byte (map u8 (take 32 (k ++ replicate 32 0)) ++ m)).
  { intros k m Hm. split; [|apply Forall_app; split; [apply map_u8_bytes|done]].
    unfold zlength. rewrite length_app, key_tag_length. lia. }
  assert (Hrep : forall n e, Forall is_byte (replicate n (u8 e)))
    by (intros; apply Forall_replicate; apply u8_byte).
  split; cbn [sodium_init NONCE_LEN MAC_LEN SEAL_LEN randombytes_buf crypto_box_keypair crypto_kx_keypair
    crypto_kx_client_session_keys crypto_kx_server_session_keys crypto_box_seal crypto_box_seal_open
    crypto_secretbox_easy crypto_secretbox_open_easy sodium_memcmp sodium_memzero model_sodium].
  - lia.
  - lia.
  - intros e n Hn. split; [|apply Hrep]. unfold zlength. rewrite length_replicate. lia.
  - intros e. split; [unfold zlength; now rewrite length_replicate|apply Hrep].
  - intros e e'. eauto.
  - intros e m pk. apply Hbox.
  - intros e e' m Hm. destruct (Htag (replicate 32 (u8 e)) m) as [E1 E2].
    rewrite E1, bool_decide_eq_true_2 by done. now rewrite E2.
  - intros m n k. apply Hbox.
  - intros m n k Hm. destruct (Htag k m) as [E1 E2]. rewrite E1, bool_decide_eq_true_2 by done. now rewrite E2.
  - intros a b _. case_bool_decide; split; done || lia.
  - done.
Qed.

(** ** Claims *)

(** C20: two fresh layers that exchange their public keys agree on session keys:
    whatever either end encrypts afterwards the other end decrypts to the same
    bytes, without an error, and the ciphertext is longer by exactly the stated
    overhead. *)
Theorem session_roundtrip {sodium : Sodium} {laws : SodiumLaws} e e' c0 s0 :
  EncryptionLayerSodium_new e = Ret c0 -> EncryptionLayerSodium_new e' = Ret s0 ->
  exists kc ks c s kc' ks',
    Sodium_GetEphemeralPublicKey c0 = Ret kc /\ Sodium_GetEphemeralPublicKey s0 = Ret ks /\
    Sodium_HandleKeyExchange SELF c0 ks = Ret (true, c, ks') /\
    Sodium_HandleKeyExchange REMOTE s0 kc = Ret (true, s, kc') /\
    forall entropy w plain a x y, (x, y) = (c, s) \/ (x, y) = (s, c) ->
      rel w plain a -> zlength (a_bytes a) + 4096 <= max_len ->
      exists st plain' st', Sodium_Encrypt entropy plain x = Ret st /\
        m_length st = m_length plain + Sodium_GetOverhead /\
        Sodium_Decrypt y st = Ret (plain', y, st') /\ rel true plain' (cursor [] (a_bytes a)).
Proof.
  intros Ec Es. assert (Hnew : forall x l, EncryptionLayerSodium_new x = Ret l -> m_kx l = Some (kx_pair x) /\ m_error l = false /\
    m_remoteIdentityKnown l = false).
  { intros x l. unfold EncryptionLayerSodium_new, CreateKeyExchange, Keypair_default, kx_pair. destruct (sodium_init <? 0); [done|].
    cbn [mbind outcome_bind]. destruct (crypto_kx_keypair x). intros [= <-]. done. }
  destruct (Hnew _ _ Ec) as (Hkc & Hec & Hic), (Hnew _ _ Es) as (Hks & Hes & _).
  destruct (sodium_has_key c0 e Hkc) as (_ & _ & kc & Ekc & Hkc'). destruct (sodium_has_key s0 e' Hks) as (_ & _ & ks & Eks & Hks').
  destruct (sodium_exchange c0 s0 e e' Hkc Hks Hec Hes) as (k1 & k2 & H1 & H2).
  destruct (H1 _ _ Hks') as (ks1 & E1), (H2 _ _ Hkc') as (kc1 & E2).
  exists kc, ks, (set_keys k1 k2 c0), (set_keys k2 k1 s0), kc1, ks1. repeat (split; [done|]).
  intros entropy w plain a x y Hxy Hp Hm.
  assert (HL : sodium_linked x y) by (destruct Hxy as [E|E]; injection E as -> ->; done).
  destruct (@law_encrypt _ _ SodiumLayer_laws x y entropy w plain a HL Hp Hm) as (st & sealed & E & Hst & Hlen & Hdec).
  destruct (Hdec true st Hst) as (plain' & st' & Ed & Hpl). exists st, plain', st'. split; [exact E|]. split; [|done].
  rewrite (rf_len _ _ (proj1 Hst)), (rf_len _ _ (proj1 Hp)). exact Hlen.
Qed.

Definition demo_layer (entropy : Z) : EncryptionLayerSodium :=
  let kp := @kx_pair model_sodium entropy in
  mkSodium None (Some kp) (zeroes KEY_LENGTH) (zeroes CHALLENGE_LENGTH) (zeroes KEY_LENGTH) (zeroes KEY_LENGTH) false false false false.

Lemma session_roundtrip_witness : let sodium := model_sodium in
  exists kc ks c s kc' ks',
    Sodium_GetEphemeralPublicKey (demo_layer 5) = Ret kc /\ Sodium_GetEphemeralPublicKey (demo_layer 9) = Ret ks /\
    Sodium_HandleKeyExchange SELF (demo_layer 5) ks = Ret (true, c, ks') /\
    Sodium_HandleKeyExchange REMOTE (demo_layer 9) kc = Ret (true, s, kc') /\
    forall entropy w plain a x y, (x, y) = (c, s) \/ (x, y) = (s, c) ->
      rel w plain a -> zlength (a_bytes a) + 4096 <= max_len ->
      exists st plain' st', Sodium_Encrypt entropy plain x = Ret st /\
        m_length st = m_length plain + Sodium_GetOverhead /\
        Sodium_Decrypt y st = Ret (plain', y, st') /\ rel true plain' (cursor [] (a_bytes a)).
Proof. intros sodium. apply (session_roundtrip (laws := model_sodium_laws) 5 9); reflexivity. Defined.

(** C40: the challenge of a client that expects a server identity. After the key exchange
    the client seals random bytes for the expected identity; a server that holds this
    identity opens them and answers with them; and an answer of the right length is
    accepted exactly when it is the challenge that was issued. *)
Theorem challenge_response {sodium : Sodium} {laws : SodiumLaws} (c s : EncryptionLayerSodium) entropy :
  m_remoteIdentityKnown c = true -> sodium_vouched c s -> sodium_linked c s ->
  exists c' question, Forall is_byte question /\
    sim true (Sodium_CreateChallenge entropy c) (at_end []) c' (at_end question) /\
    (forall w st, rel w st (cursor [] question) -> exists st',
       sim true (Sodium_HandleChallengeIncoming s st) (at_end []) (true, st') (at_end (m_issued_challenge c'))) /\
    (forall w p answer r, zlength answer = CHALLENGE_LENGTH ->
       sim w (Sodium_HandleChallengeResponse c') (cursor p (answer ++ r))
         (bool_decide (answer = m_issued_challenge c')) (cursor (p ++ answer) r)).
Proof.
  intros Hk Hv HL. destruct (law_random entropy CHALLENGE_LENGTH) as [Hrl Hrb]; [unfold CHALLENGE_LENGTH; lia|].
  destruct (law_seal entropy (randombytes_buf entropy CHALLENGE_LENGTH) (m_remote_identity_pk c) Hrb) as [Hql Hqb].
  destruct law_lengths as (_ & _ & Hseal). set (question := crypto_box_seal _ _ _) in *.
  assert (Hroom : roomy (zlength question) []) by (unfold roomy, max_len, CHALLENGE_LENGTH in *; zlen).
  eexists _, question. split; [done|]. split.
  { eapply sim_bind; [apply (sim_app_bytes _ [] question (app_end []) Hqb Hroom)|apply sim_ret]. }
  cbn [m_issued_challenge]. split.
  - intros w st Hst. unfold Sodium_HandleChallengeIncoming.
    destruct (sim_read_array w _ [] question [] (CHALLENGE_LENGTH + SEAL_LEN) (rd_cursor [] (question ++ []))) with (s := st)
      as (st' & E & _); [lia|now rewrite app_nil_r|].
    exists st'. intros o Ho. rewrite (bind_lift _ _ _ (question, st')) by done. cbv beta iota.
    destruct (Hv Hk) as (e & Epk & ->). cbn [deref_key]. rewrite (bind_lift _ _ _ _ eq_refl). cbn [key_public key_secret].
    pose proof (law_seal_open e entropy _ Hrb) as Ho'. destruct (crypto_box_keypair e) as [pk sk]. cbn [fst snd] in *.
    unfold question. rewrite Epk, Ho'.
    destruct (sim_app_bytes _ [] _ (app_end []) Hrb) with (s := o) as (o' & E' & H'); [unfold roomy, max_len, CHALLENGE_LENGTH in *; zlen|done|].
    rewrite (bind_ret _ _ _ _ _ E'). now exists o'.
  - intros w p answer r Ha. unfold Sodium_HandleChallengeResponse.
    eapply sim_bind; [apply (sim_read_array w _ p answer r CHALLENGE_LENGTH (rd_cursor p (answer ++ r)) (eq_sym Ha))|].
    pose proof (law_memcmp answer (randombytes_buf entropy CHALLENGE_LENGTH)) as Hcmp. rewrite Ha, Hrl in Hcmp.
    specialize (Hcmp eq_refl). cbn [m_issued_challenge].
    replace (bool_decide _) with (sodium_memcmp answer (randombytes_buf entropy CHALLENGE_LENGTH) =? 0); [apply sim_ret|].
    case_bool_decide as E; [apply Z.eqb_eq|apply Z.eqb_neq]; tauto.
Qed.

Definition demo_client : EncryptionLayerSodium :=
  mkSodium None None (replicate 32 7) (zeroes CHALLENGE_LENGTH) (replicate 32 1) (replicate 32 2) false true true false.
Definition demo_server : EncryptionLayerSodium :=
  mkSodium (Some (mkKeypair (replicate 32 7) (replicate 32 7))) None (zeroes KEY_LENGTH) (zeroes CHALLENGE_LENGTH)
    (replicate 32 2) (replicate 32 1) false true false false.

Lemma challenge_response_witness : let sodium := model_sodium in
  exists c' question, Forall is_byte question /\
    sim true (Sodium_CreateChallenge 3 demo_client) (at_end []) c' (at_end question) /\
    (forall w st, rel w st (cursor [] question) -> exists st',
       sim true (Sodium_HandleChallengeIncoming demo_server st) (at_end []) (true, st') (at_end (m_issued_challenge c'))) /\
    (forall w p answer r, zlength answer = CHALLENGE_LENGTH ->
       sim w (Sodium_HandleChallengeResponse c') (cursor p (answer ++ r))
         (bool_decide (answer = m_issued_challenge c')) (cursor (p ++ answer) r)).
Proof.
  intros sodium. apply (challenge_response (laws := model_sodium_laws) demo_client demo_server 3); [reflexivity| |done].
  intros _. exists 7. done.
Defined.

(** A datagram shorter than the nonce makes Decrypt read behind it; the
    length check that is there to prevent this comes after the read. *)
Theorem short_ciphertext_overread {sodium : Sodium} (c : EncryptionLayerSodium) bs st :
  0 < zlength bs < NONCE_LEN -> NONCE_LEN < 4294967296 ->
  BinaryStream_wrap (Ret (map Some bs)) (zlength bs) READONLY = Ret st ->
  Sodium_Decrypt c st = Fail OutOfBounds.
Proof.
  intros Hl Hn [= <-]. unfold Sodium_Decrypt, ReadBytes. cbn -[u64 read_from].
  unfold mbind, st_bind, SeekToBegin, Seek, modify, get, put, IsEOF, Align. cbn -[u64 read_from].
  rewrite Z.min_l, (proj2 (Z.ltb_ge _ 0)) by (pose proof (u64_range (zlength bs - NONCE_LEN)); lia).
  cbn -[u64 read_from]. unfold lift, read_from. rewrite (proj2 (Z.eqb_neq NONCE_LEN 0)) by lia.
  cbn. unfold mem_read. rewrite decide_False; [done|]. rewrite zlength_map. lia.
Qed.

Lemma short_ciphertext_overread_witness : let sodium := model_sodium in
  Sodium_Decrypt (demo_layer 5) (mkStream None (RoUser [Some 1; Some 2; Some 3]) 3 3 0 0 true) = Fail OutOfBounds.
Proof. intros sodium. apply (short_ciphertext_overread _ [1; 2; 3]); [split; reflexivity|reflexivity|reflexivity]. Defined.
