(* ===== verification/Handshake.v ===== *)
(** * Handshake: connection setup and authentication

    Model of source/EncryptionAuthenticator.{h,cpp}, Handshaker.{h,cpp} and
    HandshakerThreeWay.{h,cpp}, over any encryption layer.  The callbacks that
    Peer registers are recorded as effects, in order.  A failed handshake makes
    Peer's completion handler reset the RemotePeer and so destroy the handshaker:
    the state says whether the object still exists, and using it afterwards is a
    fault.  The current time, the local settings and the random generator's
    entropy are arguments. *)

From stdpp Require Import base tactics list list_numbers numbers option.
From Stdlib Require Import ZArith Lia.
From S2P Require Import Prelude Memory BinaryStream StreamSpec StreamCodec Config Packet Encryption.

Open Scope Z_scope.

(** The numeric values of ConnectResult; a value from the wire may be any byte. *)
Definition result_code (r : ConnectResult) : Z :=
  match r with
  | IN_PROGRESS => 0 | CR_OK => 1 | CONNECT_FAILED => 2 | INCOMPATIBLE_PROTOCOL => 3 | INCOMPATIBLE_VERSION => 4
  | INCOMPATIBLE_SECURITY => 5 | INCORRECT_REMOTE_IDENTITY => 6 | INCORRECT_PASSWORD => 7 | NO_FREE_SLOTS => 8
  | ALREADY_CONNECTED => 9 | IP_RATE_LIMITED => 10 | BANNED => 11
  end.

(** ** EncryptionAuthenticator *)

Definition STATE_KEY_EXCHANGE : Z := 0.
Definition STATE_AUTHENTICATION : Z := 1.
Definition STATE_DONE : Z := 2.

Record EncryptionAuthenticator : Type := mkAuth {
  au_origin : ConnectionOrigin;
  au_state : Z;
  m_enableCryptoAfterReply : bool;
}.

Definition EncryptionAuthenticator_new (origin : ConnectionOrigin) : EncryptionAuthenticator :=
  mkAuth origin STATE_KEY_EXCHANGE false.

Definition set_state (st : Z) (a : EncryptionAuthenticator) : EncryptionAuthenticator :=
  mkAuth (au_origin a) st (m_enableCryptoAfterReply a).

Section Authenticator.
Context {host : Host} {crypto : Type} {layer : EncryptionLayer crypto}.

(** Begin(outstream) *)
Definition Auth_Begin (a : EncryptionAuthenticator) (c : crypto) : SM EncryptionAuthenticator :=
  WriteByte STATE_KEY_EXCHANGE;;
  key ← lift (GetEphemeralPublicKey c);
  WriteBytes_stream key;;
  WriteBool (GetNeedsChallenge c);;
  mret (set_state STATE_KEY_EXCHANGE a).

(** The switch of HandleKeyExchange, after the session keys were computed. *)
Definition Auth_continue (entropy : Z) (a : EncryptionAuthenticator) (c : crypto) (instream : BinaryStream)
    : SM (ConnectResult * EncryptionAuthenticator * crypto) :=
  match au_origin a with
  | SELF =>
      let c := SetCryptoEstablished c in
      if GetNeedsChallenge c then
        WriteByte STATE_AUTHENTICATION;;
        c ← CreateChallenge entropy c;
        mret (IN_PROGRESS, set_state STATE_AUTHENTICATION a, c)
      else
        WriteByte STATE_DONE;;
        mret (CR_OK, set_state STATE_DONE a, c)
  | REMOTE =>
      WriteByte STATE_KEY_EXCHANGE;;
      key ← lift (GetEphemeralPublicKey c);
      WriteBytes_stream key;;
      '(wants, _) ← lift (ReadBool instream);
      mret (IN_PROGRESS,
            mkAuth (au_origin a) (if wants : bool then STATE_AUTHENTICATION else STATE_DONE) true, c)
  | ORIGIN_INVALID => mret (IN_PROGRESS, a, c)
  end.

(** HandleKeyExchange(instream, outstream), run on outstream. *)
Definition Auth_HandleKeyExchange (entropy : Z) (a : EncryptionAuthenticator) (c : crypto) (instream : BinaryStream)
    : SM (ConnectResult * EncryptionAuthenticator * crypto) :=
  let keylen := (GetKeyLength crypto) in
  remoteKey ← lift (BinaryStream_new keylen);
  '(_, remoteKey) ← lift (WriteZeroes keylen remoteKey);
  '(_, remoteKey) ← lift (SeekToBegin remoteKey);
  '(data, instream) ← lift (ReadBytes keylen instream);
  '(_, remoteKey) ← lift (match data with Some cs => store 0 cs remoteKey | None => Ret (tt, remoteKey) end);
  '(ok, c, _) ← lift (HandleKeyExchange (au_origin a) c remoteKey);
  if negb ok then mret (INCORRECT_REMOTE_IDENTITY, a, c) else Auth_continue entropy a c instream.

(** HandleAuth(instream, outstream), run on outstream. *)
Definition HandleAuth (a : EncryptionAuthenticator) (c : crypto) (instream : BinaryStream)
    : SM (ConnectResult * EncryptionAuthenticator * crypto) :=
  match au_origin a with
  | REMOTE =>
      WriteByte STATE_AUTHENTICATION;;
      '(ok, _) ← HandleChallengeIncoming c instream;
      if negb ok then mret (INCOMPATIBLE_SECURITY, a, c) else mret (IN_PROGRESS, set_state STATE_DONE a, c)
  | _ =>
      '(ok, _) ← lift (HandleChallengeResponse c instream);
      if negb ok then Clear;; mret (INCORRECT_REMOTE_IDENTITY, a, c)
      else WriteByte STATE_DONE;; mret (CR_OK, set_state STATE_DONE a, c)
  end.

(** Handle(instream, outstream), run on outstream. *)
Definition Auth_Handle (entropy : Z) (a : EncryptionAuthenticator) (c : crypto) (instream : BinaryStream)
    : SM (ConnectResult * EncryptionAuthenticator * crypto) :=
  '(b, instream) ← lift (ReadByte instream);
  if negb (b =? au_state a) then mret (IN_PROGRESS, a, c) else
  if au_state a =? STATE_KEY_EXCHANGE then Auth_HandleKeyExchange entropy a c instream
  else if au_state a =? STATE_AUTHENTICATION then HandleAuth a c instream
  else if au_state a =? STATE_DONE then mret (CR_OK, a, c)
  else mret (INCOMPATIBLE_PROTOCOL, a, c).

Definition PostHandle (a : EncryptionAuthenticator) (c : crypto) : EncryptionAuthenticator * crypto :=
  if m_enableCryptoAfterReply a then (mkAuth (au_origin a) (au_state a) false, SetCryptoEstablished c) else (a, c).
End Authenticator.

(** ** Handshaker and HandshakerThreeWay *)

Definition NOT_STARTED : Z := 0.
Definition INITIAL_CLIENT : Z := 1.
Definition INITIAL_SERVER : Z := 2.
Definition AUTH_MSG : Z := 3.
Definition UNENCRYPTED_ACK : Z := 4.
Definition ERROR_OCCURRED : Z := 5.

Definition HANDSHAKE_HEADER_LEN : Z := 7 + 1 + 8 + 1.

Record Handshaker : Type := mkHS {
  m_origin : ConnectionOrigin;
  m_result : Z;
  m_lastReply : BinaryStream;
  m_resendNext : Z;
  m_resendAttempts : Z;
  m_expectedOpcode : Z;
  m_auth : option EncryptionAuthenticator;
}.

Definition set_result (r : Z) (last : BinaryStream) (h : Handshaker) : Handshaker :=
  mkHS (m_origin h) r last (m_resendNext h) (m_resendAttempts h) (m_expectedOpcode h) (m_auth h).
Definition set_opcode (o : Z) (h : Handshaker) : Handshaker :=
  mkHS (m_origin h) (m_result h) (m_lastReply h) (m_resendNext h) (m_resendAttempts h) o (m_auth h).
Definition set_auth (a : EncryptionAuthenticator) (h : Handshaker) : Handshaker :=
  mkHS (m_origin h) (m_result h) (m_lastReply h) (m_resendNext h) (m_resendAttempts h) (m_expectedOpcode h) (Some a).
Definition set_resend (last : BinaryStream) (next attempts : Z) (h : Handshaker) : Handshaker :=
  mkHS (m_origin h) (m_result h) last next attempts (m_expectedOpcode h) (m_auth h).

Definition IsDone (h : Handshaker) : bool := negb (m_result h =? result_code IN_PROGRESS).

(** Handshaker(master, remote, origin) and HandshakerThreeWay(...) *)
Definition Handshaker_new (encryption : bool) (origin : ConnectionOrigin) : outcome Handshaker :=
  last ← BinaryStream_new 0;
  mret (mkHS origin (result_code IN_PROGRESS) last 0 0 NOT_STARTED
          (if encryption then Some (EncryptionAuthenticator_new origin) else None)).

(** Calls of the reply handler (the message, and whether crypto was established
    when it was sent) and of the completion handler. *)
Inductive hs_effect : Type :=
  | SendPart (outstream : BinaryStream) (established : bool)
  | Completed (notification : Packet).

(** What the handshaker sees of the local peer. *)
Record settings : Type := mkSettings {
  my_id : Z;
  encryption_enabled : bool;
  taken : Z -> bool;        (* GetRemoteByID finds another RemotePeer *)
}.

Section Handshake.
Context {host : Host} {crypto : Type} {layer : EncryptionLayer crypto}.

Record HState : Type := mkHState {
  st_hs : Handshaker;
  st_crypto : crypto;
  st_remote_id : Z;
  st_alive : bool;
  st_effects : list hs_effect;
}.

Abbreviation HM := (ST HState).

(** Access to a member of the handshaker. *)
Definition this : HM Handshaker := s ← get; if st_alive s then mret (st_hs s) else fail Dangling.
Definition set_this (h : Handshaker) : HM unit :=
  s ← get;
  if st_alive s then put (mkHState h (st_crypto s) (st_remote_id s) true (st_effects s)) else fail Dangling.
Definition emit (e : hs_effect) : HM unit := modify (fun s =>
  mkHState (st_hs s) (st_crypto s) (st_remote_id s) (st_alive s) (st_effects s ++ [e])).
Definition destroy : HM unit := modify (fun s =>
  mkHState (st_hs s) (st_crypto s) (st_remote_id s) false (st_effects s)).
Definition set_remote_id (id : Z) : HM unit := modify (fun s =>
  mkHState (st_hs s) (st_crypto s) id (st_alive s) (st_effects s)).
Definition set_crypto (c : crypto) : HM unit := modify (fun s =>
  mkHState (st_hs s) c (st_remote_id s) (st_alive s) (st_effects s)).

(** Reply(outstream, isRetry) *)
Definition Reply (now : Z) (outstream : BinaryStream) (isRetry : bool) : HM unit :=
  h ← this;
  '(_, last) ← lift (assign_copy outstream (m_lastReply h));
  set_this (set_resend last (Timestamp_add now (FromMilliseconds CONNECT_RETRY_DELAY))
              (if isRetry then m_resendAttempts h else 1) h);;
  s ← get;
  emit (SendPart outstream (GetCryptoEstablished (st_crypto s))).

(** Complete(result); the completion handler resets the remote on failure. *)
Definition Complete (result : Z) : HM unit :=
  h ← this;
  '(_, last) ← lift (Reset (m_lastReply h));
  set_this (set_result result last h);;
  payload ← lift (BinaryStream_new 1);
  '(_, payload) ← lift (WriteByte result payload);
  let cmd := match m_origin h with
             | SELF => if result =? result_code CR_OK then NOTIFY_CONNECT_SUCCESS else NOTIFY_CONNECT_FAILED
             | _ => NOTIFY_CONNECTION_INCOMING
             end in
  '(notification, _) ← lift (Packet_take_stream cmd payload);
  emit (Completed notification);;
  if result =? result_code CR_OK then mret tt else destroy.

(** Update(), called with the lock of the remote held. *)
Definition Handshaker_Update (now : Z) : HM unit :=
  h ← this;
  if IsDone h || negb (Elapsed now (m_resendNext h)) then mret tt else
  let attempts := u32 (m_resendAttempts h + 1) in
  set_this (set_resend (m_lastReply h) (m_resendNext h) attempts h);;
  if CONNECT_RETRY_COUNT <? attempts then Complete (result_code CONNECT_FAILED) else
  if IsEmpty (m_lastReply h) then mret tt else
  replyCopy ← lift (BinaryStream_copy (m_lastReply h));
  Reply now replyCopy true.

(** WriteReplyHeader(outstream, myID), run on outstream. *)
Definition WriteReplyHeader (myID : Z) : SM unit :=
  WriteBytes (map Some WIREFOX_MAGIC);;
  WriteByte WIREFOX_PROTOCOL_VERSION;;
  WriteInt64 myID.

Definition WriteOutOfBandErrorReply (myID : Z) (reply : ConnectResult) : SM unit :=
  WriteReplyHeader myID;;
  WriteByte ERROR_OCCURRED;;
  WriteByte (result_code reply).

Definition ReplyWithError (now : Z) (outstream : BinaryStream) (problem : ConnectResult) : HM unit :=
  '(_, outstream) ← lift (WriteByte ERROR_OCCURRED outstream);
  '(_, outstream) ← lift (WriteByte (result_code problem) outstream);
  Reply now outstream false.

(** Begin() *)
Definition Handshake_Begin (cfg : settings) (now : Z) : HM unit :=
  hello ← lift (BinaryStream_new HANDSHAKE_HEADER_LEN);
  '(_, hello) ← lift (WriteReplyHeader (my_id cfg) hello);
  '(_, hello) ← lift (WriteByte INITIAL_CLIENT hello);
  '(_, hello) ← lift (WriteBool (encryption_enabled cfg) hello);
  h ← this;
  set_this (set_opcode INITIAL_SERVER h);;
  Reply now hello false.

(** The branches of Handle once the header was read, by stage. *)
Definition Handle_stage (cfg : settings) (now entropy opcode : Z) (instream reply : BinaryStream) : HM unit :=
  h ← this;
  if (m_expectedOpcode h =? NOT_STARTED) && (opcode =? INITIAL_CLIENT) then
    '(remoteWantsCrypto, _) ← lift (ReadBool instream);
    if negb (Bool.eqb remoteWantsCrypto (encryption_enabled cfg)) then
      ReplyWithError now reply INCOMPATIBLE_SECURITY;;
      Complete (result_code INCOMPATIBLE_SECURITY)
    else
      set_this (set_opcode (if encryption_enabled cfg then AUTH_MSG else UNENCRYPTED_ACK) h);;
      '(_, reply) ← lift (WriteByte INITIAL_SERVER reply);
      '(_, reply) ← lift (WriteBool (encryption_enabled cfg) reply);
      Reply now reply false
  else if (m_expectedOpcode h =? UNENCRYPTED_ACK) && (opcode =? m_expectedOpcode h) then
    Complete (result_code CR_OK)
  else if (m_expectedOpcode h =? INITIAL_SERVER) && (opcode =? m_expectedOpcode h) then
    if encryption_enabled cfg then
      '(_, reply) ← lift (WriteByte AUTH_MSG reply);
      set_this (set_opcode AUTH_MSG h);;
      s ← get;
      a ← lift (match m_auth h with Some a => Ret a | None => Fail NullPointer end);
      '(a, reply) ← lift (Auth_Begin a (st_crypto s) reply);
      set_this (set_auth a (set_opcode AUTH_MSG h));;
      Reply now reply false
    else
      '(_, reply) ← lift (WriteByte UNENCRYPTED_ACK reply);
      Complete (result_code CR_OK);;
      Reply now reply false
  else if (m_expectedOpcode h =? AUTH_MSG) && (opcode =? m_expectedOpcode h) then
    '(_, reply) ← lift (WriteByte AUTH_MSG reply);
    s ← get;
    a ← lift (match m_auth h with Some a => Ret a | None => Fail NullPointer end);
    '(authresult, a, c, reply) ← lift (Auth_Handle entropy a (st_crypto s) instream reply);
    set_this (set_auth a h);;
    set_crypto c;;
    (if IsEmpty reply then mret tt else Reply now reply false);;
    h ← this;
    s ← get;
    let '(a, c) := PostHandle a (st_crypto s) in
    set_this (set_auth a h);;
    set_crypto c;;
    if bool_decide (authresult = IN_PROGRESS) then mret tt else Complete (result_code authresult)
  else mret tt.

(** Handle(packet) *)
Definition Handshake_Handle (cfg : settings) (now entropy : Z) (packet : Packet) : HM unit :=
  h ← this;
  if IsDone h then mret tt else
  instream ← lift (GetStream packet);
  reply ← lift (BinaryStream_new HANDSHAKE_HEADER_LEN);
  '(_, reply) ← lift (WriteReplyHeader (my_id cfg) reply);
  (if IsEOF instream HANDSHAKE_HEADER_LEN then Complete (result_code INCOMPATIBLE_PROTOCOL) else mret tt);;
  '(magic, instream) ← lift (ReadBytes 7 instream);
  magic ← lift (match magic with Some cs => bytes_of cs | None => Ret (replicate 7 0) end);
  if negb (bool_decide (magic = WIREFOX_MAGIC)) then Complete (result_code INCOMPATIBLE_PROTOCOL) else
  '(version, instream) ← lift (ReadByte instream);
  if negb (version =? WIREFOX_PROTOCOL_VERSION) then
    ReplyWithError now reply INCOMPATIBLE_VERSION;;
    Complete (result_code INCOMPATIBLE_VERSION)
  else
  '(remoteID, instream) ← lift (ReadUInt64 instream);
  '(opcode, instream) ← lift (ReadByte instream);
  if taken cfg remoteID then
    ReplyWithError now reply ALREADY_CONNECTED;;
    Complete (result_code ALREADY_CONNECTED)
  else
  set_remote_id remoteID;;
  if opcode =? ERROR_OCCURRED then
    '(problem, _) ← lift (ReadByte instream);
    Complete problem
  else Handle_stage cfg now entropy opcode instream reply.
End Handshake.
Arguments HState : clear implicits.
