(* ===== verification/HandshakeTheorems.v ===== *)
(** * HandshakeTheorems: the handshake as an abstract machine on messages

    The handshaker refines a machine whose state has byte strings where the code
    has streams and whose effects are observations; the results about one and two
    parties are then about that machine. *)

From stdpp Require Import base tactics list list_numbers numbers option.
From Stdlib Require Import ZArith Lia.
From S2P Require Import Prelude Memory BinaryStream StreamSpec StreamCodec StreamTheorems Config Packet Headers Encryption Handshake.

Open Scope Z_scope.

(** ** Messages and observations *)

(** The first 16 bytes of every message. *)
Definition hs_header (id : Z) : list Z := WIREFOX_MAGIC ++ [WIREFOX_PROTOCOL_VERSION] ++ be_bytes 8 id.

Definition hs_flag (b : bool) : list Z := [pack [b]].

Inductive observation : Type :=
  | Sent (message : list Z) (established : bool)
  | Notified (command code : Z).

Definition observes (e : hs_effect) (o : observation) : Prop :=
  match o with
  | Sent bs est => exists st a, e = SendPart st est /\ rel true st a /\ a_bytes a = bs
  | Notified cmd code => exists p, e = Completed p /\ holds p cmd [code]
  end.

(** m_lastReply: empty, or a stream that holds [bs]. *)
Record last_ok (st : BinaryStream) (bs : list Z) : Prop := {
  lo_writable : writable st;
  lo_length : m_length st = zlength bs;
  lo_bytes : bs <> [] -> exists a, rel true st a /\ a_bytes a = bs;
}.

Section Machine.
Context {host : Host} {crypto : Type} {layer : EncryptionLayer crypto}.

Record AHS : Type := mkAHS {
  ah_origin : ConnectionOrigin;
  ah_result : Z;
  ah_last : list Z;
  ah_next : Z;
  ah_attempts : Z;
  ah_opcode : Z;
  ah_auth : option EncryptionAuthenticator;
  ah_crypto : crypto;
  ah_remote : Z;
  ah_alive : bool;
  ah_seen : list observation;
}.

Record hrel (s : HState crypto) (A : AHS) : Prop := {
  hr_origin : m_origin (st_hs s) = ah_origin A;
  hr_result : m_result (st_hs s) = ah_result A;
  hr_last : last_ok (m_lastReply (st_hs s)) (ah_last A);
  hr_next : m_resendNext (st_hs s) = ah_next A;
  hr_attempts : m_resendAttempts (st_hs s) = ah_attempts A;
  hr_opcode : m_expectedOpcode (st_hs s) = ah_opcode A;
  hr_auth : m_auth (st_hs s) = ah_auth A;
  hr_crypto : st_crypto s = ah_crypto A;
  hr_remote : st_remote_id s = ah_remote A;
  hr_alive : st_alive s = ah_alive A;
  hr_seen : Forall2 observes (st_effects s) (ah_seen A);
}.

Definition hsim (m : ST (HState crypto) unit) (A A' : AHS) : Prop :=
  forall s, hrel s A -> exists s', m s = Ret (tt, s') /\ hrel s' A'.

(** ** Operations of the machine *)

Definition a_reply (now : Z) (bs : list Z) (isRetry : bool) (A : AHS) : AHS :=
  mkAHS (ah_origin A) (ah_result A) bs (Timestamp_add now (FromMilliseconds CONNECT_RETRY_DELAY))
    (if isRetry then ah_attempts A else 1) (ah_opcode A) (ah_auth A) (ah_crypto A) (ah_remote A) (ah_alive A)
    (ah_seen A ++ [Sent bs (GetCryptoEstablished (ah_crypto A))]).

Definition notify_command (origin : ConnectionOrigin) (result : Z) : Z :=
  match origin with
  | SELF => if result =? 1 then NOTIFY_CONNECT_SUCCESS else NOTIFY_CONNECT_FAILED
  | _ => NOTIFY_CONNECTION_INCOMING
  end.

Definition a_complete (result : Z) (A : AHS) : AHS :=
  mkAHS (ah_origin A) result [] (ah_next A) (ah_attempts A) (ah_opcode A) (ah_auth A) (ah_crypto A) (ah_remote A)
    (ah_alive A && (result =? 1)) (ah_seen A ++ [Notified (notify_command (ah_origin A) result) (u8 result)]).

Definition a_set_opcode (o : Z) (A : AHS) : AHS :=
  mkAHS (ah_origin A) (ah_result A) (ah_last A) (ah_next A) (ah_attempts A) o (ah_auth A) (ah_crypto A) (ah_remote A)
    (ah_alive A) (ah_seen A).
Definition a_set_remote (id : Z) (A : AHS) : AHS :=
  mkAHS (ah_origin A) (ah_result A) (ah_last A) (ah_next A) (ah_attempts A) (ah_opcode A) (ah_auth A) (ah_crypto A) id
    (ah_alive A) (ah_seen A).
Definition a_set_auth (a : EncryptionAuthenticator) (c : crypto) (A : AHS) : AHS :=
  mkAHS (ah_origin A) (ah_result A) (ah_last A) (ah_next A) (ah_attempts A) (ah_opcode A) (Some a) c (ah_remote A)
    (ah_alive A) (ah_seen A).
Definition a_set_attempts (n : Z) (A : AHS) : AHS :=
  mkAHS (ah_origin A) (ah_result A) (ah_last A) (ah_next A) n (ah_opcode A) (ah_auth A) (ah_crypto A) (ah_remote A)
    (ah_alive A) (ah_seen A).

(** ** The operations simulate *)

Lemma hsim_then m k A A' A'' : hsim m A A' -> hsim k A' A'' -> hsim (m;; k) A A''.
Proof.
  intros Hm Hk s Hs. destruct (Hm s Hs) as (s1 & E1 & H1). destruct (Hk s1 H1) as (s2 & E2 & H2).
  exists s2. split; [|done]. now rewrite (bind_ret _ _ _ _ _ E1).
Qed.

Lemma hsim_this (k : Handshaker -> ST (HState crypto) unit) A A' : ah_alive A = true ->
  (forall s, hrel s A -> exists s', k (st_hs s) s = Ret (tt, s') /\ hrel s' A') -> hsim (this ≫= k) A A'.
Proof.
  intros Ha H s Hs. destruct (H s Hs) as (s' & E & H'). exists s'. split; [|done].
  rewrite (bind_ret _ _ _ (st_hs s) s); [done|]. unfold this, mbind, st_bind, get. now rewrite (hr_alive s A Hs), Ha.
Qed.

Lemma set_this_alive (s : HState crypto) h : st_alive s = true ->
  set_this h s = Ret (tt, mkHState h (st_crypto s) (st_remote_id s) true (st_effects s)).
Proof. intros H. unfold set_this, mbind, st_bind, get. now rewrite H. Qed.

Lemma observes_snoc es os e o : Forall2 observes es os -> observes e o -> Forall2 observes (es ++ [e]) (os ++ [o]).
Proof. intros. apply Forall2_app; [done|]. now repeat constructor. Qed.

Lemma hsim_reply now out a retry A : ah_alive A = true -> rel true out a ->
  hsim (Reply now out retry) A (a_reply now (a_bytes a) retry A).
Proof.
  intros Ha Hout. apply hsim_this; [done|]. intros s [].
  destruct hr_last0 as [Hw Hl Hb]. pose proof (zlength_nonneg (ah_last A)).
  destruct (assign_copy_rel _ out a Hw ltac:(lia) Hout) as (last & E & Hlast).
  rewrite (bind_lift _ _ _ _ E). cbv beta iota.
  rewrite (bind_ret _ _ _ _ _ (set_this_alive s _ ltac:(congruence))), bind_get.
  eexists. split; [reflexivity|]. split; cbn; try done; try congruence.
  - split; [exact (proj2 Hlast eq_refl)|exact (rf_len _ _ (proj1 Hlast))|]. eauto.
  - destruct retry; [done|reflexivity].
  - apply observes_snoc; [done|]. exists out, a. rewrite hr_crypto0. done.
Qed.

Lemma last_ok_reset st bs : last_ok st bs -> exists st', Reset st = Ret (tt, st') /\ last_ok st' [].
Proof.
  intros [[Hm _ _ _ _] _ _]. eexists. split; [reflexivity|]. split; [|done|done].
  split; cbn; try done; unfold max_len; lia.
Qed.

Lemma hsim_complete result A : ah_alive A = true -> hsim (Complete result) A (a_complete result A).
Proof.
  intros Ha. apply hsim_this; [done|]. intros s [].
  destruct (last_ok_reset _ _ hr_last0) as (last & E & Hlast). rewrite (bind_lift _ _ _ _ E). cbv beta iota.
  rewrite (bind_ret _ _ _ _ _ (set_this_alive s _ ltac:(congruence))).
  destruct (BinaryStream_new_rel 1) as (p0 & E0 & H0); [unfold max_len; lia|]. rewrite (bind_lift _ _ _ _ E0).
  destruct (sim_app_byte _ [] result (app_end [])) with (s := p0) as (p1 & E1 & H1); [unfold roomy, max_len; zlen|done|].
  rewrite (bind_lift _ _ _ _ E1). cbv beta iota zeta.
  set (cmd := match m_origin (st_hs s) with SELF => _ | _ => _ end).
  assert (Hcmd : cmd = notify_command (ah_origin A) result) by (unfold cmd; now rewrite hr_origin0).
  clearbody cmd. destruct (Packet_take_stream_holds cmd p1 _ H1) as (p & s' & Ep & Hp & _).
  rewrite (bind_lift _ _ _ _ Ep). cbv beta iota. unfold emit. rewrite bind_modify.
  cbn [st_hs st_crypto st_remote_id st_alive st_effects].
  assert (Hobs : Forall2 observes (st_effects s ++ [Completed p])
    (ah_seen A ++ [Notified (notify_command (ah_origin A) result) (u8 result)])).
  { apply observes_snoc; [done|]. exists p. rewrite <- Hcmd. done. }
  change (result_code CR_OK) with 1. destruct (result =? 1) eqn:Eok; eexists; (split; [reflexivity|]);
    split; cbn; rewrite ?Ha, ?Eok; try done; congruence.
Qed.

Lemma set_opcode_step o (s : HState crypto) A : ah_alive A = true -> hrel s A ->
  exists s', set_this (set_opcode o (st_hs s)) s = Ret (tt, s') /\ hrel s' (a_set_opcode o A).
Proof. intros Ha []. rewrite set_this_alive by congruence. eexists. split; [reflexivity|]. split; cbn; done || congruence. Qed.

Lemma set_attempts_step n (s : HState crypto) A : ah_alive A = true -> hrel s A ->
  exists s', set_this (set_resend (m_lastReply (st_hs s)) (m_resendNext (st_hs s)) n (st_hs s)) s = Ret (tt, s') /\
    hrel s' (a_set_attempts n A).
Proof. intros Ha []. rewrite set_this_alive by congruence. eexists. split; [reflexivity|]. split; cbn; done || congruence. Qed.

(** Storing the authenticator and the crypto layer after a call of m_auth. *)
Lemma set_auth_step a c (s : HState crypto) A : ah_alive A = true -> hrel s A ->
  exists s', (set_this (set_auth a (st_hs s));; set_crypto c) s = Ret (tt, s') /\ hrel s' (a_set_auth a c A).
Proof.
  intros Ha []. unfold mbind, st_bind. rewrite set_this_alive by congruence. eexists. split; [reflexivity|].
  split; cbn; done || congruence.
Qed.

Lemma hsim_set_remote id A : hsim (set_remote_id id) A (a_set_remote id A).
Proof. intros s []. eexists. split; [reflexivity|]. split; cbn; done. Qed.

(** ** The header of a message *)

Lemma zlength_hs_header id : zlength (hs_header id) = 16.
Proof. unfold hs_header. rewrite !zlength_app, be_bytes_length. reflexivity. Qed.

Lemma hs_header_bytes id : Forall is_byte (hs_header id).
Proof.
  unfold hs_header. apply Forall_app_bytes; [repeat constructor; unfold is_byte; lia|].
  apply Forall_app_bytes; [repeat constructor; unfold is_byte, WIREFOX_PROTOCOL_VERSION; lia|apply be_bytes_range].
Qed.

Lemma sim_WriteReplyHeader id bs : roomy 64 bs ->
  sim true (WriteReplyHeader id) (at_end bs) tt (at_end (bs ++ hs_header id)).
Proof.
  intros Hr. unfold WriteReplyHeader, hs_header. eapply sim_bind.
  { apply (sim_app_bytes _ bs WIREFOX_MAGIC (app_end bs)); [repeat constructor; unfold is_byte; lia|].
    unfold roomy in *. change (zlength WIREFOX_MAGIC) with 7. lia. }
  eapply sim_bind.
  { apply (sim_app_byte _ _ _ (app_end _)). unfold roomy in *. rewrite zlength_app. change (zlength WIREFOX_MAGIC) with 7. lia. }
  rewrite !app_assoc. apply (sim_app_int64 _ _ _ (app_end _)). unfold roomy in *. rewrite !zlength_app.
  change (zlength WIREFOX_MAGIC) with 7. change (zlength [u8 WIREFOX_PROTOCOL_VERSION]) with 1. lia.
Qed.

Lemma new_reply id : exists reply0 reply, BinaryStream_new HANDSHAKE_HEADER_LEN = Ret reply0 /\
  WriteReplyHeader id reply0 = Ret (tt, reply) /\ rel true reply (at_end (hs_header id)).
Proof.
  destruct (BinaryStream_new_rel HANDSHAKE_HEADER_LEN) as (r0 & E0 & H0); [unfold HANDSHAKE_HEADER_LEN, max_len; lia|].
  destruct (sim_WriteReplyHeader id [] ltac:(unfold roomy, max_len; zlen) r0 H0) as (r & E & H). eauto.
Qed.

Lemma GetStream_rel p cmd payload : holds p cmd payload -> payload <> [] -> Forall is_byte payload -> zlength payload <= max_len ->
  exists st, GetStream p = Ret st /\ rel false st (cursor [] payload).
Proof.
  intros [_ Hl Hd] Hne Hb Hm. destruct (Hd Hne) as [slack E]. unfold GetStream. rewrite E, Hl.
  exact (BinaryStream_wrap_rel payload slack READONLY Hb Hm).
Qed.

(** ** Handle, up to the stage *)

Definition a_fail_with (now : Z) (my : Z) (problem : ConnectResult) (A : AHS) : AHS :=
  a_complete (result_code problem) (a_reply now (hs_header my ++ [ERROR_OCCURRED; result_code problem]) false A).

Lemma sim_app_two bs x y : roomy 2 bs -> is_byte x -> is_byte y -> forall st, rel true st (at_end bs) ->
  exists st1 st2, WriteByte x st = Ret (tt, st1) /\ WriteByte y st1 = Ret (tt, st2) /\ rel true st2 (at_end (bs ++ [x; y])).
Proof.
  intros Hr Hx Hy st Hst. unfold roomy in *. destruct (sim_app_byte _ bs x (app_end bs)) with (s := st) as (s1 & E1 & H1); [unfold roomy; lia|done|].
  rewrite u8_small in H1 by done.
  destruct (sim_app_byte _ _ y (app_end (bs ++ [x]))) with (s := s1) as (s2 & E2 & H2); [unfold roomy; zlen|done|].
  rewrite u8_small, <- app_assoc in H2 by done. eauto.
Qed.

Lemma hsim_fail_with now my problem reply A : ah_alive A = true -> rel true reply (at_end (hs_header my)) ->
  hsim (ReplyWithError now reply problem;; Complete (result_code problem)) A (a_fail_with now my problem A).
Proof.
  intros Ha Hr. eapply hsim_then; [|apply hsim_complete; done].
  intros s Hs. unfold ReplyWithError.
  destruct (sim_app_two (hs_header my) ERROR_OCCURRED (result_code problem)) with (st := reply) as (r1 & r2 & E1 & E2 & H2);
    [unfold roomy, max_len; rewrite zlength_hs_header; lia|unfold is_byte, ERROR_OCCURRED; lia|unfold is_byte; destruct problem; cbn; lia|done|].
  rewrite (bind_lift _ _ _ _ E1). cbv beta iota. rewrite (bind_lift _ _ _ _ E2). cbv beta iota.
  exact (hsim_reply now r2 _ false A Ha H2 s Hs).
Qed.

(** A message that carries any seven bytes as magic, any version byte, an ID, an
    opcode and a body, received by a handshaker that is not done. *)
Definition hs_message (magic : list Z) (version id opcode : Z) (body : list Z) : list Z :=
  magic ++ version :: be_bytes 8 id ++ opcode :: body.

Lemma hsim_Handle cfg now entropy p cmd magic version id opcode body A A' :
  or_left_first = true -> ah_alive A = true -> ah_result A = 0 ->
  holds p cmd (hs_message magic version id opcode body) -> zlength magic = 7 ->
  Forall is_byte (hs_message magic version id opcode body) -> zlength body <= 65536 -> 0 <= id < 2 ^ 64 ->
  (if decide (magic <> WIREFOX_MAGIC) then A' = a_complete (result_code INCOMPATIBLE_PROTOCOL) A
   else if decide (version <> WIREFOX_PROTOCOL_VERSION) then A' = a_fail_with now (my_id cfg) INCOMPATIBLE_VERSION A
   else if taken cfg id then A' = a_fail_with now (my_id cfg) ALREADY_CONNECTED A
   else if opcode =? ERROR_OCCURRED then A' = a_complete (hd 0 body) (a_set_remote id A)
   else forall pre instream reply, zlength pre = 17 -> rel false instream (cursor pre body) -> rel true reply (at_end (hs_header (my_id cfg))) ->
          hsim (Handle_stage cfg now entropy opcode instream reply) (a_set_remote id A) A') ->
  hsim (Handshake_Handle cfg now entropy p) A A'.
Proof.
  intros Hor Ha Hres Hp Hm Hb Hlen Hid H. apply hsim_this; [done|]. intros s Hs.
  unfold IsDone. rewrite (hr_result s A Hs), Hres. change (negb (0 =? result_code IN_PROGRESS)) with false. cbv iota.
  assert (Hlen' : zlength (hs_message magic version id opcode body) = 17 + zlength body)
    by (unfold hs_message; rewrite !zlength_app, !zlength_cons, zlength_app, be_bytes_length, zlength_cons; lia).
  pose proof (zlength_nonneg body) as Hb0.
  destruct (GetStream_rel p cmd _ Hp) as (in0 & E0 & H0); [intros E; rewrite E in Hlen'; change (zlength (@nil Z)) with 0 in Hlen'; lia|done|unfold max_len; lia|].
  rewrite (bind_lift _ _ _ _ E0). destruct (new_reply (my_id cfg)) as (r0 & r & Er0 & Er & Hr).
  rewrite (bind_lift _ _ _ _ Er0), (bind_lift _ _ _ _ Er). cbv beta iota.
  rewrite (IsEOF_false false in0 _ HANDSHAKE_HEADER_LEN H0) by (cbn [cursor a_pos a_bytes app]; change (zlength (@nil Z)) with 0; rewrite ?Hlen'; unfold HANDSHAKE_HEADER_LEN; lia).
  rewrite bind_mret. unfold hs_message in H0.
  destruct (sim_rd_bytes false _ [] magic _ 7 (rd_cursor [] _) (eq_sym Hm) in0 H0) as (in1 & E1 & H1).
  rewrite (bind_lift _ _ _ _ E1). cbv beta iota. rewrite (bind_lift _ _ _ magic) by apply bytes_of_map.
  destruct (decide (magic <> WIREFOX_MAGIC)) as [Hne|Heq%dec_stable].
  { rewrite bool_decide_eq_false_2 by done. cbn [negb]. subst A'. exact (hsim_complete (result_code INCOMPATIBLE_PROTOCOL) A Ha s Hs). }
  rewrite bool_decide_eq_true_2 by done. cbn [negb app] in *.
  destruct (sim_rd_byte false _ magic version _ (rd_cursor _ _) in1 H1) as (in2 & E2 & H2).
  rewrite (bind_lift _ _ _ _ E2). cbv beta iota.
  destruct (decide (version <> WIREFOX_PROTOCOL_VERSION)) as [Hv|Hv%dec_stable].
  { rewrite (proj2 (Z.eqb_neq _ _) Hv). cbn [negb]. subst A'. exact (hsim_fail_with now (my_id cfg) INCOMPATIBLE_VERSION r A Ha Hr s Hs). }
  rewrite (proj2 (Z.eqb_eq _ _) Hv). cbn [negb].
  destruct (sim_rd_uint64 false _ _ id _ Hor (rd_cursor _ _) in2 H2) as (in3 & E3 & H3).
  rewrite (bind_lift _ _ _ _ E3). cbv beta iota. rewrite u64_small by (change (2 ^ 64) with 18446744073709551616 in Hid; lia).
  destruct (sim_rd_byte false _ _ opcode _ (rd_cursor _ _) in3 H3) as (in4 & E4 & H4).
  rewrite (bind_lift _ _ _ _ E4). cbv beta iota.
  destruct (taken cfg id). { subst A'. exact (hsim_fail_with now (my_id cfg) ALREADY_CONNECTED r A Ha Hr s Hs). }
  destruct (hsim_set_remote id A s Hs) as (s1 & Es1 & Hs1). rewrite (bind_ret _ _ _ _ _ Es1).
  destruct (opcode =? ERROR_OCCURRED).
  - assert (Hrd : exists in5, ReadByte in4 = Ret (hd 0 body, in5)).
    { destruct body as [|b body].
      - exists in4. unfold ReadByte. rewrite bind_get, (refused_IsEOF false in4 _ 1 H4); [done|].
        unfold refused, cursor. cbn [a_bytes a_pos]. rewrite app_nil_r. rewrite !zlength_app. pose_zlengths.
        change (zlength [opcode]) with 1. rewrite !andb_true_iff, !Z.leb_le, Z.ltb_lt. lia.
      - destruct (sim_rd_byte false _ _ b body (rd_cursor _ _) in4 H4) as (in5 & E5 & _). eauto. }
    destruct Hrd as (in5 & E5). rewrite (bind_lift _ _ _ _ E5). cbv beta iota. subst A'. exact (hsim_complete _ (a_set_remote id A) Ha s1 Hs1).
  - refine (H _ in4 r _ H4 Hr s1 Hs1). rewrite !zlength_app, be_bytes_length, Hm. reflexivity.
Qed.

(** ** The stages without key exchange *)

(** The flag that ReadBool finds at the beginning of the body. *)
Definition body_flag (body : list Z) : bool :=
  match body with [] => false | b :: _ => negb (Z.land b (Z.shiftr 128 0) =? 0) end.

Definition a_stage (cfg : settings) (now opcode : Z) (body : list Z) (A : AHS) : option AHS :=
  if (ah_opcode A =? NOT_STARTED) && (opcode =? INITIAL_CLIENT) then
    Some (if Bool.eqb (body_flag body) (encryption_enabled cfg)
          then a_reply now (hs_header (my_id cfg) ++ INITIAL_SERVER :: hs_flag (encryption_enabled cfg)) false
                 (a_set_opcode (if encryption_enabled cfg then AUTH_MSG else UNENCRYPTED_ACK) A)
          else a_fail_with now (my_id cfg) INCOMPATIBLE_SECURITY A)
  else if (ah_opcode A =? UNENCRYPTED_ACK) && (opcode =? ah_opcode A) then Some (a_complete (result_code CR_OK) A)
  else if (ah_opcode A =? INITIAL_SERVER) && (opcode =? ah_opcode A) then
    if encryption_enabled cfg then None
    else Some (a_reply now (hs_header (my_id cfg) ++ [UNENCRYPTED_ACK]) false (a_complete (result_code CR_OK) A))
  else if (ah_opcode A =? AUTH_MSG) && (opcode =? ah_opcode A) then None
  else Some A.

Lemma ReadBool_body pre body st : rel false st (cursor pre body) -> zlength pre = 17 ->
  exists st', ReadBool st = Ret (body_flag body, st').
Proof.
  intros Hst Hpre. destruct body as [|b body].
  - exists st. unfold ReadBool. rewrite bind_get, (refused_IsEOF false st _ 1 Hst); [done|].
    unfold refused, cursor. cbn [a_bytes a_pos]. rewrite app_nil_r, Hpre. reflexivity.
  - destruct (sim_rd_bool false _ pre b body 0 ltac:(lia) eq_refl st Hst) as (st' & E & _). eauto.
Qed.

(** A byte and a flag appended to the reply header. *)
Lemma reply_with_flag my op b st : is_byte op -> rel true st (at_end (hs_header my)) ->
  exists st1 st2, WriteByte op st = Ret (tt, st1) /\ WriteBool b st1 = Ret (tt, st2) /\
    rel true st2 (at_bits (hs_header my ++ [op]) [b]).
Proof.
  intros Hop Hst. destruct (sim_app_byte _ _ op (app_end (hs_header my))) with (s := st) as (s1 & E1 & H1);
    [unfold roomy, max_len; rewrite zlength_hs_header; lia|exact Hst|]. rewrite u8_small in H1 by done.
  destruct (sim_app_bool_first (hs_header my ++ [op]) b) with (s := s1) as (s2 & E2 & H2);
    [unfold roomy, max_len; rewrite zlength_app, zlength_hs_header; change (zlength [op]) with 1; lia|done|]. eauto.
Qed.

Lemma hsim_stage cfg now entropy opcode body A A' : a_stage cfg now opcode body A = Some A' -> ah_alive A = true ->
  forall pre instream reply, zlength pre = 17 -> rel false instream (cursor pre body) ->
    rel true reply (at_end (hs_header (my_id cfg))) -> hsim (Handle_stage cfg now entropy opcode instream reply) A A'.
Proof.
  intros H Ha pre instream reply Hpre Hin Hr. apply hsim_this; [done|]. intros s Hs. unfold a_stage in H.
  rewrite (hr_opcode s A Hs). destruct ((ah_opcode A =? NOT_STARTED) && (opcode =? INITIAL_CLIENT)).
  { injection H as <-. destruct (ReadBool_body pre body instream Hin Hpre) as (in1 & E1). rewrite (bind_lift _ _ _ _ E1).
    cbv beta iota. destruct (Bool.eqb (body_flag body) (encryption_enabled cfg)); cbn [negb].
    - destruct (set_opcode_step (if encryption_enabled cfg then AUTH_MSG else UNENCRYPTED_ACK) s A Ha Hs) as (s1 & Es1 & Hs1).
      rewrite (bind_ret _ _ _ _ _ Es1). destruct (reply_with_flag (my_id cfg) INITIAL_SERVER (encryption_enabled cfg) reply)
        as (r1 & r2 & Er1 & Er2 & Hr2); [unfold is_byte, INITIAL_SERVER; lia|done|].
      rewrite (bind_lift _ _ _ _ Er1). cbv beta iota. rewrite (bind_lift _ _ _ _ Er2). cbv beta iota.
      destruct (hsim_reply now r2 _ false (a_set_opcode (if encryption_enabled cfg then AUTH_MSG else UNENCRYPTED_ACK) A) Ha Hr2 s1 Hs1)
        as (s2 & Es2 & Hs2). exists s2. split; [exact Es2|].
      cbn [at_bits a_bytes] in Hs2. rewrite <- app_assoc in Hs2. exact Hs2.
    - exact (hsim_fail_with now (my_id cfg) INCOMPATIBLE_SECURITY reply A Ha Hr s Hs). }
  destruct ((ah_opcode A =? UNENCRYPTED_ACK) && (opcode =? ah_opcode A)).
  { injection H as <-. exact (hsim_complete (result_code CR_OK) A Ha s Hs). }
  destruct ((ah_opcode A =? INITIAL_SERVER) && (opcode =? ah_opcode A)).
  { destruct (encryption_enabled cfg); [done|]. injection H as <-.
    destruct (sim_app_byte _ _ UNENCRYPTED_ACK (app_end (hs_header (my_id cfg)))) with (s := reply) as (r1 & Er1 & Hr1);
      [unfold roomy, max_len; rewrite zlength_hs_header; lia|done|].
    rewrite (bind_lift _ _ _ _ Er1). cbv beta iota.
    destruct (hsim_complete (result_code CR_OK) A Ha s Hs) as (s1 & Es1 & Hs1). rewrite (bind_ret _ _ _ _ _ Es1).
    refine (hsim_reply now r1 _ false (a_complete (result_code CR_OK) A) _ Hr1 s1 Hs1). cbn. now rewrite Ha. }
  destruct ((ah_opcode A =? AUTH_MSG) && (opcode =? ah_opcode A)); [done|]. injection H as <-. eauto.
Qed.

(** ** Begin, Handle and Update as functions of the machine *)

Definition a_begin (cfg : settings) (now : Z) (A : AHS) : AHS :=
  a_reply now (hs_header (my_id cfg) ++ INITIAL_CLIENT :: hs_flag (encryption_enabled cfg)) false (a_set_opcode INITIAL_SERVER A).

Definition a_receive (cfg : settings) (now : Z) (magic : list Z) (version id opcode : Z) (body : list Z) (A : AHS) : option AHS :=
  if negb (ah_result A =? 0) then Some A
  else if decide (magic <> WIREFOX_MAGIC) then Some (a_complete (result_code INCOMPATIBLE_PROTOCOL) A)
  else if decide (version <> WIREFOX_PROTOCOL_VERSION) then Some (a_fail_with now (my_id cfg) INCOMPATIBLE_VERSION A)
  else if taken cfg id then Some (a_fail_with now (my_id cfg) ALREADY_CONNECTED A)
  else if opcode =? ERROR_OCCURRED then Some (a_complete (hd 0 body) (a_set_remote id A))
  else a_stage cfg now opcode body (a_set_remote id A).

Definition a_update (now : Z) (A : AHS) : AHS :=
  if negb (ah_result A =? 0) || negb (Elapsed now (ah_next A)) then A else
  let A' := a_set_attempts (u32 (ah_attempts A + 1)) A in
  if CONNECT_RETRY_COUNT <? ah_attempts A' then a_complete (result_code CONNECT_FAILED) A'
  else match ah_last A with [] => A' | bs => a_reply now bs true A' end.

Lemma hsim_begin cfg now A : ah_alive A = true -> hsim (Handshake_Begin cfg now) A (a_begin cfg now A).
Proof.
  intros Ha s Hs. unfold Handshake_Begin. destruct (new_reply (my_id cfg)) as (r0 & r & Er0 & Er & Hr).
  rewrite (bind_lift _ _ _ _ Er0), (bind_lift _ _ _ _ Er). cbv beta iota.
  destruct (reply_with_flag (my_id cfg) INITIAL_CLIENT (encryption_enabled cfg) r) as (r1 & r2 & Er1 & Er2 & Hr2);
    [unfold is_byte, INITIAL_CLIENT; lia|done|].
  rewrite (bind_lift _ _ _ _ Er1). cbv beta iota. rewrite (bind_lift _ _ _ _ Er2). cbv beta iota. revert s Hs.
  apply hsim_this; [done|]. intros s Hs. destruct (set_opcode_step INITIAL_SERVER s A Ha Hs) as (s1 & Es1 & Hs1).
  rewrite (bind_ret _ _ _ _ _ Es1).
  destruct (hsim_reply now r2 _ false (a_set_opcode INITIAL_SERVER A) Ha Hr2 s1 Hs1) as (s2 & Es2 & Hs2). exists s2. split; [exact Es2|].
  cbn [at_bits a_bytes] in Hs2. rewrite <- app_assoc in Hs2. exact Hs2.
Qed.

Lemma hsim_receive cfg now entropy p cmd magic version id opcode body A A' :
  a_receive cfg now magic version id opcode body A = Some A' ->
  or_left_first = true -> ah_alive A = true -> holds p cmd (hs_message magic version id opcode body) -> zlength magic = 7 ->
  Forall is_byte (hs_message magic version id opcode body) -> zlength body <= 65536 -> 0 <= id < 2 ^ 64 ->
  hsim (Handshake_Handle cfg now entropy p) A A'.
Proof.
  intros H Hor Ha Hp Hm Hb Hlen Hid. unfold a_receive in H. destruct (Z.eqb_spec (ah_result A) 0) as [Hres|Hres]; cbn [negb] in H.
  - apply (hsim_Handle cfg now entropy p cmd magic version id opcode body); try done.
    destruct (decide (magic <> WIREFOX_MAGIC)); [congruence|].
    destruct (decide (version <> WIREFOX_PROTOCOL_VERSION)); [congruence|]. destruct (taken cfg id); [congruence|].
    destruct (opcode =? ERROR_OCCURRED); [congruence|]. intros pre instream reply Hpre Hin Hr.
    exact (hsim_stage cfg now entropy opcode body _ A' H Ha pre instream reply Hpre Hin Hr).
  - injection H as <-. apply hsim_this; [done|]. intros s Hs. unfold IsDone.
    rewrite (hr_result s A Hs). change (result_code IN_PROGRESS) with 0. rewrite (proj2 (Z.eqb_neq _ _) Hres). eauto.
Qed.

Lemma last_ok_empty st bs : last_ok st bs -> IsEmpty st = match bs with [] => true | _ => false end.
Proof.
  intros [[_ Hal Hcap Hlen _] Hl _]. unfold IsEmpty. rewrite Hal. destruct bs as [|b bs].
  - rewrite Hl. now destruct (alias_of (m_buffer st)).
  - autorewrite with zlen in Hl. pose proof (zlength_nonneg bs). destruct (m_buffer st); cbn in *; [apply Z.eqb_neq; lia|].
    change (zlength (@nil cell)) with 0 in Hcap. lia.
Qed.

Lemma hsim_update now A : ah_alive A = true -> hsim (Handshaker_Update now) A (a_update now A).
Proof.
  intros Ha. apply hsim_this; [done|]. intros s Hs. unfold a_update, IsDone.
  rewrite (hr_result s A Hs), (hr_next s A Hs). change (result_code IN_PROGRESS) with 0.
  destruct (negb (ah_result A =? 0) || negb (Elapsed now (ah_next A))); [eauto|]. cbv zeta.
  rewrite <- (hr_next s A Hs), (hr_attempts s A Hs).
  destruct (set_attempts_step (u32 (ah_attempts A + 1)) s A Ha Hs) as (s1 & Es1 & Hs1). rewrite (bind_ret _ _ _ _ _ Es1).
  set (A1 := a_set_attempts (u32 (ah_attempts A + 1)) A) in *. change (ah_attempts A1) with (u32 (ah_attempts A + 1)).
  destruct (CONNECT_RETRY_COUNT <? u32 (ah_attempts A + 1)); [exact (hsim_complete (result_code CONNECT_FAILED) A1 Ha s1 Hs1)|].
  rewrite (last_ok_empty _ _ (hr_last s A Hs)). destruct (ah_last A) as [|b bs] eqn:El; [eauto|].
  destruct (lo_bytes _ _ (hr_last s A Hs)) as (a & Hra & Ea); [now rewrite El|].
  destruct (BinaryStream_copy_rel true _ a Hra) as (copy & Ec & Hc). rewrite (bind_lift _ _ _ _ Ec).
  destruct (hsim_reply now copy _ true A1 Ha Hc s1 Hs1) as (s2 & Es2 & Hs2). exists s2. split; [exact Es2|].
  cbn [cursor a_bytes app] in Hs2. rewrite Ea, El in Hs2. exact Hs2.
Qed.

(** ** The authentication stage *)

Definition a_auth (now : Z) (bs : list Z) (res : ConnectResult) (a : EncryptionAuthenticator) (c : crypto) (A : AHS) : AHS :=
  let A1 := a_reply now bs false (a_set_auth a c A) in
  let '(a2, c2) := PostHandle a c in
  let A2 := a_set_auth a2 c2 A1 in
  if bool_decide (res = IN_PROGRESS) then A2 else a_complete (result_code res) A2.

Lemma rel_last_ok st a : rel true st a -> last_ok st (a_bytes a).
Proof. intros H. split; [exact (proj2 H eq_refl)|exact (rf_len _ _ (proj1 H))|eauto]. Qed.

Lemma hsim_auth cfg now entropy A a0 instream reply bs res a c : ah_alive A = true -> ah_opcode A = AUTH_MSG ->
  ah_auth A = Some a0 -> rel true reply (at_end (hs_header (my_id cfg))) -> bs <> [] ->
  (exists ar, a_bytes ar = bs /\
     sim true (Auth_Handle entropy a0 (ah_crypto A) instream) (at_end (hs_header (my_id cfg) ++ [AUTH_MSG])) (res, a, c) ar) ->
  hsim (Handle_stage cfg now entropy AUTH_MSG instream reply) A (a_auth now bs res a c A).
Proof.
  intros Ha Ho Hau Hr Hne (ar & Ear & Hsim). apply hsim_this; [done|]. intros s Hs. rewrite (hr_opcode s A Hs), Ho.
  cbn [NOT_STARTED AUTH_MSG UNENCRYPTED_ACK INITIAL_SERVER INITIAL_CLIENT Z.eqb Pos.eqb andb].
  destruct (sim_app_byte _ _ AUTH_MSG (app_end (hs_header (my_id cfg)))) with (s := reply) as (r1 & Er1 & Hr1);
    [unfold roomy, max_len; rewrite zlength_hs_header; lia|done|].
  rewrite (bind_lift _ _ _ _ Er1). cbv beta iota. rewrite bind_get, (hr_auth s A Hs), Hau, (hr_crypto s A Hs).
  rewrite (bind_lift _ _ _ _ eq_refl). destruct (Hsim r1 Hr1) as (r2 & Er2 & Hr2). rewrite (bind_lift _ _ _ _ Er2). cbv beta iota.
  destruct (set_auth_step a c s A Ha Hs) as (s1 & Es1 & Hs1). revert Es1. unfold mbind at 1, st_bind at 1. unfold mbind at 1, st_bind at 1.
  destruct (set_this (set_auth a (st_hs s)) s) as [[[] s0]|]; [|done]. intros Es1. rewrite (bind_ret _ _ _ _ _ Es1).
  rewrite (last_ok_empty _ _ (rel_last_ok _ _ Hr2)), Ear. destruct bs as [|b0 bs]; [done|]. cbv iota.
  destruct (hsim_reply now r2 ar false (a_set_auth a c A) Ha Hr2 s1 Hs1) as (s2 & Es2 & Hs2). rewrite Ear in Hs2.
  rewrite (bind_ret _ _ _ _ _ Es2). set (A1 := a_reply now (b0 :: bs) false (a_set_auth a c A)) in *.
  unfold a_auth. fold A1. revert s2 Es2 Hs2. intros s2 _. revert s2. apply hsim_this; [done|]. intros s2 Hs2. rewrite bind_get, (hr_crypto s2 A1 Hs2).
  change (ah_crypto A1) with c. destruct (PostHandle a c) as [a2 c2].
  destruct (set_auth_step a2 c2 s2 A1 Ha Hs2) as (s3 & Es3 & Hs3). revert Es3. unfold mbind at 1, st_bind at 1. unfold mbind at 1, st_bind at 1.
  destruct (set_this (set_auth a2 (st_hs s2)) s2) as [[[] s4]|]; [|done]. intros Es3. rewrite (bind_ret _ _ _ _ _ Es3).
  destruct (bool_decide (res = IN_PROGRESS)); [eauto|]. exact (hsim_complete (result_code res) (a_set_auth a2 c2 A1) Ha s3 Hs3).
Qed.

(** The key of the other side, read into a buffer and handed to the layer. *)
Lemma sim_Auth_kx entropy a c c' pre key r instream out ar res : rel false instream (cursor pre (STATE_KEY_EXCHANGE :: key ++ r)) ->
  au_state a = STATE_KEY_EXCHANGE -> zlength key = (GetKeyLength crypto) -> 0 <= (GetKeyLength crypto) <= 1024 -> Forall is_byte key ->
  (forall w st, rel w st (cursor [] key) -> exists st', HandleKeyExchange (au_origin a) c st = Ret (true, c', st')) ->
  (forall in', rel false in' (cursor (pre ++ STATE_KEY_EXCHANGE :: key) r) -> sim true (Auth_continue entropy a c' in') out res ar) ->
  sim true (Auth_Handle entropy a c instream) out res ar.
Proof.
  intros Hin Hst Hk Hkl Hkb Hx Hc o Ho. unfold Auth_Handle.
  destruct (sim_rd_byte false _ pre STATE_KEY_EXCHANGE _ (rd_cursor _ _) instream Hin) as (in1 & E1 & H1).
  rewrite (bind_lift _ _ _ _ E1). cbv beta iota. rewrite Hst, Z.eqb_refl. cbn [negb]. unfold Auth_HandleKeyExchange.
  destruct (PreallocateBuffer_rel (GetKeyLength crypto)) as (k0 & Ek & Hk0); [unfold max_len; lia|]. unfold PreallocateBuffer in Ek.
  destruct (BinaryStream_new (GetKeyLength crypto)) as [b0|] eqn:Eb0; [|done]. cbn [mbind outcome_bind] in Ek.
  destruct (WriteZeroes (GetKeyLength crypto) b0) as [[[] b1]|] eqn:Eb1; [|done]. cbn [mbind outcome_bind] in Ek.
  destruct (SeekToBegin b1) as [[[] b2]|] eqn:Eb2; [|done]. cbn [mbind outcome_bind] in Ek. injection Ek as ->. cbv zeta.
  rewrite (bind_lift _ _ _ _ eq_refl), (bind_lift _ _ _ _ Eb1). cbv beta iota. rewrite (bind_lift _ _ _ _ Eb2). cbv beta iota.
  destruct (sim_rd_bytes false _ (pre ++ [STATE_KEY_EXCHANGE]) key r (GetKeyLength crypto) (rd_cursor _ _) (eq_sym Hk) in1 H1) as (in2 & E2 & H2).
  rewrite (bind_lift _ _ _ _ E2). cbv beta iota.
  replace (cursor [] (zeroes (GetKeyLength crypto))) with (mkA ([] ++ zeroes (GetKeyLength crypto) ++ []) 0 0) in Hk0 by (unfold cursor; now rewrite app_nil_r).
  destruct (store_inside k0 [] _ key [] _ Hk0) as (k1 & E3 & Hk1); [|done|].
  { unfold zeroes, zlength at 1. rewrite length_replicate. lia. }
  change (zlength (@nil Z)) with 0 in E3. rewrite (bind_lift _ _ _ _ E3). cbv beta iota.
  rewrite app_nil_r in Hk1. destruct (Hx true k1 Hk1) as (k2 & E4). rewrite (bind_lift _ _ _ _ E4). cbv beta iota. cbn [negb].
  rewrite <- app_assoc in H2. exact (Hc in2 H2 o Ho).
Qed.

Context {laws : EncryptionLaws crypto}.

Lemma roomy_reply my n bs : zlength bs = n -> n <= 8192 -> roomy 8192 (hs_header my ++ bs).
Proof. intros H Hn. unfold roomy, max_len. rewrite zlength_app, zlength_hs_header. lia. Qed.

Lemma roomy_le n k bs : roomy k bs -> n <= k -> roomy n bs.
Proof. unfold roomy. lia. Qed.

(** The server's answer to the key of the client. *)
Lemma sim_Auth_server_kx entropy c' ks instream wants bs pre enable : roomy 8192 bs -> has_key c' ks ->
  rel false instream (cursor pre (hs_flag wants)) ->
  sim true (Auth_continue entropy (mkAuth REMOTE STATE_KEY_EXCHANGE enable) c' instream) (at_end bs)
    (IN_PROGRESS, mkAuth REMOTE (if wants : bool then STATE_AUTHENTICATION else STATE_DONE) true, c')
    (at_end (bs ++ STATE_KEY_EXCHANGE :: ks)).
Proof.
  intros Hr (Hl & Hb & key & Ekey & Hkey) Hin. pose proof law_key_length as Hkl. cbn [Auth_continue au_origin].
  eapply sim_bind; [apply (sim_app_byte _ bs _ (app_end bs)); eapply roomy_le; [exact Hr|lia]|].
  intros o Ho. rewrite (bind_lift _ _ _ _ Ekey).
  destruct (sim_app_stream true key _ _ _ Hkey (app_end (bs ++ [u8 STATE_KEY_EXCHANGE]))) with (s := o) as (o1 & E1 & H1); [|exact Ho|].
  { cbn [cursor a_bytes app]. unfold roomy in *. rewrite zlength_app, Hl. change (zlength [u8 STATE_KEY_EXCHANGE]) with 1. lia. }
  rewrite (bind_ret _ _ _ _ _ E1).
  destruct (sim_rd_bool false _ pre (pack [wants]) [] 0 ltac:(lia) eq_refl instream Hin) as (in1 & E2 & _).
  rewrite (bind_lift _ _ _ _ E2). cbv beta iota. exists o1. split; [now destruct wants|].
  cbn [cursor a_bytes app] in H1. rewrite <- app_assoc in H1. exact H1.
Qed.

(** The client's answer to the key of the server. *)
Lemma sim_Auth_client_done entropy c' instream bs enable : roomy 8192 bs -> GetNeedsChallenge c' = false ->
  sim true (Auth_continue entropy (mkAuth SELF STATE_KEY_EXCHANGE enable) c' instream) (at_end bs)
    (CR_OK, mkAuth SELF STATE_DONE enable, SetCryptoEstablished c') (at_end (bs ++ [STATE_DONE])).
Proof.
  intros Hr Hn. cbn [Auth_continue au_origin]. rewrite law_needs, Hn.
  eapply sim_bind; [apply (sim_app_byte _ bs _ (app_end bs)); eapply roomy_le; [exact Hr|lia]|apply sim_ret].
Qed.

Lemma sim_Auth_client_challenge entropy c' c2 question instream bs enable : roomy 8192 bs -> GetNeedsChallenge c' = true ->
  (forall bs, roomy (zlength question) bs ->
     sim true (CreateChallenge entropy (SetCryptoEstablished c')) (at_end bs) c2 (at_end (bs ++ question))) ->
  zlength question <= 4096 ->
  sim true (Auth_continue entropy (mkAuth SELF STATE_KEY_EXCHANGE enable) c' instream) (at_end bs)
    (IN_PROGRESS, mkAuth SELF STATE_AUTHENTICATION enable, c2) (at_end (bs ++ STATE_AUTHENTICATION :: question)).
Proof.
  intros Hr Hn Hc Hq. cbn [Auth_continue au_origin]. rewrite law_needs, Hn.
  eapply sim_bind; [apply (sim_app_byte _ bs _ (app_end bs)); eapply roomy_le; [exact Hr|lia]|].
  change (u8 STATE_AUTHENTICATION) with STATE_AUTHENTICATION.
  replace (bs ++ STATE_AUTHENTICATION :: question) with ((bs ++ [STATE_AUTHENTICATION]) ++ question) by now rewrite <- app_assoc.
  eapply sim_bind; [apply Hc|apply sim_ret]. unfold roomy in *. rewrite zlength_app.
  change (zlength [STATE_AUTHENTICATION]) with 1. lia.
Qed.

(** Messages of the authentication state and the final acknowledgement. *)
Lemma sim_Auth_server_auth entropy c question answer instream bs pre enable : roomy 8192 bs ->
  rel false instream (cursor pre (STATE_AUTHENTICATION :: question)) -> zlength answer <= 4096 ->
  (forall w st p r bs, rel w st (cursor p (question ++ r)) -> roomy (zlength answer) bs ->
     exists st', sim true (HandleChallengeIncoming c st) (at_end bs) (true, st') (at_end (bs ++ answer))) ->
  sim true (Auth_Handle entropy (mkAuth REMOTE STATE_AUTHENTICATION enable) c instream) (at_end bs)
    (IN_PROGRESS, mkAuth REMOTE STATE_DONE enable, c) (at_end (bs ++ STATE_AUTHENTICATION :: answer)).
Proof.
  intros Hr Hin Ha Hc o Ho. unfold Auth_Handle.
  destruct (sim_rd_byte false _ pre STATE_AUTHENTICATION _ (rd_cursor _ _) instream Hin) as (in1 & E1 & H1).
  rewrite (bind_lift _ _ _ _ E1). cbv beta iota.
  cbn [au_state STATE_AUTHENTICATION STATE_KEY_EXCHANGE Z.eqb Pos.eqb negb HandleAuth au_origin]. revert o Ho.
  eapply sim_bind; [apply (sim_app_byte _ bs _ (app_end bs)); eapply roomy_le; [exact Hr|lia]|].
  replace (cursor (pre ++ [STATE_AUTHENTICATION]) question) with (cursor (pre ++ [STATE_AUTHENTICATION]) (question ++ [])) in H1 by now rewrite app_nil_r.
  destruct (Hc false in1 _ [] (bs ++ [u8 1]) H1) as (in2 & Hsim).
  { unfold roomy in *. rewrite zlength_app. change (zlength [u8 1]) with 1. lia. }
  eapply sim_bind; [exact Hsim|]. cbv beta iota. cbn [negb set_state au_origin m_enableCryptoAfterReply].
  rewrite <- app_assoc. apply sim_ret.
Qed.

Lemma sim_Auth_client_auth entropy c answer instream bs pre enable : roomy 8192 bs ->
  rel false instream (cursor pre (STATE_AUTHENTICATION :: answer)) ->
  (forall w p r, sim w (HandleChallengeResponse c) (cursor p (answer ++ r)) true (cursor (p ++ answer) r)) ->
  sim true (Auth_Handle entropy (mkAuth SELF STATE_AUTHENTICATION enable) c instream) (at_end bs)
    (CR_OK, mkAuth SELF STATE_DONE enable, c) (at_end (bs ++ [STATE_DONE])).
Proof.
  intros Hr Hin Hc o Ho. unfold Auth_Handle.
  destruct (sim_rd_byte false _ pre STATE_AUTHENTICATION _ (rd_cursor _ _) instream Hin) as (in1 & E1 & H1).
  rewrite (bind_lift _ _ _ _ E1). cbv beta iota.
  cbn [au_state STATE_AUTHENTICATION STATE_KEY_EXCHANGE Z.eqb Pos.eqb negb HandleAuth au_origin].
  replace (cursor (pre ++ [STATE_AUTHENTICATION]) answer) with (cursor (pre ++ [STATE_AUTHENTICATION]) (answer ++ [])) in H1 by now rewrite app_nil_r.
  destruct (Hc false _ [] in1 H1) as (in2 & E2 & _). rewrite (bind_lift _ _ _ _ E2). cbv beta iota. cbn [negb]. revert o Ho.
  eapply sim_bind; [apply (sim_app_byte _ bs _ (app_end bs)); eapply roomy_le; [exact Hr|lia]|apply sim_ret].
Qed.

Lemma sim_Auth_server_done entropy c instream bs pre enable : rel false instream (cursor pre [STATE_DONE]) ->
  sim true (Auth_Handle entropy (mkAuth REMOTE STATE_DONE enable) c instream) (at_end bs)
    (CR_OK, mkAuth REMOTE STATE_DONE enable, c) (at_end bs).
Proof.
  intros Hin o Ho. unfold Auth_Handle.
  destruct (sim_rd_byte false _ pre STATE_DONE _ (rd_cursor _ _) instream Hin) as (in1 & E1 & _).
  rewrite (bind_lift _ _ _ _ E1). exists o. done.
Qed.

(** The client starts the key exchange. *)
Lemma hsim_begin_auth cfg now entropy A a kc instream reply : ah_alive A = true -> ah_opcode A = INITIAL_SERVER ->
  encryption_enabled cfg = true -> ah_auth A = Some a -> has_key (ah_crypto A) kc ->
  rel true reply (at_end (hs_header (my_id cfg))) ->
  hsim (Handle_stage cfg now entropy INITIAL_SERVER instream reply) A
    (a_reply now (hs_header (my_id cfg) ++ AUTH_MSG :: STATE_KEY_EXCHANGE :: kc ++ hs_flag (GetNeedsChallenge (ah_crypto A))) false
       (a_set_auth (set_state STATE_KEY_EXCHANGE a) (ah_crypto A) (a_set_opcode AUTH_MSG A))).
Proof.
  intros Ha Ho He Hau (Hl & Hb & key & Ekey & Hkey) Hr. pose proof law_key_length as Hkl.
  apply hsim_this; [done|]. intros s Hs. rewrite (hr_opcode s A Hs), Ho, He.
  cbn [NOT_STARTED AUTH_MSG UNENCRYPTED_ACK INITIAL_SERVER INITIAL_CLIENT Z.eqb Pos.eqb andb].
  set (hd := hs_header (my_id cfg)) in *. assert (Hhd : zlength hd = 16) by apply zlength_hs_header.
  destruct (sim_app_two hd AUTH_MSG STATE_KEY_EXCHANGE) with (st := reply) as (r1 & r2 & E1 & E2 & H2);
    [unfold roomy, max_len; lia|unfold is_byte, AUTH_MSG; lia|unfold is_byte, STATE_KEY_EXCHANGE; lia|done|].
  rewrite (bind_lift _ _ _ _ E1). cbv beta iota.
  rewrite (bind_ret _ _ _ _ _ (set_this_alive s _ ltac:(rewrite (hr_alive s A Hs); exact Ha))), bind_get.
  cbn [st_crypto]. rewrite (hr_auth s A Hs), Hau, (hr_crypto s A Hs), (bind_lift _ _ _ _ eq_refl).
  destruct (sim_app_stream true key _ _ _ Hkey (app_end (hd ++ [AUTH_MSG; STATE_KEY_EXCHANGE]))) with (s := r2) as (r3 & E3 & H3); [|done|].
  { unfold roomy, max_len. cbn [cursor a_bytes app]. rewrite zlength_app, Hl. change (zlength [AUTH_MSG; STATE_KEY_EXCHANGE]) with 2. lia. }
  cbn [cursor a_bytes app] in H3.
  destruct (sim_app_bool_first ((hd ++ [AUTH_MSG; STATE_KEY_EXCHANGE]) ++ kc) (GetNeedsChallenge (ah_crypto A))) with (s := r3) as (r4 & E4 & H4); [|exact H3|].
  { unfold roomy, max_len. rewrite !zlength_app, Hl. change (zlength [AUTH_MSG; STATE_KEY_EXCHANGE]) with 2. lia. }
  assert (Eb : Auth_Begin a (ah_crypto A) r1 = Ret (set_state STATE_KEY_EXCHANGE a, r4)).
  { unfold Auth_Begin. rewrite (bind_ret _ _ _ _ _ E2), (bind_lift _ _ _ _ Ekey), (bind_ret _ _ _ _ _ E3), (bind_ret _ _ _ _ _ E4). done. }
  rewrite (bind_lift _ _ _ _ Eb). cbv beta iota. erewrite bind_ret by (apply set_this_alive; reflexivity).
  cbn [st_crypto st_remote_id st_effects]. set (A1 := a_set_auth _ _ (a_set_opcode AUTH_MSG A)).
  destruct (hsim_reply now r4 _ false A1 Ha H4 (mkHState (set_auth (set_state STATE_KEY_EXCHANGE a) (set_opcode AUTH_MSG (st_hs s)))
    (ah_crypto A) (st_remote_id s) true (st_effects s))) as (s2 & Es2 & Hs2).
  { destruct Hs. split; cbn; done || congruence. }
  exists s2. split; [exact Es2|]. cbn [at_bits a_bytes] in Hs2. rewrite <- !app_assoc in Hs2. exact Hs2.
Qed.

(** ** Two parties *)

(** The message of the last call of the reply handler. *)
Fixpoint last_part (es : list hs_effect) : option BinaryStream :=
  match es with
  | [] => None
  | e :: es =>
      match last_part es with
      | Some st => Some st
      | None => match e with SendPart st _ => Some st | Completed _ => None end
      end
  end.

Fixpoint last_sent (os : list observation) : option (list Z) :=
  match os with
  | [] => None
  | o :: os =>
      match last_sent os with
      | Some bs => Some bs
      | None => match o with Sent bs _ => Some bs | Notified _ _ => None end
      end
  end.

(** The last message of one side reaches the other as a CONNECT_ATTEMPT packet. *)
Definition deliver_part (cfg : settings) (now entropy : Z) (src dst : HState crypto) : outcome (HState crypto) :=
  match last_part (st_effects src) with
  | None => Ret dst
  | Some st =>
      '(p, _) ← Packet_take_stream CONNECT_ATTEMPT st;
      '(_, dst) ← Handshake_Handle cfg now entropy p dst;
      mret dst
  end.

Lemma last_part_spec es os : Forall2 observes es os ->
  match last_sent os with
  | None => last_part es = None
  | Some bs => exists st a, last_part es = Some st /\ rel true st a /\ a_bytes a = bs
  end.
Proof.
  induction 1 as [|e o es os Ho H IH]; [done|]. cbn. destruct (last_sent os) as [bs|].
  - destruct IH as (st & a & -> & H1 & H2). eauto.
  - rewrite IH. destruct o as [bs est|cmd code]; cbn in Ho.
    + destruct Ho as (st & a & -> & H1 & H2). eauto.
    + now destruct Ho as (p & -> & _).
Qed.

Lemma deliver_hsim cfg now entropy src dst As Ad Ad' bs : hrel src As -> hrel dst Ad -> last_sent (ah_seen As) = Some bs ->
  (forall p, holds p CONNECT_ATTEMPT bs -> hsim (Handshake_Handle cfg now entropy p) Ad Ad') ->
  exists dst', deliver_part cfg now entropy src dst = Ret dst' /\ hrel dst' Ad'.
Proof.
  intros Hs Hd Hl H. pose proof (last_part_spec _ _ (hr_seen src As Hs)) as Hp. rewrite Hl in Hp.
  destruct Hp as (st & a & Ep & Hst & Ea). unfold deliver_part. rewrite Ep.
  destruct (Packet_take_stream_holds CONNECT_ATTEMPT st a Hst) as (p & st' & E & Hh & _). rewrite E. cbn [mbind outcome_bind].
  rewrite Ea in Hh. destruct (H p Hh dst Hd) as (dst' & E' & H'). rewrite E'. cbn [mbind outcome_bind]. eauto.
Qed.

(** A handshaker that has just been made by RemotePeer::Setup. *)
Definition a_fresh (encryption : bool) (origin : ConnectionOrigin) (c : crypto) : AHS :=
  mkAHS origin 0 [] 0 0 NOT_STARTED (if encryption then Some (EncryptionAuthenticator_new origin) else None) c 0 true [].

Lemma fresh_rel encryption origin h (c : crypto) : Handshaker_new encryption origin = Ret h ->
  hrel (mkHState h c 0 true []) (a_fresh encryption origin c).
Proof.
  unfold Handshaker_new. destruct (BinaryStream_new_rel 0) as (st & E & Hst); [unfold max_len; lia|]. rewrite E.
  cbn [mbind outcome_bind]. intros [= <-]. split; cbn; try done. exact (rel_last_ok _ _ Hst).
Qed.

(** Receiving a message with a proper header before the handshake is done. *)
Lemma hsim_message cfg now entropy p id opcode body A A' : or_left_first = true -> ah_alive A = true -> ah_result A = 0 ->
  holds p CONNECT_ATTEMPT (hs_header id ++ opcode :: body) -> Forall is_byte (opcode :: body) -> zlength body <= 65536 ->
  0 <= id < 2 ^ 64 -> taken cfg id = false -> opcode <> ERROR_OCCURRED ->
  (forall pre instream reply, zlength pre = 17 -> rel false instream (cursor pre body) ->
     rel true reply (at_end (hs_header (my_id cfg))) ->
     hsim (Handle_stage cfg now entropy opcode instream reply) (a_set_remote id A) A') ->
  hsim (Handshake_Handle cfg now entropy p) A A'.
Proof.
  intros Hor Ha Hres Hp Hb Hlen Hid Ht Hop H.
  apply (hsim_Handle cfg now entropy p CONNECT_ATTEMPT WIREFOX_MAGIC WIREFOX_PROTOCOL_VERSION id opcode body); try done.
  - apply Forall_app_bytes; [repeat constructor; unfold is_byte; lia|]. constructor; [unfold is_byte, WIREFOX_PROTOCOL_VERSION; lia|].
    apply Forall_app_bytes; [apply be_bytes_range|done].
  - rewrite !decide_False by tauto. rewrite Ht. rewrite (proj2 (Z.eqb_neq _ _) Hop). exact H.
Qed.

Lemma hsim_done cfg now entropy p A : ah_alive A = true -> ah_result A <> 0 -> hsim (Handshake_Handle cfg now entropy p) A A.
Proof.
  intros Ha Hres. apply hsim_this; [done|]. intros s Hs. unfold IsDone.
  rewrite (hr_result s A Hs). change (result_code IN_PROGRESS) with 0. rewrite (proj2 (Z.eqb_neq _ _) Hres). eauto.
Qed.

(** Rounds in which each side receives the last message of the other. *)
Fixpoint converse (n : nat) (cfgc cfgs : settings) (now entropy : Z) (C S : HState crypto) : outcome (HState crypto * HState crypto) :=
  match n with
  | O => Ret (C, S)
  | Datatypes.S n =>
      S ← deliver_part cfgs now entropy C S;
      C ← deliver_part cfgc now entropy S C;
      converse n cfgc cfgs now entropy C S
  end.

Lemma converse_add n k cfgc cfgs now entropy C S C' S' : converse n cfgc cfgs now entropy C S = Ret (C', S') ->
  converse (n + k) cfgc cfgs now entropy C S = converse k cfgc cfgs now entropy C' S'.
Proof.
  revert C S. induction n as [|n IH]; intros C S; cbn; [now intros [= <- <-]|].
  destruct (deliver_part cfgs now entropy C S) as [S1|]; [|done]. cbn.
  destruct (deliver_part cfgc now entropy S1 C) as [C1|]; [|done]. cbn. apply IH.
Qed.

(** Once both are done nothing changes any more. *)
Lemma deliver_done cfg now entropy src dst As Ad : hrel src As -> hrel dst Ad -> last_sent (ah_seen As) <> None ->
  ah_alive Ad = true -> ah_result Ad <> 0 -> deliver_part cfg now entropy src dst = Ret dst.
Proof.
  intros Hs Hd Hl Ha Hr. destruct (last_sent (ah_seen As)) as [bs|] eqn:El; [|done].
  pose proof (last_part_spec _ _ (hr_seen src As Hs)) as Hp. rewrite El in Hp. destruct Hp as (st & a & Ep & Hst & Ea).
  unfold deliver_part. rewrite Ep. destruct (Packet_take_stream_holds CONNECT_ATTEMPT st a Hst) as (p & st' & E & _). rewrite E.
  cbn [mbind outcome_bind]. unfold Handshake_Handle. rewrite (bind_ret _ _ _ (st_hs dst) dst).
  2:{ unfold this, mbind, st_bind, get. now rewrite (hr_alive dst Ad Hd), Ha. }
  unfold IsDone. rewrite (hr_result dst Ad Hd). change (result_code IN_PROGRESS) with 0. now rewrite (proj2 (Z.eqb_neq _ _) Hr).
Qed.

Lemma converse_done k cfgc cfgs now entropy C S Ac As : hrel C Ac -> hrel S As ->
  ah_alive Ac = true -> ah_result Ac <> 0 -> last_sent (ah_seen Ac) <> None ->
  ah_alive As = true -> ah_result As <> 0 -> last_sent (ah_seen As) <> None ->
  converse k cfgc cfgs now entropy C S = Ret (C, S).
Proof.
  intros HC HS. intros. induction k as [|k IH]; [done|]. cbn [converse].
  rewrite (deliver_done cfgs now entropy C S Ac As) by done. cbn [mbind outcome_bind].
  rewrite (deliver_done cfgc now entropy S C As Ac) by done. cbn [mbind outcome_bind]. exact IH.
Qed.

(** ** Complete handshakes *)

Fixpoint notes (os : list observation) : list (Z * Z) :=
  match os with
  | [] => []
  | Notified cmd code :: os => (cmd, code) :: notes os
  | Sent _ _ :: os => notes os
  end.

(** The machine has completed with success, told the user once, and knows [id]. *)
Record a_connected (id : Z) (A : AHS) : Prop := {
  ac_alive : ah_alive A = true;
  ac_result : ah_result A = 1;
  ac_remote : ah_remote A = id;
  ac_notes : notes (ah_seen A) = [(notify_command (ah_origin A) 1, 1)];
  ac_sent : last_sent (ah_seen A) <> None;
}.

Section TwoParties.
Context (cfgc cfgs : settings) (now entropy : Z).
Context (Hor : or_left_first = true).
Context (Hidc : 0 <= my_id cfgc < 2 ^ 64) (Hids : 0 <= my_id cfgs < 2 ^ 64).
Context (Htc : taken cfgc (my_id cfgs) = false) (Hts : taken cfgs (my_id cfgc) = false).

(** What each side receives: a message of the other with a proper header. *)
Lemma to_server src dst As Ad Ad' opcode body : hrel src As -> hrel dst Ad ->
  last_sent (ah_seen As) = Some (hs_header (my_id cfgc) ++ opcode :: body) ->
  ah_alive Ad = true -> ah_result Ad = 0 -> Forall is_byte (opcode :: body) -> zlength body <= 65536 -> opcode <> ERROR_OCCURRED ->
  (forall pre instream reply, zlength pre = 17 -> rel false instream (cursor pre body) ->
     rel true reply (at_end (hs_header (my_id cfgs))) ->
     hsim (Handle_stage cfgs now entropy opcode instream reply) (a_set_remote (my_id cfgc) Ad) Ad') ->
  exists dst', deliver_part cfgs now entropy src dst = Ret dst' /\ hrel dst' Ad'.
Proof. intros Hs Hd Hl. intros. eapply deliver_hsim; [exact Hs|exact Hd|exact Hl|]. intros p Hp. eapply hsim_message; eauto. Qed.

Lemma to_client src dst As Ad Ad' opcode body : hrel src As -> hrel dst Ad ->
  last_sent (ah_seen As) = Some (hs_header (my_id cfgs) ++ opcode :: body) ->
  ah_alive Ad = true -> ah_result Ad = 0 -> Forall is_byte (opcode :: body) -> zlength body <= 65536 -> opcode <> ERROR_OCCURRED ->
  (forall pre instream reply, zlength pre = 17 -> rel false instream (cursor pre body) ->
     rel true reply (at_end (hs_header (my_id cfgc))) ->
     hsim (Handle_stage cfgc now entropy opcode instream reply) (a_set_remote (my_id cfgs) Ad) Ad') ->
  exists dst', deliver_part cfgc now entropy src dst = Ret dst' /\ hrel dst' Ad'.
Proof. intros Hs Hd Hl. intros. eapply deliver_hsim; [exact Hs|exact Hd|exact Hl|]. intros p Hp. eapply hsim_message; eauto. Qed.

Lemma flag_bytes op b : is_byte op -> Forall is_byte (op :: hs_flag b).
Proof. intros Hop. constructor; [done|]. constructor; [destruct b; [change (pack [true]) with 128|change (pack [false]) with 0]; unfold is_byte; lia|constructor]. Qed.

(** The hello of the client and the answer of the server, with the same setting. *)
Definition client_began (enc : bool) (c : crypto) : AHS := a_begin cfgc now (a_fresh enc SELF c).
Definition server_answered (enc : bool) (s : crypto) : AHS :=
  a_reply now (hs_header (my_id cfgs) ++ INITIAL_SERVER :: hs_flag enc) false
    (a_set_opcode (if enc then AUTH_MSG else UNENCRYPTED_ACK) (a_set_remote (my_id cfgc) (a_fresh enc REMOTE s))).

Lemma first_contact enc c s C S : encryption_enabled cfgc = enc -> encryption_enabled cfgs = enc ->
  hrel C (client_began enc c) -> hrel S (a_fresh enc REMOTE s) ->
  exists S', deliver_part cfgs now entropy C S = Ret S' /\ hrel S' (server_answered enc s).
Proof.
  intros Ec Es HC HS. eapply (to_server C S _ _ _ INITIAL_CLIENT (hs_flag enc) HC HS); try done.
  - cbn. now rewrite Ec.
  - apply flag_bytes. unfold is_byte, INITIAL_CLIENT. lia.
  - intros pre instream reply Hpre Hin Hr.
    apply (hsim_stage cfgs now entropy INITIAL_CLIENT (hs_flag enc) _ _) with (pre := pre); try done.
    unfold a_stage. cbn [a_set_remote a_fresh ah_opcode NOT_STARTED INITIAL_CLIENT Z.eqb Pos.eqb andb]. rewrite Es.
    assert (Hf : body_flag (hs_flag enc) = enc) by now destruct enc. rewrite Hf, eqb_reflx. reflexivity.
Qed.

Lemma plain_handshake c s C S : encryption_enabled cfgc = false -> encryption_enabled cfgs = false ->
  hrel C (client_began false c) -> hrel S (a_fresh false REMOTE s) ->
  exists C' S' Ac As, converse 2 cfgc cfgs now entropy C S = Ret (C', S') /\ hrel C' Ac /\ hrel S' As /\
    a_connected (my_id cfgs) Ac /\ a_connected (my_id cfgc) As.
Proof.
  intros Ec Es HC HS. destruct (first_contact false c s C S Ec Es HC HS) as (S1 & E1 & HS1). cbn [converse]. rewrite E1. cbn [mbind outcome_bind].
  destruct (to_client S1 C _ _ (a_reply now (hs_header (my_id cfgc) ++ [UNENCRYPTED_ACK]) false
    (a_complete (result_code CR_OK) (a_set_remote (my_id cfgs) (client_began false c)))) INITIAL_SERVER (hs_flag false) HS1 HC)
    as (C1 & E2 & HC1); try done.
  { apply flag_bytes. unfold is_byte, INITIAL_SERVER. lia. }
  { intros pre instream reply Hpre Hin Hr. apply (hsim_stage cfgc now entropy INITIAL_SERVER (hs_flag false) _ _) with (pre := pre); try done.
    unfold a_stage. cbn. now rewrite Ec. }
  rewrite E2. cbn [mbind outcome_bind].
  destruct (to_server C1 S1 _ _ (a_complete (result_code CR_OK) (a_set_remote (my_id cfgc) (server_answered false s))) UNENCRYPTED_ACK [] HC1 HS1)
    as (S2 & E3 & HS2); try done.
  { constructor; [unfold is_byte, UNENCRYPTED_ACK; lia|constructor]. }
  { intros pre instream reply Hpre Hin Hr. now apply (hsim_stage cfgs now entropy UNENCRYPTED_ACK [] _ _) with (pre := pre). }
  rewrite E3. cbn [mbind outcome_bind]. rewrite (deliver_done cfgc now entropy S2 C1 _ _ HS2 HC1) by done. cbn [mbind outcome_bind].
  eexists C1, S2, _, _. split; [done|]. split; [exact HC1|]. split; [exact HS2|]. split; split; try done; cbn; rewrite ?app_nil_r; done.
Qed.

(** The key exchange: hello, answer, and both keys. *)
Definition client_offered (c : crypto) (kc : list Z) : AHS :=
  a_reply now (hs_header (my_id cfgc) ++ AUTH_MSG :: STATE_KEY_EXCHANGE :: kc ++ hs_flag (GetNeedsChallenge c)) false
    (a_set_auth (mkAuth SELF STATE_KEY_EXCHANGE false) c (a_set_opcode AUTH_MSG (a_set_remote (my_id cfgs) (client_began true c)))).

Definition server_exchanged (needs : bool) (s s' : crypto) (ks : list Z) : AHS :=
  a_auth now (hs_header (my_id cfgs) ++ AUTH_MSG :: STATE_KEY_EXCHANGE :: ks) IN_PROGRESS
    (mkAuth REMOTE (if needs then STATE_AUTHENTICATION else STATE_DONE) true) s' (a_set_remote (my_id cfgc) (server_answered true s)).

Lemma bytes_cons2 x y l : is_byte x -> is_byte y -> Forall is_byte l -> Forall is_byte (x :: y :: l).
Proof. intros. now do 2 (constructor; [done|]). Qed.

Lemma header_app my l x : (hs_header my ++ [x]) ++ l = hs_header my ++ x :: l.
Proof. now rewrite <- app_assoc. Qed.

Lemma key_exchange c s s' kc ks C S : encryption_enabled cfgc = true -> encryption_enabled cfgs = true ->
  hrel C (client_began true c) -> hrel S (a_fresh true REMOTE s) -> has_key c kc -> has_key s' ks ->
  (forall w st, rel w st (cursor [] kc) -> exists st', HandleKeyExchange REMOTE s st = Ret (true, s', st')) ->
  exists C1 S1 S2, deliver_part cfgs now entropy C S = Ret S1 /\ deliver_part cfgc now entropy S1 C = Ret C1 /\
    deliver_part cfgs now entropy C1 S1 = Ret S2 /\ hrel C1 (client_offered c kc) /\
    hrel S2 (server_exchanged (GetNeedsChallenge c) s s' ks).
Proof.
  intros Ec Es HC HS Hkc Hks Hx. pose proof law_key_length as Hkl.
  destruct (first_contact true c s C S Ec Es HC HS) as (S1 & E1 & HS1).
  destruct (to_client S1 C _ _ (client_offered c kc) INITIAL_SERVER (hs_flag true) HS1 HC) as (C1 & E2 & HC1); try done.
  { apply flag_bytes. unfold is_byte, INITIAL_SERVER. lia. }
  { intros pre instream reply Hpre Hin Hr.
    exact (hsim_begin_auth cfgc now entropy (a_set_remote (my_id cfgs) (client_began true c)) _ kc instream reply eq_refl eq_refl Ec eq_refl Hkc Hr). }
  destruct Hkc as (Hl & Hb & _). pose proof (flag_bytes 0 (GetNeedsChallenge c) ltac:(unfold is_byte; lia)) as Hfb.
  destruct (to_server C1 S1 _ _ (server_exchanged (GetNeedsChallenge c) s s' ks) AUTH_MSG
    (STATE_KEY_EXCHANGE :: kc ++ hs_flag (GetNeedsChallenge c)) HC1 HS1) as (S2 & E3 & HS2); try done.
  { apply bytes_cons2; [unfold is_byte, AUTH_MSG; lia|unfold is_byte, STATE_KEY_EXCHANGE; lia|].
    apply Forall_app_bytes; [done|]. now inversion_clear Hfb. }
  { rewrite zlength_cons, zlength_app, Hl. change (zlength (hs_flag (GetNeedsChallenge c))) with 1. lia. }
  { intros pre instream reply Hpre Hin Hr. eapply hsim_auth; try done.
    eexists (at_end _). split; [reflexivity|]. rewrite <- (header_app _ (STATE_KEY_EXCHANGE :: ks)).
    eapply (sim_Auth_kx entropy (EncryptionAuthenticator_new REMOTE) s s' pre kc); [exact Hin|done|done|done|done|exact Hx|].
    intros in' Hin'. apply (sim_Auth_server_kx entropy s' ks in' (GetNeedsChallenge c) _ (pre ++ STATE_KEY_EXCHANGE :: kc) false); [|exact Hks|exact Hin']. now apply (roomy_reply _ 1). }
  exists C1, S1, S2. done.
Qed.

(** The final acknowledgement of the client completes the server. *)
Lemma final_ack src dst As Ad s : hrel src As -> hrel dst Ad ->
  last_sent (ah_seen As) = Some (hs_header (my_id cfgc) ++ [AUTH_MSG; STATE_DONE]) ->
  ah_alive Ad = true -> ah_result Ad = 0 -> ah_opcode Ad = AUTH_MSG -> ah_auth Ad = Some (mkAuth REMOTE STATE_DONE false) ->
  ah_crypto Ad = s ->
  exists dst', deliver_part cfgs now entropy src dst = Ret dst' /\
    hrel dst' (a_auth now (hs_header (my_id cfgs) ++ [AUTH_MSG]) CR_OK (mkAuth REMOTE STATE_DONE false) s
      (a_set_remote (my_id cfgc) Ad)).
Proof.
  intros Hs Hd Hl Ha Hr Ho Hau Hc. apply (to_server src dst As Ad _ AUTH_MSG [STATE_DONE] Hs Hd Hl); try done.
  { apply bytes_cons2; [unfold is_byte, AUTH_MSG; lia|unfold is_byte, STATE_DONE; lia|constructor]. }
  intros pre instream reply Hpre Hin Hrr. eapply hsim_auth; try done.
  eexists (at_end _). split; [reflexivity|]. cbn [a_set_remote ah_crypto]. rewrite Hc. eapply sim_Auth_server_done. exact Hin.
Qed.

(** The client's last word without a challenge. *)
Lemma encrypted_plain c s c' s' kc ks C S : encryption_enabled cfgc = true -> encryption_enabled cfgs = true ->
  hrel C (client_began true c) -> hrel S (a_fresh true REMOTE s) -> has_key c kc -> has_key s' ks ->
  (forall w st, rel w st (cursor [] ks) -> exists st', HandleKeyExchange SELF c st = Ret (true, c', st')) ->
  (forall w st, rel w st (cursor [] kc) -> exists st', HandleKeyExchange REMOTE s st = Ret (true, s', st')) ->
  GetNeedsChallenge c = false -> GetNeedsChallenge c' = false ->
  exists C' S' Ac As, converse 3 cfgc cfgs now entropy C S = Ret (C', S') /\ hrel C' Ac /\ hrel S' As /\
    a_connected (my_id cfgs) Ac /\ a_connected (my_id cfgc) As /\
    ah_crypto Ac = SetCryptoEstablished c' /\ ah_crypto As = SetCryptoEstablished s'.
Proof.
  intros Ec Es HC HS Hkc Hks Hxc Hxs Hn Hn'. pose proof law_key_length as Hkl.
  destruct (key_exchange c s s' kc ks C S Ec Es HC HS Hkc Hks Hxs) as (C1 & S1 & S2 & E1 & E2 & E3 & HC1 & HS2).
  cbn [converse]. rewrite E1. cbn [mbind outcome_bind]. rewrite E2. cbn [mbind outcome_bind]. rewrite E3. cbn [mbind outcome_bind].
  destruct Hks as (Hl & Hb & _). rewrite Hn in HS2.
  destruct (to_client S2 C1 _ _ (a_auth now (hs_header (my_id cfgc) ++ [AUTH_MSG; STATE_DONE]) CR_OK (mkAuth SELF STATE_DONE false)
    (SetCryptoEstablished c') (a_set_remote (my_id cfgs) (client_offered c kc))) AUTH_MSG (STATE_KEY_EXCHANGE :: ks) HS2 HC1)
    as (C2 & E4 & HC2); try done.
  { apply bytes_cons2; [unfold is_byte, AUTH_MSG; lia|unfold is_byte, STATE_KEY_EXCHANGE; lia|done]. }
  { rewrite zlength_cons, Hl. lia. }
  { intros pre instream reply Hpre Hin Hr. eapply hsim_auth; try done.
    eexists (at_end _). split; [reflexivity|]. rewrite <- (header_app _ [STATE_DONE]).
    eapply (sim_Auth_kx entropy (mkAuth SELF STATE_KEY_EXCHANGE false) c c' pre ks []);
      [now rewrite app_nil_r|done|done|done|done|exact Hxc|].
    intros in' _. apply sim_Auth_client_done; [now apply (roomy_reply _ 1)|done]. }
  rewrite E4. cbn [mbind outcome_bind].
  destruct (final_ack C2 S2 _ _ (SetCryptoEstablished s') HC2 HS2) as (S3 & E5 & HS3); try done.
  rewrite E5. cbn [mbind outcome_bind]. rewrite (deliver_done cfgc now entropy S3 C2 _ _ HS3 HC2) by done. cbn [mbind outcome_bind].
  eexists C2, S3, _, _. split; [done|]. split; [exact HC2|]. split; [exact HS3|].
  split; [|split; [|done]]; split; done.
Qed.

(** The challenge, its answer, and the final acknowledgement. *)
Lemma encrypted_challenge c s c' s' kc ks C S : encryption_enabled cfgc = true -> encryption_enabled cfgs = true ->
  hrel C (client_began true c) -> hrel S (a_fresh true REMOTE s) -> has_key c kc -> has_key s' ks ->
  (forall w st, rel w st (cursor [] ks) -> exists st', HandleKeyExchange SELF c st = Ret (true, c', st')) ->
  (forall w st, rel w st (cursor [] kc) -> exists st', HandleKeyExchange REMOTE s st = Ret (true, s', st')) ->
  GetNeedsChallenge c = true -> GetNeedsChallenge c' = true -> linked c' s' -> vouched c' s' ->
  exists C' S' Ac As c2, converse 4 cfgc cfgs now entropy C S = Ret (C', S') /\ hrel C' Ac /\ hrel S' As /\
    a_connected (my_id cfgs) Ac /\ a_connected (my_id cfgc) As /\ linked c2 (SetCryptoEstablished s') /\
    GetCryptoEstablished c2 = GetCryptoEstablished (SetCryptoEstablished c') /\
    ah_crypto Ac = c2 /\ ah_crypto As = SetCryptoEstablished s'.
Proof.
  intros Ec Es HC HS Hkc Hks Hxc Hxs Hn Hn' HL Hv. pose proof law_key_length as Hkl.
  destruct (key_exchange c s s' kc ks C S Ec Es HC HS Hkc Hks Hxs) as (C1 & S1 & S2 & E1 & E2 & E3 & HC1 & HS2).
  cbn [converse]. rewrite E1. cbn [mbind outcome_bind]. rewrite E2. cbn [mbind outcome_bind]. rewrite E3. cbn [mbind outcome_bind].
  destruct Hks as (Hl & Hb & _). rewrite Hn in HS2.
  destruct (law_challenge (SetCryptoEstablished c') (SetCryptoEstablished s') entropy)
    as (c2 & question & answer & HL2 & He2 & Hqb & Hab & Hql & Hal & Hmake & Hsolve & Hcheck);
    [now apply law_vouched_established|apply law_linked_sym, law_established, law_linked_sym, law_established; done|now rewrite law_needs|].
  destruct (to_client S2 C1 _ _ (a_auth now (hs_header (my_id cfgc) ++ AUTH_MSG :: STATE_AUTHENTICATION :: question) IN_PROGRESS
    (mkAuth SELF STATE_AUTHENTICATION false) c2 (a_set_remote (my_id cfgs) (client_offered c kc))) AUTH_MSG (STATE_KEY_EXCHANGE :: ks) HS2 HC1)
    as (C2 & E4 & HC2); try done.
  { apply bytes_cons2; [unfold is_byte, AUTH_MSG; lia|unfold is_byte, STATE_KEY_EXCHANGE; lia|done]. }
  { rewrite zlength_cons, Hl. lia. }
  { intros pre instream reply Hpre Hin Hr. eapply hsim_auth; try done.
    eexists (at_end _). split; [reflexivity|]. rewrite <- (header_app _ (STATE_AUTHENTICATION :: question)).
    eapply (sim_Auth_kx entropy (mkAuth SELF STATE_KEY_EXCHANGE false) c c' pre ks []);
      [now rewrite app_nil_r|done|done|done|done|exact Hxc|].
    intros in' _. apply sim_Auth_client_challenge; [now apply (roomy_reply _ 1)|done|done|done]. }
  rewrite E4. cbn [mbind outcome_bind].
  destruct (to_server C2 S2 _ _ (a_auth now (hs_header (my_id cfgs) ++ AUTH_MSG :: STATE_AUTHENTICATION :: answer) IN_PROGRESS
    (mkAuth REMOTE STATE_DONE false) (SetCryptoEstablished s') (a_set_remote (my_id cfgc) (server_exchanged true s s' ks)))
    AUTH_MSG (STATE_AUTHENTICATION :: question) HC2 HS2) as (S3 & E5 & HS3); try done.
  { apply bytes_cons2; [unfold is_byte, AUTH_MSG; lia|unfold is_byte, STATE_AUTHENTICATION; lia|done]. }
  { rewrite zlength_cons. lia. }
  { intros pre instream reply Hpre Hin Hr. eapply hsim_auth; try done.
    eexists (at_end _). split; [reflexivity|]. rewrite <- (header_app _ (STATE_AUTHENTICATION :: answer)).
    eapply sim_Auth_server_auth; [now apply (roomy_reply _ 1)|exact Hin|done|exact Hsolve]. }
  rewrite E5. cbn [mbind outcome_bind].
  destruct (to_client S3 C2 _ _ (a_auth now (hs_header (my_id cfgc) ++ [AUTH_MSG; STATE_DONE]) CR_OK (mkAuth SELF STATE_DONE false) c2
    (a_set_remote (my_id cfgs) (a_auth now (hs_header (my_id cfgc) ++ AUTH_MSG :: STATE_AUTHENTICATION :: question) IN_PROGRESS
      (mkAuth SELF STATE_AUTHENTICATION false) c2 (a_set_remote (my_id cfgs) (client_offered c kc)))))
    AUTH_MSG (STATE_AUTHENTICATION :: answer) HS3 HC2) as (C3 & E6 & HC3); try done.
  { apply bytes_cons2; [unfold is_byte, AUTH_MSG; lia|unfold is_byte, STATE_AUTHENTICATION; lia|done]. }
  { rewrite zlength_cons. lia. }
  { intros pre instream reply Hpre Hin Hr. eapply hsim_auth; try done.
    eexists (at_end _). split; [reflexivity|]. rewrite <- (header_app _ [STATE_DONE]).
    eapply sim_Auth_client_auth; [now apply (roomy_reply _ 1)|exact Hin|exact Hcheck]. }
  rewrite E6. cbn [mbind outcome_bind].
  destruct (final_ack C3 S3 _ _ (SetCryptoEstablished s') HC3 HS3) as (S4 & E7 & HS4); try done.
  rewrite E7. cbn [mbind outcome_bind]. rewrite (deliver_done cfgc now entropy S4 C3 _ _ HS4 HC3) by done. cbn [mbind outcome_bind].
  eexists C3, S4, _, _, c2. split; [done|]. split; [exact HC3|]. split; [exact HS4|].
  split; [split; done|]. split; [split; done|]. done.
Qed.
End TwoParties.
End Machine.
Arguments AHS : clear implicits.

(** ** Claims *)

Section Claims.
Context {host : Host} {crypto : Type} {layer : EncryptionLayer crypto}.

(** The notifications that were posted. *)
Fixpoint completions (es : list hs_effect) : list Packet :=
  match es with
  | [] => []
  | Completed p :: es => p :: completions es
  | SendPart _ _ :: es => completions es
  end.

(** The handshaker exists, has the result OK, has filled in the ID of the other
    side, and the user got exactly one notification, with the code of OK. *)
Record connected (id : Z) (X : HState crypto) : Prop := {
  cn_alive : st_alive X = true;
  cn_result : m_result (st_hs X) = result_code CR_OK;
  cn_remote : st_remote_id X = id;
  cn_notified : exists p, completions (st_effects X) = [p] /\ holds p (notify_command (m_origin (st_hs X)) 1) [1];
}.

Lemma completions_notes es os : Forall2 observes es os ->
  Forall2 (fun p cc => holds p (fst cc) [snd cc]) (completions es) (notes os).
Proof.
  induction 1 as [|e o es os Ho H IH]; [constructor|]. destruct o as [bs est|cmd code]; cbn in Ho.
  - now destruct Ho as (st & a & -> & _).
  - destruct Ho as (p & -> & Hp). now constructor.
Qed.

Lemma connected_of id X A : hrel X A -> a_connected id A -> connected id X.
Proof.
  intros HX [H1 H2 H3 H4 H5]. pose proof (completions_notes _ _ (hr_seen X A HX)) as Hn. rewrite H4 in Hn.
  destruct (completions (st_effects X)) as [|p [|? ?]] eqn:E; inversion Hn as [|? ? ? ? Hp Hl]; [|now inversion Hl].
  split; [now rewrite (hr_alive X A HX)|now rewrite (hr_result X A HX)|now rewrite (hr_remote X A HX)|].
  exists p. split; [done|]. now rewrite (hr_origin X A HX).
Qed.
End Claims.

(** C19: a client that begins the handshake and a server that has just reserved a
    slot both complete it with success within four rounds in which each receives
    the last message of the other, whatever is delivered afterwards: each knows
    the ID of the other, the user of each side is notified exactly once, and with
    encryption the two layers share session keys and use them; with or without
    encryption, with or without an expected server identity. *)
Theorem handshake_completes {host : Host} {crypto : Type} {layer : EncryptionLayer crypto} {laws : EncryptionLaws crypto}
    cfgc cfgs now entropy enc (c s : crypto) hc hs n :
  or_left_first = true -> encryption_enabled cfgc = enc -> encryption_enabled cfgs = enc ->
  0 <= my_id cfgc < 2 ^ 64 -> 0 <= my_id cfgs < 2 ^ 64 ->
  taken cfgc (my_id cfgs) = false -> taken cfgs (my_id cfgc) = false -> (enc = true -> ready c s) ->
  Handshaker_new enc SELF = Ret hc -> Handshaker_new enc REMOTE = Ret hs -> (4 <= n)%nat ->
  exists C0 C S, Handshake_Begin cfgc now (mkHState hc c 0 true []) = Ret (tt, C0) /\
    converse n cfgc cfgs now entropy C0 (mkHState hs s 0 true []) = Ret (C, S) /\
    connected (my_id cfgs) C /\ connected (my_id cfgc) S /\
    (enc = true -> linked (st_crypto C) (st_crypto S) /\
       exists c' s' : crypto, GetCryptoEstablished (st_crypto C) = GetCryptoEstablished (SetCryptoEstablished c') /\
         st_crypto S = SetCryptoEstablished s').
Proof.
  intros Hor Ec Es Hidc Hids Htc Hts Hready Hhc Hhs Hn.
  destruct (hsim_begin cfgc now (a_fresh enc SELF c) eq_refl _ (fresh_rel enc SELF hc c Hhc)) as (C0 & E0 & HC0).
  pose proof (fresh_rel enc REMOTE hs s Hhs) as HS0.
  assert (Hfin : forall k C S Ac As, (k <= n)%nat -> converse k cfgc cfgs now entropy C0 (mkHState hs s 0 true []) = Ret (C, S) ->
    hrel C Ac -> hrel S As -> a_connected (my_id cfgs) Ac -> a_connected (my_id cfgc) As ->
    converse n cfgc cfgs now entropy C0 (mkHState hs s 0 true []) = Ret (C, S) /\ connected (my_id cfgs) C /\ connected (my_id cfgc) S).
  { intros k C S Ac As Hk E HC HS HAc HAs. replace n with (k + (n - k))%nat by lia. rewrite (converse_add _ _ _ _ _ _ _ _ _ _ E).
    split; [|split; eapply connected_of; eauto].
    destruct HAc, HAs. eapply converse_done; [exact HC|exact HS|congruence..]. }
  destruct enc.
  - destruct (law_exchange c s (Hready eq_refl)) as (kc & ks & c' & s' & Hkc & Hks & HL & Hv & Hnd & Hxc & Hxs).
    destruct (GetNeedsChallenge c) eqn:En.
    + destruct (encrypted_challenge cfgc cfgs now entropy Hor Hidc Hids Htc Hts c s c' s' kc ks C0 _ Ec Es HC0 HS0 Hkc Hks Hxc Hxs En Hnd HL Hv)
        as (C & S & Ac & As & c2 & E & HC & HS & HAc & HAs & HL2 & He & Eac & Eas).
      exists C0, C, S. destruct (Hfin 4%nat C S Ac As Hn E HC HS HAc HAs) as (H1 & H2 & H3). repeat (split; [done|]).
      intros _. rewrite (hr_crypto _ _ HC), (hr_crypto _ _ HS), Eac, Eas. split; [done|]. eauto.
    + destruct (encrypted_plain cfgc cfgs now entropy Hor Hidc Hids Htc Hts c s c' s' kc ks C0 _ Ec Es HC0 HS0 Hkc Hks Hxc Hxs En Hnd)
        as (C & S & Ac & As & E & HC & HS & HAc & HAs & Eac & Eas).
      exists C0, C, S. destruct (Hfin 3%nat C S Ac As ltac:(lia) E HC HS HAc HAs) as (H1 & H2 & H3). repeat (split; [done|]).
      intros _. rewrite (hr_crypto _ _ HC), (hr_crypto _ _ HS), Eac, Eas. split; [|eauto].
      apply law_linked_sym, law_established, law_linked_sym, law_established. done.
  - destruct (plain_handshake cfgc cfgs now entropy Hor Hidc Hids Htc Hts c s C0 _ Ec Es HC0 HS0) as (C & S & Ac & As & E & HC & HS & HAc & HAs).
    exists C0, C, S. destruct (Hfin 2%nat C S Ac As ltac:(lia) E HC HS HAc HAs) as (H1 & H2 & H3). repeat (split; [done|]). done.
Qed.

(** A client that expects the identity of the server, and that server. *)
Definition demo_host : Host := Build_Host true true.
Definition demo_hs_client : EncryptionLayerSodium :=
  mkSodium None (Some (@kx_pair model_sodium 5)) (replicate 32 7) (zeroes CHALLENGE_LENGTH) (zeroes KEY_LENGTH) (zeroes KEY_LENGTH)
    false false true false.
Definition demo_hs_server : EncryptionLayerSodium :=
  mkSodium (Some (mkKeypair (replicate 32 7) (replicate 32 7))) (Some (@kx_pair model_sodium 9)) (zeroes KEY_LENGTH)
    (zeroes CHALLENGE_LENGTH) (zeroes KEY_LENGTH) (zeroes KEY_LENGTH) false false false false.
Definition demo_settings (id : Z) (enc : bool) : settings := mkSettings id enc (fun _ => false).
Definition demo_handshaker (enc : bool) (origin : ConnectionOrigin) : Handshaker :=
  mkHS origin 0 (mkStream None RoNull 0 0 0 0 false) 0 0 NOT_STARTED (if enc then Some (EncryptionAuthenticator_new origin) else None).

Lemma handshake_completes_witness : let host := demo_host in let sodium := model_sodium in
  let laws := @SodiumLayer_laws model_sodium model_sodium_laws in
  exists C0 C S, Handshake_Begin (demo_settings 11 true) 1000 (mkHState (demo_handshaker true SELF) demo_hs_client 0 true []) = Ret (tt, C0) /\
    converse 4 (demo_settings 11 true) (demo_settings 22 true) 1000 3 C0 (mkHState (demo_handshaker true REMOTE) demo_hs_server 0 true []) = Ret (C, S) /\
    connected 22 C /\ connected 11 S /\
    (true = true -> linked (st_crypto C) (st_crypto S) /\
       exists c' s' : EncryptionLayerSodium, GetCryptoEstablished (st_crypto C) = GetCryptoEstablished (SetCryptoEstablished c') /\
         st_crypto S = SetCryptoEstablished s').
Proof.
  intros host sodium laws. apply (handshake_completes (demo_settings 11 true) (demo_settings 22 true) 1000 3 true demo_hs_client demo_hs_server);
    try reflexivity; try (cbn; lia).
  intros _. split; [done|]. split; [done|]. split; [|now exists 5, 9]. intros _. now exists 7.
Defined.

(** The message of the key exchange that the handshaker waits for: the answer of the server
    when encryption is enabled, and the messages of the authenticator. *)
Definition exchanging_keys {crypto} (cfg : settings) (opcode : Z) (A : AHS crypto) : Prop :=
  opcode = ah_opcode A /\ (opcode = AUTH_MSG \/ opcode = INITIAL_SERVER /\ encryption_enabled cfg = true).

Lemma a_receive_total {crypto} {layer : EncryptionLayer crypto} cfg now magic version id opcode body (A : AHS crypto) : ~ exchanging_keys cfg opcode A ->
  is_Some (a_receive cfg now magic version id opcode body A).
Proof.
  intros H. unfold a_receive, a_stage. cbn [a_set_remote ah_opcode].
  repeat case_match; try done; exfalso; apply H; repeat match goal with E : _ && _ = true |- _ => apply andb_true_iff in E as [?%Z.eqb_eq ?%Z.eqb_eq] end;
    (split; [done|]); [right; split; congruence|left; congruence].
Qed.

(** C30: a handshaker handles a message as the abstract machine does: it refuses another
    magic number, version, a taken ID and other security settings with the stated answer,
    takes an error report as the result, answers the message of the stage it expects, and
    ignores the messages of other stages. Left out are the messages of the key exchange
    that it expects, which are the subject of the complete handshakes, and an error
    report with the code of OK or IN_PROGRESS, which the code rules out by an assert. *)
Theorem message_handling {host : Host} {crypto : Type} {layer : EncryptionLayer crypto}
    cfg now entropy p cmd magic version id opcode body (s : HState crypto) A :
  or_left_first = true -> hrel s A -> ah_alive A = true ->
  holds p cmd (hs_message magic version id opcode body) -> zlength magic = 7 ->
  Forall is_byte (hs_message magic version id opcode body) -> zlength body <= 65536 -> 0 <= id < 2 ^ 64 ->
  ~ exchanging_keys cfg opcode A ->
  (opcode = ERROR_OCCURRED -> hd 0 body <> result_code CR_OK /\ hd 0 body <> result_code IN_PROGRESS) ->
  exists s' A', Handshake_Handle cfg now entropy p s = Ret (tt, s') /\ a_receive cfg now magic version id opcode body A = Some A' /\ hrel s' A'.
Proof.
  intros Hor Hs Ha Hp Hm Hb Hl Hid Hk _. destruct (a_receive_total cfg now magic version id opcode body A Hk) as [A' H].
  destruct (hsim_receive cfg now entropy p cmd magic version id opcode body A A' H Hor Ha Hp Hm Hb Hl Hid s Hs) as (s' & E & Hs'). eauto.
Qed.

(** A server without encryption receives the hello of a client. *)
Lemma message_handling_witness : let host := demo_host in
  exists s', Handshake_Handle (demo_settings 22 false) 1000 3
      (mkPacket 0 CONNECT_ATTEMPT 18 (payload_ptr (hs_message WIREFOX_MAGIC 0 11 INITIAL_CLIENT [0])))
      (mkHState (demo_handshaker false REMOTE) tt 0 true []) = Ret (tt, s') /\
    hrel s' (a_reply 1000 (hs_header 22 ++ INITIAL_SERVER :: hs_flag false) false
               (a_set_opcode UNENCRYPTED_ACK (a_set_remote 11 (a_fresh false REMOTE tt)))).
Proof.
  intros host. destruct (message_handling (demo_settings 22 false) 1000 3 (mkPacket 0 CONNECT_ATTEMPT 18 (payload_ptr (hs_message WIREFOX_MAGIC 0 11 INITIAL_CLIENT [0])))
    CONNECT_ATTEMPT WIREFOX_MAGIC 0 11 INITIAL_CLIENT [0] (mkHState (demo_handshaker false REMOTE) tt 0 true []) (a_fresh false REMOTE tt)) as (s' & A' & E & EA & Hs').
  - reflexivity.
  - apply fresh_rel. reflexivity.
  - reflexivity.
  - apply (holds_exact 0 CONNECT_ATTEMPT (hs_message WIREFOX_MAGIC 0 11 INITIAL_CLIENT [0])).
  - reflexivity.
  - repeat (apply List.Forall_cons || apply List.Forall_nil); split; (discriminate || reflexivity).
  - discriminate.
  - split; [discriminate|reflexivity].
  - intros [H _]. discriminate.
  - discriminate.
  - exists s'. split; [exact E|]. injection EA as <-. exact Hs'.
Defined.

(** An error report with the code of OK completes the handshake as a success
    at any point, without a key exchange and without authentication, and what is
    sent afterwards is not encrypted; the code only rules this out by an assert. *)
Theorem error_report_of_ok {host : Host} {crypto : Type} {layer : EncryptionLayer crypto}
    cfg now entropy p id rest (s : HState crypto) A :
  or_left_first = true -> hrel s A -> ah_alive A = true -> ah_result A = result_code IN_PROGRESS ->
  holds p CONNECT_ATTEMPT (hs_header id ++ ERROR_OCCURRED :: result_code CR_OK :: rest) -> Forall is_byte rest ->
  zlength rest < 65536 -> 0 <= id < 2 ^ 64 -> taken cfg id = false ->
  exists s', Handshake_Handle cfg now entropy p s = Ret (tt, s') /\
    m_result (st_hs s') = result_code CR_OK /\ st_alive s' = true /\ st_remote_id s' = id /\
    st_crypto s' = st_crypto s /\ m_auth (st_hs s') = m_auth (st_hs s).
Proof.
  intros Hor Hs Ha Hr Hp Hb Hl Hid Ht.
  destruct (hsim_receive cfg now entropy p CONNECT_ATTEMPT WIREFOX_MAGIC WIREFOX_PROTOCOL_VERSION id ERROR_OCCURRED
    (result_code CR_OK :: rest) A (a_complete (result_code CR_OK) (a_set_remote id A))) with (s := s) as (s' & E & Hs'); try done.
  - unfold a_receive. rewrite Hr, !decide_False by tauto. now rewrite Ht.
  - unfold hs_message. apply Forall_app_bytes; [repeat constructor; unfold is_byte; lia|]. constructor; [unfold is_byte, WIREFOX_PROTOCOL_VERSION; lia|].
    apply Forall_app_bytes; [apply be_bytes_range|]. apply bytes_cons2; [unfold is_byte, ERROR_OCCURRED; lia|unfold is_byte; cbn; lia|done].
  - rewrite zlength_cons. lia.
  - exists s'. split; [exact E|]. rewrite (hr_result _ _ Hs'), (hr_alive _ _ Hs'), (hr_remote _ _ Hs'), (hr_crypto _ _ Hs'), (hr_auth _ _ Hs').
    rewrite (hr_crypto _ _ Hs), (hr_auth _ _ Hs). cbn. now rewrite Ha.
Qed.

Lemma error_report_of_ok_witness : let host := demo_host in let sodium := model_sodium in
  exists s', Handshake_Handle (demo_settings 11 true) 1000 3
      (mkPacket 0 CONNECT_ATTEMPT 18 (payload_ptr (hs_header 66 ++ [ERROR_OCCURRED; 1])))
      (mkHState (demo_handshaker true SELF) demo_hs_client 0 true []) = Ret (tt, s') /\
    m_result (st_hs s') = result_code CR_OK /\ st_alive s' = true /\ st_remote_id s' = 66 /\
    st_crypto s' = demo_hs_client /\ m_auth (st_hs s') = Some (EncryptionAuthenticator_new SELF).
Proof.
  intros host sodium. apply (error_report_of_ok (demo_settings 11 true) 1000 3 _ 66 []
    (mkHState (demo_handshaker true SELF) demo_hs_client 0 true []) (a_fresh true SELF demo_hs_client)).
  - reflexivity.
  - apply fresh_rel. reflexivity.
  - reflexivity.
  - reflexivity.
  - apply (holds_exact 0 CONNECT_ATTEMPT (hs_header 66 ++ [ERROR_OCCURRED; 1])).
  - constructor.
  - reflexivity.
  - split; [discriminate|reflexivity].
  - reflexivity.
Defined.

(** The first half of an encrypted handshake, up to the server's key, which is
    lost; then the client repeats its key after the retry delay. *)
Definition lost_key_scenario : outcome (HState EncryptionLayerSodium * HState EncryptionLayerSodium) :=
  let host := demo_host in let sodium := model_sodium in
  let cfgc := demo_settings 11 true in let cfgs := demo_settings 22 true in
  '(_, C) ← Handshake_Begin cfgc 1000 (mkHState (demo_handshaker true SELF) demo_hs_client 0 true []);
  S ← deliver_part cfgs 1000 3 C (mkHState (demo_handshaker true REMOTE) demo_hs_server 0 true []);
  C ← deliver_part cfgc 1000 3 S C;
  S ← deliver_part cfgs 1000 3 C S;
  '(_, C) ← Handshaker_Update 5000000000 C;
  S ← deliver_part cfgs 5000000000 3 C S;
  mret (C, S).

(** The key exchange does not survive the loss of the server's key: the
    server answers the repeated key of the client with an empty authentication
    message, which the client takes for a key and reads behind the packet. *)
Theorem lost_key_is_fatal : let host := demo_host in let sodium := model_sodium in
  exists C S, lost_key_scenario = Ret (C, S) /\ st_alive S = true /\ m_result (st_hs S) = result_code IN_PROGRESS /\
    deliver_part (demo_settings 11 true) 5000000000 3 S C = Fail OutOfBounds.
Proof.
  intros host sodium. destruct lost_key_scenario as [[C S]|] eqn:E; [|vm_compute in E; discriminate].
  exists C, S. split; [done|]. vm_compute in E. injection E as <- <-. vm_compute. done.
Qed.
