(* ===== verification/Socket.v ===== *)
(** * Socket: the UDP socket and its worker thread

    Model of source/Socket.h and source/platform/desktop/SocketUDP.{h,cpp} with
    RemoteAddressASIO.{h,cpp}.  asio is not part of the program: addresses are
    values of an abstract type, and the answers of asio at the time of a call
    (what a name resolves to, how far opening and binding gets) are arguments.
    An asynchronous operation is recorded when it is started; its completion is a
    separate operation, which the context's thread runs. *)

From stdpp Require Import base tactics list numbers option relations.
From Stdlib Require Import ZArith Lia.
From S2P Require Import Prelude BinaryStream Config.

Open Scope Z_scope.

Inductive SocketState : Type := CLOSED | OPEN.
Inductive SocketProtocol : Type := IPv4 | IPv6.
Inductive ConnectAttemptResult : Type :=
  | CAR_OK | INVALID_PARAMETER | INVALID_HOSTNAME | INVALID_STATE | ALREADY_CONNECTING | CAR_ALREADY_CONNECTED | CAR_NO_FREE_SLOTS.

#[export] Instance SocketState_eq_dec : EqDecision SocketState.
Proof. solve_decision. Defined.
#[export] Instance SocketProtocol_eq_dec : EqDecision SocketProtocol.
Proof. solve_decision. Defined.
#[export] Instance ConnectAttemptResult_eq_dec : EqDecision ConnectAttemptResult.
Proof. solve_decision. Defined.

(** How far close, open, bind and set_option get before one of them throws. *)
Inductive bind_progress : Type := CloseThrows | OpenThrows | BindThrows | OptionThrows | Bound.

Section Socket.
Context {RemoteAddress : Type}.

(** The answers of asio: a name resolves to an error (None) or a list. *)
Record Asio : Type := mkAsio {
  asio_resolve : SocketProtocol -> list Z -> Z -> option (list RemoteAddress);
  asio_bind : SocketProtocol -> Z -> bind_progress;
  address_string : RemoteAddress -> list Z;
}.

(** The members; [is_open] is that of m_socket, [posted] the handlers posted to
    m_context (the address, and the slot that the connect callback captured),
    [joinable] that of m_socketThread, [written] the datagrams handed to asio. *)
Record SocketUDP : Type := mkSocket {
  m_state : SocketState;
  m_family : SocketProtocol;
  is_open : bool;
  posted : list (RemoteAddress * nat);
  joinable : bool;
  m_socketThreadAbort : bool;
  m_reading : bool;
  m_sending : bool;
  written : list (RemoteAddress * BinaryStream);
}.

(** SocketUDP(); value initialisation makes the family the first enumerator. *)
Definition SocketUDP_new : SocketUDP := mkSocket CLOSED IPv4 false [] false false false false [].

Definition GetState (s : SocketUDP) : SocketState := m_state s.
Definition GetProtocol (s : SocketUDP) : SocketProtocol := m_family s.
Definition IsOpenAndReady (s : SocketUDP) : bool := is_open s.
Definition IsReadPending (s : SocketUDP) : bool := m_reading s.
Definition IsWritePending (s : SocketUDP) : bool := m_sending s.

(** Resolve(hostname, port, output): the first entry, or None for false. *)
Definition Resolve (asio : Asio) (hostname : list Z) (port : Z) (s : SocketUDP) : option RemoteAddress :=
  match asio_resolve asio (m_family s) hostname port with
  | None => None
  | Some [] => None
  | Some (a :: _) => Some a
  end.

(** Connect(host, port, callback), [slot] being captured by the callback. *)
Definition Socket_Connect (asio : Asio) (hostname : list Z) (port : Z) (slot : nat) (s : SocketUDP) : ConnectAttemptResult * SocketUDP :=
  if negb (bool_decide (GetState s = OPEN)) || negb (IsOpenAndReady s) then (INVALID_STATE, s) else
  if bool_decide (hostname = []) || (port =? 0) then (INVALID_PARAMETER, s) else
  match Resolve asio hostname port s with
  | None => (INVALID_HOSTNAME, s)
  | Some a => (CAR_OK, mkSocket (m_state s) (m_family s) (is_open s) (posted s ++ [(a, slot)]) (joinable s)
                         (m_socketThreadAbort s) (m_reading s) (m_sending s) (written s))
  end.

(** Unbind() *)
Definition Unbind (s : SocketUDP) : SocketUDP :=
  let s := if is_open s
           then mkSocket CLOSED (m_family s) false (posted s) (joinable s) (m_socketThreadAbort s) (m_reading s) (m_sending s) (written s)
           else s in
  mkSocket (m_state s) (m_family s) (is_open s) (posted s) false true (m_reading s) (m_sending s) (written s).

(** Bind(family, port); assigning to a thread that is joinable terminates. *)
Definition Socket_Bind (asio : Asio) (family : SocketProtocol) (port : Z) (s : SocketUDP) : outcome (bool * SocketUDP) :=
  if negb (bool_decide (GetState s = CLOSED)) then Ret (false, s) else
  let opened b := mkSocket (m_state s) family b (posted s) (joinable s) (m_socketThreadAbort s) (m_reading s) (m_sending s) (written s) in
  match asio_bind asio family port with
  | CloseThrows => Ret (false, opened (is_open s))
  | OpenThrows => Ret (false, opened false)
  | BindThrows | OptionThrows => Ret (false, opened true)
  | Bound =>
      if joinable s then Fail RuntimeError else
      Ret (true, mkSocket OPEN family true (posted s) true (m_socketThreadAbort s) (m_reading s) (m_sending s) (written s))
  end.

(** ThreadWorker(): the loop runs the context until the abort flag is seen. *)
Definition thread_runs (s : SocketUDP) : bool := joinable s && negb (m_socketThreadAbort s).

(** BeginWrite(addr, data, datalen, callback) and the completion of the write. *)
Definition BeginWrite (a : RemoteAddress) (datagram : BinaryStream) (s : SocketUDP) : SocketUDP :=
  mkSocket (m_state s) (m_family s) (is_open s) (posted s) (joinable s) (m_socketThreadAbort s) (m_reading s) true (written s ++ [(a, datagram)]).
Definition write_done (s : SocketUDP) : SocketUDP :=
  mkSocket (m_state s) (m_family s) (is_open s) (posted s) (joinable s) (m_socketThreadAbort s) (m_reading s) false (written s).

(** BeginRead(callback) and what follows the callback: the next read. *)
Definition BeginRead (s : SocketUDP) : SocketUDP :=
  mkSocket (m_state s) (m_family s) (is_open s) (posted s) (joinable s) (m_socketThreadAbort s) true (m_sending s) (written s).
Definition read_done (error : bool) (s : SocketUDP) : SocketUDP :=
  if negb error && IsOpenAndReady s then BeginRead s
  else mkSocket (m_state s) (m_family s) (is_open s) (posted s) (joinable s) (m_socketThreadAbort s) false (m_sending s) (written s).

(** The context takes the oldest posted handler. *)
Definition take_posted (s : SocketUDP) : option (RemoteAddress * nat) * SocketUDP :=
  match posted s with
  | [] => (None, s)
  | h :: rest => (Some h, mkSocket (m_state s) (m_family s) (is_open s) rest (joinable s) (m_socketThreadAbort s) (m_reading s) (m_sending s) (written s))
  end.
End Socket.
Arguments SocketUDP : clear implicits.
Arguments Asio : clear implicits.

(** ** Binding again *)

(** Every operation of the socket, with any arguments. *)
Inductive socket_step {RemoteAddress : Type} : SocketUDP RemoteAddress -> SocketUDP RemoteAddress -> Prop :=
  | step_bind asio family port s ok s' : Socket_Bind asio family port s = Ret (ok, s') -> socket_step s s'
  | step_unbind s : socket_step s (Unbind s)
  | step_connect asio hostname port slot s : socket_step s (Socket_Connect asio hostname port slot s).2
  | step_write a datagram s : socket_step s (BeginWrite a datagram s)
  | step_written s : socket_step s (write_done s)
  | step_read s : socket_step s (BeginRead s)
  | step_read_done error s : socket_step s (read_done error s)
  | step_posted s : socket_step s (take_posted s).2.

Lemma abort_stays {RemoteAddress : Type} (s s' : SocketUDP RemoteAddress) : socket_step s s' ->
  m_socketThreadAbort s = true -> m_socketThreadAbort s' = true.
Proof.
  intros H Ha. destruct H; cbn; try done.
  - unfold Socket_Bind in H. run_all; done.
  - unfold Socket_Connect. destruct (_ || _); [done|]. destruct (_ || _); [done|]. now destruct (Resolve _ _ _ _).
  - unfold read_done. now destruct (_ && _).
  - unfold take_posted. now destruct (posted s).
Qed.

Lemma abort_forever {RemoteAddress : Type} (s s' : SocketUDP RemoteAddress) : rtc socket_step s s' ->
  m_socketThreadAbort s = true -> m_socketThreadAbort s' = true.
Proof. induction 1; eauto using abort_stays. Qed.

(** A socket that was unbound can be bound again, which is reported as a success
    and leaves it open; but the flag that tells its thread to end is never taken
    back, so the thread that is started ends at once and, whatever operations
    follow, no handler of the socket is run again. *)
Theorem rebound_socket_is_dead {RemoteAddress : Type} asio family port (s : SocketUDP RemoteAddress) :
  is_open s = true -> asio_bind asio family port = Bound ->
  exists s', Socket_Bind asio family port (Unbind s) = Ret (true, s') /\ m_state s' = OPEN /\
    forall s'', rtc socket_step s' s'' -> thread_runs s'' = false.
Proof.
  intros Ho Hb. unfold Unbind, Socket_Bind. rewrite Ho. cbn. rewrite Hb. eexists. split; [reflexivity|]. split; [done|].
  intros s'' Hs. enough (Ha : m_socketThreadAbort s'' = true) by (unfold thread_runs; rewrite Ha; now destruct (joinable s'')).
  exact (abort_forever _ _ Hs eq_refl).
Qed.

Lemma rebound_socket_is_dead_witness : let s := mkSocket (RemoteAddress := Z) OPEN IPv4 true [] true false true false [] in
  exists s', Socket_Bind (mkAsio (fun _ _ _ => None) (fun _ _ => Bound) (fun _ => [])) IPv4 7 (Unbind s) = Ret (true, s') /\ m_state s' = OPEN /\
    forall s'', rtc socket_step s' s'' -> thread_runs s'' = false.
Proof. intros s. apply (rebound_socket_is_dead _ IPv4 7 s); reflexivity. Defined.
