(* ===== verification/RemotePeer.v ===== *)
(** * RemotePeer: the state of one connection and the datagrams built from it

    Model of source/RemotePeer.{h,cpp}, DatagramBuilder.{h,cpp} and of the structs
    OutgoingPacket and OutgoingDatagram of PacketQueue.h.  Addresses are values of
    any type with decidable equality, encryption layers are referred to by a
    handle because several owners share one.  A pointer to an element of the
    outbox is its index; erasing an element invalidates the pointers at and behind
    it.  The time is read once per call; receipts that are posted and the request
    to disconnect are results. *)

From stdpp Require Import base tactics gmap sets list list_numbers numbers option.
From Stdlib Require Import ZArith Lia.
From S2P Require Import Prelude Memory BinaryStream StreamSpec StreamCodec Config PeerStats Packet Headers.
From S2P Require Import ChannelBuffer CongestionControl Reassembly ReceiptTracker Encryption Handshake.

Open Scope Z_scope.

Section RemotePeer.
Context {host : Host} {RemoteAddress : Type} (no_address : RemoteAddress).

Record OutgoingPacket : Type := mkOut {
  op_crypto : option Z;
  op_blob : BinaryStream;
  op_addr : RemoteAddress;
  op_sendNext : Z;
  op_sendCount : Z;
  op_id : Z;
  op_options : Z;
}.

Definition HasFlag (p : OutgoingPacket) (test : Z) : bool := Z.land (op_options p) test =? test.

Record OutgoingDatagram : Type := mkDatagram {
  od_crypto : option Z;
  od_blob : BinaryStream;
  od_addr : RemoteAddress;
  od_id : Z;
  od_discard : Z;
  od_packets : list Z;
}.

Record RemotePeer : Type := mkRemote {
  channels : gmap Z (ChannelBuffer Packet);
  addr : RemoteAddress;
  outbox : list OutgoingPacket;
  sentbox : list OutgoingDatagram;
  socket : bool;                          (* a socket is assigned *)
  rp_crypto : option Z;
  handshake : option Handshaker;
  congestion : option CongestionControl;
  rp_receipt : option ReceiptTracker;
  assembly : ReassemblyBuffer;
  stats : PeerStats;
  rp_id : Z;
  disconnect : Z;
  reserved : bool;
  active : bool;
}.

Definition RemotePeer_new : RemotePeer :=
  mkRemote ∅ no_address [] [] false None None None None ∅ PeerStats_new 0 0 false false.

Definition set_channels (m : gmap Z (ChannelBuffer Packet)) (r : RemotePeer) : RemotePeer :=
  mkRemote m (addr r) (outbox r) (sentbox r) (socket r) (rp_crypto r) (handshake r) (congestion r) (rp_receipt r)
    (assembly r) (stats r) (rp_id r) (disconnect r) (reserved r) (active r).
Definition set_outbox (l : list OutgoingPacket) (r : RemotePeer) : RemotePeer :=
  mkRemote (channels r) (addr r) l (sentbox r) (socket r) (rp_crypto r) (handshake r) (congestion r) (rp_receipt r)
    (assembly r) (stats r) (rp_id r) (disconnect r) (reserved r) (active r).
Definition set_sentbox (l : list OutgoingDatagram) (r : RemotePeer) : RemotePeer :=
  mkRemote (channels r) (addr r) (outbox r) l (socket r) (rp_crypto r) (handshake r) (congestion r) (rp_receipt r)
    (assembly r) (stats r) (rp_id r) (disconnect r) (reserved r) (active r).
Definition set_congestion (c : CongestionControl) (r : RemotePeer) : RemotePeer :=
  mkRemote (channels r) (addr r) (outbox r) (sentbox r) (socket r) (rp_crypto r) (handshake r) (Some c) (rp_receipt r)
    (assembly r) (stats r) (rp_id r) (disconnect r) (reserved r) (active r).
Definition set_receipt (t : ReceiptTracker) (r : RemotePeer) : RemotePeer :=
  mkRemote (channels r) (addr r) (outbox r) (sentbox r) (socket r) (rp_crypto r) (handshake r) (congestion r) (Some t)
    (assembly r) (stats r) (rp_id r) (disconnect r) (reserved r) (active r).
Definition set_assembly (b : ReassemblyBuffer) (r : RemotePeer) : RemotePeer :=
  mkRemote (channels r) (addr r) (outbox r) (sentbox r) (socket r) (rp_crypto r) (handshake r) (congestion r) (rp_receipt r)
    b (stats r) (rp_id r) (disconnect r) (reserved r) (active r).
Definition set_stats (s : PeerStats) (r : RemotePeer) : RemotePeer :=
  mkRemote (channels r) (addr r) (outbox r) (sentbox r) (socket r) (rp_crypto r) (handshake r) (congestion r) (rp_receipt r)
    (assembly r) s (rp_id r) (disconnect r) (reserved r) (active r).

Definition IsConnected (r : RemotePeer) : bool :=
  active r && match handshake r with Some h => m_result h =? result_code CR_OK | None => false end.
Definition IsOutOfBand (r : RemotePeer) : bool :=
  (rp_id r =? 0) || match handshake r with None => true | Some _ => false end.
Definition IsDisconnecting (r : RemotePeer) : bool := Timestamp_IsValid (disconnect r).

(** Accesses through the unique_ptr members. *)
Definition get_congestion (r : RemotePeer) : outcome CongestionControl :=
  match congestion r with Some c => Ret c | None => Fail NullPointer end.
Definition get_receipt (r : RemotePeer) : outcome ReceiptTracker :=
  match rp_receipt r with Some t => Ret t | None => Fail NullPointer end.

(** Setup(master, origin); [encryption] is master->GetEncryptionEnabled() and
    [identity] master->GetEncryptionIdentity(); [made] is the result of
    make_shared<DefaultEncryption>(), kept in the table [layers] under [handle]. *)
Definition Setup {crypto} {layer : EncryptionLayer crypto} (now : Z) (encryption : bool) (identity : option Keypair)
    (made : outcome crypto) (handle : Z) (origin : ConnectionOrigin) (layers : gmap Z crypto) (r : RemotePeer)
    : outcome (gmap Z crypto * RemotePeer) :=
  let r := mkRemote (channels r) (addr r) (outbox r) (sentbox r) (socket r) (rp_crypto r) (handshake r)
             (Some (CongestionControl_new now)) (Some ReceiptTracker_new)
             (assembly r) (stats r) (rp_id r) (disconnect r) true (active r) in
  if bool_decide (origin = ORIGIN_INVALID) then mret (layers, r) else
  c ← made;
  let layers := <[handle := SetLocalIdentity identity c]> layers in
  h ← Handshaker_new encryption origin;
  mret (layers, mkRemote (channels r) (addr r) (outbox r) (sentbox r) (socket r) (Some handle) (Some h)
                  (congestion r) (rp_receipt r) (assembly r) (stats r) (rp_id r) (disconnect r) (reserved r) (active r)).

Definition Reset_remote (r : RemotePeer) : RemotePeer :=
  mkRemote ∅ no_address [] [] false None None None None ∅ PeerStats_new 0 0 false false.

(** ** Outbox and sentbox *)

(** The index of the first element that satisfies a test: std::find_if. *)
Fixpoint find_index {A} (test : A -> bool) (l : list A) : option nat :=
  match l with
  | [] => None
  | x :: l => if test x then Some O else match find_index test l with Some i => Some (S i) | None => None end
  end.

Definition erase_at {A} (i : nat) (l : list A) : list A := take i l ++ drop (S i) l.

Definition GetOutgoingPacketByID (packetID : Z) (box : list OutgoingPacket) : option nat :=
  find_index (fun p => op_id p =? packetID) box.

Definition RemovePacketFromOutbox (remove : Z) (box : list OutgoingPacket) : list OutgoingPacket :=
  match GetOutgoingPacketByID remove box with Some i => erase_at i box | None => box end.

Definition find_datagram (id : Z) (box : list OutgoingDatagram) : option nat := find_index (fun d => od_id d =? id) box.

(** The loop over the packets of an acknowledged datagram. *)
Fixpoint ack_packets (packets : list Z) (t : ReceiptTracker) (box : list OutgoingPacket)
    : outcome (ReceiptTracker * list OutgoingPacket * list receipt) :=
  match packets with
  | [] => Ret (t, box, [])
  | packetID :: packets =>
      '(t, rs) ← Acknowledge packetID t;
      '(t, box, rs') ← ack_packets packets t (RemovePacketFromOutbox packetID box);
      mret (t, box, rs ++ rs')
  end.

Fixpoint HandleAcknowledgements (now : Z) (acklist : list Z) (r : RemotePeer) : outcome (RemotePeer * list receipt) :=
  match acklist with
  | [] => Ret (r, [])
  | ack :: acklist =>
      '(r, rs) ← (match find_datagram ack (sentbox r) with
        | None => Ret (r, [])
        | Some i =>
            packets ← (match sentbox r !! i with Some d => Ret (od_packets d) | None => Fail OutOfBounds end);
            '(t, box, rs) ← (match packets with [] => Ret (rp_receipt r, outbox r, [])
                             | _ => t ← get_receipt r; '(t, box, rs) ← ack_packets packets t (outbox r); mret (Some t, box, rs) end);
            let r := mkRemote (channels r) (addr r) box (erase_at i (sentbox r)) (socket r) (rp_crypto r) (handshake r)
                       (congestion r) t (assembly r) (stats r) (rp_id r) (disconnect r) (reserved r) (active r) in
            mret (r, rs)
        end);
      c ← get_congestion r;
      '(r, rs') ← HandleAcknowledgements now acklist (set_congestion (NotifyReceivedAck now ack c) r);
      mret (r, rs ++ rs')
  end.

Definition set_sendNext (t : Z) (p : OutgoingPacket) : OutgoingPacket :=
  mkOut (op_crypto p) (op_blob p) (op_addr p) t (op_sendCount p) (op_id p) (op_options p).
Definition set_sendCount (n : Z) (p : OutgoingPacket) : OutgoingPacket :=
  mkOut (op_crypto p) (op_blob p) (op_addr p) (op_sendNext p) n (op_id p) (op_options p).

(** The loop over the packets of a datagram that was reported lost. *)
Fixpoint resend_packets (now : Z) (packets : list Z) (box : list OutgoingPacket) : list OutgoingPacket :=
  match packets with
  | [] => box
  | packetID :: packets =>
      resend_packets now packets
        (match GetOutgoingPacketByID packetID box with Some i => alter (set_sendNext now) i box | None => box end)
  end.

Fixpoint nak_datagrams (now : Z) (naklist : list Z) (r : RemotePeer) : RemotePeer :=
  match naklist with
  | [] => r
  | nak :: naklist =>
      nak_datagrams now naklist
        (match find_datagram nak (sentbox r) with
         | None => r
         | Some i =>
             let packets := match sentbox r !! i with Some d => od_packets d | None => [] end in
             set_sentbox (erase_at i (sentbox r)) (set_outbox (resend_packets now packets (outbox r)) r)
         end)
  end.

Definition HandleNonAcknowledgements (now : Z) (naklist : list Z) (r : RemotePeer) : outcome RemotePeer :=
  let r := nak_datagrams now naklist r in
  c ← get_congestion r;
  mret (set_congestion (NotifyReceivedNakGroup c) r).

(** GetChannelBuffer(master, index): the index is looked up with at() in the list
    of channel modes; the buffer is made on first use. *)
Definition GetChannelBuffer (modes : list ChannelMode) (index : Z) (r : RemotePeer)
    : outcome (option (ChannelMode * ChannelBuffer Packet) * RemotePeer) :=
  if index =? 0 then Ret (None, r) else
  match modes !! Z.to_nat index with
  | None => Fail OutOfRange
  | Some UNORDERED => Ret (None, r)
  | Some mode =>
      let buffer := default (ChannelBuffer_new index) (channels r !! index) in
      Ret (Some (mode, buffer), set_channels (<[index := buffer]> (channels r)) r)
  end.

(** ** DatagramBuilder *)

Definition suitable (now maxLength : Z) (wantResend : bool) (p : OutgoingPacket) : bool :=
  (m_length (op_blob p) <=? maxLength) &&
  ((wantResend && (0 <? op_sendCount p)) || (negb wantResend && (op_sendCount p =? 0))) &&
  Elapsed now (op_sendNext p).

Definition GetQueuedPacket (now maxLength : Z) (wantResend : bool) (box : list OutgoingPacket) : option nat :=
  find_index (suitable now maxLength wantResend) box.

(** [outgoing->sendNext = Time::Now() + GetRetransmissionRTO(outgoing->sendCount)] *)
Definition schedule (now : Z) (c : CongestionControl) (p : OutgoingPacket) : OutgoingPacket :=
  set_sendNext (Timestamp_add now (GetRetransmissionRTO (op_sendCount p) c)) p.

(** The send queue is a list of pointers into the outbox. *)
Definition Datagram_AddResendPacket (now budget : Z) (sendQueue : list nat) (r : RemotePeer) : outcome (list nat * RemotePeer) :=
  match GetQueuedPacket now budget true (outbox r) with
  | None => Ret (sendQueue, r)
  | Some i =>
      c ← get_congestion r;
      mret (sendQueue ++ [i], set_stats (Stats_Add PACKETS_LOST 1 (stats r)) (set_outbox (alter (schedule now c) i (outbox r)) r))
  end.

Definition Datagram_AddNewPacket (now budget : Z) (sendQueue : list nat) (r : RemotePeer) : outcome (Z * list nat * RemotePeer) :=
  match GetQueuedPacket now budget false (outbox r) with
  | None => Ret (0, sendQueue, r)
  | Some i =>
      c ← get_congestion r;
      let len := match outbox r !! i with Some p => m_length (op_blob p) | None => 0 end in
      mret (u64 (budget - len), sendQueue ++ [i], set_outbox (alter (schedule now c) i (outbox r)) r)
  end.

(** [while (budgetSend > 0) ...]; a round sets the budget to zero or takes the
    length of a packet off it. *)
Fixpoint fill_loop (fuel : nat) (now budgetSend : Z) (sendQueue : list nat) (r : RemotePeer) : outcome (list nat * RemotePeer) :=
  match fuel with
  | O => Fail OutOfFuel
  | S fuel =>
      if budgetSend <=? 0 then Ret (sendQueue, r) else
      if IsOutOfBand r && negb (bool_decide (sendQueue = [])) then Ret (sendQueue, r) else
      '(budgetSend, sendQueue, r) ← Datagram_AddNewPacket now budgetSend sendQueue r;
      fill_loop fuel now budgetSend sendQueue r
  end.

Definition fill_fuel (budgetSend : Z) : nat := S (S (Z.to_nat budgetSend)).

(** What building a datagram came to: nothing to send, a datagram, or a packet
    that was sent too often, for which the master posts a negative receipt if
    asked to and disconnects. *)
Inductive built : Type :=
  | NoDatagram
  | NewDatagram (d : OutgoingDatagram)
  | PacketTimedOut (id : Z) (lost : list receipt).

(** The first loop over the send queue: count the attempts, add up the lengths. *)
Fixpoint count_sends (sendQueue : list nat) (box : list OutgoingPacket) (dataLength : Z) (packets : list Z)
    : outcome (option (Z * list receipt) * list OutgoingPacket * Z * list Z) :=
  match sendQueue with
  | [] => Ret (None, box, dataLength, packets)
  | i :: sendQueue =>
      match box !! i with
      | None => Fail OutOfBounds
      | Some p =>
          let sendCount := u32 (op_sendCount p + 1) in
          let box := alter (set_sendCount sendCount) i box in
          if SEND_RETRY_COUNT <? sendCount
          then Ret (Some (op_id p, if HasFlag p WITH_RECEIPT then [(op_id p, false)] else []), box, dataLength, packets)
          else count_sends sendQueue box (u64 (dataLength + m_length (op_blob p))) (packets ++ [op_id p])
      end
  end.

(** The second loop: concatenate the blobs, run on the stream of the datagram;
    erasing an unreliable packet invalidates the pointers from [limit] on. *)
Fixpoint concat_blobs (sendQueue : list nat) (limit : nat) (box : list OutgoingPacket) : SM (list OutgoingPacket) :=
  match sendQueue with
  | [] => mret box
  | i :: sendQueue =>
      if bool_decide (limit <= i)%nat then fail Dangling else
      match box !! i with
      | None => fail OutOfBounds
      | Some p =>
          WriteBytes_stream (op_blob p);;
          if HasFlag p RELIABLE then concat_blobs sendQueue limit box
          else match GetOutgoingPacketByID (op_id p) box with
               | Some j => concat_blobs sendQueue (Nat.min limit j) (erase_at j box)
               | None => concat_blobs sendQueue limit box
               end
      end
  end.

(** The first half of MakeDatagram: the packets that fill up the datagram. *)
Definition select_packets (now budgetResend budgetSend : Z) (r : RemotePeer) : outcome (list nat * RemotePeer) :=
  '(sendQueue, r) ← (if 0 <? budgetResend then Datagram_AddResendPacket now budgetResend [] r else Ret ([], r));
  fill_loop (fill_fuel budgetSend) now budgetSend sendQueue r.

(** The second half: a datagram to contain all the packets in sendQueue. *)
Definition build_datagram (now : Z) (sendQueue : list nat) (r : RemotePeer) : outcome (built * RemotePeer) :=
  match sendQueue with
  | [] => Ret (NoDatagram, r)
  | first :: _ =>
      c ← get_congestion r;
      let '(id, c) := GetNextDatagramID c in
      let r := set_congestion c r in
      first ← (match outbox r !! first with Some p => Ret p | None => Fail OutOfBounds end);
      let link := IsConnected r in
      '(timeout, box, dataLength, packets) ← count_sends sendQueue (outbox r) 0 [];
      match timeout with
      | Some (packet, lost) => Ret (PacketTimedOut packet lost, set_outbox box r)
      | None =>
          blob ← BinaryStream_new BINARYSTREAM_DEFAULT_CAPACITY;
          '(_, blob) ← DatagramHeader_Serialize (mkDH true link [] [] id dataLength) blob;
          '(box, blob) ← concat_blobs sendQueue (length box) box blob;
          let d := mkDatagram (op_crypto first) blob (op_addr first) id (Timestamp_add now (FromSeconds 5)) packets in
          let r := set_stats (Stats_Add PACKETS_SENT (zlength sendQueue) (stats r)) (set_outbox box r) in
          mret (NewDatagram d, set_sentbox (sentbox r ++ [d]) r)
      end
  end.

Definition MakeDatagram (now : Z) (r : RemotePeer) : outcome (built * RemotePeer) :=
  if bool_decide (outbox r = []) then Ret (NoDatagram, r) else
  c ← get_congestion r;
  let budgetResend := GetRetransmissionBudget c in
  let budgetSend := GetTransmissionBudget c in
  if (budgetSend =? 0) && (budgetResend =? 0) then Ret (NoDatagram, r) else
  '(sendQueue, r) ← select_packets now budgetResend budgetSend r;
  build_datagram now sendQueue r.

Definition MakeAckgram (now : Z) (r : RemotePeer) : outcome (OutgoingDatagram * RemotePeer) :=
  c ← get_congestion r;
  let '(acks, nacks, c) := MakeAckList c in
  let '(id, c) := GetNextDatagramID c in
  blob ← BinaryStream_new BINARYSTREAM_DEFAULT_CAPACITY;
  '(_, blob) ← DatagramHeader_Serialize (mkDH false true acks nacks id 0) blob;
  let d := mkDatagram None blob (addr r) id (Timestamp_add now (FromSeconds 1)) [] in
  mret (d, set_sentbox (sentbox r ++ [d]) (set_congestion c r)).

Definition GetNextDatagram (now : Z) (r : RemotePeer) : outcome (built * RemotePeer) :=
  c ← get_congestion r;
  if GetNeedsToSendAcks now c
  then '(d, r) ← MakeAckgram now r; mret (NewDatagram d, r)
  else MakeDatagram now r.
End RemotePeer.
Arguments OutgoingPacket : clear implicits.
Arguments OutgoingDatagram : clear implicits.
Arguments RemotePeer : clear implicits.

(** ** Searching *)

Lemma find_index_Some {A} (test : A -> bool) l i : find_index test l = Some i -> exists x, l !! i = Some x /\ test x = true.
Proof.
  revert i. induction l as [|y l IH]; intros i H; cbn in H; [done|]. destruct (test y) eqn:E.
  - injection H as <-. now exists y.
  - destruct (find_index test l) as [j|] eqn:Ej; [|done]. injection H as <-. exact (IH j eq_refl).
Qed.

Lemma find_index_None {A} (test : A -> bool) l : find_index test l = None -> forall x, x ∈ l -> test x = false.
Proof.
  induction l as [|y l IH]; intros H x Hx; [now apply not_elem_of_nil in Hx|]. cbn in H. destruct (test y) eqn:E; [done|].
  destruct (find_index test l); [done|]. apply elem_of_cons in Hx as [->|Hx]; [done|]. now apply IH.
Qed.

(** ** The blobs of the outbox *)

Section Blobs.
Context {RemoteAddress : Type}.

(** No packet of the outbox is empty: each begins with a header. *)
Definition blobs_ok (box : list (OutgoingPacket RemoteAddress)) : Prop := Forall (fun m => 0 < m_length (op_blob m)) box.

Lemma alter_blobs_ok f i box : (forall m, op_blob (f m) = op_blob m) -> blobs_ok box -> blobs_ok (alter f i box).
Proof. intros Hf H. apply Forall_alter; [exact H|]. intros m _ Hm. now rewrite Hf. Qed.
Lemma erase_blobs_ok i box : blobs_ok box -> blobs_ok (erase_at i box).
Proof. intros H. apply Forall_app. split; [now apply Forall_take|now apply Forall_drop]. Qed.
Lemma remove_blobs_ok id box : blobs_ok box -> blobs_ok (RemovePacketFromOutbox id box).
Proof. intros H. unfold RemovePacketFromOutbox. destruct (GetOutgoingPacketByID id box); [now apply erase_blobs_ok|done]. Qed.
Lemma resend_blobs_ok now ids : forall box, blobs_ok box -> blobs_ok (resend_packets now ids box).
Proof.
  induction ids as [|id ids IH]; intros box H; cbn [resend_packets]; [done|]. apply IH. destruct (GetOutgoingPacketByID id box); [|done].
  now apply alter_blobs_ok.
Qed.
Lemma ack_blobs_ok ids : forall t box t' box' rs, ack_packets ids t box = Ret (t', box', rs) -> blobs_ok box -> blobs_ok box'.
Proof.
  induction ids as [|id ids IH]; intros t box t' box' rs E H; cbn [ack_packets] in E; [now run_all|].
  run_step E. destruct a as [t1 rs1]. run_step E. destruct a as [[t2 box2] rs2]. run_step E. eapply IH; [eassumption|]. now apply remove_blobs_ok.
Qed.
Lemma count_blobs_ok q : forall box n ids o box' n' ids', count_sends q box n ids = Ret (o, box', n', ids') -> blobs_ok box -> blobs_ok box'.
Proof.
  induction q as [|i q IH]; intros box n ids o box' n' ids' E H; cbn [count_sends] in E; [now run_all|].
  destruct (box !! i) as [m|]; [|discriminate]. assert (blobs_ok (alter (set_sendCount (u32 (op_sendCount m + 1))) i box)) by now apply alter_blobs_ok.
  destruct (SEND_RETRY_COUNT <? _); [|eapply IH; eauto]. now run_all.
Qed.
Lemma concat_blobs_ok {host : Host} q : forall limit box s box' s', concat_blobs q limit box s = Ret (box', s') -> blobs_ok box -> blobs_ok box'.
Proof.
  induction q as [|i q IH]; intros limit box s box' s' E H; cbn [concat_blobs] in E; [now run_all|].
  destruct (bool_decide _); [discriminate|]. destruct (box !! i) as [m|]; [|discriminate]. run_step E. destruct (HasFlag m RELIABLE); [eapply IH; eauto|].
  destruct (GetOutgoingPacketByID _ box); [|eapply IH; eauto]. eapply IH; [exact E|]. now apply erase_blobs_ok.
Qed.
End Blobs.
