(* ===== verification/PacketQueue.v ===== *)
(** * PacketQueue: queueing packets and delivering them

    Model of the operations of source/PacketQueue.{h,cpp} that work on one
    connection: queueing outgoing, out-of-band and loopback packets, taking packets
    from the inbox, the delivery of a received packet or segment, and the write
    cycle. *)

From stdpp Require Import base tactics gmap sets list list_numbers numbers option.
From Stdlib Require Import ZArith Lia.
From S2P Require Import Prelude Memory BinaryStream StreamSpec StreamCodec Config PeerStats Packet Headers.
From S2P Require Import ChannelBuffer CongestionControl Reassembly ReceiptTracker Encryption RemotePeer.

Open Scope Z_scope.

Section PacketQueue.
Context {host : Host} {RemoteAddress : Type}.

Abbreviation RemotePeer := (RemotePeer RemoteAddress).
Abbreviation OutgoingPacket := (OutgoingPacket RemoteAddress).

(** The body of the segment loop; [meta] goes to the back of the outbox. *)
Definition enqueue_segment (now : Z) (packet : Packet) (full : BinaryStream) (options channel sequence container segments i : Z)
    (addr : RemoteAddress) (c : CongestionControl) : outcome (Z * OutgoingPacket * CongestionControl) :=
  let '(id, c) := if 1 <? segments then GetNextPacketID c else (container, c) in
  let header := segment_header (pk_length packet) (m_length full) id options channel sequence container i in
  blob ← BinaryStream_new BINARYSTREAM_DEFAULT_CAPACITY;
  '(_, blob) ← PacketHeader_Serialize header blob;
  data ← read_from (deref_ro full) (ph_offset header) (segment_length (m_length full) i);
  '(_, blob) ← WriteBytes data blob;
  mret (id, mkOut None blob addr now 0 id (if 1 <? segments then options_or options RELIABLE else options), c).

(** [for (size_t i = 0; i < segments; i++)], with n rounds left. *)
Fixpoint segment_loop (n : nat) (now : Z) (packet : Packet) (full : BinaryStream) (options channel sequence container segments i : Z)
    (addr : RemoteAddress) (c : CongestionControl) : outcome (list Z * list OutgoingPacket * CongestionControl) :=
  match n with
  | O => Ret ([], [], c)
  | S n =>
      '(id, meta, c) ← enqueue_segment now packet full options channel sequence container segments i addr c;
      '(ids, metas, c) ← segment_loop n now packet full options channel sequence container segments (i + 1) addr c;
      mret (id :: ids, meta :: metas, c)
  end.

(** EnqueueOutgoing(packet, remote, options, priority, channel); the priority is
    not used. *)
Definition EnqueueOutgoing (now : Z) (modes : list ChannelMode) (packet : Packet) (options : Z) (channel : Channel) (r : RemotePeer)
    : outcome (Z * RemotePeer) :=
  if IsDisconnecting r then Ret (0, r) else
  full ← BinaryStream_new (GetDatagramLength packet);
  '(_, full) ← ToDatagram packet full;
  let segments := segment_count (m_length full) in
  c ← get_congestion r;
  let '(container, c) := GetNextPacketID c in
  '(buffer, r) ← GetChannelBuffer modes (ch_id channel) r;
  let '(sequence, r) := match buffer with
    | Some (_, b) => let '(sequence, b) := GetNextOutgoing b in (sequence, set_channels (<[ch_id channel := b]> (channels r)) r)
    | None => (0, r)
    end in
  '(ids, metas, c) ← segment_loop (Z.to_nat segments) now packet full options (ch_id channel) sequence container segments 0 (addr r) c;
  let r := set_congestion c (set_outbox (outbox r ++ metas) r) in
  r ← (if options_and options WITH_RECEIPT then
         t ← get_receipt r;
         let t := Track container t in
         mret (set_receipt (if 1 <? segments then RegisterSplitPacket container (list_to_set ids) t else t) r)
       else mret r);
  mret (container, set_stats (Stats_Add PACKETS_QUEUED 1 (stats r)) r).

(** EnqueueOutOfBand(packet, addr, forceCryptoBy): queued at remote 0; [crypto] is
    the layer of forceCryptoBy, if that is given. *)
Definition EnqueueOutOfBand (now : Z) (packet : Packet) (address : RemoteAddress) (crypto : option Z) (r : RemotePeer) : outcome RemotePeer :=
  let header := mkPH false false 0 UNRELIABLE 0 0 (u32 (GetDatagramLength packet)) 0 0 0 in
  blob ← BinaryStream_new BINARYSTREAM_DEFAULT_CAPACITY;
  '(_, blob) ← PacketHeader_Serialize header blob;
  '(_, blob) ← ToDatagram packet blob;
  mret (set_outbox (outbox r ++ [mkOut crypto blob address now 0 0 UNRELIABLE]) r).

(** The inbox, a queue of packets. *)
Definition EnqueueLoopback (packet : Packet) (inbox : list Packet) : outcome (list Packet) :=
  p ← Packet_copy packet; mret (inbox ++ [p]).

Definition DequeueIncoming (inbox : list Packet) : option Packet * list Packet :=
  match inbox with [] => (None, []) | p :: inbox => (Some p, inbox) end.

(** HandleIncomingPacket(remote, header, packet) *)
Definition HandleIncomingPacket (modes : list ChannelMode) (header : PacketHeader) (packet : Packet) (inbox : list Packet) (r : RemotePeer)
    : outcome (list Packet * RemotePeer) :=
  '(buffer, r) ← GetChannelBuffer modes (ph_channel header) r;
  match buffer with
  | Some (mode, b) =>
      let '(ps, b) := deliver mode (ph_sequence header) packet b in
      mret (inbox ++ ps, set_channels (<[ph_channel header := b]> (channels r)) r)
  | None => mret (inbox ++ [packet], r)
  end.

(** HandleSplitPacket(remote, header, instream), run on instream. *)
Definition Queue_HandleSplitPacket (modes : list ChannelMode) (header : PacketHeader) (inbox : list Packet) (r : RemotePeer)
    : SM (list Packet * RemotePeer) :=
  '(p, rb) ← HandleSplitPacket (rp_id r) header (assembly r);
  let r := set_assembly rb r in
  match p with
  | None => mret (inbox, r)
  | Some p => lift (HandleIncomingPacket modes header p inbox r)
  end.

(** ** DoWriteCycle *)

(** What a write cycle did: nothing, an asynchronous write of a datagram, or a
    call of DisconnectImmediate after posting the given receipts. *)
Inductive write_result : Type :=
  | Idle
  | Wrote (address : RemoteAddress) (datagram : BinaryStream)
  | WantsDisconnect (lost : list receipt).

Section Write.
Context {crypto : Type} {layer : EncryptionLayer crypto}.

(** The layer used for a datagram, dereferenced; the datagram's own comes first. *)
Definition datagram_layer (layers : gmap Z crypto) (d : OutgoingDatagram RemoteAddress) (r : RemotePeer) : option crypto :=
  match od_crypto d with
  | Some h => layers !! h
  | None => match rp_crypto r with Some h => layers !! h | None => None end
  end.

(** The blob that is written, or None when the layer has to bail out. *)
Definition protect (entropy : Z) (encryption : bool) (c : option crypto) (blob : BinaryStream) : outcome (option BinaryStream) :=
  match c with
  | Some c =>
      if encryption && GetCryptoEstablished c
      then blob ← Encrypt entropy blob c; mret (if GetNeedsToBail c then None else Some blob)
      else mret (Some blob)
  | None => mret (Some blob)
  end.

(** Replacing the blob of the datagram just pushed to the sentbox. *)
Definition set_last_blob (blob : BinaryStream) (box : list (OutgoingDatagram RemoteAddress)) : list (OutgoingDatagram RemoteAddress) :=
  alter (fun d => mkDatagram (od_crypto d) blob (od_addr d) (od_id d) (od_discard d) (od_packets d)) (pred (length box)) box.

(** DoWriteCycle(remote); [pending] is socket->IsWritePending(). *)
Definition DoWriteCycle (now entropy : Z) (encryption pending : bool) (layers : gmap Z crypto) (r : RemotePeer)
    : outcome (write_result * RemotePeer) :=
  if pending then Ret (Idle, r) else
  let r := set_stats (Stats_Set PACKETS_IN_QUEUE (zlength (outbox r)) (stats r)) r in
  '(b, r) ← GetNextDatagram now r;
  match b with
  | NoDatagram => Ret (Idle, r)
  | PacketTimedOut _ lost => Ret (WantsDisconnect lost, r)
  | NewDatagram d =>
      blob ← protect entropy encryption (datagram_layer layers d r) (od_blob d);
      match blob with
      | None => Ret (WantsDisconnect [], r)
      | Some blob =>
          c ← get_congestion r;
          let st := Stats_Add DATAGRAMS_SENT 1 (Stats_Add BYTES_SENT (m_length blob) (stats r)) in
          mret (Wrote (od_addr d) blob,
                set_congestion (NotifySendingBytes now (od_id d) (m_length blob) c)
                  (set_stats st (set_sentbox (set_last_blob blob (sentbox r)) r)))
      end
  end.
End Write.
End PacketQueue.
