(* ===== verification/Peer.v ===== *)
(** * Peer: the slots of a peer, connecting, disconnecting and system messages

    Model of source/Peer.{h,cpp}.  The state holds the slots, the inbox of the
    PacketQueue that the peer owns, the table of encryption layers that the slots
    and queued packets share, and the calls made to RPC callbacks.  A RemotePeer*
    is the index of its slot.  The handlers that Peer registers with a handshaker
    are run on the effects the handshaker recorded, in order.  Peer::Stop sleeps
    while the network threads go on, so it is two operations. *)

From stdpp Require Import base tactics gmap sets list list_numbers numbers option.
From Stdlib Require Import ZArith Lia.
From S2P Require Import Prelude Memory BinaryStream StreamSpec StreamCodec Config PeerStats Packet Headers.
From S2P Require Import ChannelBuffer CongestionControl Reassembly ReceiptTracker RpcController Encryption Handshake Socket RemotePeer PacketQueue.

Open Scope Z_scope.

Section Peer.
Context {host : Host} {sign : CharSign} {RemoteAddress : Type} {address_eq : EqDecision RemoteAddress} (no_address : RemoteAddress).
Context {crypto : Type} {layer : EncryptionLayer crypto} (make_layer : Z -> outcome crypto) {callback : Type}.

Abbreviation RemotePeer := (RemotePeer RemoteAddress).
Abbreviation SocketUDP := (SocketUDP RemoteAddress).

Record Peer : Type := mkPeer {
  m_id : Z;
  m_remotesMax : Z;
  m_remotesIncoming : Z;
  m_advertisement : BinaryStream;
  m_rpc : gmap Z (list callback);
  m_masterSocket : SocketUDP;
  m_remotes : list RemotePeer;
  m_inbox : list Packet;                 (* of *m_queue *)
  m_remoteLookup : gmap Z nat;
  m_channels : list ChannelMode;
  m_crypto_identity : option Keypair;
  m_crypto_enabled : bool;
  p_layers : gmap Z crypto;              (* the EncryptionLayer objects *)
  p_fresh : Z;                           (* a handle not in use *)
  p_calls : list (invocation callback);
}.

Definition set_remotes (l : list RemotePeer) (p : Peer) : Peer :=
  mkPeer (m_id p) (m_remotesMax p) (m_remotesIncoming p) (m_advertisement p) (m_rpc p) (m_masterSocket p) l (m_inbox p)
    (m_remoteLookup p) (m_channels p) (m_crypto_identity p) (m_crypto_enabled p) (p_layers p) (p_fresh p) (p_calls p).
Definition set_inbox (l : list Packet) (p : Peer) : Peer :=
  mkPeer (m_id p) (m_remotesMax p) (m_remotesIncoming p) (m_advertisement p) (m_rpc p) (m_masterSocket p) (m_remotes p) l
    (m_remoteLookup p) (m_channels p) (m_crypto_identity p) (m_crypto_enabled p) (p_layers p) (p_fresh p) (p_calls p).
Definition set_lookup (m : gmap Z nat) (p : Peer) : Peer :=
  mkPeer (m_id p) (m_remotesMax p) (m_remotesIncoming p) (m_advertisement p) (m_rpc p) (m_masterSocket p) (m_remotes p) (m_inbox p)
    m (m_channels p) (m_crypto_identity p) (m_crypto_enabled p) (p_layers p) (p_fresh p) (p_calls p).
Definition set_layers (m : gmap Z crypto) (fresh : Z) (p : Peer) : Peer :=
  mkPeer (m_id p) (m_remotesMax p) (m_remotesIncoming p) (m_advertisement p) (m_rpc p) (m_masterSocket p) (m_remotes p) (m_inbox p)
    (m_remoteLookup p) (m_channels p) (m_crypto_identity p) (m_crypto_enabled p) m fresh (p_calls p).
Definition set_socket (s : SocketUDP) (p : Peer) : Peer :=
  mkPeer (m_id p) (m_remotesMax p) (m_remotesIncoming p) (m_advertisement p) (m_rpc p) s (m_remotes p) (m_inbox p)
    (m_remoteLookup p) (m_channels p) (m_crypto_identity p) (m_crypto_enabled p) (p_layers p) (p_fresh p) (p_calls p).
Definition set_rpc (m : gmap Z (list callback)) (calls : list (invocation callback)) (p : Peer) : Peer :=
  mkPeer (m_id p) (m_remotesMax p) (m_remotesIncoming p) (m_advertisement p) m (m_masterSocket p) (m_remotes p) (m_inbox p)
    (m_remoteLookup p) (m_channels p) (m_crypto_identity p) (m_crypto_enabled p) (p_layers p) (p_fresh p) calls.
Definition set_identity (k : option Keypair) (enabled : bool) (p : Peer) : Peer :=
  mkPeer (m_id p) (m_remotesMax p) (m_remotesIncoming p) (m_advertisement p) (m_rpc p) (m_masterSocket p) (m_remotes p) (m_inbox p)
    (m_remoteLookup p) (m_channels p) k enabled (p_layers p) (p_fresh p) (p_calls p).
Definition set_options (incoming : Z) (advertisement : BinaryStream) (modes : list ChannelMode) (p : Peer) : Peer :=
  mkPeer (m_id p) (m_remotesMax p) incoming advertisement (m_rpc p) (m_masterSocket p) (m_remotes p) (m_inbox p)
    (m_remoteLookup p) modes (m_crypto_identity p) (m_crypto_enabled p) (p_layers p) (p_fresh p) (p_calls p).

Abbreviation PM := (ST Peer).

(** ** Construction *)

(** GeneratePeerID(): the first number of the generator that is not zero. *)
Fixpoint GeneratePeerID (rng : list Z) : outcome Z :=
  match rng with
  | [] => Fail OutOfFuel
  | ret :: rng => if ret =? 0 then GeneratePeerID rng else Ret ret
  end.

(** Peer(size_t maxPeers) *)
Definition Peer_new (rng : list Z) (maxPeers : Z) : outcome Peer :=
  id ← GeneratePeerID rng;
  advertisement ← BinaryStream_new 0;
  let max := u64 (maxPeers + 1) in
  mret (mkPeer id max 0 advertisement ∅ SocketUDP_new (replicate (Z.to_nat max) (RemotePeer_new no_address)) [] ∅
          [UNORDERED] None false ∅ 0 []).

(** Peer(Peer&&), which is operator=(Peer&&) on a new object: m_advertisement,
    m_rpc, m_crypto_identity and m_crypto_enabled are not transferred. *)
Definition Peer_move (other : Peer) : outcome Peer :=
  advertisement ← BinaryStream_new 0;
  mret (mkPeer (m_id other) (m_remotesMax other) (m_remotesIncoming other) advertisement ∅ (m_masterSocket other) (m_remotes other)
          (m_inbox other) (m_remoteLookup other) (m_channels other) None false (p_layers other) (p_fresh other) (p_calls other)).

(** ** Slots *)

Definition slot (i : nat) : PM RemotePeer :=
  p ← get; match m_remotes p !! i with Some r => mret r | None => fail OutOfBounds end.
Definition set_slot (i : nat) (r : RemotePeer) : PM unit := modify (fun p => set_remotes (<[i := r]> (m_remotes p)) p).
Definition reset_slot (i : nat) : PM unit := r ← slot i; set_slot i (Reset_remote no_address r).

(** The slots 1 .. m_remotesMax - 1 that the loops of Peer go through. *)
Definition numbered (p : Peer) : list RemotePeer := drop 1 (take (Z.to_nat (m_remotesMax p)) (m_remotes p)).

Definition find_slot (test : RemotePeer -> bool) (p : Peer) : option nat := S <$> find_index test (numbered p).

(** GetRemoteByID(id), the linear search, the const and the caching version. *)
Definition search_id (id : Z) (p : Peer) : option nat := find_slot (fun r => (rp_id r =? id) && active r) p.
Definition GetRemoteByID_const (id : Z) (p : Peer) : option nat :=
  match m_remoteLookup p !! id with Some i => Some i | None => search_id id p end.
Definition GetRemoteByID (id : Z) : PM (option nat) :=
  p ← get;
  match m_remoteLookup p !! id with
  | Some i => mret (Some i)
  | None =>
      match search_id id p with
      | Some i => put (set_lookup (<[id := i]> (m_remoteLookup p)) p);; mret (Some i)
      | None => mret None
      end
  end.

Definition GetRemoteByAddress (a : RemoteAddress) (p : Peer) : option nat :=
  find_slot (fun r => active r && bool_decide (addr r = a)) p.

Definition GetMaximumPeers (p : Peer) : Z := u64 (m_remotesMax p - 1).
Definition GetMaximumIncomingPeers (p : Peer) : Z := m_remotesIncoming p.
Definition SetMaximumIncomingPeers (incoming : Z) : PM unit := modify (fun p =>
  set_options (Z.min (Z.max incoming 0) (GetMaximumPeers p)) (m_advertisement p) (m_channels p) p).

Definition GetNextAvailableConnectSlot (p : Peer) : option nat :=
  find_index (fun r => negb (reserved r)) (take (Z.to_nat (m_remotesMax p)) (m_remotes p)).

(** The loop from i down to minIndex, with i - minIndex + 1 rounds left. *)
Fixpoint search_down (rounds : nat) (i : nat) (p : Peer) : option nat :=
  match rounds with
  | O => None
  | S rounds =>
      match m_remotes p !! i with
      | Some r => if negb (reserved r) then Some i else search_down rounds (pred i) p
      | None => None
      end
  end.
Definition GetNextAvailableIncomingSlot (p : Peer) : option nat :=
  if GetMaximumIncomingPeers p =? 0 then None
  else search_down (Z.to_nat (GetMaximumIncomingPeers p)) (Z.to_nat (m_remotesMax p - 1)) p.

(** Running a function of PacketQueue or RemotePeer on a slot. *)
Definition on_slot {A} (i : nat) (f : RemotePeer -> outcome (A * RemotePeer)) : PM A :=
  r ← slot i; '(a, r) ← lift (f r); set_slot i r;; mret a.

(** m_queue->EnqueueOutOfBand(packet, addr, forceCryptoBy) *)
Definition Queue_OutOfBand (now : Z) (packet : Packet) (a : RemoteAddress) (handle : option Z) : PM unit :=
  on_slot 0 (fun r => r ← EnqueueOutOfBand now packet a handle r; mret (tt, r)).

Definition SendLoopback (packet : Packet) : PM unit :=
  p ← get; inbox ← lift (EnqueueLoopback packet (m_inbox p)); put (set_inbox inbox p).

Definition SendOutOfBand (now : Z) (packet : Packet) (a : RemoteAddress) : PM unit := Queue_OutOfBand now packet a None.

(** A Packet(cmd, nullptr, 0). *)
Definition command_packet (cmd : Z) : PM Packet := lift (Packet_from_buffer cmd (Fail NullPointer) 0).

(** OnMessageReceipt(id, acked) *)
Definition OnMessageReceipt (r : receipt) : PM unit :=
  outstream ← lift (BinaryStream_new 4);
  '(_, outstream) ← lift (WriteInt32 (fst r) outstream);
  '(notification, _) ← lift (Packet_take_stream (if snd r then NOTIFY_RECEIPT_ACKED else NOTIFY_RECEIPT_LOST) outstream);
  SendLoopback (SetSender (fst r) notification).

Fixpoint post_receipts (rs : list receipt) : PM unit :=
  match rs with [] => mret tt | r :: rs => OnMessageReceipt r;; post_receipts rs end.

(** ** Handshakes *)

Definition set_handshake (h : Handshaker) (id : Z) (r : RemotePeer) : RemotePeer :=
  mkRemote (channels r) (addr r) (outbox r) (sentbox r) (socket r) (rp_crypto r) (Some h) (congestion r) (rp_receipt r)
    (assembly r) (stats r) id (disconnect r) (reserved r) (active r).

(** SendHandshakePart(remote, outstream); [established] was read at the time of
    the call. *)
Definition SendHandshakePart (now : Z) (i : nat) (outstream : BinaryStream) (established : bool) : PM unit :=
  r ← slot i;
  '(packet, _) ← lift (Packet_take_stream CONNECT_ATTEMPT outstream);
  Queue_OutOfBand now packet (addr r) (if established then rp_crypto r else None).

(** SendHandshakeCompleteNotification(remote, notification) *)
Definition SendHandshakeCompleteNotification (i : nat) (notification : Packet) : PM unit :=
  r ← slot i;
  h ← lift (match handshake r with Some h => Ret h | None => Fail NullPointer end);
  let isRemote := bool_decide (m_origin h = REMOTE) in
  let isFailure := negb (m_result h =? result_code CR_OK) in
  (if negb isRemote || negb isFailure then SendLoopback (SetSender (rp_id r) notification) else mret tt);;
  if isFailure then reset_slot i else mret tt.

Fixpoint run_effects (now : Z) (i : nat) (es : list hs_effect) : PM unit :=
  match es with
  | [] => mret tt
  | SendPart outstream established :: es => SendHandshakePart now i outstream established;; run_effects now i es
  | Completed notification :: es => SendHandshakeCompleteNotification i notification;; run_effects now i es
  end.

(** What the handshaker of slot i sees of this peer. *)
Definition settings_of (i : nat) (p : Peer) : settings :=
  mkSettings (m_id p) (m_crypto_enabled p)
    (fun id => match GetRemoteByID_const id p with Some j => negb (bool_decide (i = j)) | None => false end).

(** A call of a member function of the handshaker of slot i. *)
Definition with_handshake (now : Z) (i : nat) (m : settings -> ST (HState crypto) unit) : PM unit :=
  r ← slot i;
  h ← lift (match handshake r with Some h => Ret h | None => Fail NullPointer end);
  p ← get;
  c ← lift (match rp_crypto r with
            | Some handle => match p_layers p !! handle with Some c => Ret c | None => Fail Dangling end
            | None => Fail NullPointer end);
  '(_, s) ← lift (m (settings_of i p) (mkHState h c (rp_id r) true []));
  set_slot i (set_handshake (st_hs s) (st_remote_id s) r);;
  modify (fun p => set_layers (match rp_crypto r with Some handle => <[handle := st_crypto s]> (p_layers p) | None => p_layers p end) (p_fresh p) p);;
  run_effects now i (st_effects s).

(** The peer ID that Handle looks up with GetRemoteByID, if it gets that far. *)
Definition looked_up (packet : Packet) : outcome (option Z) :=
  instream ← GetStream packet;
  '(magic, instream) ← ReadBytes 7 instream;
  magic ← (match magic with Some cs => bytes_of cs | None => Ret (replicate 7 0) end);
  if negb (bool_decide (magic = WIREFOX_MAGIC)) then mret None else
  '(version, instream) ← ReadByte instream;
  if negb (version =? WIREFOX_PROTOCOL_VERSION) then mret None else
  '(remoteID, _) ← ReadUInt64 instream;
  mret (Some remoteID).

(** remote->handshake->Handle(packet): the lookup fills the cache. *)
Definition handle_handshake (now entropy : Z) (i : nat) (packet : Packet) : PM unit :=
  r ← slot i;
  h ← lift (match handshake r with Some h => Ret h | None => Fail NullPointer end);
  p ← get;
  let cfg := settings_of i p in
  (if IsDone h then mret tt else
   id ← lift (looked_up packet);
   match id with Some id => _ ← GetRemoteByID id; mret tt | None => mret tt end);;
  with_handshake now i (fun _ => Handshake_Handle cfg now entropy packet).

(** ** Disconnecting *)

(** OnDisconnect(remote, cmd) *)
Definition OnDisconnect (i : nat) (cmd : Z) : PM unit :=
  r ← slot i;
  modify (fun p => set_lookup (delete (rp_id r) (m_remoteLookup p)) p);;
  notification ← command_packet cmd;
  SendLoopback (SetSender (rp_id r) notification).

(** DisconnectImmediate(remote) *)
Definition DisconnectImmediate (now : Z) (i : nat) : PM unit :=
  r ← slot i;
  match handshake r with
  | None => mret tt
  | Some h =>
      (if IsDone h && (m_result h =? result_code CR_OK)
       then OnDisconnect i (if IsDisconnecting r then NOTIFY_DISCONNECTED else NOTIFY_CONNECTION_LOST)
       else with_handshake now i (fun _ => Complete (result_code CONNECT_FAILED)));;
      reset_slot i
  end.

Definition DisconnectImmediate_id (now who : Z) : PM unit :=
  remote ← GetRemoteByID who;
  match remote with None => mret tt | Some i => DisconnectImmediate now i end.

Definition set_disconnect (t : Z) (r : RemotePeer) : RemotePeer :=
  mkRemote (channels r) (addr r) (outbox r) (sentbox r) (socket r) (rp_crypto r) (handshake r) (congestion r) (rp_receipt r)
    (assembly r) (stats r) (rp_id r) t (reserved r) (active r).

(** Disconnect(who, linger) *)
Definition Disconnect (now who linger : Z) : PM unit :=
  remote ← GetRemoteByID who;
  match remote with
  | None => mret tt
  | Some i =>
      request ← command_packet DISCONNECT_REQUEST;
      p ← get;
      _ ← on_slot i (EnqueueOutgoing now (m_channels p) request RELIABLE Channel_default);
      on_slot i (fun r => mret (tt, set_disconnect (Timestamp_add now linger) r))
  end.

(** The first loop of Stop(linger), over the slots [is]. *)
Fixpoint Stop_begin (now linger : Z) (slots : list nat) : PM unit :=
  match slots with
  | [] => mret tt
  | i :: slots =>
      r ← slot i;
      (if IsConnected r && (0 <? linger) then Disconnect now (rp_id r) linger
       else set_slot i (set_disconnect (Timestamp_add now linger) r));;
      Stop_begin now linger slots
  end.

(** What follows the sleep: the second loop, and Unbind(). *)
Fixpoint reset_slots (slots : list nat) : PM unit :=
  match slots with [] => mret tt | i :: slots => reset_slot i;; reset_slots slots end.
Definition slot_numbers (p : Peer) : list nat := seq 1 (pred (Z.to_nat (m_remotesMax p))).
Definition Stop_end : PM unit :=
  p ← get; reset_slots (slot_numbers p);; modify (fun p => set_socket (Unbind (m_masterSocket p)) p).

(** ** Connecting *)

Definition set_endpoint (a : RemoteAddress) (is_active : bool) (r : RemotePeer) : RemotePeer :=
  mkRemote (channels r) a (outbox r) (sentbox r) true (rp_crypto r) (handshake r) (congestion r) (rp_receipt r)
    (assembly r) (stats r) (rp_id r) (disconnect r) (reserved r) is_active.

(** slot->Setup(this, origin) *)
Definition setup_slot (now entropy : Z) (i : nat) (origin : ConnectionOrigin) : PM unit :=
  r ← slot i;
  p ← get;
  '(layers, r) ← lift (Setup now (m_crypto_enabled p) (m_crypto_identity p) (make_layer entropy) (p_fresh p) origin (p_layers p) r);
  set_slot i r;;
  modify (fun p => set_layers layers (p_fresh p + 1) p).

(** Bind(family, port) *)
Definition Bind (asio : Asio RemoteAddress) (now : Z) (family : SocketProtocol) (port : Z) : PM bool :=
  setup_slot now 0 0 ORIGIN_INVALID;;
  r ← slot 0;
  set_slot 0 (set_endpoint (addr r) true r);;
  p ← get;
  '(ok, s) ← lift (Socket_Bind asio family port (m_masterSocket p));
  put (set_socket s p);;
  mret ok.

(** slot->crypto->ExpectRemoteIdentity(public_key_stream) *)
Definition expect_identity (i : nat) (key : list Z) : PM unit :=
  r ← slot i;
  p ← get;
  stream ← lift (BinaryStream_wrap (Ret (map Some key)) (GetKeyLength crypto) READONLY);
  handle ← lift (match rp_crypto r with Some handle => Ret handle | None => Fail NullPointer end);
  c ← lift (match p_layers p !! handle with Some c => Ret c | None => Fail Dangling end);
  '(c, _) ← lift (ExpectRemoteIdentity c stream);
  put (set_layers (<[handle := c]> (p_layers p)) (p_fresh p) p).

(** Connect(host, port, public_key); [public_key] is None for nullptr. *)
Definition Connect (asio : Asio RemoteAddress) (now entropy : Z) (hostname : list Z) (port : Z) (public_key : option (list Z))
    : PM ConnectAttemptResult :=
  p ← get;
  match GetNextAvailableConnectSlot p with
  | None => mret CAR_NO_FREE_SLOTS
  | Some i =>
      setup_slot now entropy i SELF;;
      match public_key, m_crypto_enabled p with
      | Some _, false => reset_slot i;; mret INVALID_PARAMETER
      | _, _ =>
          (match public_key with Some key => expect_identity i key | None => mret tt end);;
          p ← get;
          let '(ret, s) := Socket_Connect asio hostname port i (m_masterSocket p) in
          put (set_socket s p);;
          (if negb (bool_decide (ret = CAR_OK)) then reset_slot i else mret tt);;
          mret ret
      end
  end.

(** The callback of Connect, run by the context of the socket. *)
Definition connect_callback (now : Z) (a : RemoteAddress) (i : nat) : PM unit :=
  r ← slot i;
  set_slot i (set_endpoint a (active r) r);;
  with_handshake now i (fun cfg => Handshake_Begin cfg now);;
  r ← slot i;
  set_slot i (set_endpoint (addr r) true r).

(** SendRejectionReply(peer, addr, reason) *)
Definition SendRejectionReply (now : Z) (a : RemoteAddress) (reason : ConnectResult) : PM unit :=
  p ← get;
  reply ← lift (BinaryStream_new BINARYSTREAM_DEFAULT_CAPACITY);
  '(_, reply) ← lift (WriteOutOfBandErrorReply (m_id p) reason reply);
  '(packet, _) ← lift (Packet_take_stream CONNECT_ATTEMPT reply);
  SendOutOfBand now packet a.

(** OnNewIncomingPeer(addr, packet) *)
Definition OnNewIncomingPeer (now entropy : Z) (a : RemoteAddress) (packet : Packet) : PM unit :=
  p ← get;
  match GetNextAvailableIncomingSlot p with
  | None => SendRejectionReply now a NO_FREE_SLOTS
  | Some i =>
      setup_slot now entropy i REMOTE;;
      r ← slot i;
      set_slot i (set_endpoint a true r);;
      handle_handshake now entropy i packet
  end.

(** ** Messages *)

(** Send(packet, recipient, options, priority, channel) *)
Definition Send (now : Z) (packet : Packet) (recipient options : Z) (channel : Channel) : PM Z :=
  if PACKET_MAX_LENGTH <? pk_length packet then mret 0 else
  remote ← GetRemoteByID recipient;
  match remote with
  | None => mret 0
  | Some i => p ← get; on_slot i (EnqueueOutgoing now (m_channels p) packet options channel)
  end.

Definition Receive : PM (option Packet) :=
  p ← get; let '(packet, inbox) := DequeueIncoming (m_inbox p) in put (set_inbox inbox p);; mret packet.

(** Ping(hostname, port) and PingLocalNetwork(port) *)
Definition Ping (asio : Asio RemoteAddress) (now : Z) (hostname : list Z) (port : Z) : PM unit :=
  p ← get;
  match Resolve asio hostname port (m_masterSocket p) with
  | None => mret tt
  | Some a => ping ← command_packet PING; Queue_OutOfBand now ping a None
  end.

Definition multicast (family : SocketProtocol) : list Z :=
  match family with
  | IPv4 => [50; 53; 53; 46; 50; 53; 53; 46; 50; 53; 53; 46; 50; 53; 53]     (* 255.255.255.255 *)
  | IPv6 => [70; 70; 48; 50; 58; 58; 49]                                     (* FF02::1 *)
  end.
Definition PingLocalNetwork (asio : Asio RemoteAddress) (now port : Z) : PM unit :=
  p ← get; Ping asio now (multicast (GetProtocol (m_masterSocket p))) port.

(** OnSystemPacket(remote, packet); an unknown command is only asserted. *)
Definition OnSystemPacket (now : Z) (i : nat) (packet : Packet) : PM unit :=
  if pk_command packet =? DISCONNECT_REQUEST then
    OnDisconnect i NOTIFY_DISCONNECTED;;
    dc_ack ← command_packet DISCONNECT_ACK;
    r ← slot i;
    Queue_OutOfBand now dc_ack (addr r) (rp_crypto r);;
    reset_slot i
  else if pk_command packet =? RPC_SIGNAL then
    instream ← lift (GetStream packet);
    '(ident, instream) ← lift (ReadString instream);
    '(paramslen, instream) ← lift (Read7BitEncodedInt instream);
    params ← lift (BinaryStream_new (u64 paramslen));
    params ← (if 0 <? paramslen then
        '(_, params) ← lift (WriteZeroes paramslen params);
        '(data, _) ← lift (ReadBytes paramslen instream);
        '(_, params) ← lift (match data with Some cs => store 0 cs params | None => Ret (tt, params) end);
        mret params
      else mret params);
    p ← get;
    calls ← lift (Signal ident (pk_sender packet) params (m_rpc p));
    put (set_rpc (m_rpc p) (p_calls p ++ calls) p)
  else mret tt.

(** OnUnconnectedMessage(addr, instream) *)
Definition OnUnconnectedMessage (asio : Asio RemoteAddress) (now entropy : Z) (a : RemoteAddress) (instream : BinaryStream) : PM unit :=
  '(ok, header, instream) ← lift (PacketHeader_Deserialize PacketHeader_default instream);
  if negb ok || flag_segment header then mret tt else
  '(packet, _) ← lift (FromDatagram 0 (ph_length header) instream);
  if pk_command packet =? PING then
    p ← get;
    if IsEmpty (m_advertisement p) then mret tt else
    pong ← lift (Packet_from_stream ADVERTISEMENT (m_advertisement p));
    SendOutOfBand now pong a
  else if pk_command packet =? CONNECT_ATTEMPT then
    p ← get;
    match GetRemoteByAddress a p with
    | None => OnNewIncomingPeer now entropy a packet
    | Some i =>
        r ← slot i;
        h ← lift (match handshake r with Some h => Ret h | None => Fail NullPointer end);
        if IsDone h then mret tt else handle_handshake now entropy i packet
    end
  else if pk_command packet =? DISCONNECT_ACK then
    p ← get;
    match GetRemoteByAddress a p with None => mret tt | Some i => DisconnectImmediate now i end
  else if pk_command packet =? ADVERTISEMENT then
    let address := address_string asio a in
    original ← lift (GetStream packet);
    prefixed ← lift (BinaryStream_new (u64 (m_length original + zlength address + 4)));
    '(_, prefixed) ← lift (WriteString address prefixed);
    '(_, prefixed) ← lift (WriteBytes_stream original prefixed);
    '(notification, _) ← lift (Packet_take_stream NOTIFY_ADVERTISEMENT prefixed);
    SendLoopback notification
  else mret tt.

(** OnUnconnectedMessage(addr, msg, msglen) *)
Definition OnUnconnectedMessage_raw (asio : Asio RemoteAddress) (now entropy : Z) (a : RemoteAddress) (msg : list cell) : PM unit :=
  instream ← lift (BinaryStream_wrap (Ret msg) (zlength msg) READONLY);
  '(ok, header, instream) ← lift (DatagramHeader_Deserialize DatagramHeader_default instream);
  if negb ok then mret tt else
  if flag_link header then mret tt else
  if negb (flag_data header) then mret tt else
  OnUnconnectedMessage asio now entropy a instream.

(** ** Settings and queries *)

(** SetEncryptionEnabled(enabled) and SetEncryptionIdentity, in a build with
    encryption; [made] is Keypair::CreateIdentity(). *)
Definition SetEncryptionEnabled (made : outcome Keypair) (enabled : bool) : PM unit :=
  p ← get;
  if IsOpenAndReady (m_masterSocket p) then mret tt else
  if enabled then k ← lift made; put (set_identity (Some k) true p)
  else put (set_identity None false p).
Definition SetEncryptionIdentity (k : Keypair) : PM unit :=
  p ← get; if negb (m_crypto_enabled p) then mret tt else put (set_identity (Some k) (m_crypto_enabled p) p).
(** GenerateIdentity(key_secret, key_public): the bytes that CopyTo stores. *)
Definition GenerateIdentity (made : outcome Keypair) : outcome (list Z * list Z) := k ← made; mret (key_secret k, key_public k).
Definition GetEncryptionKeyLength : Z := GetKeyLength crypto.

Definition SetOfflineAdvertisement (data : BinaryStream) : PM unit :=
  p ← get;
  '(_, advertisement) ← lift (assign_copy data (m_advertisement p));
  put (set_options (m_remotesIncoming p) advertisement (m_channels p) p).
Definition DisableOfflineAdvertisement : PM unit :=
  p ← get;
  '(_, advertisement) ← lift (Reset (m_advertisement p));
  put (set_options (m_remotesIncoming p) advertisement (m_channels p) p).

Definition MakeChannel (mode : ChannelMode) : PM Channel :=
  p ← get;
  if zlength (m_channels p) <? 255 then
    put (set_options (m_remotesIncoming p) (m_advertisement p) (m_channels p ++ [mode]) p);;
    mret (mkChannel (u8 (zlength (m_channels p))) mode)
  else mret (mkChannel 0 UNORDERED).
Definition GetChannelModeByIndex (index : Z) (p : Peer) : outcome ChannelMode :=
  match m_channels p !! Z.to_nat index with Some m => Ret m | None => Fail OutOfRange end.

Definition GetAllConnectedPeers (p : Peer) : list Z := map rp_id (filter (fun r => IsConnected r = true) (numbered p)).

(** The const lookups that look at one member of the remote found. *)
Definition query {A} (who : Z) (otherwise : A) (f : RemotePeer -> outcome A) (p : Peer) : outcome A :=
  match GetRemoteByID_const who p with
  | None => Ret otherwise
  | Some i => match m_remotes p !! i with Some r => f r | None => Fail OutOfBounds end
  end.
Definition GetPingAvailable (who : Z) : Peer -> outcome bool :=
  query who false (fun r => c ← get_congestion r; mret (GetRTTHistoryAvailable c)).
Definition GetPing (who : Z) : Peer -> outcome Z := query who 0 (fun r => c ← get_congestion r; mret (GetAverageRTT c)).
Definition GetStats (who : Z) : Peer -> outcome (option PeerStats) := query who None (fun r => mret (Some (stats r))).

(** RpcRegisterSlot, RpcUnregisterSlot and RpcSignal *)
Definition RpcRegisterSlot (identifier : list Z) (fn : callback) : PM unit :=
  p ← get; m ← lift (Slot identifier fn (m_rpc p)); put (set_rpc m (p_calls p) p).
Definition RpcUnregisterSlot (identifier : list Z) : PM unit :=
  p ← get; m ← lift (RemoveSlot identifier (m_rpc p)); put (set_rpc m (p_calls p) p).
Definition rpc_packet (identifier : list Z) (params : BinaryStream) : outcome Packet :=
  data ← BinaryStream_new (u64 (m_length params + zlength identifier + 16));
  '(_, data) ← WriteString identifier data;
  '(_, data) ← Write7BitEncodedInt (s32 (m_length params)) data;
  '(_, data) ← WriteBytes_stream params data;
  '(rpc, _) ← Packet_take_stream RPC_SIGNAL data;
  mret rpc.
Definition RpcSignal (now : Z) (identifier : list Z) (recipient : Z) (params : BinaryStream) : PM unit :=
  rpc ← lift (rpc_packet identifier params);
  _ ← Send now rpc recipient RELIABLE Channel_default;
  mret tt.
End Peer.
Arguments Peer : clear implicits.
