(* ===== verification/PacketFlow.v ===== *)
(** * PacketFlow: the read path and the worker thread

    Model of the operations of source/PacketQueue.cpp that call back into Peer:
    the completion handlers OnReadFinished and OnWriteFinished, the read and write
    cycles, and the body of ThreadWorker.  Each is a computation on the state of
    the peer. *)

From stdpp Require Import base tactics gmap sets list list_numbers numbers option.
From Stdlib Require Import ZArith Lia.
From S2P Require Import Prelude Memory BinaryStream StreamSpec StreamCodec Config PeerStats Packet Headers.
From S2P Require Import ChannelBuffer CongestionControl Reassembly ReceiptTracker RpcController Encryption Handshake Socket RemotePeer PacketQueue Peer.

Open Scope Z_scope.

Section PacketFlow.
Context {host : Host} {sign : CharSign} {RemoteAddress : Type} {address_eq : EqDecision RemoteAddress} (no_address : RemoteAddress).
Context {crypto : Type} {layer : EncryptionLayer crypto} (make_layer : Z -> outcome crypto) {callback : Type}.

Abbreviation Peer := (Peer RemoteAddress crypto callback).
Abbreviation RemotePeer := (RemotePeer RemoteAddress).
Abbreviation PM := (ST Peer).

Definition add_stat (i : nat) (id : PeerStatID) (n : Z) : PM unit :=
  on_slot i (fun r => mret (tt, set_stats (Stats_Add id n (stats r)) r)).

(** remote->congestion->NotifyReceivedPacket(id) *)
Definition notify_packet (now : Z) (i : nat) (id : Z) : PM RecvState :=
  on_slot i (fun r =>
    c ← get_congestion r;
    let '(st, c) := NotifyReceivedPacket now id c in mret (st, set_congestion c r)).

(** A function of the queue that works on the inbox and a slot. *)
Definition with_inbox (i : nat) (f : list ChannelMode -> list Packet -> RemotePeer -> outcome (list Packet * RemotePeer)) : PM unit :=
  p ← get; r ← slot i;
  '(inbox, r) ← lift (f (m_channels p) (m_inbox p) r);
  set_slot i r;; modify (set_inbox inbox).

(** The while loop over the packets of a datagram. *)
Fixpoint packet_loop (fuel : nat) (now : Z) (i : nat) (header : PacketHeader) (inbuffer : BinaryStream) : PM unit :=
  match fuel with
  | O => fail OutOfFuel
  | S fuel =>
      '(ok, header, inbuffer) ← lift (PacketHeader_Deserialize header inbuffer);
      if negb ok then mret tt else
      st ← notify_packet now i (ph_id header);
      match st with
      | DUPLICATE =>
          '(_, inbuffer) ← lift (Skip (ph_length header) inbuffer);
          packet_loop fuel now i header inbuffer
      | NEW =>
          add_stat i PACKETS_RECEIVED 1;;
          if flag_segment header || (0 <? ph_offset header) then
            p ← get; r ← slot i;
            '(inbox, r, inbuffer) ← lift (Queue_HandleSplitPacket (m_channels p) header (m_inbox p) r inbuffer);
            set_slot i r;; modify (set_inbox inbox);;
            packet_loop fuel now i header inbuffer
          else
            r ← slot i;
            '(packet, inbuffer) ← lift (FromDatagram (rp_id r) (ph_length header) inbuffer);
            (if pk_command packet <? USER_PACKET then OnSystemPacket no_address now i packet
             else with_inbox i (fun modes => HandleIncomingPacket modes header packet));;
            packet_loop fuel now i header inbuffer
      end
  end.

(** The bytes behind m_buffer_ro; every header takes some of them. *)
Definition extent (s : BinaryStream) : Z := match deref_ro s with Ret l => zlength l | Fail _ => 0 end.
Definition loop_fuel (inbuffer : BinaryStream) : nat := S (Z.to_nat (extent inbuffer)).

(** The part of OnReadFinished behind the check of the handshake. *)
Definition read_connected (now : Z) (i : nat) (header : DatagramHeader) (inbuffer : BinaryStream) : PM unit :=
  st ← on_slot i (fun r =>
    c ← get_congestion r;
    let '(st, c) := NotifyReceivedDatagram now (datagramID header) (negb (flag_data header)) c in mret (st, set_congestion c r));
  match st with
  | DUPLICATE => mret tt
  | NEW =>
      (match dh_acks header with
       | [] => mret tt
       | acks => rs ← on_slot i (fun r => '(r, rs) ← HandleAcknowledgements now acks r; mret (rs, r)); post_receipts rs
       end);;
      (match dh_nacks header with
       | [] => mret tt
       | nacks => on_slot i (fun r => r ← HandleNonAcknowledgements now nacks r; mret (tt, r))
       end);;
      packet_loop (loop_fuel inbuffer) now i PacketHeader_default inbuffer
  end.

(** The decryption step; None when the layer has to bail out. *)
Definition decrypt_input (i : nat) (inbuffer : BinaryStream) : PM (option BinaryStream) :=
  p ← get; r ← slot i;
  match rp_crypto r with
  | None => mret (Some inbuffer)
  | Some handle =>
      c ← lift (match p_layers p !! handle with Some c => Ret c | None => Fail Dangling end);
      if negb (GetCryptoEstablished c) then mret (Some inbuffer) else
      '(plain, c, _) ← lift (Decrypt c inbuffer);
      put (set_layers (<[handle := c]> (p_layers p)) (p_fresh p) p);;
      mret (if GetNeedsToBail c then None else Some plain)
  end.

(** OnReadFinished(error, sender, buffer, transferred), without the network
    simulation, which is compiled out. *)
Definition OnReadFinished (asio : Asio RemoteAddress) (now entropy : Z) (error : bool) (sender : RemoteAddress) (buffer : list cell) : PM unit :=
  p ← get;
  let remote := GetRemoteByAddress sender p in
  if error then match remote with None => mret tt | Some i => DisconnectImmediate no_address now i end else
  match remote with
  | None => OnUnconnectedMessage_raw no_address make_layer asio now entropy sender buffer
  | Some i =>
      inbuffer ← lift (BinaryStream_wrap (Ret buffer) (zlength buffer) READONLY);
      add_stat i DATAGRAMS_RECEIVED 1;;
      add_stat i BYTES_RECEIVED (zlength buffer);;
      inbuffer ← decrypt_input i inbuffer;
      match inbuffer with
      | None => DisconnectImmediate no_address now i
      | Some inbuffer =>
          '(ok, header, inbuffer) ← lift (DatagramHeader_Deserialize DatagramHeader_default inbuffer);
          if negb ok then DisconnectImmediate no_address now i else
          if flag_data header && (MTU <? dataLength header + m_position inbuffer) then DisconnectImmediate no_address now i else
          if negb (flag_link header) then OnUnconnectedMessage no_address make_layer asio now entropy sender inbuffer else
          r ← slot i;
          h ← lift (match handshake r with Some h => Ret h | None => Fail NullPointer end);
          if negb (IsDone h) || negb (m_result h =? result_code CR_OK) then DisconnectImmediate no_address now i else
          read_connected now i header inbuffer
      end
  end.

(** OnWriteFinished(remote, id, error, transferred) *)
Definition OnWriteFinished (now : Z) (i : nat) (error : bool) : PM unit :=
  if error then DisconnectImmediate no_address now i else mret tt.

(** ** The worker *)

(** receipt->Update(): posts losses and removes old datagrams from the sentbox. *)
Definition update_receipts (now : Z) (r : RemotePeer) : list receipt * RemotePeer :=
  match rp_receipt r with
  | None => ([], r)
  | Some t =>
      let sent := map (fun d => mkSent (od_discard d) (od_packets d)) (sentbox r) in
      let '(_, t, rs) := Receipt_Update now sent t in
      (rs, set_receipt t (set_sentbox (filter (fun d => Elapsed now (od_discard d) = false) (sentbox r)) r))
  end.

Definition update_congestion (now : Z) (r : RemotePeer) : RemotePeer :=
  match congestion r with
  | None => r
  | Some c => let '(st, c) := Update now (stats r) c in set_congestion c (set_stats st r)
  end.

Definition DoReadCycle : PM unit :=
  p ← get; if IsReadPending (m_masterSocket p) then mret tt else put (set_socket (BeginRead (m_masterSocket p)) p).

(** DoWriteCycle(remote): PacketQueue.DoWriteCycle, its callbacks and the write. *)
Definition write_cycle (now entropy : Z) (i : nat) : PM unit :=
  p ← get;
  res ← on_slot i (DoWriteCycle now entropy (m_crypto_enabled p) (IsWritePending (m_masterSocket p)) (p_layers p));
  match res with
  | Idle => mret tt
  | WantsDisconnect lost => post_receipts lost;; DisconnectImmediate no_address now i
  | Wrote a datagram => modify (fun p => set_socket (BeginWrite a datagram (m_masterSocket p)) p)
  end.

(** The body of the loop over the slots; true when the thread returns. *)
Definition worker_slot (now entropy : Z) (i : nat) : PM bool :=
  r ← slot i;
  if negb (active r) then mret false else
  (match handshake r with
   | Some h => if IsDone h then mret tt else with_handshake no_address now i (fun _ => Handshaker_Update now)
   | None => mret tt
   end);;
  on_slot i (fun r => mret (tt, update_congestion now r));;
  rs ← on_slot i (fun r => mret (update_receipts now r));
  post_receipts rs;;
  r ← slot i;
  if Timestamp_IsValid (disconnect r) && Elapsed now (disconnect r) then DisconnectImmediate no_address now i;; mret true else
  p ← get;
  if negb (socket r) || negb (IsOpenAndReady (m_masterSocket p)) then mret false else
  DoReadCycle;;
  write_cycle now entropy i;;
  mret false.

(** The same statements one at a time, each of which looks at the slot again: between
    two of them a thread that does not take the mutex of the slot can run. *)
Inductive stage : Type := S_active | S_handshake | S_congestion | S_receipt | S_disconnect | S_read | S_write.
Inductive after_stage : Type :=
  | Next (s : stage)
  | Continue          (* with the next slot *)
  | Return.           (* from ThreadWorker *)

Definition worker_stage (now entropy : Z) (i : nat) (s : stage) : PM after_stage :=
  match s with
  | S_active => r ← slot i; mret (if active r then Next S_handshake else Continue)
  | S_handshake =>
      r ← slot i;
      (match handshake r with
       | Some h => if IsDone h then mret tt else with_handshake no_address now i (fun _ => Handshaker_Update now)
       | None => mret tt
       end);;
      mret (Next S_congestion)
  | S_congestion => on_slot i (fun r => mret (tt, update_congestion now r));; mret (Next S_receipt)
  | S_receipt => rs ← on_slot i (fun r => mret (update_receipts now r)); post_receipts rs;; mret (Next S_disconnect)
  | S_disconnect =>
      r ← slot i;
      if Timestamp_IsValid (disconnect r) && Elapsed now (disconnect r) then DisconnectImmediate no_address now i;; mret Return else mret (Next S_read)
  | S_read =>
      r ← slot i; p ← get;
      if negb (socket r) || negb (IsOpenAndReady (m_masterSocket p)) then mret Continue else DoReadCycle;; mret (Next S_write)
  | S_write => write_cycle now entropy i;; mret Continue
  end.

Fixpoint worker_slots (now entropy : Z) (slots : list nat) : PM bool :=
  match slots with
  | [] => mret false
  | i :: slots =>
      returned ← worker_slot now entropy i;
      if returned : bool then mret true else worker_slots now entropy slots
  end.

(** One round of ThreadWorker: the slots 0 .. GetMaximumPeers(). *)
Definition worker_round (now entropy : Z) : PM bool :=
  p ← get; worker_slots now entropy (seq 0 (S (Z.to_nat (GetMaximumPeers p)))).
End PacketFlow.
