(* ===== verification/Halting.v ===== *)
(** * Halting: the operations below Peer come to an end

    A computation halts when it does not run out of the fuel of one of its loops:
    it returns, or leaves the defined part of the language.  One lemma per operation
    of the streams, packets, headers, buffers, handshakes and connections, and the
    contract that an encryption layer has to keep ([HaltingLayer]). *)

From stdpp Require Import base tactics gmap sets list list_numbers numbers option.
From Stdlib Require Import ZArith Lia.
From S2P Require Import Prelude Memory BinaryStream StreamSpec StreamCodec Config PeerStats Packet Headers.
From S2P Require Import ChannelBuffer CongestionControl Reassembly ReceiptTracker RpcController Encryption Handshake Socket RemotePeer PacketQueue Peer PacketFlow.

Open Scope Z_scope.

(** ** The predicate and its automation *)

Definition halts {A} (o : outcome A) : Prop := o <> Fail OutOfFuel.

Lemma halts_ret {A} (a : A) : halts (Ret a).
Proof. discriminate. Qed.
Lemma halts_fail {A} f : f <> OutOfFuel -> halts (Fail (A := A) f).
Proof. intros H [= ->]. done. Qed.
Lemma halts_obind {A B} (m : outcome A) (k : A -> outcome B) : halts m -> (forall a, m = Ret a -> halts (k a)) -> halts (m ≫= k).
Proof. intros Hm Hk. destruct m as [a|f]; [exact (Hk a eq_refl)|]. intros [= ->]. now apply Hm. Qed.
Lemma halts_bind {S A B} (m : ST S A) (k : A -> ST S B) s : halts (m s) -> (forall a s', m s = Ret (a, s') -> halts (k a s')) -> halts ((m ≫= k) s).
Proof. intros Hm Hk. unfold mbind, st_bind. destruct (m s) as [[a s']|f]; [exact (Hk a s' eq_refl)|]. intros [= ->]. now apply Hm. Qed.
Lemma halts_lift {S A} (o : outcome A) (s : S) : halts o -> halts (lift o s).
Proof. destruct o as [a|f]; cbn; [discriminate|]. intros H [= ->]. now apply H. Qed.

Lemma read_from_halts src off n : halts src -> halts (read_from src off n).
Proof. intros. unfold read_from, mem_read. destruct (n =? 0); [done|]. apply halts_obind; [done|]. intros l _. now destruct (decide _). Qed.
Lemma BinaryStream_wrap_halts src n mode : halts src -> halts (BinaryStream_wrap src n mode).
Proof.
  intros H. unfold BinaryStream_wrap. destruct mode; [|done]. apply halts_obind; [|done]. destruct (0 <? _); [|done]. apply halts_obind.
  { unfold alloc. now destruct (_ <? _). }
  intros l _. apply halts_obind; [now apply read_from_halts|]. intros d _. apply halts_obind; [|done]. unfold mem_write. now destruct (decide _).
Qed.

Create HintDb halts.
#[export] Hint Constants Opaque : halts.

Ltac halts_step :=
  lazymatch goal with
  | |- halts (Ret _) => apply halts_ret
  | |- halts (mret _) => apply halts_ret
  | |- halts (mret _ _) => apply halts_ret
  | |- halts (get _) => apply halts_ret
  | |- halts (put _ _) => apply halts_ret
  | |- halts (modify _ _) => apply halts_ret
  | |- halts (Fail _) => apply halts_fail; discriminate
  | |- halts (fail _ _) => apply halts_fail; discriminate
  | |- halts (lift _ _) => apply halts_lift
  | |- halts ((_ ≫= _) _) => apply halts_bind; [|intros ? ? ?; cbv beta]
  | |- halts (_ ≫= _) => apply halts_obind; [|intros ? ?; cbv beta]
  | |- halts (match ?x with _ => _ end) => first [is_var x; destruct x | destruct x eqn:?]
  | |- halts ((match ?x with _ => _ end) _) => first [is_var x; destruct x | destruct x eqn:?]
  | |- halts (let _ := _ in _) => cbv zeta
  | |- halts ((let _ := _ in _) _) => cbv zeta
  | |- halts (read_from _ _ _) => apply read_from_halts
  | |- halts (BinaryStream_wrap _ _ _) => apply BinaryStream_wrap_halts
  | |- halts _ => solve [auto with halts nocore]
  end.
Ltac halting := repeat halts_step.

(** ** Memory and streams *)

Lemma alloc_halts n : halts (alloc n).
Proof. unfold alloc. halting. Qed.
Lemma mem_read_halts l off n : halts (mem_read l off n).
Proof. unfold mem_read. halting. Qed.
Lemma mem_write_halts l off data : halts (mem_write l off data).
Proof. unfold mem_write. halting. Qed.
Lemma bytes_of_halts l : halts (bytes_of l).
Proof. unfold bytes_of. halting. Qed.
Lemma deref_ro_halts s : halts (deref_ro s).
Proof. unfold deref_ro. halting. Qed.
#[export] Hint Resolve alloc_halts mem_read_halts mem_write_halts bytes_of_halts deref_ro_halts : halts.

Lemma BinaryStream_new_halts n : halts (BinaryStream_new n).
Proof. unfold BinaryStream_new. halting. Qed.
#[export] Hint Resolve BinaryStream_new_halts : halts.
Lemma BinaryStream_copy_halts s : halts (BinaryStream_copy s).
Proof. unfold BinaryStream_copy. halting. Qed.
Lemma Reallocate_halts n s : halts (Reallocate n s).
Proof. unfold Reallocate. halting. Qed.
#[export] Hint Resolve BinaryStream_copy_halts Reallocate_halts : halts.
Lemma assign_copy_halts o s : halts (assign_copy o s).
Proof. unfold assign_copy. halting. Qed.
Lemma Ensure_halts n s : halts (Ensure n s).
Proof. unfold Ensure. halting. Qed.
Lemma Seek_halts n s : halts (Seek n s).
Proof. unfold Seek. halting. Qed.
Lemma Align_halts s : halts (Align s).
Proof. unfold Align. halting. Qed.
Lemma store_halts off data s : halts (store off data s).
Proof. unfold store. halting. Qed.
Lemma advance_halts n s : halts (advance n s).
Proof. unfold advance. halting. Qed.
#[export] Hint Resolve assign_copy_halts Ensure_halts Seek_halts Align_halts store_halts advance_halts : halts.
Lemma SeekToBegin_halts s : halts (SeekToBegin s).
Proof. apply Seek_halts. Qed.
Lemma SeekToEnd_halts s : halts (SeekToEnd s).
Proof. unfold SeekToEnd. halting. Qed.
Lemma WriteByte_halts v s : halts (WriteByte v s).
Proof. unfold WriteByte. halting. Qed.
Lemma WriteZeroes_halts n s : halts (WriteZeroes n s).
Proof. unfold WriteZeroes. halting. Qed.
Lemma WriteBytes_halts data s : halts (WriteBytes data s).
Proof. unfold WriteBytes. halting. Qed.
#[export] Hint Resolve SeekToBegin_halts SeekToEnd_halts WriteByte_halts WriteZeroes_halts WriteBytes_halts : halts.
Lemma WriteBytes_stream_halts o s : halts (WriteBytes_stream o s).
Proof. unfold WriteBytes_stream. halting. Qed.
Lemma SeekForce_halts n s : halts (SeekForce n s).
Proof. unfold SeekForce. halting. Qed.
Lemma Skip_halts n s : halts (Skip n s).
Proof. unfold Skip. halting. Qed.
Lemma Reset_halts s : halts (Reset s).
Proof. unfold Reset. halting. Qed.
Lemma Clear_halts s : halts (Clear s).
Proof. unfold Clear. halting. Qed.
Lemma ToArray_halts s : halts (ToArray s).
Proof. unfold ToArray. halting. Qed.
Lemma ReleaseBuffer_halts s : halts (ReleaseBuffer s).
Proof. unfold ReleaseBuffer. halting. Qed.
#[export] Hint Resolve WriteBytes_stream_halts SeekForce_halts Skip_halts Reset_halts Clear_halts ToArray_halts ReleaseBuffer_halts : halts.

Section StreamHalts.
Context {host : Host}.

Lemma WriteInt16_halts v s : halts (WriteInt16 v s).
Proof. apply WriteBytes_halts. Qed.
Lemma WriteInt32_halts v s : halts (WriteInt32 v s).
Proof. apply WriteBytes_halts. Qed.
#[local] Hint Resolve WriteInt16_halts WriteInt32_halts : halts.
Lemma WriteInt64_halts v s : halts (WriteInt64 v s).
Proof. unfold WriteInt64. halting. Qed.
Lemma WriteBool_halts b s : halts (WriteBool b s).
Proof. unfold WriteBool. halting. Qed.

(** Seven bits go with every round. *)
Lemma write7_loop_halts fuel : forall raw s, 0 <= raw < 128 ^ Z.of_nat (S fuel) -> halts (write7_loop (S fuel) raw s).
Proof.
  induction fuel as [|fuel IH]; intros raw s Hr; rewrite Nat2Z.inj_succ, Z.pow_succ_r in Hr by lia.
  - cbn [write7_loop]. assert (E : Z.shiftr raw 7 = 0) by (rewrite Z.shiftr_div_pow2 by lia; cbn in *; apply Z.div_small; lia).
    rewrite E. halting.
  - assert (Hs : 0 <= Z.shiftr raw 7 < 128 ^ Z.of_nat (S fuel)).
    { rewrite Z.shiftr_div_pow2 by lia. change (2 ^ 7) with 128. Z.div_mod_to_equations. lia. }
    set (n := S fuel) in *. cbn [write7_loop]. halting.
Qed.
Lemma Write7BitEncodedInt_halts v s : halts (Write7BitEncodedInt v s).
Proof. apply write7_loop_halts. pose proof (u32_range v). cbn. lia. Qed.
#[local] Hint Resolve Write7BitEncodedInt_halts : halts.
Lemma WriteString_halts str s : halts (WriteString str s).
Proof. unfold WriteString. halting. Qed.
Lemma ReadByte_halts s : halts (ReadByte s).
Proof. unfold ReadByte. halting. Qed.
Lemma ReadBytes_halts n s : halts (ReadBytes n s).
Proof. unfold ReadBytes. halting. Qed.
#[local] Hint Resolve ReadByte_halts ReadBytes_halts : halts.
Lemma read_object_halts n s : halts (read_object n s).
Proof. unfold read_object. halting. Qed.
#[local] Hint Resolve read_object_halts : halts.
Lemma ReadUInt16_halts s : halts (ReadUInt16 s).
Proof. unfold ReadUInt16. halting. Qed.
Lemma ReadUInt32_halts s : halts (ReadUInt32 s).
Proof. unfold ReadUInt32. halting. Qed.
#[local] Hint Resolve ReadUInt16_halts ReadUInt32_halts : halts.
Lemma ReadUInt64_halts s : halts (ReadUInt64 s).
Proof. unfold ReadUInt64. halting. Qed.
Lemma ReadBool_halts s : halts (ReadBool s).
Proof. unfold ReadBool. halting. Qed.
Lemma read7_loop_halts n : forall i out s, halts (read7_loop n i out s).
Proof. induction n; intros; cbn [read7_loop]; halting. Qed.
#[local] Hint Resolve read7_loop_halts : halts.
Lemma Read7BitEncodedInt_halts s : halts (Read7BitEncodedInt s).
Proof. unfold Read7BitEncodedInt. halting. Qed.
#[local] Hint Resolve Read7BitEncodedInt_halts : halts.
Lemma ReadString_halts s : halts (ReadString s).
Proof. unfold ReadString. halting. Qed.
End StreamHalts.
#[export] Hint Resolve WriteInt16_halts WriteInt32_halts WriteInt64_halts WriteBool_halts Write7BitEncodedInt_halts WriteString_halts : halts.
#[export] Hint Resolve ReadByte_halts ReadBytes_halts ReadUInt16_halts ReadUInt32_halts ReadUInt64_halts ReadBool_halts Read7BitEncodedInt_halts ReadString_halts : halts.

(** ** Packets, headers and buffers *)

Section DataHalts.
Context {host : Host} {sign : CharSign}.

Lemma CopyFrom_halts src off n : halts src -> halts (CopyFrom src off n).
Proof. intros H. unfold CopyFrom. halting; try done. all: intros [= ->]; now apply H. Qed.
Lemma data_ptr_halts d : halts (data_ptr d).
Proof. unfold data_ptr. halting. Qed.
#[local] Hint Resolve CopyFrom_halts data_ptr_halts : halts.
Lemma Packet_from_buffer_halts cmd src n : halts src -> halts (Packet_from_buffer cmd src n).
Proof. intros. unfold Packet_from_buffer. halting. Qed.
Lemma Packet_from_stream_halts cmd s : halts (Packet_from_stream cmd s).
Proof. unfold Packet_from_stream. halting. Qed.
Lemma Packet_take_stream_halts cmd s : halts (Packet_take_stream cmd s).
Proof. unfold Packet_take_stream. halting. Qed.
Lemma Packet_copy_halts p : halts (Packet_copy p).
Proof. unfold Packet_copy. halting. Qed.
Lemma GetStream_halts p : halts (GetStream p).
Proof. unfold GetStream. halting. Qed.
Lemma ToDatagram_halts p s : halts (ToDatagram p s).
Proof. unfold ToDatagram. halting. Qed.
Lemma FromDatagram_halts sender n s : halts (FromDatagram sender n s).
Proof. unfold FromDatagram. halting. Qed.
#[local] Hint Resolve FromDatagram_halts : halts.

Lemma PacketHeader_Serialize_halts h s : halts (PacketHeader_Serialize h s).
Proof. unfold PacketHeader_Serialize. halting. Qed.
Lemma PacketHeader_Deserialize_halts h s : halts (PacketHeader_Deserialize h s).
Proof. unfold PacketHeader_Deserialize. halting. Qed.
Lemma write_ids_halts ids : forall s, halts (write_ids ids s).
Proof. induction ids; intros s; cbn [write_ids]; halting. Qed.
#[local] Hint Resolve write_ids_halts : halts.
Lemma write_id_list_halts ids s : halts (write_id_list ids s).
Proof. unfold write_id_list. halting. Qed.
#[local] Hint Resolve write_id_list_halts : halts.
Lemma DatagramHeader_Serialize_halts h s : halts (DatagramHeader_Serialize h s).
Proof. unfold DatagramHeader_Serialize. halting. Qed.
Lemma read_ids_halts n : forall s, halts (read_ids n s).
Proof. induction n; intros s; cbn [read_ids]; halting. Qed.
#[local] Hint Resolve read_ids_halts : halts.
Lemma read_id_list_halts b old s : halts (read_id_list b old s).
Proof. unfold read_id_list. halting. Qed.
#[local] Hint Resolve read_id_list_halts : halts.
Lemma DatagramHeader_Deserialize_halts h s : halts (DatagramHeader_Deserialize h s).
Proof. unfold DatagramHeader_Deserialize. halting. Qed.

Lemma SplitPacket_new_halts : halts SplitPacket_new.
Proof. unfold SplitPacket_new. halting. Qed.
#[local] Hint Resolve SplitPacket_new_halts : halts.
Lemma Insert_halts h rb s : halts (Insert h rb s).
Proof. unfold Insert. halting. Qed.
Lemma Reassemble_halts sender container rb : halts (Reassemble sender container rb).
Proof. unfold Reassemble. halting. Qed.
#[local] Hint Resolve Insert_halts Reassemble_halts : halts.
Lemma HandleSplitPacket_halts sender h rb s : halts (HandleSplitPacket sender h rb s).
Proof. unfold HandleSplitPacket. halting. Qed.

Lemma djb2_loop_halts str : forall hash, halts (djb2_loop hash str).
Proof. induction str as [|c str IH]; intros hash; cbn [djb2_loop]; halting. Qed.
Lemma djb2hash_halts str : halts (djb2hash str).
Proof. apply djb2_loop_halts. Qed.
#[local] Hint Resolve djb2hash_halts : halts.
Lemma Slot_halts {callback} identifier (fn : callback) m : halts (Slot identifier fn m).
Proof. unfold Slot. halting. Qed.
Lemma RemoveSlot_halts {callback} identifier (m : gmap Z (list callback)) : halts (RemoveSlot identifier m).
Proof. unfold RemoveSlot. halting. Qed.
Lemma invoke_all_halts {callback} sender params (fns : list callback) : halts (invoke_all sender params fns).
Proof. induction fns; cbn [invoke_all]; halting. Qed.
#[local] Hint Resolve invoke_all_halts : halts.
Lemma Signal_halts {callback} identifier sender params (m : gmap Z (list callback)) : halts (Signal identifier sender params m).
Proof. unfold Signal. halting. Qed.
End DataHalts.
#[export] Hint Resolve Packet_from_buffer_halts Packet_from_stream_halts Packet_take_stream_halts Packet_copy_halts GetStream_halts : halts.
#[export] Hint Resolve data_ptr_halts ToDatagram_halts FromDatagram_halts PacketHeader_Serialize_halts PacketHeader_Deserialize_halts : halts.
#[export] Hint Resolve DatagramHeader_Serialize_halts DatagramHeader_Deserialize_halts HandleSplitPacket_halts : halts.
#[export] Hint Resolve Slot_halts RemoveSlot_halts Signal_halts : halts.

(** ** Receipts and connections *)

(** Whatever the groups are: a nested walk is over one group less, and what is left
    of the outer one is not longer than the groups that the nested one left. *)
Lemma split_at_length k l p q : split_at k l = Some (p, q) -> length l = (length p + length q)%nat.
Proof.
  revert p q. induction l as [|[k' s] l IH]; intros p q; cbn; [discriminate|]. destruct (k' =? k); [now intros [= <- <-]|].
  destruct (split_at k l) as [[p' q']|]; [|discriminate]. intros [= <- <-]. cbn. now rewrite (IH p' q').
Qed.

Lemma ack_loop_shrinks fuel : forall id before rest tracker t rs,
  ack_loop fuel id before rest tracker = Ret (t, rs) -> (length (m_splits t) <= length before + length rest)%nat.
Proof.
  induction fuel as [|fuel IH]; intros id before rest tracker t rs E; cbn [ack_loop] in E; [discriminate|].
  destruct rest as [|[container segs] rest].
  - injection E as E. unfold post_ack in E. destruct (bool_decide _); injection E as <- _; cbn; lia.
  - case_bool_decide; [|apply IH in E; rewrite length_app in E; cbn in *; lia]. run_step E. destruct a as [t1 rs1].
    apply IH in E0. rewrite length_app in E0. cbn in E0. run_step E. destruct a as [b q]. run_step E. destruct a as [t2 rs2]. run_step E.
    apply IH in E2. cbn. destruct rest as [|[k s] rest]; [run_step E1; cbn in *; lia|].
    destruct (split_at k (m_splits t1)) as [[p' q']|] eqn:Es; [|discriminate]. injection E1 as <- <-. apply split_at_length in Es. lia.
Qed.

Lemma ack_loop_halts fuel : forall id before rest tracker n, (length before + length rest <= n)%nat -> (1 + length rest + n * n <= fuel)%nat ->
  halts (ack_loop fuel id before rest tracker).
Proof.
  induction fuel as [|fuel IH]; intros id before rest tracker n Hn Hf; [lia|]. cbn [ack_loop]. destruct rest as [|[container segs] rest]; [halting|].
  cbn [length] in *. case_bool_decide; [|apply (IH _ _ _ _ n); rewrite ?length_app; cbn; lia].
  destruct n as [|n]; [lia|]. apply halts_obind.
  { apply (IH _ _ _ _ n); [rewrite length_app; cbn; lia|]. rewrite length_app. nia. }
  intros [t rs] E. apply ack_loop_shrinks in E. rewrite length_app in E. cbn in E. apply halts_obind; [halting|]. intros [b q] Eq.
  assert (Hbq : (length b + length q = length (m_splits t))%nat).
  { destruct rest as [|[k s] rest]; [injection Eq as <- <-; cbn; lia|].
    destruct (split_at k (m_splits t)) as [[p' q']|] eqn:Es; [|discriminate]. injection Eq as <- <-. apply split_at_length in Es. lia. }
  apply halts_obind; [|intros [? ?] _; halting]. apply (IH _ _ _ _ n); nia.
Qed.

Lemma Acknowledge_halts id t : halts (Acknowledge id t).
Proof. apply (ack_loop_halts _ _ _ _ _ (length (m_splits t))); unfold ack_fuel; cbn; lia. Qed.
#[export] Hint Resolve Acknowledge_halts : halts.

Section RemoteHalts.
Context {host : Host} {RemoteAddress : Type}.
Abbreviation RemotePeer := (RemotePeer RemoteAddress).

Lemma get_congestion_halts (r : RemotePeer) : halts (get_congestion r).
Proof. unfold get_congestion. halting. Qed.
Lemma get_receipt_halts (r : RemotePeer) : halts (get_receipt r).
Proof. unfold get_receipt. halting. Qed.
#[local] Hint Resolve get_congestion_halts get_receipt_halts : halts.
Lemma ack_packets_halts ids : forall t (box : list (OutgoingPacket RemoteAddress)), halts (ack_packets ids t box).
Proof. induction ids; intros; cbn [ack_packets]; halting. Qed.
#[local] Hint Resolve ack_packets_halts : halts.
Lemma HandleAcknowledgements_halts now acks : forall r : RemotePeer, halts (HandleAcknowledgements now acks r).
Proof. induction acks; intros; cbn [HandleAcknowledgements]; halting. Qed.
Lemma HandleNonAcknowledgements_halts now naks (r : RemotePeer) : halts (HandleNonAcknowledgements now naks r).
Proof. unfold HandleNonAcknowledgements. halting. Qed.
Lemma GetChannelBuffer_halts modes index (r : RemotePeer) : halts (GetChannelBuffer modes index r).
Proof. unfold GetChannelBuffer. halting. Qed.
#[local] Hint Resolve GetChannelBuffer_halts : halts.
Lemma HandleIncomingPacket_halts modes h packet inbox (r : RemotePeer) : halts (HandleIncomingPacket modes h packet inbox r).
Proof. unfold HandleIncomingPacket. halting. Qed.
#[local] Hint Resolve HandleIncomingPacket_halts : halts.
Lemma Queue_HandleSplitPacket_halts modes h inbox (r : RemotePeer) s : halts (Queue_HandleSplitPacket modes h inbox r s).
Proof. unfold Queue_HandleSplitPacket. halting. Qed.
Lemma EnqueueOutOfBand_halts now packet a handle (r : RemotePeer) : halts (EnqueueOutOfBand now packet a handle r).
Proof. unfold EnqueueOutOfBand. halting. Qed.
Lemma enqueue_segment_halts now packet full options channel sequence container segments i (a : RemoteAddress) c :
  halts (enqueue_segment now packet full options channel sequence container segments i a c).
Proof. unfold enqueue_segment. halting. Qed.
#[local] Hint Resolve enqueue_segment_halts : halts.
Lemma segment_loop_halts n : forall now packet full options channel sequence container segments i (a : RemoteAddress) c,
  halts (segment_loop n now packet full options channel sequence container segments i a c).
Proof. induction n; intros; cbn [segment_loop]; halting. Qed.
#[local] Hint Resolve segment_loop_halts : halts.
Lemma EnqueueOutgoing_halts now modes packet options channel (r : RemotePeer) : halts (EnqueueOutgoing now modes packet options channel r).
Proof. unfold EnqueueOutgoing. halting. Qed.
Lemma EnqueueLoopback_halts packet inbox : halts (EnqueueLoopback packet inbox).
Proof. unfold EnqueueLoopback. halting. Qed.

(** ** Building datagrams *)

(** A round without a packet ends the loop; with one, the budget gets smaller. *)
Lemma fill_loop_halts fuel : forall now budget q (r : RemotePeer), blobs_ok (outbox r) -> (1 <= fuel)%nat ->
  (0 < budget -> budget + 1 < Z.of_nat fuel) -> budget < 18446744073709551616 -> halts (fill_loop fuel now budget q r).
Proof.
  induction fuel as [|fuel IH]; intros now budget q r Hb H1 Hf Hm; [lia|]. cbn [fill_loop]. destruct (Z.leb_spec budget 0); [halting|].
  halts_step; [halting|]. unfold Datagram_AddNewPacket. destruct (GetQueuedPacket now budget false (outbox r)) as [i|] eqn:Ei.
  2:{ cbn [mbind outcome_bind]. apply IH; [done|lia..]. }
  apply halts_obind; [apply halts_obind; [apply get_congestion_halts|intros; halting]|]. intros [[budget' q'] r'] E. run_step E. run_step E.
  apply find_index_Some in Ei as (m & Em & Hs). rewrite Em. pose proof (Forall_lookup_1 _ _ _ _ Hb Em) as Hl. cbn beta in Hl.
  unfold suitable in Hs. apply andb_prop in Hs as [[Hs%Z.leb_le _]%andb_prop _]. rewrite u64_small by lia.
  apply IH; cbn; [now apply alter_blobs_ok|lia..].
Qed.

Lemma count_sends_halts q : forall (box : list (OutgoingPacket RemoteAddress)) n ids, halts (count_sends q box n ids).
Proof. induction q; intros; cbn [count_sends]; halting. Qed.
Lemma concat_blobs_halts q : forall limit (box : list (OutgoingPacket RemoteAddress)) s, halts (concat_blobs q limit box s).
Proof. induction q; intros; cbn [concat_blobs]; halting. Qed.
#[local] Hint Resolve count_sends_halts concat_blobs_halts : halts.
Lemma build_datagram_halts now q (r : RemotePeer) : halts (build_datagram now q r).
Proof. unfold build_datagram. halting. Qed.
Lemma select_packets_halts now B S (r : RemotePeer) : blobs_ok (outbox r) -> S < 18446744073709551616 -> halts (select_packets now B S r).
Proof.
  intros Hb HS. unfold select_packets, Datagram_AddResendPacket. halts_step; [halting|]. destruct a as [q r']. apply fill_loop_halts; [|unfold fill_fuel; lia..|done].
  run_all; try done. cbn. now apply alter_blobs_ok.
Qed.
Lemma MakeDatagram_halts now (r : RemotePeer) : blobs_ok (outbox r) -> halts (MakeDatagram now r).
Proof.
  intros Hb. unfold MakeDatagram. halting; [apply select_packets_halts; [done|]|apply build_datagram_halts].
  unfold GetTransmissionBudget. pose proof (u64_range (MTU - GetRetransmissionBudget a)). lia.
Qed.
Lemma MakeAckgram_halts now (r : RemotePeer) : halts (MakeAckgram now r).
Proof. unfold MakeAckgram. halting. Qed.
#[local] Hint Resolve MakeDatagram_halts MakeAckgram_halts : halts.
Lemma GetNextDatagram_halts now (r : RemotePeer) : blobs_ok (outbox r) -> halts (GetNextDatagram now r).
Proof. intros. unfold GetNextDatagram. halting. Qed.
End RemoteHalts.
#[export] Hint Resolve get_congestion_halts get_receipt_halts HandleAcknowledgements_halts HandleNonAcknowledgements_halts : halts.
#[export] Hint Resolve HandleIncomingPacket_halts Queue_HandleSplitPacket_halts EnqueueOutOfBand_halts EnqueueOutgoing_halts EnqueueLoopback_halts : halts.
#[export] Hint Resolve GetNextDatagram_halts : halts.

(** ** Encryption layers *)

(** A stream of which reading cannot wrap around: the cursor is at the beginning of
    an array that fits the address space. *)
Definition fresh_stream (s : BinaryStream) : Prop := m_position s = 0 /\ extent s < 9223372036854775808.

(** What the read path needs of a layer to come to an end: its operations do, and
    the plain text is a stream of its own. *)
Class HaltingLayer (crypto : Type) {layer : EncryptionLayer crypto} : Prop := {
  hl_key (c : crypto) : halts (GetEphemeralPublicKey c);
  hl_challenge entropy (c : crypto) s : halts (CreateChallenge entropy c s);
  hl_incoming (c : crypto) i s : halts (HandleChallengeIncoming c i s);
  hl_response (c : crypto) s : halts (HandleChallengeResponse c s);
  hl_exchange origin (c : crypto) s : halts (HandleKeyExchange origin c s);
  hl_expect (c : crypto) s : halts (ExpectRemoteIdentity c s);
  hl_encrypt entropy plain (c : crypto) : halts (Encrypt entropy plain c);
  hl_decrypt (c : crypto) s : halts (Decrypt c s);
  hl_plain (c c' : crypto) s s' plain : Decrypt c s = Ret (plain, c', s') -> fresh_stream plain;
}.
#[export] Hint Resolve hl_key hl_challenge hl_incoming hl_response hl_exchange hl_expect hl_encrypt hl_decrypt : halts.

Lemma alloc_size n l : alloc n = Ret l -> zlength l < 9223372036854775808.
Proof. unfold alloc. destruct (Z.ltb_spec n 9223372036854775808); [|discriminate]. intros [= <-]. rewrite zlength_replicate. lia. Qed.
Lemma mem_write_size l off d l' : mem_write l off d = Ret l' -> zlength l' = zlength l.
Proof.
  unfold mem_write. destruct (decide _); [|discriminate]. intros [= <-]. zlen.
Qed.
Lemma fresh_new b cap len : (forall l, b = Some l -> zlength l < 9223372036854775808) -> fresh_stream (mkStream b (alias_of b) cap len 0 0 false).
Proof. intros H. split; [done|]. unfold extent, deref_ro. destruct b as [l|]; cbn; [now apply H|lia]. Qed.
Lemma fresh_copy s s' : BinaryStream_copy s = Ret s' -> fresh_stream s'.
Proof.
  unfold BinaryStream_copy, BinaryStream_wrap. intros E. run_all; apply fresh_new; [|done]. intros l [= <-].
  erewrite mem_write_size by eassumption. eapply alloc_size. eassumption.
Qed.

#[export] Instance EncryptionLayerNull_halting : HaltingLayer unit.
Proof.
  split; intros; cbn [GetEphemeralPublicKey CreateChallenge HandleChallengeIncoming HandleChallengeResponse HandleKeyExchange
    ExpectRemoteIdentity Encrypt Decrypt EncryptionLayerNull] in *; halting.
  run_all. eapply fresh_copy. eassumption.
Qed.

Section SodiumHalts.
Context {sodium : Sodium}.

Lemma PreallocateBuffer_halts n : halts (PreallocateBuffer n).
Proof. unfold PreallocateBuffer. halting. Qed.
Lemma deref_key_halts k : halts (deref_key k).
Proof. unfold deref_key. halting. Qed.
Lemma read_array_halts n s : halts (read_array n s).
Proof. unfold read_array. halting. Qed.
#[local] Hint Resolve PreallocateBuffer_halts deref_key_halts read_array_halts : halts.
Lemma Keypair_default_halts : halts Keypair_default.
Proof. unfold Keypair_default. halting. Qed.
#[local] Hint Resolve Keypair_default_halts : halts.
Lemma CreateIdentity_halts entropy : halts (CreateIdentity entropy).
Proof. unfold CreateIdentity. halting. Qed.
Lemma CreateKeyExchange_halts entropy : halts (CreateKeyExchange entropy).
Proof. unfold CreateKeyExchange. halting. Qed.
#[local] Hint Resolve CreateKeyExchange_halts : halts.
Lemma EncryptionLayerSodium_new_halts entropy : halts (EncryptionLayerSodium_new entropy).
Proof. unfold EncryptionLayerSodium_new. halting. Qed.

(** A buffer made by PreallocateBuffer, and what is stored in it. *)
Lemma extent_same s s' : m_buffer s' = m_buffer s -> m_buffer_ro s' = m_buffer_ro s -> extent s' = extent s.
Proof. intros E1 E2. unfold extent, deref_ro. now rewrite E1, E2. Qed.

Lemma store_extent off d s u s' : store off d s = Ret (u, s') -> extent s' = extent s /\ m_position s' = m_position s /\ m_length s' = m_length s.
Proof.
  unfold store. intros E. run_all; try done. repeat split. unfold extent, deref_ro. cbn. destruct (m_buffer_ro s); try done.
  rewrite Heqo. cbn. eapply mem_write_size. eassumption.
Qed.

Lemma fresh_store off d s u s' : store off d s = Ret (u, s') -> fresh_stream s -> fresh_stream s'.
Proof. intros (E1 & E2 & _)%store_extent [H1 H2]. split; congruence. Qed.

Lemma Ensure_extent n s u s' : Ensure n s = Ret (u, s') -> extent s < 9223372036854775808 -> extent s' < 9223372036854775808.
Proof.
  unfold Ensure, Reallocate. intros E H. run_all; try done; unfold extent, deref_ro; cbn; try (eapply alloc_size; eassumption).
  erewrite mem_write_size by eassumption. eapply alloc_size; eassumption.
Qed.

Lemma BinaryStream_new_fresh n s : BinaryStream_new n = Ret s -> fresh_stream s /\ m_readonly s = false /\ m_length s = 0.
Proof.
  unfold BinaryStream_new. intros E. run_all; (split; [|done]); apply fresh_new; [|done]. intros l [= <-]. eapply alloc_size. eassumption.
Qed.

Lemma WriteZeroes_extent n s u s' : WriteZeroes n s = Ret (u, s') -> m_readonly s = false -> extent s < 9223372036854775808 ->
  extent s' < 9223372036854775808 /\ 0 <= m_length s'.
Proof.
  unfold WriteZeroes. intros E Hr H. run_step E. rewrite Hr in E. apply bind_inv in E as (u1 & s1 & E1 & E). apply bind_inv in E as (u2 & s2 & E2 & E).
  run_step E. apply bind_inv in E as (u3 & s3 & E3 & E). unfold Align in E1. run_step E1. unfold advance in E. run_step E.
  apply Ensure_extent in E2; [|rewrite (extent_same s); [done|now destruct (0 <? _)..]]. apply store_extent in E3 as (E3 & _).
  split; [rewrite (extent_same s3) by done; lia|]. cbn. pose proof (u64_range (m_position s3 + n)). lia.
Qed.

Lemma fresh_preallocated n s : PreallocateBuffer n = Ret s -> fresh_stream s.
Proof.
  unfold PreallocateBuffer. intros E. run_step E. apply BinaryStream_new_fresh in E0 as ((_ & H) & Hr & _). run_step E. destruct a0 as [u s1].
  apply WriteZeroes_extent in E0 as [H1 Hl]; [|done..]. run_step E. destruct a0 as [u1 s2]. run_step E.
  unfold SeekToBegin, Seek in E0. run_step E0. split; [cbn; lia|]. now rewrite (extent_same s1).
Qed.

#[export] Instance SodiumLayer_halting : HaltingLayer EncryptionLayerSodium.
Proof.
  split; intros; cbn [GetEphemeralPublicKey CreateChallenge HandleChallengeIncoming HandleChallengeResponse HandleKeyExchange
    ExpectRemoteIdentity Encrypt Decrypt SodiumLayer] in *;
    unfold Sodium_GetEphemeralPublicKey, Sodium_CreateChallenge, Sodium_HandleChallengeIncoming, Sodium_HandleChallengeResponse,
    Sodium_HandleKeyExchange, Sodium_ExpectRemoteIdentity, Sodium_Encrypt, Sodium_Decrypt in *; halting.
  run_all; eauto using fresh_copy, fresh_store, fresh_preallocated.
Qed.
End SodiumHalts.
#[export] Hint Resolve CreateIdentity_halts EncryptionLayerSodium_new_halts : halts.

(** ** The handshake *)

Section HandshakeHalts.
Context {host : Host} {crypto : Type} {layer : EncryptionLayer crypto} {halting_layer : HaltingLayer crypto}.

Lemma Auth_Begin_halts a (c : crypto) s : halts (Auth_Begin a c s).
Proof. unfold Auth_Begin. halting. Qed.
Lemma Auth_continue_halts entropy a (c : crypto) i s : halts (Auth_continue entropy a c i s).
Proof. unfold Auth_continue. halting. Qed.
#[local] Hint Resolve Auth_continue_halts : halts.
Lemma Auth_HandleKeyExchange_halts entropy a (c : crypto) i s : halts (Auth_HandleKeyExchange entropy a c i s).
Proof. unfold Auth_HandleKeyExchange. halting. Qed.
Lemma HandleAuth_halts a (c : crypto) i s : halts (HandleAuth a c i s).
Proof. unfold HandleAuth. halting. Qed.
#[local] Hint Resolve Auth_HandleKeyExchange_halts HandleAuth_halts : halts.
Lemma Auth_Handle_halts entropy a (c : crypto) i s : halts (Auth_Handle entropy a c i s).
Proof. unfold Auth_Handle. halting. Qed.
Lemma Handshaker_new_halts b origin : halts (Handshaker_new b origin).
Proof. unfold Handshaker_new. halting. Qed.
Lemma this_halts (s : HState crypto) : halts (this s).
Proof. unfold this. halting. Qed.
Lemma set_this_halts h (s : HState crypto) : halts (set_this h s).
Proof. unfold set_this. halting. Qed.
Lemma emit_halts e (s : HState crypto) : halts (emit e s).
Proof. apply halts_ret. Qed.
Lemma destroy_halts (s : HState crypto) : halts (destroy s).
Proof. apply halts_ret. Qed.
Lemma set_remote_id_halts id (s : HState crypto) : halts (set_remote_id id s).
Proof. apply halts_ret. Qed.
Lemma set_crypto_halts c (s : HState crypto) : halts (set_crypto c s).
Proof. apply halts_ret. Qed.
#[local] Hint Resolve Auth_Begin_halts Auth_Handle_halts this_halts set_this_halts emit_halts destroy_halts set_remote_id_halts set_crypto_halts : halts.
Lemma Reply_halts now out b (s : HState crypto) : halts (Reply now out b s).
Proof. unfold Reply. halting. Qed.
Lemma Complete_halts n (s : HState crypto) : halts (Complete n s).
Proof. unfold Complete. halting. Qed.
#[local] Hint Resolve Reply_halts Complete_halts : halts.
Lemma Handshaker_Update_halts now (s : HState crypto) : halts (Handshaker_Update now s).
Proof. unfold Handshaker_Update. halting. Qed.
Lemma WriteReplyHeader_halts id s : halts (WriteReplyHeader id s).
Proof. unfold WriteReplyHeader. halting. Qed.
#[local] Hint Resolve WriteReplyHeader_halts : halts.
Lemma WriteOutOfBandErrorReply_halts id r s : halts (WriteOutOfBandErrorReply id r s).
Proof. unfold WriteOutOfBandErrorReply. halting. Qed.
Lemma ReplyWithError_halts now out r (s : HState crypto) : halts (ReplyWithError now out r s).
Proof. unfold ReplyWithError. halting. Qed.
Lemma Handshake_Begin_halts cfg now (s : HState crypto) : halts (Handshake_Begin cfg now s).
Proof. unfold Handshake_Begin. halting. Qed.
#[local] Hint Resolve ReplyWithError_halts : halts.
Lemma Handle_stage_halts cfg now entropy opcode i o (s : HState crypto) : halts (Handle_stage cfg now entropy opcode i o s).
Proof. unfold Handle_stage. halting. Qed.
#[local] Hint Resolve Handle_stage_halts : halts.
Lemma Handshake_Handle_halts cfg now entropy packet (s : HState crypto) : halts (Handshake_Handle cfg now entropy packet s).
Proof. unfold Handshake_Handle. halting. Qed.

Lemma Setup_halts {RemoteAddress} now encryption identity (made : outcome crypto) handle origin layers (r : RemotePeer RemoteAddress) :
  halts made -> halts (Setup now encryption identity made handle origin layers r).
Proof. intros. pose proof Handshaker_new_halts. unfold Setup. halting. Qed.
Lemma protect_halts entropy encryption (c : option crypto) blob : halts (protect entropy encryption c blob).
Proof. unfold protect. halting. Qed.
#[local] Hint Resolve protect_halts : halts.
Lemma DoWriteCycle_halts {RemoteAddress} now entropy encryption pending (layers : gmap Z crypto) (r : RemotePeer RemoteAddress) :
  blobs_ok (outbox r) -> halts (DoWriteCycle now entropy encryption pending layers r).
Proof. intros. unfold DoWriteCycle. halting. Qed.
End HandshakeHalts.
#[export] Hint Resolve Complete_halts Handshaker_Update_halts WriteOutOfBandErrorReply_halts Handshake_Begin_halts Handshake_Handle_halts : halts.
#[export] Hint Resolve Setup_halts DoWriteCycle_halts : halts.
