(* ===== verification/DatagramTheorems.v ===== *)
(** * DatagramTheorems: what is queued is what is sent

    The theorems about EnqueueOutgoing and the DatagramBuilder: which packets a
    datagram takes, what its bytes are, what stays in the outbox; and the cases in
    which the builder leaves its contract. *)

From stdpp Require Import base tactics gmap sets list list_numbers numbers option.
From Stdlib Require Import ZArith Lia.
From S2P Require Import Prelude Memory BinaryStream StreamSpec StreamCodec Config PeerStats Packet Headers.
From S2P Require Import ChannelBuffer CongestionControl Reassembly ReceiptTracker Encryption Handshake RemotePeer PacketQueue.

Open Scope Z_scope.

Section Selection.
Context {host : Host} {RemoteAddress : Type}.
Abbreviation box := (list (OutgoingPacket RemoteAddress)).

(** A packet whose bytes are [bs]. *)
Definition carries (p : OutgoingPacket RemoteAddress) (bs : list Z) : Prop :=
  (exists a, rel true (op_blob p) a /\ a_bytes a = bs) /\ 0 < zlength bs.

Lemma carries_length p bs : carries p bs -> m_length (op_blob p) = zlength bs /\ 0 < zlength bs.
Proof. intros [(a & Ha & <-) Hp]. split; [exact (rf_len _ _ (proj1 Ha))|done]. Qed.

(** The bytes of the packets at the given indices. *)
Definition picked (cs : list (list Z)) (q : list nat) : list Z := mjoin (omap (fun i => cs !! i) q).

Lemma picked_app cs q1 q2 : picked cs (q1 ++ q2) = picked cs q1 ++ picked cs q2.
Proof. unfold picked. now rewrite omap_app, join_app. Qed.

Lemma picked_one cs i bs : cs !! i = Some bs -> picked cs [i] = bs.
Proof. intros E. unfold picked. cbn. rewrite E. cbn. apply app_nil_r. Qed.

(** While packets are selected, only their time of the next attempt changes, by the
    retransmission delay. *)
Record selected (now : Z) (c : CongestionControl) (b0 : box) (q : list nat) (b : box) : Prop := {
  se_length : length b = length b0;
  se_nodup : NoDup q;
  se_in : forall i, i ∈ q -> exists p t, b0 !! i = Some p /\ Elapsed now (op_sendNext p) = true /\
    now < t /\ b !! i = Some (set_sendNext t p) /\ t = Timestamp_add now (GetRetransmissionRTO (op_sendCount p) c);
  se_out : forall i, (i ∉ q) -> b !! i = b0 !! i;
}.

Lemma selected_nil now c b : selected now c b [] b.
Proof. split; [done|constructor|intros i Hi; now apply not_elem_of_nil in Hi|done]. Qed.

(** Selecting one more packet that is due. *)
Lemma selected_step now b0 q b c i p : selected now c b0 q b -> b !! i = Some p -> Elapsed now (op_sendNext p) = true ->
  now < Timestamp_add now (GetRetransmissionRTO (op_sendCount p) c) ->
  selected now c b0 (q ++ [i]) (alter (schedule now c) i b) /\ b0 !! i = Some p.
Proof.
  intros [Hl Hnd Hin Hout] Hi He Hr.
  assert (Hq : i ∉ q).
  { intros H. destruct (Hin i H) as (p0 & t & _ & _ & Ht & E & _). rewrite E in Hi. injection Hi as <-.
    cbn in He. unfold Elapsed in He. apply Z.leb_le in He. lia. }
  assert (E0 : b0 !! i = Some p) by now rewrite <- Hout. split; [|done]. split.
  - now rewrite length_alter.
  - apply list.NoDup_app. split; [done|]. split; [|now apply NoDup_singleton].
    intros x Hx [->|Hx']%elem_of_cons; [done|now apply not_elem_of_nil in Hx'].
  - intros j [Hj|Hj%list_elem_of_singleton]%elem_of_app.
    + destruct (Hin j Hj) as (p0 & t & H1 & H2 & H3 & H4 & H5). exists p0, t. split; [done|]. split; [done|]. split; [done|].
      split; [|done]. rewrite list_lookup_alter_ne; [done|]. now intros ->.
    + subst j. exists p, (Timestamp_add now (GetRetransmissionRTO (op_sendCount p) c)). repeat split; try done.
      rewrite list_lookup_alter_eq, Hi. done.
  - intros j Hj. apply not_elem_of_app in Hj as [Hj1 Hj2]. rewrite list_lookup_alter_ne; [now apply Hout|].
    intros ->. apply Hj2. now apply list_elem_of_singleton.
Qed.

(** Preconditions on the outbox: contents, and a clock that does not wrap. *)
Record outbox_ok (now : Z) (c : CongestionControl) (b : box) (cs : list (list Z)) : Prop := {
  ob_contents : Forall2 carries b cs;
  ob_delay : forall p, p ∈ b -> now < Timestamp_add now (GetRetransmissionRTO (op_sendCount p) c);
}.

Lemma ob_lookup now c b cs i p : outbox_ok now c b cs -> b !! i = Some p -> exists bs, cs !! i = Some bs /\ carries p bs.
Proof. intros [H _] Hi. destruct (Forall2_lookup_l _ _ _ _ _ H Hi) as (bs & E & Hc). eauto. Qed.

Lemma suitable_facts now n resend (p : OutgoingPacket RemoteAddress) : suitable now n resend p = true ->
  m_length (op_blob p) <= n /\ Elapsed now (op_sendNext p) = true /\ (0 <? op_sendCount p) = resend.
Proof.
  unfold suitable. rewrite !andb_true_iff. intros [[H1%Z.leb_le H2] H3]. split; [done|]. split; [done|].
  destruct resend; cbn in H2; [now rewrite orb_false_r in H2|]. apply Z.eqb_eq in H2. now rewrite H2.
Qed.

(** What GetQueuedPacket returns while selecting. *)
Lemma queued_step now c b0 cs q b n resend i : outbox_ok now c b0 cs -> selected now c b0 q b ->
  GetQueuedPacket now n resend b = Some i ->
  exists p bs, b !! i = Some p /\ cs !! i = Some bs /\ m_length (op_blob p) = zlength bs /\ 0 < zlength bs <= n /\
    selected now c b0 (q ++ [i]) (alter (schedule now c) i b).
Proof.
  intros Hok Hs Hi. destruct (find_index_Some _ _ _ Hi) as (p & Hp & Hsu). destruct (suitable_facts _ _ _ _ Hsu) as (Hlen & He & _).
  assert (Hq : b0 !! i = Some p).
  { destruct (decide (i ∈ q)) as [Hq|Hq]; [|now rewrite <- (se_out _ _ _ _ _ Hs i Hq)].
    destruct (se_in _ _ _ _ _ Hs i Hq) as (p0 & t & _ & _ & Ht & E & _). rewrite E in Hp. injection Hp as <-.
    cbn in He. unfold Elapsed in He. apply Z.leb_le in He. lia. }
  destruct (ob_lookup _ _ _ _ i p Hok Hq) as (bs & Ebs & Hc). destruct (carries_length p bs Hc) as [El Hpos].
  exists p, bs. do 3 (split; [done|]). split; [lia|].
  apply (selected_step now b0 q b c i p); try done. apply (ob_delay _ _ _ _ Hok). eapply list_elem_of_lookup_2. exact Hq.
Qed.

Lemma fill_loop_spec fuel now c b0 cs : outbox_ok now c b0 cs -> forall n q (r : RemotePeer RemoteAddress),
  0 <= n <= MTU -> (Z.to_nat n < fuel)%nat -> congestion r = Some c -> selected now c b0 q (outbox r) ->
  exists q' b', fill_loop fuel now n q r = Ret (q ++ q', set_outbox b' r) /\
    selected now c b0 (q ++ q') b' /\ zlength (picked cs q') <= n.
Proof.
  intros Hok. induction fuel as [|fuel IH]; intros n q r Hn Hf Hc Hs; [lia|]. cbn [fill_loop].
  assert (Hstop : exists q' b', Ret (q, r) = Ret (q ++ q', set_outbox b' r) /\ selected now c b0 (q ++ q') b' /\ zlength (picked cs q') <= n).
  { exists [], (outbox r). rewrite app_nil_r. split; [now destruct r|]. split; [done|]. unfold picked. cbn. unfold zlength. cbn. lia. }
  destruct (Z.leb_spec n 0); [done|]. destruct (IsOutOfBand r && negb (bool_decide (q = []))); [done|].
  unfold Datagram_AddNewPacket. destruct (GetQueuedPacket now n false (outbox r)) as [i|] eqn:Ei.
  - destruct (queued_step _ _ _ _ _ _ _ _ _ Hok Hs Ei) as (p & bs & Hp & Ebs & El & Hl & Hs').
    unfold get_congestion. rewrite Hc. cbn [mbind outcome_bind]. rewrite Hp, El, u64_small by (unfold MTU in *; lia).
    destruct (IH (n - zlength bs) (q ++ [i]) (set_outbox (alter (schedule now c) i (outbox r)) r)) as (q' & b' & E & Hs2 & Hq2);
      [lia|lia|done|exact Hs'|]. cbn [mret outcome_ret mbind outcome_bind]. rewrite E. exists (i :: q'), b'.
    rewrite <- app_assoc in *. split; [done|]. split; [exact Hs2|].
    change (i :: q') with ([i] ++ q'). rewrite picked_app, (picked_one cs i bs Ebs), zlength_app. lia.
  - cbn [mret outcome_ret mbind outcome_bind]. destruct fuel as [|fuel']; [lia|]. cbn [fill_loop]. destruct (Z.leb_spec 0 0); [done|lia].
Qed.

(** A send queue stays empty only if no new packet is suitable. *)
Lemma fill_loop_nil fuel now n (r r' : RemotePeer RemoteAddress) : (0 < n -> (0 < fuel)%nat) ->
  fill_loop fuel now n [] r = Ret ([], r') -> 0 < n -> GetQueuedPacket now n false (outbox r) = None.
Proof.
  intros Hf H Hn. destruct fuel as [|fuel]; [now specialize (Hf Hn); lia|]. cbn [fill_loop] in H.
  destruct (Z.leb_spec n 0); [lia|]. rewrite bool_decide_eq_true_2, andb_false_r in H by done.
  unfold Datagram_AddNewPacket in H. destruct (GetQueuedPacket now n false (outbox r)) as [i|]; [|done]. exfalso.
  unfold get_congestion in H. destruct (congestion r) as [c|]; [|done]. cbn in H.
  assert (Hgrow : forall fuel n q (r r' : RemotePeer RemoteAddress) q', q <> [] -> fill_loop fuel now n q r = Ret (q', r') -> q' <> []).
  { clear. induction fuel as [|fuel IH]; intros n q r r' q' Hq H; cbn in H; [done|]. destruct (n <=? 0); [congruence|].
    destruct (IsOutOfBand r && negb (bool_decide (q = []))); [congruence|]. unfold Datagram_AddNewPacket in H.
    destruct (GetQueuedPacket now n false (outbox r)) as [i|]; [|exact (IH _ _ _ _ _ Hq H)].
    destruct (get_congestion r); [|done]. cbn in H. refine (IH _ _ _ _ _ _ H). now destruct q. }
  refine (Hgrow _ _ _ _ _ _ _ H eq_refl). done.
Qed.

(** What counting the attempts does: each packet of the queue counts one more. *)
Record counted (q : list nat) (b b' : box) : Prop := {
  co_in : forall i p, i ∈ q -> b !! i = Some p -> b' !! i = Some (set_sendCount (op_sendCount p + 1) p);
  co_out : forall i, (i ∉ q) -> b' !! i = b !! i;
}.

Definition queue_ids (b : box) (q : list nat) : list Z := omap (fun i => op_id <$> b !! i) q.

Lemma queue_ids_ext b b' q : (forall i, i ∈ q -> op_id <$> b !! i = op_id <$> b' !! i) -> queue_ids b q = queue_ids b' q.
Proof.
  unfold queue_ids. induction q as [|i q IH]; intros H; [done|]. cbn. rewrite (H i) by constructor.
  rewrite IH; [done|]. intros j Hj. apply H. now constructor.
Qed.

Lemma count_sends_spec cs q : NoDup q -> forall b len ids,
  (forall i, i ∈ q -> exists p bs, b !! i = Some p /\ cs !! i = Some bs /\ m_length (op_blob p) = zlength bs /\
     0 <= op_sendCount p < SEND_RETRY_COUNT) ->
  0 <= len -> len + zlength (picked cs q) <= MTU ->
  exists b', count_sends q b len ids = Ret (None, b', len + zlength (picked cs q), ids ++ queue_ids b q) /\ counted q b b'.
Proof.
  induction 1 as [|i q Hi Hnd IH]; intros b len ids H Hl Hm.
  { exists b. cbn [count_sends]. unfold picked, queue_ids. cbn. unfold zlength. cbn. rewrite Z.add_0_r, app_nil_r.
    split; [done|]. split; [|done]. intros i p Hi. now apply not_elem_of_nil in Hi. }
  destruct (H i ltac:(constructor)) as (p & bs & Hp & Ebs & El & Hc). cbn [count_sends]. rewrite Hp. unfold SEND_RETRY_COUNT, MTU in *.
  change (i :: q) with ([i] ++ q) in Hm |- *. rewrite picked_app, (picked_one _ _ _ Ebs), zlength_app in *.
  pose proof (zlength_nonneg bs). pose proof (zlength_nonneg (picked cs q)).
  rewrite u32_small by lia. destruct (Z.ltb_spec 6 (op_sendCount p + 1)); [lia|]. rewrite El, u64_small by lia.
  destruct (IH (alter (set_sendCount (op_sendCount p + 1)) i b) (len + zlength bs) (ids ++ [op_id p])) as (b' & E & [Hin Hout]); try lia.
  { intros j Hj. rewrite list_lookup_alter_ne by (now intros ->). apply H. now constructor. }
  exists b'. rewrite E. split.
  - rewrite <- Z.add_assoc, <- app_assoc. do 3 f_equal. unfold queue_ids at 2. cbn. rewrite Hp. cbn. f_equal.
    apply queue_ids_ext. intros j Hj. rewrite list_lookup_alter_ne; [done|]. now intros ->.
  - split.
    + intros j pj [->%list_elem_of_singleton|Hj]%elem_of_app Hpj.
      * rewrite Hout by done. rewrite list_lookup_alter_eq, Hpj. cbn. congruence.
      * apply Hin; [done|]. rewrite list_lookup_alter_ne; [done|]. now intros ->.
    + intros j Hj. apply not_elem_of_app in Hj as [Hj1 Hj2]. rewrite Hout by done. apply list_lookup_alter_ne. intros ->.
      apply Hj1. now constructor.
Qed.

(** The first packet that was sent as often as allowed ends the loop. *)
Definition lost_receipt (p : OutgoingPacket RemoteAddress) : list receipt := if HasFlag p WITH_RECEIPT then [(op_id p, false)] else [].

Lemma count_sends_timeout q : NoDup q -> forall b len ids,
  (forall i, i ∈ q -> exists p, b !! i = Some p /\ 0 <= op_sendCount p <= SEND_RETRY_COUNT) ->
  (exists i p, i ∈ q /\ b !! i = Some p /\ op_sendCount p = SEND_RETRY_COUNT) ->
  exists i p b' len' ids', count_sends q b len ids = Ret (Some (op_id p, lost_receipt p), b', len', ids') /\
    i ∈ q /\ b !! i = Some p /\ op_sendCount p = SEND_RETRY_COUNT.
Proof.
  induction 1 as [|i q Hi Hnd IH]; intros b len ids H Hex; [destruct Hex as (i & _ & Hi & _); now apply not_elem_of_nil in Hi|].
  destruct (H i ltac:(constructor)) as (p & Hp & Hc). cbn [count_sends]. rewrite Hp. unfold SEND_RETRY_COUNT in *. rewrite u32_small by lia.
  destruct (Z.ltb_spec 6 (op_sendCount p + 1)).
  - eexists i, p, _, _, _. split; [reflexivity|]. split; [constructor|]. split; [done|lia].
  - assert (Hne : forall j, j ∈ q -> alter (set_sendCount (op_sendCount p + 1)) i b !! j = b !! j) by (intros j Hj; apply list_lookup_alter_ne; now intros ->).
    destruct (IH (alter (set_sendCount (op_sendCount p + 1)) i b) (u64 (len + m_length (op_blob p))) (ids ++ [op_id p])) as (j & pj & b' & len' & ids' & E & Hj & Hpj & Hcj).
    + intros j Hj. rewrite (Hne j Hj). apply H. now constructor.
    + destruct Hex as (j & pj & [->|Hj]%elem_of_cons & Hpj & Hcj); [rewrite Hp in Hpj; injection Hpj as <-; lia|]. exists j, pj. now rewrite (Hne j Hj).
    + exists j, pj, b', len', ids'. split; [exact E|]. split; [now constructor|]. now rewrite <- (Hne j Hj).
Qed.

(** Concatenating reliable packets appends their bytes and keeps the outbox. *)
Lemma sim_concat_blobs cs (b : box) q : (forall i, i ∈ q -> exists p bs, b !! i = Some p /\ cs !! i = Some bs /\
    carries p bs /\ HasFlag p RELIABLE = true) ->
  forall bs, roomy (zlength (picked cs q)) bs -> sim true (concat_blobs q (length b) b) (at_end bs) b (at_end (bs ++ picked cs q)).
Proof.
  induction q as [|i q IH]; intros H bs Hr; cbn [concat_blobs].
  { unfold picked. cbn. rewrite app_nil_r. apply sim_ret. }
  destruct (H i ltac:(constructor)) as (p & c & Hp & Ec & [(a & Ha & Eb) Hpos] & Hf).
  change (i :: q) with ([i] ++ q) in Hr |- *. rewrite picked_app, (picked_one _ _ _ Ec) in *.
  unfold roomy in *. rewrite zlength_app in Hr. pose proof (zlength_nonneg (picked cs q)).
  rewrite bool_decide_eq_false_2 by (apply lookup_lt_Some in Hp; lia). rewrite Hp, Hf.
  eapply sim_bind; [apply (sim_app_stream true (op_blob p) a); [exact Ha|constructor|rewrite Eb; unfold roomy; lia]|].
  rewrite Eb, app_assoc. apply IH; [|rewrite zlength_app; lia]. intros j Hj. apply H. now constructor.
Qed.

Lemma selected_nil_eq now c b0 b : selected now c b0 [] b -> b = b0.
Proof. intros H. apply list_eq. intros i. apply (se_out _ _ _ _ _ H). apply not_elem_of_nil. Qed.

Lemma budget_zero now n resend b cs c p : n <= 0 -> outbox_ok now c b cs -> p ∈ b -> suitable now n resend p = false.
Proof.
  intros Hn Hok [i Hi]%list_elem_of_lookup_1. destruct (ob_lookup _ _ _ _ _ _ Hok Hi) as (bs & _ & Hc).
  destruct (carries_length _ _ Hc) as [El Hp]. unfold suitable. destruct (Z.leb_spec (m_length (op_blob p)) n); [lia|done].
Qed.

(** Both selection steps, with budgets B for resending and S for new packets. *)
Lemma select_spec now c cs B S (r : RemotePeer RemoteAddress) : congestion r = Some c -> outbox_ok now c (outbox r) cs ->
  0 <= B -> 0 <= S -> B + S <= MTU ->
  exists q b st, select_packets now B S r = Ret (q, set_outbox b (set_stats st r)) /\ selected now c (outbox r) q b /\
    zlength (picked cs q) <= B + S /\
    (q = [] -> st = stats r /\ forall p, p ∈ outbox r -> suitable now B true p = false /\ suitable now S false p = false).
Proof.
  intros Hc Hok HB HS Hm. assert (Hfuel : (Z.to_nat S < fill_fuel S)%nat) by (unfold fill_fuel; lia). unfold select_packets.
  assert (Hnone : (forall p, p ∈ outbox r -> suitable now B true p = false) ->
    exists q b st, fill_loop (fill_fuel S) now S [] r = Ret (q, set_outbox b (set_stats st r)) /\ selected now c (outbox r) q b /\
    zlength (picked cs q) <= B + S /\
    (q = [] -> st = stats r /\ forall p, p ∈ outbox r -> suitable now B true p = false /\ suitable now S false p = false)).
  { intros HnoB. destruct (fill_loop_spec (fill_fuel S) now c (outbox r) cs Hok S [] r) as (q & b & E & Hs & Hq); try lia; try done.
    { apply selected_nil. }
    exists q, b, (stats r). split; [rewrite E; now destruct r|]. split; [done|]. split; [lia|]. intros ->. split; [done|].
    intros p Hp. split; [now apply HnoB|]. destruct (Z.ltb_spec 0 S).
    - apply (find_index_None _ (outbox r)); [|done]. apply (fill_loop_nil (fill_fuel S) now S r _ ltac:(lia) E). lia.
    - apply (budget_zero now S false (outbox r) cs c); [lia|done..]. }
  destruct (Z.ltb_spec 0 B).
  2:{ apply Hnone. intros p Hp. apply (budget_zero now B true (outbox r) cs c); [lia|done..]. }
  unfold Datagram_AddResendPacket. destruct (GetQueuedPacket now B true (outbox r)) as [i|] eqn:Ei.
  2:{ apply Hnone. exact (find_index_None _ _ Ei). }
  destruct (queued_step _ _ _ _ _ _ _ _ _ Hok (selected_nil now c (outbox r)) Ei) as (p & bs & Hp & Ebs & El & Hl & Hs).
  unfold get_congestion. rewrite Hc. cbn [mret outcome_ret mbind outcome_bind].
  destruct (fill_loop_spec (fill_fuel S) now c (outbox r) cs Hok S [i]
    (set_stats (Stats_Add PACKETS_LOST 1 (stats r)) (set_outbox (alter (schedule now c) i (outbox r)) r))) as (q & b & E & Hs' & Hq); try done; try lia.
  exists ([i] ++ q), b, (Stats_Add PACKETS_LOST 1 (stats r)). split; [exact E|]. split; [done|].
  rewrite picked_app, (picked_one _ _ _ Ebs), zlength_app. split; [lia|done].
Qed.

(** The budgets of a congestion control whose counters are not negative. *)
Lemma budgets_fit c : 0 <= m_bytesInFlight c -> 0 <= m_window c ->
  0 <= GetRetransmissionBudget c /\ 0 <= GetTransmissionBudget c /\ GetRetransmissionBudget c + GetTransmissionBudget c <= MTU.
Proof.
  intros Hb Hw. unfold GetTransmissionBudget. assert (0 <= GetRetransmissionBudget c <= MTU) by (unfold GetRetransmissionBudget, MTU; lia).
  rewrite u64_small by (unfold MTU in *; lia). destruct (Z.leb_spec (m_window c) (m_bytesInFlight c)); lia.
Qed.

(** The datagram d built from the packets at the indices q, and what is kept. *)
Record datagram_of (now : Z) (r : RemotePeer RemoteAddress) (c : CongestionControl) (cs : list (list Z)) (q : list nat)
    (d : OutgoingDatagram RemoteAddress) (r' : RemotePeer RemoteAddress) : Prop := {
  dg_bytes : rel true (od_blob d) (at_end (wire_datagram_header
    (mkDH true (IsConnected r) [] [] (m_nextDatagram c) (zlength (picked cs q))) ++ picked cs q));
  dg_id : od_id d = m_nextDatagram c;
  dg_first : exists i p, i ∈ q /\ outbox r !! i = Some p /\ od_crypto d = op_crypto p /\ od_addr d = op_addr p;
  dg_packets : od_packets d = queue_ids (outbox r) q;
  dg_budget : zlength (picked cs q) <= GetRetransmissionBudget c + GetTransmissionBudget c <= MTU;
  dg_nodup : NoDup q;
  dg_sent : forall i, i ∈ q -> exists p t, outbox r !! i = Some p /\ Elapsed now (op_sendNext p) = true /\ now < t /\
    outbox r' !! i = Some (set_sendCount (op_sendCount p + 1) (set_sendNext t p)) /\ t = Timestamp_add now (GetRetransmissionRTO (op_sendCount p) c);
  dg_kept : forall i, (i ∉ q) -> outbox r' !! i = outbox r !! i;
  dg_sentbox : sentbox r' = sentbox r ++ [d];
  dg_next : congestion r' = Some (snd (GetNextDatagramID c));
  dg_disconnect : disconnect r' = disconnect r;
  dg_receipt : rp_receipt r' = rp_receipt r;
}.

(** A packet that may be sent without being given up or taken off the outbox. *)
Definition resendable (now : Z) (p : OutgoingPacket RemoteAddress) : Prop :=
  HasFlag p RELIABLE = true /\ 0 <= op_sendCount p /\ (Elapsed now (op_sendNext p) = true -> op_sendCount p < SEND_RETRY_COUNT).

Lemma zlength_data_header link id n : zlength (wire_datagram_header (mkDH true link [] [] id n)) = 7.
Proof. done. Qed.

Lemma build_spec now (r : RemotePeer RemoteAddress) c cs q b st :
  congestion r = Some c -> outbox_ok now c (outbox r) cs ->
  (forall i p, i ∈ q -> outbox r !! i = Some p -> HasFlag p RELIABLE = true /\ 0 <= op_sendCount p < SEND_RETRY_COUNT) -> q <> [] ->
  selected now c (outbox r) q b -> zlength (picked cs q) <= GetRetransmissionBudget c + GetTransmissionBudget c <= MTU ->
  exists d r', build_datagram now q (set_outbox b (set_stats st r)) = Ret (NewDatagram d, r') /\ datagram_of now r c cs q d r'.
Proof.
  intros Hc Hok Hre Hne Hs Hbud.
  assert (Hq : forall i, i ∈ q -> exists p t bs, outbox r !! i = Some p /\ b !! i = Some (set_sendNext t p) /\ now < t /\
    Elapsed now (op_sendNext p) = true /\ cs !! i = Some bs /\ carries p bs /\ (HasFlag p RELIABLE = true /\ 0 <= op_sendCount p < SEND_RETRY_COUNT) /\ t = Timestamp_add now (GetRetransmissionRTO (op_sendCount p) c)).
  { intros i Hi. destruct (se_in _ _ _ _ _ Hs i Hi) as (p & t & Hp & He & Ht & Hb & Et). exists p, t.
    destruct (ob_lookup _ _ _ _ _ _ Hok Hp) as (bs & E & Hca). exists bs. do 6 (split; [done|]). split; [|done].
    exact (Hre i p Hi Hp). }
  destruct (count_sends_spec cs q (se_nodup _ _ _ _ _ Hs) b 0 []) as (b' & Ecount & Hco); [|lia|lia|].
  { intros i Hi. destruct (Hq i Hi) as (p & t & bs & _ & Hb & _ & _ & E & Hca & [_ Hcnt] & _). exists (set_sendNext t p), bs.
    do 2 (split; [done|]). split; [exact (proj1 (carries_length _ _ Hca))|done]. }
  destruct (BinaryStream_new_rel BINARYSTREAM_DEFAULT_CAPACITY) as (s0 & E0 & H0).
  { unfold BINARYSTREAM_DEFAULT_CAPACITY, max_len. lia. }
  set (h := mkDH true (IsConnected r) [] [] (m_nextDatagram c) (zlength (picked cs q))).
  destruct (sim_DatagramHeader_Serialize [] h) with (s := s0) as (s1 & E1 & H1); [done|done|].
  cbn [app] in H1.
  destruct (sim_concat_blobs cs b' q) with (bs := wire_datagram_header h) (s := s1) as (s2 & E2 & H2);
    [|unfold roomy, h; rewrite zlength_data_header; unfold MTU, max_len in *; lia|done|].
  { intros i Hi. destruct (Hq i Hi) as (p & t & bs & _ & Hb & _ & _ & E & Hca & [Hf _] & _).
    exists (set_sendCount (op_sendCount p + 1) (set_sendNext t p)), bs. split; [exact (co_in _ _ _ Hco i _ Hi Hb)|]. done. }
  assert (Eq : exists first q', q = first :: q') by (destruct q; [done|eauto]). destruct Eq as (first & q' & Eq).
  assert (Hfirst : first ∈ q) by (rewrite Eq; constructor).
  destruct (Hq first Hfirst) as (p & t & bs & Hp0 & Hb & _). rewrite Z.add_0_l in Ecount. cbn [app] in Ecount.
  assert (Hrun : exists d r', build_datagram now q (set_outbox b (set_stats st r)) = Ret (NewDatagram d, r') /\
    d = mkDatagram (op_crypto p) s2 (op_addr p) (m_nextDatagram c) (Timestamp_add now (FromSeconds 5)) (queue_ids b q) /\
    outbox r' = b' /\ sentbox r' = sentbox r ++ [d] /\ congestion r' = Some (snd (GetNextDatagramID c)) /\ disconnect r' = disconnect r /\ rp_receipt r' = rp_receipt r).
  { eexists _, _. split.
    - unfold build_datagram. rewrite Eq at 1. unfold get_congestion.
      cbn [congestion set_outbox set_stats]. rewrite Hc. cbn [mbind outcome_bind GetNextDatagramID outbox set_outbox set_congestion].
      rewrite Hb. cbn [mbind outcome_bind]. rewrite Ecount. cbn [mbind outcome_bind]. rewrite E0. cbn [mbind outcome_bind].
      match goal with |- context [DatagramHeader_Serialize ?x s0] => change x with h end. rewrite E1. cbn [mbind outcome_bind]. rewrite E2. reflexivity.
    - now repeat split. }
  destruct Hrun as (d & r' & E & Ed & Eb' & Esent & Econg & Edis & Erec). exists d, r'. split; [exact E|]. split; try done; try (now rewrite Ed).
  - exists first, p. rewrite Ed. done.
  - rewrite Ed. apply queue_ids_ext. intros i Hi. destruct (Hq i Hi) as (pi & ti & bi & -> & -> & _). done.
  - exact (se_nodup _ _ _ _ _ Hs).
  - intros i Hi. destruct (Hq i Hi) as (pi & ti & bi & Hpi & Hbi & Ht & He & _ & _ & _ & Et). exists pi, ti. do 3 (split; [done|]). split; [|done].
    rewrite Eb'. exact (co_in _ _ _ Hco i _ Hi Hbi).
  - intros i Hi. rewrite Eb', (co_out _ _ _ Hco i Hi). exact (se_out _ _ _ _ _ Hs i Hi).
Qed.
End Selection.

(** ** Queueing a packet *)

Section Queueing.
Context {host : Host} {RemoteAddress : Type} (now : Z) (packet : Packet) (cmd : Z) (payload : list Z)
  (options channel sequence container : Z) (address : RemoteAddress) (full : BinaryStream).
Let bytes := cmd :: payload.
Let n := segment_count (zlength bytes).

(** Segment i as it stands in the outbox; [base] is the ID of the first segment of
    a packet that is split. *)
Record queued (base i : Z) (meta : OutgoingPacket RemoteAddress) : Prop := {
  qd_id : op_id meta = if 1 <? n then u32 (base + i) else container;
  qd_bytes : carries meta (wire_packet_header (segment_header (zlength payload) (zlength bytes) (op_id meta)
    options channel sequence container i) ++ chunk bytes i);
  qd_options : op_options meta = if 1 <? n then options_or options RELIABLE else options;
  qd_due : op_sendNext meta = now /\ op_sendCount meta = 0;
  qd_address : op_addr meta = address /\ op_crypto meta = None;
}.

Context (Hholds : holds packet cmd payload) (Hbytes : Forall is_byte bytes) (Hlen : zlength payload < PACKET_MAX_LENGTH)
  (Hopt : is_byte options) (Hchan : is_byte channel) (Hseq : 0 <= sequence < 4294967296) (Hcont : 0 <= container < 4294967296)
  (Hfull : rel true full (at_end bytes)).

Lemma bytes_length : 1 <= zlength bytes <= PACKET_MAX_LENGTH.
Proof. subst bytes. pose proof (zlength_nonneg payload). rewrite zlength_cons. lia. Qed.

Lemma segment_header_ok id i : 0 <= id < 4294967296 -> 0 <= i < n ->
  ph_ok (segment_header (zlength payload) (zlength bytes) id options channel sequence container i).
Proof.
  intros Hid Hi. pose proof bytes_length as Hb. destruct (segment_values bytes i Hb Hi) as (E1 & E2 & E3 & H4 & H5).
  assert (zlength bytes = 1 + zlength payload) by (subst bytes; rewrite zlength_cons; lia).
  change CHUNK_SIZE with 1200 in *. unfold segment_header. change CHUNK_SIZE with 1200. unfold PACKET_MAX_LENGTH in *.
  split; cbn; try done; rewrite ?E1, ?E2, ?E3; try (unfold PACKET_MAX_LENGTH; lia).
Qed.

Lemma zlength_packet_header h : 0 < zlength (wire_packet_header h) <= 64.
Proof.
  unfold wire_packet_header. repeat case_match; rewrite ?zlength_app, ?be_bytes_length; unfold zlength; cbn [length]; lia.
Qed.

Lemma ztake_of_length {A} k (l : list A) : ztake (zlength (ztake k l)) l = ztake k l.
Proof.
  unfold ztake, zlength. rewrite Nat2Z.id, length_take. destruct (Nat.min_spec (Z.to_nat k) (length l)) as [[H ->]|[H ->]]; [done|].
  now rewrite !take_ge by lia.
Qed.

(** [fullPacketStream.GetBuffer() + header.offset], bufferLength bytes. *)
Lemma read_chunk i : 0 <= i < n ->
  read_from (deref_ro full) (i * CHUNK_SIZE) (segment_length (zlength bytes) i) = Ret (map Some (chunk bytes i)).
Proof.
  intros Hi. pose proof bytes_length as Hb. destruct (segment_values bytes i Hb Hi) as (_ & _ & _ & H4 & H5).
  assert (Hm : 1 <= zlength bytes <= max_len) by (unfold max_len, PACKET_MAX_LENGTH in *; lia).
  destruct (chunk_length bytes i Hi Hm) as [El _].
  assert (Hd : zlength (zdrop (i * CHUNK_SIZE) bytes) = zlength bytes - i * CHUNK_SIZE) by (apply zlength_zdrop; lia).
  pose proof (ztake_of_length CHUNK_SIZE (zdrop (i * CHUNK_SIZE) bytes)) as Et. fold (chunk bytes i) in Et.
  rewrite <- El, (read_backing _ _ _ _ (proj1 Hfull)); cbn [at_end a_bytes]; [now rewrite Et|lia|lia|].
  unfold chunk, zlength, ztake in *. rewrite length_take. lia.
Qed.

Lemma enqueue_segment_spec c base i : m_nextPacket c = u32 (base + i) -> 0 <= i < n ->
  exists meta, enqueue_segment now packet full options channel sequence container n i address c =
      Ret (op_id meta, meta, if 1 <? n then snd (GetNextPacketID c) else c) /\ queued base i meta.
Proof.
  intros Hc Hi. set (id := if 1 <? n then u32 (base + i) else container).
  assert (Hid : 0 <= id < 4294967296) by (unfold id; destruct (1 <? n); [apply u32_range|done]).
  pose proof bytes_length as Hb. destruct (segment_values bytes i Hb Hi) as (E1 & E2 & E3 & H4 & H5).
  destruct (BinaryStream_new_rel BINARYSTREAM_DEFAULT_CAPACITY) as (s0 & E0 & H0).
  { unfold BINARYSTREAM_DEFAULT_CAPACITY, max_len. lia. }
  set (h := segment_header (zlength payload) (zlength bytes) id options channel sequence container i).
  destruct (sim_PacketHeader_Serialize [] h (segment_header_ok id i Hid Hi)) with (s := s0) as (s1 & Es1 & H1); [done|done|].
  cbn [app] in H1. pose proof (zlength_packet_header h) as Hh.
  destruct (sim_app_bytes (at_end (wire_packet_header h)) (wire_packet_header h) (chunk bytes i)) with (s := s1) as (s2 & Es2 & H2);
    [constructor|now unfold chunk; auto with bytes|unfold roomy, max_len, CHUNK_SIZE, MTU in *; lia|done|].
  exists (mkOut None s2 address now 0 id (if 1 <? n then options_or options RELIABLE else options)). split.
  - unfold enqueue_segment. rewrite (hd_len _ _ _ Hholds), (rf_len _ _ (proj1 Hfull)). cbn [at_end a_bytes].
    replace (if 1 <? n then GetNextPacketID c else (container, c)) with (id, if 1 <? n then snd (GetNextPacketID c) else c)
      by (unfold id; rewrite <- Hc; now destruct (1 <? n)).
    rewrite E0. cbn [mbind outcome_bind]. fold h. rewrite Es1. cbn [mbind outcome_bind].
    assert (Eo : ph_offset h = i * CHUNK_SIZE) by exact E1. rewrite Eo, read_chunk by done. cbn [mbind outcome_bind]. rewrite Es2. done.
  - split; try done. change (op_id _) with id. fold h. split; [|rewrite zlength_app; lia]. now exists (at_end (wire_packet_header h ++ chunk bytes i)).
Qed.

Lemma u32_add_l x y : u32 (u32 x + y) = u32 (x + y).
Proof. unfold u32. apply Z.add_mod_idemp_l. lia. Qed.

Lemma segment_loop_spec k base : forall i c, 0 <= i -> i + Z.of_nat k = n -> m_nextPacket c = u32 (base + i) ->
  exists metas c', segment_loop k now packet full options channel sequence container n i address c = Ret (map op_id metas, metas, c') /\
    Forall2 (queued base) (seqZ i (Z.of_nat k)) metas /\
    c' = (if 1 <? n then set_ids (u32 (base + n)) (m_nextDatagram c) c else c).
Proof.
  induction k as [|k IH]; intros i c Hi Hk Hc.
  { exists [], c. split; [done|]. split; [constructor|]. replace (base + n) with (base + i) by lia. rewrite <- Hc.
    destruct (1 <? n); [now destruct c|done]. }
  cbn [segment_loop]. destruct (enqueue_segment_spec c base i Hc) as (meta & -> & Hm); [lia|]. cbn [mbind outcome_bind].
  destruct (1 <? n) eqn:En.
  - destruct (IH (i + 1) (snd (GetNextPacketID c))) as (metas & c' & -> & Hf & ->); [lia|lia|cbn; rewrite Hc, u32_add_l; f_equal; lia|].
    exists (meta :: metas), (set_ids (u32 (base + n)) (m_nextDatagram c) c). split; [done|]. split; [|done].
    rewrite seqZ_cons by lia. constructor; [done|]. now replace (Z.pred (Z.of_nat (S k))) with (Z.of_nat k) by lia.
  - assert (k = 0%nat) as -> by (apply Z.ltb_ge in En; lia). exists [meta], c. split; [done|]. split; [|done].
    change (Z.of_nat 1) with 1. rewrite seqZ_cons by lia. constructor; [done|constructor].
Qed.
End Queueing.

(** ** Unreliable packets *)

Section Unreliable.
Context {host : Host} {RemoteAddress : Type} (now : Z) (c : CongestionControl).

(** A packet that is due for the first time and must not be kept after that. *)
Record unreliable_new (bs : list Z) (p : OutgoingPacket RemoteAddress) : Prop := {
  un_bytes : carries p bs;
  un_flag : HasFlag p RELIABLE = false;
  un_new : op_sendCount p = 0;
  un_due : Elapsed now (op_sendNext p) = true;
  un_delay : now < Timestamp_add now (GetRetransmissionRTO 0 c);
}.

Lemma unreliable_suitable bs p n resend : unreliable_new bs p -> suitable now n resend p = (zlength bs <=? n) && negb resend.
Proof.
  intros [Hb _ Hn Hd _]. unfold suitable. rewrite (proj1 (carries_length _ _ Hb)), Hn, Hd. cbn. now rewrite andb_false_r, andb_true_r, andb_true_r.
Qed.

Lemma scheduled_unsuitable bs p n resend : unreliable_new bs p -> suitable now n resend (schedule now c p) = false.
Proof.
  intros [_ _ Hn _ Hr]. unfold suitable, schedule. cbn [op_sendNext set_sendNext]. unfold Elapsed. rewrite Hn.
  destruct (Z.leb_spec (Timestamp_add now (GetRetransmissionRTO 0 c)) now); [lia|]. apply andb_false_r.
Qed.

(** One round that finds a packet, and the end of the loop. *)
Lemma fill_step fuel n q (r : RemotePeer RemoteAddress) i p : 0 < n -> IsOutOfBand r = false -> congestion r = Some c ->
  GetQueuedPacket now n false (outbox r) = Some i -> outbox r !! i = Some p ->
  fill_loop (S fuel) now n q r =
    fill_loop fuel now (u64 (n - m_length (op_blob p))) (q ++ [i]) (set_outbox (alter (schedule now c) i (outbox r)) r).
Proof.
  intros Hn Ho Hc Hi Hp. cbn [fill_loop]. destruct (Z.leb_spec n 0); [lia|]. rewrite Ho. cbn [andb].
  unfold Datagram_AddNewPacket, get_congestion. now rewrite Hi, Hc, Hp.
Qed.

Lemma fill_stop fuel n q (r : RemotePeer RemoteAddress) : IsOutOfBand r = false -> GetQueuedPacket now n false (outbox r) = None ->
  fill_loop (S (S fuel)) now n q r = Ret (q, r).
Proof.
  intros Ho Hi. cbn [fill_loop]. destruct (n <=? 0); [done|]. rewrite Ho. cbn [andb]. unfold Datagram_AddNewPacket. now rewrite Hi.
Qed.

Lemma fill_two fuel n (r : RemotePeer RemoteAddress) p1 p2 b1 b2 : congestion r = Some c -> IsOutOfBand r = false ->
  outbox r = [p1; p2] -> unreliable_new b1 p1 -> unreliable_new b2 p2 -> zlength b1 + zlength b2 <= n <= MTU ->
  fill_loop (4 + fuel) now n [] r = Ret ([0; 1]%nat, set_outbox [schedule now c p1; schedule now c p2] r).
Proof.
  intros Hc Ho Hb H1 H2 Hn. destruct (carries_length _ _ (un_bytes _ _ H1)) as [L1 P1]. destruct (carries_length _ _ (un_bytes _ _ H2)) as [L2 P2].
  unfold MTU in Hn. cbn [Nat.add]. rewrite (fill_step _ n _ r 0 p1); [|lia|done|done| |now rewrite Hb].
  2:{ rewrite Hb. unfold GetQueuedPacket. cbn [find_index]. rewrite (unreliable_suitable _ _ _ _ H1).
      now destruct (Z.leb_spec (zlength b1) n); [|lia]. }
  rewrite L1, u64_small, Hb by lia. change (alter (schedule now c) 0%nat [p1; p2]) with [schedule now c p1; p2].
  rewrite (fill_step _ _ _ _ 1 p2); [|lia|done|done| |done].
  2:{ unfold GetQueuedPacket. cbn [outbox set_outbox find_index]. rewrite (scheduled_unsuitable _ _ _ _ H1), (unreliable_suitable _ _ _ _ H2).
      now destruct (Z.leb_spec (zlength b2) (n - zlength b1)); [|lia]. }
  apply fill_stop; [done|]. unfold GetQueuedPacket. cbn [outbox set_outbox alter list_alter find_index].
  now rewrite (scheduled_unsuitable _ _ _ _ H1), (scheduled_unsuitable _ _ _ _ H2).
Qed.

(** Counting two packets for the first time. *)
Lemma count_two (p1 p2 : OutgoingPacket RemoteAddress) : op_sendCount p1 = 0 -> op_sendCount p2 = 0 ->
  count_sends [0; 1]%nat [p1; p2] 0 [] =
    Ret (None, [set_sendCount 1 p1; set_sendCount 1 p2], u64 (u64 (m_length (op_blob p1)) + m_length (op_blob p2)), [op_id p1; op_id p2]).
Proof. intros E1 E2. cbn. rewrite E1. cbn. rewrite E2. done. Qed.

(** The second pointer of the queue is invalid once the first packet is erased. *)
Lemma concat_two (p1 p2 : OutgoingPacket RemoteAddress) b1 bs s : carries p1 b1 -> HasFlag p1 RELIABLE = false ->
  rel true s (at_end bs) -> roomy (zlength b1) bs -> concat_blobs [0; 1]%nat 2 [p1; p2] s = Fail Dangling.
Proof.
  intros [(a & Ha & Eb) _] Hf Hs Hr. cbn [concat_blobs]. rewrite bool_decide_eq_false_2 by lia. cbn [lookup list_lookup].
  destruct (sim_app_stream true (op_blob p1) a (at_end bs) bs Ha ltac:(constructor)) with (s := s) as (s' & E & _); [now rewrite Eb|done|].
  rewrite (bind_ret _ _ _ _ _ E), Hf. unfold GetOutgoingPacketByID. cbn [find_index]. rewrite Z.eqb_refl.
  change (Nat.min 2 0) with 0%nat. now rewrite bool_decide_eq_true_2 by lia.
Qed.
End Unreliable.

(** Taking a sequence number changes the channels only. *)
Lemma channel_sequence {RemoteAddress : Type} modes index (r r1 : RemotePeer RemoteAddress) buffer :
  GetChannelBuffer modes index r = Ret (buffer, r1) ->
  match buffer with
    | Some (_, b) => let '(sequence, b) := GetNextOutgoing b in (sequence, set_channels (<[index := b]> (channels r1)) r1)
    | None => (0, r1)
    end = (match buffer with Some (_, b) => fst (GetNextOutgoing b) | None => 0 end,
           set_channels (match buffer with Some (_, b) => <[index := snd (GetNextOutgoing b)]> (channels r1) | None => channels r end) r).
Proof.
  unfold GetChannelBuffer. intros H.
  destruct (index =? 0); [injection H as <- <-; now destruct r|].
  destruct (modes !! Z.to_nat index) as [[]|]; [..|done]; injection H as <- <-; try done. now destruct r.
Qed.

(** ** Theorems *)

(** ** MakeDatagram on reliable packets *)

(** A reliable packet that, when it is due, was sent at most as often as allowed. *)
Definition attempted {RemoteAddress : Type} (now : Z) (p : OutgoingPacket RemoteAddress) : Prop :=
  HasFlag p RELIABLE = true /\ 0 <= op_sendCount p /\ (Elapsed now (op_sendNext p) = true -> op_sendCount p <= SEND_RETRY_COUNT).

(** Packet [p] was sent as often as allowed, and is given up. *)
Record gives_up {host : Host} {RemoteAddress : Type} (now : Z) (r : RemotePeer RemoteAddress) (p : OutgoingPacket RemoteAddress) (r' : RemotePeer RemoteAddress) : Prop := {
  gu_packet : p ∈ outbox r /\ Elapsed now (op_sendNext p) = true /\ op_sendCount p = SEND_RETRY_COUNT;
  gu_run : MakeDatagram now r = Ret (PacketTimedOut (op_id p) (lost_receipt p), r');
  gu_sentbox : sentbox r' = sentbox r;
}.

Lemma build_gives_up {host : Host} {RemoteAddress : Type} now (r : RemotePeer RemoteAddress) c q b st :
  congestion r = Some c -> Forall (attempted now) (outbox r) -> selected now c (outbox r) q b ->
  (exists i p, i ∈ q /\ outbox r !! i = Some p /\ op_sendCount p = SEND_RETRY_COUNT) ->
  exists p r', build_datagram now q (set_outbox b (set_stats st r)) = Ret (PacketTimedOut (op_id p) (lost_receipt p), r') /\
    p ∈ outbox r /\ Elapsed now (op_sendNext p) = true /\ op_sendCount p = SEND_RETRY_COUNT /\ sentbox r' = sentbox r.
Proof.
  intros Hc Hat Hs Hex.
  destruct (count_sends_timeout q (se_nodup _ _ _ _ _ Hs) b 0 []) as (i & p & b' & len' & ids' & E & Hi & Hp & Hcnt).
  - intros i Hi. destruct (se_in _ _ _ _ _ Hs i Hi) as (p & t & Hp & He & _ & Hb & _). exists (set_sendNext t p). split; [done|].
    destruct (Forall_lookup_1 _ _ _ _ Hat Hp) as (_ & H0 & Hle). cbn. auto.
  - destruct Hex as (i & p & Hi & Hp & Hcnt). destruct (se_in _ _ _ _ _ Hs i Hi) as (p' & t & Hp' & _ & _ & Hb & _). exists i, (set_sendNext t p'). split; [done|]. split; [done|].
    rewrite Hp in Hp'. now injection Hp' as <-.
  - destruct (se_in _ _ _ _ _ Hs i Hi) as (p0 & t & Hp0 & He & _ & Hb & _). rewrite Hb in Hp. injection Hp as <-. exists p0.
    assert (Hf : exists first q', q = first :: q') by (destruct q; [now apply not_elem_of_nil in Hi|eauto]). destruct Hf as (first & q' & Eq).
    destruct (se_in _ _ _ _ _ Hs first ltac:(rewrite Eq; constructor)) as (pf & tf & _ & _ & _ & Hbf & _).
    eexists. split; [|split; [now apply list_elem_of_lookup_2 in Hp0|split; [done|split; [exact Hcnt|]]]].
    + unfold build_datagram. rewrite Eq at 1. unfold get_congestion. cbn [congestion set_outbox set_stats]. rewrite Hc.
      cbn [mbind outcome_bind GetNextDatagramID outbox set_outbox set_congestion]. rewrite Hbf. cbn [mbind outcome_bind]. rewrite E. reflexivity.
    + reflexivity.
Qed.

(** What MakeDatagram makes of an outbox of reliable packets. *)
Lemma MakeDatagram_cases {host : Host} {RemoteAddress : Type} now (r : RemotePeer RemoteAddress) c cs :
  congestion r = Some c -> 0 <= m_bytesInFlight c -> 0 <= m_window c ->
  outbox_ok now c (outbox r) cs -> Forall (attempted now) (outbox r) ->
  (MakeDatagram now r = Ret (NoDatagram, r) /\
   forall p, p ∈ outbox r -> suitable now (GetRetransmissionBudget c) true p = false /\
     suitable now (GetTransmissionBudget c) false p = false) \/
  (exists q d r', MakeDatagram now r = Ret (NewDatagram d, r') /\ q <> [] /\ datagram_of now r c cs q d r' /\
     forall i p, i ∈ q -> outbox r !! i = Some p -> op_sendCount p < SEND_RETRY_COUNT) \/
  (exists p r', gives_up now r p r').
Proof.
  intros Hc Hb Hw Hok Hat. destruct (budgets_fit c Hb Hw) as (HB & HS & Hm).
  destruct (bool_decide_reflect (outbox r = [])) as [E|Hne].
  { left. unfold MakeDatagram. rewrite bool_decide_true by done. split; [done|]. rewrite E. intros p Hp. now apply not_elem_of_nil in Hp. }
  assert (EM : MakeDatagram now r = if (GetTransmissionBudget c =? 0) && (GetRetransmissionBudget c =? 0) then Ret (NoDatagram, r) else
    '(sendQueue, r) ← select_packets now (GetRetransmissionBudget c) (GetTransmissionBudget c) r; build_datagram now sendQueue r).
  { unfold MakeDatagram. rewrite bool_decide_false by done. unfold get_congestion. now rewrite Hc. }
  destruct (_ && _) eqn:E0.
  { left. apply andb_true_iff in E0 as [ES%Z.eqb_eq EB%Z.eqb_eq]. split; [done|]. intros p Hp.
    split; apply (budget_zero _ _ _ (outbox r) cs c); try done; lia. }
  destruct (select_spec now c cs _ _ r Hc Hok HB HS Hm) as (q & b & st & E & Hs & Hq & Hnil). rewrite E in EM. cbn [mbind outcome_bind] in EM.
  destruct (decide (q = [])) as [->|Hnq].
  { left. destruct (Hnil eq_refl) as [-> Hno]. rewrite (selected_nil_eq _ _ _ _ Hs) in EM. cbn [build_datagram] in EM.
    split; [rewrite EM; now destruct r|exact Hno]. }
  destruct (decide (Exists (fun i => (op_sendCount <$> outbox r !! i) = Some SEND_RETRY_COUNT) q)) as [Hx|Hx].
  - right; right. apply list.Exists_exists in Hx as (i & Hi & Ei). destruct (outbox r !! i) as [p|] eqn:Hp; [|discriminate]. injection Ei as Ei.
    destruct (build_gives_up now r c q b st Hc Hat Hs) as (p' & r' & Er & H1 & H2 & H3 & H4); [now exists i, p|]. exists p', r'. split; [done| |done]. now rewrite EM.
  - right; left. assert (Hlt : forall i p, i ∈ q -> outbox r !! i = Some p -> HasFlag p RELIABLE = true /\ 0 <= op_sendCount p < SEND_RETRY_COUNT).
    { intros i p Hi Hp. destruct (Forall_lookup_1 _ _ _ _ Hat Hp) as (Hf & H0 & Hle). destruct (se_in _ _ _ _ _ Hs i Hi) as (p' & _ & Hp' & He & _). rewrite Hp in Hp'. injection Hp' as <-.
      specialize (Hle He). split; [done|]. split; [done|]. assert (op_sendCount p <> SEND_RETRY_COUNT); [|lia]. intros Hn. apply Hx. apply list.Exists_exists. exists i. rewrite Hp. split; [done|]. cbn. now rewrite Hn. }
    destruct (build_spec now r c cs q b st Hc Hok Hlt Hnq Hs) as (d & r' & Ed & Hd); [lia|]. exists q, d, r'. rewrite EM. split; [done|]. split; [done|]. split; [done|].
    intros i p Hi Hp. apply (Hlt i p Hi Hp).
Qed.

Lemma MakeDatagram_spec {host : Host} {RemoteAddress : Type} now (r : RemotePeer RemoteAddress) c cs :
  congestion r = Some c -> 0 <= m_bytesInFlight c -> 0 <= m_window c ->
  outbox_ok now c (outbox r) cs -> Forall (resendable now) (outbox r) ->
  (MakeDatagram now r = Ret (NoDatagram, r) /\
   forall p, p ∈ outbox r -> suitable now (GetRetransmissionBudget c) true p = false /\
     suitable now (GetTransmissionBudget c) false p = false) \/
  (exists q d r', MakeDatagram now r = Ret (NewDatagram d, r') /\ q <> [] /\ datagram_of now r c cs q d r').
Proof.
  intros Hc Hb Hw Hok Hre. destruct (MakeDatagram_cases now r c cs Hc Hb Hw Hok) as [H|[(q & d & r' & E & Hq & Hd & _)|(p & r' & [(Hp & He & Hn) _ _])]].
  - eapply list.Forall_impl; [exact Hre|]. intros p (H1 & H2 & H3). split; [done|]. split; [done|]. intros He. specialize (H3 He). lia.
  - now left.
  - right. now exists q, d, r'.
  - exfalso. rewrite list.Forall_forall in Hre. destruct (Hre p Hp) as (_ & _ & H3). specialize (H3 He). lia.
Qed.

(** C17: what is queued is what is sent.  For a connection whose queued packets are
    reliable and, where they are due, sent at most as often as allowed so far,
    MakeDatagram never fails.  It returns no datagram only if no packet is due that the
    budgets for sending again and for sending new packets let through, and then changes
    nothing.  Or the datagram is a data header that states the total length, followed by
    the bytes of some of the packets that are due, no packet twice, in at most the
    budgets of one MTU together, none of them sent as often as allowed before; its list
    of packets names exactly those, each of which counts one more attempt and is due
    again after the retransmission delay, every other packet is left as it is, and the
    datagram is remembered in the sentbox under the ID it carries.  Or a packet that is
    due was sent as often as allowed: then it is reported as timed out, with a negative
    receipt if one was asked for, and nothing is added to the sentbox. *)
Theorem datagram_contents {host : Host} {RemoteAddress : Type} now (r : RemotePeer RemoteAddress) c cs :
  congestion r = Some c -> 0 <= m_bytesInFlight c -> 0 <= m_window c ->
  outbox_ok now c (outbox r) cs -> Forall (attempted now) (outbox r) ->
  (MakeDatagram now r = Ret (NoDatagram, r) /\
   forall p, p ∈ outbox r -> suitable now (GetRetransmissionBudget c) true p = false /\
     suitable now (GetTransmissionBudget c) false p = false) \/
  (exists q d r', MakeDatagram now r = Ret (NewDatagram d, r') /\ q <> [] /\ datagram_of now r c cs q d r' /\
     forall i p, i ∈ q -> outbox r !! i = Some p -> op_sendCount p < SEND_RETRY_COUNT) \/
  (exists p r', gives_up now r p r').
Proof. apply MakeDatagram_cases. Qed.

(** What EnqueueOutgoing does to a connection. *)
Lemma EnqueueOutgoing_queues {host : Host} {RemoteAddress : Type} now modes packet cmd payload options channel
    (r r1 : RemotePeer RemoteAddress) c t buffer :
  let sequence := match buffer with Some (_, b) => fst (GetNextOutgoing b) | None => 0 end in
  let n := segment_count (zlength (cmd :: payload)) in let container := m_nextPacket c in
  IsDisconnecting r = false -> congestion r = Some c -> 0 <= container < 4294967296 -> rp_receipt r = Some t ->
  holds packet cmd payload -> Forall is_byte (cmd :: payload) -> zlength payload < PACKET_MAX_LENGTH ->
  is_byte options -> is_byte (ch_id channel) ->
  GetChannelBuffer modes (ch_id channel) r = Ret (buffer, r1) -> 0 <= sequence < 4294967296 ->
  exists metas r', EnqueueOutgoing now modes packet options channel r = Ret (container, r') /\
    outbox r' = outbox r ++ metas /\
    Forall2 (queued now cmd payload options (ch_id channel) sequence container (addr r) (container + 1)) (seqZ 0 n) metas /\
    congestion r' = Some (set_ids (u32 (container + 1 + if 1 <? n then n else 0)) (m_nextDatagram c) c) /\
    rp_receipt r' = Some (if options_and options WITH_RECEIPT
      then if 1 <? n then RegisterSplitPacket container (list_to_set (map op_id metas)) (Track container t) else Track container t
      else t) /\
    sentbox r' = sentbox r /\ disconnect r' = disconnect r /\
    channels r' = match buffer with Some (_, b) => <[ch_id channel := snd (GetNextOutgoing b)]> (channels r1) | None => channels r end.
Proof.
  intros sequence n container Hd Hc Hcont Ht Hh Hb Hl Ho Hch Hg Hseq.
  set (bytes := cmd :: payload) in *. pose proof (bytes_length cmd payload Hl) as Hlen.
  assert (Elen : GetDatagramLength packet = zlength bytes).
  { unfold GetDatagramLength. rewrite (hd_len _ _ _ Hh). pose proof (zlength_nonneg payload). unfold PACKET_MAX_LENGTH in *.
    rewrite u64_small by lia. subst bytes. rewrite zlength_cons. lia. }
  destruct (BinaryStream_new_rel (zlength bytes)) as (s0 & E0 & H0); [subst bytes; unfold max_len, PACKET_MAX_LENGTH in *; lia|].
  destruct (segment_count_bounds (zlength bytes)) as [_ Hn]; [subst bytes; unfold max_len, PACKET_MAX_LENGTH in *; lia|].
  fold n in Hn. inversion_clear Hb as [|? ? Hcmd Hpay].
  destruct (sim_ToDatagram packet cmd payload (at_end []) [] Hh Hcmd Hpay ltac:(constructor)) with (s := s0) as (full & Ef & Hfull);
    [unfold roomy, max_len, PACKET_MAX_LENGTH, zlength in *; cbn; lia|done|]. cbn [app] in Hfull. fold bytes in Hfull.
  pose proof (channel_sequence modes (ch_id channel) r r1 buffer Hg) as Em. fold sequence in Em.
  match type of Em with _ = (_, set_channels ?x r) => set (m := x) in * end.
  destruct (segment_loop_spec now packet cmd payload options (ch_id channel) sequence container (addr r) full Hh
    ltac:(now constructor) Hl Ho Hch Hseq Hcont Hfull (Z.to_nat n) (container + 1) 0 (snd (GetNextPacketID c)))
    as (metas & c' & El & Hf & Ec'); [lia| |cbn; f_equal; lia|].
  { fold bytes n. lia. }
  assert (Er : exists r', EnqueueOutgoing now modes packet options channel r = Ret (container, r') /\
    outbox r' = outbox r ++ metas /\ congestion r' = Some c' /\ (sentbox r' = sentbox r /\ disconnect r' = disconnect r /\ channels r' = m) /\
    rp_receipt r' = Some (if options_and options WITH_RECEIPT
       then if 1 <? n then RegisterSplitPacket container (list_to_set (map op_id metas)) (Track container t) else Track container t
       else t)).
  { unfold EnqueueOutgoing. rewrite Hd, Elen, E0. cbn [mbind outcome_bind]. rewrite Ef. cbn [mbind outcome_bind].
    rewrite (rf_len _ _ (proj1 Hfull)). unfold get_congestion. rewrite Hc. cbn [at_end a_bytes mbind outcome_bind GetNextPacketID].
    rewrite Hg. cbn [mbind outcome_bind]. rewrite Em. fold n container. cbn [GetNextPacketID snd] in El. fold container bytes n in El.
    cbn [addr set_channels]. rewrite El. cbn [mbind outcome_bind]. destruct (options_and options WITH_RECEIPT).
    - unfold get_receipt. cbn [rp_receipt set_congestion set_outbox set_channels]. rewrite Ht. eexists. split; [reflexivity|]. now repeat split.
    - eexists. split; [reflexivity|]. now repeat split. }
  destruct Er as (r' & E & H1 & H2 & (H3 & H3d & H3c) & H4). exists metas, r'. repeat (split; [done|]). split; [|split; [|done]].
  - fold bytes n in Hf. now rewrite Z2Nat.id in Hf by lia.
  - rewrite H2, Ec'. fold bytes n. destruct (1 <? n); [done|]. f_equal. rewrite Z.add_0_r. done.
Qed.

(** C16: queueing a packet puts exactly its segments into the outbox.  While a
    disconnect is in progress EnqueueOutgoing refuses and changes nothing.
    Otherwise it returns the next packet ID and appends to the outbox one entry per
    MTU-sized chunk of command and payload, in order, holding the segment's header
    and chunk, due at once and never sent; a packet that is split uses the IDs after
    the returned one and is upgraded to reliable.  The receipt tracker registers the
    returned ID, and the segments of a split packet, exactly when a receipt was
    asked for; nothing is taken off the outbox or the sentbox. *)
Theorem enqueue_segments {host : Host} {RemoteAddress : Type} now modes packet cmd payload options channel
    (r r1 : RemotePeer RemoteAddress) c t buffer :
  (IsDisconnecting r = true -> EnqueueOutgoing now modes packet options channel r = Ret (0, r)) /\
  (let sequence := match buffer with Some (_, b) => fst (GetNextOutgoing b) | None => 0 end in
   let n := segment_count (zlength (cmd :: payload)) in let container := m_nextPacket c in
   IsDisconnecting r = false -> congestion r = Some c -> 0 <= container < 4294967296 -> rp_receipt r = Some t ->
   holds packet cmd payload -> Forall is_byte (cmd :: payload) -> zlength payload < PACKET_MAX_LENGTH ->
   is_byte options -> is_byte (ch_id channel) ->
   GetChannelBuffer modes (ch_id channel) r = Ret (buffer, r1) -> 0 <= sequence < 4294967296 ->
   exists metas r', EnqueueOutgoing now modes packet options channel r = Ret (container, r') /\
     outbox r' = outbox r ++ metas /\
     Forall2 (queued now cmd payload options (ch_id channel) sequence container (addr r) (container + 1)) (seqZ 0 n) metas /\
     congestion r' = Some (set_ids (u32 (container + 1 + if 1 <? n then n else 0)) (m_nextDatagram c) c) /\
     rp_receipt r' = Some (if options_and options WITH_RECEIPT
       then if 1 <? n then RegisterSplitPacket container (list_to_set (map op_id metas)) (Track container t) else Track container t
       else t) /\
     sentbox r' = sentbox r).
Proof.
  split; [intros H; unfold EnqueueOutgoing; now rewrite H|]. intros sequence n container Hd Hc Hcont Ht Hh Hb Hl Ho Hch Hg Hseq.
  destruct (EnqueueOutgoing_queues now modes packet cmd payload options channel r r1 c t buffer Hd Hc Hcont Ht Hh Hb Hl Ho Hch Hg Hseq)
    as (metas & r' & H1 & H2 & H3 & H4 & H5 & H6 & _). now exists metas, r'.
Qed.

(** Two unreliable packets in one datagram.  When a connection has exactly two
    unreliable packets queued, both due for the first time and together within the
    budget, MakeDatagram takes both into the datagram, erases the first from the
    outbox after copying it, and then reads the second through a pointer into the
    vector that the erasure invalidated. *)
Theorem unreliable_pair_dangles {host : Host} {RemoteAddress : Type} now (r : RemotePeer RemoteAddress) c p1 p2 b1 b2 :
  congestion r = Some c -> 0 <= m_bytesInFlight c -> 0 <= m_window c -> IsOutOfBand r = false -> outbox r = [p1; p2] ->
  unreliable_new now c b1 p1 -> unreliable_new now c b2 p2 -> zlength b1 + zlength b2 <= GetTransmissionBudget c ->
  MakeDatagram now r = Fail Dangling.
Proof.
  intros Hc Hb Hw Ho Hbox H1 H2 Hlen. destruct (budgets_fit c Hb Hw) as (HB & HS & Hm).
  destruct (carries_length _ _ (un_bytes _ _ _ _ H1)) as [L1 P1]. destruct (carries_length _ _ (un_bytes _ _ _ _ H2)) as [L2 P2].
  unfold MakeDatagram. rewrite bool_decide_eq_false_2 by now rewrite Hbox. unfold get_congestion. rewrite Hc. cbn [mbind outcome_bind].
  destruct (Z.eqb_spec (GetTransmissionBudget c) 0); [lia|]. cbn [andb].
  assert (Es : select_packets now (GetRetransmissionBudget c) (GetTransmissionBudget c) r =
    Ret ([0; 1]%nat, set_outbox [schedule now c p1; schedule now c p2] r)).
  { assert (Er : (if 0 <? GetRetransmissionBudget c then Datagram_AddResendPacket now (GetRetransmissionBudget c) [] r else Ret ([], r)) = Ret ([], r)).
    { destruct (0 <? _); [|done]. unfold Datagram_AddResendPacket, GetQueuedPacket. rewrite Hbox. cbn [find_index].
      now rewrite (unreliable_suitable _ _ _ _ _ _ H1), (unreliable_suitable _ _ _ _ _ _ H2), !andb_false_r. }
    unfold select_packets. rewrite Er. cbn [mbind outcome_bind]. 
    replace (fill_fuel (GetTransmissionBudget c)) with (4 + (Z.to_nat (GetTransmissionBudget c) - 2))%nat by (unfold fill_fuel; lia).
    exact (fill_two now c _ (GetTransmissionBudget c) r p1 p2 b1 b2 Hc Ho Hbox H1 H2 ltac:(lia)). }
  rewrite Es. cbn [mbind outcome_bind]. unfold build_datagram, get_congestion. cbn [congestion set_outbox]. rewrite Hc.
  cbn [mbind outcome_bind GetNextDatagramID outbox set_outbox set_congestion lookup list_lookup].
  rewrite count_two by (exact (un_new _ _ _ _ H1) || exact (un_new _ _ _ _ H2)). cbn [mbind outcome_bind].
  destruct (BinaryStream_new_rel BINARYSTREAM_DEFAULT_CAPACITY) as (s0 & E0 & H0); [unfold BINARYSTREAM_DEFAULT_CAPACITY, max_len; lia|].
  rewrite E0. cbn [mbind outcome_bind]. match goal with |- context [DatagramHeader_Serialize ?x s0] => set (h := x) end.
  destruct (sim_DatagramHeader_Serialize [] h) with (s := s0) as (s1 & E1 & Hs1); [done|done|]. rewrite E1. cbn [mbind outcome_bind length].
  rewrite (concat_two _ _ b1 (wire_datagram_header h) s1); [done|exact (un_bytes _ _ _ _ H1)|exact (un_flag _ _ _ _ H1)|exact Hs1|].
  unfold roomy, h. rewrite zlength_data_header. unfold MTU, max_len in *. lia.
Qed.

(** A writable stream over an array of its own that holds the given bytes. *)
Definition holding (bs : list Z) : BinaryStream :=
  mkStream (Some (map Some bs)) (alias_of (Some (map Some bs))) (zlength bs) (zlength bs) (zlength bs) 0 false.

Lemma holding_rel bs : Forall is_byte bs -> zlength bs <= max_len -> rel true (holding bs) (at_end bs).
Proof.
  intros Hb Hm. split.
  - split; cbn; try done; try zlen. intros Hne. exists []. rewrite app_nil_r. destruct bs; [done|reflexivity].
  - intros _. split; cbn; try done; zlen.
Qed.

(** A connected remote peer with the given outbox. *)
Definition demo_remote (now : Z) (box : list (OutgoingPacket Z)) : RemotePeer Z :=
  mkRemote ∅ 99 box [] true None None (Some (CongestionControl_new now)) (Some ReceiptTracker_new) ∅ PeerStats_new 7 0 true true.
Definition demo_packet (id options : Z) (bs : list Z) : OutgoingPacket Z := mkOut None (holding bs) 99 50 0 id options.

#[local] Instance demo_host : Host := {| little_endian := true; or_left_first := true |}.

Lemma demo_outbox : outbox_ok 60 (CongestionControl_new 10) [demo_packet 3 RELIABLE [1; 2; 3]] [[1; 2; 3]].
Proof.
  split.
  - constructor; [|constructor]. split; [|reflexivity]. exists (at_end [1; 2; 3]). split; [|done].
    apply holding_rel; [repeat constructor; unfold is_byte; lia|vm_compute; discriminate].
  - intros p ->%list_elem_of_singleton. reflexivity.
Qed.

Lemma datagram_contents_witness : let host := demo_host in
  let r := demo_remote 10 [demo_packet 3 RELIABLE [1; 2; 3]] in let c := CongestionControl_new 10 in
  exists q d r', MakeDatagram 60 r = Ret (NewDatagram d, r') /\ q <> [] /\ datagram_of 60 r c [[1; 2; 3]] q d r'.
Proof.
  intros host r c. destruct (datagram_contents 60 r c [[1; 2; 3]]) as [[_ H]|[(q & d & r' & E & Hq & Hd & _)|(p & r' & [(Hp & _ & Hn) _ _])]];
    [reflexivity|done|done|exact demo_outbox| | | |].
  - constructor; [|constructor]. split; [reflexivity|]. vm_compute. split; [discriminate|discriminate].
  - exfalso. destruct (H (demo_packet 3 RELIABLE [1; 2; 3]) ltac:(constructor)) as [_ Hf]. vm_compute in Hf. discriminate.
  - now exists q, d, r'.
  - exfalso. apply list_elem_of_singleton in Hp as ->. vm_compute in Hn. discriminate.
Defined.

Lemma enqueue_segments_witness : let host := demo_host in
  let packet := mkPacket 0 20 2 (Some [Some 5; Some 6]) in let r := demo_remote 10 [] in let c := CongestionControl_new 10 in
  exists metas r', EnqueueOutgoing 60 [UNORDERED] packet RELIABLE Channel_default r = Ret (0, r') /\
     outbox r' = outbox r ++ metas /\
     Forall2 (queued 60 20 [5; 6] RELIABLE 0 0 0 99 (0 + 1)) (seqZ 0 (segment_count 3)) metas /\
     congestion r' = Some (set_ids (u32 (0 + 1 + if 1 <? segment_count 3 then segment_count 3 else 0)) (m_nextDatagram c) c) /\
     rp_receipt r' = Some (if options_and RELIABLE WITH_RECEIPT
       then if 1 <? segment_count 3 then RegisterSplitPacket 0 (list_to_set (map op_id metas)) (Track 0 ReceiptTracker_new)
            else Track 0 ReceiptTracker_new
       else ReceiptTracker_new) /\
     sentbox r' = sentbox r.
Proof.
  intros host packet r c. apply (proj2 (enqueue_segments 60 [UNORDERED] packet 20 [5; 6] RELIABLE Channel_default r r c ReceiptTracker_new None));
    try reflexivity; try (vm_compute; split; [discriminate|reflexivity]).
  - split; [reflexivity|reflexivity|]. intros _. now exists [].
  - repeat constructor; unfold is_byte; lia.
Defined.

Lemma unreliable_pair_dangles_witness : let host := demo_host in
  MakeDatagram 60 (mkRemote ∅ 99 [demo_packet 3 UNRELIABLE [1; 2]; demo_packet 4 UNRELIABLE [3]] [] true None
      (match Handshaker_new false SELF with Ret h => Some h | _ => None end)
      (Some (CongestionControl_new 10)) (Some ReceiptTracker_new) ∅ PeerStats_new 7 0 true true) = Fail Dangling.
Proof.
  intros host. eapply (unreliable_pair_dangles 60 _ (CongestionControl_new 10) _ _ [1; 2] [3]); try reflexivity; try done.
  - split; try reflexivity. split; [|reflexivity]. exists (at_end [1; 2]). split; [|done].
    apply holding_rel; [repeat constructor; unfold is_byte; lia|vm_compute; discriminate].
  - split; try reflexivity. split; [|reflexivity]. exists (at_end [3]). split; [|done].
    apply holding_rel; [repeat constructor; unfold is_byte; lia|vm_compute; discriminate].
Defined.
