(* ===== verification/AckTheorems.v ===== *)
(** * AckTheorems: what acknowledgements do to a connection

    The theorems about RemotePeer::HandleAcknowledgements and
    HandleNonAcknowledgements: which packets leave the outbox, which receipts are
    posted, which packets become due again. *)

From stdpp Require Import base tactics gmap sets list list_numbers numbers option.
From Stdlib Require Import ZArith Lia.
From S2P Require Import Prelude Memory BinaryStream StreamSpec StreamCodec Config PeerStats Packet Headers.
From S2P Require Import ChannelBuffer CongestionControl Reassembly ReceiptTracker Encryption Handshake RemotePeer.

Open Scope Z_scope.

(** ** Searching a list by key *)

Lemma filter_ext_in {A} (P Q : A -> Prop) `{!forall x, Decision (P x)} `{!forall x, Decision (Q x)} (l : list A) :
  (forall x, x ∈ l -> P x <-> Q x) -> filter P l = filter Q l.
Proof.
  induction l as [|x l IH]; intros Hl; [done|]. assert (Hx : P x <-> Q x) by (apply Hl; constructor).
  assert (E : filter P l = filter Q l) by (apply IH; intros y Hy; apply Hl; now constructor).
  rewrite !filter_cons, E. destruct (decide (P x)), (decide (Q x)); tauto.
Qed.

Lemma filter_true {A} (P : A -> Prop) `{!forall x, Decision (P x)} (l : list A) : (forall x, x ∈ l -> P x) -> filter P l = l.
Proof.
  induction l as [|x l IH]; intros Hl; [done|]. rewrite filter_cons_True by (apply Hl; constructor). f_equal.
  apply IH. intros y Hy. apply Hl. now constructor.
Qed.

Section Keys.
Context {A : Type} (key : A -> Z).

Lemma key_absent k (l : list A) : k ∉ map key l -> forall x, x ∈ l -> key x <> k.
Proof. intros H x Hx <-. apply H. now apply list_elem_of_fmap_2. Qed.

(** Erasing the first element with a key that is used once. *)
Lemma erase_found k (l : list A) : NoDup (map key l) ->
  match find_index (fun x => key x =? k) l with Some i => erase_at i l | None => l end = filter (fun x => key x <> k) l.
Proof.
  induction l as [|x l IH]; intros Hnd; [done|]. cbn in Hnd. inversion_clear Hnd as [|? ? Hx Hl]. cbn [find_index].
  destruct (Z.eqb_spec (key x) k) as [Ek|Hk].
  - rewrite filter_cons_False by tauto. rewrite <- Ek. symmetry. apply filter_true. now apply key_absent.
  - rewrite filter_cons_True, <- IH by done. now destruct (find_index _ l).
Qed.

Lemma alter_found (f : A -> A) k (l : list A) : NoDup (map key l) ->
  match find_index (fun x => key x =? k) l with Some i => alter f i l | None => l end =
    map (fun x => if key x =? k then f x else x) l.
Proof.
  induction l as [|x l IH]; intros Hnd; [done|]. cbn in Hnd. inversion_clear Hnd as [|? ? Hx Hl]. cbn [find_index map].
  destruct (Z.eqb_spec (key x) k) as [Ek|Hk].
  - cbn. f_equal. rewrite <- (map_id l) at 1. apply map_ext_in. intros y Hy%list_elem_of_In.
    destruct (Z.eqb_spec (key y) k); [|done]. exfalso. apply (key_absent (key x) l Hx y Hy). congruence.
  - rewrite <- IH by done. now destruct (find_index _ l).
Qed.

Lemma found k l i : find_index (fun x => key x =? k) l = Some i -> exists x, l !! i = Some x /\ key x = k.
Proof. intros (x & Hx & E%Z.eqb_eq)%find_index_Some. now exists x. Qed.

Lemma filter_keys (P : A -> Prop) `{!forall x, Decision (P x)} (l : list A) : NoDup (map key l) -> NoDup (map key (filter P l)).
Proof. intros Hl. apply (sublist_NoDup _ (map key l)); [done|]. apply fmap_sublist, sublist_filter. Qed.
End Keys.

Section Acks.
Context {RemoteAddress : Type}.

(** The packets of the datagrams named by a list of datagram IDs. *)
Definition settled (ids : list Z) (sent : list (OutgoingDatagram RemoteAddress)) : list Z :=
  mjoin (od_packets <$> filter (fun d => od_id d ∈ ids) sent).

Lemma elem_settled ids sent x : x ∈ settled ids sent <-> exists d, d ∈ sent /\ (od_id d ∈ ids) /\ (x ∈ od_packets d).
Proof.
  unfold settled. rewrite list_elem_of_join. split.
  - intros (l & Hx & Hl). apply list_elem_of_fmap in Hl as (d & -> & [Hd Hs]%list_elem_of_filter). now exists d.
  - intros (d & Hs & Hd & Hx). exists (od_packets d). split; [done|]. apply list_elem_of_fmap_2. now apply list_elem_of_filter.
Qed.

Lemma elem_settled_cons a ids sent x : NoDup (map od_id sent) -> x ∈ settled (a :: ids) sent <->
  (exists d, d ∈ sent /\ od_id d = a /\ (x ∈ od_packets d)) \/ (x ∈ settled ids (filter (fun d => od_id d <> a) sent)).
Proof.
  intros _. rewrite !elem_settled. setoid_rewrite list_elem_of_filter. setoid_rewrite elem_of_cons. split.
  - intros (d & Hs & [Ea|Hd] & Hx); [left; now exists d|]. destruct (decide (od_id d = a)); [left; now exists d|]. right. now exists d.
  - intros [(d & Hs & Ea & Hx)|(d & [Ha Hs] & Hd & Hx)]; exists d; tauto.
Qed.

Lemma unique_datagram (sent : list (OutgoingDatagram RemoteAddress)) d d' : NoDup (map od_id sent) ->
  d ∈ sent -> d' ∈ sent -> od_id d = od_id d' -> d = d'.
Proof.
  induction sent as [|x l IH]; intros Hnd Hd Hd' E; [now apply not_elem_of_nil in Hd|]. cbn in Hnd.
  inversion_clear Hnd as [|? ? Hx Hl]. apply elem_of_cons in Hd as [->|Hd], Hd' as [->|Hd']; try done; [| |now apply IH].
  - exfalso. apply Hx. rewrite E. now apply list_elem_of_fmap_2.
  - exfalso. apply Hx. rewrite <- E. now apply list_elem_of_fmap_2.
Qed.

(** What acknowledging packets one after the other does to the tracker. *)
Record tracked (ids : list Z) (t t' : ReceiptTracker) (rs : list receipt) : Prop := {
  tk_count : forall id, acks_of id rs = if bool_decide (id ∈ m_tracker t /\ id ∉ m_tracker t') then 1%nat else 0%nat;
  tk_gone : forall id, id ∈ ids -> id ∉ m_tracker t';
  tk_sub : m_tracker t' ⊆ m_tracker t;
  tk_wf : rt_wf (m_splits t');
}.

Lemma tracked_nil t : rt_wf (m_splits t) -> tracked [] t t [].
Proof.
  intros H. split; [|intros id Hi; now apply not_elem_of_nil in Hi|done|done].
  intros id. rewrite bool_decide_eq_false_2; [done|tauto].
Qed.

Lemma tracked_app ids ids' t t' t'' rs rs' : tracked ids t t' rs -> tracked ids' t' t'' rs' -> tracked (ids ++ ids') t t'' (rs ++ rs').
Proof.
  intros [C1 G1 S1 W1] [C2 G2 S2 W2]. split; [|set_solver|set_solver|done].
  intros id. rewrite acks_of_app, C1, C2. repeat case_bool_decide; set_solver.
Qed.

Lemma tracked_one id t : rt_wf (m_splits t) -> exists t' rs, Acknowledge id t = Ret (t', rs) /\ tracked [id] t t' rs.
Proof.
  intros H. destruct (Acknowledge_spec id t H) as [E W]. eexists _, _. split; [exact E|].
  set (ids := completed id (m_splits t) ++ [id]). split; cbn [m_tracker m_splits].
  - intros x. rewrite post_acks_count. fold ids. pose proof (post_acks_tracker x ids (m_tracker t)) as Ht.
    do 2 case_bool_decide; tauto.
  - intros x ->%list_elem_of_singleton. rewrite post_acks_tracker. intros [_ Hx]. apply Hx. set_solver.
  - intros x Hx%post_acks_tracker. tauto.
  - exact W.
Qed.

Lemma RemovePacketFromOutbox_spec id (box : list (OutgoingPacket RemoteAddress)) : NoDup (map op_id box) ->
  RemovePacketFromOutbox id box = filter (fun p => op_id p <> id) box.
Proof. apply (erase_found op_id). Qed.

Lemma ack_packets_spec ids : forall t (box : list (OutgoingPacket RemoteAddress)), rt_wf (m_splits t) -> NoDup (map op_id box) ->
  exists t' rs, ack_packets ids t box = Ret (t', filter (fun p => op_id p ∉ ids) box, rs) /\ tracked ids t t' rs.
Proof.
  induction ids as [|id ids IH]; intros t box Ht Hnd.
  { exists t, []. split; [|now apply tracked_nil]. cbn. rewrite filter_true; [done|]. intros p _. apply not_elem_of_nil. }
  destruct (tracked_one id t Ht) as (t1 & rs1 & E1 & H1). cbn [ack_packets]. rewrite E1. cbn [mbind outcome_bind].
  rewrite (RemovePacketFromOutbox_spec id box Hnd).
  destruct (IH t1 (filter (fun p => op_id p <> id) box) (tk_wf _ _ _ _ H1)) as (t2 & rs2 & E2 & H2); [now apply filter_keys|].
  exists t2, (rs1 ++ rs2). rewrite E2. cbn [mbind outcome_bind]. split; [|exact (tracked_app [id] ids _ _ _ _ _ H1 H2)].
  rewrite list_filter_filter. do 3 f_equal. apply filter_ext_in. intros p _. rewrite not_elem_of_cons. tauto.
Qed.

(** The datagram with a given ID, found and erased. *)
Lemma find_datagram_spec id (sent : list (OutgoingDatagram RemoteAddress)) : NoDup (map od_id sent) ->
  match find_datagram id sent with
  | Some i => exists d, sent !! i = Some d /\ d ∈ sent /\ od_id d = id /\ erase_at i sent = filter (fun d => od_id d <> id) sent
  | None => filter (fun d => od_id d <> id) sent = sent /\ forall d, d ∈ sent -> od_id d <> id
  end.
Proof.
  intros Hnd. pose proof (erase_found od_id id sent Hnd) as E. unfold find_datagram.
  destruct (find_index (fun d => od_id d =? id) sent) as [i|] eqn:Ei.
  - destruct (found od_id id sent i Ei) as (d & Hd & Ed). exists d. do 3 (split; [done|| eapply list_elem_of_lookup_2; exact Hd|]). done.
  - split; [done|]. intros d Hd. rewrite E in Hd. now apply list_elem_of_filter in Hd as [? _].
Qed.

(** The packets settled by one more datagram ID. *)
Lemma settled_found a ids sent d : NoDup (map od_id sent) -> d ∈ sent -> od_id d = a -> forall x,
  x ∈ settled (a :: ids) sent <-> (x ∈ od_packets d) \/ (x ∈ settled ids (filter (fun d => od_id d <> a) sent)).
Proof.
  intros Hnd Hd Ha x. rewrite elem_settled_cons by done. split; [|intros [H|H]; eauto].
  intros [(d' & Hd' & E' & Hx)|H]; [|tauto]. left. now rewrite (unique_datagram sent d d' Hnd Hd Hd' ltac:(congruence)).
Qed.

Lemma settled_absent a ids sent : (forall d, d ∈ sent -> od_id d <> a) -> settled (a :: ids) sent = settled ids sent.
Proof.
  intros H. unfold settled. do 2 f_equal. apply filter_ext_in. intros d Hd. rewrite elem_of_cons. specialize (H d Hd). tauto.
Qed.

(** The state of a connection that acknowledgements work on. *)
Record ack_ready (r : RemotePeer RemoteAddress) (c : CongestionControl) (t : ReceiptTracker) : Prop := {
  ar_congestion : congestion r = Some c;
  ar_receipt : rp_receipt r = Some t;
  ar_tracker : rt_wf (m_splits t);
  ar_packets : NoDup (map op_id (outbox r));
  ar_datagrams : NoDup (map od_id (sentbox r));
}.

(** One round of the loop over the acknowledged datagrams. *)
Lemma ack_round now a acklist r c t : ack_ready r c t ->
  exists r1 t1 rs1 ids, HandleAcknowledgements now (a :: acklist) r =
      ('(r, rs) ← HandleAcknowledgements now acklist r1; mret (r, rs1 ++ rs)) /\
    ack_ready r1 (NotifyReceivedAck now a c) t1 /\ tracked ids t t1 rs1 /\
    outbox r1 = filter (fun p => op_id p ∉ ids) (outbox r) /\ sentbox r1 = filter (fun d => od_id d <> a) (sentbox r) /\
    (forall acks x, x ∈ settled (a :: acks) (sentbox r) <-> (x ∈ ids) \/ (x ∈ settled acks (sentbox r1))).
Proof.
  intros [Hc Ht Hw Hp Hd]. cbn [HandleAcknowledgements]. pose proof (find_datagram_spec a (sentbox r) Hd) as Hf.
  destruct (find_datagram a (sentbox r)) as [i|].
  - destruct Hf as (d & Hi & Hin & Ed & Ee). destruct (ack_packets_spec (od_packets d) t (outbox r) Hw Hp) as (t1 & rs1 & E1 & H1).
    rewrite Hi. cbn [mbind outcome_bind]. rewrite Ee.
    set (box := filter (fun p => op_id p ∉ od_packets d) (outbox r)) in *.
    assert (E : match od_packets d with [] => Ret (rp_receipt r, outbox r, [])
        | _ => t ← get_receipt r; '(t, box, rs) ← ack_packets (od_packets d) t (outbox r); mret (Some t, box, rs) end = Ret (Some t1, box, rs1)).
    { unfold get_receipt. rewrite Ht. destruct (od_packets d) eqn:Eo; [|cbn [mbind outcome_bind]; now rewrite E1].
      cbn in E1. injection E1 as -> <- <-. done. }
    rewrite E. cbn [mbind outcome_bind mret outcome_ret]. unfold get_congestion. cbn [congestion]. rewrite Hc. cbn [mbind outcome_bind].
    eexists _, t1, rs1, (od_packets d). split; [reflexivity|]. split; [|split; [done|split; [done|split; [done|]]]].
    + split; try done; [exact (tk_wf _ _ _ _ H1)|now apply filter_keys..].
    + intros acks x. now apply settled_found.
  - destruct Hf as [Ee Hno]. cbn [mbind outcome_bind]. unfold get_congestion. rewrite Hc. cbn [mbind outcome_bind].
    exists (set_congestion (NotifyReceivedAck now a c) r), t, [], []. split; [reflexivity|].
    split; [now split|]. split; [now apply tracked_nil|]. split; [symmetry; apply filter_true; intros p _; apply not_elem_of_nil|].
    split; [now rewrite Ee|]. intros acks x. rewrite settled_absent by done. cbn [set_congestion sentbox]. set_solver.
Qed.

(** Packets made due at once. *)
Definition due_now (now : Z) (ids : list Z) (p : OutgoingPacket RemoteAddress) : OutgoingPacket RemoteAddress :=
  if bool_decide (op_id p ∈ ids) then set_sendNext now p else p.

Lemma due_now_id now ids p : op_id (due_now now ids p) = op_id p.
Proof. unfold due_now. now destruct (bool_decide (op_id p ∈ ids)). Qed.

Lemma due_now_keys now ids box : map op_id (map (due_now now ids) box) = map op_id box.
Proof. rewrite map_map. apply map_ext. intros p. apply due_now_id. Qed.

Lemma due_now_twice now ids ids' ids'' p : (forall x, x ∈ ids'' <-> (x ∈ ids) \/ (x ∈ ids')) ->
  due_now now ids' (due_now now ids p) = due_now now ids'' p.
Proof.
  intros H. unfold due_now at 1. rewrite due_now_id. unfold due_now. specialize (H (op_id p)).
  repeat case_bool_decide; try done; tauto.
Qed.

Lemma resend_packets_spec now ids : forall box, NoDup (map op_id box) -> resend_packets now ids box = map (due_now now ids) box.
Proof.
  induction ids as [|id ids IH]; intros box Hnd; cbn [resend_packets].
  { rewrite <- (map_id box) at 1. apply map_ext. intros p. unfold due_now. rewrite bool_decide_eq_false_2; [done|apply not_elem_of_nil]. }
  unfold GetOutgoingPacketByID. rewrite (alter_found op_id (set_sendNext now) id box Hnd).
  replace (map (fun p => if op_id p =? id then set_sendNext now p else p) box) with (map (due_now now [id]) box).
  2:{ apply map_ext. intros p. unfold due_now. destruct (Z.eqb_spec (op_id p) id) as [->|Hne].
      - rewrite bool_decide_eq_true_2; [done|]. constructor.
      - rewrite bool_decide_eq_false_2; [done|]. now rewrite list_elem_of_singleton. }
  rewrite IH by now rewrite due_now_keys. rewrite map_map. apply map_ext. intros p. apply due_now_twice. set_solver.
Qed.

Lemma nak_datagrams_spec now naklist : forall r : RemotePeer RemoteAddress, NoDup (map op_id (outbox r)) -> NoDup (map od_id (sentbox r)) ->
  nak_datagrams now naklist r = set_sentbox (filter (fun d => od_id d ∉ naklist) (sentbox r))
    (set_outbox (map (due_now now (settled naklist (sentbox r))) (outbox r)) r).
Proof.
  induction naklist as [|a naklist IH]; intros r Hp Hd; cbn [nak_datagrams].
  { rewrite filter_true by (intros; apply not_elem_of_nil). replace (map _ (outbox r)) with (outbox r); [now destruct r|].
    rewrite <- (map_id (outbox r)) at 1. apply map_ext. intros p. unfold due_now. rewrite bool_decide_eq_false_2; [done|].
    intros (d & _ & H & _)%elem_settled. now apply not_elem_of_nil in H. }
  pose proof (find_datagram_spec a (sentbox r) Hd) as Hf. destruct (find_datagram a (sentbox r)) as [i|].
  - destruct Hf as (d & Hi & Hin & Ed & Ee). rewrite Hi, Ee, resend_packets_spec by done.
    rewrite IH; cbn [outbox sentbox set_sentbox set_outbox]; [|now rewrite due_now_keys|now apply filter_keys].
    rewrite list_filter_filter. rewrite (filter_ext_in _ (fun d => od_id d ∉ a :: naklist)) by (intros x _; rewrite not_elem_of_cons; tauto).
    rewrite map_map. rewrite (map_ext _ (due_now now (settled (a :: naklist) (sentbox r)))); [done|].
    intros p. apply due_now_twice. now apply settled_found.
  - destruct Hf as [Ee Hno]. rewrite IH by done. rewrite settled_absent by done. do 2 f_equal. apply filter_ext_in.
    intros x Hx. rewrite not_elem_of_cons. specialize (Hno x Hx). tauto.
Qed.

End Acks.

(** ** Theorems *)

(** The two handlers. *)
Lemma HandleAcknowledgements_spec {RemoteAddress : Type} now acklist (r : RemotePeer RemoteAddress) c t : ack_ready r c t ->
  exists r' rs t', HandleAcknowledgements now acklist r = Ret (r', rs) /\
    outbox r' = filter (fun p => op_id p ∉ settled acklist (sentbox r)) (outbox r) /\
    sentbox r' = filter (fun d => od_id d ∉ acklist) (sentbox r) /\
    ack_ready r' (foldl (fun c ack => NotifyReceivedAck now ack c) c acklist) t' /\
    tracked (settled acklist (sentbox r)) t t' rs.
Proof.
  revert r c t. induction acklist as [|a acklist IH]; intros r c t H.
  { exists r, [], t. assert (settled [] (sentbox r) = []) as ->.
    { apply elem_of_nil_inv. intros x (d & _ & Hd & _)%elem_settled. now apply not_elem_of_nil in Hd. }
    split; [done|]. rewrite !filter_true by (intros; apply not_elem_of_nil). split; [done|]. split; [done|]. split; [done|].
    apply tracked_nil. exact (ar_tracker _ _ _ H). }
  destruct (ack_round now a acklist r c t H) as (r1 & t1 & rs1 & ids & E & H1 & Ht1 & Eo & Es & Hset). rewrite E.
  destruct (IH r1 _ t1 H1) as (r' & rs & t' & E' & Eo' & Es' & Hr' & Ht'). rewrite E'. cbn [mbind outcome_bind].
  exists r', (rs1 ++ rs), t'. split; [done|]. split; [|split; [|split; [done|]]].
  - rewrite Eo', Eo, list_filter_filter. apply filter_ext_in. intros p _. rewrite (Hset acklist). tauto.
  - rewrite Es', Es, list_filter_filter. apply filter_ext_in. intros d _. rewrite not_elem_of_cons. tauto.
  - pose proof (tracked_app _ _ _ _ _ _ _ Ht1 Ht') as [T1 T2 T3 T4]. split; try done.
    intros x Hx. apply T2. rewrite (Hset acklist) in Hx. now apply elem_of_app.
Qed.

Lemma HandleNonAcknowledgements_spec {RemoteAddress : Type} now naklist (r : RemotePeer RemoteAddress) c t : ack_ready r c t ->
  exists r', HandleNonAcknowledgements now naklist r = Ret r' /\
    outbox r' = map (due_now now (settled naklist (sentbox r))) (outbox r) /\
    sentbox r' = filter (fun d => od_id d ∉ naklist) (sentbox r) /\
    ack_ready r' (NotifyReceivedNakGroup c) t /\
    (forall p, p ∈ outbox r' -> op_id p ∈ settled naklist (sentbox r) -> Elapsed now (op_sendNext p) = true).
Proof.
  intros [Hc Ht Hw Hp Hd]. unfold HandleNonAcknowledgements. rewrite nak_datagrams_spec by done. unfold get_congestion.
  cbn [congestion set_sentbox set_outbox]. rewrite Hc. cbn [mbind outcome_bind mret outcome_ret]. eexists. split; [reflexivity|].
  cbn [outbox sentbox set_congestion set_sentbox set_outbox]. split; [done|]. split; [done|]. split.
  - split; cbn; try done; [now rewrite due_now_keys|now apply filter_keys].
  - intros p (p0 & -> & Hp0)%list_elem_of_fmap Hs. rewrite due_now_id in Hs. unfold due_now. rewrite bool_decide_eq_true_2 by done.
    apply Z.leb_refl.
Qed.

(** C18: acknowledgements settle exactly the packets they stand for.  For a
    connection whose queued packets and remembered datagrams have distinct IDs,
    HandleAcknowledgements succeeds for any list of datagram IDs.  The packets of the
    remembered datagrams that are named leave the outbox and every other packet
    stays, in order; the named datagrams are forgotten and no others; the congestion
    manager is told of every ID in turn; and each packet that leaves the receipt
    tracker gets exactly one positive receipt, while no settled packet is left in
    it. *)
Theorem acknowledgements_settle {RemoteAddress : Type} now acklist (r : RemotePeer RemoteAddress) c t : ack_ready r c t ->
  exists r' rs t', HandleAcknowledgements now acklist r = Ret (r', rs) /\
    outbox r' = filter (fun p => op_id p ∉ settled acklist (sentbox r)) (outbox r) /\
    sentbox r' = filter (fun d => od_id d ∉ acklist) (sentbox r) /\
    ack_ready r' (foldl (fun c ack => NotifyReceivedAck now ack c) c acklist) t' /\
    tracked (settled acklist (sentbox r)) t t' rs.
Proof. apply HandleAcknowledgements_spec. Qed.

(** C26: a report of lost datagrams makes exactly their packets due again.  For the
    same kind of connection, HandleNonAcknowledgements succeeds, keeps every packet
    in the outbox and its number of attempts, makes the packets of the named
    datagrams due at once and leaves the other packets as they are; it forgets the
    named datagrams and no others, posts no receipt, and tells the congestion manager
    once for the whole list. *)
Theorem lost_packets_become_due {RemoteAddress : Type} now naklist (r : RemotePeer RemoteAddress) c t : ack_ready r c t ->
  exists r', HandleNonAcknowledgements now naklist r = Ret r' /\
    outbox r' = map (due_now now (settled naklist (sentbox r))) (outbox r) /\
    sentbox r' = filter (fun d => od_id d ∉ naklist) (sentbox r) /\
    ack_ready r' (NotifyReceivedNakGroup c) t /\
    (forall p, p ∈ outbox r' -> op_id p ∈ settled naklist (sentbox r) -> Elapsed now (op_sendNext p) = true).
Proof. apply HandleNonAcknowledgements_spec. Qed.

(** A connection with three packets in two datagrams. *)
Definition demo_connection : RemotePeer Z :=
  let packet id := mkOut None (mkStream None RoNull 0 0 0 0 false) 99 50 1 id RELIABLE in
  let datagram id packets := mkDatagram None (mkStream None RoNull 0 0 0 0 false) 99 id 900 packets in
  mkRemote ∅ 99 [packet 3; packet 4; packet 5] [datagram 1 [3; 5]; datagram 2 [4]] true None None
    (Some (CongestionControl_new 10)) (Some (Track 5 ReceiptTracker_new)) ∅ PeerStats_new 7 0 true true.

Lemma demo_ready : ack_ready demo_connection (CongestionControl_new 10) (Track 5 ReceiptTracker_new).
Proof.
  split; [done|done| |apply (bool_decide_unpack _); reflexivity..].
  split; [constructor|constructor|]. intros c cs H. now apply not_elem_of_nil in H.
Qed.

Lemma acknowledgements_settle_witness :
  exists r' rs t', HandleAcknowledgements 60 [1; 9] demo_connection = Ret (r', rs) /\
    outbox r' = filter (fun p => op_id p ∉ settled [1; 9] (sentbox demo_connection)) (outbox demo_connection) /\
    sentbox r' = filter (fun d => od_id d ∉ [1; 9]) (sentbox demo_connection) /\
    ack_ready r' (foldl (fun c ack => NotifyReceivedAck 60 ack c) (CongestionControl_new 10) [1; 9]) t' /\
    tracked (settled [1; 9] (sentbox demo_connection)) (Track 5 ReceiptTracker_new) t' rs.
Proof. apply (acknowledgements_settle 60 [1; 9] demo_connection). exact demo_ready. Defined.

Lemma lost_packets_become_due_witness :
  exists r', HandleNonAcknowledgements 60 [2] demo_connection = Ret r' /\
    outbox r' = map (due_now 60 (settled [2] (sentbox demo_connection))) (outbox demo_connection) /\
    sentbox r' = filter (fun d => od_id d ∉ [2]) (sentbox demo_connection) /\
    ack_ready r' (NotifyReceivedNakGroup (CongestionControl_new 10)) (Track 5 ReceiptTracker_new) /\
    (forall p, p ∈ outbox r' -> op_id p ∈ settled [2] (sentbox demo_connection) -> Elapsed 60 (op_sendNext p) = true).
Proof. apply (lost_packets_become_due 60 [2] demo_connection). exact demo_ready. Defined.
