(* ===== verification/PeerFrame.v ===== *)
(** * PeerFrame: what the operations on a connection leave alone

    A frame relation between two states of a RemotePeer: the same place in the
    slot table, handshake, layer, ID and address, and the congestion manager and
    receipt tracker still there, and no empty packet in the outbox; and that every operation of RemotePeer,
    DatagramBuilder and PacketQueue on a single connection respects it. *)

From stdpp Require Import base tactics gmap sets list list_numbers numbers option.
From Stdlib Require Import ZArith Lia.
From S2P Require Import Prelude Memory BinaryStream StreamSpec StreamCodec Config PeerStats Packet Headers.
From S2P Require Import ChannelBuffer CongestionControl Reassembly ReceiptTracker RpcController Encryption Handshake Socket RemotePeer PacketQueue Peer PacketFlow.

Open Scope Z_scope.

(** ** Operations on a connection that keep its place in the slot table *)

Section Frame.
Context {host : Host} {RemoteAddress : Type}.
Abbreviation RemotePeer := (RemotePeer RemoteAddress).

Record frame (r r' : RemotePeer) : Prop := {
  fr_reserved : reserved r' = reserved r;
  fr_active : active r' = active r;
  fr_handshake : handshake r' = handshake r;
  fr_crypto : rp_crypto r' = rp_crypto r;
  fr_id : rp_id r' = rp_id r;
  fr_addr : addr r' = addr r;
  fr_socket : socket r' = socket r;
  fr_congestion : is_Some (congestion r') <-> is_Some (congestion r);
  fr_receipt : is_Some (rp_receipt r') <-> is_Some (rp_receipt r);
  fr_blobs : blobs_ok (outbox r) -> blobs_ok (outbox r');
}.

#[export] Instance frame_refl : Reflexive frame.
Proof. intros r. now split. Qed.
#[export] Instance frame_trans : Transitive frame.
Proof. intros x y z [] []. split; (congruence || tauto). Qed.

Lemma frame_channels m r : frame r (set_channels m r).
Proof. now split. Qed.
Lemma frame_outbox l r : (blobs_ok (outbox r) -> blobs_ok l) -> frame r (set_outbox l r).
Proof. now split. Qed.
Lemma frame_sentbox l r : frame r (set_sentbox l r).
Proof. now split. Qed.
Lemma frame_assembly b r : frame r (set_assembly b r).
Proof. now split. Qed.
Lemma frame_stats s r : frame r (set_stats s r).
Proof. now split. Qed.
Lemma frame_set_congestion c r c0 : congestion r = Some c0 -> frame r (set_congestion c r).
Proof. intros E. split; cbn; rewrite ?E; done. Qed.
Lemma frame_set_receipt t r t0 : rp_receipt r = Some t0 -> frame r (set_receipt t r).
Proof. intros E. split; cbn; rewrite ?E; done. Qed.

Lemma frame_then_congestion c r r' : frame r r' -> is_Some (congestion r) -> frame r (set_congestion c r').
Proof. intros [] H. split; cbn; try done; split; eauto. Qed.
Lemma frame_then_receipt t r r' : frame r r' -> is_Some (rp_receipt r) -> frame r (set_receipt t r').
Proof. intros [] H. split; cbn; try done; split; eauto. Qed.

Lemma get_congestion_inv (r : RemotePeer) c : get_congestion r = Ret c -> congestion r = Some c.
Proof. unfold get_congestion. destruct (congestion r); congruence. Qed.
Lemma get_receipt_inv (r : RemotePeer) t : get_receipt r = Ret t -> rp_receipt r = Some t.
Proof. unfold get_receipt. destruct (rp_receipt r); congruence. Qed.
End Frame.

Create HintDb frame.
#[export] Hint Resolve frame_refl frame_channels frame_outbox frame_sentbox frame_assembly frame_stats : frame.
#[export] Hint Resolve frame_set_congestion frame_set_receipt get_congestion_inv get_receipt_inv : frame.

(** One operation after the other. *)
Ltac frame_via := match goal with
  | |- frame ?r ?r => reflexivity
  | |- frame _ _ => first [solve [eauto with frame] | etransitivity; [|solve [eauto with frame]]; frame_via]
  end.

Section FrameOps.
Context {host : Host} {RemoteAddress : Type}.
Abbreviation RemotePeer := (RemotePeer RemoteAddress).

Lemma GetChannelBuffer_frame modes index (r : RemotePeer) b r' : GetChannelBuffer modes index r = Ret (b, r') -> frame r r'.
Proof. unfold GetChannelBuffer. intros H. repeat run_step H; frame_via. Qed.

Lemma HandleIncomingPacket_frame modes h packet inbox (r : RemotePeer) inbox' r' :
  HandleIncomingPacket modes h packet inbox r = Ret (inbox', r') -> frame r r'.
Proof.
  unfold HandleIncomingPacket. intros H. run_step H. destruct a as [b r1]. pose proof (GetChannelBuffer_frame _ _ _ _ _ E) as F.
  repeat run_step H; frame_via.
Qed.

Lemma HandleSplitPacket_frame modes h inbox (r : RemotePeer) s inbox' r' s' :
  Queue_HandleSplitPacket modes h inbox r s = Ret (inbox', r', s') -> frame r r'.
Proof.
  unfold Queue_HandleSplitPacket. intros H. run_step H. destruct a as [[packet|] rb].
  - run_step H. apply HandleIncomingPacket_frame in H. etransitivity; [|exact H]. apply frame_assembly.
  - run_step H. apply frame_assembly.
Qed.

(** What goes to the outbox begins with a header. *)
Lemma new_stream_start n s : BinaryStream_new n = Ret s -> m_readonly s = false /\ m_position s = 0.
Proof. unfold BinaryStream_new. intros E. now run_all. Qed.
Lemma ToDatagram_lengthens packet : lengthens (ToDatagram packet).
Proof. unfold ToDatagram. lengthening. Qed.

Lemma enqueue_segment_blob now packet full options channel sequence container segments i (a : RemoteAddress) c id m c' :
  enqueue_segment now packet full options channel sequence container segments i a c = Ret (id, m, c') -> 0 < m_length (op_blob m).
Proof.
  unfold enqueue_segment. destruct (if 1 <? segments then _ else _) as [id0 c0]. intros E. run_step E.
  apply new_stream_start in E0 as [Hr Hp]. run_step E. destruct a1 as [u s1]. apply PacketHeader_Serialize_nonempty in E0; [|done..].
  run_step E. run_step E. destruct a2 as [u2 s2]. apply WriteBytes_lengthens in E2. run_step E. cbn. lia.
Qed.

Lemma segment_loop_blobs n : forall now packet full options channel sequence container segments i (a : RemoteAddress) c ids metas c',
  segment_loop n now packet full options channel sequence container segments i a c = Ret (ids, metas, c') -> blobs_ok metas.
Proof.
  induction n as [|n IH]; intros * E; cbn [segment_loop] in E; [run_step E; constructor|]. run_step E. destruct a0 as [[id m] c1].
  apply enqueue_segment_blob in E0. run_step E. destruct a0 as [[ids1 metas1] c2]. apply IH in E1. run_step E. now constructor.
Qed.

Lemma EnqueueOutgoing_frame now modes packet options channel (r : RemotePeer) id r' :
  EnqueueOutgoing now modes packet options channel r = Ret (id, r') -> frame r r'.
Proof.
  unfold EnqueueOutgoing. intros H. run_step H; [run_step H; reflexivity|]. do 2 run_step H. destruct a0 as [u full].
  run_step H. run_step H. run_step H. destruct a1 as [buffer r1]. pose proof (GetChannelBuffer_frame _ _ _ _ _ E2) as F.
  destruct (match buffer with Some (_, b) => _ | None => _ end) as [sequence r2] eqn:E3.
  assert (F2 : frame r r2).
  { destruct buffer as [[mode b]|]; [|now injection E3 as _ <-]. injection E3 as _ <-. frame_via. }
  run_step H. destruct a1 as [[ids metas] c'].
  assert (F3 : frame r (set_congestion c' (set_outbox (outbox r2 ++ metas) r2))).
  { apply frame_then_congestion; [|apply get_congestion_inv in E1; now rewrite E1]. etransitivity; [exact F2|]. apply frame_outbox.
    intros Hb. apply Forall_app. split; [done|eapply segment_loop_blobs; eassumption]. }
  run_step H; run_step H; (etransitivity; [|apply frame_stats]); repeat run_step E5; [|exact F3].
  apply frame_then_receipt; [exact F3|]. apply get_receipt_inv in E6. apply (fr_receipt _ _ F3). now rewrite E6.
Qed.

Lemma EnqueueOutOfBand_frame now packet a handle (r r' : RemotePeer) :
  EnqueueOutOfBand now packet a handle r = Ret r' -> frame r r'.
Proof.
  unfold EnqueueOutOfBand. intros H. run_step H. apply new_stream_start in E as [Hr Hp]. run_step H. destruct a1 as [u s1].
  apply PacketHeader_Serialize_nonempty in E; [|done..]. run_step H. destruct a1 as [u1 s2]. apply ToDatagram_lengthens in E0. run_step H.
  apply frame_outbox. intros Hb. apply Forall_app. split; [done|]. constructor; [cbn; lia|constructor].
Qed.

Lemma ack_frame now acklist : forall (r : RemotePeer) r' rs, HandleAcknowledgements now acklist r = Ret (r', rs) -> frame r r'.
Proof.
  induction acklist as [|ack acklist IH]; intros r r' rs H; cbn [HandleAcknowledgements] in H; [run_step H; reflexivity|].
  run_step H. destruct a as [r1 rs1].
  assert (F : frame r r1).
  { destruct (find_datagram ack (sentbox r)) as [i|]; [|run_step E; reflexivity]. run_step E. run_step E.
    destruct a0 as [[t box] rs0]. run_step E. destruct a as [|packet packets].
    - run_step E1. now split.
    - run_step E1. apply get_receipt_inv in E. run_step E1. destruct a0 as [[t1 box1] rs1']. run_step E1.
      split; try done. cbn. eapply ack_blobs_ok. eassumption. }
  run_step H. run_step H. destruct a0 as [r2 rs2]. run_step H. apply IH in E1. etransitivity; [|exact E1].
  apply frame_then_congestion; [exact F|]. apply (fr_congestion _ _ F). apply get_congestion_inv in E0. now rewrite E0.
Qed.

Lemma nak_datagrams_frame now naklist : forall r : RemotePeer, frame r (nak_datagrams now naklist r).
Proof.
  induction naklist as [|nak naklist IH]; intros r; cbn [nak_datagrams]; [reflexivity|]. etransitivity; [|apply IH].
  destruct (find_datagram nak (sentbox r)); [|reflexivity]. etransitivity; [apply frame_outbox|apply frame_sentbox]. apply resend_blobs_ok.
Qed.

Lemma nak_frame now naklist (r r' : RemotePeer) : HandleNonAcknowledgements now naklist r = Ret r' -> frame r r'.
Proof.
  unfold HandleNonAcknowledgements. intros H. repeat run_step H. pose proof (nak_datagrams_frame now naklist r) as F.
  apply frame_then_congestion; [exact F|]. apply (fr_congestion _ _ F). apply get_congestion_inv in E. now rewrite E.
Qed.

Lemma fill_frame now fuel : forall n q (r : RemotePeer) q' r', fill_loop fuel now n q r = Ret (q', r') -> frame r r'.
Proof.
  induction fuel as [|fuel IH]; intros n q r q' r' H; cbn [fill_loop] in H; [discriminate|].
  run_step H; [run_step H; reflexivity|]. run_step H; [run_step H; reflexivity|]. run_step H. destruct a as [[n1 q1] r1].
  apply IH in H. etransitivity; [|exact H]. unfold Datagram_AddNewPacket in E. repeat run_step E; [|reflexivity].
  apply frame_outbox, alter_blobs_ok. done.
Qed.

Lemma select_frame now B S (r : RemotePeer) q r' : select_packets now B S r = Ret (q, r') -> frame r r'.
Proof.
  unfold select_packets, Datagram_AddResendPacket. intros H. run_step H. destruct a as [q1 r1]. apply fill_frame in H.
  etransitivity; [|exact H]. repeat run_step E; try reflexivity. apply (frame_trans _ (set_outbox (alter (schedule now a) n (outbox r)) r)); [apply frame_outbox, alter_blobs_ok; done|apply frame_stats].
Qed.

Lemma build_frame now q (r : RemotePeer) b r' : build_datagram now q r = Ret (b, r') -> frame r r'.
Proof.
  unfold build_datagram. intros H. destruct q as [|first q]; [run_step H; reflexivity|]. run_step H.
  apply get_congestion_inv in E.
  assert (F : forall c, frame r (set_congestion c r)) by (intros c; eapply frame_set_congestion; exact E).
  repeat run_step H; (etransitivity; [apply F|]).
  - apply frame_outbox. cbn. intros Hb. eapply count_blobs_ok; eassumption.
  - etransitivity; [|apply frame_sentbox]. etransitivity; [|apply frame_stats]. apply frame_outbox. cbn. intros Hb.
    eapply concat_blobs_ok; [eassumption|]. eapply count_blobs_ok; eassumption.
Qed.

Lemma MakeDatagram_frame now (r : RemotePeer) b r' : MakeDatagram now r = Ret (b, r') -> frame r r'.
Proof.
  unfold MakeDatagram. intros H. run_step H; [run_step H; reflexivity|]. run_step H. run_step H; [run_step H; reflexivity|].
  run_step H. destruct a0 as [q r1]. apply build_frame in H. apply select_frame in E0. etransitivity; [exact E0|exact H].
Qed.

Lemma MakeAckgram_frame now (r : RemotePeer) d r' : MakeAckgram now r = Ret (d, r') -> frame r r'.
Proof.
  unfold MakeAckgram. intros H. run_step H. apply get_congestion_inv in E. repeat run_step H.
  etransitivity; [|apply frame_sentbox]. eapply frame_set_congestion. exact E.
Qed.

Lemma GetNextDatagram_frame now (r : RemotePeer) b r' : GetNextDatagram now r = Ret (b, r') -> frame r r'.
Proof.
  unfold GetNextDatagram. intros H. run_step H. run_step H; [|now apply MakeDatagram_frame in H].
  run_step H. destruct a0 as [d r1]. run_step H. now apply MakeAckgram_frame in E0.
Qed.

Lemma DoWriteCycle_frame {crypto} {layer : EncryptionLayer crypto} now entropy encryption pending layers (r : RemotePeer) w r' :
  DoWriteCycle now entropy encryption pending layers r = Ret (w, r') -> frame r r'.
Proof.
  unfold DoWriteCycle. intros H. run_step H; [run_step H; reflexivity|]. run_step H. destruct a as [b r1].
  assert (F : frame r r1) by (apply GetNextDatagram_frame in E; etransitivity; [apply frame_stats|exact E]).
  destruct b; [run_step H; exact F| |run_step H; exact F]. run_step H. run_step H; [|run_step H; exact F].
  run_step H. apply get_congestion_inv in E1. repeat run_step H.
  apply frame_then_congestion; [|apply (fr_congestion _ _ F); now rewrite E1]. etransitivity; [exact F|]. frame_via.
Qed.

Lemma update_receipts_frame now (r : RemotePeer) rs r' : update_receipts now r = (rs, r') -> frame r r'.
Proof.
  unfold update_receipts. destruct (rp_receipt r) as [t|] eqn:E; [|now injection 1 as _ <-].
  destruct (Receipt_Update now _ t) as [[kept t'] rs']. injection 1 as _ <-.
  apply frame_then_receipt; [frame_via|]. now rewrite E.
Qed.

Lemma update_congestion_frame now (r : RemotePeer) : frame r (update_congestion now r).
Proof.
  unfold update_congestion. destruct (congestion r) as [c|] eqn:E; [|reflexivity]. destruct (Update now (stats r) c).
  apply frame_then_congestion; [frame_via|]. now rewrite E.
Qed.
End FrameOps.
