(* ===== verification/PeerInvariant.v ===== *)
(** * PeerInvariant: what holds of a peer at all times

    The well-formedness of the slot table, and that every operation of Peer and
    every completion handler and round of the worker preserves it. *)

From stdpp Require Import base tactics gmap sets list list_numbers numbers option.
From Stdlib Require Import ZArith Lia.
From S2P Require Import Prelude Memory BinaryStream StreamSpec StreamCodec Config PeerStats Packet Headers.
From S2P Require Import ChannelBuffer CongestionControl Reassembly ReceiptTracker RpcController Encryption Handshake Socket RemotePeer PacketQueue Peer PacketFlow PeerFrame.

Open Scope Z_scope.

(** ** The invariant *)

Section Invariant.
Context {host : Host} {sign : CharSign} {RemoteAddress : Type} {address_eq : EqDecision RemoteAddress} (no_address : RemoteAddress).
Context {crypto : Type} {layer : EncryptionLayer crypto} (make_layer : Z -> outcome crypto) {callback : Type}.

Abbreviation Peer := (Peer RemoteAddress crypto callback).
Abbreviation RemotePeer := (RemotePeer RemoteAddress).
Abbreviation PM := (ST Peer).

(** A slot: what is in use is set up, what is not in use holds nothing, and there is
    no empty packet in the outbox. *)
Record slot_ok (layers : gmap Z crypto) (r : RemotePeer) : Prop := {
  so_active : active r = true -> reserved r = true;
  so_used : reserved r = true -> is_Some (congestion r) /\ is_Some (rp_receipt r);
  so_free : reserved r = false -> handshake r = None;
  so_shake : is_Some (handshake r) <-> is_Some (rp_crypto r);
  so_layer : forall h, rp_crypto r = Some h -> is_Some (layers !! h);
  so_blobs : blobs_ok (outbox r);
}.

(** Slot 0 is for out-of-band messages: it never holds a connection, and it is
    taken whenever the socket can connect. *)
Definition oob_ok (p : Peer) (r : RemotePeer) : Prop :=
  handshake r = None /\ (m_state (m_masterSocket p) = OPEN -> reserved r = true).

Record peer_inv (p : Peer) : Prop := {
  pi_size : zlength (m_remotes p) = m_remotesMax p;
  pi_max : 1 <= m_remotesMax p < 18446744073709551616;
  pi_incoming : 0 <= m_remotesIncoming p <= m_remotesMax p - 1;
  pi_channels : head (m_channels p) = Some UNORDERED /\ zlength (m_channels p) <= 255;
  pi_slots : forall i r, m_remotes p !! i = Some r -> slot_ok (p_layers p) r;
  pi_oob : forall r, m_remotes p !! 0%nat = Some r -> oob_ok p r;
  pi_lookup : forall id i, m_remoteLookup p !! id = Some i -> 1 <= Z.of_nat i < m_remotesMax p;
  pi_fresh : forall h, is_Some (p_layers p !! h) -> h < p_fresh p;
}.

(** An operation preserves the invariant. *)
Definition preserves {A} (m : PM A) : Prop := forall p a p', peer_inv p -> m p = Ret (a, p') -> peer_inv p'.

Lemma frame_slot_ok layers r r' : frame r r' -> slot_ok layers r -> slot_ok layers r'.
Proof.
  intros [Hr Ha Hh Hc Hi Hd Hcg Hrc Hbl] [S1 S2 S3 S4 S5 S6]. split; rewrite ?Hr, ?Ha, ?Hh, ?Hc; auto.
  intros H. destruct (S2 H). tauto.
Qed.

Lemma reset_slot_ok layers r : slot_ok layers (Reset_remote no_address r).
Proof. split; try done; [split; intros [? ?]; discriminate|constructor]. Qed.

(** Replacing one slot. *)
Lemma inv_slot p i r : peer_inv p -> slot_ok (p_layers p) r -> (i = 0%nat -> oob_ok p r) ->
  peer_inv (set_remotes (<[i := r]> (m_remotes p)) p).
Proof.
  intros [] Hs Ho. split; cbn; try done.
  - unfold zlength in *. now rewrite length_insert.
  - intros j r' Hj. apply list_lookup_insert_Some in Hj as [(<- & <- & _)|[_ Hj]]; eauto.
  - intros r' Hj. apply list_lookup_insert_Some in Hj as [(-> & <- & _)|[_ Hj]]; [now apply Ho|]. now apply pi_oob0.
Qed.

Lemma inv_slot_frame p i r r' : peer_inv p -> m_remotes p !! i = Some r -> frame r r' ->
  peer_inv (set_remotes (<[i := r']> (m_remotes p)) p).
Proof.
  intros H Hi F. apply inv_slot; [done|exact (frame_slot_ok _ _ _ F (pi_slots _ H _ _ Hi))|].
  intros ->. destruct (pi_oob _ H _ Hi) as [H1 H2]. split; [now rewrite (fr_handshake _ _ F)|now rewrite (fr_reserved _ _ F)].
Qed.

Lemma slot_inv i (p : Peer) r p' : slot i p = Ret (r, p') -> p' = p /\ m_remotes p !! i = Some r.
Proof. unfold slot. intros H. repeat run_step H. done. Qed.

Lemma on_slot_inv {A} i (f : RemotePeer -> outcome (A * RemotePeer)) (p : Peer) a p' : on_slot i f p = Ret (a, p') ->
  exists r r', m_remotes p !! i = Some r /\ f r = Ret (a, r') /\ p' = set_remotes (<[i := r']> (m_remotes p)) p.
Proof.
  unfold on_slot, set_slot. intros H. run_step H. apply slot_inv in E as [-> E]. repeat run_step H. run_step E0. run_step E1. eexists _, _. split; [eassumption|]. split; [eassumption|reflexivity].
Qed.

Lemma on_slot_preserves {A} i (f : RemotePeer -> outcome (A * RemotePeer)) :
  (forall r a r', f r = Ret (a, r') -> frame r r') -> preserves (on_slot i f).
Proof. intros F p a p' H (r & r' & Hr & E & ->)%on_slot_inv. apply (inv_slot_frame p i r); eauto. Qed.

Lemma preserves_ret {A} (a : A) : preserves (mret a).
Proof. intros p b p' H E. now run_step E. Qed.
Lemma preserves_fail {A} f : preserves (A := A) (fail f).
Proof. discriminate 2. Qed.
Lemma preserves_lift {A} (o : outcome A) : preserves (lift o).
Proof. intros p a p' H E. run_step E. done. Qed.
Lemma preserves_get {A} (k : Peer -> PM A) : (forall p0, preserves (k p0)) -> preserves (get ≫= k).
Proof. intros Hk p a p' H E. run_step E. eapply Hk; eauto. Qed.
Lemma preserves_bind {A B} (m : PM A) (k : A -> PM B) : preserves m -> (forall a, preserves (k a)) -> preserves (m ≫= k).
Proof. intros Hm Hk p a p' H E. run_step E. eapply Hk; [eapply Hm|]; eauto. Qed.
Lemma preserves_modify f : (forall p, peer_inv p -> peer_inv (f p)) -> preserves (modify f).
Proof. intros F p a p' H E. run_step E. auto. Qed.
Lemma preserves_update {X} (f : Peer -> outcome X) (g : Peer -> X -> Peer) :
  (forall p x, peer_inv p -> f p = Ret x -> peer_inv (g p x)) -> preserves (p ← get; x ← lift (f p); put (g p x)).
Proof. intros F p a p' H E. run_all. auto. Qed.
Lemma slot_preserves i : preserves (slot i).
Proof. intros p a p' H E. now apply slot_inv in E as [-> _]. Qed.

Lemma inv_inbox p l : peer_inv p -> peer_inv (set_inbox l p).
Proof. now intros []. Qed.
Lemma inv_rpc p m l : peer_inv p -> peer_inv (set_rpc m l p).
Proof. now intros []. Qed.
Lemma inv_identity p k b : peer_inv p -> peer_inv (set_identity k b p).
Proof. now intros []. Qed.
Lemma inv_socket p s : peer_inv p -> (m_state s = OPEN -> m_state (m_masterSocket p) = OPEN) -> peer_inv (set_socket s p).
Proof. intros [] Hs. split; cbn; try done. intros r Hr. destruct (pi_oob0 r Hr) as [H1 H2]. split; auto. Qed.
Lemma inv_lookup_insert p id i : peer_inv p -> 1 <= Z.of_nat i < m_remotesMax p -> peer_inv (set_lookup (<[id := i]> (m_remoteLookup p)) p).
Proof.
  intros [] Hi. split; cbn; try done. intros id' j [[<- <-]|[_ Hj]]%lookup_insert_Some; eauto.
Qed.
Lemma inv_lookup_delete p id : peer_inv p -> peer_inv (set_lookup (delete id (m_remoteLookup p)) p).
Proof. intros []. split; cbn; try done. intros id' j [_ Hj]%lookup_delete_Some. eauto. Qed.
Lemma inv_layer p h c c0 : peer_inv p -> p_layers p !! h = Some c0 -> peer_inv (set_layers (<[h := c]> (p_layers p)) (p_fresh p) p).
Proof.
  intros [] Hh. split; cbn; try done.
  - intros i r Hr. destruct (pi_slots0 i r Hr) as [S1 S2 S3 S4 S5 S6]. split; try done. intros h' E. rewrite lookup_insert_is_Some. destruct (decide (h = h')); eauto.
  - intros h' [->|[_ H]]%lookup_insert_is_Some; apply pi_fresh0; eauto.
Qed.

Lemma slot_range p i r : peer_inv p -> m_remotes p !! i = Some r -> Z.of_nat i < m_remotesMax p.
Proof. intros H Hi. rewrite <- (pi_size _ H). apply lookup_lt_Some in Hi. unfold zlength. lia. Qed.

(** A slot that holds a connection is not slot 0. *)
Lemma connection_slot p i r : peer_inv p -> m_remotes p !! i = Some r -> is_Some (handshake r) -> i <> 0%nat.
Proof. intros H Hi [h Hh] ->. destruct (pi_oob _ H _ Hi). congruence. Qed.

Lemma found_slot test (p : Peer) i : find_slot test p = Some i ->
  i <> 0%nat /\ exists r, m_remotes p !! i = Some r /\ test r = true /\ Z.of_nat i < m_remotesMax p.
Proof.
  unfold find_slot, numbered. intros (j & (r & Hr & Ht)%find_index_Some & ->)%fmap_Some. split; [done|]. exists r.
  rewrite lookup_drop in Hr. cbn [Nat.add] in Hr. apply lookup_take_Some in Hr as [Hr Hlt]. split; [done|]. split; [done|lia].
Qed.

Lemma SendLoopback_preserves packet : preserves (SendLoopback packet).
Proof. intros p a p' H E. unfold SendLoopback in E. run_all. now apply inv_inbox. Qed.

Lemma Queue_OutOfBand_frame now packet a h (r : RemotePeer) (u : unit) r' :
  (r ← EnqueueOutOfBand now packet a h r; mret (tt, r)) = Ret (u, r') -> frame r r'.
Proof. intros E. run_all. eauto using EnqueueOutOfBand_frame. Qed.
Lemma Queue_OutOfBand_preserves now packet a h : preserves (Queue_OutOfBand now packet a h).
Proof. apply on_slot_preserves. intros r b r'. apply Queue_OutOfBand_frame. Qed.

Lemma reset_slot_preserves i : i <> 0%nat -> preserves (reset_slot no_address i).
Proof.
  intros Hi p a p' H E. unfold reset_slot, set_slot in E. run_step E. apply slot_inv in E0 as [-> E0]. run_all.
  apply inv_slot; [done|apply reset_slot_ok|done].
Qed.

Create HintDb peer_inv.
#[local] Hint Resolve inv_inbox inv_rpc inv_identity : peer_inv.
Ltac pres_step :=
  lazymatch goal with
  | |- preserves (mret _) => apply preserves_ret
  | |- preserves (lift _) => apply preserves_lift
  | |- preserves (fail _) => apply preserves_fail
  | |- preserves (slot _) => apply slot_preserves
  | |- preserves (get ≫= _) => first [apply preserves_update; intros; solve [auto with peer_inv nocore] | apply preserves_get; intros ?]
  | |- preserves (_ ≫= _) => apply preserves_bind; [|intros ?]
  | |- preserves (match ?x with _ => _ end) => destruct x eqn:?
  | |- preserves _ => solve [auto with preserve nocore]
  end.
Ltac pres := repeat pres_step.
Create HintDb preserve.
#[local] Hint Constants Opaque : preserve.
#[local] Hint Resolve SendLoopback_preserves Queue_OutOfBand_preserves reset_slot_preserves : preserve.

Lemma command_packet_preserves cmd : preserves (command_packet cmd).
Proof. apply preserves_lift. Qed.
Lemma SendOutOfBand_preserves now packet a : preserves (SendOutOfBand now packet a).
Proof. apply Queue_OutOfBand_preserves. Qed.
Lemma OnMessageReceipt_preserves r : preserves (OnMessageReceipt r).
Proof. unfold OnMessageReceipt. pres. Qed.
#[local] Hint Resolve command_packet_preserves SendOutOfBand_preserves OnMessageReceipt_preserves : preserve.
Lemma post_receipts_preserves rs : preserves (post_receipts rs).
Proof. induction rs; cbn [post_receipts]; pres. Qed.

Lemma SendHandshakePart_preserves now i s b : preserves (SendHandshakePart now i s b).
Proof. unfold SendHandshakePart. pres. Qed.
Lemma Complete_preserves i n : i <> 0%nat -> preserves (SendHandshakeCompleteNotification no_address i n).
Proof. intros Hi. unfold SendHandshakeCompleteNotification. pres. Qed.
#[local] Hint Resolve post_receipts_preserves SendHandshakePart_preserves Complete_preserves : preserve.
Lemma run_effects_preserves now i es : i <> 0%nat -> preserves (run_effects no_address now i es).
Proof. intros Hi. induction es as [|[]]; cbn [run_effects]; pres. Qed.

Lemma with_handshake_preserves now i m : preserves (with_handshake no_address now i m).
Proof.
  intros p a p' H E. unfold with_handshake in E. run_step E. apply slot_inv in E0 as [-> E0].
  destruct (handshake a0) as [h|] eqn:Eh; [|run_all].
  assert (Hi : i <> 0%nat) by (eapply connection_slot; [exact H|exact E0|now rewrite Eh]).
  unfold set_slot in E. run_all. eapply run_effects_preserves; [exact Hi| |exact E].
  eapply inv_layer; [|exact Heqo0]. apply inv_slot; [done| |done].
  destruct (pi_slots _ H _ _ E0) as [S1 S2 S3 S4 S5 S6]. split; cbn; try done. intros Hr. rewrite (S3 Hr) in Eh. discriminate.
Qed.
#[local] Hint Resolve with_handshake_preserves : preserve.

Lemma GetRemoteByID_inv id (p : Peer) o p' : peer_inv p -> GetRemoteByID id p = Ret (o, p') ->
  peer_inv p' /\ o = GetRemoteByID_const id p /\ (forall i, o = Some i -> i <> 0%nat).
Proof.
  unfold GetRemoteByID, GetRemoteByID_const. intros H E. run_step E. destruct (m_remoteLookup p !! id) as [i|] eqn:El.
  - run_all. split; [done|]. split; [done|]. intros j [= <-]. pose proof (pi_lookup _ H _ _ El). lia.
  - destruct (search_id id p) as [i|] eqn:Es; run_all; [|done]. destruct (found_slot _ _ _ Es) as (Hi & r & _ & _ & Hlt).
    split; [apply inv_lookup_insert; [done|lia]|]. split; [done|]. now intros j [= <-].
Qed.
Lemma GetRemoteByID_preserves id : preserves (GetRemoteByID id).
Proof. intros p o p' H E. now apply GetRemoteByID_inv in E as [? _]. Qed.
#[local] Hint Resolve GetRemoteByID_preserves : preserve.

Lemma handle_handshake_preserves now entropy i packet : preserves (handle_handshake no_address now entropy i packet).
Proof. unfold handle_handshake. pres. Qed.
#[local] Hint Resolve handle_handshake_preserves : preserve.

Lemma OnDisconnect_preserves i cmd : preserves (OnDisconnect i cmd).
Proof. unfold OnDisconnect. pres. apply preserves_modify. intros p H. now apply inv_lookup_delete. Qed.
#[local] Hint Resolve OnDisconnect_preserves : preserve.

Lemma DisconnectImmediate_preserves now i : preserves (DisconnectImmediate no_address now i).
Proof.
  intros p a p' H E. unfold DisconnectImmediate in E. run_step E. apply slot_inv in E0 as [-> E0].
  destruct (handshake a0) as [h|] eqn:Eh; [|now run_all].
  assert (Hi : i <> 0%nat) by (eapply connection_slot; [exact H|exact E0|now rewrite Eh]).
  revert p a p' H E E0. enough (P : preserves ((if IsDone h && (m_result h =? result_code CR_OK)
       then OnDisconnect i (if IsDisconnecting a0 then NOTIFY_DISCONNECTED else NOTIFY_CONNECTION_LOST)
       else with_handshake no_address now i (fun _ => Complete (result_code CONNECT_FAILED)));; reset_slot no_address i))
    by (intros; eapply P; eauto). pres.
Qed.
#[local] Hint Resolve DisconnectImmediate_preserves : preserve.

Lemma DisconnectImmediate_id_preserves now who : preserves (DisconnectImmediate_id no_address now who).
Proof. unfold DisconnectImmediate_id. pres. Qed.

Lemma EnqueueOutgoing_preserves now modes packet options channel i :
  preserves (on_slot i (EnqueueOutgoing now modes packet options channel)).
Proof. apply on_slot_preserves. intros. eapply EnqueueOutgoing_frame. eassumption. Qed.
Lemma set_disconnect_preserves t i : preserves (on_slot i (fun r => mret (tt, set_disconnect t r))).
Proof. apply on_slot_preserves. intros r a r' E. run_all. now split. Qed.
#[local] Hint Resolve EnqueueOutgoing_preserves set_disconnect_preserves : preserve.

Lemma Disconnect_preserves now who linger : preserves (Disconnect now who linger).
Proof. unfold Disconnect. pres. Qed.
#[local] Hint Resolve Disconnect_preserves : preserve.

Lemma Stop_begin_preserves now linger l : preserves (Stop_begin now linger l).
Proof.
  induction l as [|i l IH]; cbn [Stop_begin]; [pres|]. intros p a p' H E. run_step E. apply slot_inv in E0 as [-> E0].
  apply bind_inv in E as (u & p1 & E1 & E). assert (H1 : peer_inv p1); [|exact (IH _ _ _ H1 E)]. destruct (_ && _); [exact (Disconnect_preserves _ _ _ _ _ _ H E1)|].
  unfold set_slot in E1. run_all. eapply inv_slot_frame; [done|exact E0|now split].
Qed.

Lemma reset_slots_preserves l : 0%nat ∉ l -> preserves (reset_slots no_address l).
Proof.
  induction l as [|i l IH]; intros Hl; cbn [reset_slots]; [pres|]. apply not_elem_of_cons in Hl as [Hi Hl]. specialize (IH Hl).
  apply preserves_bind; [apply reset_slot_preserves; congruence|done].
Qed.

Lemma Stop_end_preserves : preserves (Stop_end no_address).
Proof.
  unfold Stop_end. apply preserves_get. intros p0. apply preserves_bind.
  - apply reset_slots_preserves. unfold slot_numbers. rewrite elem_of_seq. lia.
  - intros _. apply preserves_modify. intros p H. apply inv_socket; [done|]. unfold Unbind. destruct (is_open _); [discriminate|done].
Qed.

(** ** Connecting *)

(** What Setup leaves behind. *)
Lemma Setup_ok now encryption identity made handle origin layers (r : RemotePeer) layers' r' :
  Setup now encryption identity made handle origin layers r = Ret (layers', r') -> slot_ok layers r ->
  slot_ok layers' r' /\ reserved r' = true /\ (forall h, is_Some (layers !! h) -> is_Some (layers' !! h)) /\
  (forall h, is_Some (layers' !! h) -> h = handle \/ is_Some (layers !! h)) /\
  (origin = ORIGIN_INVALID -> handshake r' = handshake r) /\ addr r' = addr r.
Proof.
  unfold Setup. intros E [S1 S2 S3 S4 S5 S6]. case_bool_decide as Ho; run_all.
  - split; [|eauto 7]. split; cbn; done.
  - split; [|split; [done|]]. 2:{ split; [intros h Hh; rewrite lookup_insert_is_Some; destruct (decide (handle = h)); eauto|].
      split; [|done]. intros h [->|[_ Hh]]%lookup_insert_is_Some; eauto. }
    split; cbn; try done. intros h [= <-]. rewrite lookup_insert_is_Some. eauto.
Qed.

(** The state between setup and the end of an operation on slot i. *)
Lemma inv_setup p i r r' layers' : peer_inv p -> m_remotes p !! i = Some r -> slot_ok layers' r' ->
  (forall h, is_Some (p_layers p !! h) -> is_Some (layers' !! h)) ->
  (forall h, is_Some (layers' !! h) -> h = p_fresh p \/ is_Some (p_layers p !! h)) ->
  (i = 0%nat -> oob_ok p r') ->
  peer_inv (set_layers layers' (p_fresh p + 1) (set_remotes (<[i := r']> (m_remotes p)) p)).
Proof.
  intros [] Hi Hs Hsub Hnew Ho. split; cbn; try done.
  - unfold zlength in *. now rewrite length_insert.
  - intros j rj Hj. apply list_lookup_insert_Some in Hj as [(<- & <- & _)|[_ Hj]]; [done|].
    destruct (pi_slots0 j rj Hj) as [S1 S2 S3 S4 S5 S6]. split; auto.
  - intros rj Hj. apply list_lookup_insert_Some in Hj as [(-> & <- & _)|[_ Hj]]; [now apply Ho|]. now apply pi_oob0.
  - intros h [->|Hh]%Hnew; [lia|]. specialize (pi_fresh0 h Hh). lia.
Qed.

Lemma setup_slot_inv now entropy i origin (p : Peer) u p' : peer_inv p -> setup_slot make_layer now entropy i origin p = Ret (u, p') ->
  exists r r' layers', m_remotes p !! i = Some r /\ slot_ok layers' r' /\ reserved r' = true /\
    p' = set_layers layers' (p_fresh p + 1) (set_remotes (<[i := r']> (m_remotes p)) p) /\
    (origin = ORIGIN_INVALID -> handshake r' = handshake r) /\
    ((i = 0%nat -> oob_ok p r') -> peer_inv p').
Proof.
  intros H E. unfold setup_slot in E. run_step E. apply slot_inv in E0 as [-> E0]. unfold set_slot in E. run_all.
  match goal with HS : Setup _ _ _ _ _ _ _ _ = Ret _ |- _ => rename HS into E2 end.
  destruct (Setup_ok _ _ _ _ _ _ _ _ _ _ E2 (pi_slots _ H _ _ E0)) as (S1 & S2 & S3 & S4 & S5 & _).
  eexists _, _, _. split; [exact E0|]. split; [exact S1|]. split; [exact S2|]. split; [done|]. split; [exact S5|].
  intros Ho. exact (inv_setup p i _ _ _ H E0 S1 S3 S4 Ho).
Qed.

Lemma setup_slot_preserves now entropy i origin : i <> 0%nat -> preserves (setup_slot make_layer now entropy i origin).
Proof. intros Hi p u p' H E. destruct (setup_slot_inv _ _ _ _ _ _ _ H E) as (r & r' & l' & _ & _ & _ & _ & _ & P). now apply P. Qed.
#[local] Hint Resolve setup_slot_preserves : preserve.

Lemma set_endpoint_ok layers a b (r : RemotePeer) : slot_ok layers r -> (b = true -> reserved r = true) -> slot_ok layers (set_endpoint a b r).
Proof. intros [] Hb. split; cbn; done. Qed.

Lemma Bind_preserves asio now family port : preserves (Bind make_layer asio now family port).
Proof.
  intros p a p' H E. unfold Bind in E. apply bind_inv in E as (u & p1 & E1 & E).
  destruct (setup_slot_inv _ _ _ _ _ _ _ H E1) as (r & r' & layers' & Hr & Hs & Hres & Ep1 & Hh & Hinv).
  assert (H1 : peer_inv p1).
  { apply Hinv. intros _. split; [|done]. rewrite (Hh eq_refl). exact (proj1 (pi_oob _ H _ Hr)). }
  run_step E. apply slot_inv in E0 as [-> E0]. unfold set_slot in E.
  assert (a0 = r') as ->.
  { rewrite Ep1 in E0. cbn in E0. apply list_lookup_insert_Some in E0 as [(_ & <- & _)|[? _]]; done. }
  clear Ep1. run_all.
  assert (H2 : peer_inv (set_remotes (<[0%nat := set_endpoint (addr r') true r']> (m_remotes p1)) p1)).
  { apply inv_slot; [done|apply set_endpoint_ok; [exact (pi_slots _ H1 _ _ E0)|done]|]. intros _. exact (pi_oob _ H1 _ E0). }
  destruct H2. split; try done. intros r2 Hr2. split; [now apply pi_oob0|]. intros _. cbn in Hr2.
  apply list_lookup_insert_Some in Hr2 as [(_ & <- & _)|[? _]]; done.
Qed.

Lemma expect_identity_preserves i key : preserves (expect_identity (callback := callback) i key).
Proof. intros p a p' H E. unfold expect_identity in E. run_step E. apply slot_inv in E0 as [-> E0]. run_all. eapply inv_layer; eauto. Qed.
#[local] Hint Resolve expect_identity_preserves : preserve.

Lemma socket_connect_state asio hostname port i (s s' : SocketUDP RemoteAddress) ret : Socket_Connect asio hostname port i s = (ret, s') ->
  m_state s' = m_state s /\ (ret = CAR_OK -> m_state s = OPEN).
Proof.
  unfold Socket_Connect, GetState. destruct (bool_decide_reflect (m_state s = OPEN)); cbn [negb orb].
  - destruct (negb _); [now intros [= <- <-]|]. destruct (_ || _); [now intros [= <- <-]|]. destruct (Resolve _ _ _ _); now intros [= <- <-].
  - now intros [= <- <-].
Qed.

(** The state in which only slot i may break the invariant. *)
Definition but_for (i : nat) (p : Peer) : Prop :=
  forall r, m_remotes p !! i = Some r -> peer_inv (set_remotes (<[i := Reset_remote no_address r]> (m_remotes p)) p).

Lemma setup_but_for now entropy i origin (p : Peer) u p' : peer_inv p -> m_state (m_masterSocket p) <> OPEN ->
  setup_slot make_layer now entropy i origin p = Ret (u, p') -> but_for i p' /\ m_state (m_masterSocket p') <> OPEN.
Proof.
  intros H Hst E. unfold setup_slot in E. run_step E. apply slot_inv in E0 as [-> E0]. unfold set_slot in E. run_all.
  match goal with HS : Setup _ _ _ _ _ _ _ _ = Ret _ |- _ => rename HS into E2 end.
  destruct (Setup_ok _ _ _ _ _ _ _ _ _ _ E2 (pi_slots _ H _ _ E0)) as (S1 & S2 & S3 & S4 & S5 & _).
  split; [|done]. intros r1 Hr. cbn in Hr |- *. rewrite list_insert_insert_eq.
  exact (inv_setup p i _ _ _ H E0 (reset_slot_ok _ _) S3 S4 (fun _ => conj eq_refl (fun Ho => match Hst Ho with end))).
Qed.

Lemma reset_but_for i (p : Peer) u p' : but_for i p -> reset_slot no_address i p = Ret (u, p') -> peer_inv p'.
Proof. unfold reset_slot, set_slot. intros H E. run_step E. apply slot_inv in E0 as [-> E0]. run_all. now apply H. Qed.

Lemma expect_but_for i j key (p : Peer) u p' : but_for i p -> expect_identity j key p = Ret (u, p') -> but_for i p' /\ m_masterSocket p' = m_masterSocket p.
Proof.
  intros H E. unfold expect_identity in E. run_step E. apply slot_inv in E0 as [-> E0]. run_all. split; [|done].
  intros r Hr. eapply (inv_layer (set_remotes _ _)); [exact (H r Hr)|eassumption].
Qed.

(** Only a socket that is not open leaves slot 0 to be chosen. *)
Lemma unused_slot (p : Peer) i : peer_inv p -> GetNextAvailableConnectSlot p = Some i -> i = 0%nat -> m_state (m_masterSocket p) <> OPEN.
Proof.
  intros H (r & Hr & Ht)%find_index_Some -> Ho. apply lookup_take_Some in Hr as [Hr _].
  rewrite (proj2 (pi_oob _ H _ Hr) Ho) in Ht. discriminate.
Qed.

(** The end of Connect: the attempt, and the reset of the slot if it fails. *)
Definition attempt (asio : Asio RemoteAddress) (hostname : list Z) (port : Z) (i : nat) : PM ConnectAttemptResult :=
  p ← get;
  let '(ret, s) := Socket_Connect asio hostname port i (m_masterSocket p) in
  put (set_socket s p);;
  (if negb (bool_decide (ret = CAR_OK)) then reset_slot no_address i else mret tt);;
  mret ret.

Lemma attempt_preserves asio hostname port i : i <> 0%nat -> preserves (attempt asio hostname port i).
Proof.
  intros Hi p a p' H E. unfold attempt in E. run_step E. destruct (Socket_Connect _ _ _ _ _) as [ret s] eqn:Es. apply socket_connect_state in Es as [Hs _].
  assert (P : preserves ((if negb (bool_decide (ret = CAR_OK)) then reset_slot no_address i else mret tt);; mret ret)) by pres.
  apply bind_inv in E as (u & p1 & E1 & E). run_step E1. eapply P; [|exact E]. apply inv_socket; [exact H|now rewrite Hs].
Qed.

Lemma attempt_but_for asio hostname port i (p : Peer) a p' : but_for i p -> m_state (m_masterSocket p) <> OPEN ->
  attempt asio hostname port i p = Ret (a, p') -> peer_inv p'.
Proof.
  intros B Hst E. unfold attempt in E. run_step E. destruct (Socket_Connect _ _ _ _ _) as [ret s] eqn:Es. apply socket_connect_state in Es as [Hs Hok].
  rewrite bool_decide_false in E by (intros Hr; now apply Hst, Hok). cbn [negb] in E. run_step E. run_step E. run_step E. run_step E0. 
  eapply reset_but_for; [|exact E1]. intros r Hr. apply (inv_socket (set_remotes _ _)); [exact (B r Hr)|]. cbn. now rewrite Hs.
Qed.

Lemma Connect_preserves asio now entropy hostname port key : preserves (Connect no_address make_layer asio now entropy hostname port key).
Proof.
  intros p a p' H E. unfold Connect in E. run_step E. destruct (GetNextAvailableConnectSlot p) as [i|] eqn:Ei; [|now run_all].
  fold (attempt asio hostname port i) in E. apply bind_inv in E as (u & p1 & E1 & E). destruct (decide (i = 0%nat)) as [Hi|Hi].
  - destruct (setup_but_for _ _ _ _ _ _ _ H (unused_slot _ _ H Ei Hi) E1) as [B1 Hs1].
    destruct key as [key|]; [destruct (m_crypto_enabled p)|]; apply bind_inv in E as (u' & p2 & E2 & E).
    + destruct (expect_but_for _ _ _ _ _ _ B1 E2) as [B2 Hs2]. eapply attempt_but_for; [exact B2|congruence|exact E].
    + run_all. eapply reset_but_for; eauto.
    + run_step E2. eapply attempt_but_for; eauto.
  - assert (H1 : peer_inv p1) by (eapply setup_slot_preserves; eauto). clear E1.
    destruct key as [key|]; [destruct (m_crypto_enabled p)|]; apply bind_inv in E as (u' & p2 & E2 & E).
    + eapply attempt_preserves; [exact Hi| |exact E]. eapply expect_identity_preserves; eauto.
    + run_all. eapply reset_slot_preserves; eauto.
    + run_step E2. eapply attempt_preserves; eauto.
Qed.

Definition reserved_at (i : nat) (p : Peer) : Prop := exists r, m_remotes p !! i = Some r /\ reserved r = true.

Lemma on_slot_reserved {A} i j (f : RemotePeer -> outcome (A * RemotePeer)) (p : Peer) a p' :
  (forall r a r', f r = Ret (a, r') -> frame r r') -> on_slot j f p = Ret (a, p') -> reserved_at i p -> reserved_at i p'.
Proof.
  intros F (r & r' & Hr & E & ->)%on_slot_inv (r1 & Hr1 & H1). unfold reserved_at. cbn. destruct (decide (j = i)) as [->|Hji].
  - exists r'. rewrite list_lookup_insert_eq by (eapply lookup_lt_Some; eassumption). split; [done|].
    rewrite (fr_reserved _ _ (F _ _ _ E)). congruence.
  - exists r1. now rewrite list_lookup_insert_ne.
Qed.

Lemma begin_effects cfg now (s : HState crypto) u s' : Handshake_Begin cfg now s = Ret (u, s') ->
  exists m b, st_effects s' = st_effects s ++ [SendPart m b].
Proof. unfold Handshake_Begin, Reply, this, set_this, emit. intros E. run_all. cbn. eauto. Qed.

(** Begin only sends, so the slot of a connect attempt stays taken. *)
Lemma begin_reserved now i (p : Peer) u p' : with_handshake no_address now i (fun cfg => Handshake_Begin cfg now) p = Ret (u, p') ->
  reserved_at i p -> reserved_at i p'.
Proof.
  unfold with_handshake, set_slot. intros E (r0 & Hr0 & Hres). run_step E. apply slot_inv in E0 as [-> E0].
  assert (a = r0) as -> by congruence. run_all.
  match goal with HB : Handshake_Begin _ _ _ = Ret _ |- _ => destruct (begin_effects _ _ _ _ _ HB) as (m & b & He) end.
  rewrite He in E. cbn [app st_effects run_effects] in E. unfold SendHandshakePart in E. run_step E. run_step E. run_step E1. 
  run_step E1. apply slot_inv in E as [-> E]. run_step E2. destruct a3. eapply on_slot_reserved; [|exact E1|].
  - intros r a' r'. apply Queue_OutOfBand_frame.
  - exists (set_handshake (st_hs h) (st_remote_id h) r0). split; [|exact Hres]. cbn.
    rewrite list_lookup_insert_eq; [done|]. eapply lookup_lt_Some; eassumption.
Qed.

Lemma with_handshake_started now i m (p : Peer) u p' : with_handshake no_address now i m p = Ret (u, p') ->
  exists r, m_remotes p !! i = Some r /\ is_Some (handshake r).
Proof. unfold with_handshake. intros E. run_step E. apply slot_inv in E0 as [-> E0]. exists a. split; [done|]. destruct (handshake a); [eauto|run_all]. Qed.

Lemma set_endpoint_inv p i a b r : peer_inv p -> m_remotes p !! i = Some r -> (b = true -> reserved r = true) ->
  peer_inv (set_remotes (<[i := set_endpoint a b r]> (m_remotes p)) p).
Proof.
  intros H Hr Hb. apply inv_slot; [done|apply set_endpoint_ok; [exact (pi_slots _ H _ _ Hr)|done]|]. intros ->. exact (pi_oob _ H _ Hr).
Qed.

Lemma connect_callback_preserves now a i : preserves (connect_callback no_address now a i).
Proof.
  intros p u p' H E. unfold connect_callback, set_slot in E. run_step E. apply slot_inv in E0 as [-> E0]. run_step E. run_step E1.
  set (p1 := set_remotes _ p) in E. assert (H1 : peer_inv p1) by (apply set_endpoint_inv; [done..|exact (so_active _ _ (pi_slots _ H _ _ E0))]).
  run_step E. run_step E. apply slot_inv in E2 as [-> E2]. run_step E. apply set_endpoint_inv; [|done|].
  - eapply with_handshake_preserves; [exact H1|eassumption].
  - intros _. destruct (begin_reserved _ _ _ _ _ E1) as (r2 & Hr2 & Hres); [|congruence].
    exists (set_endpoint a (active a0) a0). unfold p1. cbn. rewrite list_lookup_insert_eq by (eapply lookup_lt_Some; eassumption).
    split; [done|]. destruct (reserved a0) eqn:Er; [done|]. destruct (with_handshake_started _ _ _ _ _ _ E1) as (r3 & Hr3 & Hh).
    unfold p1 in Hr3. cbn in Hr3. apply list_lookup_insert_Some in Hr3 as [(_ & <- & _)|[? _]]; [|done]. destruct Hh as [h Hh].
    cbn in Hh. now rewrite (so_free _ _ (pi_slots _ H _ _ E0) Er) in Hh.
Qed.

Lemma search_down_range rounds : forall i (p : Peer) j, search_down rounds i p = Some j -> Z.of_nat i - Z.of_nat rounds < Z.of_nat j <= Z.of_nat i.
Proof.
  induction rounds as [|rounds IH]; intros i p j E; cbn in E; [discriminate|]. destruct (m_remotes p !! i) as [r|]; [|discriminate].
  destruct (negb (reserved r)); [injection E as <-; lia|]. apply IH in E. lia.
Qed.

(** An incoming connection is never given slot 0. *)
Lemma incoming_slot (p : Peer) i : peer_inv p -> GetNextAvailableIncomingSlot p = Some i -> i <> 0%nat.
Proof.
  intros H. unfold GetNextAvailableIncomingSlot, GetMaximumIncomingPeers. destruct (_ =? 0); [discriminate|].
  intros E%search_down_range. pose proof (pi_incoming _ H). pose proof (pi_max _ H). lia.
Qed.

Lemma setup_slot_reserved now entropy i origin (p : Peer) u p' : peer_inv p -> setup_slot make_layer now entropy i origin p = Ret (u, p') -> reserved_at i p'.
Proof.
  intros H E. destruct (setup_slot_inv _ _ _ _ _ _ _ H E) as (r & r' & l' & Hr & _ & Hres & -> & _). exists r'. split; [|done].
  cbn. rewrite list_lookup_insert_eq; [done|]. eapply lookup_lt_Some; eassumption.
Qed.

Lemma SendRejectionReply_preserves now a reason : preserves (SendRejectionReply now a reason).
Proof. unfold SendRejectionReply. pres. Qed.
#[local] Hint Resolve SendRejectionReply_preserves : preserve.

Lemma OnNewIncomingPeer_preserves now entropy a packet : preserves (OnNewIncomingPeer no_address make_layer now entropy a packet).
Proof.
  intros p u p' H E. unfold OnNewIncomingPeer, set_slot in E. run_step E. destruct (GetNextAvailableIncomingSlot p) as [i|] eqn:Ei.
  2:{ eapply SendRejectionReply_preserves; eauto. }
  apply incoming_slot in Ei; [|done]. apply bind_inv in E as (u1 & p1 & E1 & E).
  destruct (setup_slot_reserved _ _ _ _ _ _ _ H E1) as (r & Hr & Hres).
  run_step E. apply slot_inv in E0 as [-> E0]. run_step E. run_step E2. eapply handle_handshake_preserves; [|exact E].
  apply set_endpoint_inv; [exact (setup_slot_preserves _ _ _ _ Ei _ _ _ H E1)|done|congruence].
Qed.
#[local] Hint Resolve OnNewIncomingPeer_preserves : preserve.

(** ** Messages *)

Lemma Send_preserves now packet recipient options channel : preserves (Send now packet recipient options channel).
Proof. unfold Send. pres. Qed.
#[local] Hint Resolve Send_preserves : preserve.

Lemma Receive_preserves : preserves Receive.
Proof. intros p a p' H E. unfold Receive in E. run_all. now apply inv_inbox. Qed.

Lemma Ping_preserves asio now hostname port : preserves (Ping asio now hostname port).
Proof. unfold Ping. pres. Qed.
Lemma PingLocalNetwork_preserves asio now port : preserves (PingLocalNetwork asio now port).
Proof. apply preserves_get. intros p. apply Ping_preserves. Qed.

Lemma OnSystemPacket_preserves now i packet : i <> 0%nat -> preserves (OnSystemPacket no_address now i packet).
Proof.
  intros Hi. unfold OnSystemPacket. pres.
Qed.
#[local] Hint Resolve OnSystemPacket_preserves : preserve.

Lemma OnUnconnectedMessage_preserves asio now entropy a instream :
  preserves (OnUnconnectedMessage no_address make_layer asio now entropy a instream).
Proof. unfold OnUnconnectedMessage. pres. Qed.
#[local] Hint Resolve OnUnconnectedMessage_preserves : preserve.
Lemma OnUnconnectedMessage_raw_preserves asio now entropy a msg :
  preserves (OnUnconnectedMessage_raw no_address make_layer asio now entropy a msg).
Proof. unfold OnUnconnectedMessage_raw. pres. Qed.
#[local] Hint Resolve OnUnconnectedMessage_raw_preserves : preserve.

(** ** Settings *)

Lemma SetEncryptionEnabled_preserves made b : preserves (SetEncryptionEnabled made b).
Proof. intros p a p' H E. unfold SetEncryptionEnabled in E. run_all; auto using inv_identity. Qed.
Lemma SetEncryptionIdentity_preserves k : preserves (SetEncryptionIdentity k).
Proof. intros p a p' H E. unfold SetEncryptionIdentity in E. run_all; auto using inv_identity. Qed.
Lemma RpcRegisterSlot_preserves identifier fn : preserves (RpcRegisterSlot identifier fn).
Proof. unfold RpcRegisterSlot. pres. Qed.
Lemma RpcUnregisterSlot_preserves identifier : preserves (RpcUnregisterSlot identifier).
Proof. unfold RpcUnregisterSlot. pres. Qed.
Lemma RpcSignal_preserves now identifier recipient params : preserves (RpcSignal now identifier recipient params).
Proof. unfold RpcSignal. pres. Qed.

Lemma inv_options p incoming ad modes : peer_inv p -> 0 <= incoming <= m_remotesMax p - 1 ->
  head modes = Some UNORDERED /\ zlength modes <= 255 -> peer_inv (set_options incoming ad modes p).
Proof. now intros []. Qed.

Lemma SetMaximumIncomingPeers_preserves n : preserves (SetMaximumIncomingPeers n).
Proof.
  apply preserves_modify. intros p H. apply inv_options; [done| |exact (pi_channels _ H)]. pose proof (pi_max _ H).
  unfold GetMaximumPeers, u64. rewrite Z.mod_small by lia. lia.
Qed.
Lemma SetOfflineAdvertisement_preserves data : preserves (SetOfflineAdvertisement data).
Proof. intros p a p' H E. unfold SetOfflineAdvertisement in E. run_all. apply inv_options; [done|exact (pi_incoming _ H)|exact (pi_channels _ H)]. Qed.
Lemma DisableOfflineAdvertisement_preserves : preserves DisableOfflineAdvertisement.
Proof. intros p a p' H E. unfold DisableOfflineAdvertisement in E. run_all. apply inv_options; [done|exact (pi_incoming _ H)|exact (pi_channels _ H)]. Qed.
Lemma MakeChannel_preserves mode : preserves (MakeChannel mode).
Proof.
  intros p a p' H E. unfold MakeChannel in E. run_all; [|done]. destruct (pi_channels _ H) as [Hh Hl].
  apply inv_options; [done|exact (pi_incoming _ H)|]. unfold zlength in *. rewrite length_app. cbn. split; [|lia].
  destruct (m_channels p); [discriminate|exact Hh].
Qed.

(** ** The read path and the worker *)

Lemma add_stat_preserves i id n : preserves (add_stat i id n).
Proof. apply on_slot_preserves. intros r a r' E. run_all. frame_via. Qed.
Lemma notify_packet_preserves now i id : preserves (notify_packet now i id).
Proof. apply on_slot_preserves. intros r a r' E. run_step E. apply get_congestion_inv in E0. run_all. eapply frame_set_congestion. exact E0. Qed.
#[local] Hint Resolve add_stat_preserves notify_packet_preserves : preserve.

Lemma with_inbox_preserves i f : (forall modes l r l' r', f modes l r = Ret (l', r') -> frame r r') -> preserves (with_inbox i f).
Proof.
  intros F p a p' H E. unfold with_inbox, set_slot in E. run_step E. run_step E. apply slot_inv in E0 as [-> E0]. run_all.
  apply inv_inbox. eapply inv_slot_frame; eauto.
Qed.

Lemma split_preserves {A} i header inbuffer (k : BinaryStream -> PM A) : (forall s, preserves (k s)) ->
  preserves (p ← get; r ← slot i;
    '(inbox, r, inbuffer) ← lift (Queue_HandleSplitPacket (m_channels p) header (m_inbox p) r inbuffer);
    set_slot i r;; modify (set_inbox inbox);; k inbuffer).
Proof.
  intros Hk p a p' H E. unfold set_slot in E. run_step E. run_step E. apply slot_inv in E0 as [-> E0]. run_step E. run_step E1. destruct a1 as [[l r] s].
  run_step E. run_step E. run_step E2. run_step E3. eapply Hk; [|exact E]. apply inv_inbox. eapply inv_slot_frame; eauto using HandleSplitPacket_frame.
Qed.

Lemma packet_loop_preserves fuel : forall now i header inbuffer, i <> 0%nat -> preserves (packet_loop no_address fuel now i header inbuffer).
Proof.
  induction fuel as [|fuel IH]; intros now i header inbuffer Hi; cbn [packet_loop]; [pres|].
  apply preserves_bind; [pres|intros [[ok h] s]]. destruct (negb ok); [pres|]. apply preserves_bind; [pres|intros [|]].
  2: pres.
  apply preserves_bind; [pres|intros _]. destruct (_ || _); [apply split_preserves; intros; now apply IH|].
  pres. apply with_inbox_preserves. intros. eapply HandleIncomingPacket_frame. eassumption.
Qed.
#[local] Hint Resolve packet_loop_preserves : preserve.

Lemma read_connected_preserves now i header inbuffer : i <> 0%nat -> preserves (read_connected no_address now i header inbuffer).
Proof.
  intros Hi. unfold read_connected. pres; apply on_slot_preserves; intros r b r' E.
  all: run_step E; try (apply get_congestion_inv in E0); run_all; eauto using ack_frame, nak_frame, frame_set_congestion.
Qed.
#[local] Hint Resolve read_connected_preserves : preserve.

Lemma decrypt_input_preserves i inbuffer : preserves (decrypt_input i inbuffer).
Proof.
  intros p a p' H E. unfold decrypt_input in E. run_step E. run_step E. apply slot_inv in E0 as [-> E0]. run_all; try done.
  all: eapply inv_layer; eauto.
Qed.
#[local] Hint Resolve decrypt_input_preserves : preserve.

Lemma OnReadFinished_preserves asio now entropy error sender buffer :
  preserves (OnReadFinished no_address make_layer asio now entropy error sender buffer).
Proof.
  unfold OnReadFinished. apply preserves_get. intros p0. cbv zeta. destruct (GetRemoteByAddress sender p0) as [i|] eqn:Ei; [|pres].
  apply found_slot in Ei as [Hi _]. pres.
Qed.
Lemma OnWriteFinished_preserves now i error : preserves (OnWriteFinished no_address now i error).
Proof. unfold OnWriteFinished. pres. Qed.

Lemma DoReadCycle_preserves : preserves DoReadCycle.
Proof. intros p a p' H E. unfold DoReadCycle in E. run_all; [done|]. now apply inv_socket. Qed.
#[local] Hint Resolve DoReadCycle_preserves : preserve.

Lemma write_cycle_preserves now entropy i : preserves (write_cycle no_address now entropy i).
Proof.
  unfold write_cycle. pres.
  - apply on_slot_preserves. intros. eapply DoWriteCycle_frame. eassumption.
  - apply preserves_modify. intros p H. now apply inv_socket.
Qed.
#[local] Hint Resolve write_cycle_preserves : preserve.

Lemma worker_slot_preserves now entropy i : preserves (worker_slot no_address now entropy i).
Proof.
  unfold worker_slot. pres; apply on_slot_preserves; intros r a' r' E; run_all; eauto using update_congestion_frame, update_receipts_frame.
Qed.
#[local] Hint Resolve worker_slot_preserves : preserve.

Lemma worker_stage_preserves now entropy i s : preserves (worker_stage no_address now entropy i s).
Proof.
  destruct s; cbn [worker_stage]; pres; apply on_slot_preserves; intros r a' r' E; run_all; eauto using update_congestion_frame, update_receipts_frame.
Qed.

Lemma worker_slots_preserves now entropy l : preserves (worker_slots no_address now entropy l).
Proof. induction l; cbn [worker_slots]; pres. Qed.
Lemma worker_round_preserves now entropy : preserves (worker_round no_address now entropy).
Proof. unfold worker_round. apply preserves_get. intros p. apply worker_slots_preserves. Qed.

End Invariant.
