(* ===== verification/PeerEvents.v ===== *)
(** * PeerEvents: a peer under any sequence of calls and completions

    The interface of Peer (include/wirefox/PeerAbstract.h), the completions that
    the context of the socket runs and the rounds of the worker thread, as one type
    of events; the states that are reachable from the constructor; and that the
    invariant of the slot table holds in all of them. *)

From stdpp Require Import base tactics gmap sets list list_numbers numbers option.
From Stdlib Require Import ZArith Lia.
From S2P Require Import Prelude Memory BinaryStream StreamSpec StreamCodec Config PeerStats Packet Headers.
From S2P Require Import ChannelBuffer CongestionControl Reassembly ReceiptTracker RpcController Encryption Handshake Socket RemotePeer PacketQueue Peer PacketFlow PeerFrame PeerInvariant.

Open Scope Z_scope.

Section Events.
Context {host : Host} {sign : CharSign} {RemoteAddress : Type} {address_eq : EqDecision RemoteAddress} (no_address : RemoteAddress).
Context {crypto : Type} {layer : EncryptionLayer crypto} (make_layer : Z -> outcome crypto) {callback : Type}.

Abbreviation Peer := (Peer RemoteAddress crypto callback).
Abbreviation PM := (ST Peer).

Inductive event : Type :=
  | Ev_Bind (family : SocketProtocol) (port : Z)
  | Ev_Connect (hostname : list Z) (port : Z) (public_key : option (list Z))
  | Ev_Disconnect (who linger : Z)
  | Ev_DisconnectImmediate (who : Z)
  | Ev_Stop_begin (linger : Z)
  | Ev_Stop_end
  | Ev_Send (packet : Packet) (recipient options : Z) (channel : Channel)
  | Ev_SendLoopback (packet : Packet)
  | Ev_SendOutOfBand (packet : Packet) (a : RemoteAddress)
  | Ev_Receive
  | Ev_Ping (hostname : list Z) (port : Z)
  | Ev_PingLocalNetwork (port : Z)
  | Ev_SetMaximumIncomingPeers (incoming : Z)
  | Ev_SetEncryptionEnabled (made : outcome Keypair) (enabled : bool)
  | Ev_SetEncryptionIdentity (k : Keypair)
  | Ev_SetOfflineAdvertisement (data : BinaryStream)
  | Ev_DisableOfflineAdvertisement
  | Ev_MakeChannel (mode : ChannelMode)
  | Ev_RpcRegisterSlot (identifier : list Z) (fn : callback)
  | Ev_RpcUnregisterSlot (identifier : list Z)
  | Ev_RpcSignal (identifier : list Z) (recipient : Z) (params : BinaryStream)
  | Ev_connected                                                      (* the oldest posted handler *)
  | Ev_read (error : bool) (sender : RemoteAddress) (buffer : list cell)   (* async_receive_from *)
  | Ev_written (i : nat) (error : bool)                               (* async_send_to, for slot i *)
  | Ev_worker.                                                        (* one round of ThreadWorker *)

(** The results that the caller of an operation sees are dropped. *)
Definition unit_of {A} (m : PM A) : PM unit := _ ← m; mret tt.
Definition on_socket (f : SocketUDP RemoteAddress -> SocketUDP RemoteAddress) : PM unit := modify (fun p => set_socket (f (m_masterSocket p)) p).

Definition exec (asio : Asio RemoteAddress) (now entropy : Z) (e : event) : PM unit :=
  match e with
  | Ev_Bind family port => unit_of (Bind make_layer asio now family port)
  | Ev_Connect hostname port key => unit_of (Connect no_address make_layer asio now entropy hostname port key)
  | Ev_Disconnect who linger => Disconnect now who linger
  | Ev_DisconnectImmediate who => DisconnectImmediate_id no_address now who
  | Ev_Stop_begin linger => p ← get; Stop_begin now linger (slot_numbers p)
  | Ev_Stop_end => Stop_end no_address
  | Ev_Send packet recipient options channel => unit_of (Send now packet recipient options channel)
  | Ev_SendLoopback packet => SendLoopback packet
  | Ev_SendOutOfBand packet a => SendOutOfBand now packet a
  | Ev_Receive => unit_of Receive
  | Ev_Ping hostname port => Ping asio now hostname port
  | Ev_PingLocalNetwork port => PingLocalNetwork asio now port
  | Ev_SetMaximumIncomingPeers incoming => SetMaximumIncomingPeers incoming
  | Ev_SetEncryptionEnabled made enabled => SetEncryptionEnabled made enabled
  | Ev_SetEncryptionIdentity k => SetEncryptionIdentity k
  | Ev_SetOfflineAdvertisement data => SetOfflineAdvertisement data
  | Ev_DisableOfflineAdvertisement => DisableOfflineAdvertisement
  | Ev_MakeChannel mode => unit_of (MakeChannel mode)
  | Ev_RpcRegisterSlot identifier fn => RpcRegisterSlot identifier fn
  | Ev_RpcUnregisterSlot identifier => RpcUnregisterSlot identifier
  | Ev_RpcSignal identifier recipient params => RpcSignal now identifier recipient params
  | Ev_connected =>
      p ← get;
      let '(handler, s) := take_posted (m_masterSocket p) in
      put (set_socket s p);;
      match handler with Some (a, i) => connect_callback no_address now a i | None => mret tt end
  | Ev_read error sender buffer =>
      OnReadFinished no_address make_layer asio now entropy error sender buffer;; on_socket (read_done error)
  | Ev_written i error => on_socket write_done;; OnWriteFinished no_address now i error
  | Ev_worker => unit_of (worker_round no_address now entropy)
  end.

(** The states of a peer; asio, the clock and the generators answer as they like. *)
Inductive reachable : Peer -> Prop :=
  | reach_new rng maxPeers p : 0 <= maxPeers < 18446744073709551615 -> Peer_new no_address rng maxPeers = Ret p -> reachable p
  | reach_exec asio now entropy e p p' : reachable p -> exec asio now entropy e p = Ret (tt, p') -> reachable p'.

Lemma Peer_new_inv rng maxPeers (p : Peer) : 0 <= maxPeers < 18446744073709551615 -> Peer_new no_address rng maxPeers = Ret p -> peer_inv p.
Proof.
  intros Hm E. unfold Peer_new in E. run_all. unfold u64. rewrite Z.mod_small by lia. split; cbn; try done; try lia.
  - unfold zlength. rewrite length_replicate. lia.
  - intros i r [-> _]%lookup_replicate. split; cbn; try done. constructor.
  - intros r Hr. apply lookup_replicate in Hr as [-> _]. done.
  - intros h [? ?]. discriminate.
Qed.

Lemma unit_of_preserves {A} (m : PM A) : preserves m -> preserves (unit_of m).
Proof. intros H. apply preserves_bind; [done|intros]. apply preserves_ret. Qed.

Lemma on_socket_preserves f : (forall s, m_state (f s) = m_state s) -> preserves (on_socket f).
Proof. intros F. apply preserves_modify. intros p H. apply inv_socket; [done|now rewrite F]. Qed.

Lemma exec_preserves asio now entropy e : preserves (exec asio now entropy e).
Proof.
  destruct e; cbn [exec]; try apply unit_of_preserves.
  - apply Bind_preserves.
  - apply Connect_preserves.
  - apply Disconnect_preserves.
  - apply DisconnectImmediate_id_preserves.
  - apply preserves_get. intros p. apply Stop_begin_preserves.
  - apply Stop_end_preserves.
  - apply Send_preserves.
  - apply SendLoopback_preserves.
  - apply SendOutOfBand_preserves.
  - apply Receive_preserves.
  - apply Ping_preserves.
  - apply PingLocalNetwork_preserves.
  - apply SetMaximumIncomingPeers_preserves.
  - apply SetEncryptionEnabled_preserves.
  - apply SetEncryptionIdentity_preserves.
  - apply SetOfflineAdvertisement_preserves.
  - apply DisableOfflineAdvertisement_preserves.
  - apply MakeChannel_preserves.
  - apply RpcRegisterSlot_preserves.
  - apply RpcUnregisterSlot_preserves.
  - apply RpcSignal_preserves.
  - intros p a p' H E. run_step E. destruct (take_posted _) as [handler s] eqn:Et. run_step E. run_step E0.
    assert (H1 : peer_inv (set_socket s p)).
    { apply inv_socket; [done|]. unfold take_posted in Et. destruct (posted _); now injection Et as _ <-. }
    destruct handler as [[b i]|]; [eapply connect_callback_preserves; eauto|now run_all].
  - apply preserves_bind; [apply OnReadFinished_preserves|intros _]. apply on_socket_preserves. intros s. unfold read_done. now destruct (_ && _).
  - apply preserves_bind; [now apply on_socket_preserves|intros _]. apply OnWriteFinished_preserves.
  - apply worker_round_preserves.
Qed.

(** By induction on the events that led to the state. *)
Lemma reachable_inv p : reachable p -> peer_inv p.
Proof. induction 1; [eapply Peer_new_inv; eauto|eapply exec_preserves; eauto]. Qed.
End Events.
