(* ===== verification/Termination.v ===== *)
(** * Termination: every call returns

    The loop of OnReadFinished (source/PacketQueue.cpp) ends on any datagram,
    because every header that it reads moves the cursor forward in the memory of the
    datagram; and with the loops of the components, no operation of a peer, no
    completion handler and no round of the worker runs forever. *)

From stdpp Require Import base tactics gmap sets list list_numbers numbers option.
From Stdlib Require Import ZArith Lia.
From S2P Require Import Prelude Memory BinaryStream StreamSpec StreamCodec Config PeerStats Packet Headers.
From S2P Require Import ChannelBuffer CongestionControl Reassembly ReceiptTracker RpcController Encryption Handshake Socket RemotePeer PacketQueue Peer PacketFlow Halting PeerFrame PeerInvariant PeerEvents.

Open Scope Z_scope.

(** ** Reading moves forward *)

Abbreviation cursor_max := 18446744073709551615 (only parsing).

(** The cursor of s' is not behind that of s, and in the array if it moved. *)
Record forward (s s' : BinaryStream) : Prop := {
  fw_ro : deref_ro s' = deref_ro s;
  fw_pos : m_position s <= m_position s' <= Z.max (m_position s) (extent s);
}.

Lemma forward_extent s s' : forward s s' -> extent s' = extent s.
Proof. intros [E _]. unfold extent. now rewrite E. Qed.

#[export] Instance forward_refl : Reflexive forward.
Proof. split; [done|lia]. Qed.
#[export] Instance forward_trans : Transitive forward.
Proof.
  intros x y z Hxy Hyz. pose proof (forward_extent _ _ Hxy) as Ee. destruct Hxy as [E1 H1], Hyz as [E2 H2]. split; [congruence|lia].
Qed.

Lemma read_from_inside s off n l : read_from (deref_ro s) off n = Ret l -> n <> 0 -> 0 <= off /\ 0 < n /\ off + n <= extent s.
Proof.
  unfold read_from, extent, mem_read. destruct (Z.eqb_spec n 0); [done|]. intros E _. run_step E. rewrite E0.
  destruct (decide _); [lia|discriminate].
Qed.

(** Reading through m_buffer_ro after Align. *)
Lemma align_cursor s : m_position s < cursor_max -> 0 <= m_position s ->
  exists s1, Align s = Ret (tt, s1) /\ deref_ro s1 = deref_ro s /\ m_position s <= m_position s1 <= m_position s + 1.
Proof.
  intros Hm H0. eexists. split; [reflexivity|]. destruct (0 <? m_subBytePosition s); cbn; [|split; [done|lia]].
  split; [done|]. rewrite u64_small by lia. lia.
Qed.

Lemma ReadByte_forward s b s' : ReadByte s = Ret (b, s') -> 0 <= m_position s < cursor_max -> extent s < cursor_max -> forward s s'.
Proof.
  unfold ReadByte. intros E [H0 Hm] He. run_step E. run_step E; [run_step E; reflexivity|]. destruct (align_cursor s Hm H0) as (s1 & Ea & Er & Hp).
  rewrite (bind_ret _ _ _ _ _ Ea) in E. run_all. apply read_from_inside in E0 as (Ho & _ & Hl); [|done].
  assert (Ee : extent s1 = extent s) by (unfold extent; now rewrite Er). split; [exact Er|]. cbn. rewrite u64_small by lia. lia.
Qed.

Lemma ReadBytes_forward n s o s' : ReadBytes n s = Ret (o, s') -> n <> 0 -> 0 <= m_position s < cursor_max -> extent s < cursor_max ->
  forward s s' /\ (o <> None -> m_position s + n <= m_position s').
Proof.
  unfold ReadBytes. intros E Hn [H0 Hm] He. run_step E. run_step E; [run_step E; split; [reflexivity|done]|]. destruct (align_cursor s Hm H0) as (s1 & Ea & Er & Hp).
  rewrite (bind_ret _ _ _ _ _ Ea) in E. run_all. apply read_from_inside in E0 as (Ho & Hn' & Hl); [|done].
  assert (Ee : extent s1 = extent s) by (unfold extent; now rewrite Er).
  split; [split; [exact Er|]|intros _]; cbn; rewrite u64_small by lia; lia.
Qed.

(** The state in which a read may start. *)
Definition readable (s : BinaryStream) : Prop := 0 <= m_position s < cursor_max /\ extent s < cursor_max.

Lemma forward_readable s s' : forward s s' -> readable s -> readable s'.
Proof. intros F [H1 H2]. pose proof (forward_extent _ _ F). destruct F as [_ H3]. unfold readable. lia. Qed.

(** An operation that reads and moves the cursor forward. *)
Definition advances {A} (m : SM A) : Prop := forall s a s', readable s -> m s = Ret (a, s') -> forward s s'.

Lemma advances_ret {A} (a : A) : advances (mret a).
Proof. intros s b s' _ E. run_step E. reflexivity. Qed.
Lemma advances_fail {A} f : advances (A := A) (fail f).
Proof. discriminate 2. Qed.
Lemma advances_lift {A} (o : outcome A) : advances (lift o).
Proof. intros s b s' _ E. run_step E. reflexivity. Qed.
Lemma advances_get {A} (k : BinaryStream -> SM A) : (forall s0, advances (k s0)) -> advances (get ≫= k).
Proof. intros Hk s a s' H E. run_step E. eapply Hk; eauto. Qed.
Lemma advances_bind {A B} (m : SM A) (k : A -> SM B) : advances m -> (forall a, advances (k a)) -> advances (m ≫= k).
Proof.
  intros Hm Hk s b s' H E. run_step E. apply Hm in E0; [|done]. etransitivity; [exact E0|]. eapply Hk; [|exact E]. eapply forward_readable; eauto.
Qed.

Create HintDb advances.
#[export] Hint Constants Opaque : advances.
Ltac advancing := repeat
  lazymatch goal with
  | |- advances (mret _) => apply advances_ret
  | |- advances (fail _) => apply advances_fail
  | |- advances (lift _) => apply advances_lift
  | |- advances (get ≫= _) => apply advances_get; intros ?
  | |- advances (_ ≫= _) => apply advances_bind; [|intros ?]
  | |- advances (match ?x with _ => _ end) => destruct x
  | |- advances _ => solve [auto with advances nocore]
  end.

Section Reading.
Context {host : Host}.

Lemma ReadByte_advances : advances ReadByte.
Proof. intros s b s' [H1 H2] E. now apply (ReadByte_forward s b s'). Qed.
Lemma ReadBool_advances : advances ReadBool.
Proof.
  unfold ReadBool. intros s b s' [H1 H2] E. run_step E. run_step E; [run_step E; reflexivity|]. run_all.
  apply read_from_inside in E0 as (Ho & _ & Hl); [|done]. split; [now destruct (7 <? _)|]. destruct (7 <? _); cbn; [rewrite u64_small by lia|]; lia.
Qed.
Lemma read_object_forward n s v s' : readable s -> n <> O -> read_object n s = Ret (v, s') -> forward s s' /\ m_position s + Z.of_nat n <= m_position s'.
Proof.
  intros [H1 H2] Hn E. unfold read_object in E. run_step E. destruct (ReadBytes_forward _ _ _ _ E0 ltac:(lia) H1 H2) as [F Hp].
  destruct a as [cs|]; [|discriminate]. run_all. split; [exact F|]. apply Hp. discriminate.
Qed.
Lemma ReadUInt32_forward s v s' : readable s -> ReadUInt32 s = Ret (v, s') -> forward s s' /\ m_position s + 4 <= m_position s'.
Proof. intros H E. unfold ReadUInt32 in E. run_step E. run_step E. now apply (read_object_forward 4 s a s'). Qed.
Lemma ReadUInt32_advances : advances ReadUInt32.
Proof. intros s v s' H E. now apply ReadUInt32_forward in E. Qed.
Lemma ReadUInt16_advances : advances ReadUInt16.
Proof. intros s v s' H E. unfold ReadUInt16 in E. run_step E. run_step E. now apply (read_object_forward 2 s a s') in E0. Qed.
#[local] Hint Resolve ReadByte_advances ReadBool_advances ReadUInt32_advances ReadUInt16_advances : advances.

Lemma read_ids_advances n : advances (read_ids n).
Proof. induction n; cbn [read_ids]; advancing. Qed.
#[local] Hint Resolve read_ids_advances : advances.
Lemma DatagramHeader_advances h : advances (DatagramHeader_Deserialize h).
Proof. unfold DatagramHeader_Deserialize, read_id_list. advancing. Qed.

(** What is read as an unsigned integer is not negative. *)
Lemma read_uint_nonneg n s v s' : (x ← read_object n; mret (ntoh n x)) s = Ret (v, s') -> 0 <= v.
Proof.
  unfold read_object. intros E. run_all. unfold ntoh, bswap, object_val. destruct little_endian; apply be_val_range.
Qed.

(** A packet header that was read took at least the four bytes of the ID, and they
    are in the array. *)
Lemma PacketHeader_progress h s h' s' : readable s -> PacketHeader_Deserialize h s = Ret (true, h', s') ->
  forward s s' /\ m_position s + 4 <= m_position s' /\ 0 <= ph_length h' <= PACKET_MAX_LENGTH.
Proof.
  unfold PacketHeader_Deserialize. intros H E. run_step E. run_step E.
  apply bind_inv in E as (seg & s1 & E1 & E). apply bind_inv in E as (jumbo & s2 & E2 & E). apply bind_inv in E as (id & s3 & E3 & E).
  pose proof (ReadBool_advances _ _ _ H E1) as F1. assert (H1 : readable s1) by (eapply forward_readable; eauto).
  pose proof (ReadBool_advances _ _ _ H1 E2) as F2. assert (H2 : readable s2) by (eapply forward_readable; eauto).
  destruct (ReadUInt32_forward _ _ _ H2 E3) as [F3 P3]. assert (H3 : readable s3) by (eapply forward_readable; eauto).
  assert (F4 : forward s3 s').
  { revert E. match goal with |- ?m _ = _ -> _ => enough (L : advances m) by (intros E; eapply L; eauto) end. advancing. }
  split; [do 3 (etransitivity; [eassumption|]); exact F4|]. split; [destruct F1, F2, F4; lia|].
  clear -E. unfold ReadUInt32, ReadUInt16 in E. run_step E. run_step E. run_step E. run_step E. run_step E.
  assert (Hl : forall j s v s', (if j : bool then x ← read_object 4; mret (ntoh 4 x) else x ← read_object 2; mret (ntoh 2 x)) s = Ret (v, s') -> 0 <= v)
    by (intros [|]; intros *; apply read_uint_nonneg).
  apply bind_inv in E as (len & s4 & E4 & E). apply Hl in E4. run_all; cbn; lia.
Qed.
End Reading.

(** ** The loop over the packets of a datagram *)

(** The cursor is not far behind the end of an array that fits the address space. *)
Definition in_loop (s : BinaryStream) : Prop := 0 <= m_position s <= extent s + PACKET_MAX_LENGTH + 1 /\ extent s < 9223372036854775808.

Lemma in_loop_readable s : in_loop s -> readable s.
Proof. unfold in_loop, readable, PACKET_MAX_LENGTH. lia. Qed.
Lemma fresh_in_loop s : fresh_stream s -> in_loop s.
Proof. intros [Hp He]. assert (0 <= extent s) by (unfold extent; destruct (deref_ro s); [apply zlength_nonneg|lia]). unfold in_loop, PACKET_MAX_LENGTH. lia. Qed.

(** What a round may do behind the header. *)
Definition moves (s s' : BinaryStream) : Prop :=
  extent s' = extent s /\ m_position s <= m_position s' <= Z.max (m_position s) (extent s) + PACKET_MAX_LENGTH + 1.

Lemma Skip_moves n s b s' : 0 <= m_position s < 9223372036854775808 -> 0 <= n < 9223372036854775808 -> Skip n s = Ret (b, s') ->
  extent s' = extent s /\ m_position s <= m_position s' <= m_position s + n.
Proof. unfold Skip. intros Hp Hn E. run_all; (split; [done|]); cbn; [lia|]. rewrite u64_small by lia. lia. Qed.

Section Round.
Context {host : Host}.

Lemma CopyFrom_inside l off c d : CopyFrom (Ret l) off c = Ret d -> c = 0 \/ c < 9223372036854775808 /\ off + c <= zlength l.
Proof.
  unfold CopyFrom, alloc, mem_read. destruct (Z.eqb_spec c 0); [now left|right]. destruct (Z.ltb_spec c 9223372036854775808); [|discriminate].
  cbn [mbind outcome_bind] in *. destruct (decide _); [lia|discriminate].
Qed.

Lemma FromDatagram_moves sender n s p s' l : readable s -> extent s < 9223372036854775808 -> m_position s <= extent s -> deref_ro s = Ret l ->
  FromDatagram sender n s = Ret (p, s') -> moves s s'.
Proof.
  unfold FromDatagram. intros Hr He Hp Hl E. apply bind_inv in E as (cmd & s1 & E1 & E). pose proof (ReadByte_advances _ _ _ Hr E1) as F.
  pose proof (forward_extent _ _ F) as Ee. destruct F as [Fr Fp]. rewrite bind_get in E. apply bind_inv in E as (d & s2 & E2 & E). run_step E2.
  apply bind_inv in E as (b & s3 & E3 & E). run_step E. rewrite Fr, Hl in E2. apply CopyFrom_inside in E2.
  assert (Ez : zlength l = extent s) by (unfold extent; now rewrite Hl). pose proof (u64_range (n - 1)). destruct Hr as [Hr _].
  apply Skip_moves in E3 as [E4 E5]; [|lia..]. unfold moves, PACKET_MAX_LENGTH. lia.
Qed.

Lemma ReadBytes_moves n s o s' : readable s -> ReadBytes n s = Ret (o, s') -> moves s s'.
Proof.
  intros Hr E. destruct (Z.eq_dec n 0) as [->|Hn].
  2:{ destruct Hr as [H1 H2]. destruct (ReadBytes_forward _ _ _ _ E Hn H1 H2) as [F _]. pose proof (forward_extent _ _ F). destruct F. unfold moves, PACKET_MAX_LENGTH. lia. }
  unfold ReadBytes in E. run_step E. destruct Hr as [H1 H2]. run_step E; [run_step E; unfold moves, PACKET_MAX_LENGTH; lia|].
  destruct (align_cursor s ltac:(lia) ltac:(lia)) as (s1 & Ea & Er & Hp). rewrite (bind_ret _ _ _ _ _ Ea) in E. run_all.
  assert (Ee : extent s1 = extent s) by (unfold extent; now rewrite Er). split; [exact Ee|]. cbn.
  unfold u64. unfold PACKET_MAX_LENGTH. rewrite Z.add_0_r, Z.mod_small; lia.
Qed.

Lemma HandleSplitPacket_moves sender h rb s x s' : readable s -> HandleSplitPacket sender h rb s = Ret (x, s') -> moves s s'.
Proof.
  unfold HandleSplitPacket, Insert. intros Hr E. run_all; eapply ReadBytes_moves; eassumption.
Qed.
End Round.

(** ** The operations of a peer *)

Section PeerHalts.
Context {host : Host} {sign : CharSign} {RemoteAddress : Type} {address_eq : EqDecision RemoteAddress} (no_address : RemoteAddress).
Context {crypto : Type} {layer : EncryptionLayer crypto} {halting_layer : HaltingLayer crypto} (make_layer : Z -> outcome crypto) {callback : Type}.
Hypothesis (make_layer_halts : forall entropy, halts (make_layer entropy)).

Abbreviation Peer := (Peer RemoteAddress crypto callback).
Abbreviation RemotePeer := (RemotePeer RemoteAddress).
Abbreviation PM := (ST Peer).

Lemma slot_halts i (p : Peer) : halts (slot i p).
Proof. unfold slot. halting. Qed.
Lemma set_slot_halts i r (p : Peer) : halts (set_slot i r p).
Proof. apply halts_ret. Qed.
#[local] Hint Resolve slot_halts set_slot_halts : halts.
Lemma reset_slot_halts i (p : Peer) : halts (reset_slot no_address i p).
Proof. unfold reset_slot. halting. Qed.
Lemma GetRemoteByID_halts id (p : Peer) : halts (GetRemoteByID id p).
Proof. unfold GetRemoteByID. halting. Qed.
Lemma on_slot_halts {A} i (f : RemotePeer -> outcome (A * RemotePeer)) (p : Peer) :
  (forall r, m_remotes p !! i = Some r -> halts (f r)) -> halts (on_slot i f p).
Proof. intros Hf. unfold on_slot. halting. apply Hf. now apply slot_inv in H as [_ ?]. Qed.
Lemma SendLoopback_halts packet (p : Peer) : halts (SendLoopback packet p).
Proof. unfold SendLoopback. halting. Qed.
#[local] Hint Resolve reset_slot_halts GetRemoteByID_halts SendLoopback_halts : halts.
Ltac on_slot_halting := apply on_slot_halts; intros ? ?; halting.

Lemma Queue_OutOfBand_halts now packet a h (p : Peer) : halts (Queue_OutOfBand now packet a h p).
Proof. unfold Queue_OutOfBand. on_slot_halting. Qed.
Lemma command_packet_halts cmd (p : Peer) : halts (command_packet cmd p).
Proof. unfold command_packet, Packet_from_buffer. halting. apply CopyFrom_halts. discriminate. Qed.
#[local] Hint Resolve Queue_OutOfBand_halts command_packet_halts : halts.
Lemma SendOutOfBand_halts now packet a (p : Peer) : halts (SendOutOfBand now packet a p).
Proof. apply Queue_OutOfBand_halts. Qed.
Lemma OnMessageReceipt_halts r (p : Peer) : halts (OnMessageReceipt r p).
Proof. unfold OnMessageReceipt. halting. Qed.
#[local] Hint Resolve SendOutOfBand_halts OnMessageReceipt_halts : halts.
Lemma post_receipts_halts rs : forall p : Peer, halts (post_receipts rs p).
Proof. induction rs; intros; cbn [post_receipts]; halting. Qed.
#[local] Hint Resolve post_receipts_halts : halts.

Lemma SendHandshakePart_halts now i s b (p : Peer) : halts (SendHandshakePart now i s b p).
Proof. unfold SendHandshakePart. halting. Qed.
Lemma SendHandshakeCompleteNotification_halts i n (p : Peer) : halts (SendHandshakeCompleteNotification no_address i n p).
Proof. unfold SendHandshakeCompleteNotification. halting. Qed.
#[local] Hint Resolve SendHandshakePart_halts SendHandshakeCompleteNotification_halts : halts.
Lemma run_effects_halts now i es : forall p : Peer, halts (run_effects no_address now i es p).
Proof. induction es; intros; cbn [run_effects]; halting. Qed.
#[local] Hint Resolve run_effects_halts : halts.
Lemma with_handshake_halts now i m (p : Peer) : (forall cfg s, halts (m cfg s)) -> halts (with_handshake no_address now i m p).
Proof. intros Hm. unfold with_handshake. halting. Qed.
Lemma looked_up_halts packet : halts (looked_up packet).
Proof. unfold looked_up. halting. Qed.
#[local] Hint Resolve with_handshake_halts looked_up_halts : halts.
Lemma handle_handshake_halts now entropy i packet (p : Peer) : halts (handle_handshake no_address now entropy i packet p).
Proof. unfold handle_handshake. halting. Qed.
#[local] Hint Resolve handle_handshake_halts : halts.

Lemma OnDisconnect_halts i cmd (p : Peer) : halts (OnDisconnect i cmd p).
Proof. unfold OnDisconnect. halting. Qed.
#[local] Hint Resolve OnDisconnect_halts : halts.
Lemma DisconnectImmediate_halts now i (p : Peer) : halts (DisconnectImmediate no_address now i p).
Proof. unfold DisconnectImmediate. halting. Qed.
#[local] Hint Resolve DisconnectImmediate_halts : halts.
Lemma DisconnectImmediate_id_halts now who (p : Peer) : halts (DisconnectImmediate_id no_address now who p).
Proof. unfold DisconnectImmediate_id. halting. Qed.
Lemma enqueue_halts now modes packet options channel i (p : Peer) : halts (on_slot i (EnqueueOutgoing now modes packet options channel) p).
Proof. on_slot_halting. Qed.
#[local] Hint Resolve enqueue_halts : halts.
Lemma Disconnect_halts now who linger (p : Peer) : halts (Disconnect now who linger p).
Proof. unfold Disconnect. halting. on_slot_halting. Qed.
#[local] Hint Resolve Disconnect_halts : halts.
Lemma Stop_begin_halts now linger l : forall p : Peer, halts (Stop_begin now linger l p).
Proof. induction l; intros; cbn [Stop_begin]; halting. Qed.
Lemma reset_slots_halts l : forall p : Peer, halts (reset_slots no_address l p).
Proof. induction l; intros; cbn [reset_slots]; halting. Qed.
#[local] Hint Resolve reset_slots_halts : halts.
Lemma Stop_end_halts (p : Peer) : halts (Stop_end no_address p).
Proof. unfold Stop_end. halting. Qed.

Lemma setup_slot_halts now entropy i origin (p : Peer) : halts (setup_slot make_layer now entropy i origin p).
Proof. unfold setup_slot. halting. Qed.
#[local] Hint Resolve setup_slot_halts : halts.
Lemma Socket_Bind_halts asio family port (s : SocketUDP RemoteAddress) : halts (Socket_Bind asio family port s).
Proof. unfold Socket_Bind. halting. Qed.
#[local] Hint Resolve Socket_Bind_halts : halts.
Lemma Bind_halts asio now family port (p : Peer) : halts (Bind make_layer asio now family port p).
Proof. unfold Bind. halting. Qed.
Lemma expect_identity_halts i key (p : Peer) : halts (expect_identity i key p).
Proof. unfold expect_identity. halting. Qed.
#[local] Hint Resolve expect_identity_halts : halts.
Lemma Connect_halts asio now entropy hostname port key (p : Peer) : halts (Connect no_address make_layer asio now entropy hostname port key p).
Proof. unfold Connect. halting. Qed.
Lemma connect_callback_halts now a i (p : Peer) : halts (connect_callback no_address now a i p).
Proof. unfold connect_callback. halting. Qed.
Lemma SendRejectionReply_halts now a reason (p : Peer) : halts (SendRejectionReply now a reason p).
Proof. unfold SendRejectionReply. halting. Qed.
#[local] Hint Resolve SendRejectionReply_halts : halts.
Lemma OnNewIncomingPeer_halts now entropy a packet (p : Peer) : halts (OnNewIncomingPeer no_address make_layer now entropy a packet p).
Proof. unfold OnNewIncomingPeer. halting. Qed.
#[local] Hint Resolve OnNewIncomingPeer_halts : halts.
Lemma Send_halts now packet recipient options channel (p : Peer) : halts (Send now packet recipient options channel p).
Proof. unfold Send. halting. Qed.
#[local] Hint Resolve Send_halts : halts.
Lemma Ping_halts asio now hostname port (p : Peer) : halts (Ping asio now hostname port p).
Proof. unfold Ping. halting. Qed.
Lemma OnSystemPacket_halts now i packet (p : Peer) : halts (OnSystemPacket no_address now i packet p).
Proof. unfold OnSystemPacket. halting. Qed.
#[local] Hint Resolve OnSystemPacket_halts : halts.
Lemma OnUnconnectedMessage_halts asio now entropy a s (p : Peer) : halts (OnUnconnectedMessage no_address make_layer asio now entropy a s p).
Proof. unfold OnUnconnectedMessage. halting. Qed.
#[local] Hint Resolve OnUnconnectedMessage_halts : halts.
Lemma OnUnconnectedMessage_raw_halts asio now entropy a msg (p : Peer) : halts (OnUnconnectedMessage_raw no_address make_layer asio now entropy a msg p).
Proof. unfold OnUnconnectedMessage_raw. halting. Qed.
#[local] Hint Resolve OnUnconnectedMessage_raw_halts : halts.
Lemma rpc_packet_halts identifier params : halts (rpc_packet identifier params).
Proof. unfold rpc_packet. halting. Qed.
#[local] Hint Resolve rpc_packet_halts : halts.
Lemma RpcSignal_halts now identifier recipient params (p : Peer) : halts (RpcSignal now identifier recipient params p).
Proof. unfold RpcSignal. halting. Qed.

(** *** The read path *)

Lemma add_stat_halts i id n (p : Peer) : halts (add_stat i id n p).
Proof. unfold add_stat. on_slot_halting. Qed.
Lemma notify_packet_halts now i id (p : Peer) : halts (notify_packet now i id p).
Proof. unfold notify_packet. on_slot_halting. Qed.
Lemma with_inbox_halts i f (p : Peer) : (forall modes l r, halts (f modes l r)) -> halts (with_inbox i f p).
Proof. intros Hf. unfold with_inbox. halting. Qed.
#[local] Hint Resolve add_stat_halts notify_packet_halts with_inbox_halts : halts.

(** A round that goes on has a header behind it, so there is less to read. *)
Lemma packet_loop_halts fuel : forall now i h s (p : Peer), in_loop s -> (1 <= fuel)%nat -> extent s - m_position s < Z.of_nat fuel ->
  halts (packet_loop no_address fuel now i h s p).
Proof.
  induction fuel as [|fuel IH]; intros now i h s p Hs H1 Hf; [lia|]. cbn [packet_loop]. halts_step; [halting|]. destruct a as [[ok h'] s1].
  destruct ok; cbn [negb]; [|halting]. run_step H.
  destruct (PacketHeader_progress h s h' s1 (in_loop_readable _ Hs) H) as (F & Hp & Hl).
  assert (Hr : readable s1) by (eapply forward_readable; [exact F|now apply in_loop_readable]).
  pose proof (forward_extent _ _ F) as Ee. pose proof (fw_pos _ _ F) as Fp. destruct Hs as [Hs1 Hs2].
  assert (Hin : m_position s1 <= extent s) by lia.
  assert (Hnext : forall s2 (p2 : Peer) i2 h2, moves s1 s2 -> halts (packet_loop no_address fuel now i2 h2 s2 p2)).
  { intros s2 p2 i2 h2 [E2 M2]. apply IH; [|lia|lia]. unfold in_loop. lia. }
  assert (Hd : exists l, deref_ro s1 = Ret l).
  { unfold extent in *. destruct (deref_ro s1) as [l|] eqn:Ed; [eauto|]. rewrite <- Ee in *. lia. }
  destruct Hd as [l Hd]. halts_step; [halting|]. destruct a.
  - halts_step; [halting|]. halts_step.
    + halts_step; [halting|]. halts_step; [halting|]. halts_step; [halting|]. destruct a2 as [[inbox r'] s2]. halting. apply Hnext.
      unfold Queue_HandleSplitPacket in *. run_all; eapply HandleSplitPacket_moves; eassumption.
    + halting. apply Hnext. match goal with HF : lift (FromDatagram _ _ _) _ = Ret _ |- _ => run_step HF end.
      eapply FromDatagram_moves; try eassumption; lia.
  - halting. apply Hnext. destruct Hr as [Hr _].
    match goal with HS : lift (Skip _ _) _ = Ret _ |- _ => run_step HS; apply Skip_moves in HS as [E2 M2] end; [|unfold PACKET_MAX_LENGTH in *; lia..].
    unfold moves, PACKET_MAX_LENGTH in *. lia.
Qed.

Lemma read_connected_halts now i h s (p : Peer) : in_loop s -> halts (read_connected no_address now i h s p).
Proof.
  intros Hs. unfold read_connected. halting; try on_slot_halting. all: apply packet_loop_halts; [done|unfold loop_fuel; lia|].
  all: destruct Hs as [Hs _]; unfold loop_fuel; lia.
Qed.

Lemma decrypt_input_halts i s (p : Peer) : halts (decrypt_input i s p).
Proof. unfold decrypt_input. halting. Qed.
Lemma decrypt_input_fresh i s (p : Peer) s' p' : decrypt_input i s p = Ret (Some s', p') -> fresh_stream s -> fresh_stream s'.
Proof.
  unfold decrypt_input. intros E H. run_all; try done.
  match goal with Ei : (if ?b then None else Some _) = Some _ |- _ => destruct b; [discriminate Ei|injection Ei as <-] end. eapply hl_plain; eassumption.
Qed.
#[local] Hint Resolve decrypt_input_halts : halts.

Lemma header_in_loop h s x s' : fresh_stream s -> DatagramHeader_Deserialize h s = Ret (x, s') -> in_loop s'.
Proof.
  intros H E. pose proof (fresh_in_loop _ H) as Hl. apply DatagramHeader_advances in E; [|now apply in_loop_readable].
  pose proof (forward_extent _ _ E). destruct E as [_ Hp]. unfold in_loop, PACKET_MAX_LENGTH in *. lia.
Qed.

Lemma OnReadFinished_halts asio now entropy error sender buffer (p : Peer) : zlength buffer < 9223372036854775808 ->
  halts (OnReadFinished no_address make_layer asio now entropy error sender buffer p).
Proof.
  intros Hb. unfold OnReadFinished. halting.
  all: apply read_connected_halts.
  match goal with HD : lift (DatagramHeader_Deserialize _ _) _ = Ret _ |- _ => run_step HD; eapply header_in_loop; [|exact HD] end.
  eapply decrypt_input_fresh; [eassumption|].
  match goal with HW : lift (BinaryStream_wrap _ _ _) _ = Ret _ |- _ => run_step HW; injection HW as <- end. split; [done|exact Hb].
Qed.

(** *** The worker *)

(** From every state in which the invariant holds. *)
Definition halts_from {A} (m : PM A) : Prop := forall p, peer_inv p -> halts (m p).

Lemma write_cycle_halts now entropy i : halts_from (write_cycle no_address now entropy i).
Proof.
  intros p Hp. unfold write_cycle. halts_step; [halting|]. run_step H. halts_step.
  - apply on_slot_halts. intros r Hr. apply DoWriteCycle_halts. exact (so_blobs _ _ (pi_slots _ Hp _ _ Hr)).
  - halting.
Qed.

Lemma DoReadCycle_halts (p : Peer) : halts (DoReadCycle p).
Proof. unfold DoReadCycle. halting. Qed.

Lemma halts_from_bind {A B} (m : PM A) (k : A -> PM B) : halts_from m -> preserves m -> (forall a, halts_from (k a)) -> halts_from (m ≫= k).
Proof. intros Hm Pm Hk p Hp. apply halts_bind; [now apply Hm|]. intros a p' E. apply Hk. eapply Pm; eauto. Qed.
Lemma halts_from_any {A} (m : PM A) : (forall p, halts (m p)) -> halts_from m.
Proof. intros H p _. apply H. Qed.

Lemma update_congestion_preserves now i : preserves (on_slot (callback := callback) (crypto := crypto) i (fun r : RemotePeer => mret (tt, update_congestion now r))).
Proof. apply on_slot_preserves. intros r a r' E. run_all. apply update_congestion_frame. Qed.
Lemma update_receipts_preserves now i : preserves (on_slot (callback := callback) (crypto := crypto) i (fun r : RemotePeer => mret (update_receipts now r))).
Proof. apply on_slot_preserves. intros r a r' E. run_all. eapply update_receipts_frame. eassumption. Qed.

Lemma worker_slot_halts now entropy i : halts_from (worker_slot no_address now entropy i).
Proof.
  unfold worker_slot. apply halts_from_bind; [apply halts_from_any, slot_halts|apply slot_preserves|intros r]. destruct (negb (active r)); [apply halts_from_any; intros; halting|].
  apply halts_from_bind; [apply halts_from_any; intros p; halting| |intros _].
  { destruct (handshake r) as [h|]; [destruct (IsDone h)|]; try apply preserves_ret. apply with_handshake_preserves. }
  apply halts_from_bind; [apply halts_from_any; intros p; on_slot_halting|apply update_congestion_preserves|intros _].
  apply halts_from_bind; [apply halts_from_any; intros p; on_slot_halting|apply update_receipts_preserves|intros rs].
  apply halts_from_bind; [apply halts_from_any, post_receipts_halts|apply post_receipts_preserves|intros _].
  apply halts_from_bind; [apply halts_from_any, slot_halts|apply slot_preserves|intros r'].
  destruct (Timestamp_IsValid (disconnect r') && _); [apply halts_from_any; intros; halting|].
  intros p Hp. rewrite bind_get. destruct (negb _ || _); [halting|]. revert p Hp. apply halts_from_bind; [apply halts_from_any, DoReadCycle_halts|apply DoReadCycle_preserves|intros _].
  apply halts_from_bind; [apply write_cycle_halts|apply write_cycle_preserves|intros _]. apply halts_from_any. intros. halting.
Qed.

Lemma worker_stage_halts now entropy i s : halts_from (worker_stage no_address now entropy i s).
Proof.
  destruct s; cbn [worker_stage].
  7: { apply halts_from_bind; [apply write_cycle_halts|apply write_cycle_preserves|intros _]. apply halts_from_any. intros. halting. }
  6: { apply halts_from_any. intros p. halts_step; [apply slot_halts|]. rewrite bind_get. destruct (negb _ || _); halting; apply DoReadCycle_halts. }
  all: apply halts_from_any; intros p; halting; try on_slot_halting.
Qed.

Lemma worker_slots_halts now entropy l : halts_from (worker_slots no_address now entropy l).
Proof.
  induction l as [|i l IH]; cbn [worker_slots]; [apply halts_from_any; intros; halting|].
  apply halts_from_bind; [apply worker_slot_halts|apply worker_slot_preserves|intros [|]]; [apply halts_from_any; intros; halting|exact IH].
Qed.

Lemma worker_round_halts now entropy : halts_from (worker_round no_address now entropy).
Proof. intros p Hp. unfold worker_round. rewrite bind_get. now apply worker_slots_halts. Qed.

(** ** Every step *)

(** What is given to the peer from outside: a datagram that fits memory, and a key
    generator that returns. *)
Definition event_ok (e : event (RemoteAddress := RemoteAddress) (callback := callback)) : Prop :=
  match e with
  | Ev_read _ _ buffer => zlength buffer < 9223372036854775808
  | Ev_SetEncryptionEnabled made _ => halts made
  | _ => True
  end.

#[local] Hint Resolve Bind_halts Connect_halts DisconnectImmediate_id_halts Stop_begin_halts Stop_end_halts Ping_halts RpcSignal_halts connect_callback_halts : halts.

Lemma exec_halts asio now entropy e : event_ok e -> halts_from (exec no_address make_layer asio now entropy e).
Proof.
  intros He p Hp. destruct e; cbn [exec event_ok] in *; unfold unit_of, on_socket, Receive, PingLocalNetwork, SetMaximumIncomingPeers, SetEncryptionEnabled,
    SetEncryptionIdentity, SetOfflineAdvertisement, DisableOfflineAdvertisement, MakeChannel, RpcRegisterSlot, RpcUnregisterSlot, OnWriteFinished; halting.
  - now apply OnReadFinished_halts.
  - now apply worker_round_halts.
Qed.
End PeerHalts.

(** C7: every call returns.  In every state that a peer can reach, every operation of
    the interface, every completion handler and every round of the worker comes to
    an end, with a result or with one of the faults of the language: the loop over the
    packets of a datagram whatever bytes a datagram holds, the loop that fills a
    datagram whatever is in the outbox, and the walk over the split packets whatever
    is acknowledged. *)
Theorem every_call_returns {host : Host} {sign : CharSign} {RemoteAddress : Type} {address_eq : EqDecision RemoteAddress} (no_address : RemoteAddress)
    {crypto : Type} {layer : EncryptionLayer crypto} {halting_layer : HaltingLayer crypto} make_layer {callback : Type}
    asio now entropy e (p : Peer RemoteAddress crypto callback) :
  (forall entropy, halts (make_layer entropy)) -> reachable no_address make_layer p -> event_ok e ->
  (exists p', exec no_address make_layer asio now entropy e p = Ret (tt, p')) \/
  (exists f, exec no_address make_layer asio now entropy e p = Fail f /\ f <> OutOfFuel).
Proof.
  intros Hm Hr He. pose proof (exec_halts no_address make_layer Hm asio now entropy e He p (reachable_inv no_address make_layer p Hr)) as H.
  destruct (exec no_address make_layer asio now entropy e p) as [[[] p']|f]; [eauto|]. right. exists f. split; [done|]. intros ->. now apply H.
Qed.

(** ** Witness *)

#[local] Instance demo_host : Host := {| little_endian := true; or_left_first := true |}.
#[local] Instance demo_sign : CharSign := {| char_signed := true |}.

(** A peer with the layer of libsodium gets a datagram that is not one. *)
Lemma every_call_returns_witness : let sodium := model_sodium in
  let asio := mkAsio (fun _ _ _ => Some [5]) (fun _ _ => Bound) (fun _ => []) in
  exists p : Peer Z EncryptionLayerSodium unit, Peer_new 0 [7] 3 = Ret p /\
  let e := Ev_read false 5 (map Some [255; 255; 255]) in
  ((exists p', exec 0 EncryptionLayerSodium_new asio 100 0 e p = Ret (tt, p')) \/
   (exists f, exec 0 EncryptionLayerSodium_new asio 100 0 e p = Fail f /\ f <> OutOfFuel)).
Proof.
  intros sodium asio. destruct (Peer_new 0 [7] 3) as [p|] eqn:E; [|vm_compute in E; discriminate]. exists p. split; [done|]. intros e.
  apply (every_call_returns 0 EncryptionLayerSodium_new asio 100 0 e p).
  - exact EncryptionLayerSodium_new_halts.
  - apply (reach_new _ _ [7] 3); [lia|exact E].
  - reflexivity.
Defined.
