(* ===== verification/Delivery.v ===== *)
(** * Delivery: from a datagram on the wire to the inbox

    An abstract receiver, which works on messages instead of bytes, and the proof
    that OnReadFinished (source/PacketQueue.cpp), with the parsers, the duplicate
    checks, the channels and the encryption layer, implements it. *)

From stdpp Require Import base tactics gmap sets list list_numbers numbers option.
From Stdlib Require Import ZArith Lia.
From S2P Require Import Prelude Memory BinaryStream StreamSpec StreamCodec Config PeerStats Packet Headers.
From S2P Require Import ChannelBuffer CongestionControl Reassembly ReceiptTracker RpcController Encryption Handshake Socket RemotePeer PacketQueue Peer PacketFlow HandshakeTheorems DatagramTheorems PeerFrame PeerInvariant.

Open Scope Z_scope.

(** ** The abstract receiver *)

(** A message that is not split. *)
Record message : Type := mkMsg { mg_header : PacketHeader; mg_cmd : Z; mg_payload : list Z }.

Definition wire_message (m : message) : list Z := wire_packet_header (mg_header m) ++ mg_cmd m :: mg_payload m.

Record message_ok (m : message) : Prop := {
  mok_header : ph_ok (mg_header m);
  mok_whole : flag_segment (mg_header m) = false /\ ph_offset (mg_header m) = 0;
  mok_length : ph_length (mg_header m) = 1 + zlength (mg_payload m);
  mok_user : USER_PACKET <= mg_cmd m < 256;
  mok_bytes : Forall is_byte (mg_payload m);
}.

Definition packet_of (sender : Z) (m : message) : Packet :=
  mkPacket sender (mg_cmd m) (zlength (mg_payload m)) (payload_ptr (mg_payload m)).

(** The packet IDs seen, with the time, the channels, and the inbox. *)
Record inflow : Type := mkInflow {
  if_seen : gmap Z Z;
  if_channels : gmap Z (ChannelBuffer Packet);
  if_inbox : list Packet;
}.

(** One message: ignored when seen, refused on an unknown channel, else passed on
    at once or as its channel says. *)
Definition accept (modes : list ChannelMode) (now sender : Z) (m : message) (s : inflow) : outcome inflow :=
  let ch := ph_channel (mg_header m) in
  match if_seen s !! ph_id (mg_header m) with
  | Some _ => Ret s
  | None =>
      let seen := <[ph_id (mg_header m) := now]> (if_seen s) in
      if ch =? 0 then Ret (mkInflow seen (if_channels s) (if_inbox s ++ [packet_of sender m])) else
      match modes !! Z.to_nat ch with
      | None => Fail OutOfRange
      | Some UNORDERED => Ret (mkInflow seen (if_channels s) (if_inbox s ++ [packet_of sender m]))
      | Some mode =>
          let '(ps, b) := deliver mode (ph_sequence (mg_header m)) (packet_of sender m) (default (ChannelBuffer_new ch) (if_channels s !! ch)) in
          Ret (mkInflow seen (<[ch := b]> (if_channels s)) (if_inbox s ++ ps))
      end
  end.

Fixpoint accept_all (modes : list ChannelMode) (now sender : Z) (ms : list message) (s : inflow) : outcome inflow :=
  match ms with [] => Ret s | m :: ms => s ← accept modes now sender m s; accept_all modes now sender ms s end.

Lemma accept_seen modes now sender m s s' : accept modes now sender m s = Ret s' ->
  match if_seen s !! ph_id (mg_header m) with
  | Some _ => s' = s
  | None => if_seen s' = <[ph_id (mg_header m) := now]> (if_seen s)
  end.
Proof.
  unfold accept. destruct (if_seen s !! _); [now intros [= <-]|]. destruct (_ =? 0); [now intros [= <-]|].
  destruct (modes !! _) as [[]|]; [now intros [= <-]| | |discriminate]; destruct (deliver _ _ _ _); now intros [= <-].
Qed.

Section Delivery.
Context {host : Host} {sign : CharSign} {RemoteAddress : Type} {address_eq : EqDecision RemoteAddress} (no_address : RemoteAddress).
Context {crypto : Type} {layer : EncryptionLayer crypto} (make_layer : Z -> outcome crypto) {callback : Type}.

Abbreviation Peer := (Peer RemoteAddress crypto callback).
Abbreviation RemotePeer := (RemotePeer RemoteAddress).

(** The peer with another state of slot i and another inbox. *)
Definition at_slot (i : nat) (r : RemotePeer) (inbox : list Packet) (p : Peer) : Peer :=
  set_inbox inbox (set_remotes (<[i := r]> (m_remotes p)) p).

Lemma at_slot_id i r (p : Peer) : m_remotes p !! i = Some r -> at_slot i r (m_inbox p) p = p.
Proof. intros H. unfold at_slot, set_remotes, set_inbox. cbn. rewrite list_insert_id by done. now destruct p. Qed.

Lemma slot_at i r inbox (p : Peer) : (i < length (m_remotes p))%nat -> slot i (at_slot i r inbox p) = Ret (r, at_slot i r inbox p).
Proof. intros Hi. unfold slot. rewrite bind_get. cbn. now rewrite list_lookup_insert_eq. Qed.

Lemma set_slot_at i r r' inbox (p : Peer) : set_slot i r' (at_slot i r inbox p) = Ret (tt, at_slot i r' inbox p).
Proof. unfold set_slot, modify, at_slot, set_remotes, set_inbox. cbn. now rewrite list_insert_insert_eq. Qed.

Lemma on_slot_at {A} i r inbox (p : Peer) (f : RemotePeer -> outcome (A * RemotePeer)) : (i < length (m_remotes p))%nat ->
  on_slot i f (at_slot i r inbox p) = '(a, r') ← f r; Ret (a, at_slot i r' inbox p).
Proof.
  intros Hi. unfold on_slot. rewrite (bind_ret _ _ _ _ _ (slot_at i r inbox p Hi)). destruct (f r) as [[a r']|e].
  - rewrite (bind_lift _ _ _ _ eq_refl). cbv beta iota. now rewrite (bind_ret _ _ _ _ _ (set_slot_at i r r' inbox p)).
  - reflexivity.
Qed.

Lemma on_slot_start {A} i r (p : Peer) (f : RemotePeer -> outcome (A * RemotePeer)) : m_remotes p !! i = Some r ->
  on_slot i f p = '(a, r') ← f r; Ret (a, at_slot i r' (m_inbox p) p).
Proof.
  intros Hr. pose proof (on_slot_at i r (m_inbox p) p f (lookup_lt_Some _ _ _ Hr)) as E. now rewrite at_slot_id in E.
Qed.

Lemma set_inbox_at i r inbox inbox' (p : Peer) : set_inbox inbox' (at_slot i r inbox p) = at_slot i r inbox' p.
Proof. reflexivity. Qed.

Lemma with_inbox_at i r inbox (p : Peer) f : (i < length (m_remotes p))%nat ->
  with_inbox i f (at_slot i r inbox p) = '(inbox', r') ← f (m_channels p) inbox r; Ret (tt, at_slot i r' inbox' p).
Proof.
  intros Hi. unfold with_inbox. rewrite bind_get, (bind_ret _ _ _ _ _ (slot_at i r inbox p Hi)).
  change (m_channels (at_slot i r inbox p)) with (m_channels p). change (m_inbox (at_slot i r inbox p)) with inbox.
  destruct (f (m_channels p) inbox r) as [[l r']|e]; [|reflexivity].
  rewrite (bind_lift _ _ _ _ eq_refl). cbv beta iota. now rewrite (bind_ret _ _ _ _ _ (set_slot_at i r r' inbox p)).
Qed.

(** What a step of the loop does to a connection. *)
Definition noted (now id : Z) (c : CongestionControl) (r : RemotePeer) : RemotePeer :=
  set_stats (Stats_Add PACKETS_RECEIVED 1 (stats r)) (set_congestion (set_history (m_nextUpdate c) (m_datagramHistory c) (<[id := now]> (m_packetHistory c)) c) r).

Lemma sim_header_eof w old p : 7 <= zlength p -> sim w (PacketHeader_Deserialize old) (cursor p []) (false, old) (cursor p []).
Proof.
  intros Hp. apply sim_get. intros s Hs. unfold IsEOF. pose proof (rf_max _ _ (proj1 Hs)) as Hm.
  rewrite (rf_len _ _ (proj1 Hs)), (rf_pos _ _ (proj1 Hs)). cbn in *. rewrite app_nil_r in *. unfold max_len in *.
  rewrite u64_small by lia. rewrite (proj2 (Z.ltb_lt _ _)) by lia. apply sim_ret.
Qed.

(** The memory of a stream covers its content. *)
Lemma rel_extent w s a : rel w s a -> zlength (a_bytes a) <= extent s.
Proof.
  intros [H _]. unfold extent. destruct (a_bytes a) as [|b bs] eqn:E.
  - destruct (deref_ro s); [zlen|reflexivity].
  - destruct (rf_cells _ _ H) as (slack & ->); [congruence|]. rewrite E. zlen.
Qed.

Section Loop.
Context (p : Peer) (i : nat) (now : Z).
Hypothesis (Hi : (i < length (m_remotes p))%nat).

Lemma notify_new id r c inbox : congestion r = Some c -> m_packetHistory c !! id = None ->
  notify_packet now i id (at_slot i r inbox p) =
    Ret (NEW, at_slot i (set_congestion (set_history (m_nextUpdate c) (m_datagramHistory c) (<[id := now]> (m_packetHistory c)) c) r) inbox p).
Proof.
  intros Hc Hn. unfold notify_packet. rewrite on_slot_at by done. unfold get_congestion. rewrite Hc. cbn. unfold NotifyReceivedPacket. now rewrite Hn.
Qed.

Lemma notify_seen id r c inbox t : congestion r = Some c -> m_packetHistory c !! id = Some t ->
  notify_packet now i id (at_slot i r inbox p) = Ret (DUPLICATE, at_slot i r inbox p).
Proof.
  intros Hc Hn. unfold notify_packet. rewrite on_slot_at by done. unfold get_congestion. rewrite Hc. cbn. unfold NotifyReceivedPacket. rewrite Hn. cbn.
  do 3 f_equal. unfold set_congestion. destruct r; cbn in *. now rewrite Hc.
Qed.

(** HandleIncomingPacket on a message is what [accept] says. *)
Lemma handle_message header m r c inbox :
  ph_channel header = ph_channel (mg_header m) -> (ph_channel header <> 0 -> ph_sequence header = ph_sequence (mg_header m)) ->
  congestion r = Some c -> m_packetHistory c !! ph_id (mg_header m) = None ->
  with_inbox i (fun modes => HandleIncomingPacket modes header (packet_of (rp_id r) m)) (at_slot i (noted now (ph_id (mg_header m)) c r) inbox p) =
  match accept (m_channels p) now (rp_id r) m (mkInflow (m_packetHistory c) (channels r) inbox) with
  | Ret s => Ret (tt, at_slot i (set_channels (if_channels s) (noted now (ph_id (mg_header m)) c r)) (if_inbox s) p)
  | Fail f => Fail f
  end.
Proof.
  intros Hch Hseq Hc Hn. rewrite with_inbox_at by done. unfold HandleIncomingPacket, GetChannelBuffer, accept. cbn [if_seen if_channels if_inbox].
  rewrite Hn, <- Hch.
  assert (Hsame : set_channels (channels r) (noted now (ph_id (mg_header m)) c r) = noted now (ph_id (mg_header m)) c r) by (now destruct r).
  destruct (Z.eqb_spec (ph_channel header) 0) as [E0|E0]; [cbn; now rewrite Hsame|]. rewrite <- (Hseq E0).
  destruct (m_channels p !! Z.to_nat (ph_channel header)) as [[]|]; cbn -[deliver]; rewrite ?Hsame; try done.
  all: match goal with |- context [deliver ?a ?b ?c ?d] => destruct (deliver a b c d) as [ps b'] end; cbn; rewrite insert_insert_eq; reflexivity.
Qed.

(** One round of the loop on a message that was not seen before, or was. *)
Lemma loop_round fuel old pre m rest w st r c inbox : rel w st (cursor pre (wire_message m ++ rest)) -> message_ok m -> congestion r = Some c ->
  exists st', rel w st' (cursor (pre ++ wire_message m) rest) /\
  packet_loop no_address (S fuel) now i old st (at_slot i r inbox p) =
  match accept (m_channels p) now (rp_id r) m (mkInflow (m_packetHistory c) (channels r) inbox) with
  | Ret s => packet_loop no_address fuel now i (ph_merge old (mg_header m)) st'
               (at_slot i (match m_packetHistory c !! ph_id (mg_header m) with
                           | Some _ => r
                           | None => set_channels (if_channels s) (noted now (ph_id (mg_header m)) c r) end) (if_inbox s) p)
  | Fail f => Fail f
  end.
Proof.
  intros Hst [Hh [Hseg Hoff] Hlen Hcmd Hb] Hc. unfold wire_message in *. rewrite <- app_assoc in Hst. cbn [app] in Hst.
  destruct (sim_PacketHeader_Deserialize w old pre (mg_header m) _ Hh _ Hst) as (st1 & E1 & H1).
  cbn [packet_loop]. rewrite (bind_lift _ _ _ _ E1). cbv beta iota. cbn [negb].
  change (ph_id (ph_merge old (mg_header m))) with (ph_id (mg_header m)).
  change (ph_length (ph_merge old (mg_header m))) with (ph_length (mg_header m)).
  change (flag_segment (ph_merge old (mg_header m))) with (flag_segment (mg_header m)).
  change (ph_offset (ph_merge old (mg_header m))) with (ph_offset (mg_header m)).
  rewrite Hseg, Hoff, Hlen. pose proof (zlength_nonneg (mg_payload m)) as Hp.
  assert (Hlt : zlength (mg_payload m) < 4294967296) by (pose proof (phok_length _ Hh); unfold PACKET_MAX_LENGTH in *; lia).
  destruct (m_packetHistory c !! ph_id (mg_header m)) as [t|] eqn:Eseen.
  - rewrite (bind_ret _ _ _ _ _ (notify_seen _ _ _ _ _ Hc Eseen)).
    destruct (sim_Skip w (cursor (pre ++ wire_packet_header (mg_header m)) (mg_cmd m :: mg_payload m ++ rest)) (1 + zlength (mg_payload m))
      ltac:(lia) eq_refl ltac:(cbn; zlen) _ H1) as (st2 & E2 & H2).
    exists st2. split; [|rewrite (bind_lift _ _ _ _ E2); unfold accept; cbn [if_seen]; now rewrite Eseen].
    replace (cursor _ rest) with (mkA ((pre ++ wire_packet_header (mg_header m)) ++ mg_cmd m :: mg_payload m ++ rest)
      (zlength (pre ++ wire_packet_header (mg_header m)) + (1 + zlength (mg_payload m))) 0); [exact H2|].
    unfold cursor. f_equal; [now rewrite <- !app_assoc|zlen].
  - rewrite (bind_ret _ _ _ _ _ (notify_new _ _ _ _ Hc Eseen)).
    match goal with |- context [at_slot i ?r1 inbox p] => set (r1' := r1) end.
    assert (Es : add_stat i PACKETS_RECEIVED 1 (at_slot i r1' inbox p) = Ret (tt, at_slot i (noted now (ph_id (mg_header m)) c r) inbox p)).
    { unfold add_stat. now rewrite on_slot_at. }
    destruct (sim_FromDatagram w (rp_id r) _ _ (mg_cmd m) (mg_payload m) rest (rd_cursor _ _) Hlt _ H1) as (st2 & E2 & H2).
    exists st2. split; [now rewrite <- app_assoc in H2|]. rewrite (bind_ret _ _ _ _ _ Es). cbn [orb].
    change (0 <? 0) with false. cbv iota. rewrite (bind_ret _ _ _ _ _ (slot_at _ _ _ _ Hi)).
    change (rp_id (noted _ _ _ r)) with (rp_id r). rewrite (bind_lift _ _ _ _ E2). cbv beta iota.
    rewrite (proj2 (Z.ltb_ge _ _)) by (cbn; lia). fold (packet_of (rp_id r) m).
    pose proof (handle_message (ph_merge old (mg_header m)) m r c inbox eq_refl) as Hm.
    destruct (accept _ _ _ m _) as [s|e].
    + erewrite bind_ret; [reflexivity|]. apply Hm; [|done..]. cbn. intros Hne. now rewrite (proj2 (Z.eqb_neq _ _) Hne).
    + apply bind_fail. apply Hm; [|done..]. cbn. intros Hne. now rewrite (proj2 (Z.eqb_neq _ _) Hne).
Qed.

(** A connection that has received what [s] says. *)
Definition received (s : inflow) (c : CongestionControl) (st : PeerStats) (r : RemotePeer) : RemotePeer :=
  set_stats st (set_channels (if_channels s) (set_congestion (set_history (m_nextUpdate c) (m_datagramHistory c) (if_seen s) c) r)).

Lemma loop_all ms : forall fuel old pre w st r c inbox, rel w st (cursor pre (concat (map wire_message ms))) -> Forall message_ok ms ->
  (length ms < fuel)%nat -> 7 <= zlength pre -> congestion r = Some c ->
  match accept_all (m_channels p) now (rp_id r) ms (mkInflow (m_packetHistory c) (channels r) inbox) with
  | Ret s => exists st', packet_loop no_address fuel now i old st (at_slot i r inbox p) = Ret (tt, at_slot i (received s c st' r) (if_inbox s) p)
  | Fail f => packet_loop no_address fuel now i old st (at_slot i r inbox p) = Fail f
  end.
Proof.
  induction ms as [|m ms IH]; intros fuel old pre w st r c inbox Hst Hok Hfuel Hpre Hc; (destruct fuel as [|fuel]; [cbn in Hfuel; lia|]).
  - cbn [accept_all map concat] in *. destruct (sim_header_eof w old pre Hpre st Hst) as (st1 & E1 & _).
    exists (stats r). cbn [packet_loop]. rewrite (bind_lift _ _ _ _ E1). cbn. unfold received. do 3 f_equal.
    destruct r, c; cbn in *. unfold set_stats, set_channels, set_congestion, set_history. cbn. now rewrite Hc.
  - inversion_clear Hok as [|? ? Hm Hms]. destruct (loop_round fuel old pre m _ w st r c inbox Hst Hm Hc) as (st1 & H1 & E).
    rewrite E. cbn [accept_all]. pose proof (accept_seen (m_channels p) now (rp_id r) m (mkInflow (m_packetHistory c) (channels r) inbox)) as Hs.
    destruct (accept _ _ _ m _) as [s|f]; [|reflexivity]. cbn [mbind outcome_bind]. specialize (Hs s eq_refl). cbn [if_seen] in Hs.
    assert (Hpre' : 7 <= zlength (pre ++ wire_message m)) by zlen. assert (Hf' : (length ms < fuel)%nat) by (cbn in Hfuel; lia).
    destruct (m_packetHistory c !! ph_id (mg_header m)) as [t|].
    + subst s. exact (IH fuel _ _ w st1 r c inbox H1 Hms Hf' Hpre' Hc).
    + pose proof (IH fuel (ph_merge old (mg_header m)) _ w st1 (set_channels (if_channels s) (noted now (ph_id (mg_header m)) c r))
        (set_history (m_nextUpdate c) (m_datagramHistory c) (<[ph_id (mg_header m) := now]> (m_packetHistory c)) c) (if_inbox s) H1 Hms Hf' Hpre' eq_refl) as IH'.
      cbn [m_packetHistory set_history channels set_channels rp_id] in IH'. rewrite <- Hs in IH'.
      change (rp_id (noted _ _ _ r)) with (rp_id r) in IH'. destruct s as [seen chs inb]. exact IH'.
Qed.
End Loop.

(** ** The read handler *)

(** What the layer of a connection makes of the bytes on the wire. *)
Definition unseals (l : crypto) (wire plain : list Z) : Prop :=
  if GetCryptoEstablished l
  then GetNeedsToBail l = false /\
       forall w st, rel w st (cursor [] wire) -> exists plain' st', Decrypt l st = Ret (plain', l, st') /\ rel true plain' (cursor [] plain)
  else wire = plain.

(** Slot i holds an established connection with [sender]. *)
Record connected (p : Peer) (sender : RemoteAddress) (i : nat) (r : RemotePeer) (c : CongestionControl) (l : crypto) : Prop := {
  cn_found : GetRemoteByAddress sender p = Some i;
  cn_slot : m_remotes p !! i = Some r;
  cn_congestion : congestion r = Some c;
  cn_shake : exists h, handshake r = Some h /\ m_result h = result_code CR_OK;
  cn_layer : exists k, rp_crypto r = Some k /\ p_layers p !! k = Some l;
}.

Lemma decrypt_at p i r inbox k l wire plain w st : (i < length (m_remotes p))%nat -> rp_crypto r = Some k -> p_layers p !! k = Some l ->
  unseals l wire plain -> rel w st (cursor [] wire) ->
  exists w' st', decrypt_input i st (at_slot i r inbox p) = Ret (Some st', at_slot i r inbox p) /\ rel w' st' (cursor [] plain).
Proof.
  intros Hi Hk Hl Hu Hst. unfold decrypt_input. rewrite bind_get, (bind_ret _ _ _ _ _ (slot_at _ _ _ _ Hi)), Hk.
  change (p_layers (at_slot i r inbox p)) with (p_layers p). rewrite Hl, (bind_lift _ _ _ _ eq_refl). unfold unseals in Hu.
  destruct (GetCryptoEstablished l); cbn [negb]; [|subst wire; now exists w, st]. destruct Hu as [Hb Hu].
  destruct (Hu w st Hst) as (plain' & st' & E & Hp). rewrite (bind_lift _ _ _ _ E). cbv beta iota. exists true, plain'. split; [|done].
  rewrite insert_id by done. now rewrite Hb.
Qed.

Lemma messages_length ms : Z.of_nat (length ms) <= zlength (concat (map wire_message ms)).
Proof. induction ms as [|m ms IH]; cbn [map concat length]; [done|]. unfold wire_message in *. zlen. Qed.

(** A datagram without acknowledgements: dropped when it was seen, else its packets
    are read. *)
Lemma read_connected_data p i r c inbox now id len st : (i < length (m_remotes p))%nat -> congestion r = Some c ->
  read_connected no_address now i (mkDH true true [] [] id len) st (at_slot i r inbox p) =
  match m_datagramHistory c !! id with
  | Some _ => Ret (tt, at_slot i r inbox p)
  | None => packet_loop no_address (loop_fuel st) now i PacketHeader_default st (at_slot i (set_congestion (NotifyReceivedDatagram now id false c).2 r) inbox p)
  end.
Proof.
  intros Hi Hc. unfold read_connected.
  assert (E : forall d, on_slot i (fun r => c ← get_congestion r; let '(st, c) := NotifyReceivedDatagram now id d c in mret (st, set_congestion c r))
      (at_slot i r inbox p) = Ret ((NotifyReceivedDatagram now id d c).1, at_slot i (set_congestion (NotifyReceivedDatagram now id d c).2 r) inbox p)).
  { intros d. rewrite on_slot_at by done. unfold get_congestion. rewrite Hc. cbn. now destruct (NotifyReceivedDatagram now id d c). }
  cbn [datagramID flag_data negb dh_acks dh_nacks]. rewrite (bind_ret _ _ _ _ _ (E false)). clear E.
  unfold NotifyReceivedDatagram. destruct (m_datagramHistory c !! id) as [t|]; cbn [fst snd]; [|reflexivity].
  cbn. do 2 f_equal. f_equal. destruct r; cbn in *. unfold set_congestion. cbn. now rewrite Hc.
Qed.

Lemma read_connected_spec p i r c inbox now id ms w st :
  (i < length (m_remotes p))%nat -> congestion r = Some c -> Forall message_ok ms ->
  rel w st (cursor (wire_datagram_header (mkDH true true [] [] id (zlength (concat (map wire_message ms))))) (concat (map wire_message ms))) ->
  let run := read_connected no_address now i (mkDH true true [] [] id (zlength (concat (map wire_message ms)))) st (at_slot i r inbox p) in
  match m_datagramHistory c !! id with
  | Some _ => run = Ret (tt, at_slot i r inbox p)
  | None =>
      let c1 := (NotifyReceivedDatagram now id false c).2 in
      match accept_all (m_channels p) now (rp_id r) ms (mkInflow (m_packetHistory c) (channels r) inbox) with
      | Ret s => exists st', run = Ret (tt, at_slot i (received s c1 st' r) (if_inbox s) p)
      | Fail f => run = Fail f
      end
  end.
Proof.
  intros Hi Hc Hok Hst run. unfold run. rewrite (read_connected_data p i r c) by done.
  assert (Hlen : (length ms < loop_fuel st)%nat).
  { unfold loop_fuel. pose proof (rel_extent _ _ _ Hst) as He. cbn [cursor a_bytes] in He. pose proof (messages_length ms). rewrite zlength_app in He. pose proof (zlength_nonneg (wire_datagram_header
      (mkDH true true [] [] id (zlength (concat (map wire_message ms)))))). lia. }
  pose proof (zlength_data_header true id (zlength (concat (map wire_message ms)))) as H7.
  destruct (m_datagramHistory c !! id) as [t|] eqn:Eh; [reflexivity|]. unfold NotifyReceivedDatagram. rewrite Eh. cbn [fst snd].
  match goal with |- context [set_congestion ?x r] => set (c1 := x) end.
  exact (loop_all p i now Hi ms (loop_fuel st) PacketHeader_default _ w st (set_congestion c1 r) c1 inbox Hst Hok Hlen ltac:(lia) eq_refl).
Qed.

(** Reading a datagram of a connection up to the checks of its length and of the
    handshake. *)
Lemma read_header asio now entropy p sender i r c l wire h rest : connected p sender i r c l -> Forall is_byte wire -> zlength wire <= max_len ->
  dh_ok h -> zlength (dh_acks h) <= 256 -> zlength (dh_nacks h) <= 256 -> (flag_data h = true -> dataLength h <= zlength rest /\ 2 <= zlength rest) ->
  dh_merge DatagramHeader_default h = h -> flag_link h = true -> unseals l wire (wire_datagram_header h ++ rest) ->
  exists st w s, rel w s (cursor (wire_datagram_header h) rest) /\
    OnReadFinished no_address make_layer asio now entropy false sender (map Some wire) p =
    (if flag_data h && (MTU <? dataLength h + zlength (wire_datagram_header h)) then DisconnectImmediate no_address now i else read_connected no_address now i h s)
      (at_slot i (set_stats st r) (m_inbox p) p).
Proof.
  intros [Hf Hr Hc (hs & Hhs & Hres) (k & Hk & Hl)] Hb Hm Hok La Ln Hdata Eh Hlk Hu.
  assert (Hi : (i < length (m_remotes p))%nat) by (eapply lookup_lt_Some; exact Hr).
  unfold OnReadFinished. rewrite bind_get, Hf. cbv zeta iota.
  destruct (BinaryStream_wrap_rel wire [] READONLY Hb Hm) as (s0 & E0 & H0). rewrite app_nil_r in E0.
  rewrite zlength_map, (bind_lift _ _ _ _ E0). 
  erewrite bind_ret; [|unfold add_stat; rewrite (on_slot_start i r p _ Hr); reflexivity].
  erewrite bind_ret; [|unfold add_stat; rewrite on_slot_at by done; reflexivity].
  match goal with |- context [at_slot i (set_stats ?x _) _ _] => set (st := x) end. 
  change (set_stats st (set_stats _ r)) with (set_stats st r). change (m_inbox (at_slot i r (m_inbox p) p)) with (m_inbox p).
  destruct (decrypt_at p i (set_stats st r) (m_inbox p) k l wire _ _ s0 Hi Hk Hl Hu H0) as (w & s1 & E1 & H1).
  rewrite (bind_ret _ _ _ _ _ E1). cbv beta iota.
  destruct (sim_DatagramHeader_Deserialize w DatagramHeader_default [] h rest Hok La Ln Hdata) with (s := s1) as (s2 & E2 & H2'); [exact H1|].
  rewrite (bind_lift _ _ _ _ E2). cbv beta iota. cbn [negb app] in *. exists st, w, s2. split; [exact H2'|].
  rewrite Eh, (rf_pos _ _ (proj1 H2')). cbn [cursor a_pos]. rewrite Hlk. cbn [negb]. destruct (_ && _); [reflexivity|].
  rewrite (bind_ret _ _ _ _ _ (slot_at _ _ _ _ Hi)). change (handshake (set_stats st r)) with (handshake r). rewrite Hhs.
  rewrite (bind_lift _ _ _ _ eq_refl). unfold IsDone. now rewrite Hres.
Qed.

Lemma read_datagram asio now entropy p sender i r c l wire h rest : connected p sender i r c l -> Forall is_byte wire -> zlength wire <= max_len ->
  dh_ok h -> h = mkDH true true [] [] (datagramID h) (dataLength h) -> dataLength h = zlength rest -> 2 <= zlength rest ->
  unseals l wire (wire_datagram_header h ++ rest) ->
  exists st w s, rel w s (cursor (wire_datagram_header h) rest) /\
    OnReadFinished no_address make_layer asio now entropy false sender (map Some wire) p =
    (if MTU <? zlength rest + 7 then DisconnectImmediate no_address now i else read_connected no_address now i h s)
      (at_slot i (set_stats st r) (m_inbox p) p).
Proof.
  intros Hcn Hb Hm Hok Eh Hlen H2 Hu. destruct (read_header asio now entropy p sender i r c l wire h rest) as (st & w & s & Hs & E); try done; try (rewrite Eh; done); [lia|].
  exists st, w, s. split; [exact Hs|]. rewrite E. assert (H7 : zlength (wire_datagram_header h) = 7) by (rewrite Eh; apply zlength_data_header).
  assert (Hd : flag_data h = true) by now rewrite Eh. now rewrite Hd, H7, Hlen.
Qed.

(** The outcome [run] of the read handler for datagram [id] with messages [ms]. *)
Definition delivers (now id : Z) (ms : list message) (p : Peer) (i : nat) (r : RemotePeer) (c : CongestionControl) (run : outcome (unit * Peer)) : Prop :=
  match m_datagramHistory c !! id with
  | Some _ => exists st, run = Ret (tt, at_slot i (set_stats st r) (m_inbox p) p)
  | None =>
      let c1 := (NotifyReceivedDatagram now id false c).2 in
      match accept_all (m_channels p) now (rp_id r) ms (mkInflow (m_packetHistory c) (channels r) (m_inbox p)) with
      | Ret s => exists st, run = Ret (tt, at_slot i (received s c1 st r) (if_inbox s) p)
      | Fail f => run = Fail f
      end
  end.

Lemma delivery_spec asio now entropy (p : Peer) sender i r c l wire ms id :
  connected p sender i r c l -> Forall message_ok ms -> ms <> [] -> 0 <= id < 4294967296 ->
  zlength (concat (map wire_message ms)) + 7 <= MTU -> Forall is_byte wire -> zlength wire <= max_len ->
  unseals l wire (wire_datagram_header (mkDH true true [] [] id (zlength (concat (map wire_message ms)))) ++ concat (map wire_message ms)) ->
  delivers now id ms p i r c (OnReadFinished no_address make_layer asio now entropy false sender (map Some wire) p).
Proof.
  intros Hcn Hms Hne Hid Hlen Hb Hm Hu. set (data := concat (map wire_message ms)) in *.
  assert (H2 : 2 <= zlength data).
  { unfold data. destruct ms as [|m ms]; [done|]. cbn [map concat]. unfold wire_message, wire_packet_header. zlen. }
  destruct (read_datagram asio now entropy p sender i r c l wire (mkDH true true [] [] id (zlength data)) data Hcn Hb Hm)
    as (st & w & s & Hs & E); try done; [split; cbn; unfold MTU in *; try done; lia|].
  unfold delivers. rewrite E, (proj2 (Z.ltb_ge _ _)) by lia. pose proof (read_connected_spec p i (set_stats st r) c (m_inbox p) now id ms w s
    (lookup_lt_Some _ _ _ (cn_slot _ _ _ _ _ _ Hcn)) (cn_congestion _ _ _ _ _ _ Hcn) Hms Hs) as H. cbn [rp_id channels set_stats] in H.
  destruct (m_datagramHistory c !! id); [now exists st|]. cbv zeta in *. destruct (accept_all _ _ _ _ _) as [x|]; [|exact H].
  destruct H as (st' & H). exists st'. exact H.
Qed.

(** A message of channel 0 with an ID that was not seen goes to the inbox. *)
Lemma accept_plain modes now sender ms : forall s, Forall (fun m => ph_channel (mg_header m) = 0) ms ->
  NoDup (map (fun m => ph_id (mg_header m)) ms) -> (forall m, m ∈ ms -> if_seen s !! ph_id (mg_header m) = None) ->
  exists seen, accept_all modes now sender ms s = Ret (mkInflow seen (if_channels s) (if_inbox s ++ map (packet_of sender) ms)).
Proof.
  induction ms as [|m ms IH]; intros s H0 Hnd Hnew; [exists (if_seen s); cbn; rewrite app_nil_r; now destruct s|].
  inversion_clear H0 as [|? ? Hm Hms]. inversion_clear Hnd as [|? ? Hnot Hnd']. cbn [accept_all]. unfold accept.
  rewrite (Hnew m) by (constructor). rewrite Hm. cbn [Z.eqb mbind outcome_bind].
  destruct (IH (mkInflow (<[ph_id (mg_header m) := now]> (if_seen s)) (if_channels s) (if_inbox s ++ [packet_of sender m])) Hms Hnd') as (seen & E).
  - intros m' Hm'. cbn. rewrite lookup_insert_ne; [apply Hnew; now constructor|]. intros E. apply Hnot. rewrite E. now apply (list_elem_of_fmap_2 (fun m => ph_id (mg_header m))).
  - exists seen. rewrite E. cbn. now rewrite <- app_assoc.
Qed.

(** Giving up an established connection. *)
Lemma disconnect_established now i r inbox (p : Peer) h : (i < length (m_remotes p))%nat -> handshake r = Some h -> m_result h = result_code CR_OK ->
  DisconnectImmediate no_address now i (at_slot i r inbox p) =
    Ret (tt, set_lookup (delete (rp_id r) (m_remoteLookup p)) (at_slot i (Reset_remote no_address r)
      (inbox ++ [mkPacket (rp_id r) (if IsDisconnecting r then NOTIFY_DISCONNECTED else NOTIFY_CONNECTION_LOST) 0 None]) p)).
Proof.
  intros Hi Hh Hr. unfold DisconnectImmediate. rewrite (bind_ret _ _ _ _ _ (slot_at _ _ _ _ Hi)), Hh.
  replace (IsDone h && (m_result h =? result_code CR_OK)) with true by (unfold IsDone; now rewrite Hr).
  assert (E : forall cmd, OnDisconnect i cmd (at_slot i r inbox p) =
    Ret (tt, set_lookup (delete (rp_id r) (m_remoteLookup p)) (at_slot i r (inbox ++ [mkPacket (rp_id r) cmd 0 None]) p))).
  { intros cmd. unfold OnDisconnect. rewrite (bind_ret _ _ _ _ _ (slot_at _ _ _ _ Hi)). reflexivity. }
  rewrite (bind_ret _ _ _ _ _ (E _)). set (m := delete (rp_id r) (m_remoteLookup p)).
  change (set_lookup m (at_slot i ?x ?l p)) with (at_slot i x l (set_lookup m p)).
  unfold reset_slot. rewrite (bind_ret _ _ _ _ _ (slot_at i r _ (set_lookup m p) Hi)). apply set_slot_at.
Qed.
End Delivery.

(** The peer after it gave up the connection in slot i. *)
Definition dropped {RemoteAddress crypto callback : Type} (no_address : RemoteAddress) (p : Peer RemoteAddress crypto callback) (i : nat) (r : RemotePeer RemoteAddress)
    : Peer RemoteAddress crypto callback :=
  set_lookup (delete (rp_id r) (m_remoteLookup p)) (at_slot i (Reset_remote no_address r)
    (m_inbox p ++ [mkPacket (rp_id r) (if IsDisconnecting r then NOTIFY_DISCONNECTED else NOTIFY_CONNECTION_LOST) 0 None]) p).

(** The length check of the reader counts the header, the budget of the builder
    does not: a datagram whose packets take 1294 to 1300 bytes, which MakeDatagram
    may build, makes the receiver drop the connection: the slot is reset, the user is
    told that the connection was lost, and none of the messages is delivered. *)
Theorem full_datagram_disconnects {host : Host} {sign : CharSign} {RemoteAddress : Type} {address_eq : EqDecision RemoteAddress} no_address
    {crypto : Type} {layer : EncryptionLayer crypto} make_layer {callback : Type} asio now entropy
    (p : Peer RemoteAddress crypto callback) sender i r c l wire ms id :
  connected p sender i r c l -> 0 <= id < 4294967296 ->
  MTU - 7 < zlength (concat (map wire_message ms)) <= MTU -> Forall is_byte wire -> zlength wire <= max_len ->
  unseals l wire (wire_datagram_header (mkDH true true [] [] id (zlength (concat (map wire_message ms)))) ++ concat (map wire_message ms)) ->
  OnReadFinished no_address make_layer asio now entropy false sender (map Some wire) p =
    Ret (tt, dropped no_address p i r).
Proof.
  intros Hcn Hid Hlen Hb Hm Hu. set (data := concat (map wire_message ms)) in *.
  destruct (read_datagram no_address make_layer asio now entropy p sender i r c l wire (mkDH true true [] [] id (zlength data)) data Hcn Hb Hm)
    as (st & w & s & _ & E); try done; [split; cbn; unfold MTU in *; try done; lia|unfold MTU in *; lia|].
  rewrite E, (proj2 (Z.ltb_lt _ _)) by lia. destruct Hcn as [_ Hr _ (h & Hh & Hres) _].
  exact (disconnect_established no_address now i (set_stats st r) _ p h (lookup_lt_Some _ _ _ Hr) Hh Hres).
Qed.

(** C6: a datagram of whole user messages, without acknowledgements, from a connected
    peer.  If header and messages fit the MTU together it has exactly the effect of the
    abstract receiver: one seen before changes nothing but the statistics; a new one is
    noted for acknowledgement, and its messages are taken in order: a message whose ID
    was seen is ignored, any other goes to the inbox at once or as its channel says;
    nothing else of the peer changes, and the handler stops with an error only where the
    abstract receiver does.  If only the messages fit the MTU, the connection is given up
    and none of them is delivered. *)
Theorem datagram_delivery {host : Host} {sign : CharSign} {RemoteAddress : Type} {address_eq : EqDecision RemoteAddress} no_address
    {crypto : Type} {layer : EncryptionLayer crypto} make_layer {callback : Type} asio now entropy
    (p : Peer RemoteAddress crypto callback) sender i r c l wire ms id :
  connected p sender i r c l -> Forall message_ok ms -> ms <> [] -> 0 <= id < 4294967296 ->
  zlength (concat (map wire_message ms)) <= MTU -> Forall is_byte wire -> zlength wire <= max_len ->
  unseals l wire (wire_datagram_header (mkDH true true [] [] id (zlength (concat (map wire_message ms)))) ++ concat (map wire_message ms)) ->
  let run := OnReadFinished no_address make_layer asio now entropy false sender (map Some wire) p in
  if zlength (concat (map wire_message ms)) + 7 <=? MTU then
    match m_datagramHistory c !! id with
    | Some _ => exists st, run = Ret (tt, at_slot i (set_stats st r) (m_inbox p) p)
    | None =>
        let c1 := (NotifyReceivedDatagram now id false c).2 in
        match accept_all (m_channels p) now (rp_id r) ms (mkInflow (m_packetHistory c) (channels r) (m_inbox p)) with
        | Ret s => exists st, run = Ret (tt, at_slot i (received s c1 st r) (if_inbox s) p)
        | Fail f => run = Fail f
        end
    end
  else run = Ret (tt, dropped no_address p i r).
Proof.
  intros Hcn Hms Hne Hid Hlen Hb Hm Hu run. destruct (Z.leb_spec (zlength (concat (map wire_message ms)) + 7) MTU).
  - exact (delivery_spec no_address make_layer asio now entropy p sender i r c l wire ms id Hcn Hms Hne Hid H Hb Hm Hu).
  - exact (full_datagram_disconnects no_address make_layer asio now entropy p sender i r c l wire ms id Hcn Hid ltac:(lia) Hb Hm Hu).
Qed.

(** The index of a channel is not checked: when a connected peer sends a message
    on a channel that this peer did not make, the read handler ends with the
    exception of vector::at, which nothing on the thread of the socket catches. *)
Theorem unknown_channel_throws {host : Host} {sign : CharSign} {RemoteAddress : Type} {address_eq : EqDecision RemoteAddress} no_address
    {crypto : Type} {layer : EncryptionLayer crypto} make_layer {callback : Type} asio now entropy
    (p : Peer RemoteAddress crypto callback) sender i r c l wire m id :
  connected p sender i r c l -> message_ok m -> 0 <= id < 4294967296 -> zlength (wire_message m) + 7 <= MTU ->
  Forall is_byte wire -> zlength wire <= max_len ->
  unseals l wire (wire_datagram_header (mkDH true true [] [] id (zlength (wire_message m))) ++ wire_message m) ->
  m_datagramHistory c !! id = None -> m_packetHistory c !! ph_id (mg_header m) = None ->
  zlength (m_channels p) <= ph_channel (mg_header m) -> 1 <= zlength (m_channels p) ->
  OnReadFinished no_address make_layer asio now entropy false sender (map Some wire) p = Fail OutOfRange.
Proof.
  intros Hcn Hm Hid Hlen Hb Hmax Hu Hd Hp Hch H1.
  assert (Ec : concat (map wire_message [m]) = wire_message m) by apply app_nil_r.
  pose proof (delivery_spec no_address make_layer asio now entropy p sender i r c l wire [m] id Hcn) as H. rewrite Ec in H.
  specialize (H ltac:(now constructor) ltac:(done) Hid Hlen Hb Hmax Hu). unfold delivers in H. cbv zeta in H. rewrite Hd in H.
  cbn [accept_all] in H. unfold accept in H. cbn [if_seen] in H. rewrite Hp, (proj2 (Z.eqb_neq _ _)), (lookup_ge_None_2 (m_channels p)) in H; [exact H| |lia].
  unfold zlength in *. lia.
Qed.

(** ** Witnesses *)

Ltac bytes_now := apply (bool_decide_unpack _); vm_compute; exact I.

#[local] Instance demo_host : Host := {| little_endian := true; or_left_first := true |}.
#[local] Instance demo_sign : CharSign := {| char_signed := true |}.
Definition online_remote : RemotePeer Z :=
  mkRemote ∅ 5 [] [] true (Some 0) (Some (set_result (result_code CR_OK) (m_lastReply (demo_handshaker false SELF)) (demo_handshaker false SELF)))
    (Some (CongestionControl_new 10)) (Some ReceiptTracker_new) ∅ PeerStats_new 22 0 true true.
Definition online_peer : Peer Z unit unit :=
  mkPeer 11 2 0 (mkStream None RoNull 0 0 0 0 false) ∅ SocketUDP_new [RemotePeer_new 0; online_remote] [] ∅ [UNORDERED] None false {[0 := tt]} 1 [].
Definition demo_asio : Asio Z := mkAsio (fun _ _ _ => Some [5]) (fun _ _ => Bound) (fun _ => []).
Definition demo_message (id channel : Z) (payload : list Z) : message :=
  mkMsg (mkPH false false id RELIABLE channel 0 (1 + zlength payload) 0 0 0) 66 payload.

Lemma demo_connected : connected online_peer 5 1 online_remote (CongestionControl_new 10) tt.
Proof.
  split; [reflexivity..| |].
  - eexists. split; reflexivity.
  - exists 0. split; reflexivity.
Qed.

Lemma demo_message_ok id channel payload : 0 <= id < 4294967296 -> is_byte channel -> zlength payload < 60000 -> Forall is_byte payload ->
  message_ok (demo_message id channel payload).
Proof.
  intros Hid Hc Hl Hb. pose proof (zlength_nonneg payload). split; cbn; try done.
  split; cbn; unfold is_byte, PACKET_MAX_LENGTH, RELIABLE in *; lia.
Qed.
Ltac message_now := apply demo_message_ok; [lia|unfold is_byte; lia|reflexivity|bytes_now].
Ltac messages_now := repeat (apply List.Forall_cons; [message_now|]); apply List.Forall_nil.

Lemma datagram_delivery_witness : let ms := [demo_message 3 0 [1; 2]; demo_message 4 0 [3]; demo_message 3 0 [1; 2]] in
  let data := concat (map wire_message ms) in let wire := wire_datagram_header (mkDH true true [] [] 7 (zlength data)) ++ data in
  exists p', OnReadFinished 0 (fun _ => Ret tt) demo_asio 1000 0 false 5 (map Some wire) online_peer = Ret (tt, p') /\
    m_inbox p' = [mkPacket 22 66 2 (Some [Some 1; Some 2]); mkPacket 22 66 1 (Some [Some 3])].
Proof.
  intros ms data wire.
  assert (H : exists st, OnReadFinished 0 (fun _ => Ret tt) demo_asio 1000 0 false 5 (map Some wire) online_peer =
    Ret (tt, at_slot 1 (received (mkInflow {[3 := 1000; 4 := 1000]} ∅ [packet_of 22 (demo_message 3 0 [1; 2]); packet_of 22 (demo_message 4 0 [3])])
      (NotifyReceivedDatagram 1000 7 false (CongestionControl_new 10)).2 st online_remote)
      [packet_of 22 (demo_message 3 0 [1; 2]); packet_of 22 (demo_message 4 0 [3])] online_peer)).
  { apply (datagram_delivery 0 (fun _ => Ret tt) demo_asio 1000 0 online_peer 5 1 online_remote (CongestionControl_new 10) tt wire ms 7 demo_connected).
    - messages_now.
    - discriminate.
    - lia.
    - vm_compute. discriminate.
    - bytes_now.
    - vm_compute. discriminate.
    - reflexivity. }
  destruct H as (st & E). eexists. split; [exact E|reflexivity].
Defined.

Lemma unknown_channel_throws_witness : let m := demo_message 3 9 [1; 2] in
  OnReadFinished 0 (fun _ => Ret tt) demo_asio 1000 0 false 5
    (map Some (wire_datagram_header (mkDH true true [] [] 7 (zlength (wire_message m))) ++ wire_message m)) online_peer = Fail OutOfRange.
Proof.
  intros m. apply (unknown_channel_throws 0 (fun _ => Ret tt) demo_asio 1000 0 online_peer 5 1 online_remote (CongestionControl_new 10) tt _ m 7 demo_connected).
  - message_now.
  - lia.
  - vm_compute. discriminate.
  - bytes_now.
  - vm_compute. discriminate.
  - reflexivity.
  - reflexivity.
  - reflexivity.
  - vm_compute. discriminate.
  - vm_compute. discriminate.
Defined.

(** Two packets of 635 bytes, which are not split, and fill a datagram. *)
Lemma full_datagram_disconnects_witness : let ms := [demo_message 3 0 (replicate 635 1); demo_message 4 0 (replicate 635 2)] in
  let data := concat (map wire_message ms) in
  exists p', OnReadFinished 0 (fun _ => Ret tt) demo_asio 1000 0 false 5
    (map Some (wire_datagram_header (mkDH true true [] [] 7 (zlength data)) ++ data)) online_peer = Ret (tt, p') /\
    m_inbox p' = [mkPacket 22 NOTIFY_CONNECTION_LOST 0 None] /\ m_remotes p' !! 1%nat = Some (RemotePeer_new 0).
Proof.
  intros ms data. eexists. split; [|split].
  - apply (full_datagram_disconnects 0 (fun _ => Ret tt) demo_asio 1000 0 online_peer 5 1 online_remote (CongestionControl_new 10) tt _ ms 7 demo_connected).
    + lia.
    + vm_compute. split; [reflexivity|discriminate].
    + bytes_now.
    + vm_compute. discriminate.
    + reflexivity.
  - reflexivity.
  - reflexivity.
Defined.
