(* ===== verification/SplitDelivery.v ===== *)
(** * SplitDelivery: a packet that is too long for one datagram

    The segments that EnqueueOutgoing makes of a long packet, each arriving in a
    datagram of its own, through OnReadFinished, the packet loop and the reassembly
    buffer (source/PacketQueue.cpp, source/ReassemblyBuffer.cpp): the receiver acts
    as if the packet had arrived in one piece. *)

From stdpp Require Import base tactics gmap sets list list_numbers numbers option.
From Stdlib Require Import ZArith Lia.
From S2P Require Import Prelude Memory BinaryStream StreamSpec StreamCodec Config PeerStats Packet Headers.
From S2P Require Import ChannelBuffer CongestionControl Reassembly ReceiptTracker RpcController Encryption Handshake Socket RemotePeer PacketQueue Peer PacketFlow HandshakeTheorems DatagramTheorems PeerFrame PeerInvariant Delivery.

Open Scope Z_scope.

(** ** The slot of a connection stays the slot of its address *)

Lemma find_index_map {A} (test : A -> bool) l : find_index test l = find_index (fun b => b) (test <$> l).
Proof. induction l as [|x l IH]; [done|]. cbn [find_index fmap list_fmap]. now rewrite IH. Qed.

Section SplitDelivery.
Context {host : Host} {sign : CharSign} {RemoteAddress : Type} {address_eq : EqDecision RemoteAddress} (no_address : RemoteAddress).
Context {crypto : Type} {layer : EncryptionLayer crypto} (make_layer : Z -> outcome crypto) {callback : Type}.

Abbreviation Peer := (Peer RemoteAddress crypto callback).
Abbreviation RemotePeer := (RemotePeer RemoteAddress).
Abbreviation PM := (ST Peer).

Lemma find_slot_same test (p : Peer) i r r' inbox : m_remotes p !! i = Some r -> test r' = test r -> find_slot test (at_slot i r' inbox p) = find_slot test p.
Proof.
  intros Hr Ht. unfold find_slot, numbered. rewrite !(find_index_map test). do 2 f_equal. cbn [m_remotes at_slot set_inbox set_remotes m_remotesMax].
  rewrite !fmap_drop, !fmap_take, list_fmap_insert. do 2 f_equal. apply list_insert_id. rewrite list_lookup_fmap, Hr. cbn. now rewrite Ht.
Qed.

Lemma connected_again (p : Peer) sender i r c l r' c' inbox : connected p sender i r c l -> active r' = active r -> addr r' = addr r ->
  handshake r' = handshake r -> rp_crypto r' = rp_crypto r -> congestion r' = Some c' -> connected (at_slot i r' inbox p) sender i r' c' l.
Proof.
  intros [Hf Hr Hc Hh Hl] Ha Had Ehs Ecr Hc'. split.
  - unfold GetRemoteByAddress. rewrite (find_slot_same _ p i r); [exact Hf|done|]. now rewrite Ha, Had.
  - cbn. apply list_lookup_insert_eq. eapply lookup_lt_Some. exact Hr.
  - exact Hc'.
  - now rewrite Ehs.
  - now rewrite Ecr.
Qed.

(** ** One segment *)

Section Segments.
Context (container options channel sequence cmd : Z) (payload : list Z).
Let full := cmd :: payload.
Let n := zlength full.

Definition segment_of (id k : Z) : PacketHeader := segment_header (zlength payload) n id options channel sequence container k.
Definition wire_segment (id k : Z) : list Z := wire_packet_header (segment_of id k) ++ chunk full k.

(** The packet as one message. *)
Definition whole_message : message := mkMsg (mkPH false false container options channel sequence n 0 0 0) cmd payload.

Context (Hbytes : Forall is_byte full) (Hlen : CHUNK_SIZE < n) (Hmax : zlength payload < PACKET_MAX_LENGTH)
  (Hopt : is_byte options) (Hchan : is_byte channel) (Hseq : 0 <= sequence < 4294967296) (Hcont : 0 <= container < 4294967296).

Lemma full_length : CHUNK_SIZE < n <= PACKET_MAX_LENGTH.
Proof. unfold n, full in *. rewrite zlength_cons in *. lia. Qed.

Lemma segment_of_ok id k : 0 <= id < 4294967296 -> 0 <= k < segment_count n -> ph_ok (segment_of id k).
Proof. intros. now apply segment_header_ok. Qed.

(** Every segment is recognised as one. *)
Lemma segment_flag id k : 0 <= k < segment_count n -> flag_segment (segment_of id k) || (0 <? ph_offset (segment_of id k)) = true.
Proof.
  intros Hk. pose proof full_length as Hf. destruct (segment_values full k) as (E1 & _); [fold n; unfold CHUNK_SIZE, MTU in *; lia|done|].
  cbn. rewrite E1. change CHUNK_SIZE with 1200 in *. assert (Hn : 1 <= n <= max_len) by (unfold max_len, PACKET_MAX_LENGTH in *; lia).
  destruct (segment_count_bounds n Hn) as [Hb _]. change CHUNK_SIZE with 1200 in Hb. destruct (Z.ltb_spec k (segment_count n - 1)); [done|]. cbn. apply Z.ltb_lt. lia.
Qed.

(** The effect of handing the whole packet over, as in [accept]. *)
Lemma hand_over header modes inbox (r : RemotePeer) now : ph_channel header = channel -> (channel <> 0 -> ph_sequence header = sequence) ->
  HandleIncomingPacket modes header (whole_packet (rp_id r) cmd payload) inbox r =
  match accept modes now (rp_id r) whole_message (mkInflow ∅ (channels r) inbox) with
  | Ret s => Ret (if_inbox s, set_channels (if_channels s) r)
  | Fail f => Fail f
  end.
Proof.
  intros Hch Hsq. unfold HandleIncomingPacket, GetChannelBuffer, accept. rewrite Hch. cbn [if_seen if_channels if_inbox mg_header whole_message ph_channel ph_sequence ph_id].
  change (packet_of (rp_id r) whole_message) with (whole_packet (rp_id r) cmd payload). rewrite lookup_empty. assert (Hsame : set_channels (channels r) r = r) by now destruct r.
  destruct (Z.eqb_spec channel 0) as [E0|E0]; [cbn; now rewrite Hsame|]. rewrite (Hsq E0).
  destruct (modes !! Z.to_nat channel) as [[]|]; cbn -[deliver]; rewrite ?Hsame; try done.
  all: match goal with |- context [deliver ?a ?b ?c ?d] => destruct (deliver a b c d) as [ps b'] end; cbn; rewrite insert_insert_eq; reflexivity.
Qed.

(** The state of the connection when segment [id] was put into the buffer [rb]. *)
Definition segment_noted (now id : Z) (c : CongestionControl) (rb : gmap Z SplitPacket) (r : RemotePeer) : RemotePeer :=
  set_assembly rb (noted now id c r).

(** What the loop makes of segment k: nothing is handed over before the last one. *)
Definition segment_effect (modes : list ChannelMode) (now k : Z) (r' : RemotePeer) (inbox : list Packet) : outcome (RemotePeer * list Packet) :=
  if k <? segment_count n - 1 then Ret (r', inbox) else
  match accept modes now (rp_id r') whole_message (mkInflow ∅ (channels r') inbox) with
  | Ret s => Ret (set_channels (if_channels s) r', if_inbox s)
  | Fail f => Fail f
  end.

Lemma queue_segment modes h inbox (r : RemotePeer) st st2 rb k now : ph_channel h = channel -> (channel <> 0 -> ph_sequence h = sequence) ->
  HandleSplitPacket (rp_id r) h (assembly r) st = Ret (if k <? segment_count n - 1 then None else Some (whole_packet (rp_id r) cmd payload), rb, st2) ->
  Queue_HandleSplitPacket modes h inbox r st = ('(r', inbox') ← segment_effect modes now k (set_assembly rb r) inbox; Ret (inbox', r', st2)).
Proof.
  intros Hch Hsq E. unfold Queue_HandleSplitPacket. rewrite (bind_ret _ _ _ _ _ E). unfold segment_effect. destruct (k <? segment_count n - 1); [done|].
  unfold lift. change (rp_id r) with (rp_id (set_assembly rb r)) at 1. rewrite (hand_over h modes inbox (set_assembly rb r) now Hch Hsq).
  now destruct (accept _ _ _ _ _).
Qed.

Lemma segment_round (p : Peer) i now t fuel pre id k w st r c inbox : (i < length (m_remotes p))%nat ->
  rel w st (cursor pre (wire_segment id k)) -> 7 <= zlength pre -> 0 <= id < 4294967296 -> 0 <= k < segment_count n ->
  congestion r = Some c -> m_packetHistory c !! id = None -> assembling container cmd payload k (assembly r) ->
  exists rb, delete container rb = delete container (assembly r) /\
    (if k <? segment_count n - 1 then assembling container cmd payload (k + 1) rb else rb = delete container (assembly r)) /\
    packet_loop no_address (S (S fuel)) now i PacketHeader_default st (at_slot i r inbox p) =
    ('(r', inbox') ← segment_effect (m_channels p) t k (segment_noted now id c rb r) inbox; Ret (tt, at_slot i r' inbox' p)).
Proof.
  intros Hi Hst Hpre Hid Hk Hc Hn Ha. unfold wire_segment in Hst. pose proof (segment_of_ok id k Hid Hk) as Hok.
  replace (chunk full k) with (chunk full k ++ []) in Hst by apply app_nil_r.
  destruct (sim_PacketHeader_Deserialize w PacketHeader_default pre (segment_of id k) _ Hok _ Hst) as (st1 & E1 & H1).
  set (h := ph_merge PacketHeader_default (segment_of id k)) in *. pose proof (segment_flag id k Hk) as Hflag.
  assert (Hseg : of_segment container cmd payload k h) by (unfold h, ph_merge, of_segment; rewrite Hflag; done).
  assert (Hs1 : rel false st1 (cursor (pre ++ wire_packet_header (segment_of id k)) (chunk full k ++ []))) by (split; [apply H1|discriminate]).
  destruct (next_segment (rp_id r) container cmd payload Hbytes full_length k h (assembly r) st1 _ [] Hk Hseg Ha Hs1) as (rb & st2 & H2 & Hdel & E2 & Hnext).
  exists rb. split; [exact Hdel|]. split; [exact Hnext|]. cbn [packet_loop]. rewrite (bind_lift _ _ _ _ E1). cbv beta iota. cbn [negb].
  change (ph_id h) with id. rewrite (bind_ret _ _ _ _ _ (notify_new p i now Hi _ _ _ _ Hc Hn)).
  assert (Es : forall r1, add_stat i PACKETS_RECEIVED 1 (at_slot i r1 inbox p) = Ret (tt, at_slot i (set_stats (Stats_Add PACKETS_RECEIVED 1 (stats r1)) r1) inbox p))
    by (intros r1; unfold add_stat; now rewrite on_slot_at).
  rewrite (bind_ret _ _ _ _ _ (Es _)). clear Es. change (flag_segment h || (0 <? ph_offset h)) with (flag_segment (segment_of id k) || (0 <? ph_offset (segment_of id k))).
  rewrite Hflag, bind_get, (bind_ret _ _ _ _ _ (slot_at _ _ _ _ Hi)). match goal with |- context [at_slot i ?x inbox p] => change x with (noted now id c r) end.
  change (m_channels (at_slot i (noted now id c r) inbox p)) with (m_channels p). change (m_inbox (at_slot i (noted now id c r) inbox p)) with inbox.
  assert (Hsq : channel <> 0 -> ph_sequence h = sequence) by (intros Hne; unfold h, ph_merge; cbn; now rewrite (proj2 (Z.eqb_neq _ _) Hne)).
  rewrite (queue_segment (m_channels p) h inbox (noted now id c r) st1 st2 rb k t eq_refl Hsq E2). unfold segment_noted.
  destruct (segment_effect _ _ _ _ _) as [[r' inbox']|f]; [|done]. cbn [mbind outcome_bind]. rewrite (bind_lift _ _ _ _ eq_refl). cbv beta iota.
  rewrite (bind_ret _ _ _ _ _ (set_slot_at _ _ _ _ _)), bind_modify, set_inbox_at.
  destruct (sim_header_eof false h ((pre ++ wire_packet_header (segment_of id k)) ++ chunk full k)) with (s := st2) as (st3 & E3 & _); [zlen|exact H2|].
  cbn [packet_loop]. now rewrite (bind_lift _ _ _ _ E3).
Qed.

(** ** One datagram per segment *)

Record arrival : Type := mkArrival { ar_now : Z; ar_entropy : Z; ar_datagram : Z; ar_packet : Z; ar_wire : list Z }.

(** The datagram with segment k, as the layer [l] of the receiver reads it. *)
Record brings (l : crypto) (k : Z) (a : arrival) : Prop := {
  br_ids : 0 <= ar_datagram a < 4294967296 /\ 0 <= ar_packet a < 4294967296;
  br_bytes : Forall is_byte (ar_wire a) /\ zlength (ar_wire a) <= max_len;
  br_plain : unseals l (ar_wire a) (wire_datagram_header (mkDH true true [] [] (ar_datagram a) (zlength (wire_segment (ar_packet a) k))) ++ wire_segment (ar_packet a) k);
}.

(** The connection after the datagram [a]: what it was, and the segment noted. *)
Record segment_taken (a : arrival) (rb : gmap Z SplitPacket) (r r' : RemotePeer) (c c' : CongestionControl) : Prop := {
  tk_congestion : congestion r' = Some c';
  tk_datagrams : m_datagramHistory c' = <[ar_datagram a := ar_now a]> (m_datagramHistory c);
  tk_packets : m_packetHistory c' = <[ar_packet a := ar_now a]> (m_packetHistory c);
  tk_assembly : assembly r' = rb;
  tk_channels : channels r' = channels r;
  tk_same : rp_id r' = rp_id r /\ active r' = active r /\ addr r' = addr r /\ handshake r' = handshake r /\ rp_crypto r' = rp_crypto r;
}.

Lemma wire_segment_length id k : 0 <= k < segment_count n -> 2 <= zlength (wire_segment id k) /\ zlength (wire_segment id k) + 7 <= MTU.
Proof.
  intros Hk. unfold wire_segment. pose proof (zlength_packet_header cmd payload (segment_of id k)) as Hh.
  assert (Hf : 1 <= zlength full <= PACKET_MAX_LENGTH) by (pose proof full_length as Hf; unfold CHUNK_SIZE, MTU, n in *; lia).
  destruct (segment_values full k Hf Hk) as (_ & _ & _ & _ & H5). rewrite zlength_app. unfold CHUNK_SIZE, MTU in *. lia.
Qed.

Lemma read_segment asio t (p : Peer) sender i r c l k a : connected p sender i r c l -> brings l k a -> 0 <= k < segment_count n ->
  m_datagramHistory c !! ar_datagram a = None -> m_packetHistory c !! ar_packet a = None -> assembling container cmd payload k (assembly r) ->
  exists rb r' c', segment_taken a rb r r' c c' /\ delete container rb = delete container (assembly r) /\
    (if k <? segment_count n - 1 then assembling container cmd payload (k + 1) rb else rb = delete container (assembly r)) /\
    OnReadFinished no_address make_layer asio (ar_now a) (ar_entropy a) false sender (map Some (ar_wire a)) p =
    ('(r', inbox') ← segment_effect (m_channels p) t k r' (m_inbox p); Ret (tt, at_slot i r' inbox' p)).
Proof.
  intros Hcn [[Hd Hp] [Hb Hm] Hu] Hk Hdn Hpn Ha. destruct (wire_segment_length (ar_packet a) k Hk) as [H2 H7].
  set (h := mkDH true true [] [] (ar_datagram a) (zlength (wire_segment (ar_packet a) k))) in *.
  destruct (read_datagram no_address make_layer asio (ar_now a) (ar_entropy a) p sender i r c l (ar_wire a) h (wire_segment (ar_packet a) k) Hcn Hb Hm)
    as (st & w & s & Hs & E); [unfold h; split; cbn [datagramID dataLength dh_acks dh_nacks]; unfold MTU in *; try constructor; lia|done|done|exact H2|exact Hu|].
  rewrite E, (proj2 (Z.ltb_ge MTU (zlength (wire_segment (ar_packet a) k) + 7))) by lia. destruct Hcn as [_ Hr Hc _ _]. pose proof (lookup_lt_Some _ _ _ Hr) as Hi.
  unfold h. rewrite (read_connected_data no_address p i (set_stats st r) c) by done. rewrite Hdn. unfold NotifyReceivedDatagram. rewrite Hdn. cbn [snd].
  match goal with |- context [set_congestion ?x _] => set (c1 := x) end.
  pose proof (rel_extent _ _ _ Hs) as He. cbn [cursor a_bytes] in He. rewrite zlength_app in He. pose proof (zlength_data_header true (ar_datagram a) (zlength (wire_segment (ar_packet a) k))) as Hh.
  fold h in Hh. assert (Hfuel : loop_fuel s = S (S (pred (Z.to_nat (extent s))))) by (unfold loop_fuel; lia). rewrite Hfuel.
  destruct (segment_round p i (ar_now a) t (pred (Z.to_nat (extent s))) (wire_datagram_header h) (ar_packet a) k w s (set_congestion c1 (set_stats st r)) c1 (m_inbox p)
    Hi Hs ltac:(lia) Hp Hk eq_refl Hpn Ha) as (rb & Hdel & Hnext & E2). rewrite E2.
  eexists rb, (segment_noted (ar_now a) (ar_packet a) c1 rb (set_congestion c1 (set_stats st r))), _. split; [split; reflexivity || done|]. done.
Qed.

(** ** All of them, in order *)

Fixpoint read_all (asio : Asio RemoteAddress) (sender : RemoteAddress) (arrivals : list arrival) : PM unit :=
  match arrivals with
  | [] => mret tt
  | a :: arrivals =>
      OnReadFinished no_address make_layer asio (ar_now a) (ar_entropy a) false sender (map Some (ar_wire a));;
      read_all asio sender arrivals
  end.

(** None of the datagrams and segments was seen, and no two have the same ID. *)
Record all_new (c : CongestionControl) (arrivals : list arrival) : Prop := {
  an_datagrams : NoDup (map ar_datagram arrivals);
  an_packets : NoDup (map ar_packet arrivals);
  an_unseen : forall a, a ∈ arrivals -> m_datagramHistory c !! ar_datagram a = None /\ m_packetHistory c !! ar_packet a = None;
}.

Lemma all_new_next c c' a arrivals rb (r r' : RemotePeer) : all_new c (a :: arrivals) -> segment_taken a rb r r' c c' -> all_new c' arrivals.
Proof.
  intros [Hd Hp Hu] T. inversion_clear Hd as [|? ? Hda Hd']. inversion_clear Hp as [|? ? Hpa Hp']. split; [done..|]. intros b Hb.
  rewrite (tk_datagrams _ _ _ _ _ _ T), (tk_packets _ _ _ _ _ _ T), !lookup_insert_ne; [apply Hu; now constructor| |].
  - intros E. apply Hpa. rewrite E. now apply (list_elem_of_fmap_2 ar_packet).
  - intros E. apply Hda. rewrite E. now apply (list_elem_of_fmap_2 ar_datagram).
Qed.

Lemma read_all_from asio t sender i l arrivals : forall k (p : Peer) r c, connected p sender i r c l ->
  Forall2 (brings l) (seqZ k (segment_count n - k)) arrivals -> 0 <= k < segment_count n -> all_new c arrivals ->
  assembling container cmd payload k (assembly r) ->
  match accept (m_channels p) t (rp_id r) whole_message (mkInflow ∅ (channels r) (m_inbox p)) with
  | Ret s => exists r', read_all asio sender arrivals p = Ret (tt, at_slot i r' (if_inbox s) p) /\
      channels r' = if_channels s /\ assembly r' = delete container (assembly r)
  | Fail f => read_all asio sender arrivals p = Fail f
  end.
Proof.
  induction arrivals as [|a arrivals IH]; intros k p r c Hcn Hf Hk Hn Ha.
  { apply Forall2_length in Hf. rewrite length_seqZ in Hf. cbn in Hf. lia. }
  rewrite seqZ_cons in Hf by lia. inversion_clear Hf as [|? ? ? ? Hb Hf'].
  destruct (an_unseen _ _ Hn a ltac:(constructor)) as [Hd Hp].
  destruct (read_segment asio t p sender i r c l k a Hcn Hb Hk Hd Hp Ha) as (rb & r' & c' & T & Hdel & Hnext & E).
  destruct (tk_same _ _ _ _ _ _ T) as (Hid & Hact & Had & Hhs & Hcr). cbn [read_all]. unfold segment_effect in E.
  rewrite Hid, (tk_channels _ _ _ _ _ _ T) in E. destruct (Z.ltb_spec k (segment_count n - 1)) as [Hlt|Hge].
  - rewrite (bind_ret _ _ _ _ _ E). pose proof (connected_again p sender i r c l r' c' (m_inbox p) Hcn Hact Had Hhs Hcr (tk_congestion _ _ _ _ _ _ T)) as Hcn'.
    rewrite <- (tk_assembly _ _ _ _ _ _ T) in Hnext, Hdel.
    pose proof (IH (k + 1) _ r' c' Hcn' ltac:(now replace (segment_count n - (k + 1)) with (Z.pred (segment_count n - k)) by lia) ltac:(lia)
      (all_new_next _ _ _ _ _ _ _ Hn T) Hnext) as H. rewrite Hid, (tk_channels _ _ _ _ _ _ T), Hdel in H.
    change (m_channels (at_slot i r' (m_inbox p) p)) with (m_channels p) in H. change (m_inbox (at_slot i r' (m_inbox p) p)) with (m_inbox p) in H.
    destruct (accept _ _ _ _ _) as [s|f]; [|exact H]. destruct H as (r2 & E2 & H2). exists r2. split; [|exact H2]. rewrite E2. do 2 f_equal.
    unfold at_slot, set_remotes, set_inbox. cbn. now rewrite list_insert_insert_eq.
  - assert (arrivals = []) as ->.
    { apply Forall2_length in Hf'. rewrite length_seqZ in Hf'. destruct arrivals; [done|]. cbn in Hf'. lia. }
    destruct (accept _ _ _ _ _) as [s|f]; [|now rewrite (bind_fail _ _ _ _ E)]. rewrite (bind_ret _ _ _ _ _ E).
    eexists. split; [reflexivity|]. split; [reflexivity|]. cbn. now rewrite (tk_assembly _ _ _ _ _ _ T), Hnext.
Qed.

(** Before the last segment the inbox stays as it is. *)
Lemma read_prefix asio sender i l arrivals : forall k (p : Peer) r c, connected p sender i r c l ->
  Forall2 (brings l) (seqZ k (zlength arrivals)) arrivals -> 0 <= k -> k + zlength arrivals < segment_count n -> all_new c arrivals ->
  assembling container cmd payload k (assembly r) ->
  exists r', read_all asio sender arrivals p = Ret (tt, at_slot i r' (m_inbox p) p) /\ channels r' = channels r.
Proof.
  induction arrivals as [|a arrivals IH]; intros k p r c Hcn Hf Hk Hlt Hn Ha.
  { exists r. split; [|done]. cbn. now rewrite at_slot_id by apply (cn_slot _ _ _ _ _ _ Hcn). }
  rewrite zlength_cons in *. pose proof (zlength_nonneg arrivals) as Hpos. rewrite seqZ_cons in Hf by lia. inversion_clear Hf as [|? ? ? ? Hb Hf'].
  destruct (an_unseen _ _ Hn a ltac:(constructor)) as [Hd Hp].
  destruct (read_segment asio 0 p sender i r c l k a Hcn Hb ltac:(lia) Hd Hp Ha) as (rb & r' & c' & T & _ & Hnext & E).
  destruct (tk_same _ _ _ _ _ _ T) as (_ & Hact & Had & Hhs & Hcr). unfold segment_effect in E.
  rewrite (proj2 (Z.ltb_lt k (segment_count n - 1))) in Hnext, E by lia. cbn [read_all]. rewrite (bind_ret _ _ _ _ _ E).
  pose proof (connected_again p sender i r c l r' c' (m_inbox p) Hcn Hact Had Hhs Hcr (tk_congestion _ _ _ _ _ _ T)) as Hcn'.
  rewrite <- (tk_assembly _ _ _ _ _ _ T) in Hnext.
  destruct (IH (k + 1) _ r' c' Hcn') as (r2 & E2 & H2); [now replace (zlength arrivals) with (Z.pred (1 + zlength arrivals)) by lia|lia|lia
    |exact (all_new_next _ _ _ _ _ _ _ Hn T)|exact Hnext|].
  exists r2. rewrite E2, H2, (tk_channels _ _ _ _ _ _ T). split; [|done]. do 2 f_equal. unfold at_slot, set_remotes, set_inbox. cbn. now rewrite list_insert_insert_eq.
Qed.
End Segments.
End SplitDelivery.

(** The segments of a packet with any command. *)
Lemma split_spec {host : Host} {sign : CharSign} {RemoteAddress : Type} {address_eq : EqDecision RemoteAddress} no_address
    {crypto : Type} {layer : EncryptionLayer crypto} make_layer {callback : Type} asio now
    (p : Peer RemoteAddress crypto callback) sender i r c l container options channel sequence cmd payload arrivals :
  connected p sender i r c l -> Forall is_byte (cmd :: payload) -> CHUNK_SIZE < zlength (cmd :: payload) -> zlength payload < PACKET_MAX_LENGTH ->
  is_byte options -> is_byte channel -> 0 <= sequence < 4294967296 -> 0 <= container < 4294967296 -> assembly r !! container = None ->
  Forall2 (brings container options channel sequence cmd payload l) (seqZ 0 (segment_count (zlength (cmd :: payload)))) arrivals -> all_new c arrivals ->
  (forall early late, arrivals = early ++ late -> late <> [] ->
     exists r', read_all no_address make_layer asio sender early p = Ret (tt, at_slot i r' (m_inbox p) p) /\ channels r' = channels r) /\
  match accept (m_channels p) now (rp_id r) (whole_message container options channel sequence cmd payload) (mkInflow ∅ (channels r) (m_inbox p)) with
  | Ret s => exists r', read_all no_address make_layer asio sender arrivals p = Ret (tt, at_slot i r' (if_inbox s) p) /\
      channels r' = if_channels s /\ assembly r' = assembly r
  | Fail f => read_all no_address make_layer asio sender arrivals p = Fail f
  end.
Proof.
  intros Hcn Hb Hl Hm Ho Hch Hsq Hct Hrb Hf Hn. set (n := zlength (cmd :: payload)) in *.
  assert (Hn1 : 1 <= n <= max_len) by (unfold n in *; rewrite zlength_cons in *; unfold max_len, PACKET_MAX_LENGTH, CHUNK_SIZE, MTU in *; lia).
  destruct (segment_count_bounds n Hn1) as [_ Hs].
  assert (Ha : assembling container cmd payload 0 (assembly r)).
  { destruct SplitPacket_new_rel as (split & E & Er & El & Hblob). exists split. split; [now right|]. done. }
  split.
  - intros early late -> Hlate. assert (Hlen := Hf). apply Forall2_length in Hlen. rewrite length_seqZ, length_app in Hlen.
    assert (Hll : (0 < length late)%nat) by (destruct late; cbn; [done|lia]).
    apply (read_prefix no_address make_layer container options channel sequence cmd payload Hb Hl Hm Ho Hch Hsq Hct asio sender i l early 0 p r c); try done; [| |].
    + replace (segment_count n) with (zlength early + zlength late) in Hf by (unfold zlength; lia).
      rewrite seqZ_app in Hf by apply zlength_nonneg. apply Forall2_app_inv in Hf as [Hf _]; [exact Hf|]. rewrite length_seqZ. unfold zlength. lia.
    + fold n. unfold zlength. lia.
    + destruct Hn as [H1 H2 H3]. rewrite map_app in H1, H2. apply list.NoDup_app in H1 as [H1 _]. apply list.NoDup_app in H2 as [H2 _]. split; [done..|].
      intros a Hin. apply H3. apply elem_of_app. now left.
  - pose proof (read_all_from no_address make_layer container options channel sequence cmd payload Hb Hl Hm Ho Hch Hsq Hct asio now sender i l arrivals 0 p r c Hcn) as H.
    fold n in H. rewrite Z.sub_0_r in H. specialize (H Hf ltac:(lia) Hn Ha). now rewrite (delete_id (assembly r)) in H.
Qed.

(** C8: a long user packet arrives whole.  When the segments that EnqueueOutgoing makes of
    a packet with a command of the user reach a connected peer in order, each in a
    datagram of its own that was not seen before, then every read handler but the last
    leaves the inbox and the channels as they are, and after the last one the peer is as
    if the packet had arrived in one piece: the abstract receiver says what is in the
    inbox and in the channels, the packet has its command and payload, and the reassembly
    buffer is as it was before the first segment. *)
Theorem split_message_delivery {host : Host} {sign : CharSign} {RemoteAddress : Type} {address_eq : EqDecision RemoteAddress} no_address
    {crypto : Type} {layer : EncryptionLayer crypto} make_layer {callback : Type} asio now
    (p : Peer RemoteAddress crypto callback) sender i r c l container options channel sequence cmd payload arrivals :
  connected p sender i r c l -> USER_PACKET <= cmd -> Forall is_byte (cmd :: payload) -> CHUNK_SIZE < zlength (cmd :: payload) -> zlength payload < PACKET_MAX_LENGTH ->
  is_byte options -> is_byte channel -> 0 <= sequence < 4294967296 -> 0 <= container < 4294967296 -> assembly r !! container = None ->
  Forall2 (brings container options channel sequence cmd payload l) (seqZ 0 (segment_count (zlength (cmd :: payload)))) arrivals -> all_new c arrivals ->
  (forall early late, arrivals = early ++ late -> late <> [] ->
     exists r', read_all no_address make_layer asio sender early p = Ret (tt, at_slot i r' (m_inbox p) p) /\ channels r' = channels r) /\
  match accept (m_channels p) now (rp_id r) (whole_message container options channel sequence cmd payload) (mkInflow ∅ (channels r) (m_inbox p)) with
  | Ret s => exists r', read_all no_address make_layer asio sender arrivals p = Ret (tt, at_slot i r' (if_inbox s) p) /\
      channels r' = if_channels s /\ assembly r' = assembly r
  | Fail f => read_all no_address make_layer asio sender arrivals p = Fail f
  end.
Proof.
  intros Hcn _. exact (split_spec no_address make_layer asio now p sender i r c l container options channel sequence cmd payload arrivals Hcn).
Qed.

(** C39: a long system packet is handed to the user.  The read handler of a packet that
    arrives whole looks at its command and handles those of the library itself; for a
    packet that was reassembled it does not.  When the segments of a packet of channel 0
    with such a command, for example an RPC signal whose parameters do not fit one
    datagram, have arrived in order, the packet is in the inbox of the application; no
    callback was called, and nothing but the slot and the inbox has changed. *)
Theorem split_system_packet_to_user {host : Host} {sign : CharSign} {RemoteAddress : Type} {address_eq : EqDecision RemoteAddress} no_address
    {crypto : Type} {layer : EncryptionLayer crypto} make_layer {callback : Type} asio
    (p : Peer RemoteAddress crypto callback) sender i r c l container options sequence cmd payload arrivals :
  connected p sender i r c l -> 0 <= cmd < USER_PACKET -> Forall is_byte payload -> CHUNK_SIZE < zlength (cmd :: payload) -> zlength payload < PACKET_MAX_LENGTH ->
  is_byte options -> 0 <= sequence < 4294967296 -> 0 <= container < 4294967296 -> assembly r !! container = None ->
  Forall2 (brings container options 0 sequence cmd payload l) (seqZ 0 (segment_count (zlength (cmd :: payload)))) arrivals -> all_new c arrivals ->
  exists r' p', read_all no_address make_layer asio sender arrivals p = Ret (tt, p') /\
    p' = at_slot i r' (m_inbox p ++ [mkPacket (rp_id r) cmd (zlength payload) (payload_ptr payload)]) p /\ p_calls p' = p_calls p.
Proof.
  intros Hcn Hcmd Hb Hl Hm Ho Hsq Hct Hrb Hf Hn.
  destruct (split_spec no_address make_layer asio 0 p sender i r c l container options 0 sequence cmd payload arrivals Hcn) as [_ H]; try done.
  - constructor; [|done]. unfold is_byte, USER_PACKET in *. lia.
  - destruct H as (r' & E & _). eexists r', _. split; [exact E|]. done.
Qed.

(** ** Witness *)

#[local] Instance demo_host : Host := {| little_endian := true; or_left_first := true |}.
#[local] Instance demo_sign : CharSign := {| char_signed := true |}.
Definition long_payload : list Z := replicate 1300 7.
Definition demo_arrival (cmd k : Z) : arrival :=
  let data := wire_segment 9 RELIABLE 0 0 cmd long_payload (10 + k) k in
  mkArrival (1000 + k) 0 (7 + k) (10 + k) (wire_datagram_header (mkDH true true [] [] (7 + k) (zlength data)) ++ data).

Lemma demo_brings cmd k : cmd ∈ [66; 6] -> k ∈ [0; 1] -> brings 9 RELIABLE 0 0 cmd long_payload tt k (demo_arrival cmd k).
Proof.
  intros [->|[->|[]%elem_of_nil]%elem_of_cons]%elem_of_cons [->|[->|[]%elem_of_nil]%elem_of_cons]%elem_of_cons; (split; [cbn; lia|split; [bytes_now|vm_compute; discriminate]|reflexivity]).
Qed.

Lemma split_message_delivery_witness :
  (exists r', read_all 0 (fun _ => Ret tt) demo_asio 5 [demo_arrival 66 0] online_peer = Ret (tt, at_slot 1 r' [] online_peer) /\ channels r' = ∅) /\
  (exists r', read_all 0 (fun _ => Ret tt) demo_asio 5 [demo_arrival 66 0; demo_arrival 66 1] online_peer =
     Ret (tt, at_slot 1 r' [mkPacket 22 66 1300 (Some (map Some long_payload))] online_peer) /\ channels r' = ∅ /\ assembly r' = ∅).
Proof.
  assert (H := split_message_delivery 0 (fun _ => Ret tt) demo_asio 1000 online_peer 5 1 online_remote (CongestionControl_new 10) tt
    9 RELIABLE 0 0 66 long_payload [demo_arrival 66 0; demo_arrival 66 1] demo_connected ltac:(unfold USER_PACKET; lia) ltac:(bytes_now) ltac:(reflexivity) ltac:(reflexivity)
    ltac:(unfold is_byte, RELIABLE; lia) ltac:(unfold is_byte; lia) ltac:(lia) ltac:(lia) ltac:(reflexivity)).
  destruct H as [Hearly Hall].
  - change (seqZ 0 (segment_count (zlength (66 :: long_payload)))) with [0; 1]. do 2 (constructor; [apply demo_brings; set_solver|]); constructor.
  - split; [bytes_now..|]. intros a _. split; reflexivity.
  - split; [exact (Hearly [demo_arrival 66 0] [demo_arrival 66 1] eq_refl ltac:(discriminate))|exact Hall].
Defined.

(** A signal whose parameters take two datagrams. *)
Lemma split_system_packet_to_user_witness : exists r' p', read_all 0 (fun _ => Ret tt) demo_asio 5 [demo_arrival RPC_SIGNAL 0; demo_arrival RPC_SIGNAL 1] online_peer = Ret (tt, p') /\
  p' = at_slot 1 r' [mkPacket 22 RPC_SIGNAL 1300 (Some (map Some long_payload))] online_peer /\ p_calls p' = [].
Proof.
  apply (split_system_packet_to_user 0 (fun _ => Ret tt) demo_asio online_peer 5 1 online_remote (CongestionControl_new 10) tt
    9 RELIABLE 0 RPC_SIGNAL long_payload [demo_arrival RPC_SIGNAL 0; demo_arrival RPC_SIGNAL 1] demo_connected ltac:(unfold USER_PACKET, RPC_SIGNAL; lia) ltac:(bytes_now)).
  - reflexivity.
  - reflexivity.
  - unfold is_byte, RELIABLE. lia.
  - lia.
  - lia.
  - reflexivity.
  - change (seqZ 0 (segment_count (zlength (RPC_SIGNAL :: long_payload)))) with [0; 1]. do 2 (constructor; [apply demo_brings; set_solver|]); constructor.
  - split; [bytes_now..|]. intros a _. split; reflexivity.
Defined.
