(* ===== verification/EndToEnd.v ===== *)
(** * EndToEnd: from the outbox of one peer to the inbox of the other

    The write cycle of a sender composed with the read handler of a receiver whose
    encryption layers are linked, through the laws of the layer. *)

From stdpp Require Import base tactics gmap sets list list_numbers numbers option.
From Stdlib Require Import ZArith Lia.
From S2P Require Import Prelude Memory BinaryStream StreamSpec StreamCodec Config PeerStats Packet Headers.
From S2P Require Import ChannelBuffer CongestionControl Reassembly ReceiptTracker RpcController Encryption Handshake Socket RemotePeer PacketQueue Peer PacketFlow HandshakeTheorems DatagramTheorems PeerFrame PeerInvariant PeerEvents Delivery.

Open Scope Z_scope.

(** The messages at the given places of the outbox. *)
Definition chosen (ms : list message) (q : list nat) : list message := omap (fun i => ms !! i) q.

Lemma picked_chosen ms q : picked (map wire_message ms) q = concat (map wire_message (chosen ms q)).
Proof.
  induction q as [|i q IH]; [done|]. change (i :: q) with ([i] ++ q). rewrite picked_app, IH. unfold picked, chosen.
  rewrite omap_app, map_app, concat_app. f_equal. cbn. change (map wire_message ms) with (wire_message <$> ms).
  rewrite list_lookup_fmap. destruct (ms !! i); cbn; done.
Qed.

Lemma chosen_Forall (P : message -> Prop) ms q : Forall P ms -> Forall P (chosen ms q).
Proof.
  intros H. apply List.Forall_forall. intros m Hm. apply list_elem_of_In, list_elem_of_omap in Hm as (j & _ & Hj). exact (Forall_lookup_1 _ _ _ _ H Hj).
Qed.

Lemma chosen_some ms q : q <> [] -> (forall j, j ∈ q -> is_Some (ms !! j)) -> chosen ms q <> [].
Proof. intros Hq Hin. destruct q as [|j q]; [done|]. destruct (Hin j ltac:(constructor)) as [m Hm]. unfold chosen. cbn. rewrite Hm. discriminate. Qed.

Section EndToEnd.
Context {host : Host} {RemoteAddress : Type} {crypto : Type} {layer : EncryptionLayer crypto} {laws : EncryptionLaws crypto}.
Abbreviation RemotePeer := (RemotePeer RemoteAddress).

(** A connection whose outbox holds the messages [ms], waiting for a first or
    another attempt, and that has no acknowledgements to send first. *)
Record sending (now : Z) (layers : gmap Z crypto) (l : crypto) (ms : list message) (c : CongestionControl) (r : RemotePeer) : Prop := {
  sd_congestion : congestion r = Some c;
  sd_numbers : 0 <= m_bytesInFlight c /\ 0 <= m_window c /\ 0 <= m_nextDatagram c < 4294967296;
  sd_acks : GetNeedsToSendAcks now c = false;
  sd_outbox : outbox_ok now c (outbox r) (map wire_message ms);
  sd_resend : Forall (resendable now) (outbox r);
  sd_address : Forall (fun m => op_crypto m = None /\ op_addr m = addr r) (outbox r);
  sd_connected : IsConnected r = true;
  sd_layer : exists k, rp_crypto r = Some k /\ layers !! k = Some l;
}.

(** The layer of the sender makes of a datagram what the other end can read. *)
Lemma protect_unseals entropy encryption l1 l2 blob a w : linked l1 l2 -> encryption && GetCryptoEstablished l1 = GetCryptoEstablished l2 ->
  rel w blob a -> zlength (a_bytes a) + 4096 <= max_len ->
  exists w' blob' a', protect entropy encryption (Some l1) blob = Ret (Some blob') /\ rel w' blob' a' /\ unseals l2 (a_bytes a') (a_bytes a).
Proof.
  intros Hl He Hb Hm. unfold protect, unseals. rewrite He. destruct (GetCryptoEstablished l2) eqn:E2.
  - destruct (law_encrypt l1 l2 entropy w blob a Hl Hb Hm) as (st & sealed & E & Hst & _ & Hdec). exists true, st, (cursor [] sealed).
    rewrite E. cbn. rewrite (law_no_error l1 l2 Hl). split; [done|]. split; [done|]. split; [|exact Hdec].
    exact (law_no_error l2 l1 (law_linked_sym _ _ Hl)).
  - exists w, blob, a. done.
Qed.

(** What a write cycle leaves of a connection after it sent the packets [q] in a
    datagram of [n] bytes. *)
Record wrote_out (now : Z) (c : CongestionControl) (q : list nat) (n : Z) (r r' : RemotePeer) : Prop := {
  wo_sent : forall i, i ∈ q -> exists m, outbox r !! i = Some m /\ Elapsed now (op_sendNext m) = true /\
    outbox r' !! i = Some (set_sendCount (op_sendCount m + 1) (schedule now c m));
  wo_kept : forall i, (i ∉ q) -> outbox r' !! i = outbox r !! i;
  wo_sentbox : exists d, sentbox r' = sentbox r ++ [d] /\ od_id d = m_nextDatagram c /\ od_packets d = queue_ids (outbox r) q;
  wo_congestion : congestion r' = Some (NotifySendingBytes now (m_nextDatagram c) n (snd (GetNextDatagramID c)));
  wo_frame : frame r r';
  wo_disconnect : disconnect r' = disconnect r;
  wo_receipt : rp_receipt r' = rp_receipt r;
}.

Lemma set_last_snoc blob (box : list (OutgoingDatagram RemoteAddress)) d :
  set_last_blob blob (box ++ [d]) = box ++ [mkDatagram (od_crypto d) blob (od_addr d) (od_id d) (od_discard d) (od_packets d)].
Proof.
  unfold set_last_blob. rewrite length_app. cbn [length]. replace (pred (length box + 1)) with (length box + 0)%nat by lia.
  now rewrite alter_app_r.
Qed.

Lemma write_spec now entropy encryption layers l1 l2 ms c (r : RemotePeer) : sending now layers l1 ms c r ->
  linked l1 l2 -> encryption && GetCryptoEstablished l1 = GetCryptoEstablished l2 ->
  (exists r', DoWriteCycle now entropy encryption false layers r = Ret (Idle, r') /\ (exists st, r' = set_stats st r) /\
     forall m, m ∈ outbox r -> suitable now (GetRetransmissionBudget c) true m = false /\ suitable now (GetTransmissionBudget c) false m = false) \/
  (exists q r' blob w a, DoWriteCycle now entropy encryption false layers r = Ret (Wrote (addr r) blob, r') /\ rel w blob a /\
     wrote_out now c q (m_length blob) r r' /\ q <> [] /\ NoDup q /\ (forall i, i ∈ q -> is_Some (ms !! i)) /\ zlength (concat (map wire_message (chosen ms q))) <= MTU /\
     unseals l2 (a_bytes a) (wire_datagram_header (mkDH true true [] [] (m_nextDatagram c) (zlength (concat (map wire_message (chosen ms q)))))
       ++ concat (map wire_message (chosen ms q)))).
Proof.
  intros [Hc (Hf & Hw & Hd) Ha Ho Hre Had Hcon (k & Hk & Hl)] Hlink Henc. unfold DoWriteCycle.
  set (r0 := set_stats _ r). unfold GetNextDatagram, get_congestion. change (congestion r0) with (congestion r). rewrite Hc.
  cbn [mbind outcome_bind]. rewrite Ha.
  destruct (MakeDatagram_spec now r0 c (map wire_message ms) Hc Hf Hw Ho Hre) as [[E Hno]|(q & d & r' & E & Hq & Hdg)].
  - left. exists r0. rewrite E. split; [done|]. split; [now eexists|done].
  - right. rewrite E. cbn [mbind outcome_bind].
    destruct (dg_first _ _ _ _ _ _ _ Hdg) as (i & m & Hi & Hm & Ecr & Ead).
    destruct (Forall_lookup_1 _ _ _ _ Had Hm) as [Hcr Hadr]. rewrite Hcr in Ecr.
    assert (El : datagram_layer layers d r' = Some l1).
    { unfold datagram_layer. rewrite Ecr, (fr_crypto _ _ (MakeDatagram_frame _ _ _ _ E)). change (rp_crypto r0) with (rp_crypto r). now rewrite Hk. }
    pose proof (dg_bytes _ _ _ _ _ _ _ Hdg) as Hbytes. change (IsConnected r0) with (IsConnected r) in Hbytes. rewrite Hcon in Hbytes.
    pose proof (dg_budget _ _ _ _ _ _ _ Hdg) as Hbud. rewrite picked_chosen in Hbytes, Hbud.
    destruct (protect_unseals entropy encryption l1 l2 _ _ _ Hlink Henc Hbytes) as (w & blob & a & Ep & Hrel & Hun).
    { cbn [at_end a_bytes]. rewrite zlength_app, zlength_data_header. unfold MTU, max_len in *. lia. }
    rewrite El, Ep. cbn [mbind outcome_bind]. rewrite (dg_next _ _ _ _ _ _ _ Hdg). cbn [mbind outcome_bind].
    assert (Ew : DoWriteCycle now entropy encryption false layers r = Ret (Wrote (addr r) blob, set_congestion (NotifySendingBytes now (od_id d) (m_length blob) (snd (GetNextDatagramID c)))
      (set_stats (Stats_Add DATAGRAMS_SENT 1 (Stats_Add BYTES_SENT (m_length blob) (stats r'))) (set_sentbox (set_last_blob blob (sentbox r')) r')))).
    { unfold DoWriteCycle. fold r0. unfold GetNextDatagram, get_congestion. change (congestion r0) with (congestion r). rewrite Hc. cbn [mbind outcome_bind]. rewrite Ha, E.
      cbn [mbind outcome_bind]. rewrite El, Ep. cbn [mbind outcome_bind]. rewrite (dg_next _ _ _ _ _ _ _ Hdg). cbn [mbind outcome_bind]. now rewrite Ead, Hadr. }
    eexists q, _, blob, w, a. split; [now rewrite Ead, Hadr|]. split; [done|]. split; [|split; [done|]].
    { pose proof (DoWriteCycle_frame now entropy encryption false layers r _ _ Ew) as Hfr. split.
      - intros j Hj. destruct (dg_sent _ _ _ _ _ _ _ Hdg j Hj) as (mj & t & Hmj & He & _ & Hj' & ->). exists mj. do 2 (split; [done|]). exact Hj'.
      - intros j Hj. exact (dg_kept _ _ _ _ _ _ _ Hdg j Hj).
      - cbn [sentbox set_congestion set_stats set_sentbox]. rewrite (dg_sentbox _ _ _ _ _ _ _ Hdg), set_last_snoc. eexists. split; [reflexivity|].
        split; [exact (dg_id _ _ _ _ _ _ _ Hdg)|exact (dg_packets _ _ _ _ _ _ _ Hdg)].
      - cbn. now rewrite (dg_id _ _ _ _ _ _ _ Hdg).
      - exact Hfr.
      - exact (dg_disconnect _ _ _ _ _ _ _ Hdg).
      - exact (dg_receipt _ _ _ _ _ _ _ Hdg). }
    split; [exact (dg_nodup _ _ _ _ _ _ _ Hdg)|]. split; [|split; [lia|exact Hun]].
    intros j Hj. destruct (dg_sent _ _ _ _ _ _ _ Hdg j Hj) as (mj & _ & Hmj & _).
    destruct (ob_lookup _ _ _ _ _ _ Ho Hmj) as (bs & Ebs & _). apply list_lookup_fmap_Some in Ebs as (x & _ & ->). eauto.
Qed.
End EndToEnd.


(** ** Witness *)

#[local] Instance demo_host : Host := {| little_endian := true; or_left_first := true |}.
#[local] Instance demo_sign : CharSign := {| char_signed := true |}.
Definition waiting (m : message) : OutgoingPacket Z := mkOut None (holding (wire_message m)) 5 50 0 3 RELIABLE.
Definition sending_remote : RemotePeer Z := set_outbox [waiting (demo_message 3 0 [1; 2])] online_remote.

Lemma demo_sending : sending 60 {[0 := tt]} tt [demo_message 3 0 [1; 2]] (CongestionControl_new 10) sending_remote.
Proof.
  split; try (vm_compute; done).
  - split.
    + constructor; [|constructor]. split; [|reflexivity]. exists (at_end (wire_message (demo_message 3 0 [1; 2]))). split; [|done].
      apply holding_rel; [bytes_now|vm_compute; discriminate].
    + intros p ->%list_elem_of_singleton. reflexivity.
  - constructor; [|constructor]. split; [reflexivity|]. vm_compute. split; [discriminate|reflexivity].
  - constructor; [|constructor]. done.
  - exists 0. done.
Qed.

Lemma singleton_queue {A} (x : A) q : q <> [] -> NoDup q -> (forall k, k ∈ q -> is_Some ([x] !! k)) -> q = [0%nat].
Proof.
  intros Hq Hnd Hin. destruct q as [|k q]; [done|]. assert (H0 : forall k', k' ∈ k :: q -> k' = 0%nat).
  { intros [|k'] Hk; [done|]. now destruct (Hin _ Hk). }
  rewrite (H0 k) in * by constructor. destruct q as [|k' q]; [done|]. exfalso. inversion_clear Hnd as [|? ? Hk _]. apply Hk.
  rewrite (H0 k') by (do 2 constructor). constructor.
Qed.

