(* ===== verification/Sessions.v ===== *)
(** * Sessions: two peers exchanging datagrams, and what a peer does over time

    A pair of peers whose datagrams are handed over in rounds, run as an example of
    the whole model; the invariant of every reachable peer; and the operations of
    Peer whose effect shows only later: stopping, timing out, binding again. *)

From stdpp Require Import base tactics gmap sets list list_numbers numbers option.
From Stdlib Require Import ZArith Lia.
From S2P Require Import Prelude Memory BinaryStream StreamSpec StreamCodec Config PeerStats Packet Headers.
From S2P Require Import ChannelBuffer CongestionControl Reassembly ReceiptTracker RpcController Encryption Handshake Socket RemotePeer PacketQueue Peer PacketFlow PeerFrame PeerInvariant PeerEvents Delivery.

Open Scope Z_scope.

(** ** Two peers *)

Section Network.
Context {host : Host} {sign : CharSign} {RemoteAddress : Type} {address_eq : EqDecision RemoteAddress} (no_address : RemoteAddress).
Context {crypto : Type} {layer : EncryptionLayer crypto} (make_layer : Z -> outcome crypto) {callback : Type}.
Context (asio : Asio RemoteAddress) (entropy : Z) (addr_a addr_b : RemoteAddress).

Abbreviation Peer := (Peer RemoteAddress crypto callback).

Definition happens (now : Z) (e : event) (p : Peer) : outcome Peer :=
  '(_, p) ← exec no_address make_layer asio now entropy e p; mret p.

(** The bytes of the datagrams that were written after the first n. *)
Definition sent_since (n : nat) (p : Peer) : list (list cell) :=
  map (fun '(_, d) => match deref_ro d with Ret l => ztake (m_length d) l | Fail _ => [] end) (drop n (written (m_masterSocket p))).

Fixpoint feed (now : Z) (from : RemoteAddress) (ds : list (list cell)) (p : Peer) : outcome Peer :=
  match ds with [] => Ret p | d :: ds => p ← happens now (Ev_read false from d) p; feed now from ds p end.

(** A round: both workers run, the writes complete, the datagrams arrive. *)
Definition exchange (now : Z) (a b : Peer) : outcome (Peer * Peer) :=
  let na := length (written (m_masterSocket a)) in let nb := length (written (m_masterSocket b)) in
  a ← happens now Ev_worker a; b ← happens now Ev_worker b;
  a ← happens now (Ev_written 0 false) a; b ← happens now (Ev_written 0 false) b;
  let da := sent_since na a in let db := sent_since nb b in
  b ← feed now addr_a da b; a ← feed now addr_b db a; mret (a, b).

Fixpoint exchanges (n : nat) (now : Z) (a b : Peer) : outcome (Peer * Peer) :=
  match n with
  | O => Ret (a, b)
  | S n => '(a, b) ← exchange now a b; exchanges n (Timestamp_add now (FromMilliseconds 20)) a b
  end.

Abbreviation reachable := (reachable no_address make_layer).

Lemma happens_reachable now e p p' : reachable p -> happens now e p = Ret p' -> reachable p'.
Proof. unfold happens. intros H E. destruct (exec _ _ _ _ _ _ p) as [[[] q]|] eqn:Ex; [|discriminate]. injection E as <-. exact (reach_exec _ _ _ _ _ _ _ _ H Ex). Qed.

Lemma feed_reachable now from ds : forall p p', reachable p -> feed now from ds p = Ret p' -> reachable p'.
Proof.
  induction ds as [|d ds IH]; intros p p' H E; cbn [feed] in E; [now injection E as <-|]. apply obind_inv in E as (p1 & E1 & E).
  exact (IH _ _ (happens_reachable _ _ _ _ H E1) E).
Qed.

Lemma exchange_reachable now a b a' b' : reachable a -> reachable b -> exchange now a b = Ret (a', b') -> reachable a' /\ reachable b'.
Proof.
  intros Ha Hb E. unfold exchange in E. run_all.
  split; (eapply feed_reachable; [|eassumption]); (eapply happens_reachable; [|eassumption]); (eapply happens_reachable; [|eassumption]); done.
Qed.

Lemma exchanges_reachable n : forall now a b a' b', reachable a -> reachable b -> exchanges n now a b = Ret (a', b') -> reachable a' /\ reachable b'.
Proof.
  induction n as [|n IH]; intros now a b a' b' Ha Hb E; cbn [exchanges] in E; [run_all; done|].
  apply obind_inv in E as ([a1 b1] & E1 & E). destruct (exchange_reachable _ _ _ _ _ Ha Hb E1) as [Ha1 Hb1]. exact (IH _ _ _ _ _ Ha1 Hb1 E).
Qed.
End Network.

(** ** A session, run *)

Module Demo.
#[export] Instance demo_host : Host := {| little_endian := true; or_left_first := true |}.
#[export] Instance demo_sign : CharSign := {| char_signed := true |}.

(** Addresses are numbers; a host name of one character is its own address. *)
Definition net : Asio Z :=
  mkAsio (fun _ hostname _ => match hostname with [] => None | a :: _ => Some [a] end) (fun _ _ => Bound) (fun a => [a]).
Abbreviation DemoPeer := (Peer Z unit Z).
Definition does (now : Z) (e : event) (p : DemoPeer) : outcome DemoPeer := happens 0 (fun _ => Ret tt) net 0 now e p.
Definition talk (n : nat) (now : Z) (a b : DemoPeer) : outcome (DemoPeer * DemoPeer) := exchanges 0 (fun _ => Ret tt) net 0 1 2 n now a b.

(** A client (ID 11, address 1) connects to a server (ID 22, address 2). *)
Definition opening (n : nat) : outcome (DemoPeer * DemoPeer) :=
  a ← Peer_new 0 [11] 2; b ← Peer_new 0 [22] 2;
  a ← does 1000 (Ev_Bind IPv4 0) a; b ← does 1000 (Ev_Bind IPv4 7) b;
  b ← does 1000 (Ev_SetMaximumIncomingPeers 2) b;
  a ← does 1000 (Ev_Connect [2] 7 None) a; a ← does 1000 Ev_connected a;
  talk n 2000 a b.

(** The client sends two messages, one with a receipt, and disconnects. *)
Definition conversation : outcome (DemoPeer * DemoPeer) :=
  '(a, b) ← opening 3;
  a ← does 100000000 (Ev_Send (mkPacket 0 66 2 (Some [Some 5; Some 6])) 22 RELIABLE Channel_default) a;
  a ← does 100000000 (Ev_Send (mkPacket 0 67 1 (Some [Some 7])) 22 (options_or RELIABLE WITH_RECEIPT) Channel_default) a;
  '(a, b) ← talk 6 100000000 a b;
  a ← does 300000000 (Ev_Disconnect 22 1000000000) a;
  talk 3 300000000 a b.

Definition heard (p : DemoPeer) : list (Z * Z) := map (fun m => (pk_command m, pk_sender m)) (m_inbox p).
End Demo.
Import Demo.

(** The handshake, two messages in order, the receipt, and the goodbye. *)
Example conversation_runs : exists a b, conversation = Ret (a, b) /\
  heard a = [(NOTIFY_CONNECT_SUCCESS, 22); (NOTIFY_RECEIPT_ACKED, 1); (NOTIFY_DISCONNECTED, 22)] /\
  heard b = [(NOTIFY_CONNECTION_INCOMING, 11); (66, 11); (67, 11); (NOTIFY_DISCONNECTED, 11)] /\
  GetAllConnectedPeers a = [] /\ GetAllConnectedPeers b = [].
Proof.
  destruct conversation as [[a b]|] eqn:E; [|vm_compute in E; discriminate]. exists a, b. vm_compute in E. injection E as <- <-. done.
Qed.

(** ** The lookups *)

Section Lookup.
Context {host : Host} {RemoteAddress : Type} {crypto : Type} {callback : Type}.
Abbreviation Peer := (Peer RemoteAddress crypto callback).

(** Every entry of the cache names the first slot in use that has the ID. *)
Definition coherent (p : Peer) : Prop := forall id i, m_remoteLookup p !! id = Some i -> (1 <= i)%nat /\ Z.of_nat i < m_remotesMax p /\
  (exists r, m_remotes p !! i = Some r /\ rp_id r = id /\ active r = true) /\
  forall j r, (1 <= j < i)%nat -> m_remotes p !! j = Some r -> active r = true -> rp_id r <> id.

Lemma find_index_first {A} (test : A -> bool) l i x : l !! i = Some x -> test x = true -> (forall j y, (j < i)%nat -> l !! j = Some y -> test y = false) ->
  find_index test l = Some i.
Proof.
  revert i. induction l as [|y l IH]; intros i Hi Ht Hu; [done|]. cbn. destruct i as [|i]; cbn in Hi.
  - injection Hi as ->. now rewrite Ht.
  - rewrite (Hu 0%nat y) by (done || lia). rewrite (IH i Hi Ht); [done|]. intros j z Hj Hz. apply (Hu (S j)); [lia|done].
Qed.

Lemma find_index_before {A} (test : A -> bool) l i j y : find_index test l = Some i -> (j < i)%nat -> l !! j = Some y -> test y = false.
Proof.
  revert i j. induction l as [|x l IH]; intros i j E Hj Hy; [done|]. cbn in E. destruct (test x) eqn:Et; [injection E as <-; lia|].
  destruct (find_index test l) as [k|]; [|discriminate]. injection E as <-. destruct j as [|j]; cbn in Hy; [congruence|]. apply (IH k j eq_refl); [lia|done].
Qed.

Lemma search_found (p : Peer) id i : coherent p -> m_remoteLookup p !! id = Some i -> search_id id p = Some i.
Proof.
  intros Hc Hi. destruct (Hc id i Hi) as (H1 & H2 & (r & Hr & Hid & Ha) & Hfirst). unfold search_id, find_slot, numbered.
  destruct i as [|i]; [lia|]. rewrite (find_index_first _ _ i r); [done| | |].
  - rewrite lookup_drop, lookup_take_lt by lia. exact Hr.
  - rewrite Hid, Z.eqb_refl. exact Ha.
  - intros j y Hj Hy. rewrite lookup_drop in Hy. apply lookup_take_Some in Hy as [Hy _]. destruct (active y) eqn:Ey; [|apply andb_false_r].
    rewrite (proj2 (Z.eqb_neq _ _)); [done|]. apply (Hfirst (1 + j)%nat y); [lia|done|done].
Qed.

(** What the search finds is the first. *)
Lemma search_first (p : Peer) id i j r : search_id id p = Some i -> (1 <= j < i)%nat -> m_remotes p !! j = Some r -> active r = true -> rp_id r <> id.
Proof.
  intros E Hj Hr Ha Hid. destruct (found_slot _ _ _ E) as (_ & _ & _ & _ & Hlt). unfold search_id, find_slot, numbered in E.
  destruct (find_index _ _) as [k|] eqn:Ek; [|discriminate]. injection E as <-. destruct j as [|j]; [lia|].
  assert (Hf : (rp_id r =? id) && active r = false); [|now rewrite Hid, Z.eqb_refl, Ha in Hf].
  apply (find_index_before (fun r => (rp_id r =? id) && active r) _ k j r Ek); [lia|]. rewrite lookup_drop, lookup_take_lt by lia. exact Hr.
Qed.
End Lookup.

(** C33: the two versions of GetRemoteByID, of which one fills a cache and both
    consult it, agree with the linear search over the slots as long as every entry of
    the cache names the first slot in use that has its ID; the caching version keeps it
    that way and changes nothing else. *)
Theorem lookups_agree {RemoteAddress crypto callback : Type} (p : Peer RemoteAddress crypto callback) id : coherent p ->
  GetRemoteByID_const id p = search_id id p /\
  exists m, GetRemoteByID id p = Ret (search_id id p, set_lookup m p) /\ coherent (set_lookup m p).
Proof.
  intros H. unfold GetRemoteByID_const, GetRemoteByID. rewrite bind_get. destruct (m_remoteLookup p !! id) as [i|] eqn:E.
  - rewrite (search_found p id i H E). split; [done|]. exists (m_remoteLookup p). destruct p; done.
  - split; [done|]. destruct (search_id id p) as [i|] eqn:Es; [|exists (m_remoteLookup p); destruct p; done].
    exists (<[id := i]> (m_remoteLookup p)). split; [done|]. destruct (found_slot _ _ _ Es) as (Hi & r & Hr & Ht & Hlt).
    apply andb_true_iff in Ht as [Ht1%Z.eqb_eq Ht2]. unfold coherent. cbn [m_remoteLookup set_lookup m_remotes m_remotesMax]. intros id' j [[<- <-]|[_ Hj]]%lookup_insert_Some; [|exact (H id' j Hj)].
    split; [lia|]. split; [exact Hlt|]. split; [now exists r|]. intros j' r' Hj' Hr' Ha'. exact (search_first p id i j' r' Es Hj' Hr' Ha').
Qed.

(** C2: in every state that a peer can reach from its constructor, whatever calls,
    completions, datagrams and rounds of the worker happened before and whatever the
    socket, the clock and the generators answered: the slot table keeps its size; a
    slot in use has its congestion manager and receipt tracker, and one that is not
    in use has no handshake; a handshake and a layer come together, and the layer
    exists; no packet of an outbox is empty; slot 0 never holds a connection and is
    taken whenever the socket is open; the lookup cache names slots 1 and up; channel
    0 is the unordered one, there are at most 255, and no more incoming peers are
    allowed than slots. *)
Theorem peer_invariant {host : Host} {sign : CharSign} {RemoteAddress : Type} {address_eq : EqDecision RemoteAddress} (no_address : RemoteAddress)
    {crypto : Type} {layer : EncryptionLayer crypto} make_layer {callback : Type} (p : Peer RemoteAddress crypto callback) :
  reachable no_address make_layer p -> peer_inv p.
Proof. apply reachable_inv. Qed.

(** ** Stopping *)

Section Stop.
Context {host : Host} {RemoteAddress : Type} (no_address : RemoteAddress) {crypto : Type} {callback : Type}.
Abbreviation Peer := (Peer RemoteAddress crypto callback).

Lemma set_remotes_id (p : Peer) : set_remotes (m_remotes p) p = p.
Proof. now destruct p. Qed.

Lemma slot_here i (p : Peer) : (i < length (m_remotes p))%nat -> exists r, m_remotes p !! i = Some r /\ slot i p = Ret (r, p).
Proof. intros Hi. destruct (lookup_lt_is_Some_2 _ _ Hi) as [r Hr]. exists r. split; [done|]. unfold slot. rewrite bind_get, Hr. done. Qed.

(** Without a linger time the first loop only marks the slots. *)
Lemma stop_marks now l : forall p : Peer, Forall (fun i => (i < length (m_remotes p))%nat) l ->
  exists rs, Stop_begin now 0 l p = Ret (tt, set_remotes rs p) /\ length rs = length (m_remotes p).
Proof.
  induction l as [|i l IH]; intros p Hl; [exists (m_remotes p); now rewrite set_remotes_id|]. inversion_clear Hl as [|? ? Hi Hl'].
  cbn [Stop_begin]. destruct (slot_here i p Hi) as (r & Hr & E). rewrite (bind_ret _ _ _ _ _ E). change (0 <? 0) with false. rewrite andb_false_r.
  unfold set_slot. rewrite bind_modify. set (p1 := set_remotes _ p).
  destruct (IH p1) as (rs & E1 & Hlen); [unfold p1; cbn [m_remotes set_remotes]; now rewrite length_insert|].
  exists rs. rewrite E1. split; [done|]. rewrite Hlen. unfold p1. cbn [m_remotes set_remotes]. now rewrite length_insert.
Qed.

(** The second loop empties them. *)
Lemma resets l : forall p : Peer, Forall (fun i => (i < length (m_remotes p))%nat) l ->
  exists rs, reset_slots no_address l p = Ret (tt, set_remotes rs p) /\ length rs = length (m_remotes p) /\
    (forall i, i ∈ l -> rs !! i = Some (RemotePeer_new no_address)) /\ (forall i, i ∉ l -> rs !! i = m_remotes p !! i).
Proof.
  induction l as [|i l IH]; intros p Hl.
  { exists (m_remotes p). rewrite set_remotes_id. repeat (split; [done|]). split; [|done]. intros i Hi. now apply not_elem_of_nil in Hi. }
  inversion_clear Hl as [|? ? Hi Hl']. cbn [reset_slots]. destruct (slot_here i p Hi) as (r & Hr & E).
  unfold reset_slot, set_slot. rewrite (bind_ret _ _ _ tt (set_remotes (<[i := RemotePeer_new no_address]> (m_remotes p)) p)).
  2:{ rewrite (bind_ret _ _ _ _ _ E). done. }
  set (p1 := set_remotes _ p). destruct (IH p1) as (rs & E1 & Hlen & Hin & Hout); [unfold p1; cbn [m_remotes set_remotes]; now rewrite length_insert|].
  unfold p1 in *. cbn [m_remotes set_remotes] in *. rewrite length_insert in Hlen.
  exists rs. split; [exact E1|]. split; [done|]. split.
  - intros j [->|Hj]%elem_of_cons; [|now apply Hin]. destruct (decide (i ∈ l)) as [Hil|Hil]; [now apply Hin|].
    rewrite (Hout _ Hil). apply list_lookup_insert_eq. exact Hi.
  - intros j [Hj1 Hj2]%not_elem_of_cons. rewrite (Hout _ Hj2). apply list_lookup_insert_ne. congruence.
Qed.

(** Stop() with its default argument. *)
Lemma stop_spec now (p : Peer) : peer_inv p ->
  exists rs p', (Stop_begin now 0 (slot_numbers p);; Stop_end no_address) p = Ret (tt, p') /\
    p' = set_socket (Unbind (m_masterSocket p)) (set_remotes rs p) /\ length rs = length (m_remotes p) /\
    forall i, (1 <= i < length (m_remotes p))%nat -> rs !! i = Some (RemotePeer_new no_address).
Proof.
  intros H. assert (Hlen : Z.to_nat (m_remotesMax p) = length (m_remotes p)) by (rewrite <- (pi_size _ H); unfold zlength; lia).
  assert (Hl : forall n, n = length (m_remotes p) -> Forall (fun i => (i < n)%nat) (slot_numbers p)).
  { intros n ->. unfold slot_numbers. apply List.Forall_forall. intros i Hi%list_elem_of_In. rewrite elem_of_seq in Hi. lia. }
  destruct (stop_marks now (slot_numbers p) p (Hl _ eq_refl)) as (rs0 & E0 & Hlen0). rewrite (bind_ret _ _ _ _ _ E0).
  unfold Stop_end. rewrite bind_get. change (slot_numbers (set_remotes rs0 p)) with (slot_numbers p).
  destruct (resets (slot_numbers p) (set_remotes rs0 p)) as (rs & E1 & Hlen1 & Hin & _); [apply Hl; exact Hlen0|].
  rewrite (bind_ret _ _ _ _ _ E1). exists rs. eexists. split; [reflexivity|]. split; [done|]. cbn [m_remotes set_remotes] in Hlen1.
  split; [congruence|]. intros i Hi. apply Hin. unfold slot_numbers. rewrite elem_of_seq. lia.
Qed.
End Stop.

(** Queueing on a slot without a congestion manager. *)
Lemma enqueue_unset {host : Host} {RemoteAddress : Type} now modes packet cmd payload options channel (r : RemotePeer RemoteAddress) :
  holds packet cmd payload -> is_byte cmd -> Forall is_byte payload -> zlength payload <= PACKET_MAX_LENGTH ->
  IsDisconnecting r = false -> congestion r = None -> EnqueueOutgoing now modes packet options channel r = Fail NullPointer.
Proof.
  intros Hh Hc Hp Hl Hd Hn. pose proof (zlength_nonneg payload) as H0. unfold EnqueueOutgoing. rewrite Hd.
  assert (Elen : GetDatagramLength packet = 1 + zlength payload).
  { unfold GetDatagramLength, PACKET_MAX_LENGTH in *. rewrite (hd_len _ _ _ Hh), u64_small by lia. lia. }
  destruct (BinaryStream_new_rel (1 + zlength payload)) as (s0 & E0 & Hs0); [unfold max_len, PACKET_MAX_LENGTH in *; lia|].
  destruct (sim_ToDatagram packet cmd payload (at_end []) [] Hh Hc Hp ltac:(constructor)) with (s := s0) as (full & Ef & _);
    [unfold roomy, max_len, PACKET_MAX_LENGTH, zlength in *; cbn; lia|exact Hs0|].
  rewrite Elen, E0. cbn [mbind outcome_bind]. rewrite Ef. cbn [mbind outcome_bind]. unfold get_congestion. now rewrite Hn.
Qed.

(** Stop() empties every slot but not the lookup cache.  After it no peer is
    connected, yet sending to one whose ID was cached does not return 0 as for any
    other unknown recipient: it follows the cached pointer to the empty slot and
    dereferences its congestion manager, which is null. *)
Theorem send_after_stop {host : Host} {sign : CharSign} {RemoteAddress : Type} {address_eq : EqDecision RemoteAddress} (no_address : RemoteAddress)
    {crypto : Type} {layer : EncryptionLayer crypto} make_layer {callback : Type} (p : Peer RemoteAddress crypto callback)
    id i now now' packet cmd payload options channel :
  reachable no_address make_layer p -> m_remoteLookup p !! id = Some i ->
  holds packet cmd payload -> is_byte cmd -> Forall is_byte payload -> zlength payload <= PACKET_MAX_LENGTH ->
  exists p', (Stop_begin now 0 (slot_numbers p);; Stop_end no_address) p = Ret (tt, p') /\ GetAllConnectedPeers p' = [] /\
    Send now' packet id options channel p' = Fail NullPointer.
Proof.
  intros Hre Hi Hh Hc Hp Hl. pose proof (reachable_inv _ _ _ Hre) as H.
  destruct (stop_spec no_address now p H) as (rs & p' & E & Ep & Hlen & Hrs). exists p'. split; [exact E|]. subst p'. split.
  - unfold GetAllConnectedPeers. destruct (filter _ _) as [|r l] eqn:Ef; [done|]. exfalso.
    assert (Hr : r ∈ r :: l) by constructor. rewrite <- Ef in Hr. apply list_elem_of_filter in Hr as [Hcon Hr].
    apply list_elem_of_lookup_1 in Hr as [j Hj]. unfold numbered in Hj. rewrite lookup_drop in Hj. apply lookup_take_Some in Hj as [Hj _].
    cbn [m_remotes set_socket set_remotes] in Hj. pose proof (lookup_lt_Some _ _ _ Hj).
    rewrite (Hrs (1 + j)%nat) in Hj by lia. injection Hj as <-. discriminate.
  - unfold Send. pose proof (zlength_nonneg payload) as H0. rewrite (hd_len _ _ _ Hh), (proj2 (Z.ltb_ge _ _)) by done.
    erewrite bind_ret; [|unfold GetRemoteByID; rewrite bind_get; cbn [m_remoteLookup set_socket set_remotes]; rewrite Hi; reflexivity].
    cbv beta iota. rewrite bind_get.
    assert (Hr : rs !! i = Some (RemotePeer_new no_address)).
    { apply Hrs. pose proof (pi_lookup _ H _ _ Hi). pose proof (pi_size _ H). unfold zlength in *. lia. }
    erewrite on_slot_start by exact Hr. rewrite (enqueue_unset now' _ packet cmd payload options channel _ Hh Hc Hp Hl); done.
Qed.

(** ** Timing out *)

Section Worker.
Context {host : Host} {RemoteAddress : Type} (no_address : RemoteAddress) {crypto : Type} {layer : EncryptionLayer crypto} {callback : Type}.
Abbreviation Peer := (Peer RemoteAddress crypto callback).
Abbreviation RemotePeer := (RemotePeer RemoteAddress).

(** The notification of a receipt. *)
Definition receipt_note (rc : receipt) (n : Packet) : Prop :=
  holds n (if rc.2 then NOTIFY_RECEIPT_ACKED else NOTIFY_RECEIPT_LOST) (be_bytes 4 rc.1).

Lemma receipt_posted rc (p : Peer) : exists m, OnMessageReceipt rc p = Ret (tt, set_inbox (m_inbox p ++ [m]) p) /\ receipt_note rc m.
Proof.
  unfold OnMessageReceipt. destruct (BinaryStream_new_rel 4) as (s0 & E0 & H0); [unfold max_len; lia|]. rewrite (bind_lift _ _ _ _ E0).
  destruct (sim_app_int32 (at_end []) [] (fst rc) ltac:(constructor) ltac:(unfold roomy, max_len, zlength; cbn; lia) s0 H0) as (s1 & E1 & H1).
  rewrite (bind_lift _ _ _ _ E1). cbv beta iota.
  destruct (Packet_take_stream_holds (if snd rc then NOTIFY_RECEIPT_ACKED else NOTIFY_RECEIPT_LOST) s1 _ H1) as (m & s2 & E2 & Hm & _).
  rewrite (bind_lift _ _ _ _ E2). cbv beta iota. unfold SendLoopback, EnqueueLoopback. rewrite bind_get.
  destruct (Packet_copy_holds (SetSender (fst rc) m) _ _ ltac:(destruct Hm; split; eassumption) (rf_max _ _ (proj1 H1))) as (m' & E3 & Hm' & _).
  rewrite E3. exists m'. split; [done|exact Hm'].
Qed.

Lemma receipts_noted rs : forall p : Peer, exists l, post_receipts rs p = Ret (tt, set_inbox (m_inbox p ++ l) p) /\ Forall2 receipt_note rs l.
Proof.
  induction rs as [|rc rs IH]; intros p; cbn [post_receipts]; [exists []; rewrite app_nil_r; split; [now destruct p|constructor]|].
  destruct (receipt_posted rc p) as (m & E & Hm). rewrite (bind_ret _ _ _ _ _ E). destruct (IH (set_inbox (m_inbox p ++ [m]) p)) as (l & E' & Hl).
  exists ([m] ++ l). rewrite E'. split; [cbn; now rewrite <- app_assoc|now constructor].
Qed.
Lemma receipts_posted rs (p : Peer) : exists l, post_receipts rs p = Ret (tt, set_inbox (m_inbox p ++ l) p).
Proof. destruct (receipts_noted rs p) as (l & E & _). eauto. Qed.

Lemma update_keeps now (r : RemotePeer) : let r' := (update_receipts now (update_congestion now r)).2 in
  handshake r' = handshake r /\ disconnect r' = disconnect r /\ rp_id r' = rp_id r.
Proof.
  unfold update_receipts, update_congestion. destruct (congestion r); [destruct (Update _ _ _)|].
  all: cbn [rp_receipt set_congestion set_stats]; destruct (rp_receipt r); [|done]; destruct (Receipt_Update _ _ _) as [[] ?]; done.
Qed.
End Worker.

(** C38: the worker thread ends with the first disconnection that it carries out.
    When the time of an established connection that is being disconnected has come,
    the round of the worker closes it, tells the user, and returns from the thread:
    the slots after it are not served, and nothing starts the thread again, so from
    then on the peer sends nothing to anyone. *)
Theorem worker_stops {host : Host} {RemoteAddress : Type} (no_address : RemoteAddress) {crypto : Type} {layer : EncryptionLayer crypto}
    {callback : Type} now entropy i slots (p : Peer RemoteAddress crypto callback) r h :
  m_remotes p !! i = Some r -> active r = true -> handshake r = Some h -> m_result h = result_code CR_OK ->
  IsDisconnecting r = true -> Elapsed now (disconnect r) = true ->
  exists l, worker_slots no_address now entropy (i :: slots) p =
    Ret (true, set_lookup (delete (rp_id r) (m_remoteLookup p))
      (at_slot i (RemotePeer_new no_address) ((m_inbox p ++ l) ++ [mkPacket (rp_id r) NOTIFY_DISCONNECTED 0 None]) p)).
Proof.
  intros Hr Ha Hh Hres Hd He. pose proof (lookup_lt_Some _ _ _ Hr) as Hi. cbn [worker_slots].
  destruct (update_keeps now r) as (Uh & Ud & Ui). destruct (update_receipts now (update_congestion now r)) as [rs r2] eqn:Eu. cbn [snd] in *.
  destruct (receipts_posted rs (at_slot i r2 (m_inbox p) p)) as (l & El). exists l.
  match goal with |- _ = Ret (true, ?X) => rewrite (bind_ret _ _ _ true X); [reflexivity|] end.
  unfold worker_slot. destruct (slot_here i p Hi) as (r' & Hr' & E). assert (r' = r) as -> by congruence.
  rewrite (bind_ret _ _ _ _ _ E), Ha, Hh. cbv beta iota. cbn [negb].
  replace (IsDone h) with true by (unfold IsDone; now rewrite Hres). rewrite bind_mret.
  erewrite bind_ret by (rewrite (on_slot_start i r p _ Hr); reflexivity).
  erewrite bind_ret by (rewrite on_slot_at by exact Hi; cbn [mbind outcome_bind mret outcome_ret]; rewrite Eu; reflexivity).
  rewrite (bind_ret _ _ _ _ _ El), set_inbox_at. 
  rewrite (bind_ret _ _ _ _ _ (slot_at _ _ _ _ Hi)), Ud. unfold IsDisconnecting in Hd. rewrite Hd, He. cbv beta iota. cbn [andb].
  match goal with |- _ = Ret (true, ?X) => rewrite (bind_ret _ _ _ tt X); [reflexivity|] end. rewrite (disconnect_established no_address now i r2 _ p h Hi) by congruence.
  unfold IsDisconnecting. rewrite Ud, Ui, Hd. reflexivity.
Qed.

(** ** Witnesses *)

(** The peers of the session are reachable, and the server's cache is filled. *)
Lemma opening_reachable n a b : opening n = Ret (a, b) -> reachable 0 (fun _ => Ret tt) a /\ reachable 0 (fun _ => Ret tt) b.
Proof.
  unfold opening, does, talk. intros E. do 7 (apply obind_inv in E as (? & ? & E)).
  eapply exchanges_reachable; [| |exact E].
  - do 3 (eapply happens_reachable; [|eassumption]). eapply reach_new; [|eassumption]. lia.
  - do 2 (eapply happens_reachable; [|eassumption]). eapply reach_new; [|eassumption]. lia.
Qed.

Lemma opening_runs : exists a b, opening 3 = Ret (a, b) /\ m_remoteLookup b !! 11 = Some 2%nat /\ GetAllConnectedPeers b = [11].
Proof.
  destruct (opening 3) as [[a b]|] eqn:E; [|vm_compute in E; discriminate]. exists a, b. split; [done|].
  vm_compute in E. injection E as <- <-. done.
Qed.

Lemma peer_invariant_witness : exists b : DemoPeer, m_remoteLookup b !! 11 = Some 2%nat /\ peer_inv b.
Proof.
  destruct opening_runs as (a & b & E & Hb & _). exists b. split; [done|].
  exact (peer_invariant 0 (fun _ => Ret tt) b (proj2 (opening_reachable 3 a b E))).
Defined.

Lemma send_after_stop_witness : exists b b' : DemoPeer, GetAllConnectedPeers b = [11] /\
  (Stop_begin 5000 0 (slot_numbers b);; Stop_end 0) b = Ret (tt, b') /\ GetAllConnectedPeers b' = [] /\
  Send 6000 (mkPacket 0 66 1 (Some [Some 5])) 11 RELIABLE Channel_default b' = Fail NullPointer.
Proof.
  destruct opening_runs as (a & b & E & Hb & Hc). exists b.
  destruct (send_after_stop 0 (fun _ => Ret tt) b 11 2 5000 6000 (mkPacket 0 66 1 (Some [Some 5])) 66 [5] RELIABLE Channel_default) as (b' & H).
  - exact (proj2 (opening_reachable 3 a b E)).
  - exact Hb.
  - split; [reflexivity|reflexivity|]. intros _. now exists [].
  - unfold is_byte. lia.
  - repeat constructor; unfold is_byte; lia.
  - vm_compute. discriminate.
  - exists b'. split; [exact Hc|exact H].
Defined.

(** Two slots, of which the cache names one: a lookup that finds its entry, and one that makes an entry. *)
Lemma lookups_agree_witness : let other := mkRemote ∅ 6 [] [] true (Some 0) None None None ∅ PeerStats_new 33 0 true true in
  let p := mkPeer 11 3 0 (mkStream None RoNull 0 0 0 0 false) ∅ SocketUDP_new [RemotePeer_new 0; online_remote; other] [] {[22 := 1%nat]} [UNORDERED] None false {[0 := tt]} 1 ([] : list (invocation unit)) in
  coherent p /\ GetRemoteByID_const 22 p = Some 1%nat /\
  exists m, GetRemoteByID 33 p = Ret (Some 2%nat, set_lookup m p) /\ coherent (set_lookup m p).
Proof.
  intros other p. assert (H : coherent p).
  { intros id i Hi. change (({[22 := 1%nat]} : gmap Z nat) !! id = Some i) in Hi. apply lookup_singleton_Some in Hi as [<- <-]. split; [lia|]. split; [reflexivity|]. split; [now exists online_remote|]. intros j r Hj. lia. }
  split; [exact H|]. split; [exact (proj1 (lookups_agree p 22 H))|]. exact (proj2 (lookups_agree p 33 H)).
Defined.

Lemma worker_stops_witness : let r := set_disconnect 50 online_remote in let p := at_slot 1 r [] online_peer in
  exists l, worker_slots 0 60 0 [1; 2; 3]%nat p =
    Ret (true, set_lookup (delete 22 ∅) (at_slot 1 (RemotePeer_new 0) (([] ++ l) ++ [mkPacket 22 NOTIFY_DISCONNECTED 0 None]) p)).
Proof.
  intros r p. eapply (worker_stops 0 60 0 1 [2; 3]%nat p r); reflexivity.
Defined.
