(* ===== verification/RpcFlow.v ===== *)
(** * RpcFlow: a remote procedure call from the signal to the callbacks

    Peer::RpcSignal builds a packet out of the identifier and the parameters;
    Peer::OnSystemPacket of the other end takes it apart and signals its
    RpcController.  The two compose to a signal with the same parameters. *)

From stdpp Require Import base tactics gmap sets list list_numbers numbers option.
From Stdlib Require Import ZArith Lia.
From S2P Require Import Prelude Memory BinaryStream StreamSpec StreamCodec Config PeerStats Packet Headers.
From S2P Require Import ChannelBuffer CongestionControl Reassembly ReceiptTracker RpcController Encryption Handshake Socket RemotePeer PacketQueue Peer HandshakeTheorems.

Open Scope Z_scope.

(** The payload of an RPC packet. *)
Definition wire_rpc (identifier params : list Z) : list Z := wire_string identifier ++ varint (zlength params) ++ params.

Section RpcFlow.
Context {host : Host} {sign : CharSign}.

Lemma varint_length v : zlength (varint v) <= 5.
Proof. apply (enc7_length 5). Qed.

Lemma rpc_packet_spec identifier params w a : rel w params a -> Forall is_byte identifier -> zlength identifier < 1073741824 ->
  zlength (a_bytes a) < 1073741824 ->
  exists pkt, rpc_packet identifier params = Ret pkt /\ holds pkt RPC_SIGNAL (wire_rpc identifier (a_bytes a)).
Proof.
  intros Hp Hi Hli Hla. pose proof (zlength_nonneg identifier) as Hi0. pose proof (zlength_nonneg (a_bytes a)) as Ha0. unfold rpc_packet.
  rewrite (rf_len _ _ (proj1 Hp)). rewrite (u64_small (_ + 16)) by lia.
  destruct (BinaryStream_new_rel (zlength (a_bytes a) + zlength identifier + 16)) as (s0 & E0 & H0); [unfold max_len; lia|].
  destruct (sim_app_string (at_end []) [] identifier ltac:(constructor) Hi ltac:(unfold roomy, max_len; zlen) s0 H0) as (s1 & E1 & H1).
  cbn [app] in H1. assert (Hw : zlength (wire_string identifier) <= 5 + zlength identifier).
  { unfold wire_string. pose proof (varint_length (zlength identifier)). zlen. }
  destruct (sim_app_varint (at_end (wire_string identifier)) (wire_string identifier) (s32 (zlength (a_bytes a))) ltac:(constructor)
    ltac:(unfold roomy, max_len; lia) s1 H1) as (s2 & E2 & H2). rewrite varint_s32 in H2.
  pose proof (varint_length (zlength (a_bytes a))) as Hv.
  destruct (sim_app_stream w params a (at_end (wire_string identifier ++ varint (zlength (a_bytes a)))) (wire_string identifier ++ varint (zlength (a_bytes a)))
    Hp ltac:(constructor) ltac:(unfold roomy, max_len; zlen) s2 H2) as (s3 & E3 & H3).
  destruct (Packet_take_stream_holds RPC_SIGNAL s3 _ H3) as (pkt & s4 & E4 & Hh & _).
  exists pkt. rewrite E0. cbn [mbind outcome_bind]. rewrite E1. cbn [mbind outcome_bind]. rewrite E2. cbn [mbind outcome_bind].
  rewrite E3. cbn [mbind outcome_bind]. rewrite E4. split; [done|]. unfold wire_rpc. now rewrite app_assoc.
Qed.

(** The private stream that OnSystemPacket fills with the parameters. *)
Lemma params_copied w instream p params : rel w instream (cursor p params) -> zlength params < 1073741824 ->
  exists s0 st, BinaryStream_new (u64 (zlength params)) = Ret s0 /\ rel true st (at_end params) /\
  forall (S : Type) (k : BinaryStream -> ST S unit) x,
    ((if 0 <? zlength params then
        '(_, s) ← lift (WriteZeroes (zlength params) s0);
        '(data, _) ← lift (ReadBytes (zlength params) instream);
        '(_, s) ← lift (match data with Some cs => store 0 cs s | None => Ret (tt, s) end);
        mret s
      else mret s0) ≫= k) x = k st x.
Proof.
  intros Hin Hl. pose proof (zlength_nonneg params) as H0. rewrite u64_small by lia.
  destruct (BinaryStream_new_rel (zlength params)) as (s0 & E0 & Hs0); [unfold max_len; lia|]. exists s0.
  destruct (Z.ltb_spec 0 (zlength params)) as [Hpos|Hz].
  - destruct (sim_WriteZeroes (at_end []) (zlength params) H0) with (s := s0) as (s1 & E1 & H1); [|exact Hs0|].
    { apply (room_appending _ []); [constructor|]. unfold roomy, max_len. zlen. }
    rewrite (a_write_appending (at_end []) []) in H1 by constructor. cbn [app] in H1.
    rewrite <- (app_nil_r params) in Hin.
    destruct (sim_rd_bytes w (cursor p (params ++ [])) p params [] _ (rd_cursor _ _) eq_refl _ Hin) as (in1 & E2 & _).
    assert (Hb : Forall is_byte params).
    { pose proof (rf_bytes _ _ (proj1 Hin)) as Hb. cbn in Hb. rewrite app_nil_r in Hb. now apply Forall_app in Hb as [_ Hb]. }
    destruct (store_inside s1 [] (replicate (Z.to_nat (zlength params)) 0) params [] (zlength params)) as (s2 & E3 & H3); [|zlen|done|].
    { cbn [app]. rewrite app_nil_r. replace (mkA _ _ 0) with (at_end (replicate (Z.to_nat (zlength params)) 0)); [exact H1|]. unfold at_end. f_equal. zlen. }
    exists s2. split; [done|]. split; [cbn [app] in H3; rewrite app_nil_r in H3; exact H3|]. intros S k x.
    rewrite (bind_ret _ _ _ s2 x); [done|]. rewrite (bind_lift _ _ _ _ E1). cbv beta iota. rewrite (bind_lift _ _ _ _ E2). cbv beta iota.
    change (zlength (@nil Z)) with 0 in E3. now rewrite (bind_lift _ _ _ _ E3).
  - exists s0. split; [done|]. split; [|done]. destruct params; [exact Hs0|zlen].
Qed.
End RpcFlow.

(** C32: a remote procedure call arrives as it was made.  For an identifier that is
    not empty and has no NUL byte, and parameters of any bytes, RpcSignal builds an
    RPC packet; when the other end handles that message it calls exactly the
    callbacks registered there under the hash of the identifier, in the order of
    registration, each with the sender of the message and with a read-only stream
    of its own at the beginning of exactly the parameters, and changes nothing
    else. *)
Theorem rpc_call {host : Host} {sign : CharSign} {RemoteAddress : Type} (no_address : RemoteAddress) {crypto callback : Type}
    identifier params w a : proper_identifier identifier -> zlength identifier < 1073741824 ->
  rel w params a -> zlength (a_bytes a) < 1073741824 ->
  exists pkt, rpc_packet identifier params = Ret pkt /\ holds pkt RPC_SIGNAL (wire_rpc identifier (a_bytes a)) /\
  forall now i q (p : Peer RemoteAddress crypto callback), holds q RPC_SIGNAL (wire_rpc identifier (a_bytes a)) ->
    exists calls, OnSystemPacket no_address now i q p = Ret (tt, set_rpc (m_rpc p) (p_calls p ++ calls) p) /\
      map call_fn calls = default [] (m_rpc p !! hash_of identifier) /\
      Forall (fun call => call_sender call = pk_sender q /\ rel false (call_params call) (cursor [] (a_bytes a))) calls.
Proof.
  intros Hid Hli Hp Hla. pose proof (zlength_nonneg identifier) as Hi0. pose proof (zlength_nonneg (a_bytes a)) as Ha0.
  assert (Hib : Forall is_byte identifier) by (eapply Forall_impl; [|exact (proj2 Hid)]; unfold is_byte; intros; lia).
  destruct (rpc_packet_spec identifier params w a Hp Hib Hli Hla) as (pkt & E & Hh). exists pkt. split; [done|]. split; [done|].
  intros now i q p Hq. unfold OnSystemPacket. rewrite (hd_cmd _ _ _ Hq). change (RPC_SIGNAL =? DISCONNECT_REQUEST) with false. rewrite Z.eqb_refl. cbv iota.
  assert (Hvb : forall v, Forall is_byte (varint v)) by (intros v; apply enc7_bytes; pose proof (u32_range v); lia).
  pose proof (rf_bytes _ _ (proj1 Hp)) as Hab. pose proof (varint_length (zlength identifier)) as Hv1. pose proof (varint_length (zlength (a_bytes a))) as Hv2.
  destruct (GetStream_rel q RPC_SIGNAL _ Hq) as (s0 & E0 & H0).
  { unfold wire_rpc, wire_string. destruct identifier; [now destruct Hid|]. intros [E'%app_nil _]%app_nil. now destruct E'. }
  { unfold wire_rpc, wire_string. rewrite !Forall_app. auto. }
  { unfold wire_rpc, wire_string, max_len. zlen. }
  rewrite (bind_lift _ _ _ _ E0). unfold wire_rpc in H0.
  destruct (sim_rd_string false (cursor [] (wire_string identifier ++ varint (zlength (a_bytes a)) ++ a_bytes a)) [] identifier _ ltac:(lia) (rd_cursor _ _) _ H0)
    as (s1 & E1 & H1). rewrite (bind_lift _ _ _ _ E1). cbv beta iota.
  destruct (sim_rd_varint false _ _ (zlength (a_bytes a)) (a_bytes a) (rd_cursor _ _) _ H1) as (s2 & E2 & H2).
  rewrite (bind_lift _ _ _ _ E2). cbv beta iota.
  replace (s32 (zlength (a_bytes a))) with (zlength (a_bytes a)) by (unfold s32; rewrite u32_small by lia; now rewrite (proj2 (Z.ltb_lt _ _)) by lia).
  destruct (params_copied false s2 _ (a_bytes a) H2 Hla) as (s3 & st & E3 & Hst & Hk). rewrite (bind_lift _ _ _ _ E3). rewrite Hk. rewrite bind_get.
  destruct (invoke_all_spec true (pk_sender q) st _ (default [] (m_rpc p !! hash_of identifier)) Hst) as (calls & Ec & Hf & Hall).
  exists calls. split; [|done]. rewrite (bind_lift _ _ _ calls); [done|]. unfold Signal. rewrite djb2hash_proper by done. cbn [mbind outcome_bind].
  destruct (m_rpc p !! hash_of identifier); [exact Ec|]. cbn in Ec. now injection Ec as <-.
Qed.

Lemma rpc_call_witness : let host : Host := {| little_endian := true; or_left_first := true |} in let sign : CharSign := Build_CharSign true in
  exists s pkt, BinaryStream_wrap (Ret (map Some [4; 5; 6])) 3 READONLY = Ret s /\ rpc_packet [65; 66] s = Ret pkt /\
  holds pkt RPC_SIGNAL (wire_rpc [65; 66] [4; 5; 6]) /\
  forall now i q (p : Peer Z unit Z), holds q RPC_SIGNAL (wire_rpc [65; 66] [4; 5; 6]) ->
    exists calls, OnSystemPacket 0 now i q p = Ret (tt, set_rpc (m_rpc p) (p_calls p ++ calls) p) /\
      map call_fn calls = default [] (m_rpc p !! hash_of [65; 66]) /\
      Forall (fun call => call_sender call = pk_sender q /\ rel false (call_params call) (cursor [] [4; 5; 6])) calls.
Proof.
  intros host sign. destruct (BinaryStream_wrap_rel [4; 5; 6] [] READONLY) as (s & E & Hs);
    [repeat constructor; unfold is_byte; lia|vm_compute; discriminate|]. exists s.
  destruct (rpc_call (RemoteAddress := Z) (crypto := unit) (callback := Z) 0 [65; 66] s false (cursor [] [4; 5; 6])) as (pkt & H1 & H2 & H3).
  - split; [discriminate|]. repeat constructor; lia.
  - reflexivity.
  - exact Hs.
  - reflexivity.
  - exists pkt. split; [exact E|]. split; [exact H1|]. split; [exact H2|exact H3].
Defined.
