(* ===== verification/CBindings.v ===== *)
(** * CBindings: the interface for C and its tables of handles

    Model of source/WirefoxCBindings.cpp.  A handle is the address of an object
    that one of the two global tables owns.  A function that makes an object takes
    the address that operator new returned as an argument: any address that no live
    object has, so an address may come back after its object was destroyed.  A call
    through a handle that is not in the table follows a dangling pointer. *)

From stdpp Require Import base tactics gmap sets list list_numbers numbers option.
From Stdlib Require Import ZArith Lia.
From S2P Require Import Prelude Memory BinaryStream StreamSpec StreamCodec Config PeerStats Packet Headers.
From S2P Require Import ChannelBuffer CongestionControl Reassembly ReceiptTracker RpcController Encryption Handshake Socket RemotePeer PacketQueue Peer.

Open Scope Z_scope.

Section CBindings.
Context {host : Host} {sign : CharSign} {RemoteAddress : Type} {address_eq : EqDecision RemoteAddress} (no_address : RemoteAddress).
Context {crypto : Type} {layer : EncryptionLayer crypto} (make_layer : Z -> outcome crypto) {callback : Type}.

Abbreviation Peer := (Peer RemoteAddress crypto callback).

(** m_handlesPeer and m_handlesPacket, with the address of each object. *)
Record Handles : Type := mkHandles {
  m_handlesPeer : list (Z * Peer);
  m_handlesPacket : list (Z * Packet);
}.

Abbreviation CM := (ST Handles).

Definition nullptr : Z := 0.
Definition no_handles : Handles := mkHandles [] [].

(** The object that an address belongs to. *)
Fixpoint object_at {A} (handle : Z) (l : list (Z * A)) : option A :=
  match l with [] => None | (k, x) :: l => if k =? handle then Some x else object_at handle l end.
Fixpoint update_at {A} (handle : Z) (x : A) (l : list (Z * A)) : list (Z * A) :=
  match l with [] => [] | (k, y) :: l => if k =? handle then (k, x) :: l else (k, y) :: update_at handle x l end.
(** find_if and erase *)
Fixpoint erase_at_address {A} (handle : Z) (l : list (Z * A)) : list (Z * A) :=
  match l with [] => [] | (k, y) :: l => if k =? handle then l else (k, y) :: erase_at_address handle l end.

Definition deref {A} (handle : Z) (l : list (Z * A)) : outcome A :=
  if handle =? nullptr then Fail NullPointer else match object_at handle l with Some x => Ret x | None => Fail Dangling end.

(** HandleToPeer(handle)->f(...), HandleToPacket(handle) *)
Definition on_peer {A} (handle : Z) (f : ST Peer A) : CM A :=
  s ← get;
  p ← lift (deref handle (m_handlesPeer s));
  '(a, p) ← lift (f p);
  put (mkHandles (update_at handle p (m_handlesPeer s)) (m_handlesPacket s));;
  mret a.
Definition ask_peer {A} (handle : Z) (f : Peer -> outcome A) : CM A := s ← get; p ← lift (deref handle (m_handlesPeer s)); lift (f p).
Definition ask_packet {A} (handle : Z) (f : Packet -> outcome A) : CM A := s ← get; p ← lift (deref handle (m_handlesPacket s)); lift (f p).

(** push_back, and back().get() *)
Definition add_packet (address : Z) (packet : Packet) : CM Z :=
  modify (fun s => mkHandles (m_handlesPeer s) (m_handlesPacket s ++ [(address, packet)]));;
  mret address.

Definition wirefox_peer_create (address : Z) (rng : list Z) (maxPeers : Z) : CM Z :=
  p ← lift (Peer_new no_address rng maxPeers);
  modify (fun s => mkHandles (m_handlesPeer s ++ [(address, p)]) (m_handlesPacket s));;
  mret address.
Definition wirefox_peer_destroy (handle : Z) : CM unit :=
  if handle =? nullptr then mret tt else
  modify (fun s => mkHandles (erase_at_address handle (m_handlesPeer s)) (m_handlesPacket s)).

Definition wirefox_peer_bind (asio : Asio RemoteAddress) (now handle : Z) (protocol : SocketProtocol) (port : Z) : CM Z :=
  ok ← on_peer handle (Bind make_layer asio now protocol port); mret (if ok : bool then 1 else 0).
(** Before and after the sleep of Stop. *)
Definition wirefox_peer_stop_begin (now handle linger : Z) : CM unit :=
  on_peer handle (p ← get; Stop_begin now (FromMilliseconds linger) (slot_numbers p)).
Definition wirefox_peer_stop_end (handle : Z) : CM unit := on_peer handle (Stop_end no_address).
Definition wirefox_peer_connect (asio : Asio RemoteAddress) (now entropy handle : Z) (hostname : list Z) (port : Z) : CM ConnectAttemptResult :=
  on_peer handle (Connect no_address make_layer asio now entropy hostname port None).
Definition wirefox_peer_disconnect (now handle who linger : Z) : CM unit := on_peer handle (Disconnect now who (FromMilliseconds linger)).
Definition wirefox_peer_disconnect_immediate (now handle who : Z) : CM unit := on_peer handle (DisconnectImmediate_id no_address now who).

Definition wirefox_peer_send_loopback (handle packet : Z) : CM unit :=
  s ← get; typedPacket ← lift (deref packet (m_handlesPacket s)); on_peer handle (SendLoopback typedPacket).
Definition wirefox_peer_send (now handle packet recipient options channelIndex : Z) : CM Z :=
  mode ← ask_peer handle (GetChannelModeByIndex channelIndex);
  s ← get;
  typedPacket ← lift (deref packet (m_handlesPacket s));
  on_peer handle (Send now typedPacket recipient options (mkChannel channelIndex mode)).
(** The packet was allocated when it arrived. *)
Definition wirefox_peer_receive (address handle : Z) : CM Z :=
  uptr ← on_peer handle Receive;
  match uptr with None => mret nullptr | Some packet => add_packet address packet end.

Definition wirefox_peer_make_channel (handle : Z) (mode : ChannelMode) : CM Z :=
  channel ← on_peer handle (MakeChannel mode); mret (ch_id channel).
Definition wirefox_peer_get_channel_mode (handle index : Z) : CM ChannelMode := ask_peer handle (GetChannelModeByIndex index).
Definition wirefox_peer_get_my_id (handle : Z) : CM Z := ask_peer handle (fun p => Ret (m_id p)).
Definition wirefox_peer_get_max_peers (handle : Z) : CM Z := ask_peer handle (fun p => Ret (GetMaximumPeers p)).
Definition wirefox_peer_get_max_incoming_peers (handle : Z) : CM Z := ask_peer handle (fun p => Ret (GetMaximumIncomingPeers p)).
Definition wirefox_peer_set_max_incoming_peers (handle incoming : Z) : CM unit := on_peer handle (SetMaximumIncomingPeers incoming).
Definition wirefox_peer_get_ping (handle who : Z) : CM Z := ask_peer handle (GetPing who).
Definition wirefox_peer_get_ping_available (handle who : Z) : CM Z :=
  ok ← ask_peer handle (GetPingAvailable who); mret (if ok : bool then 1 else 0).
Definition wirefox_peer_get_stat (handle who : Z) (stat : PeerStatID) : CM Z :=
  stats ← ask_peer handle (GetStats who);
  match stats with None => mret 0 | Some st => mret (Stats_Get st stat) end.

Definition wirefox_peer_set_offline_ad (handle : Z) (data : outcome (list cell)) (len : Z) : CM unit :=
  ad ← lift (BinaryStream_wrap data len READONLY);
  on_peer handle (SetOfflineAdvertisement ad).
Definition wirefox_peer_disable_offline_ad (handle : Z) : CM unit := on_peer handle DisableOfflineAdvertisement.
Definition wirefox_peer_ping (asio : Asio RemoteAddress) (now handle : Z) (hostname : list Z) (port : Z) : CM unit :=
  on_peer handle (Ping asio now hostname port).
Definition wirefox_peer_ping_local_network (asio : Asio RemoteAddress) (now handle port : Z) : CM unit :=
  on_peer handle (PingLocalNetwork asio now port).

Definition wirefox_peer_get_crypto_key_length (handle : Z) : CM Z := ask_peer handle (fun _ => Ret (GetKeyLength crypto)).
Definition wirefox_peer_get_crypto_enabled (handle : Z) : CM Z := ask_peer handle (fun p => Ret (if m_crypto_enabled p then 1 else 0)).
Definition wirefox_peer_set_crypto_enabled (made : outcome Keypair) (handle enabled : Z) : CM unit :=
  on_peer handle (SetEncryptionEnabled made (negb (enabled =? 0))).
Definition wirefox_peer_set_crypto_identity (handle : Z) (k : Keypair) : CM unit := on_peer handle (SetEncryptionIdentity k).
Definition wirefox_peer_generate_crypto_identity (made : outcome Keypair) (handle : Z) : CM (list Z * list Z) :=
  ask_peer handle (fun _ => GenerateIdentity made).

Definition wirefox_packet_create (address cmd : Z) (data : outcome (list cell)) (len : Z) : CM Z :=
  p ← lift (Packet_from_buffer cmd data len); add_packet address p.
Definition wirefox_packet_destroy (handle : Z) : CM unit :=
  if handle =? nullptr then mret tt else
  modify (fun s => mkHandles (m_handlesPeer s) (erase_at_address handle (m_handlesPacket s))).
Definition wirefox_packet_get_data (packet : Z) : CM (option (list cell)) := ask_packet packet (fun p => Ret (pk_data p)).
Definition wirefox_packet_get_length (packet : Z) : CM Z := ask_packet packet (fun p => Ret (pk_length p)).
Definition wirefox_packet_get_cmd (packet : Z) : CM Z := ask_packet packet (fun p => Ret (pk_command p)).
Definition wirefox_packet_get_sender (packet : Z) : CM Z := ask_packet packet (fun p => Ret (pk_sender p)).
End CBindings.

(** ** The tables *)

Section Tables.
Context {RemoteAddress : Type} (no_address : RemoteAddress) {crypto callback : Type}.
Abbreviation Handles := (@Handles RemoteAddress crypto callback).
Abbreviation Peer := (Peer RemoteAddress crypto callback).
Abbreviation CM := (ST Handles).

(** The addresses of the live objects. *)
Definition live (s : Handles) : list Z := map fst (m_handlesPeer s) ++ map fst (m_handlesPacket s).

(** What operator new may return. *)
Definition unused (address : Z) (s : Handles) : Prop := address <> nullptr /\ address ∉ live s.

Record handles_ok (s : Handles) : Prop := { ho_distinct : NoDup (live s); ho_null : nullptr ∉ live s }.

(** The calls that change a table or an object in it. *)
Inductive c_call : Type :=
  | C_peer_create (address : Z) (rng : list Z) (maxPeers : Z)
  | C_peer_destroy (handle : Z)
  | C_on_peer (handle : Z) (f : ST Peer unit)                          (* a member function of the peer *)
  | C_send (handle packet : Z) (f : Packet -> ST Peer unit)            (* one that is given a packet *)
  | C_receive (address handle : Z)
  | C_packet_create (address cmd : Z) (data : outcome (list cell)) (len : Z)
  | C_packet_destroy (handle : Z).

Definition c_exec (c : c_call) : CM unit :=
  match c with
  | C_peer_create address rng maxPeers => wirefox_peer_create no_address address rng maxPeers;; mret tt
  | C_peer_destroy handle => wirefox_peer_destroy handle
  | C_on_peer handle f => on_peer handle f
  | C_send handle packet f => s ← get; typedPacket ← lift (deref packet (m_handlesPacket s)); on_peer handle (f typedPacket)
  | C_receive address handle => wirefox_peer_receive address handle;; mret tt
  | C_packet_create address cmd data len => wirefox_packet_create address cmd data len;; mret tt
  | C_packet_destroy handle => wirefox_packet_destroy handle
  end.

(** The address that a call asks for. *)
Definition allocates (c : c_call) : option Z :=
  match c with C_peer_create address _ _ | C_receive address _ | C_packet_create address _ _ _ => Some address | _ => None end.

(** Calls one after the other, each with an address that is free by then. *)
Inductive calls_run : Handles -> list c_call -> Handles -> Prop :=
  | calls_none s : calls_run s [] s
  | calls_cons s c s' cs s'' : (forall address, allocates c = Some address -> unused address s) -> c_exec c s = Ret (tt, s') ->
      calls_run s' cs s'' -> calls_run s (c :: cs) s''.

Lemma object_at_None {A} h (l : list (Z * A)) : h ∉ map fst l -> object_at h l = None.
Proof.
  induction l as [|[k x] l IH]; [done|]. cbn. intros [Hk Hl]%not_elem_of_cons. rewrite (proj2 (Z.eqb_neq _ _)) by congruence. auto.
Qed.

Lemma object_at_Some {A} h (l : list (Z * A)) x : object_at h l = Some x -> h ∈ map fst l.
Proof. induction l as [|[k y] l IH]; [done|]. cbn. destruct (Z.eqb_spec k h) as [->|]; [constructor|]. intros H. right. auto. Qed.

Lemma object_at_app {A} h (l l' : list (Z * A)) : object_at h (l ++ l') = match object_at h l with Some x => Some x | None => object_at h l' end.
Proof. induction l as [|[k x] l IH]; [done|]. cbn. now destruct (k =? h). Qed.

Lemma object_at_snoc {A} h k (x : A) l : h <> k -> object_at h (l ++ [(k, x)]) = object_at h l.
Proof. intros Hk. rewrite object_at_app. cbn. rewrite (proj2 (Z.eqb_neq _ _)) by congruence. now destruct (object_at h l). Qed.

Lemma update_found {A} h (x y : A) (l : list (Z * A)) : object_at h l = Some y -> object_at h (update_at h x l) = Some x.
Proof.
  induction l as [|[k z] l IH]; [done|]. cbn. destruct (k =? h) eqn:E; cbn; rewrite E; [done|]. exact IH.
Qed.

Lemma update_keys {A} h (x : A) l : map fst (update_at h x l) = map fst l.
Proof. induction l as [|[k y] l IH]; [done|]. cbn. destruct (k =? h); cbn; congruence. Qed.

(** Erasing the object at an address that is used once. *)
Lemma erase_keys {A} h (l : list (Z * A)) : sublist (map fst (erase_at_address h l)) (map fst l).
Proof. induction l as [|[k y] l IH]; [done|]. cbn. destruct (k =? h); cbn; [apply sublist_cons|apply sublist_skip]; done. Qed.

Lemma erase_other {A} h h' (l : list (Z * A)) : h' <> h -> object_at h' (erase_at_address h l) = object_at h' l.
Proof.
  intros Hh. induction l as [|[k y] l IH]; [done|]. cbn. destruct (Z.eqb_spec k h) as [->|Hk]; cbn.
  - now rewrite (proj2 (Z.eqb_neq _ _)) by congruence.
  - now rewrite IH.
Qed.

Lemma erase_same {A} h (l : list (Z * A)) : NoDup (map fst l) -> h ∉ map fst (erase_at_address h l).
Proof.
  induction l as [|[k y] l IH]; intros Hnd; [apply not_elem_of_nil|]. cbn in *. inversion_clear Hnd as [|? ? Hk Hl].
  destruct (Z.eqb_spec k h) as [->|Hne]; [exact Hk|]. cbn. intros [Hh|Hh]%elem_of_cons; [congruence|]. exact (IH Hl Hh).
Qed.

Lemma erase_absent {A} h (l : list (Z * A)) : h ∉ map fst l -> erase_at_address h l = l.
Proof. induction l as [|[k x] l IH]; [done|]. cbn. intros [Hk Hl]%not_elem_of_cons. rewrite (proj2 (Z.eqb_neq _ _)) by congruence. now rewrite IH. Qed.

Lemma deref_in {A} h (l : list (Z * A)) x : h <> nullptr -> object_at h l = Some x -> deref h l = Ret x.
Proof. intros Hn E. unfold deref. now rewrite (proj2 (Z.eqb_neq _ _)), E. Qed.
Lemma deref_out {A} h (l : list (Z * A)) : h <> nullptr -> h ∉ map fst l -> deref h l = Fail Dangling.
Proof. intros Hn E. unfold deref. now rewrite (proj2 (Z.eqb_neq _ _)), object_at_None. Qed.

(** ** What a call does to the table of packets *)

(** Nothing, or one packet more under a free address, or one less. *)
Inductive table_change (c : c_call) (s s' : Handles) : Prop :=
  | tc_same : m_handlesPacket s' = m_handlesPacket s -> allocates c = None -> sublist (map fst (m_handlesPeer s')) (map fst (m_handlesPeer s)) -> table_change c s s'
  | tc_peer address : m_handlesPacket s' = m_handlesPacket s -> allocates c = Some address ->
      map fst (m_handlesPeer s') = map fst (m_handlesPeer s) \/ map fst (m_handlesPeer s') = map fst (m_handlesPeer s) ++ [address] -> table_change c s s'
  | tc_packet address x : m_handlesPacket s' = m_handlesPacket s ++ [(address, x)] -> allocates c = Some address ->
      map fst (m_handlesPeer s') = map fst (m_handlesPeer s) -> table_change c s s'
  | tc_erase handle : c = C_packet_destroy handle -> m_handlesPacket s' = erase_at_address handle (m_handlesPacket s) ->
      m_handlesPeer s' = m_handlesPeer s -> table_change c s s'.

Lemma on_peer_change {A} handle (f : ST Peer A) s a s' : on_peer handle f s = Ret (a, s') ->
  m_handlesPacket s' = m_handlesPacket s /\ map fst (m_handlesPeer s') = map fst (m_handlesPeer s).
Proof. unfold on_peer. intros H. run_all. cbn. split; [done|apply update_keys]. Qed.

Lemma c_exec_change c s s' : c_exec c s = Ret (tt, s') -> table_change c s s'.
Proof.
  destruct c; cbn [c_exec]; intros H.
  - unfold wirefox_peer_create in H. run_all. eapply tc_peer; [done|reflexivity|]. right. cbn. now rewrite map_app.
  - unfold wirefox_peer_destroy in H. destruct (handle =? nullptr); run_all; apply tc_same; try done. apply erase_keys.
  - apply on_peer_change in H as [H1 H2]. apply tc_same; [done|done|now rewrite H2].
  - do 2 run_step H. run_all. match goal with E : on_peer _ _ _ = _ |- _ => apply on_peer_change in E as [H1 H2] end. apply tc_same; [done|done|now rewrite H2].
  - run_step H. unfold wirefox_peer_receive in E. run_step E. apply on_peer_change in E0 as [H1 H2]. unfold add_packet in E. run_all.
    + eapply tc_packet; [cbn; now rewrite H1|reflexivity|exact H2].
    + eapply tc_peer; [exact H1|reflexivity|now left].
  - unfold wirefox_packet_create, add_packet in H. run_all. eapply tc_packet; [reflexivity..|done].
  - unfold wirefox_packet_destroy in H. destruct (Z.eqb_spec handle nullptr); run_all; [now apply tc_same|now eapply tc_erase].
Qed.

Lemma call_ok c s s' : handles_ok s -> (forall address, allocates c = Some address -> unused address s) -> c_exec c s = Ret (tt, s') -> handles_ok s'.
Proof.
  intros [Hd Hz] Hf E. assert (G : forall l, sublist l (live s) -> live s' = l -> handles_ok s').
  { intros l Hs El. rewrite <- El in Hs. split; [exact (sublist_NoDup _ _ Hd Hs)|]. intros H. apply Hz. exact (sublist_subseteq _ _ Hs _ H). }
  assert (P : forall address, allocates c = Some address -> live s' ≡ₚ live s ++ [address] -> handles_ok s').
  { intros address Ea El. destruct (Hf address Ea) as [Hn Hu]. split; rewrite El.
    - apply list.NoDup_app. split; [done|]. split; [|apply NoDup_singleton]. now intros x Hx ->%list_elem_of_singleton.
    - intros [H|H%list_elem_of_singleton]%elem_of_app; [done|congruence]. }
  destruct (c_exec_change c s s' E) as [E1 _ E2|address E1 Ea [E2|E2]|address x E1 Ea E2|handle -> E1 E2]; unfold live in *.
  - eapply G; [|reflexivity]. rewrite E1. now apply sublist_app.
  - eapply G; [|reflexivity]. now rewrite E1, E2.
  - apply (P address Ea). rewrite E1, E2, <- !app_assoc. apply Permutation_app_head, Permutation_app_comm.
  - apply (P address Ea). rewrite E1, E2, map_app, app_assoc. done.
  - eapply G; [|reflexivity]. rewrite E1, E2. apply sublist_app; [done|apply erase_keys].
Qed.

Lemma calls_ok s cs s' : calls_run s cs s' -> handles_ok s -> handles_ok s'.
Proof. induction 1 as [|s c s' cs s'' Hf E _ IH]; [done|]. intros H. apply IH. eapply call_ok; eauto. Qed.

(** A packet stays under its address until it is destroyed. *)
Lemma call_keeps c s s' h x : h ∈ live s -> (forall address, allocates c = Some address -> unused address s) -> c_exec c s = Ret (tt, s') -> c <> C_packet_destroy h ->
  object_at h (m_handlesPacket s) = Some x -> object_at h (m_handlesPacket s') = Some x.
Proof.
  intros Hl Hf E Hc Hx. destruct (c_exec_change c s s' E) as [-> _ _|address -> _ _|address y -> Ea _|handle -> -> _]; [done|done| |].
  - destruct (Hf address Ea) as [_ Hu]. rewrite object_at_snoc; [done|]. intros ->. exact (Hu Hl).
  - rewrite erase_other; [done|]. congruence.
Qed.

Lemma calls_keep h x s cs s' : calls_run s cs s' -> Forall (fun c => c <> C_packet_destroy h) cs ->
  object_at h (m_handlesPacket s) = Some x -> object_at h (m_handlesPacket s') = Some x.
Proof.
  induction 1 as [|s c s' cs s'' Hf E _ IH]; intros Hc Hx; [done|]. inversion_clear Hc. apply IH; [done|]. eapply call_keeps; eauto.
  unfold live. apply elem_of_app. right. exact (object_at_Some _ _ _ Hx).
Qed.

(** An address that is not in the table of packets stays out of it until it is handed
    out again. *)
Lemma call_absent c s s' h : c_exec c s = Ret (tt, s') -> allocates c <> Some h -> h ∉ map fst (m_handlesPacket s) -> h ∉ map fst (m_handlesPacket s').
Proof.
  intros E Ha Hh. destruct (c_exec_change c s s' E) as [-> _ _|address -> _ _|address y -> Ea _|handle -> -> _]; [done|done| |].
  - rewrite map_app, not_elem_of_app. split; [done|]. cbn. rewrite list_elem_of_singleton. congruence.
  - intros H. apply Hh. exact (sublist_subseteq _ _ (erase_keys _ _) _ H).
Qed.

Lemma calls_absent h s cs s' : calls_run s cs s' -> Forall (fun c => allocates c <> Some h) cs -> h ∉ map fst (m_handlesPacket s) -> h ∉ map fst (m_handlesPacket s').
Proof. induction 1 as [|s c s' cs s'' Hf E _ IH]; intros Hc Hx; [done|]. inversion_clear Hc. apply IH; [done|]. eapply call_absent; eauto. Qed.

Lemma ask_in {A} h (f : Packet -> outcome A) (s : Handles) x a : h <> nullptr -> object_at h (m_handlesPacket s) = Some x -> f x = Ret a -> ask_packet h f s = Ret (a, s).
Proof. intros Hn E Ef. unfold ask_packet. rewrite bind_get, (bind_lift _ _ _ _ (deref_in _ _ _ Hn E)), Ef. done. Qed.

Lemma ask_out {A} h (f : Packet -> outcome A) (s : Handles) : h <> nullptr -> h ∉ map fst (m_handlesPacket s) -> ask_packet h f s = Fail Dangling.
Proof. intros Hn E. unfold ask_packet. rewrite bind_get. apply bind_fail. unfold lift. now rewrite (deref_out _ _ Hn E). Qed.
End Tables.

(** ** Claims *)

(** What the functions on a packet give for a handle. *)
Definition answers {RemoteAddress crypto callback : Type} (h cmd : Z) (bytes : list Z) (s : @Handles RemoteAddress crypto callback) : Prop :=
  wirefox_packet_get_cmd h s = Ret (cmd, s) /\ wirefox_packet_get_length h s = Ret (zlength bytes, s) /\
  wirefox_packet_get_data h s = Ret (payload_ptr bytes, s) /\ wirefox_packet_get_sender h s = Ret (0, s).
Definition dangles {RemoteAddress crypto callback : Type} (h : Z) (s : @Handles RemoteAddress crypto callback) : Prop :=
  wirefox_packet_get_cmd h s = Fail Dangling /\ wirefox_packet_get_length h s = Fail Dangling /\
  wirefox_packet_get_data h s = Fail Dangling /\ wirefox_packet_get_sender h s = Fail Dangling.

(** C34: a handle to a packet is good from its creation to its destruction, and no
    longer.  In consistent tables wirefox_packet_create returns the address of the new
    packet and leaves every other object in place; after any sequence of calls that does
    not destroy it, for each of which operator new returns some address that is free by
    then, the functions on the handle give its command, length and bytes.
    wirefox_packet_destroy then takes out this packet and no other; and after any further
    calls, as long as none of them is given the same address again, using the handle
    follows a dangling pointer, and destroying it again does nothing. *)
Theorem packet_handles {RemoteAddress : Type} (no_address : RemoteAddress) {crypto callback : Type} (s : @Handles RemoteAddress crypto callback) h cmd bytes :
  handles_ok s -> unused h s -> zlength bytes <= max_len ->
  exists s1, wirefox_packet_create h cmd (Ret (map Some bytes)) (zlength bytes) s = Ret (h, s1) /\ handles_ok s1 /\ m_handlesPeer s1 = m_handlesPeer s /\
    (forall h', h' <> h -> object_at h' (m_handlesPacket s1) = object_at h' (m_handlesPacket s)) /\
    forall calls s2, calls_run no_address s1 calls s2 -> Forall (fun c => c <> C_packet_destroy h) calls ->
      answers h cmd bytes s2 /\
      exists s3, wirefox_packet_destroy h s2 = Ret (tt, s3) /\ handles_ok s3 /\ m_handlesPeer s3 = m_handlesPeer s2 /\
        (forall h', h' <> h -> object_at h' (m_handlesPacket s3) = object_at h' (m_handlesPacket s2)) /\
        forall calls' s4, calls_run no_address s3 calls' s4 -> Forall (fun c => allocates c <> Some h) calls' ->
          dangles h s4 /\ wirefox_packet_destroy h s4 = Ret (tt, s4).
Proof.
  intros H Hu Hm. destruct Hu as [Hn Hu]. set (x := mkPacket 0 cmd (zlength bytes) (payload_ptr bytes)).
  assert (E : Packet_from_buffer cmd (Ret (map Some bytes)) (zlength bytes) = Ret x).
  { unfold Packet_from_buffer. rewrite (CopyFrom_ok _ 0 bytes []) by (rewrite ?zdrop_0, ?app_nil_r; try done; zlen). done. }
  unfold wirefox_packet_create. eexists. rewrite (bind_lift _ _ _ _ E). split; [reflexivity|]. set (s1 := mkHandles _ _).
  assert (Hok1 : handles_ok s1).
  { apply (call_ok no_address (C_packet_create h cmd (Ret (map Some bytes)) (zlength bytes)) s); [done|now intros ? [= <-]|].
    cbn [c_exec]. unfold wirefox_packet_create. erewrite bind_ret; [|rewrite (bind_lift _ _ _ _ E); reflexivity]. done. }
  assert (Ex : object_at h (m_handlesPacket s1) = Some x).
  { unfold s1. cbn [m_handlesPacket]. unfold live in Hu. apply not_elem_of_app in Hu as [_ Hu]. rewrite object_at_app, object_at_None by done. cbn. now rewrite Z.eqb_refl. }
  split; [done|]. split; [done|]. split; [intros h' Hh; now apply object_at_snoc|]. intros calls s2 R Hc.
  pose proof (calls_keep no_address h x s1 calls s2 R Hc Ex) as Ex2. pose proof (calls_ok no_address s1 calls s2 R Hok1) as Hok2.
  split; [repeat split; eapply ask_in; eauto|].
  assert (Ed : forall s0 : @Handles RemoteAddress crypto callback, wirefox_packet_destroy h s0 = Ret (tt, mkHandles (m_handlesPeer s0) (erase_at_address h (m_handlesPacket s0)))).
  { intros s0. unfold wirefox_packet_destroy. now rewrite (proj2 (Z.eqb_neq _ _)). }
  eexists. split; [apply Ed|]. set (s3 := mkHandles _ _).
  assert (Hok3 : handles_ok s3) by (apply (call_ok no_address (C_packet_destroy h) s2); [done|done|apply Ed]).
  split; [done|]. split; [done|]. split; [intros h' Hh; now apply erase_other|]. intros calls' s4 R' Hc'.
  assert (Ho : h ∉ map fst (m_handlesPacket s4)).
  { apply (calls_absent no_address h s3 calls' s4 R' Hc'). apply erase_same. destruct Hok2 as [Hd _]. unfold live in Hd. now apply list.NoDup_app in Hd as (_ & _ & Hd). }
  split; [repeat split; now apply ask_out|]. rewrite Ed, erase_absent by done. now destruct s4.
Qed.

(** The address of a packet that was destroyed may come back, and with it the handle:
    the caller that kept the old one now reads and destroys the packet of somebody
    else. *)
Theorem stale_handle {RemoteAddress crypto callback : Type} (s : @Handles RemoteAddress crypto callback) h x cmd bytes :
  handles_ok s -> h <> nullptr -> object_at h (m_handlesPacket s) = Some x -> zlength bytes <= max_len ->
  exists s1 s2 s3, wirefox_packet_destroy h s = Ret (tt, s1) /\ unused h s1 /\ wirefox_packet_create h cmd (Ret (map Some bytes)) (zlength bytes) s1 = Ret (h, s2) /\
    answers h cmd bytes s2 /\ wirefox_packet_destroy h s2 = Ret (tt, s3) /\ s3 = s1.
Proof.
  intros Hok Hn Hx Hm. set (y := mkPacket 0 cmd (zlength bytes) (payload_ptr bytes)).
  assert (E : Packet_from_buffer cmd (Ret (map Some bytes)) (zlength bytes) = Ret y).
  { unfold Packet_from_buffer. rewrite (CopyFrom_ok _ 0 bytes []) by (rewrite ?zdrop_0, ?app_nil_r; try done; zlen). done. }
  assert (Ed : forall s0 : @Handles RemoteAddress crypto callback, wirefox_packet_destroy h s0 = Ret (tt, mkHandles (m_handlesPeer s0) (erase_at_address h (m_handlesPacket s0)))).
  { intros s0. unfold wirefox_packet_destroy. now rewrite (proj2 (Z.eqb_neq _ _)). }
  destruct Hok as [Hd Hz]. unfold live in Hd. apply list.NoDup_app in Hd as (_ & Hd & Hp). pose proof (erase_same h _ Hp) as Ho.
  eexists _, _, _. split; [apply Ed|]. split; [|split; [unfold wirefox_packet_create; rewrite (bind_lift _ _ _ _ E); reflexivity|]].
  - split; [done|]. unfold live. cbn [m_handlesPeer m_handlesPacket]. rewrite not_elem_of_app. split; [|done]. intros H. exact (Hd h H (object_at_Some _ _ _ Hx)).
  - split; [|split; [apply Ed|]].
    + assert (Ey : object_at h (erase_at_address h (m_handlesPacket s) ++ [(h, y)]) = Some y) by (rewrite object_at_app, object_at_None by done; cbn; now rewrite Z.eqb_refl).
      repeat split; now apply (ask_in h _ _ y).
    + cbn [m_handlesPeer m_handlesPacket]. f_equal. clear - Ho. induction (erase_at_address h (m_handlesPacket s)) as [|[k z] l IH]; cbn; [now rewrite Z.eqb_refl|].
      cbn in Ho. apply not_elem_of_cons in Ho as [H1 H2]. rewrite (proj2 (Z.eqb_neq _ _)) by congruence. now rewrite IH.
Qed.

(** ** Witnesses *)

Definition two_handles : @Handles Z unit Z := mkHandles [] [(16, mkPacket 0 5 0 None)].
Lemma two_handles_ok : handles_ok two_handles.
Proof. split; [apply NoDup_singleton|]. cbn. rewrite list_elem_of_singleton. discriminate. Qed.

(** Another packet is destroyed, and one is made at its address, before the packet is used and destroyed. *)
Lemma packet_handles_witness : exists s1 s2 s3, wirefox_packet_create 32 66 (Ret (map Some [4; 5])) 2 two_handles = Ret (32, s1) /\
  calls_run 0 s1 [C_packet_destroy 16; C_packet_create 16 9 (Ret []) 0] s2 /\ wirefox_packet_get_data 32 s2 = Ret (Some [Some 4; Some 5], s2) /\
  wirefox_packet_destroy 32 s2 = Ret (tt, s3) /\ wirefox_packet_get_data 32 s3 = Fail Dangling.
Proof.
  destruct (packet_handles 0 two_handles 32 66 [4; 5]) as (s1 & E1 & _ & _ & _ & H).
  - exact two_handles_ok.
  - split; [discriminate|]. cbn. rewrite list_elem_of_singleton. discriminate.
  - vm_compute. discriminate.
  - assert (R : exists s2, calls_run 0 s1 [C_packet_destroy 16; C_packet_create 16 9 (Ret []) 0] s2).
    { vm_compute in E1. injection E1 as <-. eexists. eapply calls_cons; [done|reflexivity|]. eapply calls_cons; [|reflexivity|constructor].
      intros a [= <-]. split; [discriminate|]. cbn. rewrite list_elem_of_singleton. discriminate. }
    destruct R as (s2 & R). destruct (H _ s2 R) as ((_ & _ & Hd & _) & s3 & E3 & _ & _ & _ & H3); [repeat constructor; discriminate|].
    exists s1, s2, s3. split; [exact E1|]. split; [exact R|]. split; [exact Hd|]. split; [exact E3|].
    destruct (H3 [] s3 (calls_none 0 s3) ltac:(constructor)) as ((_ & _ & Hg & _) & _). exact Hg.
Defined.

Lemma stale_handle_witness : exists s1 s2, wirefox_packet_destroy 16 two_handles = Ret (tt, s1) /\
  wirefox_packet_create 16 66 (Ret (map Some [4; 5])) 2 s1 = Ret (16, s2) /\ answers 16 66 [4; 5] s2.
Proof.
  destruct (stale_handle two_handles 16 (mkPacket 0 5 0 None) 66 [4; 5] two_handles_ok ltac:(discriminate) eq_refl ltac:(vm_compute; discriminate)) as (s1 & s2 & s3 & E1 & _ & E2 & Ha & _).
  exists s1, s2. done.
Defined.

(** ** Advertisements *)

Lemma first_advertisement s0 len l : BinaryStream_new 0 = Ret s0 -> 1 <= len <= max_len -> zlength l = len ->
  exists d1 s1 buf, BinaryStream_wrap (Ret l) len READONLY = Ret d1 /\ assign_copy d1 s0 = Ret (tt, s1) /\
    m_readonly s1 = true /\ m_buffer s1 = Some buf /\ zlength buf = ToNextPowerOfTwo len.
Proof.
  intros E0 Hl Hlen. cbn in E0. injection E0 as <-. pose proof (ToNextPowerOfTwo_bounds len Hl) as Hb. unfold max_len in *.
  set (fresh := replicate (Z.to_nat (ToNextPowerOfTwo len)) (@None Z)).
  assert (Hf : zlength fresh = ToNextPowerOfTwo len) by (unfold fresh; rewrite zlength_replicate; lia).
  assert (Er : forall ro, Reallocate len (mkStream None ro 0 0 0 0 false) = Ret (tt, mkStream (Some fresh) RoSelf (ToNextPowerOfTwo len) 0 0 0 false)).
  { intros ro. unfold Reallocate. rewrite bind_get. cbn [m_readonly m_buffer m_length m_position m_subBytePosition]. rewrite Z.max_l by lia.
    rewrite (bind_lift _ _ _ fresh) by (apply alloc_ok; lia). reflexivity. }
  eexists _, _, (l ++ zdrop len fresh). split; [reflexivity|]. split; [|split; [|split]].
  - unfold assign_copy. cbn [m_capacity]. rewrite (bind_ret _ _ _ _ _ (Er _)), bind_get. cbn [m_length m_buffer m_capacity].
    rewrite (bind_lift _ _ _ l) by (unfold read_from, deref_ro; cbn; rewrite (proj2 (Z.eqb_neq _ _)), mem_read_ok, zdrop_0, ztake_all by lia; done).
    assert (Ew : mem_write fresh 0 l = Ret (l ++ zdrop len fresh)) by (rewrite mem_write_ok by lia; now rewrite ztake_0, Z.add_0_l, Hlen).
    erewrite bind_ret by (rewrite (bind_lift _ _ _ _ Ew); reflexivity). reflexivity.
  - reflexivity.
  - reflexivity.
  - rewrite zlength_app, zlength_zdrop; lia.
Qed.

Lemma second_advertisement ad buf l : m_readonly ad = true -> m_buffer ad = Some buf -> zlength buf < zlength l ->
  assign_copy (mkStream None (RoUser l) (zlength l) (zlength l) 0 0 true) ad = Fail OutOfBounds.
Proof.
  intros Hro Hb Hl. pose proof (zlength_nonneg buf). unfold assign_copy, Reallocate. cbn [m_capacity].
  erewrite bind_ret by (rewrite bind_get, Hro; reflexivity). rewrite bind_get. cbn [m_length m_buffer].
  rewrite (bind_lift _ _ _ l) by (unfold read_from, deref_ro; cbn; rewrite (proj2 (Z.eqb_neq _ _)), mem_read_ok, zdrop_0, ztake_all by lia; done).
  rewrite Hb. apply bind_fail, bind_fail. unfold lift, mem_write. rewrite decide_False by lia. done.
Qed.

(** An advertisement that is set through the C interface cannot be replaced by a
    much longer one.  The interface wraps the bytes in a read-only stream, the
    assignment copies that flag along with the bytes, and the next assignment to the
    stream of the peer does not enlarge its array any more: when the new bytes do not
    fit the power of two that the old ones took, they are copied past its end. *)
Theorem second_advertisement_overflows {RemoteAddress crypto callback : Type} (s : @Handles RemoteAddress crypto callback) h p l1 l2 :
  h <> nullptr -> object_at h (m_handlesPeer s) = Some p -> BinaryStream_new 0 = Ret (m_advertisement p) ->
  1 <= zlength l1 <= max_len -> ToNextPowerOfTwo (zlength l1) < zlength l2 ->
  exists s1, wirefox_peer_set_offline_ad h (Ret l1) (zlength l1) s = Ret (tt, s1) /\
    wirefox_peer_set_offline_ad h (Ret l2) (zlength l2) s1 = Fail OutOfBounds.
Proof.
  intros Hn Hp Ha Hl1 Hl2. destruct (first_advertisement _ _ l1 Ha Hl1 eq_refl) as (d1 & ad & buf & Ed & Ea & Hro & Hb & Hlen).
  unfold wirefox_peer_set_offline_ad, on_peer. eexists. split.
  - rewrite (bind_lift _ _ _ _ Ed), bind_get, (bind_lift _ _ _ _ (deref_in _ _ _ Hn Hp)).
    rewrite (bind_lift _ _ _ (tt, set_options (m_remotesIncoming p) ad (m_channels p) p)); [reflexivity|].
    unfold SetOfflineAdvertisement. rewrite bind_get, (bind_lift _ _ _ _ Ea). reflexivity.
  - pose proof (ToNextPowerOfTwo_bounds (zlength l1) Hl1) as Hb1.
    cbn [BinaryStream_wrap]. rewrite (bind_lift _ _ _ _ eq_refl), bind_get. cbn [m_handlesPeer].
    rewrite (bind_lift _ _ _ (set_options (m_remotesIncoming p) ad (m_channels p) p)).
    2:{ apply deref_in; [done|]. exact (update_found _ _ _ _ Hp). }
    apply bind_fail. unfold lift. unfold SetOfflineAdvertisement. rewrite bind_get. cbn [m_advertisement set_options].
    rewrite (bind_fail _ _ _ OutOfBounds); [done|]. unfold lift. rewrite (second_advertisement ad buf l2); [done..|]. lia.
Qed.

Lemma second_advertisement_overflows_witness :
  let p := mkPeer 11 1 0 (mkStream None RoNull 0 0 0 0 false) ∅ SocketUDP_new [RemotePeer_new 0] [] ∅ [UNORDERED] None false ∅ 0 [] in
  exists s1 : @Handles Z unit Z, wirefox_peer_set_offline_ad 1 (Ret [Some 1; Some 2; Some 3]) 3 (mkHandles [(1, p)] []) = Ret (tt, s1) /\
    wirefox_peer_set_offline_ad 1 (Ret [Some 1; Some 2; Some 3; Some 4; Some 5]) 5 s1 = Fail OutOfBounds.
Proof.
  intros p. apply (second_advertisement_overflows (mkHandles [(1, p)] []) 1 p [Some 1; Some 2; Some 3] [Some 1; Some 2; Some 3; Some 4; Some 5]).
  - discriminate.
  - reflexivity.
  - reflexivity.
  - vm_compute. split; discriminate.
  - reflexivity.
Defined.
