(* ===== verification/Concurrency.v ===== *)
(** * Concurrency: threads, mutexes and interleavings

    A small language for what code does to mutexes and to shared variables, its
    interleaving semantics, and two disciplines with what they guarantee: taking
    mutexes in the order of a rank excludes deadlock, and accessing a variable only
    under a mutex of its own excludes data races.  The mutexes, their kinds and
    ranks and the variables are parameters; LockUse instantiates them with those of
    the library. *)

From stdpp Require Import base tactics list option relations.
From Stdlib Require Import Lia.
From S2P Require Import Prelude.

Open Scope nat_scope.

Section Threads.
Context {mutex : Type} {mutex_eq : EqDecision mutex} {var : Type} {var_eq : EqDecision var}.

(** Which mutexes a thread may lock again while it owns them (std::recursive_mutex). *)
Context (recursive : mutex -> bool).

(** Branches and the number of rounds of a loop depend on data that is left out:
    [Alt] and [Loop] allow every choice.  A guard is held to the end of its block
    and released on every way out. *)
Inductive code : Type :=
  | Skip
  | Access (write : bool) (x : var)
  | Unwind                               (* an exception, or a return from the thread function *)
  | Seq (a b : code)
  | Alt (a b : code)
  | Loop (a : code)
  | Guard (m : mutex) (a : code)         (* std::lock_guard *)
  | TryGuard (m : mutex) (a : code).     (* std::unique_lock with std::try_to_lock, a runs when it is owned *)

(** The rest of a thread: code to run and guards to release, innermost first. *)
Inductive frame : Type :=
  | Run (a : code)
  | Unlock (m : mutex).

Abbreviation stack := (list frame).
Abbreviation pool := (list stack).

Definition owned (f : frame) : option mutex := match f with Unlock m => Some m | Run _ => None end.
Definition held (k : stack) : list mutex := omap owned k.

(** An exception runs the destructors of the guards and nothing else. *)
Fixpoint unwind (k : stack) : stack :=
  match k with
  | [] => []
  | Unlock m :: k => Unlock m :: unwind k
  | Run _ :: k => unwind k
  end.

Definition held_elsewhere (p : pool) (t : nat) : list mutex := concat (imap (fun i k => if decide (i = t) then [] else held k) p).

(** A thread that owns a mutex which is not recursive would wait for itself. *)
Definition available (others : list mutex) (k : stack) (m : mutex) : bool :=
  negb (bool_decide (m ∈ others)) && (recursive m || negb (bool_decide (m ∈ held k))).

(** One step of a thread; [choice] resolves the branches. *)
Definition thread_step (choice : bool) (others : list mutex) (k : stack) : option stack :=
  match k with
  | [] => None
  | Unlock _ :: k => Some k
  | Run Skip :: k | Run (Access _ _) :: k => Some k
  | Run Unwind :: k => Some (unwind k)
  | Run (Seq a b) :: k => Some (Run a :: Run b :: k)
  | Run (Alt a b) :: k => Some (Run (if choice then a else b) :: k)
  | Run (Loop a) :: k => Some (if choice then Run a :: Run (Loop a) :: k else k)
  | Run (Guard m a) :: k => if available others k m then Some (Run a :: Unlock m :: k) else None
  | Run (TryGuard m a) :: k => Some (if choice && available others k m then Run a :: Unlock m :: k else k)
  end.

Definition pool_step (t : nat) (choice : bool) (p : pool) : option pool :=
  k ← p !! t; k' ← thread_step choice (held_elsewhere p t) k; Some (<[t := k']> p).

Definition step (p p' : pool) : Prop := exists t choice, pool_step t choice p = Some p'.

(** Running a given schedule. *)
Fixpoint run (schedule : list (nat * bool)) (p : pool) : option pool :=
  match schedule with
  | [] => Some p
  | (t, choice) :: rest => p' ← pool_step t choice p; run rest p'
  end.

Lemma run_steps schedule p p' : run schedule p = Some p' -> rtc step p p'.
Proof.
  revert p. induction schedule as [|[t c] rest IH]; cbn; intros p H; [simplify_eq; constructor|].
  destruct (pool_step t c p) as [q|] eqn:E; [|discriminate]. cbn in H. eapply rtc_l; [exists t, c; exact E|now apply IH].
Qed.

(** A thread waits for another one, or for itself, when it is at a guard of a mutex
    that the other one owns. *)
Definition wants (k : stack) : option mutex := match k with Run (Guard m _) :: _ => Some m | _ => None end.

Definition runnable (p : pool) (t : nat) : Prop := exists choice p', pool_step t choice p = Some p'.

Definition waits_for (p : pool) (t t' : nat) : Prop :=
  ~ runnable p t /\ exists k k' m, p !! t = Some k /\ wants k = Some m /\ p !! t' = Some k' /\ m ∈ held k'.

(** The access that a thread makes in its next step. *)
Definition next_access (k : stack) : option (bool * var) := match k with Run (Access w x) :: _ => Some (w, x) | _ => None end.

Definition race (p : pool) (x : var) : Prop :=
  exists t t' k k' w w', t <> t' /\ p !! t = Some k /\ p !! t' = Some k'
    /\ next_access k = Some (w, x) /\ next_access k' = Some (w', x) /\ w || w' = true.

(** Deciding a race between two given threads. *)
Definition races (p : pool) (t t' : nat) (x : var) : bool :=
  match p !! t ≫= next_access, p !! t' ≫= next_access with
  | Some (w, y), Some (w', y') => bool_decide (t <> t' /\ y = x /\ y' = x) && (w || w')
  | _, _ => false
  end.

Lemma races_race p t t' x : races p t t' x = true -> race p x.
Proof.
  unfold races. destruct (p !! t) as [k|] eqn:E, (p !! t') as [k'|] eqn:E'; cbn; [|repeat case_match; done..].
  destruct (next_access k) as [[w y]|] eqn:A, (next_access k') as [[w' y']|] eqn:A'; try done.
  intros [[? [? ?]]%bool_decide_eq_true ?]%andb_prop. subst. now exists t, t', k, k', w, w'.
Qed.

(** ** The stack and what it owns *)

Lemma held_cons f k : held (f :: k) = match owned f with Some m => m :: held k | None => held k end.
Proof. reflexivity. Qed.

Lemma held_unwind k : held (unwind k) = held k.
Proof. induction k as [|[a|m] k IH]; cbn; [done|exact IH|]. f_equal. exact IH. Qed.

Lemma elem_of_held_elsewhere p t m : m ∈ held_elsewhere p t <-> exists t' k, t' <> t /\ p !! t' = Some k /\ m ∈ held k.
Proof.
  unfold held_elsewhere. rewrite list_elem_of_In, in_concat. setoid_rewrite <- list_elem_of_In. split.
  - intros (l & Hl & Hm). apply list_elem_of_lookup in Hl as [i Hi]. rewrite list_lookup_imap in Hi.
    apply fmap_Some in Hi as (k & E & Hi). destruct (decide (i = t)); simplify_eq; [now apply not_elem_of_nil in Hm|].
    now exists i, k.
  - intros (t' & k & Ht & E & Hm). exists (held k). split; [|done]. apply list_elem_of_lookup. exists t'.
    rewrite list_lookup_imap. apply fmap_Some. exists k. split; [exact E|now rewrite decide_False].
Qed.

Lemma available_spec others k m : available others k m = true <-> (m ∉ others) /\ (m ∈ held k -> recursive m = true).
Proof.
  unfold available. rewrite andb_true_iff, orb_true_iff, !negb_true_iff, !bool_decide_eq_false.
  destruct (decide (m ∈ held k)); intuition.
Qed.

(** A step of a thread only adds a mutex that is available. *)
Lemma thread_step_held choice others k k' :
  thread_step choice others k = Some k' -> forall m, m ∈ held k' -> m ∈ held k \/ m ∉ others.
Proof.
  destruct k as [|[a|m] k]; [done|destruct a|]; cbn; intros E m' Hm; simplify_eq.
  all: try (left; exact Hm).
  - left. now rewrite held_unwind in Hm.
  - left. destruct choice; exact Hm.
  - destruct (available others k m) eqn:A; simplify_eq. apply available_spec in A as [A _].
    cbn in Hm. apply elem_of_cons in Hm as [->|Hm]; auto.
  - destruct choice; cbn in Hm; [|auto]. destruct (available others k m) eqn:A; cbn in Hm; [|auto].
    apply available_spec in A as [A _]. apply elem_of_cons in Hm as [->|Hm]; auto.
  - left. apply elem_of_cons. now right.
Qed.

(** No mutex has two owners. *)
Definition exclusive (p : pool) : Prop :=
  forall t t' k k' m, t <> t' -> p !! t = Some k -> p !! t' = Some k' -> m ∈ held k -> m ∈ held k' -> False.

Lemma exclusive_step p p' : exclusive p -> step p p' -> exclusive p'.
Proof.
  intros X (t & c & E). unfold pool_step in E. destruct (p !! t) as [k|] eqn:Ek; [|discriminate]. cbn in E.
  destruct (thread_step c _ k) as [k1|] eqn:Es; [|discriminate]. cbn in E. simplify_eq.
  assert (N : forall t' k' m, t' <> t -> p !! t' = Some k' -> m ∈ held k1 -> m ∈ held k' -> False).
  { intros t' k' m Ht E' H1 H2. destruct (thread_step_held _ _ _ _ Es m H1) as [H|H]; [eauto|].
    apply H, elem_of_held_elsewhere. eauto. }
  intros t1 t2 k1' k2' m Ht H1 H2 M1 M2.
  apply list_lookup_insert_Some in H1, H2. destruct H1 as [(<- & <- & _)|[Hn1 H1]], H2 as [(<- & <- & _)|[Hn2 H2]]; eauto.
Qed.

(** ** Waiting for oneself *)

Definition self_waits (p : pool) (t : nat) : bool :=
  match p !! t with
  | Some (Run (Guard m _) :: k) => bool_decide (m ∈ held k) && negb (recursive m)
  | _ => false
  end.

Lemma self_waits_spec p t : self_waits p t = true -> waits_for p t t /\ forall c, pool_step t c p = None.
Proof.
  unfold self_waits. destruct (p !! t) as [[|[[]|] k]|] eqn:E; try done. intros [M%bool_decide_eq_true Hr%negb_true_iff]%andb_prop.
  assert (N : forall c, pool_step t c p = None).
  { intros c. unfold pool_step. rewrite E. cbn. destruct (available _ k m) eqn:A; [|done].
    apply available_spec in A as [_ A]. now rewrite A in Hr. }
  split; [|done]. split; [intros (c & p' & S); now rewrite N in S|].
  exists (Run (Guard m a) :: k), (Run (Guard m a) :: k), m. auto.
Qed.

(** It never ends. *)
Lemma self_waits_forever p p' t : self_waits p t = true -> rtc step p p' -> waits_for p' t t.
Proof.
  intros W S. induction S as [|p q p' (t' & c & Es) _ IH]; [now apply self_waits_spec|]. apply IH.
  destruct (decide (t' = t)) as [->|Ht]; [now rewrite (proj2 (self_waits_spec p t W) c) in Es|].
  unfold pool_step in Es. destruct (p !! t') as [k|]; [|discriminate]. cbn in Es.
  destruct (thread_step c _ k); [|discriminate]. cbn in Es. simplify_eq. unfold self_waits in *.
  now rewrite list_lookup_insert_ne.
Qed.

(** ** Disciplines

    A discipline says which mutexes may be taken and which variables may be accessed,
    given what the thread owns.  [respects] checks code that starts with the mutexes
    [H] owned; it is the static analysis that the theorems below make sense of. *)

Record discipline := {
  may_lock : list mutex -> mutex -> bool;
  may_try : list mutex -> mutex -> bool;
  may_access : list mutex -> bool -> var -> bool }.

Section Discipline.
Context (d : discipline).

Fixpoint respects (H : list mutex) (a : code) : bool :=
  match a with
  | Skip | Unwind => true
  | Access w x => may_access d H w x
  | Seq a b | Alt a b => respects H a && respects H b
  | Loop a => respects H a
  | Guard m a => may_lock d H m && respects (m :: H) a
  | TryGuard m a => may_try d H m && respects (m :: H) a
  end.

Fixpoint respects_stack (k : stack) : bool :=
  match k with
  | [] => true
  | Run a :: k => respects (held k) a && respects_stack k
  | Unlock _ :: k => respects_stack k
  end.

Lemma respects_unwind k : respects_stack (unwind k) = true.
Proof. induction k as [|[]]; done. Qed.

Lemma respects_thread choice others k k' :
  respects_stack k = true -> thread_step choice others k = Some k' -> respects_stack k' = true.
Proof.
  destruct k as [|[a|m] k]; [done|destruct a|]; cbn; rewrite ?andb_true_iff; intros R E; simplify_eq; try tauto.
  - apply respects_unwind.
  - cbn. rewrite !andb_true_iff. tauto.
  - cbn. rewrite andb_true_iff. destruct choice; tauto.
  - destruct choice; cbn; rewrite ?andb_true_iff; tauto.
  - case_match; simplify_eq. cbn. rewrite andb_true_iff. tauto.
  - case_match; cbn; rewrite ?andb_true_iff; tauto.
Qed.

Definition respects_pool (p : pool) : Prop := forall t k, p !! t = Some k -> respects_stack k = true.

Lemma respects_step p p' : respects_pool p -> step p p' -> respects_pool p'.
Proof.
  intros R (t & c & E). unfold pool_step in E. destruct (p !! t) as [k|] eqn:Ek; [|discriminate]. cbn in E.
  destruct (thread_step c _ k) as [k1|] eqn:Es; [|discriminate]. cbn in E. simplify_eq.
  intros t' k' [(<- & <- & _)|[_ H]]%list_lookup_insert_Some; [|eauto]. eapply respects_thread; eauto.
Qed.

(** Every state of a pool that starts well keeps both invariants. *)
Lemma reachable_good p p' : exclusive p -> respects_pool p -> rtc step p p' -> exclusive p' /\ respects_pool p'.
Proof. intros X R S. induction S; [done|]. apply IHS; eauto using exclusive_step, respects_step. Qed.

Lemma pool_access p t k w x : respects_pool p -> p !! t = Some k -> next_access k = Some (w, x) -> may_access d (held k) w x = true.
Proof.
  intros R E A. specialize (R t k E). destruct k as [|[[]|] k]; try discriminate. cbn in *. simplify_eq.
  now apply andb_prop in R as [R _].
Qed.

(** A variable with a mutex of its own is never accessed by two threads at once. *)
Theorem guarded_no_race p x m :
  (forall H w, may_access d H w x = true -> m ∈ H) -> exclusive p -> respects_pool p -> ~ race p x.
Proof.
  intros G X R (t & t' & k & k' & w & w' & Ht & E & E' & A & A' & _).
  eapply (X t t'); eauto; eapply G, pool_access; eauto.
Qed.
End Discipline.

(** ** The rank of a mutex

    A thread takes a mutex only when all that it owns rank lower, or when it owns the
    mutex already and may lock it again. *)

Section Rank.
Context (rank : mutex -> nat) (top : nat) (rank_top : forall m, rank m <= top).

Definition in_order (H : list mutex) (m : mutex) : bool :=
  if bool_decide (m ∈ H) then recursive m else forallb (fun h => rank h <? rank m) H.

Lemma in_order_spec H m : in_order H m = true -> (m ∈ H -> recursive m = true) /\ (m ∈ H \/ forall h, h ∈ H -> rank h < rank m).
Proof.
  unfold in_order. case_bool_decide; [tauto|]. intros F. split; [done|]. right. intros h Hh.
  rewrite forallb_forall in F. apply Nat.ltb_lt, F. now apply list_elem_of_In.
Qed.

Lemma pool_step_choice p t c : pool_step t true p = None -> pool_step t c p = None.
Proof. unfold pool_step. now destruct (p !! t) as [[|[[]|] k]|]. Qed.

Lemma blocked_waits (d : discipline) p t k :
  (forall H m, may_lock d H m = true -> in_order H m = true) -> respects_pool d p ->
  p !! t = Some k -> k <> [] -> pool_step t true p = None ->
  exists m t' k', wants k = Some m /\ (m ∈ held k \/ forall h, h ∈ held k -> rank h < rank m)
    /\ t' <> t /\ p !! t' = Some k' /\ m ∈ held k' /\ waits_for p t t'.
Proof.
  intros O R E Hk N. assert (N' : ~ runnable p t). { intros (c & p' & Hc). now rewrite (pool_step_choice _ _ _ N) in Hc. }
  unfold pool_step in N. rewrite E in N. cbn in N. specialize (R t k E).
  destruct k as [|[[]|] k]; try done. cbn in N, R. destruct (available _ k m) eqn:A; [done|].
  apply andb_prop in R as [[R _]%andb_prop _]. apply O, in_order_spec in R as [R1 R2].
  assert (M : m ∈ held_elsewhere p t). { apply dec_stable. intros M. apply not_true_iff_false in A. apply A, available_spec. auto. }
  apply elem_of_held_elsewhere in M as (t' & k' & Ht & E' & M). exists m, t', k'. do 5 (split; [done|]). split; [done|].
  exists (Run (Guard m a) :: k), k', m. auto.
Qed.

(** Following the waits from any thread that has not ended leads to a thread that
    can run: the rank of the mutex that is waited for grows along them. *)
Theorem waits_end (d : discipline) p t k :
  (forall H m, may_lock d H m = true -> in_order H m = true) ->
  exclusive p -> respects_pool d p -> p !! t = Some k -> k <> [] ->
  exists t', rtc (waits_for p) t t' /\ runnable p t'.
Proof.
  intros O X R E Hk. remember (S (S top)) as n eqn:En.
  assert (B : forall m, wants k = Some m -> S top - rank m < n). { intros. lia. }
  clear En. revert t k E Hk B. induction n as [n IH] using lt_wf_ind. intros t k E Hk B.
  destruct (pool_step t true p) as [p'|] eqn:Es; [exists t; split; [constructor|now exists true, p']|].
  destruct (blocked_waits d p t k O R E Hk Es) as (m & t' & k' & W & _ & Ht & E' & M & Wt). specialize (B m W).
  destruct (pool_step t' true p) as [p'|] eqn:Es'; [exists t'; split; [now apply rtc_once|now exists true, p']|].
  assert (Hk' : k' <> []). { intros ->. now apply not_elem_of_nil in M. }
  destruct (blocked_waits d p t' k' O R E' Hk' Es') as (m' & t2 & k2 & W' & [M'|L] & Ht2 & E2 & M2 & _).
  - exfalso. eapply (X t' t2); eauto.
  - destruct (IH (S (S top - rank m')) ltac:(specialize (L m M); pose proof (rank_top m'); lia) t' k' E' Hk') as (t3 & Wr & Rn).
    { intros m3 W3. rewrite W3 in W'. simplify_eq. lia. }
    exists t3. split; [now apply rtc_l with t'|done].
Qed.

End Rank.

End Threads.
Arguments code : clear implicits.
Arguments frame : clear implicits.
