(* ===== verification/LockUse.v ===== *)
(** * LockUse: the mutexes and the shared data of the library

    What every function that takes a mutex, or that runs while one is held, does to
    the mutexes of the library and to the members that several threads use:
    source/PacketQueue.cpp, RemotePeer.cpp, DatagramBuilder.cpp, ReceiptTracker.cpp,
    Handshaker.cpp, HandshakerThreeWay.cpp, Peer.cpp, WirefoxCBindings.cpp and
    platform/desktop/SocketUDP.cpp.  The data itself is in the other files; here a
    branch is a choice and a loop runs any number of times, so that a run of the
    code below contains every run of the library.  Members that are std::atomic
    (disconnect, reserved, active, the abort and pending flags) do not race and are
    left out. *)

From stdpp Require Import base tactics list option.
From Stdlib Require Import Lia.
From S2P Require Import Prelude Concurrency.

Open Scope nat_scope.

(** The members of RemotePeer that are not atomic.  The sentbox is the vector of
    datagrams; [f_blob] stands for the arrays that hold their bytes, to which asio keeps
    a pointer until the write is complete. *)
Inductive member : Type :=
  | f_channels | f_addr | f_outbox | f_sentbox | f_blob | f_socket | f_crypto | f_handshake
  | f_congestion | f_receipt | f_assembly | f_stats | f_id.

#[export] Instance member_eq_dec : EqDecision member.
Proof. solve_decision. Defined.

Inductive shared : Type :=
  | slot (i : nat) (f : member)             (* m_remotes[i] *)
  | m_inbox                                 (* PacketQueue *)
  | m_remoteLookup | m_rpc | m_channels | m_advertisement | m_crypto | m_remotesIncoming    (* Peer *)
  | m_socket                                (* SocketUDP: the asio socket and its state *)
  | m_handlesPeer | m_handlesPacket         (* WirefoxCBindings.cpp *)
  | callback.                               (* a call of an RPC callback of the application *)

#[export] Instance shared_eq_dec : EqDecision shared.
Proof. solve_decision. Defined.

(** A thread that runs counts as a mutex that it owns until it ends: join waits for
    it the way a lock waits for its owner. *)
Inductive mutex : Type :=
  | remote_lock (i : nat)                   (* RemotePeer::lock of slot i *)
  | m_lockInbox                             (* PacketQueue *)
  | m_handleTableMutex                      (* WirefoxCBindings.cpp *)
  | m_mutex                                 (* AwaitableEvent *)
  | m_socketThread                          (* SocketUDP *)
  | m_updateThread.                         (* PacketQueue *)

#[export] Instance mutex_eq_dec : EqDecision mutex.
Proof. solve_decision. Defined.

(** cfg::RecursiveMutex is std::recursive_mutex, cfg::LockableMutex is std::mutex. *)
Definition recursive (m : mutex) : bool := match m with remote_lock _ => true | _ => false end.

Abbreviation code := (code mutex shared).

Definition R (x : shared) : code := Access false x.
Definition W (x : shared) : code := Access true x.
Definition opt (a : code) : code := Alt a Skip.
Definition block (l : list code) : code := foldr Seq Skip l.
Definition one_of (l : list code) : code := foldr Alt Skip l.
(** A loop over slots, and work on one slot out of several. *)
Definition each (l : list nat) (f : nat -> code) : code := block (f <$> l).
Definition any (l : list nat) (f : nat -> code) : code := one_of (f <$> l).
Definition join (t : mutex) : code := Guard t Skip.

(** ** PacketQueue: the two kinds of queue *)

Definition EnqueueOutOfBand_locks (forceCryptoBy : option nat) : code :=
  block [from_option (fun i => R (slot i f_crypto)) Skip forceCryptoBy;
         Guard (remote_lock 0) (W (slot 0 f_outbox))].

Definition EnqueueLoopback_locks : code := Guard m_lockInbox (W m_inbox).

Definition DequeueIncoming_locks : code := Guard m_lockInbox (block [R m_inbox; opt (W m_inbox)]).

(** ** RemotePeer *)

Definition Reset_locks (i : nat) : code :=
  Guard (remote_lock i) (block [W (slot i f_id); W (slot i f_addr); W (slot i f_socket); W (slot i f_handshake);
    W (slot i f_congestion); W (slot i f_crypto); W (slot i f_receipt); W (slot i f_assembly); W (slot i f_stats);
    W (slot i f_outbox); W (slot i f_sentbox); W (slot i f_blob); W (slot i f_channels)]).

Definition Setup_locks (i : nat) : code :=
  block [W (slot i f_congestion); W (slot i f_receipt);
    opt (block [W (slot i f_crypto); R m_crypto; W (slot i f_handshake)])].

Definition IsConnected_locks (i : nat) : code := R (slot i f_handshake).

(** vector::at throws for a channel that was not made here. *)
Definition GetChannelBuffer_locks (i : nat) : code :=
  opt (block [R m_channels; opt Unwind; opt (block [R (slot i f_channels); opt (W (slot i f_channels))])]).

(** ** Notifications of Peer *)

Definition OnMessageReceipt_locks : code := EnqueueLoopback_locks.

Definition OnDisconnect_locks (i : nat) : code := block [R (slot i f_id); W m_remoteLookup; R (slot i f_id); EnqueueLoopback_locks].

Definition SendHandshakePart_locks (i : nat) : code :=
  block [R (slot i f_crypto); R (slot i f_addr);
    Alt (EnqueueOutOfBand_locks (Some i)) (EnqueueOutOfBand_locks None)].

Definition SendHandshakeCompleteNotification_locks (i : nat) : code :=
  block [R (slot i f_handshake); opt (block [R (slot i f_id); EnqueueLoopback_locks]); opt (Reset_locks i)].

(** ** Handshaker and HandshakerThreeWay *)

Definition Reply_locks (i : nat) : code := block [W (slot i f_handshake); opt (SendHandshakePart_locks i)].

Definition Complete_locks (i : nat) : code :=
  block [W (slot i f_handshake); opt (SendHandshakeCompleteNotification_locks i)].

Definition Handshaker_Update_locks (i : nat) : code :=
  block [R (slot i f_handshake);
    opt (TryGuard (remote_lock i) (block [W (slot i f_handshake);
      Alt (Complete_locks i) (block [R (slot i f_handshake); opt (Reply_locks i)])]))].

Definition Begin_locks (i : nat) : code := block [R m_crypto; W (slot i f_handshake); Reply_locks i].

(** ** Peer: connections *)

Definition DisconnectImmediate_locks (i : nat) : code :=
  block [R (slot i f_handshake);
    opt (block [R (slot i f_handshake); Alt (OnDisconnect_locks i) (Complete_locks i); Reset_locks i])].

Section Slots.
Context (n : nat).             (* m_remotesMax: the slots are 0, which is out of band, to n - 1 *)

Definition all_slots : list nat := seq 0 n.
Definition slots : list nat := seq 1 (n - 1).

(** The overload for a Peer that is not const remembers what it found. *)
Definition GetRemoteByID_locks : code :=
  block [R m_remoteLookup;
    opt (block [each slots (fun i => R (slot i f_id)); opt (W m_remoteLookup)])].

Definition GetRemoteByID_const_locks : code :=
  block [R m_remoteLookup; opt (each slots (fun i => R (slot i f_id)))].

Definition GetRemoteByAddress_locks : code := each slots (fun i => R (slot i f_addr)).

Definition Handle_locks (i : nat) : code :=
  block [R (slot i f_handshake);
    opt (Guard (remote_lock i) (block [
      opt (Complete_locks i);                                             (* short header *)
      one_of [Complete_locks i;                                           (* magic *)
        block [Reply_locks i; Complete_locks i];                          (* version *)
        block [GetRemoteByID_locks;
          one_of [block [Reply_locks i; Complete_locks i];                (* competitor *)
            block [W (slot i f_id);
              one_of [Complete_locks i;                                   (* ERROR_OCCURRED *)
                block [R (slot i f_handshake); R m_crypto;                (* INITIAL_CLIENT *)
                  one_of [block [Reply_locks i; Complete_locks i]; block [W (slot i f_handshake); Reply_locks i]]];
                block [R (slot i f_handshake); Complete_locks i];         (* UNENCRYPTED_ACK *)
                block [R (slot i f_handshake); R m_crypto;                (* INITIAL_SERVER *)
                  Alt (block [W (slot i f_handshake); W (slot i f_crypto)]) (Complete_locks i);
                  Reply_locks i];
                block [W (slot i f_handshake); W (slot i f_crypto);       (* AUTH_MSG *)
                  opt (Reply_locks i); W (slot i f_crypto); opt (Complete_locks i)]]]]]]]))].

(** ** PacketQueue: sending *)

Definition EnqueueOutgoing_locks (i : nat) : code :=
  opt (Guard (remote_lock i) (block [
    W (slot i f_congestion);
    GetChannelBuffer_locks i; opt (W (slot i f_channels));
    Loop (block [R (slot i f_addr); opt (W (slot i f_congestion)); W (slot i f_outbox)]);
    opt (W (slot i f_receipt));
    W (slot i f_stats)])).

(** ** ReceiptTracker and the acknowledgements of RemotePeer *)

(** The nested call for the container of a split packet is another round. *)
Definition Acknowledge_locks (i : nat) : code :=
  Loop (block [W (slot i f_receipt); opt OnMessageReceipt_locks]).

Definition ReceiptTracker_Update_locks (i : nat) : code :=
  Guard (remote_lock i) (block [
    Loop (block [R (slot i f_sentbox); Loop (block [R (slot i f_receipt); opt (block [W (slot i f_receipt); OnMessageReceipt_locks])])]);
    W (slot i f_sentbox); W (slot i f_blob)]).

Definition RemovePacketFromOutbox_locks (i : nat) : code := block [R (slot i f_outbox); opt (W (slot i f_outbox))].

Definition HandleAcknowledgements_locks (i : nat) : code :=
  Guard (remote_lock i) (Loop (block [R (slot i f_sentbox);
    opt (block [Loop (block [R (slot i f_receipt); Acknowledge_locks i; RemovePacketFromOutbox_locks i]); W (slot i f_sentbox); W (slot i f_blob)]);
    W (slot i f_congestion)])).

Definition HandleNonAcknowledgements_locks (i : nat) : code :=
  Guard (remote_lock i) (block [
    Loop (block [R (slot i f_sentbox);
      opt (block [Loop (block [R (slot i f_outbox); opt (W (slot i f_outbox))]); W (slot i f_sentbox); W (slot i f_blob)])]);
    W (slot i f_congestion)]).

(** ** DatagramBuilder and the write cycle *)

Definition MakeDatagram_locks (i : nat) : code :=
  Guard (remote_lock i) (block [R (slot i f_outbox);
    opt (block [R (slot i f_congestion);
      opt (block [opt (block [R (slot i f_outbox); opt (block [W (slot i f_outbox); W (slot i f_stats)])]);
        Loop (block [R (slot i f_id); R (slot i f_handshake); R (slot i f_outbox); R (slot i f_congestion); opt (W (slot i f_outbox))]);
        opt (block [W (slot i f_congestion); R (slot i f_outbox); IsConnected_locks i;
          Loop (W (slot i f_outbox));
          Alt (block [opt OnMessageReceipt_locks; DisconnectImmediate_locks i])      (* resent too often *)
            (block [Loop (block [R (slot i f_outbox); opt (RemovePacketFromOutbox_locks i)]);
              W (slot i f_stats); W (slot i f_sentbox); W (slot i f_blob)])])])])]).

Definition MakeAckgram_locks (i : nat) : code :=
  Guard (remote_lock i) (block [W (slot i f_congestion); R (slot i f_addr); W (slot i f_sentbox); W (slot i f_blob)]).

Definition GetNextDatagram_locks (i : nat) : code :=
  block [R (slot i f_congestion); Alt (MakeAckgram_locks i) (MakeDatagram_locks i)].

(** asio may read the buffer at once; otherwise the thread of the socket reads it
    before the completion ([write_completion_locks]). *)
Definition BeginWrite_locks (i : nat) : code := block [W m_socket; opt (R (slot i f_blob))].
Definition BeginRead_locks : code := W m_socket.

Definition DoReadCycle_locks (i : nat) : code := block [R (slot i f_socket); opt BeginRead_locks].

Definition DoWriteCycle_locks (i : nat) : code :=
  block [R (slot i f_socket);
    opt (block [R (slot i f_outbox); W (slot i f_stats); GetNextDatagram_locks i;
      opt (block [opt (block [R m_crypto; R (slot i f_crypto); opt (block [W (slot i f_crypto); W (slot i f_sentbox); W (slot i f_blob)])]);
        Alt (DisconnectImmediate_locks i)                                            (* encryption failed *)
          (block [R (slot i f_sentbox); W (slot i f_stats); W (slot i f_congestion); BeginWrite_locks i])])])].

(** ** PacketQueue: receiving *)

Definition HandleIncomingPacket_locks (i : nat) : code :=
  block [GetChannelBuffer_locks i;
    Alt (block [W (slot i f_channels); Loop (block [Guard m_lockInbox (W m_inbox); W (slot i f_channels)])])
      (Guard m_lockInbox (W m_inbox))].

Definition HandleSplitPacket_locks (i : nat) : code :=
  block [W (slot i f_assembly); opt (HandleIncomingPacket_locks i)].

Definition SendRejectionReply_locks : code := EnqueueOutOfBand_locks None.

Definition OnNewIncomingPeer_locks : code :=
  block [R m_remotesIncoming;
    Alt SendRejectionReply_locks
      (any slots (fun i => block [Setup_locks i; W (slot i f_handshake); W (slot i f_socket); W (slot i f_addr); Handle_locks i]))].

Definition OnUnconnectedMessage_locks : code :=
  one_of [block [R m_advertisement; opt (EnqueueOutOfBand_locks None)];                   (* PING *)
    block [GetRemoteByAddress_locks;                                                      (* CONNECT_ATTEMPT *)
      Alt OnNewIncomingPeer_locks (any slots (fun i => block [R (slot i f_handshake); opt (Handle_locks i)]))];
    block [GetRemoteByAddress_locks; any slots DisconnectImmediate_locks];                (* DISCONNECT_ACK *)
    EnqueueLoopback_locks].                                                               (* ADVERTISEMENT *)

(** The callbacks of the application, whatever they do. *)
Context (rpc : code).

Definition OnSystemPacket_locks (i : nat) : code :=
  one_of [block [OnDisconnect_locks i; R (slot i f_addr); EnqueueOutOfBand_locks (Some i); Reset_locks i];    (* DISCONNECT_REQUEST *)
    block [R m_rpc; Loop (block [R m_rpc; W callback; rpc])]].                                               (* RPC_SIGNAL *)

Definition read_connected_locks (i : nat) : code :=
  block [opt (HandleAcknowledgements_locks i); opt (HandleNonAcknowledgements_locks i);
    Loop (block [W (slot i f_congestion);
      opt (block [W (slot i f_stats);
        one_of [HandleSplitPacket_locks i; block [R (slot i f_id); OnSystemPacket_locks i];
          block [R (slot i f_id); HandleIncomingPacket_locks i]]])])].

Definition OnReadFinished_locks : code :=
  block [GetRemoteByAddress_locks;
    one_of [any slots DisconnectImmediate_locks;                                          (* error *)
      OnUnconnectedMessage_locks;                                                         (* unknown sender *)
      any slots (fun i => block [W (slot i f_stats); R (slot i f_crypto); opt (W (slot i f_crypto));
        one_of [DisconnectImmediate_locks i;                                              (* ciphertext, header or length *)
          OnUnconnectedMessage_locks;                                                     (* no flag_link *)
          block [R (slot i f_handshake); DisconnectImmediate_locks i];                    (* handshake not complete *)
          block [R (slot i f_handshake); W (slot i f_congestion); opt (read_connected_locks i)]]])]].

Definition OnWriteFinished_locks (i : nat) : code := opt (DisconnectImmediate_locks i).

(** ** The threads of the library *)

Definition connect_callback_locks (i : nat) : code :=
  Alt (DisconnectImmediate_locks i)
    (block [W (slot i f_addr); W (slot i f_socket); W (slot i f_handshake); Begin_locks i]).

Definition read_completion_locks : code := block [OnReadFinished_locks; R m_socket; opt BeginRead_locks].

(** The transfer that BeginWrite began: the bytes are read while no mutex is owned. *)
Definition write_completion_locks (i : nat) : code := block [opt (R (slot i f_blob)); OnWriteFinished_locks i].

(** The completions that m_context runs on the thread of the socket. *)
Definition socket_thread : code :=
  Loop (one_of [read_completion_locks; any all_slots write_completion_locks; any all_slots connect_callback_locks]).

Definition worker_slot_locks (i : nat) : code :=
  opt (Guard (remote_lock i) (block [
    R (slot i f_handshake); opt (Handshaker_Update_locks i);
    R (slot i f_congestion); opt (block [W (slot i f_congestion); W (slot i f_stats)]);
    R (slot i f_receipt); opt (ReceiptTracker_Update_locks i);
    Alt (block [DisconnectImmediate_locks i; Unwind])                                     (* return *)
      (block [R (slot i f_socket); R m_socket; opt (block [DoReadCycle_locks i; DoWriteCycle_locks i])])])).

Definition WaitFor_locks : code := Guard m_mutex Skip.

Definition worker_thread : code := Loop (block [each all_slots worker_slot_locks; WaitFor_locks]).

(** ** The interface of Peer *)

Definition PacketQueue_Stop_locks : code := opt (join m_updateThread).

Definition Unbind_locks : code := block [W m_socket; opt (join m_socketThread)].

Definition Peer_destructor_locks : code := block [Unbind_locks; PacketQueue_Stop_locks].

Definition Bind_locks : code := block [Setup_locks 0; W (slot 0 f_socket); W m_socket].

Definition Connect_locks : code :=
  any all_slots (fun i => block [Setup_locks i;
    one_of [block [R m_crypto; Reset_locks i];
      block [opt (W (slot i f_crypto)); R m_socket; opt (Reset_locks i)]]]).

Definition Disconnect_locks : code := block [GetRemoteByID_locks; any slots EnqueueOutgoing_locks].

Definition DisconnectImmediate_id_locks : code := block [GetRemoteByID_locks; any slots DisconnectImmediate_locks].

Definition Stop_locks : code :=
  block [each slots (fun i => block [IsConnected_locks i; opt (block [R (slot i f_id); Disconnect_locks])]);
    each slots Reset_locks; Unbind_locks].

Definition Send_locks : code := opt (block [GetRemoteByID_locks; any slots EnqueueOutgoing_locks]).

Definition Ping_locks : code := block [R m_socket; opt (EnqueueOutOfBand_locks None)].

Definition SetEncryptionEnabled_locks : code := block [R m_socket; opt (W m_crypto)].

Definition SetEncryptionIdentity_locks : code := block [R m_crypto; opt (W m_crypto)].

Definition GetChannelModeByIndex_locks : code := block [R m_channels; opt Unwind].

Definition GetAllConnectedPeers_locks : code := each slots (fun i => block [IsConnected_locks i; opt (R (slot i f_id))]).

Definition GetPing_locks : code := block [GetRemoteByID_const_locks; any slots (fun i => R (slot i f_congestion))].

Definition GetStats_locks : code := GetRemoteByID_const_locks.

(** What a callback may do: anything but stop the peer, which would wait for the
    thread that the callback runs on. *)
Definition callback_calls : list code :=
  [Bind_locks; Connect_locks; Disconnect_locks; DisconnectImmediate_id_locks; Send_locks; EnqueueLoopback_locks; Ping_locks;
   EnqueueOutOfBand_locks None; DequeueIncoming_locks; SetEncryptionEnabled_locks; SetEncryptionIdentity_locks;
   W m_advertisement; W m_channels; GetChannelModeByIndex_locks; GetAllConnectedPeers_locks; GetPing_locks; GetStats_locks;
   W m_remotesIncoming; W m_rpc].

(** ** The C interface *)

Definition wirefox_peer_create_locks : code := Guard m_handleTableMutex (block [W m_handlesPeer; R m_handlesPeer]).

Definition wirefox_peer_destroy_locks : code :=
  opt (Guard m_handleTableMutex (block [R m_handlesPeer; opt (block [W m_handlesPeer; Peer_destructor_locks])])).

Definition wirefox_peer_receive_locks : code :=
  block [DequeueIncoming_locks; opt (Guard m_handleTableMutex (block [W m_handlesPacket; R m_handlesPacket]))].

Definition wirefox_peer_send_locks : code := block [GetChannelModeByIndex_locks; Send_locks].

Definition wirefox_peer_get_stat_locks : code := block [GetStats_locks; any slots (fun i => R (slot i f_stats))].

Definition wirefox_packet_create_locks : code := Guard m_handleTableMutex (block [W m_handlesPacket; R m_handlesPacket]).

Definition wirefox_packet_destroy_locks : code :=
  opt (Guard m_handleTableMutex (block [R m_handlesPacket; opt (W m_handlesPacket)])).

Definition user_calls : list code :=
  callback_calls ++ [Stop_locks; Peer_destructor_locks; wirefox_peer_create_locks; wirefox_peer_destroy_locks;
    wirefox_peer_receive_locks; wirefox_peer_send_locks; wirefox_peer_get_stat_locks; wirefox_packet_create_locks; wirefox_packet_destroy_locks].

(** A thread of the application makes any calls in any order. *)
Definition user_thread : code := Loop (one_of user_calls).

(** The thread of the worker, the thread of the socket, and the application's. *)
Definition wirefox_threads (users : nat) : list (list (frame mutex shared)) :=
  [Run worker_thread; Unlock m_updateThread] :: [Run socket_thread; Unlock m_socketThread] :: replicate users [Run user_thread].

End Slots.
