(* ===== verification/LockTheorems.v ===== *)
(** * LockTheorems: the threads of the library cannot block each other for ever

    The order in which the library takes its mutexes, the members that are only used
    under a mutex, and what follows from both for every interleaving of the threads
    of LockUse; then accesses that no mutex separates. *)

From stdpp Require Import base tactics list option relations.
From Stdlib Require Import Lia.
From S2P Require Import Prelude Concurrency LockUse.

Open Scope nat_scope.

(** The mutex of a connection comes before that of the out-of-band slot, which comes
    before the inbox; a thread that is joined ranks below whatever it locks. *)
Definition rank (m : mutex) : nat :=
  match m with
  | m_handleTableMutex => 0
  | m_socketThread => 1
  | m_updateThread => 2
  | remote_lock (S _) => 3
  | remote_lock 0 => 4
  | m_lockInbox => 5
  | m_mutex => 6
  end.

Definition is_thread (m : mutex) : bool := match m with m_socketThread | m_updateThread => true | _ => false end.

(** The mutex that guards a member, if one does. *)
Definition guard_of (x : shared) : option mutex :=
  match x with
  | slot i f_outbox | slot i f_sentbox => Some (remote_lock i)
  | m_inbox => Some m_lockInbox
  | m_handlesPeer | m_handlesPacket => Some m_handleTableMutex
  | _ => None
  end.

(** try_lock of a std::mutex that the thread owns is undefined. *)
Definition try_allowed (H : list mutex) (m : mutex) : bool := recursive m || negb (bool_decide (m ∈ H)).

(** A callback of the application runs while no mutex is owned. *)
Definition access_allowed (H : list mutex) (w : bool) (x : shared) : bool :=
  match x with
  | callback => forallb is_thread H
  | _ => match guard_of x with Some m => bool_decide (m ∈ H) | None => true end
  end.

Definition wirefox_discipline : discipline :=
  {| may_lock := in_order recursive rank; may_try := try_allowed; may_access := access_allowed |}.

Abbreviation respects := (respects wirefox_discipline).
Abbreviation step := (step recursive).

(** ** Checking code *)

(** A thread works on slot [i]: it owns at most the mutex of that slot. *)
Definition on_slot (i : nat) (H : list mutex) : Prop := forall h, h ∈ H -> h = remote_lock i \/ is_thread h = true.
Definition idle (H : list mutex) : Prop := forall h, h ∈ H -> is_thread h = true.

Lemma idle_on_slot i H : idle H -> on_slot i H.
Proof. intros D h Hh. auto. Qed.

Lemma on_slot_cons i H : on_slot i H -> on_slot i (remote_lock i :: H).
Proof. intros D h [->|Hh]%elem_of_cons; auto. Qed.

Lemma idle_forallb H : idle H -> forallb is_thread H = true.
Proof. intros D. apply forallb_forall. intros h Hh. apply D. now apply list_elem_of_In. Qed.

Lemma in_order_intro H m :
  (m ∈ H -> recursive m = true) -> (m ∉ H -> forall h, h ∈ H -> rank h < rank m) -> in_order recursive rank H m = true.
Proof.
  intros A B. unfold in_order. case_bool_decide; [auto|]. apply forallb_forall. intros h Hh. apply Nat.ltb_lt, B; [done|].
  now apply list_elem_of_In.
Qed.

Lemma thread_rank h : is_thread h = true -> rank h < 3.
Proof. destruct h; cbn; try discriminate; lia. Qed.

Lemma slot_rank i : 3 <= rank (remote_lock i) <= 4.
Proof. destruct i; cbn; lia. Qed.

Lemma lock_slot i H : on_slot i H -> in_order recursive rank H (remote_lock i) = true.
Proof.
  intros D. apply in_order_intro; [done|]. intros N h Hh. destruct (D h Hh) as [->|T]; [done|].
  pose proof (thread_rank h T). pose proof (slot_rank i). lia.
Qed.

Lemma lock_oob i H : on_slot i H -> in_order recursive rank H (remote_lock 0) = true.
Proof.
  intros D. apply in_order_intro; [done|]. intros N h Hh. destruct (D h Hh) as [->|T].
  - destruct i; [done|cbn; lia].
  - pose proof (thread_rank h T). cbn. lia.
Qed.

Lemma lock_inbox i H : on_slot i H -> in_order recursive rank H m_lockInbox = true.
Proof.
  intros D. apply in_order_intro.
  - intros Hh. now destruct (D _ Hh).
  - intros N h Hh. cbn. destruct (D h Hh) as [->|T]; [pose proof (slot_rank i)|pose proof (thread_rank h T)]; lia.
Qed.

Lemma try_slot i H : try_allowed H (remote_lock i) = true.
Proof. reflexivity. Qed.

Create HintDb locks.
#[local] Hint Resolve idle_on_slot on_slot_cons lock_slot lock_oob lock_inbox try_slot idle_forallb list_elem_of_here list_elem_of_further : locks.

Lemma respects_seq H a b : respects H a = true -> respects H b = true -> respects H (Seq a b) = true.
Proof. cbn. now intros -> ->. Qed.
Lemma respects_alt H a b : respects H a = true -> respects H b = true -> respects H (Alt a b) = true.
Proof. cbn. now intros -> ->. Qed.
Lemma respects_guard H m a : in_order recursive rank H m = true -> respects (m :: H) a = true -> respects H (Guard m a) = true.
Proof. cbn. now intros -> ->. Qed.
Lemma respects_try H m a : try_allowed H m = true -> respects (m :: H) a = true -> respects H (TryGuard m a) = true.
Proof. cbn. now intros -> ->. Qed.
Lemma respects_block H l : Forall (fun a => respects H a = true) l -> respects H (block l) = true.
Proof. induction 1; [done|]. now apply respects_seq. Qed.
Lemma respects_one_of H l : Forall (fun a => respects H a = true) l -> respects H (one_of l) = true.
Proof. induction 1; [done|]. now apply respects_alt. Qed.
Lemma respects_each H l f : (forall i, i ∈ l -> respects H (f i) = true) -> respects H (each l f) = true.
Proof. intros F. apply respects_block, Forall_fmap, Forall_forall. exact F. Qed.
Lemma respects_any H l f : (forall i, i ∈ l -> respects H (f i) = true) -> respects H (any l f) = true.
Proof. intros F. apply respects_one_of, Forall_fmap, Forall_forall. exact F. Qed.
Lemma respects_access H w x : access_allowed H w x = true -> respects H (Access w x) = true.
Proof. done. Qed.
Lemma allowed_guarded H w x m : guard_of x = Some m -> m ∈ H -> access_allowed H w x = true.
Proof. intros G M. unfold access_allowed. rewrite G, bool_decide_true by done. now destruct x. Qed.

(** One structural step, else the lemma of the function that is called. *)
Ltac lock_check :=
  repeat (intros;
    lazymatch goal with
    | |- Forall _ [] => constructor
    | |- Forall _ (_ :: _) => constructor
    | |- respects _ Skip = true => reflexivity
    | |- respects _ Unwind = true => reflexivity
    | |- respects _ (Seq _ _) = true => apply respects_seq
    | |- respects _ (Alt _ _) = true => apply respects_alt
    | |- respects _ (opt _) = true => apply respects_alt
    | |- respects ?H (Loop ?a) = true => change (respects H a = true)
    | |- respects _ (block _) = true => apply respects_block
    | |- respects _ (one_of _) = true => apply respects_one_of
    | |- respects _ (each _ _) = true => apply respects_each
    | |- respects _ (any _ _) = true => apply respects_any
    | |- respects _ (Guard _ _) = true => apply respects_guard
    | |- respects _ (TryGuard _ _) = true => apply respects_try
    | |- respects _ (R _) = true => apply respects_access
    | |- respects _ (W _) = true => apply respects_access
    | |- access_allowed _ _ _ = true => first [reflexivity | eapply allowed_guarded; [reflexivity|]]
    | _ => solve [unshelve eauto 6 with locks; exact 0]
    end).

(** ** Every function *)

Lemma EnqueueLoopback_ok i H : on_slot i H -> respects H EnqueueLoopback_locks = true.
Proof. unfold EnqueueLoopback_locks. lock_check. Qed.
#[local] Hint Resolve EnqueueLoopback_ok : locks.

Lemma DequeueIncoming_ok H : idle H -> respects H DequeueIncoming_locks = true.
Proof. unfold DequeueIncoming_locks. intros. lock_check. Qed.

Lemma EnqueueOutOfBand_ok i H f : on_slot i H -> respects H (EnqueueOutOfBand_locks f) = true.
Proof. unfold EnqueueOutOfBand_locks. destruct f; lock_check. Qed.
#[local] Hint Resolve DequeueIncoming_ok EnqueueOutOfBand_ok : locks.

Lemma Reset_ok i H : on_slot i H -> respects H (Reset_locks i) = true.
Proof. unfold Reset_locks. lock_check. Qed.

Lemma Setup_locks_ok i H : respects H (Setup_locks i) = true.
Proof. unfold Setup_locks. lock_check. Qed.

Lemma IsConnected_ok i H : respects H (IsConnected_locks i) = true.
Proof. reflexivity. Qed.

Lemma GetChannelBuffer_ok i H : respects H (GetChannelBuffer_locks i) = true.
Proof. unfold GetChannelBuffer_locks. lock_check. Qed.
#[local] Hint Resolve Reset_ok Setup_locks_ok IsConnected_ok GetChannelBuffer_ok : locks.

Lemma OnMessageReceipt_ok i H : on_slot i H -> respects H OnMessageReceipt_locks = true.
Proof. apply EnqueueLoopback_ok. Qed.

Lemma OnDisconnect_ok i H : on_slot i H -> respects H (OnDisconnect_locks i) = true.
Proof. unfold OnDisconnect_locks. lock_check. Qed.

Lemma SendHandshakePart_ok i H : on_slot i H -> respects H (SendHandshakePart_locks i) = true.
Proof. unfold SendHandshakePart_locks. lock_check. Qed.

Lemma SendHandshakeCompleteNotification_ok i H : on_slot i H -> respects H (SendHandshakeCompleteNotification_locks i) = true.
Proof. unfold SendHandshakeCompleteNotification_locks. lock_check. Qed.
#[local] Hint Resolve OnMessageReceipt_ok OnDisconnect_ok SendHandshakePart_ok SendHandshakeCompleteNotification_ok : locks.

Lemma Reply_ok i H : on_slot i H -> respects H (Reply_locks i) = true.
Proof. unfold Reply_locks. lock_check. Qed.

Lemma Complete_ok i H : on_slot i H -> respects H (Complete_locks i) = true.
Proof. unfold Complete_locks. lock_check. Qed.
#[local] Hint Resolve Reply_ok Complete_ok : locks.

Lemma Handshaker_Update_ok i H : on_slot i H -> respects H (Handshaker_Update_locks i) = true.
Proof. unfold Handshaker_Update_locks. lock_check. Qed.

Lemma Begin_ok i H : on_slot i H -> respects H (Begin_locks i) = true.
Proof. unfold Begin_locks. lock_check. Qed.

Lemma DisconnectImmediate_ok i H : on_slot i H -> respects H (DisconnectImmediate_locks i) = true.
Proof. unfold DisconnectImmediate_locks. lock_check. Qed.
#[local] Hint Resolve Handshaker_Update_ok Begin_ok DisconnectImmediate_ok : locks.

Lemma GetRemoteByID_ok n H : respects H (GetRemoteByID_locks n) = true.
Proof. unfold GetRemoteByID_locks. lock_check. Qed.

Lemma GetRemoteByID_const_ok n H : respects H (GetRemoteByID_const_locks n) = true.
Proof. unfold GetRemoteByID_const_locks. lock_check. Qed.

Lemma GetRemoteByAddress_ok n H : respects H (GetRemoteByAddress_locks n) = true.
Proof. unfold GetRemoteByAddress_locks. lock_check. Qed.
#[local] Hint Resolve GetRemoteByID_ok GetRemoteByID_const_ok GetRemoteByAddress_ok : locks.

Lemma Handle_ok n i H : on_slot i H -> respects H (Handle_locks n i) = true.
Proof. unfold Handle_locks. lock_check. Qed.

Lemma EnqueueOutgoing_ok i H : on_slot i H -> respects H (EnqueueOutgoing_locks i) = true.
Proof. unfold EnqueueOutgoing_locks. lock_check. Qed.

Lemma Acknowledge_ok i H : on_slot i H -> respects H (Acknowledge_locks i) = true.
Proof. unfold Acknowledge_locks. lock_check. Qed.

Lemma ReceiptTracker_Update_ok i H : on_slot i H -> respects H (ReceiptTracker_Update_locks i) = true.
Proof. unfold ReceiptTracker_Update_locks. lock_check. Qed.

Lemma RemovePacketFromOutbox_ok i H : remote_lock i ∈ H -> respects H (RemovePacketFromOutbox_locks i) = true.
Proof. unfold RemovePacketFromOutbox_locks. lock_check. Qed.
#[local] Hint Resolve Handle_ok EnqueueOutgoing_ok Acknowledge_ok ReceiptTracker_Update_ok RemovePacketFromOutbox_ok : locks.

Lemma HandleAcknowledgements_ok i H : on_slot i H -> respects H (HandleAcknowledgements_locks i) = true.
Proof. unfold HandleAcknowledgements_locks. lock_check. Qed.

Lemma HandleNonAcknowledgements_ok i H : on_slot i H -> respects H (HandleNonAcknowledgements_locks i) = true.
Proof. unfold HandleNonAcknowledgements_locks. lock_check. Qed.

Lemma MakeDatagram_ok i H : on_slot i H -> respects H (MakeDatagram_locks i) = true.
Proof. unfold MakeDatagram_locks. lock_check. Qed.

Lemma MakeAckgram_ok i H : on_slot i H -> respects H (MakeAckgram_locks i) = true.
Proof. unfold MakeAckgram_locks. lock_check. Qed.
#[local] Hint Resolve HandleAcknowledgements_ok HandleNonAcknowledgements_ok MakeDatagram_ok MakeAckgram_ok : locks.

Lemma GetNextDatagram_ok i H : on_slot i H -> respects H (GetNextDatagram_locks i) = true.
Proof. unfold GetNextDatagram_locks. lock_check. Qed.

Lemma BeginRead_ok H : respects H BeginRead_locks = true.
Proof. reflexivity. Qed.

Lemma BeginWrite_ok i H : respects H (BeginWrite_locks i) = true.
Proof. reflexivity. Qed.
#[local] Hint Resolve GetNextDatagram_ok BeginRead_ok BeginWrite_ok : locks.

Lemma DoReadCycle_ok i H : respects H (DoReadCycle_locks i) = true.
Proof. unfold DoReadCycle_locks. lock_check. Qed.

(** The write cycle relies on the mutex that the worker took. *)
Lemma DoWriteCycle_ok i H : remote_lock i ∈ H -> on_slot i H -> respects H (DoWriteCycle_locks i) = true.
Proof. unfold DoWriteCycle_locks. lock_check. Qed.

Lemma HandleIncomingPacket_ok i H : on_slot i H -> respects H (HandleIncomingPacket_locks i) = true.
Proof. unfold HandleIncomingPacket_locks. lock_check. Qed.
#[local] Hint Resolve DoReadCycle_ok DoWriteCycle_ok HandleIncomingPacket_ok : locks.

Lemma HandleSplitPacket_ok i H : on_slot i H -> respects H (HandleSplitPacket_locks i) = true.
Proof. unfold HandleSplitPacket_locks. lock_check. Qed.

Lemma SendRejectionReply_ok H : idle H -> respects H SendRejectionReply_locks = true.
Proof. intros D. apply EnqueueOutOfBand_ok with 0. eauto with locks. Qed.
#[local] Hint Resolve HandleSplitPacket_ok SendRejectionReply_ok : locks.

Lemma OnNewIncomingPeer_ok n H : idle H -> respects H (OnNewIncomingPeer_locks n) = true.
Proof. unfold OnNewIncomingPeer_locks. lock_check. Qed.
#[local] Hint Resolve OnNewIncomingPeer_ok : locks.

Lemma OnUnconnectedMessage_ok n H : idle H -> respects H (OnUnconnectedMessage_locks n) = true.
Proof. unfold OnUnconnectedMessage_locks. lock_check. Qed.
#[local] Hint Resolve OnUnconnectedMessage_ok : locks.

(** ** The threads *)

Section Threads.
Context (n : nat) (rpc : code) (rpc_ok : respects [m_socketThread] rpc = true).

Lemma socket_idle : idle [m_socketThread].
Proof. intros h ->%list_elem_of_singleton. reflexivity. Qed.

Lemma worker_idle : idle [m_updateThread].
Proof. intros h ->%list_elem_of_singleton. reflexivity. Qed.

Lemma user_idle : idle [].
Proof. intros h []%not_elem_of_nil. Qed.
#[local] Hint Resolve socket_idle worker_idle user_idle : locks.

Lemma OnSystemPacket_ok i : respects [m_socketThread] (OnSystemPacket_locks rpc i) = true.
Proof. unfold OnSystemPacket_locks. lock_check. Qed.
#[local] Hint Resolve OnSystemPacket_ok : locks.

Lemma read_connected_ok i : respects [m_socketThread] (read_connected_locks rpc i) = true.
Proof. unfold read_connected_locks. lock_check. Qed.
#[local] Hint Resolve read_connected_ok : locks.

Lemma OnReadFinished_ok : respects [m_socketThread] (OnReadFinished_locks n rpc) = true.
Proof. unfold OnReadFinished_locks. lock_check. Qed.

Lemma OnWriteFinished_ok i H : on_slot i H -> respects H (OnWriteFinished_locks i) = true.
Proof. unfold OnWriteFinished_locks. lock_check. Qed.

Lemma connect_callback_ok i H : on_slot i H -> respects H (connect_callback_locks i) = true.
Proof. unfold connect_callback_locks. lock_check. Qed.
#[local] Hint Resolve OnReadFinished_ok OnWriteFinished_ok connect_callback_ok : locks.

Lemma socket_thread_ok : respects [m_socketThread] (socket_thread n rpc) = true.
Proof. unfold socket_thread, read_completion_locks, write_completion_locks. lock_check. Qed.

Lemma worker_slot_ok i : respects [m_updateThread] (worker_slot_locks i) = true.
Proof. unfold worker_slot_locks. lock_check. Qed.
#[local] Hint Resolve worker_slot_ok : locks.

Lemma worker_thread_ok : respects [m_updateThread] (worker_thread n) = true.
Proof. unfold worker_thread, WaitFor_locks. lock_check. Qed.

(** A thread may be joined by one that owns at most the mutex of the handle tables. *)
Definition outside (H : list mutex) : Prop := forall h, h ∈ H -> h = m_handleTableMutex.

Lemma outside_nil : outside [].
Proof. intros h []%not_elem_of_nil. Qed.

Lemma outside_table H : outside H -> outside (m_handleTableMutex :: H).
Proof. intros D h [->|Hh]%elem_of_cons; auto. Qed.

Lemma lock_table : in_order recursive rank [] m_handleTableMutex = true.
Proof. reflexivity. Qed.

Lemma join_ok H t : is_thread t = true -> outside H -> respects H (join t) = true.
Proof.
  intros T D. apply respects_guard; [|reflexivity]. apply in_order_intro.
  - intros M%D. now subst.
  - intros _ h ->%D. destruct t; try discriminate; cbn; lia.
Qed.
#[local] Hint Resolve join_ok outside_nil outside_table lock_table : locks.

Lemma Unbind_ok H : outside H -> respects H Unbind_locks = true.
Proof. unfold Unbind_locks. lock_check. Qed.
#[local] Hint Resolve Unbind_ok : locks.

Lemma PacketQueue_Stop_ok H : outside H -> respects H PacketQueue_Stop_locks = true.
Proof. unfold PacketQueue_Stop_locks. lock_check. Qed.
#[local] Hint Resolve PacketQueue_Stop_ok : locks.

Lemma Peer_destructor_ok H : outside H -> respects H Peer_destructor_locks = true.
Proof. unfold Peer_destructor_locks. lock_check. Qed.
#[local] Hint Resolve Peer_destructor_ok : locks.

Lemma callback_calls_ok H : idle H -> Forall (fun a => respects H a = true) (callback_calls n).
Proof.
  unfold callback_calls, Bind_locks, Connect_locks, Disconnect_locks, DisconnectImmediate_id_locks, Send_locks, Ping_locks,
    SetEncryptionEnabled_locks, SetEncryptionIdentity_locks, GetChannelModeByIndex_locks, GetAllConnectedPeers_locks, GetPing_locks, GetStats_locks.
  lock_check.
Qed.

Lemma user_calls_ok : Forall (fun a => respects [] a = true) (user_calls n).
Proof.
  apply Forall_app. split; [apply callback_calls_ok; eauto with locks|].
  unfold Stop_locks, Disconnect_locks, wirefox_peer_create_locks, wirefox_peer_destroy_locks, wirefox_peer_receive_locks, wirefox_peer_send_locks,
    wirefox_peer_get_stat_locks, wirefox_packet_create_locks, wirefox_packet_destroy_locks, GetChannelModeByIndex_locks, Send_locks, GetStats_locks.
  lock_check.
Qed.

Lemma stack_ok a l : respects l a = true -> respects_stack wirefox_discipline (Run a :: (Unlock <$> l)) = true.
Proof.
  intros E. cbn. replace (held (Unlock <$> l)) with l; [rewrite E|]; clear E; induction l; cbn; try done. f_equal. exact IHl.
Qed.

Lemma threads_respect users : respects_pool wirefox_discipline (wirefox_threads n rpc users).
Proof.
  intros t k E. destruct t as [|[|t]]; cbn in E; simplify_eq.
  - apply (stack_ok _ [m_updateThread]), worker_thread_ok.
  - apply (stack_ok _ [m_socketThread]), socket_thread_ok.
  - apply lookup_replicate in E as [-> _]. apply (stack_ok _ []). exact (respects_one_of _ _ user_calls_ok).
Qed.

Lemma threads_exclusive users : exclusive (wirefox_threads n rpc users).
Proof.
  intros t t' k k' m Ht E E' M M'.
  destruct t as [|[|t]], t' as [|[|t']]; cbn in E, E'; simplify_eq; cbn in M, M'; repeat
    match goal with
    | H : _ !! _ = Some _ |- _ => apply lookup_replicate in H as [-> _]
    | H : _ ∈ held [Run _] |- _ => now apply not_elem_of_nil in H
    | H : _ ∈ [_] |- _ => apply list_elem_of_singleton in H
    end; simplify_eq.
Qed.

End Threads.

(** ** The guarantees *)

(** C9: no interleaving of the worker, the socket thread and any number of threads
    that use the interface ends in a deadlock.  In every state that is reached, each
    thread that has not ended can run or waits, through mutexes and joins, for a
    thread that can.  The callbacks of the application may do whatever respects the
    order of the mutexes and does not join the thread they run on. *)
Theorem no_deadlock n rpc users p t k :
  respects [m_socketThread] rpc = true ->
  rtc step (wirefox_threads n rpc users) p -> p !! t = Some k -> k <> [] ->
  exists t', rtc (waits_for recursive p) t t' /\ runnable recursive p t'.
Proof.
  intros Hr S E Hk. destruct (reachable_good recursive wirefox_discipline _ p (threads_exclusive n rpc users) (threads_respect n rpc Hr users) S) as [X G].
  eapply (waits_end recursive rank 6) with (d := wirefox_discipline); [|intros H m A; exact A|exact X|exact G|exact E|exact Hk]. intros [[]| | | | |]; cbn; lia.
Qed.

(** C12: in every state that is reached by the threads of the library, with callbacks of
    the application that respect the order of the mutexes and do not join the thread they
    run on, no two threads are about to access the outbox or the sentbox of a slot (the
    containers and their entries, not the bytes of a datagram that the socket is still
    sending), the inbox or a table of handles at once, whatever slot it is and however the
    threads are interleaved; and a thread that is about to call a callback of the
    application owns no mutex. *)
Theorem guarded_members n rpc users p :
  respects [m_socketThread] rpc = true -> rtc step (wirefox_threads n rpc users) p ->
  (forall x, guard_of x <> None -> ~ race p x)
  /\ (forall t k w m, p !! t = Some k -> next_access k = Some (w, callback) -> m ∈ held k -> is_thread m = true).
Proof.
  intros Hr S. destruct (reachable_good recursive wirefox_discipline _ p (threads_exclusive n rpc users) (threads_respect n rpc Hr users) S) as [X G].
  split.
  - intros x Hx. destruct (guard_of x) as [m|] eqn:Eg; [|done]. apply (guarded_no_race wirefox_discipline p x m); [|done|done].
    intros H w A. cbn in A. unfold access_allowed in A. rewrite Eg in A. destruct x; try discriminate; now apply bool_decide_eq_true in A.
  - intros t k w m E A M. pose proof (pool_access _ _ _ _ _ _ G E A) as B. cbn in B. rewrite forallb_forall in B.
    apply B. now apply list_elem_of_In.
Qed.

(** ** Runs

    [drive x choices t p] runs thread [t] until it is about to access [x], with the
    given choices for its branches. *)

Definition is_choice (f : frame mutex shared) : bool := match f with Run (Alt _ _) | Run (Loop _) | Run (TryGuard _ _) => true | _ => false end.

Fixpoint drive (fuel : nat) (x : shared) (choices : list bool) (t : nat) (p : list (list (frame mutex shared))) : option (list (list (frame mutex shared))) :=
  match fuel, p !! t with
  | S fuel, Some (f :: k) =>
      if is_choice f then
        match choices with
        | c :: choices => pool_step recursive t c p ≫= drive fuel x choices t
        | [] => None
        end
      else if bool_decide (choices = [] /\ snd <$> next_access (f :: k) = Some x) then Some p
      else pool_step recursive t true p ≫= drive fuel x choices t
  | _, _ => None
  end.

Lemma drive_steps fuel x choices t p p' : drive fuel x choices t p = Some p' -> rtc step p p'.
Proof.
  revert choices p. induction fuel as [|fuel IH]; cbn; intros choices p E; [discriminate|].
  destruct (p !! t) as [[|f k]|]; try discriminate.
  assert (G : forall c cs, pool_step recursive t c p ≫= drive fuel x cs t = Some p' -> rtc step p p').
  { intros c cs H. destruct (pool_step recursive t c p) as [q|] eqn:Es; [|discriminate].
    eapply rtc_l; [exists t, c; exact Es|]. eapply IH. exact H. }
  destruct (is_choice f); [destruct choices; [discriminate|exact (G _ _ E)]|].
  case_bool_decide; [simplify_eq; constructor|exact (G _ _ E)].
Qed.

(** The choice of the alternative number [i]. *)
Definition nth_of (i : nat) : list bool := replicate i false ++ [true].

(** Two threads that are driven to the same member. *)
Definition collide (x : shared) (t t' : nat) (cs cs' : list bool) (p : list (list (frame mutex shared))) : bool :=
  match drive 400 x cs t p ≫= drive 400 x cs' t' with Some q => races q t t' x | None => false end.

Lemma collide_race x t t' cs cs' p : collide x t t' cs cs' p = true -> exists q, rtc step p q /\ race q x.
Proof.
  unfold collide. destruct (drive 400 x cs t p) as [q|] eqn:E; [|discriminate]. cbn [mbind option_bind].
  destruct (drive 400 x cs' t' q) as [q'|] eqn:E'; [|discriminate]. intros Hr. exists q'.
  split; [|now apply races_race in Hr]. etrans; eapply drive_steps; eauto.
Qed.

(** The ways through the code that the runs below take: a call of the interface, a
    datagram from slot 1 up to its packets, and the worker at slot 1. *)
Definition calling (i : nat) : list bool := true :: nth_of i.
Definition sending : list bool := calling 4 ++ [true; false] ++ nth_of 0 ++ [true].
Definition reading : list bool := true :: nth_of 0 ++ nth_of 2 ++ nth_of 0.
Definition reading_packet : list bool := reading ++ [false] ++ nth_of 3 ++ [true; false; false; true; true].
Definition unconnected : list bool := true :: nth_of 0 ++ nth_of 1.
Definition working : list bool := [true; false; true].
Definition writing : list bool := working ++ replicate 4 false ++ [true; false; true].

(** The mutexes do not separate all accesses.  In the code as LockUse has it, where a
    branch is a free choice, two threads can meet in each of these members, one of them
    writing: the lookup cache (Send and a disconnect request that arrives), the
    congestion manager, the channel buffers and the statistics of a slot (Send, which
    holds the mutex of the slot, and OnReadFinished, which does not), its encryption
    layer and its handshaker (the worker and the thread of the socket), the bytes of its
    datagrams (a disconnection and the transfer that the socket began), the list of
    channels, the registry of callbacks and the advertisement (a call of the interface
    and a datagram). *)
Theorem unguarded_members :
  Forall (fun x => exists p, rtc step (wirefox_threads 2 Skip 1) p /\ race p x)
    [m_remoteLookup; slot 1 f_congestion; slot 1 f_channels; slot 1 f_stats; slot 1 f_crypto; slot 1 f_handshake;
     slot 1 f_blob; m_channels; m_rpc; m_advertisement].
Proof.
  repeat constructor.
  - apply (collide_race _ 2 1 (calling 4 ++ [true]) (reading_packet ++ nth_of 1 ++ nth_of 0)). vm_compute. reflexivity.
  - apply (collide_race _ 2 1 sending (reading ++ [false] ++ nth_of 3)). vm_compute. reflexivity.
  - apply (collide_race _ 2 1 (sending ++ [true; false; true]) (reading_packet ++ nth_of 2 ++ [false; true])). vm_compute. reflexivity.
  - apply (collide_race _ 2 1 (sending ++ replicate 4 false) reading). vm_compute. reflexivity.
  - apply (collide_race _ 0 1 (writing ++ [true; true; true; true]) (reading ++ [true])). vm_compute. reflexivity.
  - apply (collide_race _ 0 1 (working ++ [true; true; true]) (reading ++ [false] ++ nth_of 3)). vm_compute. reflexivity.
  - apply (collide_race _ 2 1 (calling 3 ++ [false] ++ nth_of 0 ++ [true; true]) (true :: nth_of 1 ++ nth_of 1 ++ [true])). vm_compute. reflexivity.
  - apply (collide_race _ 2 1 (calling 12) (reading_packet ++ nth_of 2 ++ [true])). vm_compute. reflexivity.
  - apply (collide_race _ 2 1 (calling 18) (reading_packet ++ nth_of 1 ++ nth_of 1)). vm_compute. reflexivity.
  - apply (collide_race _ 2 1 (calling 11) (unconnected ++ nth_of 0)). vm_compute. reflexivity.
Qed.

(** ** Witnesses

    The worker is at slot 1 and owns its mutex; a call of Send waits for it. *)

Definition busy_callback : code := Loop (one_of (callback_calls 2)).
Definition contended : list (list (frame mutex shared)) :=
  from_option id [] (
    p ← drive 400 (slot 1 f_handshake) working 0 (wirefox_threads 2 busy_callback 1);
    p ← drive 400 m_remoteLookup (calling 4 ++ [true]) 2 p;
    run recursive (map (pair 2) [true; true; false; true; true; true; true; true]) p).

Lemma reached_default (init : list (list (frame mutex shared))) o :
  (forall p, o = Some p -> rtc step init p) -> (if o then true else false) = true -> rtc step init (from_option id [] o).
Proof. destruct o; [intros H _; now apply H|discriminate]. Qed.

Lemma contended_reached : rtc step (wirefox_threads 2 busy_callback 1) contended.
Proof.
  apply reached_default; [|vm_compute; reflexivity]. intros p (q & E & (q' & E' & H)%bind_Some)%bind_Some.
  apply drive_steps in E, E'. apply run_steps in H. etrans; [exact E|]. etrans; [exact E'|exact H].
Qed.

Lemma no_deadlock_witness :
  (contended !! 2 ≫= wants) = Some (remote_lock 1)
  /\ exists t', rtc (waits_for recursive contended) 2 t' /\ runnable recursive contended t'.
Proof.
  split; [vm_compute; reflexivity|].
  eapply (no_deadlock 2 busy_callback 1 contended 2); [vm_compute; reflexivity|apply contended_reached|vm_compute; reflexivity|discriminate].
Defined.

Lemma guarded_members_witness : ~ race contended (slot 1 f_outbox).
Proof.
  destruct (guarded_members 2 busy_callback 1 contended) as [G _]; [vm_compute; reflexivity|apply contended_reached|].
  apply G. discriminate.
Defined.

(** ** A callback that stops the peer *)

(** Peer::Stop in a callback of the application waits for the thread of the
    socket, which is the thread that the callback runs on.  The order of the mutexes
    does not allow it, and some run gets to a state from which the thread waits for
    itself for ever (or ends with std::system_error, where the implementation of
    join notices). *)
Theorem stop_in_callback :
  respects [m_socketThread] (Stop_locks 2) = false
  /\ exists p, rtc step (wirefox_threads 2 (Stop_locks 2) 0) p
      /\ forall p', rtc step p p' -> waits_for recursive p' 1 1.
Proof.
  split; [vm_compute; reflexivity|].
  set (way := reading_packet ++ nth_of 1 ++ nth_of 1 ++ [true; false]).
  assert (C : from_option (fun p => self_waits recursive p 1) false
    (drive 400 m_socket way 1 (wirefox_threads 2 (Stop_locks 2) 0) ≫= run recursive (replicate 3 (1, true))) = true).
  { vm_compute. reflexivity. }
  destruct (drive 400 m_socket way 1 _) as [q|] eqn:E; [cbn [mbind option_bind] in C|discriminate].
  destruct (run recursive _ q) as [p|] eqn:E'; [cbn [from_option] in C|discriminate].
  exists p. split; [|intros p'; now apply self_waits_forever].
  etrans; [eapply drive_steps; exact E|eapply run_steps; exact E'].
Qed.
