(* ===== verification/AwaitableEvent.v ===== *)
(** * AwaitableEvent: the interruptible sleep of the worker

    source/AwaitableEvent.{h,cpp}.  The event has a condition variable and no flag:
    what it holds is the threads that are asleep in it, with the time at which
    wait_for gives up.  A condition variable may also wake a thread for no reason. *)

From stdpp Require Import base tactics list option.
From Stdlib Require Import ZArith Lia.
From S2P Require Import Prelude Config.

Open Scope Z_scope.

Record AwaitableEvent : Type := mkEvent { asleep : list (nat * option Z) }.

Definition AwaitableEvent_new : AwaitableEvent := mkEvent [].

(** The calling thread [t] releases m_mutex and falls asleep. *)
Definition Wait (t : nat) (e : AwaitableEvent) : AwaitableEvent := mkEvent (asleep e ++ [(t, None)]).

(** std::chrono::milliseconds counts nanoseconds in the clock of this library. *)
Definition WaitFor (now duration : Z) (t : nat) (e : AwaitableEvent) : AwaitableEvent :=
  mkEvent (asleep e ++ [(t, Some (now + ToMilliseconds duration * 1000000))]).

(** notify_all wakes the threads that are asleep; nothing is kept for later ones. *)
Definition Signal_event (e : AwaitableEvent) : AwaitableEvent := mkEvent [].

Definition is_asleep (t : nat) (e : AwaitableEvent) : bool := existsb (fun x => bool_decide (x.1 = t)) (asleep e).

(** What the clock and the operating system do: time limits pass, and a thread is
    woken although nobody called Signal. *)
Definition overdue (now : Z) (x : nat * option Z) : bool := match x.2 with Some d => d <=? now | None => false end.
Definition expire (now : Z) (e : AwaitableEvent) : AwaitableEvent := mkEvent (List.filter (fun x => negb (overdue now x)) (asleep e)).
Definition wake (t : nat) (e : AwaitableEvent) : AwaitableEvent := mkEvent (List.filter (fun x => negb (bool_decide (x.1 = t))) (asleep e)).

Lemma is_asleep_spec t e : is_asleep t e = true <-> exists d, (t, d) ∈ asleep e.
Proof.
  unfold is_asleep. rewrite existsb_exists. split.
  - intros ([t' d] & Hx & Ht%bool_decide_eq_true). cbn in Ht. subst. exists d. now apply list_elem_of_In.
  - intros [d Hd]. exists (t, d). split; [now apply list_elem_of_In|]. now apply bool_decide_eq_true.
Qed.

Lemma elem_of_expire now x e : x ∈ asleep (expire now e) <-> x ∈ asleep e /\ overdue now x = false.
Proof. unfold expire. cbn. rewrite !list_elem_of_In, filter_In, negb_true_iff. done. Qed.

Lemma elem_of_wake t x e : x ∈ asleep (wake t e) <-> x ∈ asleep e /\ x.1 <> t.
Proof. unfold wake. cbn. rewrite !list_elem_of_In, filter_In, negb_true_iff, bool_decide_eq_false. done. Qed.

(** A thread in WaitFor sleeps until its time is over, and not longer; Signal wakes
    every thread at once; a thread in Wait sleeps however late it gets; and a Signal
    that comes before a thread falls asleep has no effect on it. *)
Theorem event_wakes t e now duration later :
  let limit := now + ToMilliseconds duration * 1000000 in
  is_asleep t e = false ->
  is_asleep t (expire later (WaitFor now duration t e)) = negb (limit <=? later)
  /\ is_asleep t (Signal_event (WaitFor now duration t e)) = false
  /\ is_asleep t (expire later (Wait t e)) = true
  /\ WaitFor now duration t (Signal_event e) = mkEvent [(t, Some limit)].
Proof.
  intros limit N. assert (A : forall d, (t, d) ∉ asleep e).
  { intros d Hd. apply not_true_iff_false in N. apply N, is_asleep_spec. eauto. }
  split_and!; [|reflexivity| |reflexivity].
  - destruct (limit <=? later) eqn:L; cbn [negb].
    + apply not_true_iff_false. rewrite is_asleep_spec. intros (d & Hd). apply elem_of_expire in Hd as [Hd O]. cbn in Hd.
      apply elem_of_app in Hd as [Hd|Hd%list_elem_of_singleton]; [now apply A in Hd|]. simplify_eq. unfold overdue in O. cbn in O.
      fold limit in O. congruence.
    + apply is_asleep_spec. exists (Some limit). apply elem_of_expire. split; [|done]. cbn. apply elem_of_app. right. apply list_elem_of_here.
  - apply is_asleep_spec. exists None. apply elem_of_expire. split; [|done]. cbn. apply elem_of_app. right. apply list_elem_of_here.
Qed.

Lemma event_wakes_witness :
  is_asleep 0 (expire 6000000 (WaitFor 1000000 (FromMilliseconds 5) 0 AwaitableEvent_new)) = false
  /\ is_asleep 0 (expire 5999999 (WaitFor 1000000 (FromMilliseconds 5) 0 AwaitableEvent_new)) = true.
Proof.
  split.
  - destruct (event_wakes 0 AwaitableEvent_new 1000000 (FromMilliseconds 5) 6000000 eq_refl) as [-> _]. reflexivity.
  - destruct (event_wakes 0 AwaitableEvent_new 1000000 (FromMilliseconds 5) 5999999 eq_refl) as [-> _]. reflexivity.
Defined.
