(* ===== verification/Threads.v ===== *)
(** * Threads: the worker thread among the others

    PacketQueue::ThreadWorker, Stop and the constructor (source/PacketQueue.cpp) as a
    machine: the test of the abort flag, the statements that the loop makes on a slot
    one by one ([worker_stage]), falling asleep, waking up.  Between any two of them
    the threads of the application and of the socket do whatever PeerEvents describes,
    also on the slot that the worker is at: the completion handlers do not take its
    mutex.  (The calls that do take it are allowed more than they can do.)  A handler
    that runs in the middle of such a statement, or the other way round, is a data race
    on the members that no mutex guards; what it does is undefined and not modelled.
    Shown: once Stop has set the flag the worker ends, so that join returns; and a
    round that nobody disturbs is the round of PacketFlow. *)

From stdpp Require Import base tactics gmap sets list list_numbers numbers option.
From Stdlib Require Import ZArith Lia.
From S2P Require Import Prelude Memory BinaryStream StreamSpec StreamCodec Config PeerStats Packet Headers.
From S2P Require Import ChannelBuffer CongestionControl Reassembly ReceiptTracker RpcController Encryption Handshake Socket RemotePeer PacketQueue Peer PacketFlow PeerFrame PeerInvariant PeerEvents.
From S2P Require Import Halting DatagramTheorems Termination Delivery Sessions AwaitableEvent.

Open Scope Z_scope.

Section System.
Context {host : Host} {sign : CharSign} {RemoteAddress : Type} {address_eq : EqDecision RemoteAddress} (no_address : RemoteAddress).
Context {crypto : Type} {layer : EncryptionLayer crypto} {halting_layer : HaltingLayer crypto} (make_layer : Z -> outcome crypto) {callback : Type}.

Abbreviation Peer := (Peer RemoteAddress crypto callback).
Abbreviation event := (event (RemoteAddress := RemoteAddress) (callback := callback)).

(** Where the worker is. *)
Inductive worker_pc : Type :=
  | CheckAbort                        (* while (!m_updateThreadAbort) *)
  | AtSlots (rest : list nat)         (* the loop over the slots; then WaitFor *)
  | AtStage (i : nat) (s : stage) (rest : list nat)    (* at a statement of the loop *)
  | Sleeping                          (* in m_updateNotify.WaitFor *)
  | Ended                             (* ThreadWorker returned *)
  | Crashed (f : fault).              (* and with it the process *)

Record system : Type := mkSystem {
  sys_peer : Peer; m_updateThreadAbort : bool; m_updateNotify : AwaitableEvent; sys_pc : worker_pc; sys_now : Z }.

Definition at_pc (pc : worker_pc) (s : system) : system := mkSystem (sys_peer s) (m_updateThreadAbort s) (m_updateNotify s) pc (sys_now s).
Definition with_peer (p : Peer) (s : system) : system := mkSystem p (m_updateThreadAbort s) (m_updateNotify s) (sys_pc s) (sys_now s).
Definition with_notify (e : AwaitableEvent) (s : system) : system := mkSystem (sys_peer s) (m_updateThreadAbort s) e (sys_pc s) (sys_now s).

(** The constructor of PacketQueue starts the thread. *)
Definition PacketQueue_new (p : Peer) (now : Z) : system := mkSystem p false AwaitableEvent_new CheckAbort now.

(** The worker is thread 0 of its event. *)
Definition tick : Z := FromMilliseconds THREAD_SLEEP_PACKETQUEUE_TICK.

(** The next step of the worker; none while it sleeps and after it has ended. *)
Definition ThreadWorker (entropy : Z) (s : system) : option system :=
  match sys_pc s with
  | CheckAbort => Some (at_pc (if m_updateThreadAbort s then Ended else AtSlots (seq 0 (S (Z.to_nat (GetMaximumPeers (sys_peer s)))))) s)
  | AtSlots (i :: rest) => Some (at_pc (AtStage i S_active rest) s)
  | AtStage i st rest =>
      Some match worker_stage no_address (sys_now s) entropy i st (sys_peer s) with
           | Ret (Next st', p) => at_pc (AtStage i st' rest) (with_peer p s)
           | Ret (Continue, p) => at_pc (AtSlots rest) (with_peer p s)
           | Ret (Return, p) => at_pc Ended (with_peer p s)
           | Fail f => at_pc (Crashed f) s
           end
  | AtSlots [] => Some (at_pc Sleeping (with_notify (WaitFor (sys_now s) tick 0 (m_updateNotify s)) s))
  | Sleeping => if is_asleep 0 (m_updateNotify s) then None else Some (at_pc CheckAbort s)
  | Ended | Crashed _ => None
  end.

(** Stop stores the flag, signals, and joins: the thread that called it goes on when
    the worker has ended. *)
Definition Stop_store (s : system) : system := mkSystem (sys_peer s) true (m_updateNotify s) (sys_pc s) (sys_now s).
Definition Stop_signal (s : system) : system := with_notify (Signal_event (m_updateNotify s)) s.
Definition joined (s : system) : bool := match sys_pc s with Ended => true | _ => false end.

(** What can happen: a step of the worker; a call or a completion on another thread
    (those of the socket end with a signal); the parts of Stop; the clock; and a
    wake-up for no reason. *)
Inductive label : Type :=
  | L_worker (entropy : Z)
  | L_event (asio : Asio RemoteAddress) (entropy : Z) (e : event)
  | L_store
  | L_signal
  | L_clock (now : Z)
  | L_wake.

Definition is_worker (e : event) : bool := match e with Ev_worker => true | _ => false end.
Definition crashed (s : system) : bool := match sys_pc s with Crashed _ => true | _ => false end.

Definition sys_step (l : label) (s : system) : option system :=
  if crashed s then None else
  match l with
  | L_worker entropy => ThreadWorker entropy s
  | L_event asio entropy e =>
      if is_worker e then None else
      match exec no_address make_layer asio (sys_now s) entropy e (sys_peer s) with Ret (_, p) => Some (with_peer p s) | Fail _ => None end
  | L_store => Some (Stop_store s)
  | L_signal => Some (Stop_signal s)
  | L_clock now => if sys_now s <=? now then Some (mkSystem (sys_peer s) (m_updateThreadAbort s) (expire now (m_updateNotify s)) (sys_pc s) now) else None
  | L_wake => Some (with_notify (wake 0 (m_updateNotify s)) s)
  end.

Fixpoint sys_run (ls : list label) (s : system) : option system :=
  match ls with
  | [] => Some s
  | l :: ls => s' ← sys_step l s; sys_run ls s'
  end.

(** A system that the constructors made and that has run for a while. *)
Definition runs_to (s : system) : Prop :=
  exists rng maxPeers p now ls, 0 <= maxPeers < 18446744073709551615 /\ Peer_new no_address rng maxPeers = Ret p
    /\ sys_run ls (PacketQueue_new p now) = Some s.

(** ** What holds of every system *)

(** The worker is the only thread that sleeps, for one tick at most. *)
Definition sleeps (s : system) : Prop :=
  asleep (m_updateNotify s) = []
  \/ sys_pc s = Sleeping /\ exists d, asleep (m_updateNotify s) = [(0%nat, Some d)] /\ sys_now s < d <= sys_now s + 5000000.

(** A crash is a fault of the code, not a loop that did not end. *)
Record sys_inv (s : system) : Prop := { si_peer : peer_inv (sys_peer s); si_sleeps : sleeps s; si_halts : sys_pc s <> Crashed OutOfFuel }.

Lemma worker_inv entropy s s' : sys_inv s -> ThreadWorker entropy s = Some s' -> sys_inv s'.
Proof.
  intros [Hp Hs _] E. unfold ThreadWorker in E. destruct s as [p abort ev pc now]. unfold sleeps in Hs. cbn in *.
  destruct pc as [|[|i rest]|i st rest| | |]; try discriminate.
  - simplify_eq. split; [done| |now destruct abort]. left. now destruct Hs as [?|[? _]].
  - simplify_eq. split; [done| |done]. right. split; [done|]. destruct Hs as [Hs|[? _]]; [|done]. cbn. rewrite Hs. eexists.
    split; [reflexivity|]. change (ToMilliseconds tick) with 5. lia.
  - simplify_eq. split; [done| |done]. left. now destruct Hs as [?|[? _]].
  - simplify_eq. assert (H0 : asleep ev = []) by now destruct Hs as [?|[? _]].
    destruct (worker_stage _ _ _ _ _ _) as [[b p']|f] eqn:Ew.
    + pose proof (worker_stage_preserves no_address now entropy i st p b p' Hp Ew) as Hp'. destruct b; (split; [exact Hp'|left; exact H0|done]).
    + split; [exact Hp|left; exact H0|]. cbn. intros [= ->]. exact (worker_stage_halts no_address now entropy i st p Hp Ew).
  - destruct (is_asleep 0 ev) eqn:Ea; [discriminate|]. simplify_eq. split; [done| |done]. left. destruct Hs as [Hs|[_ (d & Hs & _)]]; [done|].
    unfold is_asleep in Ea. rewrite Hs in Ea. discriminate.
Qed.

Lemma sys_step_inv l s s' : sys_inv s -> sys_step l s = Some s' -> sys_inv s'.
Proof.
  intros [Hp Hs Hf] E. unfold sys_step in E. destruct (crashed s); [discriminate|]. destruct l.
  - eapply worker_inv; eauto. now split.
  - destruct (is_worker e); [discriminate|]. destruct (exec _ _ _ _ _ _ _) as [[u p]|] eqn:Ee; [|discriminate]. simplify_eq.
    split; [|exact Hs|exact Hf]. eapply exec_preserves; eauto.
  - simplify_eq. now split.
  - simplify_eq. split; [done|now left|done].
  - destruct (Z.leb_spec (sys_now s) now); [|discriminate]. simplify_eq. split; [done| |done]. destruct Hs as [Hs|[Hpc (d & Hs & Hd)]].
    + left. cbn. now rewrite Hs.
    + destruct (Z.leb_spec d now); [left|right; split; [done|exists d]]; cbn; rewrite Hs; cbn; unfold overdue; cbn.
      * now rewrite (proj2 (Z.leb_le _ _)).
      * rewrite (proj2 (Z.leb_gt _ _)) by lia. split; [done|lia].
  - simplify_eq. split; [done| |done]. left. destruct Hs as [Hs|[_ (d & Hs & _)]]; cbn; now rewrite Hs.
Qed.

Lemma sys_run_inv ls s s' : sys_inv s -> sys_run ls s = Some s' -> sys_inv s'.
Proof.
  revert s. induction ls as [|l ls IH]; intros s H E; cbn in E; [now simplify_eq|].
  destruct (sys_step l s) as [s1|] eqn:E1; [|discriminate]. eapply IH; [|exact E]. eapply sys_step_inv; eauto.
Qed.

Lemma runs_to_inv s : runs_to s -> sys_inv s.
Proof.
  intros (rng & maxPeers & p & now & ls & Hm & Hn & E). eapply sys_run_inv; [|exact E]. split; [eapply Peer_new_inv; eauto|now left|done].
Qed.

(** ** Stopping *)

(** How many statements of the loop are left at a slot. *)
Definition stages_left (st : stage) : nat :=
  match st with S_active => 7 | S_handshake => 6 | S_congestion => 5 | S_receipt => 4 | S_disconnect => 3 | S_read => 2 | S_write => 1 end.

Lemma stage_goes_on now entropy i st (p : Peer) st' p' : worker_stage no_address now entropy i st p = Ret (Next st', p') -> (stages_left st' < stages_left st)%nat.
Proof.
  destruct st; cbn [worker_stage]; intros H; repeat (run_step H; try discriminate); run_all; try discriminate; cbn; try lia.
  destruct (active _); [simplify_eq; cbn; lia|discriminate].
Qed.

(** How many steps the worker takes at most after Stop has stored the flag. *)
Definition work_left (s : system) : nat :=
  match sys_pc s with
  | CheckAbort => 1
  | AtSlots rest => 8 * length rest + 3
  | AtStage _ st rest => stages_left st + 8 * length rest + 3
  | Sleeping => 2
  | Ended | Crashed _ => 0
  end.

Definition worker_steps (ls : list label) : nat := length (List.filter (fun l => match l with L_worker _ => true | _ => false end) ls).

Lemma store_stays l s s' : m_updateThreadAbort s = true -> sys_step l s = Some s' -> m_updateThreadAbort s' = true.
Proof.
  intros A E. unfold sys_step in E. destruct (crashed s); [discriminate|]. destruct l; simplify_eq; try done.
  - unfold ThreadWorker in E. destruct (sys_pc s) as [|[|i rest]|i st rest| | |]; simplify_eq; try done.
    + now destruct (worker_stage _ _ _ _ _ _) as [[[]]|].
    + case_match; now simplify_eq.
  - repeat case_match; now simplify_eq.
  - case_match; now simplify_eq.
Qed.

Lemma work_step l s s' : m_updateThreadAbort s = true -> sys_step l s = Some s' ->
  (worker_steps [l] + work_left s' <= work_left s)%nat.
Proof.
  intros A E. unfold sys_step in E. destruct (crashed s); [discriminate|]. unfold worker_steps. destruct l; cbn [List.filter length].
  2-6: assert (Hpc : sys_pc s' = sys_pc s) by (repeat case_match; now simplify_eq); unfold work_left; rewrite Hpc; lia.
  unfold ThreadWorker in E. unfold work_left. destruct (sys_pc s) as [|[|i rest]|i st rest| | |]; simplify_eq; cbn.
  - rewrite A. lia.
  - lia.
  - lia.
  - destruct (worker_stage _ _ _ _ _ _) as [[[] p]|] eqn:Ew; cbn; try (destruct st; cbn; lia). apply stage_goes_on in Ew. lia.
  - case_match; simplify_eq. cbn. lia.
Qed.

Lemma work_run ls s s' : m_updateThreadAbort s = true -> sys_run ls s = Some s' ->
  (worker_steps ls + work_left s' <= work_left s)%nat.
Proof.
  revert s. induction ls as [|l ls IH]; intros s A E; cbn in E; [simplify_eq; unfold worker_steps; cbn; lia|].
  destruct (sys_step l s) as [s1|] eqn:E1; [|discriminate]. pose proof (IH s1 (store_stays _ _ _ A E1) E).
  pose proof (work_step _ _ _ A E1). unfold worker_steps in *. cbn in *. case_match; cbn in *; lia.
Qed.

(** Left alone, the worker ends after one tick at the latest. *)
Definition comes_to_an_end (s : system) : Prop :=
  exists ls s', sys_run ls s = Some s' /\ work_left s' = 0%nat /\ sys_now s' <= sys_now s + 5000000.

Lemma end_step l s s1 : sys_step l s = Some s1 -> sys_now s1 = sys_now s -> comes_to_an_end s1 -> comes_to_an_end s.
Proof. intros E Hn (ls & s' & R & W & N). exists (l :: ls), s'. cbn. rewrite E. split; [exact R|]. split; [done|lia]. Qed.

Lemma end_check s : sys_pc s = CheckAbort -> m_updateThreadAbort s = true -> comes_to_an_end s.
Proof.
  intros Hpc A. exists [L_worker 0], (at_pc Ended s). cbn. unfold sys_step, crashed, ThreadWorker. rewrite Hpc, A.
  split; [done|]. split; [done|]. cbn. lia.
Qed.

Lemma end_asleep s : sys_pc s = Sleeping -> sleeps s -> m_updateThreadAbort s = true -> comes_to_an_end s.
Proof.
  destruct s as [p abort ev pc now]. cbn. intros -> [Hs|[_ (d & Hs & Hd)]] ->; cbn in Hs |- *.
  - eapply (end_step (L_worker 0)); [cbn; unfold is_asleep; rewrite Hs; reflexivity|done|]. now apply end_check.
  - exists [L_clock d; L_worker 0; L_worker 0], (mkSystem p true (expire d ev) Ended d).
    cbn. unfold sys_step. cbn. rewrite (proj2 (Z.leb_le _ _)) by (cbn in Hd; lia). cbn. unfold is_asleep, expire. cbn. rewrite Hs. cbn.
    unfold overdue. cbn. rewrite Z.leb_refl. cbn. split; [done|]. split; [done|]. cbn in Hd. lia.
Qed.

(** Through the statements at one slot to the slots behind it. *)
Lemma end_stage i rest : (forall s, sys_pc s = AtSlots rest -> sleeps s -> m_updateThreadAbort s = true -> comes_to_an_end s) ->
  forall st p ev now, asleep ev = [] -> comes_to_an_end (mkSystem p true ev (AtStage i st rest) now).
Proof.
  intros IH st. induction st as [st IHs] using (induction_ltof1 _ stages_left). intros p ev now H0.
  eapply (end_step (L_worker 0)); [reflexivity|cbn; now destruct (worker_stage _ _ _ _ _ _) as [[[]]|]|]. cbn.
  destruct (worker_stage _ _ _ _ _ _) as [[[st'| |] p']|f] eqn:Ew.
  - apply IHs; [exact (stage_goes_on _ _ _ _ _ _ _ Ew)|done].
  - apply IH; [done|now left|done].
  - exists [], (mkSystem p' true ev Ended now). cbn. split; [done|]. split; [done|lia].
  - exists [], (mkSystem p true ev (Crashed f) now). cbn. split; [done|]. split; [done|lia].
Qed.

Lemma end_slots rest s : sys_pc s = AtSlots rest -> sleeps s -> m_updateThreadAbort s = true -> comes_to_an_end s.
Proof.
  revert s. induction rest as [|i rest IH]; intros [p abort ev pc now] Hpc Hs A; cbn in Hpc, A; subst.
  - assert (H0 : asleep ev = []) by now destruct Hs as [?|[? _]].
    eapply (end_step (L_worker 0)); [reflexivity|done|]. apply end_asleep; [done| |done]. right. split; [done|]. cbn. rewrite H0.
    eexists. split; [reflexivity|]. change (ToMilliseconds tick) with 5. lia.
  - assert (H0 : asleep ev = []) by now destruct Hs as [?|[? _]]. eapply (end_step (L_worker 0)); [reflexivity|done|].
    change (comes_to_an_end (mkSystem p true ev (AtStage i S_active rest) now)). now apply (end_stage i rest IH).
Qed.


(** The invariant of a peer also holds when calls and completion handlers run between
    two statements of the worker; and nobody but the worker sleeps in its event, for
    one tick at most. *)
Theorem interleaved_invariant s : runs_to s -> peer_inv (sys_peer s) /\ sleeps s.
Proof. intros H. destruct (runs_to_inv s H). now split. Qed.

(** ** A round that nobody disturbs *)

Lemma sys_run_app ls ls' s : sys_run (ls ++ ls') s = (s' ← sys_run ls s; sys_run ls' s').
Proof. revert s. induction ls as [|l ls IH]; intros s; cbn; [done|]. destruct (sys_step l s); cbn; [apply IH|done]. Qed.

(** The statements at a slot one after the other are [worker_slot]. *)
Inductive stages_run (now entropy : Z) (i : nat) : stage -> Peer -> bool -> Peer -> Prop :=
  | sr_next st p st' p1 b p' : worker_stage no_address now entropy i st p = Ret (Next st', p1) -> stages_run now entropy i st' p1 b p' -> stages_run now entropy i st p b p'
  | sr_continue st p p' : worker_stage no_address now entropy i st p = Ret (Continue, p') -> stages_run now entropy i st p false p'
  | sr_return st p p' : worker_stage no_address now entropy i st p = Ret (Return, p') -> stages_run now entropy i st p true p'.

Lemma slot_stages now entropy i p b p' : worker_slot no_address now entropy i p = Ret (b, p') -> stages_run now entropy i S_active p b p'.
Proof.
  unfold worker_slot. intros E. apply bind_inv in E as (r & p0 & H0 & E). pose proof (slot_inv _ _ _ _ H0) as [-> _]. destruct (active r) eqn:Ea; cbn [negb] in E.
  2: { injection E as <- <-. apply sr_continue. cbn [worker_stage]. rewrite (bind_ret _ _ _ _ _ H0). now rewrite Ea. }
  apply (sr_next _ _ _ _ _ S_handshake p); [cbn [worker_stage]; rewrite (bind_ret _ _ _ _ _ H0); now rewrite Ea|].
  apply bind_inv in E as ([] & p1 & H1 & E). apply (sr_next _ _ _ _ _ S_congestion p1); [cbn [worker_stage]; now rewrite (bind_ret _ _ _ _ _ H0), (bind_ret _ _ _ _ _ H1)|].
  apply bind_inv in E as ([] & p2 & H2 & E). apply (sr_next _ _ _ _ _ S_receipt p2); [cbn [worker_stage]; now rewrite (bind_ret _ _ _ _ _ H2)|].
  apply bind_inv in E as (rs & p3 & H3 & E). apply bind_inv in E as ([] & p4 & H4 & E).
  apply (sr_next _ _ _ _ _ S_disconnect p4); [cbn [worker_stage]; now rewrite (bind_ret _ _ _ _ _ H3), (bind_ret _ _ _ _ _ H4)|].
  apply bind_inv in E as (r' & p5 & H5 & E). pose proof (slot_inv _ _ _ _ H5) as [-> _]. destruct (_ && _) eqn:Ed.
  { apply bind_inv in E as ([] & p6 & H6 & E). injection E as <- <-. apply sr_return. cbn [worker_stage]. now rewrite (bind_ret _ _ _ _ _ H5), Ed, (bind_ret _ _ _ _ _ H6). }
  apply (sr_next _ _ _ _ _ S_read p4); [cbn [worker_stage]; now rewrite (bind_ret _ _ _ _ _ H5), Ed|]. rewrite bind_get in E.
  destruct (negb _ || _) eqn:Es; [injection E as <- <-; apply sr_continue; cbn [worker_stage]; now rewrite (bind_ret _ _ _ _ _ H5), bind_get, Es|].
  apply bind_inv in E as ([] & p6 & H6 & E). apply (sr_next _ _ _ _ _ S_write p6); [cbn [worker_stage]; now rewrite (bind_ret _ _ _ _ _ H5), bind_get, Es, (bind_ret _ _ _ _ _ H6)|].
  apply bind_inv in E as ([] & p7 & H7 & E). injection E as <- <-. apply sr_continue. cbn [worker_stage]. now rewrite (bind_ret _ _ _ _ _ H7).
Qed.

Lemma stages_machine now entropy i rest ev abort st p b p' : stages_run now entropy i st p b p' ->
  exists k, sys_run (replicate k (L_worker entropy)) (mkSystem p abort ev (AtStage i st rest) now) = Some (mkSystem p' abort ev (if b then Ended else AtSlots rest) now).
Proof.
  induction 1 as [st p st' p1 b p' E _ [k IH]|st p p' E|st p p' E].
  - exists (S k). rewrite replicate_S. cbn [sys_run]. cbn. rewrite E. exact IH.
  - exists 1%nat. cbn. now rewrite E.
  - exists 1%nat. cbn. now rewrite E.
Qed.

Lemma slots_run now entropy slots p b p' ev abort : worker_slots no_address now entropy slots p = Ret (b, p') ->
  exists k, sys_run (replicate k (L_worker entropy)) (mkSystem p abort ev (AtSlots slots) now)
    = Some (mkSystem p' abort ev (if b then Ended else AtSlots []) now).
Proof.
  revert p. induction slots as [|i slots IH]; intros p E; cbn [worker_slots] in E; [run_all; now exists 0%nat|].
  run_step E. destruct (stages_machine now entropy i slots ev abort _ _ _ _ (slot_stages _ _ _ _ _ _ E0)) as [k Hk].
  destruct a; [run_all; exists (S k); rewrite replicate_S; exact Hk|].
  destruct (IH _ E) as [k' Hk']. exists (S (k + k')). rewrite replicate_S, replicate_add. cbn [sys_run]. apply bind_Some. eexists. split; [reflexivity|].
  rewrite sys_run_app. apply bind_Some. eexists. split; [exact Hk|exact Hk'].
Qed.

(** A round of the worker as the other theorems take it, in one step, is what the
    machine does when no other thread runs in between: it visits the same slots with
    the same result, and then ends or falls asleep for a tick. *)
Theorem undisturbed_round p b p' now entropy :
  worker_round no_address now entropy p = Ret (b, p') ->
  exists k s, sys_run (replicate k (L_worker entropy)) (PacketQueue_new p now) = Some s /\ sys_peer s = p'
    /\ sys_pc s = (if b then Ended else Sleeping)
    /\ asleep (m_updateNotify s) = (if b then [] else [(0%nat, Some (now + 5000000))]).
Proof.
  intros E. unfold worker_round in E. run_step E. destruct (slots_run _ _ _ _ _ _ AwaitableEvent_new false E) as [k Hk].
  destruct b.
  - exists (S k), (mkSystem p' false AwaitableEvent_new Ended now). split; [|done]. exact Hk.
  - exists (S (k + 1))%nat, (mkSystem p' false (WaitFor now tick 0 AwaitableEvent_new) Sleeping now). split; [|done].
    rewrite replicate_S, replicate_add. cbn [sys_run]. rewrite bind_Some. eexists. split; [reflexivity|].
    rewrite sys_run_app. apply bind_Some. eexists. split; [exact Hk|reflexivity].
Qed.

End System.

(** ** A call that is overtaken *)

Lemma disconnect_resets {host : Host} {RemoteAddress : Type} (no_address : RemoteAddress) {crypto : Type} {layer : EncryptionLayer crypto} {callback : Type}
    now i (p p' : Peer RemoteAddress crypto callback) r :
  m_remotes p !! i = Some r -> is_Some (handshake r) -> DisconnectImmediate no_address now i p = Ret (tt, p') ->
  m_remotes p' !! i = Some (RemotePeer_new no_address).
Proof.
  intros Hr [h Hh] E. unfold DisconnectImmediate in E. run_step E. apply slot_inv in E0 as [-> E0].
  assert (a = r) as -> by congruence. rewrite Hh in E. run_step E. clear E1. unfold reset_slot, set_slot in E. run_step E.
  apply slot_inv in E1 as [-> E1]. run_all. cbn. rewrite list_lookup_insert_eq by now apply lookup_lt_Some in E1. reflexivity.
Qed.

(** Send finds the slot of its recipient, and locks the mutex of the slot afterwards.
    When another thread disconnects that peer in between, the slot is empty by the time
    the mutex is taken, and EnqueueOutgoing uses its congestion manager, which is gone:
    it only tests whether a disconnect is in progress, and before it locks. *)
Theorem send_overtaken {host : Host} {RemoteAddress : Type} (no_address : RemoteAddress) {crypto : Type} {layer : EncryptionLayer crypto} {callback : Type}
    id i (p p1 p2 : Peer RemoteAddress crypto callback) r now now' packet cmd payload options channel :
  GetRemoteByID id p = Ret (Some i, p1) -> m_remotes p1 !! i = Some r -> is_Some (handshake r) ->
  DisconnectImmediate no_address now i p1 = Ret (tt, p2) ->
  holds packet cmd payload -> is_byte cmd -> Forall is_byte payload -> zlength payload <= PACKET_MAX_LENGTH ->
  on_slot i (EnqueueOutgoing now' (m_channels p2) packet options channel) p2 = Fail NullPointer.
Proof.
  intros _ Hr Hs E Hh Hc Hp Hl. pose proof (disconnect_resets no_address now i p1 p2 r Hr Hs E) as H2.
  rewrite (on_slot_start i _ p2 _ H2). now rewrite (enqueue_unset now' _ packet cmd payload options channel _ Hh Hc Hp Hl).
Qed.

(** ** Witnesses *)

Section Demo.
Import Sessions.Demo.

(** A peer whose worker has visited both slots when Stop stores the flag and signals:
    the signal is lost, and the worker sleeps through its tick. *)
Definition demo_system (ls : list (label (RemoteAddress := Z) (callback := Z))) : option system :=
  match Peer_new (crypto := unit) 0 [7] 1 with
  | Ret p => sys_run 0 (fun _ => Ret tt) ls (PacketQueue_new p 1000)
  | Fail _ => None
  end.

Lemma demo_runs ls s : demo_system ls = Some s -> runs_to 0 (fun _ => Ret tt) s.
Proof.
  unfold demo_system. destruct (Peer_new 0 [7] 1) as [p|] eqn:E; [|discriminate]. intros R.
  exists [7], 1, p, 1000, ls. split; [lia|done].
Qed.


(** The socket is bound while the worker is at slot 0. *)
Lemma interleaved_invariant_witness : exists s, demo_system [L_worker 0; L_worker 0; L_event net 0 (Ev_Bind IPv4 0); L_worker 0] = Some s
  /\ m_state (m_masterSocket (sys_peer s)) = OPEN /\ peer_inv (sys_peer s).
Proof.
  destruct (demo_system [L_worker 0; L_worker 0; L_event net 0 (Ev_Bind IPv4 0); L_worker 0]) as [s|] eqn:E; [|vm_compute in E; discriminate].
  exists s. split; [done|]. split; [vm_compute in E; injection E as <-; reflexivity|].
  apply (interleaved_invariant 0 (fun _ => Ret tt) s). eapply demo_runs. exact E.
Defined.

(** The server of the session in Sessions. *)
Lemma server_facts : exists b : DemoPeer, m_remoteLookup b !! 11 = Some 2%nat
  /\ (exists r, m_remotes b !! 2%nat = Some r /\ is_Some (handshake r))
  /\ (exists b2, DisconnectImmediate 0 5000 2 b = Ret (tt, b2))
  /\ exists p', worker_round 0 100000000 0 b = Ret (false, p').
Proof.
  destruct (opening 3) as [[a b]|] eqn:E; [|vm_compute in E; discriminate]. exists b. vm_compute in E. injection E as _ <-.
  split; [reflexivity|]. split; [eexists; split; [reflexivity|now eexists]|]. split; eexists; vm_compute; reflexivity.
Qed.

Lemma undisturbed_round_witness : exists (b p' : DemoPeer) k s, worker_round 0 100000000 0 b = Ret (false, p')
  /\ sys_run 0 (fun _ => Ret tt) (replicate k (L_worker 0)) (PacketQueue_new b 100000000) = Some s /\ sys_peer s = p' /\ sys_pc s = Sleeping.
Proof.
  destruct server_facts as (b & _ & _ & _ & p' & W). exists b, p'.
  destruct (undisturbed_round 0 (fun _ => Ret tt) b false p' 100000000 0 W) as (k & s & R & P & C & _).
  exists k, s. split; [done|]. split; [exact R|]. split; [exact P|exact C].
Defined.

Lemma send_overtaken_witness : exists (b b2 : DemoPeer), GetRemoteByID 11 b = Ret (Some 2%nat, b)
  /\ DisconnectImmediate 0 5000 2 b = Ret (tt, b2)
  /\ on_slot 2 (EnqueueOutgoing 6000 (m_channels b2) (mkPacket 0 66 1 (Some [Some 5])) RELIABLE Channel_default) b2 = Fail NullPointer.
Proof.
  destruct server_facts as (b & Hb & (r & Hr & Hs) & (b2 & D) & _). exists b, b2.
  assert (G : GetRemoteByID 11 b = Ret (Some 2%nat, b)) by (unfold GetRemoteByID; now rewrite bind_get, Hb).
  split; [exact G|]. split; [exact D|].
  apply (send_overtaken 0 11 2 b b b2 r 5000 6000 (mkPacket 0 66 1 (Some [Some 5])) 66 [5] RELIABLE Channel_default G Hr Hs D).
  - split; [reflexivity|reflexivity|]. intros _. now exists [].
  - unfold is_byte. lia.
  - repeat constructor; unfold is_byte; lia.
  - vm_compute. discriminate.
Defined.
End Demo.
