(* ===== verification/OutOfBand.v ===== *)
(** * OutOfBand: messages to peers that are not connected

    What EnqueueOutOfBand puts into slot 0, the datagram that the write cycle of slot
    0 makes of it (source/PacketQueue.cpp, DatagramBuilder.cpp), and what
    OnUnconnectedMessage (source/Peer.cpp) makes of that datagram at the other end;
    composed for the search of servers: a ping and the advertisement that answers
    it. *)

From stdpp Require Import base tactics gmap sets list list_numbers numbers option.
From Stdlib Require Import ZArith Lia.
From S2P Require Import Prelude Memory BinaryStream StreamSpec StreamCodec Config PeerStats Packet Headers.
From S2P Require Import ChannelBuffer CongestionControl Reassembly ReceiptTracker RpcController Encryption Handshake Socket RemotePeer PacketQueue Peer PacketFlow HandshakeTheorems DatagramTheorems PeerFrame PeerInvariant Delivery RpcFlow.

Open Scope Z_scope.

(** ** Queueing *)

Definition oob_header (len : Z) : PacketHeader := mkPH false false 0 UNRELIABLE 0 0 len 0 0 0.
Definition wire_oob (cmd : Z) (payload : list Z) : list Z := wire_packet_header (oob_header (1 + zlength payload)) ++ cmd :: payload.

(** What fits: EnqueueOutOfBand asserts that the payload is shorter than MTU - 100. *)
Record oob_ok (cmd : Z) (payload : list Z) : Prop := {
  oo_cmd : is_byte cmd;
  oo_bytes : Forall is_byte payload;
  oo_length : zlength payload < MTU - 100;
}.

Section Queue.
Context {host : Host} {RemoteAddress : Type}.

Lemma oob_header_ok len : 0 <= len < 65536 -> ph_ok (oob_header len).
Proof. intros H. split; cbn; unfold is_byte, UNRELIABLE, PACKET_MAX_LENGTH; lia. Qed.

Lemma wire_oob_length cmd payload : 0 <= zlength payload -> 2 <= zlength (wire_oob cmd payload) <= zlength payload + 65.
Proof.
  intros H. unfold wire_oob. pose proof (zlength_packet_header 0 [] (oob_header (1 + zlength payload))). zlen.
Qed.

(** A message that waits in the outbox of slot 0 for its only attempt. *)
Record oob_waiting (now : Z) (cmd : Z) (payload : list Z) (m : OutgoingPacket RemoteAddress) : Prop := {
  ow_bytes : exists a, rel true (op_blob m) a /\ a_bytes a = wire_oob cmd payload;
  ow_flags : op_options m = UNRELIABLE;
  ow_new : op_sendCount m = 0;
  ow_due : Elapsed now (op_sendNext m) = true;
}.

Lemma EnqueueOutOfBand_spec now packet cmd payload (a : RemoteAddress) handle (r : RemotePeer RemoteAddress) :
  holds packet cmd payload -> oob_ok cmd payload ->
  exists m, EnqueueOutOfBand now packet a handle r = Ret (set_outbox (outbox r ++ [m]) r)
    /\ op_addr m = a /\ op_crypto m = handle /\ op_id m = 0 /\ forall later, now <= later -> oob_waiting later cmd payload m.
Proof.
  intros Hh [Hc Hb Hl]. pose proof (zlength_nonneg payload) as H0. unfold MTU in Hl. unfold EnqueueOutOfBand.
  assert (El : u32 (GetDatagramLength packet) = 1 + zlength payload).
  { unfold GetDatagramLength. rewrite (hd_len _ _ _ Hh), u64_small, u32_small by lia. lia. }
  rewrite El. destruct (BinaryStream_new_rel BINARYSTREAM_DEFAULT_CAPACITY) as (s0 & E0 & Hs0); [unfold BINARYSTREAM_DEFAULT_CAPACITY, max_len; lia|].
  destruct (sim_PacketHeader_Serialize [] (oob_header (1 + zlength payload)) (oob_header_ok (1 + zlength payload) ltac:(lia))) with (s := s0) as (s1 & E1 & Hs1);
    [unfold roomy, max_len; zlen|exact Hs0|]. cbn [app] in Hs1.
  pose proof (zlength_packet_header 0 [] (oob_header (1 + zlength payload))) as Hw.
  destruct (sim_ToDatagram packet cmd payload (at_end (wire_packet_header (oob_header (1 + zlength payload)))) _ Hh Hc Hb ltac:(constructor)) with (s := s1) as (s2 & E2 & Hs2);
    [|exact Hs1|]; [unfold roomy, max_len; lia|].
  exists (mkOut handle s2 a now 0 0 UNRELIABLE). rewrite E0. cbn [mbind outcome_bind]. fold (oob_header (1 + zlength payload)). rewrite E1. cbn [mbind outcome_bind].
  rewrite E2. cbn [mbind outcome_bind]. repeat (split; [done|]). intros later Hn. split; cbn; try done.
  - eexists. split; [exact Hs2|reflexivity].
  - unfold Elapsed. now apply Z.leb_le.
Qed.

(** ** The write cycle of slot 0 *)

(** A slot for messages out of band, which is not a connection and has nothing to
    acknowledge; everything in its outbox waits for the first attempt. *)
Record oob_slot (now : Z) (c : CongestionControl) (r : RemotePeer RemoteAddress) : Prop := {
  os_congestion : congestion r = Some c;
  os_numbers : 0 <= m_bytesInFlight c /\ 0 <= m_window c /\ 0 <= m_nextDatagram c < 4294967296;
  os_acks : GetNeedsToSendAcks now c = false;
  os_shake : handshake r = None;
  os_crypto : rp_crypto r = None;
}.

Lemma oob_is_oob now c r : oob_slot now c r -> IsOutOfBand r = true /\ IsConnected r = false.
Proof. intros H. unfold IsOutOfBand, IsConnected. rewrite (os_shake _ _ _ H). split; [apply orb_true_r|apply andb_false_r]. Qed.

Lemma oob_suitable now cmd payload m n resend : oob_waiting now cmd payload m ->
  suitable now n resend m = (zlength (wire_oob cmd payload) <=? n) && negb resend.
Proof.
  intros [(a & Ha & Eb) _ Hn Hd]. unfold suitable. rewrite (rf_len _ _ (proj1 Ha)), Eb, Hn, Hd. cbn. now rewrite andb_false_r, andb_true_r, andb_true_r.
Qed.

(** The loop takes the first message and stops. *)
Lemma oob_fill now c cmd payload m rest n (r : RemotePeer RemoteAddress) : congestion r = Some c -> IsOutOfBand r = true ->
  outbox r = m :: rest -> oob_waiting now cmd payload m -> 0 < zlength (wire_oob cmd payload) <= n -> n <= MTU ->
  fill_loop (fill_fuel n) now n [] r = Ret ([0%nat], set_outbox (schedule now c m :: rest) r).
Proof.
  intros Hc Ho Hb Hm Hn HM. unfold fill_fuel. set (fuel := Z.to_nat n). cbn [fill_loop]. rewrite (proj2 (Z.leb_gt _ _)) by lia. rewrite Ho. cbn [andb].
  rewrite bool_decide_true by done. cbn [negb]. unfold Datagram_AddNewPacket, GetQueuedPacket. rewrite Hb. cbn [find_index].
  rewrite (oob_suitable _ _ _ _ _ _ Hm), (proj2 (Z.leb_le _ _)) by lia. cbn [andb negb]. unfold get_congestion. rewrite Hc. cbn [mbind outcome_bind mret outcome_ret].
  cbn [lookup list_lookup alter list_alter app]. destruct (_ <=? 0); [done|].
  change (IsOutOfBand (set_outbox _ r)) with (IsOutOfBand r). rewrite Ho. now rewrite bool_decide_false.
Qed.
(** Writing the blob and taking the message off the outbox. *)
Lemma oob_concat (m : OutgoingPacket RemoteAddress) rest bs a : rel true (op_blob m) a -> op_options m = UNRELIABLE ->
  roomy (zlength (a_bytes a)) bs -> sim true (concat_blobs [0%nat] (S (length rest)) (m :: rest)) (at_end bs) rest (at_end (bs ++ a_bytes a)).
Proof.
  intros Ha Hf Hr. cbn [concat_blobs]. rewrite bool_decide_false by lia. cbn [lookup list_lookup].
  eapply sim_bind; [eapply sim_app_stream; [exact Ha|constructor|exact Hr]|].
  replace (HasFlag m RELIABLE) with false by (unfold HasFlag; now rewrite Hf).
  unfold GetOutgoingPacketByID. cbn [find_index]. rewrite Z.eqb_refl. unfold erase_at. cbn [take drop app]. apply sim_ret.
Qed.

(** The bytes of the datagram for a message out of band. *)
Definition wire_oob_datagram (id cmd : Z) (payload : list Z) : list Z :=
  wire_datagram_header (mkDH true false [] [] id (zlength (wire_oob cmd payload))) ++ wire_oob cmd payload.

Lemma oob_MakeDatagram now c cmd payload m rest (r : RemotePeer RemoteAddress) :
  oob_slot now c r -> outbox r = m :: rest -> Forall (fun x => op_sendCount x = 0) rest -> oob_waiting now cmd payload m ->
  zlength payload < MTU - 100 -> zlength (wire_oob cmd payload) <= GetTransmissionBudget c ->
  exists d r', MakeDatagram now r = Ret (NewDatagram d, r') /\ rel true (od_blob d) (at_end (wire_oob_datagram (m_nextDatagram c) cmd payload))
    /\ od_crypto d = op_crypto m /\ od_addr d = op_addr m /\ outbox r' = rest /\ congestion r' = Some (snd (GetNextDatagramID c)).
Proof.
  intros Hs Hb Hrest Hm Hlen Hbud. pose proof (zlength_nonneg payload) as Hp0. pose proof (wire_oob_length cmd payload Hp0) as Hw.
  destruct (oob_is_oob _ _ _ Hs) as [Ho Hcon]. destruct Hs as [Hc (Hf & Hwin & Hid) _ _ _]. destruct (budgets_fit c Hf Hwin) as (HB & HS & HM).
  destruct (ow_bytes _ _ _ _ Hm) as (a & Ha & Ea). unfold MTU in *.
  unfold MakeDatagram. rewrite bool_decide_false by now rewrite Hb. unfold get_congestion at 1. rewrite Hc. cbn [mbind outcome_bind].
  rewrite (proj2 (Z.eqb_neq _ 0)) by lia. cbn [andb].
  assert (Es : select_packets now (GetRetransmissionBudget c) (GetTransmissionBudget c) r = Ret ([0%nat], set_outbox (schedule now c m :: rest) r)).
  { assert (Er : (if 0 <? GetRetransmissionBudget c then Datagram_AddResendPacket now (GetRetransmissionBudget c) [] r else Ret ([], r)) = Ret ([], r)).
    { destruct (0 <? _); [|done]. unfold Datagram_AddResendPacket. destruct (GetQueuedPacket _ _ _ _) as [i|] eqn:Eq; [|done]. exfalso.
      apply find_index_Some in Eq as (x & Hx & Su). rewrite Hb in Hx. unfold suitable in Su. apply andb_prop in Su as [Su _]. apply andb_prop in Su as [_ Su].
      cbn [negb andb] in Su. rewrite orb_false_r in Su. apply Z.ltb_lt in Su.
      destruct i; cbn in Hx; [injection Hx as <-; rewrite (ow_new _ _ _ _ Hm) in Su; lia|]. pose proof (Forall_lookup_1 _ _ _ _ Hrest Hx). cbn in *. lia. }
    unfold select_packets. rewrite Er. cbn [mbind outcome_bind]. apply (oob_fill now c cmd payload); try done; unfold MTU; lia. }
  rewrite Es. cbn [mbind outcome_bind]. unfold build_datagram, get_congestion. cbn [congestion set_outbox]. rewrite Hc.
  cbn [mbind outcome_bind GetNextDatagramID outbox set_outbox set_congestion lookup list_lookup].
  cbn [count_sends lookup list_lookup]. change (op_sendCount (schedule now c m)) with (op_sendCount m). rewrite (ow_new _ _ _ _ Hm).
  change (SEND_RETRY_COUNT <? u32 (0 + 1)) with false. cbn [mbind outcome_bind alter list_alter].
  change (op_blob (schedule now c m)) with (op_blob m). rewrite (rf_len _ _ (proj1 Ha)), Ea, Z.add_0_l, u64_small by lia.
  destruct (BinaryStream_new_rel BINARYSTREAM_DEFAULT_CAPACITY) as (s0 & E0 & H0); [unfold BINARYSTREAM_DEFAULT_CAPACITY, max_len; lia|].
  rewrite E0. cbn [mbind outcome_bind]. match goal with |- context [DatagramHeader_Serialize ?x s0] => set (h := x) end.
  destruct (sim_DatagramHeader_Serialize [] h) with (s := s0) as (s1 & E1 & Hs1); [done|done|]. rewrite E1. cbn [mbind outcome_bind length]. cbn [app] in Hs1.
  match goal with |- context [concat_blobs _ _ (?x :: rest) s1] =>
    destruct (oob_concat x rest (wire_datagram_header h) a Ha (ow_flags _ _ _ _ Hm)) with (s := s1) as (s2 & E2 & Hs2) end;
    [unfold roomy, h; rewrite zlength_data_header, Ea; unfold max_len; lia|done|].
  rewrite E2. cbn [mbind outcome_bind]. eexists _, _. split; [reflexivity|]. cbn [od_blob od_crypto od_addr]. split; [|done].
  unfold h in Hs2. change (IsConnected (set_congestion _ _)) with (IsConnected r) in Hs2. rewrite Hcon, Ea in Hs2. exact Hs2.
Qed.

(** A write cycle of slot 0 sends the oldest message, protected by the layer that the
    message names, and forgets it. *)
Lemma oob_write_with {crypto : Type} {layer : EncryptionLayer crypto} (P : BinaryStream -> Prop) now entropy encryption (layers : gmap Z crypto) c cmd payload m rest
    (r : RemotePeer RemoteAddress) :
  oob_slot now c r -> outbox r = m :: rest -> Forall (fun x => op_sendCount x = 0) rest -> oob_waiting now cmd payload m ->
  (forall blob, rel true blob (at_end (wire_oob_datagram (m_nextDatagram c) cmd payload)) ->
     exists blob', protect entropy encryption (match op_crypto m with Some k => layers !! k | None => None end) blob = Ret (Some blob') /\ P blob') ->
  zlength payload < MTU - 100 -> zlength (wire_oob cmd payload) <= GetTransmissionBudget c ->
  exists blob r', DoWriteCycle now entropy encryption false layers r = Ret (Wrote (op_addr m) blob, r') /\ P blob /\ outbox r' = rest
    /\ handshake r' = None /\ rp_crypto r' = None
    /\ exists id, congestion r' = Some (NotifySendingBytes now id (m_length blob) (GetNextDatagramID c).2).
Proof.
  intros Hs Hb Hrest Hm Hcr Hlen Hbud. unfold DoWriteCycle. set (r0 := set_stats _ r).
  assert (Hs0 : oob_slot now c r0) by (destruct Hs; now split).
  destruct (oob_MakeDatagram now c cmd payload m rest r0 Hs0 Hb Hrest Hm Hlen Hbud) as (d & r' & E & Hd & Ecr & Ead & Eout & Econ).
  unfold GetNextDatagram, get_congestion. change (congestion r0) with (congestion r). rewrite (os_congestion _ _ _ Hs). cbn [mbind outcome_bind].
  rewrite (os_acks _ _ _ Hs), E. cbn [mbind outcome_bind]. pose proof (MakeDatagram_frame _ _ _ _ E) as Hfr. destruct (Hcr _ Hd) as (blob & Ep & HP).
  assert (El : datagram_layer layers d r' = match op_crypto m with Some k => layers !! k | None => None end).
  { unfold datagram_layer. rewrite Ecr, (fr_crypto _ _ Hfr). change (rp_crypto r0) with (rp_crypto r). now rewrite (os_crypto _ _ _ Hs). }
  rewrite El, Ep. cbn [mbind outcome_bind mret outcome_ret]. rewrite Econ. cbn [mbind outcome_bind].
  exists blob. eexists. split; [now rewrite Ead|]. split; [exact HP|]. split; [exact Eout|].
  split; [cbn; now rewrite (fr_handshake _ _ Hfr); apply (os_shake _ _ _ Hs)|]. split; [cbn; now rewrite (fr_crypto _ _ Hfr); apply (os_crypto _ _ _ Hs)|].
  now eexists.
Qed.

Lemma oob_write {crypto : Type} {layer : EncryptionLayer crypto} now entropy encryption (layers : gmap Z crypto) c cmd payload m rest (r : RemotePeer RemoteAddress) :
  oob_slot now c r -> outbox r = m :: rest -> Forall (fun x => op_sendCount x = 0) rest -> oob_waiting now cmd payload m -> op_crypto m = None ->
  zlength payload < MTU - 100 -> zlength (wire_oob cmd payload) <= GetTransmissionBudget c ->
  exists blob r', DoWriteCycle now entropy encryption false layers r = Ret (Wrote (op_addr m) blob, r')
    /\ rel true blob (at_end (wire_oob_datagram (m_nextDatagram c) cmd payload)) /\ outbox r' = rest.
Proof.
  intros Hs Hb Hrest Hm Hcr Hlen Hbud.
  destruct (oob_write_with (fun blob => rel true blob (at_end (wire_oob_datagram (m_nextDatagram c) cmd payload))) now entropy encryption layers c cmd payload m rest r Hs Hb Hrest Hm)
    as (blob & r' & E & Hd & Hb' & _); [|done|done|now exists blob, r']. intros blob Hd. rewrite Hcr. now exists blob.
Qed.
End Queue.

(** ** Peers *)

Section Peers.
Context {host : Host} {sign : CharSign} {RemoteAddress : Type} {address_eq : EqDecision RemoteAddress} (no_address : RemoteAddress).
Context {crypto : Type} {layer : EncryptionLayer crypto} (make_layer : Z -> outcome crypto) {callback : Type}.
Abbreviation Peer := (Peer RemoteAddress crypto callback).

(** Slot 0 is idle and the socket free. *)
Record oob_ready (now : Z) (c : CongestionControl) (r : RemotePeer RemoteAddress) (p : Peer) : Prop := {
  or_slot : m_remotes p !! 0%nat = Some r;
  or_oob : oob_slot now c r;
  or_empty : outbox r = [];
  or_free : IsWritePending (m_masterSocket p) = false;
}.

(** Sending: the message is queued and the next write cycle of slot 0 writes it. *)
Lemma oob_send now now' entropy packet cmd payload a c r (p : Peer) :
  oob_ready now' c r p -> now <= now' -> holds packet cmd payload -> oob_ok cmd payload ->
  zlength (wire_oob cmd payload) <= GetTransmissionBudget c ->
  exists p1 r' blob, Queue_OutOfBand now packet a None p = Ret (tt, p1)
    /\ write_cycle no_address now' entropy 0 p1 = Ret (tt, set_socket (BeginWrite a blob (m_masterSocket p)) (at_slot 0 r' (m_inbox p) p))
    /\ rel true blob (at_end (wire_oob_datagram (m_nextDatagram c) cmd payload)).
Proof.
  intros [Hr Ho He Hf] Hn Hh Hok Hbud.
  destruct (EnqueueOutOfBand_spec now packet cmd payload a None r Hh Hok) as (m & E & Ead & Ecr & _ & Hm). rewrite He in E. cbn [app] in E.
  set (r1 := set_outbox [m] r) in *. exists (at_slot 0 r1 (m_inbox p) p).
  assert (Ho1 : oob_slot now' c r1) by (destruct Ho; now split).
  destruct (oob_write now' entropy (m_crypto_enabled p) (p_layers p) c cmd payload m [] r1 Ho1 eq_refl ltac:(constructor) (Hm _ Hn) Ecr (oo_length _ _ Hok) Hbud)
    as (blob & r' & Ew & Hb & _). exists r', blob. pose proof (lookup_lt_Some _ _ _ Hr) as Hi. split; [|split; [|exact Hb]].
  - unfold Queue_OutOfBand. rewrite (on_slot_start 0 r p _ Hr), E. reflexivity.
  - unfold write_cycle. rewrite bind_get. change (m_masterSocket (at_slot 0 r1 (m_inbox p) p)) with (m_masterSocket p). rewrite Hf.
    change (p_layers (at_slot 0 r1 (m_inbox p) p)) with (p_layers p). change (m_crypto_enabled (at_slot 0 r1 (m_inbox p) p)) with (m_crypto_enabled p).
    erewrite bind_ret; [|rewrite on_slot_at by exact Hi; rewrite Ew; reflexivity]. rewrite Ead. reflexivity.
Qed.

Lemma address_slot0 a r inbox (p : Peer) : GetRemoteByAddress a (at_slot 0 r inbox p) = GetRemoteByAddress a p.
Proof.
  unfold GetRemoteByAddress, find_slot, numbered. change (m_remotesMax (at_slot 0 r inbox p)) with (m_remotesMax p).
  change (m_remotes (at_slot 0 r inbox p)) with (<[0%nat := r]> (m_remotes p)). destruct (m_remotes p) as [|x l]; [done|].
  cbn [insert list_insert]. now destruct (Z.to_nat (m_remotesMax p)).
Qed.

(** Receiving: the datagram of an unknown sender is taken apart into the message. *)
Lemma oob_receive asio now entropy sender (p : Peer) id cmd payload :
  GetRemoteByAddress sender p = None -> 0 <= id < 4294967296 -> oob_ok cmd payload ->
  Forall is_byte (wire_oob_datagram id cmd payload) ->
  exists w s, rel w s (cursor (wire_datagram_header (mkDH true false [] [] id (zlength (wire_oob cmd payload)))) (wire_oob cmd payload))
    /\ OnReadFinished no_address make_layer asio now entropy false sender (map Some (wire_oob_datagram id cmd payload)) p
       = OnUnconnectedMessage no_address make_layer asio now entropy sender s p.
Proof.
  intros Hu Hid Hok Hbytes. destruct Hok as [Hc Hb Hl]. unfold MTU in Hl. pose proof (zlength_nonneg payload) as Hp0.
  pose proof (wire_oob_length cmd payload Hp0) as Hw. set (h := mkDH true false [] [] id (zlength (wire_oob cmd payload))).
  assert (Hmax : zlength (wire_oob_datagram id cmd payload) <= max_len).
  { unfold wire_oob_datagram. rewrite zlength_app, zlength_data_header. unfold max_len. lia. }
  destruct (BinaryStream_wrap_rel (wire_oob_datagram id cmd payload) [] READONLY Hbytes Hmax) as (s0 & E0 & H0). rewrite app_nil_r in E0.
  assert (Hh : dh_ok h) by (split; unfold h; cbn [datagramID dataLength dh_acks dh_nacks]; [done|lia|constructor|constructor]).
  destruct (sim_DatagramHeader_Deserialize false DatagramHeader_default [] h (wire_oob cmd payload) Hh) with (s := s0) as (s1 & E1 & H1);
    [done|done|intros _; unfold h; cbn [dataLength]; lia|exact H0|]. cbn [app] in H1.
  exists false, s1. split; [exact H1|]. unfold OnReadFinished. rewrite bind_get, Hu. cbv zeta iota. unfold OnUnconnectedMessage_raw.
  rewrite zlength_map, (bind_lift _ _ _ _ E0), (bind_lift _ _ _ _ E1). reflexivity.
Qed.
Lemma oob_parse w s pre cmd payload : rel w s (cursor pre (wire_oob cmd payload)) -> oob_ok cmd payload ->
  exists s1 s2, PacketHeader_Deserialize PacketHeader_default s = Ret (true, ph_merge PacketHeader_default (oob_header (1 + zlength payload)), s1)
    /\ FromDatagram 0 (1 + zlength payload) s1 = Ret (mkPacket 0 cmd (zlength payload) (payload_ptr payload), s2).
Proof.
  intros Hs [Hc Hb Hl]. unfold MTU in Hl. pose proof (zlength_nonneg payload) as H0. unfold wire_oob in Hs.
  destruct (sim_PacketHeader_Deserialize w PacketHeader_default pre (oob_header (1 + zlength payload)) (cmd :: payload) (oob_header_ok (1 + zlength payload) ltac:(lia)) _ Hs) as (s1 & E1 & H1).
  rewrite <- (app_nil_r (cmd :: payload)) in H1.
  destruct (sim_FromDatagram w 0 _ _ cmd payload [] (rd_cursor _ _) ltac:(lia) _ H1) as (s2 & E2 & _). exists s1, s2. split; [exact E1|exact E2].
Qed.

Lemma advertisement_packet (s : BinaryStream) x : rel true s x -> a_bytes x <> [] ->
  IsEmpty s = false /\ exists pong, Packet_from_stream ADVERTISEMENT s = Ret pong /\ holds pong ADVERTISEMENT (a_bytes x).
Proof.
  intros [H Hw] Hne. specialize (Hw eq_refl). destruct (writable_backing s x H Hw) as [slack Eb]. pose proof (rf_max _ _ H) as Hm. pose proof (rf_len _ _ H) as El.
  assert (Hp : 0 < zlength (a_bytes x)) by (destruct (a_bytes x); [done|zlen]). destruct (m_buffer s) as [l|] eqn:Ebuf; cbn in Eb; [|destruct (a_bytes x); done].
  split.
  - unfold IsEmpty. rewrite (wr_alias s Hw), Ebuf. cbn. rewrite El. apply Z.eqb_neq. lia.
  - unfold Packet_from_stream, ToArray. rewrite Ebuf, El, alloc_ok by (unfold max_len in *; lia). cbn [mbind outcome_bind]. unfold read_from.
    rewrite (proj2 (Z.eqb_neq _ _)) by lia. cbn [mbind outcome_bind]. rewrite mem_read_ok by (subst l; zlen).
    eexists. split; [reflexivity|]. split; cbn; [done|done|]. intros _. exists []. subst l. rewrite zdrop_0, ztake_app_l, app_nil_r by zlen. done.
Qed.

(** A ping is answered with the advertisement. *)
Lemma ping_received asio now entropy sender (p : Peer) w s pre x : rel w s (cursor pre (wire_oob PING [])) ->
  rel true (m_advertisement p) x -> a_bytes x <> [] ->
  exists pong, holds pong ADVERTISEMENT (a_bytes x)
    /\ OnUnconnectedMessage no_address make_layer asio now entropy sender s p = Queue_OutOfBand now pong sender None p.
Proof.
  intros Hs Ha Hne. destruct (oob_parse w s pre PING [] Hs) as (s1 & s2 & E1 & E2); [split; [unfold is_byte, PING; lia|constructor|reflexivity]|].
  destruct (advertisement_packet _ x Ha Hne) as (Em & pong & Ep & Hh). exists pong. split; [done|].
  unfold OnUnconnectedMessage. rewrite (bind_lift _ _ _ _ E1). cbv beta iota. cbn [negb orb flag_segment ph_merge oob_header ph_length].
  rewrite (bind_lift _ _ _ _ E2). cbv beta iota. cbn [pk_command]. rewrite Z.eqb_refl, bind_get, Em, (bind_lift _ _ _ _ Ep). reflexivity.
Qed.

(** An advertisement goes to the inbox, with the address of the sender in front. *)
Lemma advertisement_received asio now entropy sender (p : Peer) w s pre ad : rel w s (cursor pre (wire_oob ADVERTISEMENT ad)) ->
  oob_ok ADVERTISEMENT ad -> ad <> [] -> Forall is_byte (address_string asio sender) -> zlength (address_string asio sender) < 1024 ->
  exists n, OnUnconnectedMessage no_address make_layer asio now entropy sender s p = Ret (tt, set_inbox (m_inbox p ++ [n]) p)
    /\ holds n NOTIFY_ADVERTISEMENT (wire_string (address_string asio sender) ++ ad).
Proof.
  intros Hs Hok Hne Hab Hal. destruct (oob_parse w s pre ADVERTISEMENT ad Hs Hok) as (s1 & s2 & E1 & E2). destruct Hok as [Hc Hb Hl]. unfold MTU in Hl.
  set (address := address_string asio sender) in *. pose proof (zlength_nonneg ad) as H0. pose proof (zlength_nonneg address) as H1.
  set (packet := mkPacket 0 ADVERTISEMENT (zlength ad) (payload_ptr ad)) in *.
  destruct (GetStream_rel packet ADVERTISEMENT ad (holds_exact _ _ _) Hne Hb ltac:(unfold max_len; lia)) as (orig & Eo & Ho).
  destruct (BinaryStream_new_rel (zlength ad + zlength address + 4)) as (t0 & Et0 & Ht0); [unfold max_len; lia|].
  destruct (sim_app_string (at_end []) [] address ltac:(constructor) Hab ltac:(unfold roomy, max_len; zlen) t0 Ht0) as (t1 & Et1 & Ht1). cbn [app] in Ht1.
  assert (Hws : zlength (wire_string address) <= 5 + zlength address).
  { unfold wire_string. pose proof (varint_length (zlength address)). zlen. }
  destruct (sim_app_stream false orig _ (at_end (wire_string address)) (wire_string address) Ho ltac:(constructor)
    ltac:(cbn [cursor a_bytes app]; unfold roomy, max_len; lia) t1 Ht1) as (t2 & Et2 & Ht2).
  destruct (Packet_take_stream_holds NOTIFY_ADVERTISEMENT t2 _ Ht2) as (note & t3 & En & Hn & _). cbn [cursor a_bytes app at_end] in Hn.
  destruct (Packet_copy_holds note _ _ Hn) as (n & Ec & Hcopy & _); [unfold max_len; zlen|]. exists n. split; [|exact Hcopy].
  unfold OnUnconnectedMessage. rewrite (bind_lift _ _ _ _ E1). cbv beta iota. cbn [negb orb flag_segment ph_merge oob_header ph_length].
  rewrite (bind_lift _ _ _ _ E2). cbv beta iota. change (pk_command packet) with ADVERTISEMENT.
  change (ADVERTISEMENT =? PING) with false. change (ADVERTISEMENT =? CONNECT_ATTEMPT) with false. change (ADVERTISEMENT =? DISCONNECT_ACK) with false.
  rewrite Z.eqb_refl. cbv iota zeta. fold address. rewrite (bind_lift _ _ _ _ Eo), (rf_len _ _ (proj1 Ho)). cbn [cursor a_bytes app].
  rewrite u64_small, (bind_lift _ _ _ _ Et0) by lia. rewrite (bind_lift _ _ _ _ Et1). cbv beta iota. rewrite (bind_lift _ _ _ _ Et2). cbv beta iota.
  rewrite (bind_lift _ _ _ _ En). cbv beta iota. unfold SendLoopback. rewrite bind_get. unfold EnqueueLoopback. rewrite Ec. reflexivity.
Qed.
End Peers.

(** C10: a ping finds a server.  Peer a pings the address of peer b, to which it is not
    connected.  The write cycle of a's slot 0 sends one datagram to that address; b's
    read handler, not knowing the sender, queues its advertisement for it; the write
    cycle of b's slot 0 sends that; and a's read handler posts exactly one
    notification, which holds the address of b, as a string, followed by the bytes of
    the advertisement.  Neither encryption nor the connections of either peer matter. *)
Theorem ping_answered {host : Host} {sign : CharSign} {RemoteAddress : Type} {address_eq : EqDecision RemoteAddress} (no_address : RemoteAddress)
    {crypto : Type} {layer : EncryptionLayer crypto} make_layer {callback : Type} asio_a asio_b t1 t2 t3 t4 t5 e
    (a b : Peer RemoteAddress crypto callback) at_a at_b hostname port ca cb ra rb x :
  oob_ready t2 ca ra a -> oob_ready t4 cb rb b -> t1 <= t2 -> t3 <= t4 ->
  Resolve asio_a hostname port (m_masterSocket a) = Some at_b -> GetRemoteByAddress at_b a = None -> GetRemoteByAddress at_a b = None ->
  rel true (m_advertisement b) x -> a_bytes x <> [] -> zlength (a_bytes x) < MTU - 100 ->
  zlength (wire_oob PING []) <= GetTransmissionBudget ca -> zlength (wire_oob ADVERTISEMENT (a_bytes x)) <= GetTransmissionBudget cb ->
  Forall is_byte (address_string asio_a at_b) -> zlength (address_string asio_a at_b) < 1024 ->
  exists a1 a2 a3 b1 b2 d1 d2 w1 w2 n,
    Ping asio_a t1 hostname port a = Ret (tt, a1) /\ write_cycle no_address t2 e 0 a1 = Ret (tt, a2)
    /\ written (m_masterSocket a2) = written (m_masterSocket a) ++ [(at_b, d1)] /\ rel true d1 (at_end w1)
    /\ OnReadFinished no_address make_layer asio_b t3 e false at_a (map Some w1) b = Ret (tt, b1) /\ write_cycle no_address t4 e 0 b1 = Ret (tt, b2)
    /\ written (m_masterSocket b2) = written (m_masterSocket b) ++ [(at_a, d2)] /\ rel true d2 (at_end w2)
    /\ OnReadFinished no_address make_layer asio_a t5 e false at_b (map Some w2) a2 = Ret (tt, a3)
    /\ m_inbox a3 = m_inbox a ++ [n] /\ holds n NOTIFY_ADVERTISEMENT (wire_string (address_string asio_a at_b) ++ a_bytes x).
Proof.
  intros Ha Hb T12 T34 Hres Hua Hub Hx Hne Hxl Hba Hbb Hab Hal.
  assert (Hping : oob_ok PING []) by (split; [unfold is_byte, PING; lia|constructor|reflexivity]).
  assert (Had : oob_ok ADVERTISEMENT (a_bytes x)) by (split; [unfold is_byte, ADVERTISEMENT; lia|exact (rf_bytes _ _ (proj1 Hx))|exact Hxl]).
  assert (Hnum : forall t c r (p : Peer RemoteAddress crypto callback), oob_ready t c r p -> 0 <= m_nextDatagram c < 4294967296).
  { intros t c r p H. apply (os_numbers _ _ _ (or_oob _ _ _ _ H)). }
  set (ping := mkPacket 0 PING 0 None). assert (Hh : holds ping PING []) by (split; done).
  destruct (oob_send no_address t1 t2 e ping PING [] at_b ca ra a Ha T12 Hh Hping Hba) as (a1 & r1 & d1 & Eq1 & Ew1 & Hd1).
  set (a2 := set_socket _ _) in Ew1.
  destruct (oob_receive no_address make_layer asio_b t3 e at_a b _ PING [] Hub (Hnum _ _ _ _ Ha) Hping (rf_bytes _ _ (proj1 Hd1))) as (w & s & Hs & Er1).
  destruct (ping_received no_address make_layer asio_b t3 e at_a b w s _ x Hs Hx Hne) as (pong & Hpong & Eu1).
  destruct (oob_send no_address t3 t4 e pong ADVERTISEMENT (a_bytes x) at_a cb rb b Hb T34 Hpong Had Hbb) as (b1 & r2 & d2 & Eq2 & Ew2 & Hd2).
  destruct (oob_receive no_address make_layer asio_a t5 e at_b a2 (m_nextDatagram cb) ADVERTISEMENT (a_bytes x)) as (w' & s' & Hs' & Er2);
    [|exact (Hnum _ _ _ _ Hb)|exact Had|exact (rf_bytes _ _ (proj1 Hd2))|].
  { change (GetRemoteByAddress at_b a2) with (GetRemoteByAddress at_b (at_slot 0 r1 (m_inbox a) a)). now rewrite address_slot0. }
  destruct (advertisement_received no_address make_layer asio_a t5 e at_b a2 w' s' _ (a_bytes x) Hs' Had Hne Hab Hal) as (n & Eu2 & Hn).
  exists a1, a2, (set_inbox (m_inbox a2 ++ [n]) a2), b1. eexists _, d1, d2, (wire_oob_datagram (m_nextDatagram ca) PING []), (wire_oob_datagram (m_nextDatagram cb) ADVERTISEMENT (a_bytes x)), n.
  split; [unfold Ping; rewrite bind_get, Hres; exact Eq1|]. split; [exact Ew1|]. split; [reflexivity|]. split; [exact Hd1|].
  split; [now rewrite Er1, Eu1|]. split; [exact Ew2|]. split; [reflexivity|]. split; [exact Hd2|]. split; [now rewrite Er2, Eu2|].
  split; [reflexivity|exact Hn].
Qed.

(** ** Witness *)

#[local] Instance demo_host : Host := {| little_endian := true; or_left_first := true |}.
#[local] Instance demo_sign : CharSign := {| char_signed := true |}.

(** A peer without connections, at the port it was bound to. *)
Definition oob_remote : RemotePeer Z :=
  mkRemote ∅ 0 [] [] true None None (Some (CongestionControl_new 10)) (Some ReceiptTracker_new) ∅ PeerStats_new 0 0 true true.
Definition lonely (id : Z) (ad : BinaryStream) : Peer Z unit unit :=
  mkPeer id 2 0 ad ∅ SocketUDP_new [oob_remote; RemotePeer_new 0] [] ∅ [UNORDERED] None false ∅ 0 [].

Lemma lonely_ready now id ad : GetNeedsToSendAcks now (CongestionControl_new 10) = false -> oob_ready now (CongestionControl_new 10) oob_remote (lonely id ad).
Proof. intros H. split; [done| |done|done]. split; try done. Qed.

Lemma ping_answered_witness : exists a3 n, m_inbox a3 = [n] /\ holds n NOTIFY_ADVERTISEMENT (wire_string [57] ++ [7; 8; 9])
  /\ exists a2 w2, OnReadFinished 0 (fun _ => Ret tt) (mkAsio (fun _ _ _ => Some [9]) (fun _ _ => Bound) (fun _ => [57])) 500 0 false 9 (map Some w2) a2 = Ret (tt, a3 : Peer Z unit unit).
Proof.
  set (asio := mkAsio (fun _ _ _ => Some [9]) (fun _ _ => Bound) (fun _ => [57])).
  assert (Hx : rel true (holding [7; 8; 9]) (at_end [7; 8; 9])).
  { apply holding_rel; [repeat constructor; unfold is_byte; lia|vm_compute; discriminate]. }
  destruct (ping_answered 0 (fun _ => Ret tt) asio asio 100 200 300 400 500 0 (lonely 11 (holding [])) (lonely 22 (holding [7; 8; 9])) 5 9 [98] 7
    (CongestionControl_new 10) (CongestionControl_new 10) oob_remote oob_remote (at_end [7; 8; 9]))
    as (a1 & a2 & a3 & b1 & b2 & d1 & d2 & w1 & w2 & n & _ & _ & _ & _ & _ & _ & _ & _ & E & Hi & Hn).
  - now apply lonely_ready.
  - now apply lonely_ready.
  - lia.
  - lia.
  - reflexivity.
  - reflexivity.
  - reflexivity.
  - exact Hx.
  - discriminate.
  - reflexivity.
  - vm_compute. discriminate.
  - vm_compute. discriminate.
  - repeat constructor; unfold is_byte; lia.
  - reflexivity.
  - exists a3, n. split; [exact Hi|]. split; [exact Hn|]. exists a2, w2. exact E.
Defined.
