(* ===== verification/PeerConnect.v ===== *)
(** * PeerConnect: two peers that connect

    Connect, its callback, OnNewIncomingPeer and handle_handshake (source/Peer.cpp)
    composed with the handshaker and the messages of slot 0: what the effects of a
    handshaker do to the peer, a message of the handshake from the outbox of one peer to
    the handshaker of the other, and the whole connection between two peers. *)

From stdpp Require Import base tactics gmap sets list list_numbers numbers option.
From Stdlib Require Import ZArith Lia.
From S2P Require Import Prelude Memory BinaryStream StreamSpec StreamCodec Config PeerStats Packet Headers.
From S2P Require Import ChannelBuffer CongestionControl Reassembly ReceiptTracker RpcController Encryption Handshake Socket RemotePeer PacketQueue Peer PacketFlow HandshakeTheorems DatagramTheorems PeerFrame PeerInvariant PeerEvents Delivery Sessions OutOfBand.

Open Scope Z_scope.

Section PeerConnect.
Context {host : Host} {sign : CharSign} {RemoteAddress : Type} {address_eq : EqDecision RemoteAddress} (no_address : RemoteAddress).
Context {crypto : Type} {layer : EncryptionLayer crypto} {laws : EncryptionLaws crypto} (make_layer : Z -> outcome crypto) {callback : Type}.
Context (enc : bool).       (* whether encryption is enabled at both ends *)

Abbreviation Peer := (Peer RemoteAddress crypto callback).
Abbreviation RemotePeer := (RemotePeer RemoteAddress).

(** ** The effects of a handshaker *)

Definition sent_of (os : list observation) : list (list Z * bool) :=
  omap (fun o => match o with Sent bs est => Some (bs, est) | Notified _ _ => None end) os.
Definition notified_of (os : list observation) : list (Z * Z) :=
  omap (fun o => match o with Sent _ _ => None | Notified cmd code => Some (cmd, code) end) os.

(** A message of the handshake of [r] in the outbox of slot 0. *)
Definition part_queued (now : Z) (r : RemotePeer) (m : OutgoingPacket RemoteAddress) (part : list Z * bool) : Prop :=
  op_addr m = addr r /\ op_crypto m = (if part.2 then rp_crypto r else None)
  /\ forall later, now <= later -> oob_waiting later CONNECT_ATTEMPT part.1 m.

(** A notification in the inbox about the peer of [r]. *)
Definition posted_note (r : RemotePeer) (n : Packet) (note : Z * Z) : Prop := holds n note.1 [note.2] /\ pk_sender n = rp_id r.

Definition part_fits (o : observation) : Prop :=
  match o with Sent bs _ => Forall is_byte bs /\ zlength bs < MTU - 100 | Notified _ _ => True end.

Lemma slot_found i r (p : Peer) : m_remotes p !! i = Some r -> slot i p = Ret (r, p).
Proof. intros H. unfold slot. now rewrite bind_get, H. Qed.

Lemma send_part now i st est bs a r r0 (p : Peer) : m_remotes p !! i = Some r -> m_remotes p !! 0%nat = Some r0 ->
  rel true st a -> a_bytes a = bs -> Forall is_byte bs -> zlength bs < MTU - 100 ->
  exists m, SendHandshakePart now i st est p = Ret (tt, at_slot 0 (set_outbox (outbox r0 ++ [m]) r0) (m_inbox p) p) /\ part_queued now r m (bs, est).
Proof.
  intros Hr H0 Hst Ha Hb Hl. unfold SendHandshakePart. rewrite (bind_ret _ _ _ _ _ (slot_found i r p Hr)).
  destruct (Packet_take_stream_holds CONNECT_ATTEMPT st a Hst) as (packet & st' & Ep & Hh & _). rewrite (bind_lift _ _ _ _ Ep). cbv beta iota.
  rewrite Ha in Hh. destruct (EnqueueOutOfBand_spec now packet CONNECT_ATTEMPT bs (addr r) (if est then rp_crypto r else None) r0 Hh) as (m & E & Em & Ec & _ & Hm);
    [split; [unfold is_byte, CONNECT_ATTEMPT; lia|done|done]|].
  exists m. split; [|split; [done|split; [done|done]]]. unfold Queue_OutOfBand. rewrite (on_slot_start 0 r0 p _ H0), E. reflexivity.
Qed.

Lemma complete_note i n cmd code h r (p : Peer) : m_remotes p !! i = Some r -> handshake r = Some h -> m_result h = result_code CR_OK ->
  holds n cmd [code] ->
  exists n', SendHandshakeCompleteNotification no_address i n p = Ret (tt, set_inbox (m_inbox p ++ [n']) p) /\ posted_note r n' (cmd, code).
Proof.
  intros Hr Hh Hok Hn. unfold SendHandshakeCompleteNotification. rewrite (bind_ret _ _ _ _ _ (slot_found i r p Hr)), Hh.
  rewrite (bind_lift _ _ _ _ eq_refl). cbv zeta. rewrite Hok, Z.eqb_refl, orb_true_r.
  assert (Hs : holds (SetSender (rp_id r) n) cmd [code]) by (destruct Hn; now split).
  destruct (Packet_copy_holds _ _ _ Hs) as (n' & Ec & Hc & Hsend); [unfold max_len; zlen|]. exists n'. split; [|split; [exact Hc|exact Hsend]].
  unfold SendLoopback, EnqueueLoopback. unfold mbind, st_bind, get. cbn. now rewrite Ec.
Qed.

(** The effects of a handshaker, run by the peer: its messages are queued in slot 0 for
    the address of the slot and its notifications go to the inbox. *)
Lemma effects_run now i es os h r r0 (p : Peer) : Forall2 observes es os -> i <> 0%nat -> m_remotes p !! i = Some r -> handshake r = Some h ->
  (notified_of os <> [] -> m_result h = result_code CR_OK) -> Forall part_fits os -> m_remotes p !! 0%nat = Some r0 ->
  exists ms ns, run_effects no_address now i es p = Ret (tt, at_slot 0 (set_outbox (outbox r0 ++ ms) r0) (m_inbox p ++ ns) p)
    /\ Forall2 (part_queued now r) ms (sent_of os) /\ Forall2 (posted_note r) ns (notified_of os).
Proof.
  intros Hes Hi. revert r0 p. induction Hes as [|e o es os Ho Hes IH]; intros r0 p Hr Hh Hn Hf H0.
  - exists [], []. rewrite !app_nil_r. split; [|split; constructor]. cbn [run_effects]. assert (Er : set_outbox (outbox r0) r0 = r0) by now destruct r0.
    now rewrite Er, at_slot_id.
  - apply Forall_cons_1 in Hf as [Ho' Hf]. destruct o as [bs est|cmd code]; cbn in Ho, Ho'.
    + destruct Ho as (st & a & -> & Hst & Ea). destruct (send_part now i st est bs a r r0 p Hr H0 Hst Ea (proj1 Ho') (proj2 Ho')) as (m & E & Hm).
      set (r1 := set_outbox _ r0) in E. destruct (IH r1 (at_slot 0 r1 (m_inbox p) p)) as (ms & ns & E' & Hms & Hns).
      * cbn. now rewrite list_lookup_insert_ne.
      * done.
      * exact Hn.
      * done.
      * cbn. now rewrite list_lookup_insert_eq by now apply lookup_lt_Some in H0.
      * exists (m :: ms), ns. split; [|split; [now constructor|done]]. cbn [run_effects]. rewrite (bind_ret _ _ _ _ _ E), E'. f_equal. f_equal.
        unfold at_slot, set_inbox, set_remotes, r1. cbn. now rewrite list_insert_insert_eq, <- app_assoc.
    + destruct Ho as (n & -> & Hn'). destruct (complete_note i n cmd code h r p Hr Hh (Hn ltac:(discriminate)) Hn') as (n' & E & Hp).
      destruct (IH r0 (set_inbox (m_inbox p ++ [n']) p)) as (ms & ns & E' & Hms & Hns); [done|done|intros _; apply Hn; discriminate|done|done|].
      exists ms, (n' :: ns). split; [|split; [done|now constructor]]. cbn [run_effects]. rewrite (bind_ret _ _ _ _ _ E), E'. f_equal. f_equal.
      unfold at_slot, set_inbox, set_remotes. cbn. now rewrite <- app_assoc.
Qed.

(** ** Looking slots up *)

(** A slot that alone satisfies a test is the one that is found. *)
Lemma unique_slot (test : RemotePeer -> bool) (p : Peer) i r : (1 <= i)%nat -> Z.of_nat i < m_remotesMax p -> m_remotes p !! i = Some r -> test r = true ->
  (forall j y, m_remotes p !! j = Some y -> j <> 0%nat -> test y = true -> j = i) -> find_slot test p = Some i.
Proof.
  intros Hi Hm Hr Ht Hu. destruct i as [|i]; [lia|]. unfold find_slot, numbered. rewrite (find_index_first _ _ i r); [done| |done|].
  - rewrite lookup_drop, lookup_take_lt by lia. exact Hr.
  - intros j y Hj Hy. rewrite lookup_drop in Hy. apply lookup_take_Some in Hy as [Hy _]. destruct (test y) eqn:Ey; [|done]. specialize (Hu _ y Hy ltac:(lia) Ey). lia.
Qed.

Lemma no_slot (test : RemotePeer -> bool) (p : Peer) : (forall j y, m_remotes p !! j = Some y -> j <> 0%nat -> test y = false) -> find_slot test p = None.
Proof.
  intros H. destruct (find_slot test p) as [i|] eqn:E; [|done]. destruct (found_slot _ _ _ E) as (Hi & r & Hr & Ht & _).
  rewrite (H i r Hr) in Ht by lia. discriminate.
Qed.

(** Nobody but slot [i], if anybody, has the peer ID [id]. *)
Record only (i : nat) (id : Z) (p : Peer) : Prop := {
  on_cached : m_remoteLookup p !! id = None \/ m_remoteLookup p !! id = Some i;
  on_slots : forall j r, m_remotes p !! j = Some r -> j <> i -> j <> 0%nat -> active r = true -> rp_id r <> id;
}.

Lemma only_search i id p : only i id p -> search_id id p = None \/ search_id id p = Some i.
Proof.
  intros [_ H]. unfold search_id. destruct (find_slot _ p) as [j|] eqn:E; [|now left]. right.
  destruct (found_slot _ _ _ E) as (Hj & r & Hr & Ht & _). apply andb_true_iff in Ht as [Ht1%Z.eqb_eq Ht2].
  destruct (decide (j = i)) as [->|Hne]; [done|]. exfalso. apply (H j r Hr Hne ltac:(lia) Ht2 Ht1).
Qed.

Lemma only_taken i id p : only i id p -> taken (settings_of i p) id = false.
Proof.
  intros H. cbn. unfold GetRemoteByID_const. destruct (on_cached _ _ _ H) as [->| ->].
  - destruct (only_search _ _ _ H) as [->| ->]; [done|]. now rewrite bool_decide_true.
  - now rewrite bool_decide_true.
Qed.

Lemma only_lookup i id p : only i id p -> exists o m, GetRemoteByID id p = Ret (o, set_lookup m p) /\ only i id (set_lookup m p).
Proof.
  intros H. unfold GetRemoteByID. rewrite bind_get. assert (Ep : set_lookup (m_remoteLookup p) p = p) by now destruct p.
  destruct (on_cached _ _ _ H) as [E|E]; rewrite E.
  - destruct (only_search _ _ _ H) as [Es|Es]; rewrite Es; [exists None, (m_remoteLookup p); now rewrite Ep|].
    exists (Some i), (<[id := i]> (m_remoteLookup p)). split; [done|]. split; [right; apply lookup_insert_eq|exact (on_slots _ _ _ H)].
  - exists (Some i), (m_remoteLookup p). now rewrite Ep.
Qed.

(** Slots 0 and [i] do not matter. *)
Lemma only_frame i id (p p' : Peer) : only i id p -> m_remoteLookup p' = m_remoteLookup p ->
  (forall j, j <> 0%nat -> j <> i -> m_remotes p' !! j = m_remotes p !! j) -> only i id p'.
Proof. intros [H1 H2] El Es. split; [now rewrite El|]. intros j r Hj Hi H0. rewrite (Es j H0 Hi) in Hj. eauto. Qed.

(** The ID in a message of the handshake. *)
Lemma looked_up_spec packet cmd id opcode body : or_left_first = true -> holds packet cmd (hs_header id ++ opcode :: body) ->
  Forall is_byte (opcode :: body) -> zlength body <= 65536 -> 0 <= id < 2 ^ 64 -> looked_up packet = Ret (Some id).
Proof.
  intros Hor Hp Hb Hl Hid. pose proof (zlength_nonneg body). unfold looked_up.
  assert (Hlen : zlength (hs_header id ++ opcode :: body) = 17 + zlength body) by (rewrite zlength_app, zlength_hs_header; zlen).
  destruct (GetStream_rel packet cmd _ Hp) as (in0 & E0 & H0); [intros E; rewrite E in Hlen; change (zlength (@nil Z)) with 0 in Hlen; lia| |unfold max_len; lia|].
  { apply Forall_app_bytes; [apply hs_header_bytes|done]. }
  rewrite E0. cbn [mbind outcome_bind]. unfold hs_header in H0. rewrite <- !app_assoc in H0.
  destruct (sim_rd_bytes false _ [] WIREFOX_MAGIC _ 7 (rd_cursor [] _) eq_refl in0 H0) as (in1 & E1 & H1). rewrite E1. cbn [mbind outcome_bind].
  rewrite bytes_of_map. cbn [mbind outcome_bind]. rewrite bool_decide_true by done. cbn [negb app] in *.
  destruct (sim_rd_byte false _ WIREFOX_MAGIC WIREFOX_PROTOCOL_VERSION _ (rd_cursor _ _) in1 H1) as (in2 & E2 & H2). rewrite E2. cbn [mbind outcome_bind].
  rewrite Z.eqb_refl. cbn [negb]. destruct (sim_rd_uint64 false _ _ id _ Hor (rd_cursor _ _) in2 H2) as (in3 & E3 & H3). rewrite E3. cbn [mbind outcome_bind].
  rewrite u64_small by (change (2 ^ 64) with 18446744073709551616 in Hid; lia). reflexivity.
Qed.

(** ** A slot whose handshaker is in a state of the abstract machine *)

Record shaking (i : nat) (A : AHS crypto) (r : RemotePeer) (p : Peer) : Prop := {
  sk_slot : m_remotes p !! i = Some r;
  sk_number : i <> 0%nat;
  sk_alive : ah_alive A = true;
  sk_state : exists h k, handshake r = Some h /\ rp_crypto r = Some k /\ p_layers p !! k = Some (ah_crypto A)
    /\ hrel (mkHState h (ah_crypto A) (rp_id r) true []) A;
}.

(** The effects have been taken care of. *)
Definition a_forget (A : AHS crypto) : AHS crypto :=
  mkAHS (ah_origin A) (ah_result A) (ah_last A) (ah_next A) (ah_attempts A) (ah_opcode A) (ah_auth A) (ah_crypto A) (ah_remote A) (ah_alive A) [].

(** What a step of the handshake of slot [i] leaves behind, from [p] to [p']. *)
Record shaken (now : Z) (i : nat) (A' : AHS crypto) (r r0 : RemotePeer) (p p' : Peer) : Prop := {
  sn_peer : exists h ms ns layers,
    let r' := set_handshake h (ah_remote A') r in
    p' = at_slot 0 (set_outbox (outbox r0 ++ ms) r0) (m_inbox p ++ ns) (at_slot i r' (m_inbox p) (set_layers layers (p_fresh p) p))
    /\ shaking i (a_forget A') r' p'
    /\ Forall2 (part_queued now r') ms (sent_of (ah_seen A')) /\ Forall2 (posted_note r') ns (notified_of (ah_seen A'));
}.

(** A call of the handshaker that ends well. *)
Lemma with_handshake_step now i m A A' r r0 p : shaking i A r p -> m_remotes p !! 0%nat = Some r0 -> hsim (m (settings_of i p)) A A' ->
  ah_alive A' = true -> (notified_of (ah_seen A') <> [] -> ah_result A' = result_code CR_OK) ->
  Forall part_fits (ah_seen A') -> exists p', with_handshake no_address now i m p = Ret (tt, p') /\ shaken now i A' r r0 p p'.
Proof.
  intros [Hr Hi Ha (h & k & Hh & Hk & Hl & HA)] H0 Hm Ha' Hn Hf. destruct (Hm _ HA) as (s & Es & Hs).
  set (r' := set_handshake (st_hs s) (ah_remote A') r).
  assert (Hlen : (i < length (m_remotes p))%nat) by now apply lookup_lt_Some in Hr.
  set (p1 := at_slot i r' (m_inbox p) (set_layers (<[k := ah_crypto A']> (p_layers p)) (p_fresh p) p)).
  assert (H01 : m_remotes p1 !! 0%nat = Some r0) by (cbn; now rewrite list_lookup_insert_ne).
  assert (Hr1 : m_remotes p1 !! i = Some r') by (cbn; now rewrite list_lookup_insert_eq).
  destruct (effects_run now i (st_effects s) (ah_seen A') (st_hs s) r' r0 p1 (hr_seen s A' Hs) Hi Hr1 eq_refl) as (ms & ns & E & Hms & Hns);
    [intros N; rewrite (hr_result s A' Hs); auto|done|done|].
  eexists. split.
  - unfold with_handshake. rewrite (bind_ret _ _ _ _ _ (slot_found i r p Hr)), Hh, (bind_lift _ _ _ _ eq_refl), bind_get, Hk, Hl.
    rewrite (bind_lift _ _ _ _ eq_refl), (bind_lift _ _ _ _ Es). cbv beta iota.
    unfold set_slot. rewrite !bind_modify. cbn [p_layers set_remotes p_fresh].
    rewrite (hr_remote s A' Hs), (hr_crypto s A' Hs). exact E.
  - split. exists (st_hs s), ms, ns, (<[k := ah_crypto A']> (p_layers p)). cbv zeta. split; [reflexivity|]. split; [|done]. split; [|done|exact Ha'|].
    + cbn. rewrite list_lookup_insert_ne by done. exact Hr1.
    + exists (st_hs s), k. split; [done|]. split; [exact Hk|]. split; [cbn; apply lookup_insert_eq|].
      destruct Hs. split; cbn; try done.
Qed.

(** Handling a message: the lookup of the sender, and the handshaker. *)
Lemma handle_step now entropy i packet A A' r r0 p id opcode body : or_left_first = true -> shaking i A r p -> m_remotes p !! 0%nat = Some r0 ->
  only i id p -> ah_result A = 0 -> holds packet CONNECT_ATTEMPT (hs_header id ++ opcode :: body) -> Forall is_byte (opcode :: body) ->
  zlength body <= 65536 -> 0 <= id < 2 ^ 64 -> hsim (Handshake_Handle (settings_of i p) now entropy packet) A A' ->
  ah_alive A' = true -> (notified_of (ah_seen A') <> [] -> ah_result A' = result_code CR_OK) ->
  Forall part_fits (ah_seen A') ->
  exists m p', handle_handshake no_address now entropy i packet p = Ret (tt, p') /\ only i id (set_lookup m p) /\ shaken now i A' r r0 (set_lookup m p) p'.
Proof.
  intros Hor Hs H0 Ho Hres Hh Hb Hl Hid Hsim Ha' Hn Hf. destruct (only_lookup _ _ _ Ho) as (o & m & El & Hom).
  assert (Hsm : shaking i A r (set_lookup m p)) by (destruct Hs; now split).
  destruct (with_handshake_step now i (fun _ => Handshake_Handle (settings_of i p) now entropy packet) A A' r r0 (set_lookup m p) Hsm H0 Hsim Ha' Hn Hf)
    as (p' & Ew & Hp'). exists m, p'. split; [|done].
  destruct Hs as [Hr _ _ (h & k & Hsh & _ & _ & HA)]. unfold handle_handshake. rewrite (bind_ret _ _ _ _ _ (slot_found i r p Hr)), Hsh.
  rewrite (bind_lift _ _ _ _ eq_refl), bind_get. cbv zeta. unfold IsDone. rewrite (hr_result _ _ HA : m_result h = ah_result A), Hres.
  change (negb (0 =? result_code IN_PROGRESS)) with false. cbv iota.
  erewrite bind_ret; [|rewrite (bind_lift _ _ _ _ (looked_up_spec packet _ id opcode body Hor Hh Hb Hl Hid)); rewrite (bind_ret _ _ _ _ _ El); reflexivity].
  exact Ew.
Qed.

(** ** Slot 0 *)

(** The messages that wait in slot 0, and room for [n] more bytes in its budgets. *)
Record mailbox (n : Z) (c : CongestionControl) (ms : list (OutgoingPacket RemoteAddress)) (p : Peer) : Prop := {
  mb_slot : exists r, m_remotes p !! 0%nat = Some r /\ outbox r = ms /\ congestion r = Some c /\ handshake r = None /\ rp_crypto r = None;
  mb_acks : m_acks c = [] /\ m_nacks c = [];
  mb_numbers : 0 <= m_bytesInFlight c /\ 0 <= m_nextDatagram c < 4294967296;
  mb_room : m_bytesInFlight c + n <= m_window c /\ m_bytesInFlight c + n <= MTU;
}.

Lemma mailbox_frame n c ms (p p' : Peer) : mailbox n c ms p -> m_remotes p' !! 0%nat = m_remotes p !! 0%nat -> mailbox n c ms p'.
Proof. intros [H1 H2 H3 H4] E. split; [now rewrite E|done..]. Qed.

Lemma mailbox_budget n c ms (p : Peer) : 0 <= n -> mailbox n c ms p -> n <= GetTransmissionBudget c.
Proof.
  intros Hn [_ _ [H0 _] [Hw HM]]. unfold GetTransmissionBudget, GetRetransmissionBudget. unfold MTU in *. rewrite u64_small by lia.
  destruct (Z.leb_spec (m_window c) (m_bytesInFlight c)); lia.
Qed.

(** The longest message of a handshake, and what it takes of the budgets. *)
Definition part_max : Z := GetKeyLength crypto + 32.
Definition part_size : Z := GetKeyLength crypto + GetOverhead crypto + 256.

Lemma part_length bs : zlength bs <= part_max ->
  zlength bs < MTU - 100 /\ zlength (wire_oob CONNECT_ATTEMPT bs) <= part_size /\ forall id, zlength (wire_oob_datagram id CONNECT_ATTEMPT bs) + GetOverhead crypto <= part_size.
Proof.
  intros H. unfold part_max, part_size, MTU in *. pose proof law_key_length. pose proof law_overhead. pose proof (zlength_nonneg bs) as Hz.
  pose proof (wire_oob_length CONNECT_ATTEMPT bs Hz). split; [lia|]. split; [lia|]. intros id. unfold wire_oob_datagram. rewrite zlength_app, zlength_data_header. lia.
Qed.

(** A message sent with [est] between the layers [l1] and [l2]: encrypted once both have
    session keys in use, and before that in clear. *)
Definition passes (est : bool) (l1 l2 : crypto) : Prop :=
  if est then enc = true /\ linked l1 l2 /\ GetCryptoEstablished l1 = true /\ GetCryptoEstablished l2 = true else GetCryptoEstablished l2 = false.

(** What the layer of the sender, if any, makes of a datagram. *)
Lemma sealed entropy est l1 l2 (layers : gmap Z crypto) k blob plain : passes est l1 l2 -> layers !! k = Some l1 -> rel true blob (at_end plain) ->
  zlength plain + 4096 <= max_len ->
  exists blob', protect entropy enc (match (if est then Some k else None) with Some k => layers !! k | None => None end) blob = Ret (Some blob')
    /\ exists x, rel true blob' x /\ unseals l2 (a_bytes x) plain /\ zlength (a_bytes x) <= zlength plain + GetOverhead crypto.
Proof.
  intros Hp Hl Hb Hm. pose proof law_overhead as Hov. unfold passes, unseals in *. destruct est.
  - destruct Hp as (He & Hli & E1 & E2). destruct (law_encrypt l1 l2 entropy true blob (at_end plain) Hli Hb Hm) as (st & bytes & E & Hst & Hlen & Hdec).
    exists st. rewrite Hl. cbn [protect]. rewrite He, E1. cbn [andb]. rewrite E. cbn. rewrite (law_no_error l1 l2 Hli). split; [done|].
    exists (cursor [] bytes). split; [exact Hst|]. rewrite E2. split; [|cbn in *; lia].
    split; [exact (law_no_error l2 l1 (law_linked_sym _ _ Hli))|exact Hdec].
  - exists blob. split; [done|]. exists (at_end plain). rewrite Hp. split; [done|]. split; [done|cbn; lia].
Qed.

(** The write cycle sends the message; there is room for the next one. *)
Lemma flush n c now t entropy r m bs est l1 l2 k (p : Peer) : mailbox (n + part_size) c [m] p -> 0 <= n -> IsWritePending (m_masterSocket p) = false ->
  m_crypto_enabled p = enc -> rp_crypto r = Some k -> p_layers p !! k = Some l1 -> passes est l1 l2 ->
  part_queued now r m (bs, est) -> now <= t -> zlength bs <= part_max ->
  exists r0 d x c', let p1 := set_socket (BeginWrite (addr r) d (m_masterSocket p)) (at_slot 0 r0 (m_inbox p) p) in
    write_cycle no_address t entropy 0 p = Ret (tt, p1) /\ rel true d x /\ unseals l2 (a_bytes x) (wire_oob_datagram (m_nextDatagram c) CONNECT_ATTEMPT bs)
    /\ mailbox n c' [] p1.
Proof.
  intros Hm Hn Hfree He Hk Hl Hpass (Ea & Ec & Hw) Ht Hlen. cbn [fst snd] in *. pose proof Hm as [(r0 & Hr0 & Hb & Hc & Hh & Hk0) Hacks [Hf Hid] Hroom].
  destruct (part_length bs Hlen) as (L0 & L1 & L2). pose proof law_key_length. pose proof law_overhead.
  assert (Hs : 0 <= part_size <= 5376) by (unfold part_size; lia).
  assert (Hos : oob_slot t c r0).
  { split; [exact Hc| | |exact Hh|exact Hk0]; [lia|]. unfold GetNeedsToSendAcks. destruct Hacks as [-> ->]. now rewrite !bool_decide_true. }
  set (wire := wire_oob_datagram (m_nextDatagram c) CONNECT_ATTEMPT bs). pose proof (zlength_nonneg wire) as Hw0. pose proof (L2 (m_nextDatagram c)) as Hlw. fold wire in Hlw.
  destruct (oob_write_with (fun d => exists x, rel true d x /\ unseals l2 (a_bytes x) wire /\ zlength (a_bytes x) <= zlength wire + GetOverhead crypto)
    t entropy (m_crypto_enabled p) (p_layers p) c CONNECT_ATTEMPT bs m [] r0 Hos Hb ltac:(constructor) (Hw t Ht)) as (d & r1 & E & (x & Hx & Hu & Hxl) & Hb1 & Hh1 & Hk1 & id & Hc1).
  - intros blob Hblob. rewrite He, Ec, Hk. apply (sealed entropy est l1 l2); try done. unfold max_len. lia.
  - exact L0.
  - pose proof (mailbox_budget (n + part_size) c [m] p ltac:(lia) Hm). lia.
  - exists r1, d, x. eexists. cbv zeta. split; [|split; [exact Hx|split; [exact Hu|]]].
    + unfold write_cycle. rewrite bind_get, Hfree. erewrite bind_ret; [|rewrite (on_slot_start 0 r0 p _ Hr0), E; reflexivity]. rewrite Ea. reflexivity.
    + pose proof (rf_len _ _ (proj1 Hx)) as El. pose proof (zlength_nonneg (a_bytes x)). unfold MTU in *. split.
      * exists r1. split; [cbn; now rewrite list_lookup_insert_eq by now apply lookup_lt_Some in Hr0|]. split; [exact Hb1|]. split; [exact Hc1|done].
      * exact Hacks.
      * cbn. rewrite u64_small by lia. split; [lia|apply u32_range].
      * cbn. rewrite u64_small by lia. unfold MTU. lia.
Qed.

(** ** A party to a connection *)

(** What does not change: everything but slots 0 and [i], the inbox, the cache, the
    layers and the socket. *)
Record beside (i : nat) (p p' : Peer) : Prop := {
  be_slots : forall j, j <> 0%nat -> j <> i -> m_remotes p' !! j = m_remotes p !! j;
  be_id : m_id p' = m_id p;
  be_max : m_remotesMax p' = m_remotesMax p;
  be_enabled : m_crypto_enabled p' = m_crypto_enabled p;
}.

#[local] Instance beside_refl i : Reflexive (beside i).
Proof. intros p. now split. Qed.
#[local] Instance beside_trans i : Transitive (beside i).
Proof. intros p p1 p2 [H1 H2 H3 H4] [H5 H6 H7 H8]. split; [intros j J0 Ji; rewrite H5 by done; now apply H1|congruence..]. Qed.

Lemma beside_slot0 i r inbox p : beside i p (at_slot 0 r inbox p).
Proof. split; cbn; try done. intros j H0 _. now rewrite list_lookup_insert_ne. Qed.
Lemma beside_slot i r inbox p : beside i p (at_slot i r inbox p).
Proof. split; cbn; try done. intros j _ Hi. now rewrite list_lookup_insert_ne. Qed.
Lemma beside_socket i s p : beside i p (set_socket s p).
Proof. now split. Qed.
Lemma beside_layers i m n p : beside i p (set_layers m n p).
Proof. now split. Qed.
Lemma beside_lookup i m p : beside i p (set_lookup m p).
Proof. now split. Qed.

(** A slot that is in the middle of a handshake with the peer at the address [there]. *)
Record party (i : nat) (there : RemoteAddress) (id : Z) (A : AHS crypto) (r : RemotePeer) (p : Peer) : Prop := {
  pt_shaking : shaking i A r p;
  pt_range : Z.of_nat i < m_remotesMax p;
  pt_address : addr r = there;
  pt_active : active r = true;
  pt_alone : forall j r', m_remotes p !! j = Some r' -> j <> i -> j <> 0%nat -> active r' = true -> addr r' <> there;
  pt_only : only i id p;
  pt_enabled : m_crypto_enabled p = enc;
  pt_congestion : is_Some (congestion r);
}.

Lemma party_found i there id A r p : party i there id A r p -> GetRemoteByAddress there p = Some i.
Proof.
  intros H. destruct (pt_shaking _ _ _ _ _ _ H) as [Hr Hi _ _]. apply (unique_slot _ p i r); [lia|apply H|done| |].
  - rewrite (pt_active _ _ _ _ _ _ H). apply bool_decide_true. apply (pt_address _ _ _ _ _ _ H).
  - intros j y Hj H0 [Ha Hb%bool_decide_eq_true]%andb_true_iff. destruct (decide (j = i)) as [->|Hne]; [done|].
    destruct (pt_alone _ _ _ _ _ _ H j y Hj Hne H0 Ha Hb).
Qed.

(** Other changes do not concern a party. *)
Lemma party_frame i there id A r p p' : party i there id A r p -> beside i p p' -> m_remotes p' !! i = Some r ->
  p_layers p' = p_layers p -> only i id p' -> party i there id A r p'.
Proof.
  intros [[Hr Hi Ha (h & k & Hh & Hk & Hl & HA)] Hm Had Hac Hal _ Hpl Hcg] [B1 B2 B3 B4] Hr' Hly Ho. split; try done.
  - split; [done|done|done|]. exists h, k. now rewrite Hly.
  - now rewrite B3.
  - intros j r' Hj Hji H0. rewrite (B1 j H0 Hji) in Hj. eauto.
  - now rewrite B4.
Qed.

(** What the handling of a message leaves behind. *)
Record stepped (now : Z) (i : nat) (there : RemoteAddress) (id : Z) (A' : AHS crypto) (n : Z) (c : CongestionControl)
    (ms : list (OutgoingPacket RemoteAddress)) (r' : RemotePeer) (p p' : Peer) : Prop := {
  st_party : party i there id (a_forget A') r' p';
  st_remote : rp_id r' = ah_remote A';
  st_beside : beside i p p';
  st_socket : m_masterSocket p' = m_masterSocket p;
  st_sent : exists queued, mailbox n c (ms ++ queued) p' /\ Forall2 (part_queued now r') queued (sent_of (ah_seen A'));
  st_noted : exists ns, m_inbox p' = m_inbox p ++ ns /\ Forall2 (posted_note r') ns (notified_of (ah_seen A'));
}.

(** The step is one that succeeds. *)
Record goes_on (A' : AHS crypto) : Prop := {
  go_alive : ah_alive A' = true;
  go_result : notified_of (ah_seen A') <> [] -> ah_result A' = result_code CR_OK;
  go_fits : Forall part_fits (ah_seen A');
}.

Lemma shaken_stepped now i there id A A' r r0 n c ms p p' : party i there id A r p -> m_remotes p !! 0%nat = Some r0 -> mailbox n c ms p ->
  goes_on A' -> shaken now i A' r r0 p p' -> exists r', stepped now i there id A' n c ms r' p p'.
Proof.
  intros Hp H0 Hm Hg [(h & queued & ns & layers & Ep & Hs & Hq & Hn)]. set (r' := set_handshake h (ah_remote A') r) in *. exists r'.
  pose proof (sk_number _ _ _ _ (pt_shaking _ _ _ _ _ _ Hp)) as Hi.
  assert (Hb : beside i p p') by (subst p'; etrans; [apply (beside_layers i layers (p_fresh p))|]; etrans; [apply (beside_slot i r')|apply beside_slot0]).
  split; [|done|exact Hb|now subst p'| |exists ns; split; [now subst p'|exact Hn]].
  - destruct Hp. split; try done.
    + now rewrite (be_max _ _ _ Hb).
    + intros j y Hj Hji Hj0. rewrite (be_slots _ _ _ Hb) in Hj by done. eauto.
    + apply (only_frame i id p); [done|now subst p'|apply Hb].
    + now rewrite (be_enabled _ _ _ Hb).
  - exists queued. split; [|exact Hq]. destruct Hm as [(r1 & Hr1 & Hb1 & Hc1 & Hh1 & Hk1) M2 M3 M4]. assert (r1 = r0) as -> by congruence.
    split; [|done|done|done]. eexists. split; [subst p'; cbn; rewrite list_lookup_insert_eq; [reflexivity|]|].
    + rewrite length_insert. now apply lookup_lt_Some in H0.
    + cbn. now rewrite Hb1.
Qed.

Lemma party_handles now entropy i there id A A' r n c ms p packet opcode body : or_left_first = true -> party i there id A r p -> mailbox n c ms p ->
  ah_result A = 0 -> holds packet CONNECT_ATTEMPT (hs_header id ++ opcode :: body) -> Forall is_byte (opcode :: body) -> zlength body <= 65536 ->
  0 <= id < 2 ^ 64 ->
  (forall cfg, my_id cfg = m_id p -> encryption_enabled cfg = enc -> taken cfg id = false -> hsim (Handshake_Handle cfg now entropy packet) A A') ->
  goes_on A' -> exists r' p', handle_handshake no_address now entropy i packet p = Ret (tt, p') /\ stepped now i there id A' n c ms r' p p'.
Proof.
  intros Hor Hp Hm Hres Hh Hb Hl Hid Hsim Hg. pose proof Hm as [(r0 & Hr0 & _) _ _ _].
  destruct (handle_step now entropy i packet A A' r r0 p id opcode body Hor (pt_shaking _ _ _ _ _ _ Hp) Hr0 (pt_only _ _ _ _ _ _ Hp) Hres Hh Hb Hl Hid)
    as (m & p' & E & Ho & Hs); [|apply Hg|apply Hg|apply Hg|].
  { apply Hsim; [done|apply (pt_enabled _ _ _ _ _ _ Hp)|apply only_taken, (pt_only _ _ _ _ _ _ Hp)]. }
  assert (Hp1 : party i there id A r (set_lookup m p)).
  { eapply party_frame; [exact Hp|apply beside_lookup|apply (sk_slot _ _ _ _ (pt_shaking _ _ _ _ _ _ Hp))|done|exact Ho]. }
  destruct (shaken_stepped now i there id A A' r r0 n c ms (set_lookup m p) p' Hp1 Hr0 (mailbox_frame _ _ _ p (set_lookup m p) Hm eq_refl) Hg Hs) as (r' & [S1 S2 S3 S4 S5 S6]).
  exists r', p'. split; [exact E|]. split; [exact S1|exact S2|transitivity (set_lookup m p); [apply beside_lookup|exact S3]|exact S4|exact S5|exact S6].
Qed.

(** ** Messages of the handshake on the wire *)

(** The bytes of a message: who sends it, what it is, and what it carries. *)
Definition hs_part (id opcode : Z) (body : list Z) : list Z := hs_header id ++ opcode :: body.

Lemma hs_part_length id opcode body : zlength (hs_part id opcode body) = 17 + zlength body.
Proof. unfold hs_part. rewrite zlength_app, zlength_hs_header. zlen. Qed.

Lemma hs_part_ok id opcode body : Forall is_byte (opcode :: body) -> zlength (hs_part id opcode body) <= part_max -> oob_ok CONNECT_ATTEMPT (hs_part id opcode body).
Proof.
  intros Hb Hl. split; [unfold is_byte, CONNECT_ATTEMPT; lia| |apply (part_length _ Hl)]. apply Forall_app_bytes; [apply hs_header_bytes|done].
Qed.

(** A message out of band from a sender that has a slot. *)
Lemma oob_receive_known asio now entropy sender (p : Peer) i r k l id cmd payload wire :
  GetRemoteByAddress sender p = Some i -> m_remotes p !! i = Some r -> rp_crypto r = Some k -> p_layers p !! k = Some l ->
  unseals l wire (wire_oob_datagram id cmd payload) -> 0 <= id < 4294967296 -> oob_ok cmd payload -> Forall is_byte wire -> zlength wire <= max_len ->
  exists w s st, rel w s (cursor (wire_datagram_header (mkDH true false [] [] id (zlength (wire_oob cmd payload)))) (wire_oob cmd payload))
    /\ OnReadFinished no_address make_layer asio now entropy false sender (map Some wire) p
       = OnUnconnectedMessage no_address make_layer asio now entropy sender s (at_slot i (set_stats st r) (m_inbox p) p).
Proof.
  intros Hf Hr Hk Hl Hu Hid [Hc Hb Hlen] Hbytes Hmax. unfold MTU in Hlen. pose proof (zlength_nonneg payload) as Hp0.
  pose proof (wire_oob_length cmd payload Hp0) as Hw. set (h := mkDH true false [] [] id (zlength (wire_oob cmd payload))).
  destruct (BinaryStream_wrap_rel wire [] READONLY Hbytes Hmax) as (s0 & E0 & H0). rewrite app_nil_r in E0.
  assert (Hh : dh_ok h) by (split; unfold h; cbn [datagramID dataLength dh_acks dh_nacks]; [done|lia|constructor|constructor]).
  set (st1 := Stats_Add DATAGRAMS_RECEIVED 1 (stats r)). set (st2 := Stats_Add BYTES_RECEIVED (zlength (map Some wire)) st1).
  pose proof (lookup_lt_Some _ _ _ Hr) as Hi.
  destruct (decrypt_at p i (set_stats st2 r) (m_inbox p) k l wire (wire_oob_datagram id cmd payload) false s0 Hi Hk Hl Hu H0) as (w & s1 & E1 & H1).
  destruct (sim_DatagramHeader_Deserialize w DatagramHeader_default [] h (wire_oob cmd payload) Hh) with (s := s1) as (s2 & E2 & H2);
    [done|done|intros _; unfold h; cbn [dataLength]; lia|exact H1|]. cbn [app] in H2.
  exists w, s2, st2. split; [exact H2|]. unfold OnReadFinished. rewrite bind_get, Hf. cbv zeta iota. rewrite zlength_map, (bind_lift _ _ _ _ E0).
  erewrite bind_ret; [|unfold add_stat; rewrite (on_slot_start i r p _ Hr); reflexivity].
  erewrite bind_ret; [|unfold add_stat; rewrite on_slot_at by done; cbn [mbind outcome_bind mret outcome_ret stats set_stats]; reflexivity].
  fold st1. rewrite <- (zlength_map Some wire). fold st2. change (set_stats st2 (set_stats st1 r)) with (set_stats st2 r).
  rewrite (bind_ret _ _ _ _ _ E1). cbv beta iota. rewrite (bind_lift _ _ _ _ E2). cbv beta iota. cbn [negb].
  assert (Hpos : m_position s2 = 7) by (rewrite (rf_pos _ _ (proj1 H2)); reflexivity). rewrite Hpos. unfold h, MTU. cbn [flag_data dataLength dh_merge flag_link].
  rewrite (proj2 (Z.ltb_ge _ _)) by lia. cbn [andb negb]. reflexivity.
Qed.

(** The message is taken apart. *)
Lemma connect_attempt asio now entropy sender (p : Peer) w s pre payload : rel w s (cursor pre (wire_oob CONNECT_ATTEMPT payload)) ->
  oob_ok CONNECT_ATTEMPT payload -> payload <> [] ->
  exists packet, holds packet CONNECT_ATTEMPT payload
    /\ OnUnconnectedMessage no_address make_layer asio now entropy sender s p
       = match GetRemoteByAddress sender p with
         | None => OnNewIncomingPeer no_address make_layer now entropy sender packet p
         | Some i => (r ← slot i; h ← lift (match handshake r with Some h => Ret h | None => Fail NullPointer end);
                      if IsDone h then mret tt else handle_handshake no_address now entropy i packet) p
         end.
Proof.
  intros Hs Hok Hne. destruct (oob_parse w s pre CONNECT_ATTEMPT payload Hs Hok) as (s1 & s2 & E1 & E2).
  exists (mkPacket 0 CONNECT_ATTEMPT (zlength payload) (payload_ptr payload)). split; [apply holds_exact|].
  unfold OnUnconnectedMessage. rewrite (bind_lift _ _ _ _ E1). cbv beta iota. cbn [negb orb flag_segment ph_merge oob_header ph_length].
  rewrite (bind_lift _ _ _ _ E2). cbv beta iota. cbn [pk_command]. change (CONNECT_ATTEMPT =? PING) with false. rewrite Z.eqb_refl, bind_get.
  now destruct (GetRemoteByAddress sender p).
Qed.

(** A message of the handshake that reaches the party it is for. *)
Lemma party_receives asio now entropy i there id A A' r n c ms p dgram opcode body wire : or_left_first = true -> party i there id A r p -> mailbox n c ms p ->
  ah_result A = 0 -> Forall is_byte (opcode :: body) -> zlength (hs_part id opcode body) <= part_max -> 0 <= id < 2 ^ 64 -> 0 <= dgram < 4294967296 ->
  unseals (ah_crypto A) wire (wire_oob_datagram dgram CONNECT_ATTEMPT (hs_part id opcode body)) -> Forall is_byte wire -> zlength wire <= max_len ->
  (forall cfg packet, my_id cfg = m_id p -> encryption_enabled cfg = enc -> taken cfg id = false ->
     holds packet CONNECT_ATTEMPT (hs_part id opcode body) -> hsim (Handshake_Handle cfg now entropy packet) A A') -> goes_on A' ->
  exists r' p', OnReadFinished no_address make_layer asio now entropy false there (map Some wire) p = Ret (tt, p') /\ stepped now i there id A' n c ms r' p p'.
Proof.
  intros Hor Hp Hm Hres Hb Hl Hid Hd Hu Hw Hwl Hsim Hg. pose proof (hs_part_ok id opcode body Hb Hl) as Hok.
  pose proof (pt_shaking _ _ _ _ _ _ Hp) as [Hr Hi _ (h & k & Hh & Hk & Hly & HA)].
  destruct (oob_receive_known asio now entropy there p i r k (ah_crypto A) dgram CONNECT_ATTEMPT (hs_part id opcode body) wire (party_found _ _ _ _ _ _ Hp) Hr Hk Hly
    Hu Hd Hok Hw Hwl) as (w & s & st & Hs & E).
  set (r1 := set_stats st r) in *. set (p1 := at_slot i r1 (m_inbox p) p) in *.
  assert (Hr1 : m_remotes p1 !! i = Some r1) by (cbn; now rewrite list_lookup_insert_eq by now apply lookup_lt_Some in Hr).
  assert (Hp1 : party i there id A r1 p1).
  { destruct Hp. split; try done.
    - split; [done|done|apply pt_shaking0|]. exists h, k. done.
    - intros j y Hj Hji Hj0. cbn in Hj. rewrite list_lookup_insert_ne in Hj by done. eauto.
    - apply (only_frame i id p); [done|done|]. intros j _ Hji. cbn. now rewrite list_lookup_insert_ne. }
  destruct (connect_attempt asio now entropy there p1 w s _ _ Hs Hok) as (packet & Hh' & E').
  { intros N. pose proof (hs_part_length id opcode body) as L. rewrite N in L. change (zlength (@nil Z)) with 0 in L. pose proof (zlength_nonneg body). lia. }
  rewrite (party_found _ _ _ _ _ _ Hp1), (bind_ret _ _ _ _ _ (slot_found i r1 p1 Hr1)) in E'. change (handshake r1) with (handshake r) in E'. rewrite Hh in E'.
  rewrite (bind_lift _ _ _ _ eq_refl) in E'. unfold IsDone in E'. rewrite (hr_result _ _ HA : m_result h = ah_result A), Hres in E'.
  change (negb (0 =? result_code IN_PROGRESS)) with false in E'. cbv iota in E'.
  destruct (party_handles now entropy i there id A A' r1 n c ms p1 packet opcode body Hor Hp1) as (r' & p' & Eh & [S1 S2 S3 S4 S5 S6]); try done.
  - apply (mailbox_frame _ _ _ p); [done|]. cbn. now rewrite list_lookup_insert_ne.
  - rewrite hs_part_length in Hl. unfold part_max in Hl. pose proof law_key_length. lia.
  - intros cfg H1 H2 H3. now apply Hsim.
  - exists r', p'. split; [now rewrite E, E'|]. split; try done. transitivity p1; [apply beside_slot|exact S3].
Qed.

(** ** Before the connection *)

(** Slot [i] is free for a connection with the peer [id] at the address [there], which
    is not connected. *)
Record vacant (entropy : Z) (i : nat) (there : RemoteAddress) (id : Z) (l : crypto) (p : Peer) : Prop := {
  vc_slot : m_remotes p !! i = Some (RemotePeer_new no_address);
  vc_number : i <> 0%nat /\ Z.of_nat i < m_remotesMax p;
  vc_address : forall j r, m_remotes p !! j = Some r -> j <> 0%nat -> active r = true -> addr r <> there;
  vc_cached : m_remoteLookup p !! id = None;
  vc_id : forall j r, m_remotes p !! j = Some r -> j <> 0%nat -> active r = true -> rp_id r <> id;
  vc_enabled : m_crypto_enabled p = enc;
  vc_layer : exists c, make_layer entropy = Ret c /\ SetLocalIdentity (m_crypto_identity p) c = l /\ GetCryptoEstablished l = false;
}.

Lemma vacant_unknown entropy i there id l p : vacant entropy i there id l p -> GetRemoteByAddress there p = None.
Proof.
  intros H. apply no_slot. intros j y Hj H0. destruct (active y) eqn:Ha; [|done]. apply bool_decide_false. exact (vc_address _ _ _ _ _ _ H j y Hj H0 Ha).
Qed.

Lemma vacant_clear entropy i there id l p : vacant entropy i there id l p -> GetCryptoEstablished l = false.
Proof. intros [_ _ _ _ _ _ (c & _ & _ & H)]. exact H. Qed.

(** The slot after Setup, and once it has an address. *)
Definition reserved_slot (now handle : Z) (h : Handshaker) : RemotePeer :=
  mkRemote ∅ no_address [] [] false (Some handle) (Some h) (Some (CongestionControl_new now)) (Some ReceiptTracker_new) ∅ PeerStats_new 0 0 true false.

Definition with_layer (l : crypto) (p : Peer) : Peer := set_layers (<[p_fresh p := l]> (p_layers p)) (p_fresh p + 1) p.

Lemma setup_vacant entropy i there id l p now origin : vacant entropy i there id l p -> origin <> ORIGIN_INVALID ->
  exists h, Handshaker_new enc origin = Ret h
    /\ setup_slot make_layer now entropy i origin p = Ret (tt, with_layer l (at_slot i (reserved_slot now (p_fresh p) h) (m_inbox p) p)).
Proof.
  intros [Hr _ _ _ _ Hpl (c & Ec & Hc & _)] Ho. destruct (Handshaker_new enc origin) as [h|f] eqn:Eh.
  2:{ unfold Handshaker_new in Eh. destruct (BinaryStream_new_rel 0) as (s & Es & _); [unfold max_len; lia|]. now rewrite Es in Eh. }
  exists h. split; [done|]. unfold setup_slot. rewrite (bind_ret _ _ _ _ _ (slot_found i _ p Hr)), bind_get.
  erewrite bind_lift; [|unfold Setup; rewrite bool_decide_false by done; rewrite Ec, Hpl; cbn [mbind outcome_bind]; rewrite Eh; reflexivity].
  cbv beta iota. unfold set_slot. rewrite bind_modify. rewrite Hc. reflexivity.
Qed.

(** A slot that was set up, with an address, is ready for the handshake. *)
Lemma setup_shaking i l p origin h : (i < length (m_remotes p))%nat -> i <> 0%nat -> Handshaker_new enc origin = Ret h -> forall r',
  handshake r' = Some h -> rp_crypto r' = Some (p_fresh p) -> rp_id r' = 0 ->
  shaking i (a_fresh enc origin l) r' (with_layer l (at_slot i r' (m_inbox p) p)).
Proof.
  intros Hi H0 Eh r' Hh Hk Hid. split; [cbn; now rewrite list_lookup_insert_eq|done|done|]. exists h, (p_fresh p). split; [done|]. split; [done|].
  split; [cbn; apply lookup_insert_eq|]. rewrite Hid. now apply fresh_rel.
Qed.

(** The same with the parts that a party needs beyond that. *)
Lemma setup_party entropy i there id l p now h origin : vacant entropy i there id l p -> Handshaker_new enc origin = Ret h ->
  let r' := set_endpoint there true (reserved_slot now (p_fresh p) h) in
  party i there id (a_fresh enc origin l) r' (with_layer l (at_slot i r' (m_inbox p) p)).
Proof.
  intros [Hr [Hi Hm] Had Hca Hid Hpl _] Eh r'. pose proof (lookup_lt_Some _ _ _ Hr) as Hlen. split; try done.
  - now apply (setup_shaking i l p origin h).
  - intros j y Hj Hji Hj0. cbn in Hj. rewrite list_lookup_insert_ne in Hj by done. eauto.
  - split; [now left|]. intros j y Hj Hji Hj0. cbn in Hj. rewrite list_lookup_insert_ne in Hj by done. eauto.
Qed.

(** ** The messages of a handshake *)

Lemma hs_bytes id opcode body : is_byte opcode -> Forall is_byte body -> Forall is_byte (hs_part id opcode body).
Proof. intros Ho Hb. apply Forall_app_bytes; [apply hs_header_bytes|now constructor]. Qed.

Lemma flag_byte b : Forall is_byte (hs_flag b).
Proof. constructor; [|constructor]. destruct b; [change (pack [true]) with 128|change (pack [false]) with 0]; unfold is_byte; lia. Qed.

Lemma fits_part id opcode body est : is_byte opcode -> Forall is_byte body -> zlength body <= GetKeyLength crypto + 15 -> part_fits (Sent (hs_part id opcode body) est).
Proof.
  intros Ho Hb Hl. split; [now apply hs_bytes|]. apply (part_length (hs_part id opcode body)). rewrite hs_part_length. unfold part_max. lia.
Qed.

Lemma small_part id opcode body : zlength body <= GetKeyLength crypto + 15 -> zlength (hs_part id opcode body) <= part_max.
Proof. intros H. rewrite hs_part_length. unfold part_max. lia. Qed.

Lemma flag_small b : zlength (hs_flag b) <= GetKeyLength crypto + 15.
Proof. pose proof law_key_length. change (zlength (hs_flag b)) with 1. lia. Qed.

(** The first two are the same with and without encryption. *)
Definition client_waits (now me : Z) (l : crypto) : AHS crypto :=
  a_reply now (hs_part me INITIAL_CLIENT (hs_flag enc)) false (a_set_opcode INITIAL_SERVER (a_fresh enc SELF l)).
Definition server_waits (now me id : Z) (l : crypto) : AHS crypto :=
  a_reply now (hs_part me INITIAL_SERVER (hs_flag enc)) false
    (a_set_opcode (if enc then AUTH_MSG else UNENCRYPTED_ACK) (a_set_remote id (a_fresh enc REMOTE l))).

Lemma part_simulates cfg now entropy packet id opcode body A A' : or_left_first = true -> ah_alive A = true ->
  holds packet CONNECT_ATTEMPT (hs_part id opcode body) -> is_byte opcode -> Forall is_byte body -> zlength body <= 65536 -> 0 <= id < 2 ^ 64 ->
  a_receive cfg now WIREFOX_MAGIC WIREFOX_PROTOCOL_VERSION id opcode body A = Some A' -> hsim (Handshake_Handle cfg now entropy packet) A A'.
Proof.
  intros Hor Ha Hh Ho Hb Hl Hid E. apply (hsim_receive cfg now entropy packet CONNECT_ATTEMPT WIREFOX_MAGIC WIREFOX_PROTOCOL_VERSION id opcode body); try done.
  exact (hs_bytes id opcode body Ho Hb).
Qed.

Lemma server_answers cfg now id l : encryption_enabled cfg = enc -> taken cfg id = false ->
  a_receive cfg now WIREFOX_MAGIC WIREFOX_PROTOCOL_VERSION id INITIAL_CLIENT (hs_flag enc) (a_fresh enc REMOTE l) = Some (server_waits now (my_id cfg) id l).
Proof. intros He Ht. unfold a_receive. rewrite Ht. cbn. rewrite He. unfold server_waits. now destruct enc. Qed.

Lemma server_waits_on now me id l : goes_on (server_waits now me id l).
Proof. split; try done. cbn. constructor; [|constructor]. apply fits_part; [unfold is_byte, INITIAL_SERVER; lia|apply flag_byte|apply flag_small]. Qed.
Lemma client_waits_on now me l : goes_on (client_waits now me l).
Proof. split; try done. cbn. constructor; [|constructor]. apply fits_part; [unfold is_byte, INITIAL_CLIENT; lia|apply flag_byte|apply flag_small]. Qed.

(** The server is contacted by a peer it does not know. *)
Lemma server_contacted asio now entropy i there id l n c p dgram : or_left_first = true -> vacant entropy i there id l p ->
  GetNextAvailableIncomingSlot p = Some i -> mailbox n c [] p -> 0 <= dgram < 4294967296 -> 0 <= id < 2 ^ 64 ->
  let part := hs_part id INITIAL_CLIENT (hs_flag enc) in Forall is_byte (wire_oob_datagram dgram CONNECT_ATTEMPT part) ->
  exists r' p', OnReadFinished no_address make_layer asio now entropy false there (map Some (wire_oob_datagram dgram CONNECT_ATTEMPT part)) p = Ret (tt, p')
    /\ stepped now i there id (server_waits now (m_id p) id l) n c [] r' p p'.
Proof.
  intros Hor Hv Hslot Hm Hd Hid part Hw. assert (Hop : is_byte INITIAL_CLIENT) by (unfold is_byte, INITIAL_CLIENT; lia).
  assert (Hok : oob_ok CONNECT_ATTEMPT part) by (apply hs_part_ok; [constructor; [done|apply flag_byte]|apply small_part, flag_small]).
  destruct (oob_receive no_address make_layer asio now entropy there p dgram CONNECT_ATTEMPT part (vacant_unknown _ _ _ _ _ _ Hv) Hd Hok Hw) as (w & s & Hs & E).
  destruct (connect_attempt asio now entropy there p w s _ _ Hs Hok) as (packet & Hh & E'); [done|]. rewrite (vacant_unknown _ _ _ _ _ _ Hv) in E'.
  destruct (setup_vacant entropy i there id l p now REMOTE Hv ltac:(done)) as (h & Eh & Es).
  pose proof (setup_party entropy i there id l p now h REMOTE Hv Eh) as Hp. cbv zeta in Hp. set (r1 := set_endpoint there true _) in Hp.
  set (p1 := with_layer l (at_slot i r1 (m_inbox p) p)) in *. destruct (vc_number _ _ _ _ _ _ Hv) as [Hi _].
  pose proof (lookup_lt_Some _ _ _ (vc_slot _ _ _ _ _ _ Hv)) as Hlen.
  destruct (party_handles now entropy i there id (a_fresh enc REMOTE l) (server_waits now (m_id p) id l) r1 n c [] p1 packet INITIAL_CLIENT (hs_flag enc) Hor Hp)
    as (r' & p' & Eh' & [S1 S2 S3 S4 S5 S6]); try done.
  - apply (mailbox_frame _ _ _ p); [done|]. cbn. now rewrite list_lookup_insert_ne.
  - constructor; [done|apply flag_byte].
  - intros cfg H1 H2 H3. apply (part_simulates cfg now entropy packet id INITIAL_CLIENT (hs_flag enc)); try done; [apply flag_byte|].
    rewrite (server_answers cfg now id l H2 H3), H1. reflexivity.
  - apply server_waits_on.
  - exists r', p'. split.
    + rewrite E, E'. unfold OnNewIncomingPeer. rewrite bind_get, Hslot, (bind_ret _ _ _ _ _ Es).
      erewrite bind_ret; [|apply slot_found; cbn; now rewrite list_lookup_insert_eq]. unfold set_slot. rewrite bind_modify.
      match goal with |- handle_handshake _ _ _ _ _ ?q = _ => replace q with p1; [exact Eh'|] end.
      unfold p1. cbn [m_remotes with_layer set_layers at_slot set_inbox set_remotes]. rewrite list_insert_insert_eq. reflexivity.
    + split; try done. transitivity p1; [|exact S3]. split; try done. intros j Hj0 Hji. cbn. now rewrite list_lookup_insert_ne.
Qed.

(** The client: Connect reserves the slot and posts the callback. *)
Lemma connect_spec asio now entropy hostname port i there id l p : vacant entropy i there id l p -> GetNextAvailableConnectSlot p = Some i ->
  m_state (m_masterSocket p) = OPEN -> IsOpenAndReady (m_masterSocket p) = true -> posted (m_masterSocket p) = [] ->
  hostname <> [] -> port <> 0 -> Resolve asio hostname port (m_masterSocket p) = Some there ->
  exists h s, Handshaker_new enc SELF = Ret h /\ take_posted s = (Some (there, i), m_masterSocket p)
    /\ Connect no_address make_layer asio now entropy hostname port None p
       = Ret (CAR_OK, set_socket s (with_layer l (at_slot i (reserved_slot now (p_fresh p) h) (m_inbox p) p))).
Proof.
  intros Hv Hslot Hst Hop Hpost Hhost Hport Hres. destruct (setup_vacant entropy i there id l p now SELF Hv ltac:(done)) as (h & Eh & Es).
  set (s0 := m_masterSocket p) in *. exists h, (mkSocket (m_state s0) (m_family s0) (is_open s0) (posted s0 ++ [(there, i)]) (joinable s0) (m_socketThreadAbort s0) (m_reading s0) (m_sending s0) (written s0)).
  split; [done|]. split.
  - unfold take_posted. cbn. rewrite Hpost. cbn. f_equal. destruct s0. cbn in *. now subst.
  - unfold Connect. rewrite bind_get, Hslot, (bind_ret _ _ _ _ _ Es). cbv iota.
    rewrite bind_mret, bind_get. cbn [m_masterSocket with_layer set_layers at_slot set_inbox set_remotes]. fold s0.
    unfold Socket_Connect, GetState. rewrite Hst, Hop, bool_decide_true by done. cbn [negb orb].
    rewrite bool_decide_false by done. rewrite (proj2 (Z.eqb_neq _ _) Hport). cbn [orb]. rewrite Hres. reflexivity.
Qed.

(** Taking the callback off the socket leaves the socket as it was. *)
Lemma back_to_socket l i r r1 s (p : Peer) : let q := set_socket (m_masterSocket p) (set_socket s (with_layer l (at_slot i r (m_inbox p) p))) in
  set_remotes (<[i := r1]> (m_remotes q)) q = with_layer l (at_slot i r1 (m_inbox p) p).
Proof.
  intros q. change (m_remotes q) with (<[i := r]> (m_remotes p)). rewrite list_insert_insert_eq. subst q. now destruct p.
Qed.

(** And the callback begins the handshake. *)
Lemma callback_spec asio now now0 entropy i there id l n c p h s : vacant entropy i there id l p -> Handshaker_new enc SELF = Ret h ->
  take_posted s = (Some (there, i), m_masterSocket p) -> mailbox n c [] p ->
  exists r' p', exec no_address make_layer asio now entropy Ev_connected (set_socket s (with_layer l (at_slot i (reserved_slot now0 (p_fresh p) h) (m_inbox p) p)))
      = Ret (tt, p') /\ stepped now i there id (client_waits now (m_id p) l) n c [] r' p p'.
Proof.
  intros Hv Eh Hs Hm. pose proof Hv as [Hr [Hi Hmax] Had Hca Hids Hpl _]. pose proof (lookup_lt_Some _ _ _ Hr) as Hlen.
  set (r1 := set_endpoint there false (reserved_slot now0 (p_fresh p) h)). set (p1 := with_layer l (at_slot i r1 (m_inbox p) p)).
  assert (Hsh : shaking i (a_fresh enc SELF l) r1 p1) by now apply (setup_shaking i l p SELF h).
  pose proof Hm as [(r0 & Hr0 & Hbox) _ _ _]. pose proof (client_waits_on now (m_id p) l) as Hg.
  destruct (with_handshake_step now i (fun cfg => Handshake_Begin cfg now) (a_fresh enc SELF l) (client_waits now (m_id p) l) r1 r0 p1 Hsh) as (p2 & E & Hp2);
    [cbn; now rewrite list_lookup_insert_ne| |apply Hg|apply Hg|apply Hg|].
  { pose proof (hsim_begin (settings_of i p1) now (a_fresh enc SELF l) eq_refl) as Hb. unfold a_begin in Hb. cbn [encryption_enabled settings_of] in Hb.
    change (m_crypto_enabled p1) with (m_crypto_enabled p) in Hb. rewrite Hpl in Hb. exact Hb. }
  destruct Hp2 as [(h' & ms & ns & layers & Ep & Hsh2 & Hq & Hn)]. cbv zeta in Ep, Hsh2. set (r2 := set_handshake h' _ r1) in *. set (r' := set_endpoint there true r2).
  set (p' := set_remotes (<[i := r']> (m_remotes p2)) p2). exists r', p'. split.
  - unfold exec. rewrite bind_get. cbn [m_masterSocket set_socket]. rewrite Hs. unfold put at 1. unfold mbind at 1, st_bind at 1. cbv beta iota.
    unfold connect_callback. erewrite bind_ret; [|apply slot_found; cbn; now rewrite list_lookup_insert_eq]. erewrite bind_ret; [|unfold set_slot, modify; reflexivity].
    rewrite back_to_socket. fold r1 p1.
    rewrite (bind_ret _ _ _ _ _ E), (bind_ret _ _ _ _ _ (slot_found i r2 p2 (sk_slot _ _ _ _ Hsh2))). reflexivity.
  - assert (Hb : beside i p p').
    { split; unfold p'; rewrite Ep; try done. intros j Hj0 Hji. cbn. rewrite !list_lookup_insert_ne by done. done. }
    assert (Hlen' : (i < length (m_remotes p2))%nat) by (rewrite Ep; cbn; now rewrite !length_insert).
    split; [|done|exact Hb|unfold p'; rewrite Ep; done| |exists ns; split; [unfold p'; rewrite Ep; done|exact Hn]].
    + split; try done.
      * destruct Hsh2 as [_ _ Ha (h2 & k & Hh & Hk & Hl & HA)]. split; [unfold p'; cbn; now rewrite list_lookup_insert_eq|done|done|].
        exists h2, k. split; [exact Hh|]. split; [exact Hk|]. split; [exact Hl|exact HA].
      * now rewrite (be_max _ _ _ Hb).
      * intros j y Hj Hji Hj0. rewrite (be_slots _ _ _ Hb) in Hj by done. eauto.
      * split; [left; unfold p'; rewrite Ep; exact Hca|]. intros j y Hj Hji Hj0. rewrite (be_slots _ _ _ Hb) in Hj by done. eauto.
      * rewrite (be_enabled _ _ _ Hb). exact Hpl.
    + exists ms. split; [|exact Hq]. destruct Hm as [(r3 & Hr3 & Hb3 & Hc3 & Hh3 & Hk3) M2 M3 M4]. assert (r3 = r0) as -> by congruence.
      split; [|done|done|done]. exists (set_outbox (outbox r0 ++ ms) r0). split; [|split; [cbn; now rewrite Hb3|done]].
      unfold p'. rewrite Ep. cbn. rewrite list_lookup_insert_ne by done. rewrite list_lookup_insert_eq; [done|]. rewrite length_insert. rewrite length_insert. now apply lookup_lt_Some in Hr0.
Qed.

(** ** A datagram from peer to peer *)

(** The write cycle of slot 0 of [p] sends one datagram to [there], the write
    completes, and [q] reads the datagram as one from [here]. *)
Definition carries (asio : Asio RemoteAddress) (t t' ep eq : Z) (here there : RemoteAddress) (p q p' q' : Peer) : Prop :=
  exists p1 d x, write_cycle no_address t ep 0 p = Ret (tt, p1)
    /\ written (m_masterSocket p1) = written (m_masterSocket p) ++ [(there, d)] /\ rel true d x
    /\ exec no_address make_layer asio t ep (Ev_written 0 false) p1 = Ret (tt, p')
    /\ exec no_address make_layer asio t' eq (Ev_read false here (map Some (a_bytes x))) q = Ret (tt, q').

(** A party between two messages: it waits, and its socket is free. *)
Record idle (i : nat) (there : RemoteAddress) (id : Z) (A : AHS crypto) (r : RemotePeer) (n : Z) (c : CongestionControl)
    (ms : list (OutgoingPacket RemoteAddress)) (p0 : Peer) (inbox : list Packet) (p : Peer) : Prop := {
  id_party : party i there id A r p;
  id_mail : mailbox n c ms p;
  id_free : IsWritePending (m_masterSocket p) = false;
  id_beside : beside i p0 p;
  id_inbox : m_inbox p = inbox;
}.

(** Sending the message that is queued. *)
Lemma idle_sends asio t entropy i there id A r n c now m bs est l2 p0 inbox p : idle i there id A r (n + part_size) c [m] p0 inbox p -> 0 <= n ->
  part_queued now r m (bs, est) -> passes est (ah_crypto A) l2 -> now <= t -> zlength bs <= part_max ->
  exists p1 p' d x c', write_cycle no_address t entropy 0 p = Ret (tt, p1)
    /\ written (m_masterSocket p1) = written (m_masterSocket p) ++ [(there, d)] /\ rel true d x
    /\ unseals l2 (a_bytes x) (wire_oob_datagram (m_nextDatagram c) CONNECT_ATTEMPT bs)
    /\ exec no_address make_layer asio t entropy (Ev_written 0 false) p1 = Ret (tt, p') /\ idle i there id A r n c' [] p0 inbox p'.
Proof.
  intros [Hp Hm Hf Hb Hin] Hn Hq Hpass Ht Hl. pose proof (pt_shaking _ _ _ _ _ _ Hp) as [Hr Hi _ (h & k & _ & Hk & Hly & _)].
  destruct (flush n c now t entropy r m bs est (ah_crypto A) l2 k p Hm Hn Hf (pt_enabled _ _ _ _ _ _ Hp) Hk Hly Hpass Hq Ht Hl) as (r0 & d & x & c' & E & Hd & Hu & Hm').
  cbv zeta in E, Hm'. rewrite (pt_address _ _ _ _ _ _ Hp) in E, Hm'. set (p1 := set_socket _ _) in E, Hm'. exists p1. eexists _, d, x, c'.
  split; [exact E|]. split; [reflexivity|]. split; [exact Hd|]. split; [exact Hu|]. split; [reflexivity|].
  match goal with |- idle _ _ _ _ _ _ _ _ _ _ ?q => assert (Hb' : beside i p q) end.
  { etrans; [apply beside_slot0|]. etrans; apply beside_socket. }
  split; [| |done| |done].
  - eapply party_frame; [exact Hp|exact Hb'| |done|].
    + cbn. now rewrite list_lookup_insert_ne.
    + apply (only_frame i id p); [apply (pt_only _ _ _ _ _ _ Hp)|done|]. apply (be_slots _ _ _ Hb').
  - apply (mailbox_frame _ _ _ p1); [exact Hm'|done].
  - now transitivity p.
Qed.

(** After a message was handled, and the next read begun. *)
Lemma read_idle asio now entropy i there id A' n c ms r' p0 p p' buffer sender inbox : m_inbox p = inbox ->
  IsWritePending (m_masterSocket p) = false -> beside i p0 p -> stepped now i there id A' n c ms r' p p' ->
  OnReadFinished no_address make_layer asio now entropy false sender buffer p = Ret (tt, p') ->
  exists p'' queued ns, exec no_address make_layer asio now entropy (Ev_read false sender buffer) p = Ret (tt, p'')
    /\ idle i there id (a_forget A') r' n c (ms ++ queued) p0 (inbox ++ ns) p''
    /\ Forall2 (part_queued now r') queued (sent_of (ah_seen A')) /\ Forall2 (posted_note r') ns (notified_of (ah_seen A')).
Proof.
  intros Hin Hf Hb [S1 S2 S3 S4 (queued & Hm & Hq) (ns & Hi & Hn)] E.
  exists (set_socket (read_done false (m_masterSocket p')) p'), queued, ns. split; [|split; [|done]].
  - unfold exec. now rewrite (bind_ret _ _ _ _ _ E).
  - split.
    + eapply party_frame; [exact S1|apply beside_socket|apply (sk_slot _ _ _ _ (pt_shaking _ _ _ _ _ _ S1))|done|].
      apply (only_frame i id p'); [apply (pt_only _ _ _ _ _ _ S1)|done|done].
    + apply (mailbox_frame _ _ _ p'); [exact Hm|done].
    + cbn. rewrite S4. unfold read_done, IsWritePending in *. destruct (_ && _); exact Hf.
    + transitivity p; [exact Hb|]. transitivity p'; [exact S3|apply beside_socket].
    + cbn. now rewrite Hi, Hin.
Qed.

(** A step of the interface or the callback, as the start of a run. *)
Lemma stepped_idle now i there id A' n c r' p p' : stepped now i there id A' n c [] r' p p' -> IsWritePending (m_masterSocket p) = false ->
  exists queued ns, idle i there id (a_forget A') r' n c queued p (m_inbox p ++ ns) p'
    /\ Forall2 (part_queued now r') queued (sent_of (ah_seen A')) /\ Forall2 (posted_note r') ns (notified_of (ah_seen A')).
Proof.
  intros [S1 S2 S3 S4 (queued & Hm & Hq) (ns & Hi & Hn)] Hf. exists queued, ns. split; [|done]. split; [exact S1|exact Hm| |exact S3|exact Hi].
  now rewrite S4.
Qed.

(** One message from party to party: the first sends what it has queued, the second
    goes from [B] to [B'] and queues its answer. *)
Lemma exchange_step asio t t' ep eq now i j here there id A B B' r rr n n' c c' m opcode body est p0 q0 inbox inbox' p q : or_left_first = true ->
  idle i there id A r (n + part_size) c [m] p0 inbox p -> 0 <= n -> part_queued now r m (hs_part (m_id p0) opcode body, est) -> now <= t ->
  idle j here (m_id p0) B rr n' c' [] q0 inbox' q -> ah_result B = 0 -> passes est (ah_crypto A) (ah_crypto B) ->
  is_byte opcode -> Forall is_byte body -> zlength body <= GetKeyLength crypto + 15 -> 0 <= m_id p0 < 2 ^ 64 ->
  (forall cfg packet, my_id cfg = m_id q0 -> encryption_enabled cfg = enc -> taken cfg (m_id p0) = false ->
     holds packet CONNECT_ATTEMPT (hs_part (m_id p0) opcode body) -> hsim (Handshake_Handle cfg t' eq packet) B B') -> goes_on B' ->
  exists p' q' c2 rr' queued ns, carries asio t t' ep eq here there p q p' q' /\ idle i there id A r n c2 [] p0 inbox p'
    /\ idle j here (m_id p0) (a_forget B') rr' n' c' queued q0 (inbox' ++ ns) q' /\ rp_id rr' = ah_remote B'
    /\ Forall2 (part_queued t' rr') queued (sent_of (ah_seen B')) /\ Forall2 (posted_note rr') ns (notified_of (ah_seen B')).
Proof.
  intros Hor Ip Hn Hq Ht Iq Hres Hpass Ho Hb Hl Hid Hsim Hg. pose proof (small_part (m_id p0) opcode body Hl) as Hs.
  destruct (idle_sends asio t ep i there id A r n c now m _ est (ah_crypto B) p0 inbox p Ip Hn Hq Hpass Ht Hs) as (p1 & p' & d & x & c2 & E1 & Hw & Hx & Hu & E2 & Ip').
  pose proof Iq as [Hq' Hm Hf Hb' Hin].
  destruct (party_receives asio t' eq j here (m_id p0) B B' rr n' c' [] q (m_nextDatagram c) opcode body (a_bytes x) Hor Hq' Hm Hres ltac:(now constructor) Hs Hid
    (proj2 (mb_numbers _ _ _ _ (id_mail _ _ _ _ _ _ _ _ _ _ _ Ip))) Hu (rf_bytes _ _ (proj1 Hx)) (rf_max _ _ (proj1 Hx))) as (rr' & q1 & E & S); [|exact Hg|].
  { intros cfg packet H1 H2 H3 Hh. rewrite (be_id _ _ _ Hb') in H1. now apply Hsim. }
  destruct (read_idle asio t' eq j here (m_id p0) B' n' c' [] rr' q0 q q1 _ here inbox' Hin Hf Hb' S E) as (q' & queued & ns & E3 & Iq' & Hqq & Hnn).
  exists p', q', c2, rr', queued, ns. split; [exists p1, d, x; eauto 10|]. split; [exact Ip'|]. split; [exact Iq'|]. split; [apply S|done].
Qed.

(** ** The rest of a handshake *)

(** Without encryption: the client is done with the answer, the server with the
    acknowledgement. *)
Definition client_accepts (now me id : Z) (A : AHS crypto) : AHS crypto :=
  a_reply now (hs_part me UNENCRYPTED_ACK []) false (a_complete (result_code CR_OK) (a_set_remote id A)).
Definition server_accepts (id : Z) (A : AHS crypto) : AHS crypto := a_complete (result_code CR_OK) (a_set_remote id A).

(** With encryption: the client sends its key, the server answers with its own and uses
    the session keys from then on, the client confirms with them. *)
Definition client_offers (now me id : Z) (kc : list Z) (A : AHS crypto) : AHS crypto :=
  a_reply now (hs_part me AUTH_MSG (STATE_KEY_EXCHANGE :: kc ++ hs_flag (GetNeedsChallenge (ah_crypto A)))) false
    (a_set_auth (mkAuth SELF STATE_KEY_EXCHANGE false) (ah_crypto A) (a_set_opcode AUTH_MSG (a_set_remote id A))).
Definition server_exchanges (now me id : Z) (ks : list Z) (s' : crypto) (A : AHS crypto) : AHS crypto :=
  a_auth now (hs_part me AUTH_MSG (STATE_KEY_EXCHANGE :: ks)) IN_PROGRESS (mkAuth REMOTE STATE_DONE true) s' (a_set_remote id A).
Definition client_confirms (now me id : Z) (c' : crypto) (A : AHS crypto) : AHS crypto :=
  a_auth now (hs_part me AUTH_MSG [STATE_DONE]) CR_OK (mkAuth SELF STATE_DONE false) (SetCryptoEstablished c') (a_set_remote id A).
Definition server_confirms (now me id : Z) (A : AHS crypto) : AHS crypto :=
  a_auth now (hs_part me AUTH_MSG []) CR_OK (mkAuth REMOTE STATE_DONE false) (ah_crypto A) (a_set_remote id A).

Section Stages.
Context (cfg : settings) (now entropy id : Z) (packet : Packet) (A : AHS crypto).
Context (Hor : or_left_first = true) (Ht : taken cfg id = false) (Hid : 0 <= id < 2 ^ 64) (Ha : ah_alive A = true) (Hres : ah_result A = 0).

Lemma client_accepts_sim : encryption_enabled cfg = false -> ah_opcode A = INITIAL_SERVER -> holds packet CONNECT_ATTEMPT (hs_part id INITIAL_SERVER (hs_flag enc)) ->
  hsim (Handshake_Handle cfg now entropy packet) A (client_accepts now (my_id cfg) id A).
Proof.
  intros He Ho Hh. apply (part_simulates cfg now entropy packet id INITIAL_SERVER (hs_flag enc)); try done; [apply flag_byte|].
  unfold a_receive. rewrite Ht, Hres. cbn. unfold a_stage. cbn. rewrite Ho, He. reflexivity.
Qed.

Lemma server_accepts_sim : ah_opcode A = UNENCRYPTED_ACK -> holds packet CONNECT_ATTEMPT (hs_part id UNENCRYPTED_ACK []) ->
  hsim (Handshake_Handle cfg now entropy packet) A (server_accepts id A).
Proof.
  intros Ho Hh. apply (part_simulates cfg now entropy packet id UNENCRYPTED_ACK []); try done.
  unfold a_receive. rewrite Ht, Hres. cbn. unfold a_stage. cbn. rewrite Ho. reflexivity.
Qed.

Lemma client_offers_sim kc : encryption_enabled cfg = true -> ah_opcode A = INITIAL_SERVER -> ah_auth A = Some (EncryptionAuthenticator_new SELF) ->
  has_key (ah_crypto A) kc -> holds packet CONNECT_ATTEMPT (hs_part id INITIAL_SERVER (hs_flag enc)) ->
  hsim (Handshake_Handle cfg now entropy packet) A (client_offers now (my_id cfg) id kc A).
Proof.
  intros He Ho Hau Hk Hh. eapply hsim_message; try done; [constructor; [unfold is_byte, INITIAL_SERVER; lia|apply flag_byte]|].
  intros pre instream reply Hpre Hin Hr. exact (hsim_begin_auth cfg now entropy (a_set_remote id A) _ kc instream reply Ha Ho He Hau Hk Hr).
Qed.

Lemma server_exchanges_sim kc ks s' : ah_opcode A = AUTH_MSG -> ah_auth A = Some (EncryptionAuthenticator_new REMOTE) -> zlength kc = GetKeyLength crypto ->
  Forall is_byte kc -> has_key s' ks -> (forall w st, rel w st (cursor [] kc) -> exists st', HandleKeyExchange REMOTE (ah_crypto A) st = Ret (true, s', st')) ->
  holds packet CONNECT_ATTEMPT (hs_part id AUTH_MSG (STATE_KEY_EXCHANGE :: kc ++ hs_flag false)) ->
  hsim (Handshake_Handle cfg now entropy packet) A (server_exchanges now (my_id cfg) id ks s' A).
Proof.
  intros Ho Hau Hl Hb Hks Hx Hh. pose proof law_key_length as Hkl. eapply hsim_message; try done.
  - apply bytes_cons2; [unfold is_byte, AUTH_MSG; lia|unfold is_byte, STATE_KEY_EXCHANGE; lia|]. apply Forall_app_bytes; [done|apply flag_byte].
  - rewrite zlength_cons, zlength_app, Hl. change (zlength (hs_flag false)) with 1. lia.
  - intros pre instream reply Hpre Hin Hr. eapply hsim_auth; [exact Ha|exact Ho|exact Hau|exact Hr|done|].
    eexists (at_end _). split; [reflexivity|]. unfold hs_part. rewrite <- (header_app _ (STATE_KEY_EXCHANGE :: ks)).
    eapply (sim_Auth_kx entropy (EncryptionAuthenticator_new REMOTE) (ah_crypto A) s' pre kc); [exact Hin|done|done|done|done|exact Hx|].
    intros in' Hin'. apply (sim_Auth_server_kx entropy s' ks in' false _ (pre ++ STATE_KEY_EXCHANGE :: kc) false); [|exact Hks|exact Hin']. now apply (roomy_reply _ 1).
Qed.

Lemma client_confirms_sim ks c' : ah_opcode A = AUTH_MSG -> ah_auth A = Some (mkAuth SELF STATE_KEY_EXCHANGE false) -> zlength ks = GetKeyLength crypto ->
  Forall is_byte ks -> GetNeedsChallenge c' = false ->
  (forall w st, rel w st (cursor [] ks) -> exists st', HandleKeyExchange SELF (ah_crypto A) st = Ret (true, c', st')) ->
  holds packet CONNECT_ATTEMPT (hs_part id AUTH_MSG (STATE_KEY_EXCHANGE :: ks)) ->
  hsim (Handshake_Handle cfg now entropy packet) A (client_confirms now (my_id cfg) id c' A).
Proof.
  intros Ho Hau Hl Hb Hn Hx Hh. pose proof law_key_length as Hkl. eapply hsim_message; try done.
  - apply bytes_cons2; [unfold is_byte, AUTH_MSG; lia|unfold is_byte, STATE_KEY_EXCHANGE; lia|done].
  - rewrite zlength_cons, Hl. lia.
  - intros pre instream reply Hpre Hin Hr. eapply hsim_auth; [exact Ha|exact Ho|exact Hau|exact Hr|done|].
    eexists (at_end _). split; [reflexivity|]. unfold hs_part. rewrite <- (header_app _ [STATE_DONE]).
    eapply (sim_Auth_kx entropy (mkAuth SELF STATE_KEY_EXCHANGE false) (ah_crypto A) c' pre ks []); [now rewrite app_nil_r|done|done|done|done|exact Hx|].
    intros in' _. apply sim_Auth_client_done; [now apply (roomy_reply _ 1)|done].
Qed.

Lemma server_confirms_sim : ah_opcode A = AUTH_MSG -> ah_auth A = Some (mkAuth REMOTE STATE_DONE false) ->
  holds packet CONNECT_ATTEMPT (hs_part id AUTH_MSG [STATE_DONE]) -> hsim (Handshake_Handle cfg now entropy packet) A (server_confirms now (my_id cfg) id A).
Proof.
  intros Ho Hau Hh. eapply hsim_message; try done.
  - apply bytes_cons2; [unfold is_byte, AUTH_MSG; lia|unfold is_byte, STATE_DONE; lia|constructor].
  - intros pre instream reply Hpre Hin Hr. eapply hsim_auth; [exact Ha|exact Ho|exact Hau|exact Hr|done|].
    eexists (at_end _). split; [reflexivity|]. eapply sim_Auth_server_done. exact Hin.
Qed.
End Stages.

(** The two ends of a stage of the authentication. *)
Lemma auth_continues now bs a c A : a_auth now bs IN_PROGRESS a c A = a_set_auth (PostHandle a c).1 (PostHandle a c).2 (a_reply now bs false (a_set_auth a c A)).
Proof. unfold a_auth. destruct (PostHandle a c). now rewrite bool_decide_true. Qed.
Lemma auth_completes now bs a c A : a_auth now bs CR_OK a c A =
  a_complete (result_code CR_OK) (a_set_auth (PostHandle a c).1 (PostHandle a c).2 (a_reply now bs false (a_set_auth a c A))).
Proof. unfold a_auth. destruct (PostHandle a c). now rewrite bool_decide_false. Qed.

Ltac fields := cbn [ah_alive ah_seen ah_result ah_crypto ah_opcode ah_auth ah_remote ah_origin a_set_auth a_set_opcode a_set_remote a_reply a_complete a_forget fst snd app andb
  PostHandle au_origin au_state m_enableCryptoAfterReply client_accepts server_accepts client_offers].

(** All of them succeed and fit. *)
Lemma one_fits id opcode body est os : is_byte opcode -> Forall is_byte body -> zlength body <= GetKeyLength crypto + 15 -> sent_of os = [] ->
  Forall part_fits (Sent (hs_part id opcode body) est :: os).
Proof.
  intros Ho Hb Hl Hs. constructor; [now apply fits_part|]. induction os as [|[bs e|cmd code] os IH]; [constructor|discriminate|]. constructor; [done|]. now apply IH.
Qed.

Lemma client_accepts_on now me id A : ah_alive A = true -> ah_seen A = [] -> goes_on (client_accepts now me id A).
Proof.
  intros Ha Hs. pose proof law_key_length. split; fields; rewrite ?Ha, ?Hs; try done. constructor; [done|].
  apply one_fits; [unfold is_byte, UNENCRYPTED_ACK; lia|constructor| |done]. change (zlength (@nil Z)) with 0. lia.
Qed.
Lemma server_accepts_on id A : ah_alive A = true -> ah_seen A = [] -> goes_on (server_accepts id A).
Proof. intros Ha Hs. split; fields; rewrite ?Ha, ?Hs; try done. now constructor. Qed.

Lemma key_fits key b : zlength key = GetKeyLength crypto -> zlength (STATE_KEY_EXCHANGE :: key ++ hs_flag b) <= GetKeyLength crypto + 15.
Proof. intros H. rewrite zlength_cons, zlength_app, H. change (zlength (hs_flag b)) with 1. lia. Qed.

Lemma client_offers_on now me id kc A : ah_alive A = true -> ah_seen A = [] -> zlength kc = GetKeyLength crypto -> Forall is_byte kc -> goes_on (client_offers now me id kc A).
Proof.
  intros Ha Hs Hl Hb. split; fields; rewrite ?Ha, ?Hs; try done. apply one_fits; [unfold is_byte, AUTH_MSG; lia| |now apply key_fits|done].
  constructor; [unfold is_byte, STATE_KEY_EXCHANGE; lia|]. apply Forall_app_bytes; [done|apply flag_byte].
Qed.
Lemma server_exchanges_on now me id ks s' A : ah_alive A = true -> ah_seen A = [] -> zlength ks = GetKeyLength crypto -> Forall is_byte ks ->
  goes_on (server_exchanges now me id ks s' A).
Proof.
  intros Ha Hs Hl Hb. unfold server_exchanges. rewrite auth_continues. split; fields; rewrite ?Ha, ?Hs; try done.
  apply one_fits; [unfold is_byte, AUTH_MSG; lia| |rewrite zlength_cons; lia|done]. constructor; [unfold is_byte, STATE_KEY_EXCHANGE; lia|done].
Qed.
Lemma client_confirms_on now me id c' A : ah_alive A = true -> ah_seen A = [] -> goes_on (client_confirms now me id c' A).
Proof.
  intros Ha Hs. pose proof law_key_length. unfold client_confirms. rewrite auth_completes. split; fields; rewrite ?Ha, ?Hs; try done.
  apply one_fits; [unfold is_byte, AUTH_MSG; lia| |change (zlength [STATE_DONE]) with 1; lia|done]. constructor; [unfold is_byte, STATE_DONE; lia|constructor].
Qed.
Lemma server_confirms_on now me id A : ah_alive A = true -> ah_seen A = [] -> goes_on (server_confirms now me id A).
Proof.
  intros Ha Hs. pose proof law_key_length. unfold server_confirms. rewrite auth_completes. split; fields; rewrite ?Ha, ?Hs; try done.
  apply one_fits; [unfold is_byte, AUTH_MSG; lia|constructor|change (zlength (@nil Z)) with 0; lia|done].
Qed.

(** ** The connection *)

(** What a peer has when it is connected, and what changed since [p]: the slot is one
    that messages can be sent and received on, the other peer is found by its ID, the
    application was told once, and no other connection was touched. *)
Record established (i : nat) (there : RemoteAddress) (id : Z) (l : crypto) (cmd : Z) (p p' : Peer) : Prop := {
  es_connected : exists r c, Delivery.connected p' there i r c l /\ rp_id r = id /\ addr r = there /\ IsConnected r = true;
  es_found : GetRemoteByID_const id p' = Some i;
  es_notified : exists note, m_inbox p' = m_inbox p ++ [note] /\ holds note cmd [result_code CR_OK] /\ pk_sender note = id;
  es_others : forall k, k <> 0%nat -> k <> i -> m_remotes p' !! k = m_remotes p !! k;
}.

Lemma idle_established i there id A r n c ms p note cmd p' : idle i there id A r n c ms p (m_inbox p ++ [note]) p' ->
  ah_result A = result_code CR_OK -> rp_id r = id -> posted_note r note (cmd, result_code CR_OK) -> established i there id (ah_crypto A) cmd p p'.
Proof.
  intros [Hp _ _ Hb Hin] Hres Hid [Hh Hs]. pose proof (pt_shaking _ _ _ _ _ _ Hp) as [Hr Hi _ (h & k & Hsh & Hk & Hl & HA)].
  pose proof (hr_result _ _ HA : m_result h = ah_result A) as Hmr. destruct (pt_congestion _ _ _ _ _ _ Hp) as [c' Hc]. split.
  - exists r, c'. split; [|split; [done|split; [apply (pt_address _ _ _ _ _ _ Hp)|]]].
    + split; [apply (party_found _ _ _ _ _ _ Hp)|done|done|exists h; split; [done|congruence]|now exists k].
    + unfold IsConnected. now rewrite (pt_active _ _ _ _ _ _ Hp), Hsh, Hmr, Hres.
  - unfold GetRemoteByID_const. destruct (on_cached _ _ _ (pt_only _ _ _ _ _ _ Hp)) as [->| ->]; [|done].
    apply (unique_slot _ p' i r); [lia|apply (pt_range _ _ _ _ _ _ Hp)|done| |].
    + rewrite Hid, Z.eqb_refl. apply (pt_active _ _ _ _ _ _ Hp).
    + intros j y Hj Hj0 [Hy%Z.eqb_eq Ha]%andb_true_iff. destruct (decide (j = i)) as [->|Hne]; [done|].
      destruct (on_slots _ _ _ (pt_only _ _ _ _ _ _ Hp) j y Hj Hne Hj0 Ha Hy).
  - exists note. split; [exact Hin|]. cbn [fst snd] in Hh. split; [exact Hh|congruence].
  - intros k0 H0 Hk0. apply (be_slots _ _ _ Hb); done.
Qed.

(** Datagrams that go to and fro, each at its times of writing and reading. *)
Inductive alternates (asio : Asio RemoteAddress) : list (Z * Z) -> Z -> Z -> RemoteAddress -> RemoteAddress -> Peer -> Peer -> Peer -> Peer -> Prop :=
  | alternates_nil ep eq here there p q : alternates asio [] ep eq here there p q p q
  | alternates_cons t t' ts ep eq here there p q p1 q1 p' q' : carries asio t t' ep eq here there p q p1 q1 ->
      alternates asio ts eq ep there here q1 p1 q' p' -> alternates asio ((t, t') :: ts) ep eq here there p q p' q'.

(** Nothing is written before it was queued, which is when the message before was read. *)
Fixpoint in_turn (queued : Z) (ts : list (Z * Z)) : Prop :=
  match ts with [] => True | (t, t') :: ts => queued <= t /\ in_turn t' ts end.

(** A layer that uses its session keys once it is told to, and no sooner. *)
Record sealing : Prop := {
  sl_established : forall c : crypto, GetCryptoEstablished (SetCryptoEstablished c) = true;
  sl_exchange : forall origin (c c' : crypto) ok st st', HandleKeyExchange origin c st = Ret (ok, c', st') -> GetCryptoEstablished c' = GetCryptoEstablished c;
}.

(** One message, one notification. *)
Lemma one_part now (r : RemotePeer) ms part : Forall2 (part_queued now r) ms [part] -> exists m, ms = [m] /\ part_queued now r m part.
Proof. intros (m & l & Hm & Hl & ->)%Forall2_cons_inv_r. apply Forall2_nil_inv_r in Hl as ->. eauto. Qed.
Lemma one_note (r : RemotePeer) ns note : Forall2 (posted_note r) ns [note] -> exists n, ns = [n] /\ posted_note r n note.
Proof. intros (m & l & Hm & Hl & ->)%Forall2_cons_inv_r. apply Forall2_nil_inv_r in Hl as ->. eauto. Qed.
Lemma sent_as now (r : RemotePeer) m bs est est' : part_queued now r m (bs, est) -> est = est' -> part_queued now r m (bs, est').
Proof. now intros H ->. Qed.

Lemma part_size_nonneg : 0 <= part_size.
Proof. unfold part_size. pose proof law_key_length. pose proof law_overhead. lia. Qed.

Section Run.
Context (asio : Asio RemoteAddress) (ea eb : Z) (a b : Peer) (at_a at_b : RemoteAddress) (i j : nat) (la lb : crypto).
Context (Hor : or_left_first = true) (Hida : 0 <= m_id a < 2 ^ 64) (Hidb : 0 <= m_id b < 2 ^ 64).
Context (Hca : GetCryptoEstablished la = false) (Hcb : GetCryptoEstablished lb = false).

(** The two ends while they shake hands, each with what it has told its user. *)
Abbreviation client_idle := (idle i at_b (m_id b)).
Abbreviation server_idle := (idle j at_a (m_id a)).

(** The first message meets the server before it has a slot for the client. *)
Lemma opening t t' now ca cb ra m n n' a2 :
  client_idle (a_forget (client_waits now (m_id a) la)) ra (n + part_size) ca [m] a (m_inbox a) a2 -> 0 <= n ->
  part_queued now ra m (hs_part (m_id a) INITIAL_CLIENT (hs_flag enc), false) -> now <= t ->
  vacant eb j at_a (m_id a) lb b -> GetNextAvailableIncomingSlot b = Some j -> mailbox n' cb [] b -> IsWritePending (m_masterSocket b) = false ->
  exists a3 b1 ca' rb m', carries asio t t' ea eb at_a at_b a2 b a3 b1
    /\ client_idle (a_forget (client_waits now (m_id a) la)) ra n ca' [] a (m_inbox a) a3
    /\ server_idle (a_forget (server_waits t' (m_id b) (m_id a) lb)) rb n' cb [m'] b (m_inbox b) b1
    /\ part_queued t' rb m' (hs_part (m_id b) INITIAL_SERVER (hs_flag enc), false).
Proof.
  intros Ia Hn Hq Ht Hv Hslot Hm Hf.
  destruct (idle_sends asio t ea i at_b (m_id b) _ ra n ca now m _ false lb a (m_inbox a) a2 Ia Hn Hq Hcb Ht ltac:(apply small_part, flag_small))
    as (p1 & a3 & d & x & ca' & E1 & Hw & Hx & Hu & E2 & Ia3).
  unfold unseals in Hu. rewrite Hcb in Hu. pose proof (rf_bytes _ _ (proj1 Hx)) as Hbytes. 
  destruct (server_contacted asio t' eb j at_a (m_id a) lb n' cb b (m_nextDatagram ca) Hor Hv Hslot Hm
    (proj2 (mb_numbers _ _ _ _ (id_mail _ _ _ _ _ _ _ _ _ _ _ Ia))) Hida) as (rb & b' & Er & Sb); [now rewrite <- Hu|].
  destruct (read_idle asio t' eb j at_a (m_id a) _ n' cb [] rb b b b' _ at_a (m_inbox b) eq_refl Hf (beside_refl j b) Sb Er) as (b1 & qb & nb & Ex & Ib & Hqb & Hnb).
  apply Forall2_nil_inv_r in Hnb as ->. apply one_part in Hqb as (m' & -> & Hq'). rewrite app_nil_r in Ib. apply (sent_as _ _ _ _ _ false) in Hq'; [|exact Hcb].
  exists a3, b1, ca', rb, m'. split; [exists p1, d, x; rewrite Hu; eauto 10|]. done.
Qed.

Context (now0 now : Z) (ca cb : CongestionControl) (ra rb : RemotePeer) (m : OutgoingPacket RemoteAddress) (a3 b1 : Peer).
Context (Ib : server_idle (a_forget (server_waits now (m_id b) (m_id a) lb)) rb (part_size + part_size) cb [m] b (m_inbox b) b1).
Context (Hq : part_queued now rb m (hs_part (m_id b) INITIAL_SERVER (hs_flag enc), false)).

(** Without encryption two more messages follow. *)
Lemma plain_rest t1 t2 t3 t4 : enc = false -> in_turn now [(t1, t2); (t3, t4)] ->
  client_idle (a_forget (client_waits now0 (m_id a) la)) ra (part_size + part_size) ca [] a (m_inbox a) a3 ->
  exists a' b', alternates asio [(t1, t2); (t3, t4)] eb ea at_b at_a b1 a3 b' a'
    /\ established i at_b (m_id b) la NOTIFY_CONNECT_SUCCESS a a' /\ established j at_a (m_id a) lb NOTIFY_CONNECTION_INCOMING b b'.
Proof.
  intros He (T1 & T3 & _) Ia.
  destruct (exchange_step asio t1 t2 eb ea now j i at_b at_a (m_id a) _ _ (client_accepts t2 (m_id a) (m_id b) (a_forget (client_waits now0 (m_id a) la)))
    rb ra part_size (part_size + part_size) cb ca m INITIAL_SERVER (hs_flag enc) false b a (m_inbox b) (m_inbox a) b1 a3 Hor Ib part_size_nonneg Hq T1 Ia eq_refl Hca)
    as (b2 & a4 & cb' & ra' & qa & na & C1 & Ib2 & Ia4 & Hra & Hqa & Hna); try done.
  { apply flag_byte. }
  { apply flag_small. }
  { intros cfg packet H1 H2 H3 Hh. rewrite <- H1. apply client_accepts_sim; try done. congruence. }
  { now apply client_accepts_on. }
  apply one_part in Hqa as (m2 & -> & Hq2). apply one_note in Hna as (na' & -> & Hn1). apply (sent_as _ _ _ _ _ false) in Hq2; [|exact Hca].
  destruct (exchange_step asio t3 t4 ea eb t2 i j at_a at_b (m_id b) _ _ (server_accepts (m_id a) (a_forget (server_waits now (m_id b) (m_id a) lb)))
    ra' rb part_size part_size ca cb' m2 UNENCRYPTED_ACK [] false a b _ (m_inbox b) a4 b2 Hor Ia4 part_size_nonneg Hq2 T3 Ib2 eq_refl Hcb)
    as (a5 & b3 & ca' & rb' & qb & nb & C2 & Ia5 & Ib3 & Hrb & Hqb & Hnb); try done.
  { pose proof law_key_length. change (zlength (@nil Z)) with 0. lia. }
  { intros cfg packet H1 H2 H3 Hh. apply server_accepts_sim; try done. cbn. now rewrite He. }
  { now apply server_accepts_on. }
  apply one_note in Hnb as (nb' & -> & Hn2).
  exists a5, b3. split; [econstructor; [exact C1|econstructor; [exact C2|constructor]]|].
  split; [exact (idle_established _ _ _ _ _ _ _ _ _ _ _ _ Ia5 eq_refl Hra Hn1)|exact (idle_established _ _ _ _ _ _ _ _ _ _ _ _ Ib3 eq_refl Hrb Hn2)].
Qed.
(** With encryption four more: the keys of both, and a confirmation that is encrypted
    already. *)
Lemma sealed_rest t1 t2 t3 t4 t5 t6 t7 t8 : enc = true -> sealing -> GetNeedsChallenge la = false -> ready la lb ->
  in_turn now [(t1, t2); (t3, t4); (t5, t6); (t7, t8)] ->
  client_idle (a_forget (client_waits now0 (m_id a) la)) ra (part_size + part_size) ca [] a (m_inbox a) a3 ->
  exists a' b' la' lb', alternates asio [(t1, t2); (t3, t4); (t5, t6); (t7, t8)] eb ea at_b at_a b1 a3 b' a'
    /\ established i at_b (m_id b) la' NOTIFY_CONNECT_SUCCESS a a' /\ established j at_a (m_id a) lb' NOTIFY_CONNECTION_INCOMING b b'
    /\ linked la' lb' /\ GetCryptoEstablished la' = true /\ GetCryptoEstablished lb' = true.
Proof.
  intros He Hsl Hnc Hready (T1 & T3 & T5 & T7 & _) Ia. pose proof law_key_length as Hkl.
  destruct (law_exchange la lb Hready) as (kc & ks & c' & s' & Hkc & Hks & HL & _ & Hnd & Hxc & Hxs).
  pose proof Hkc as (Lkc & Bkc & stc & _ & Hstc). pose proof Hks as (Lks & Bks & sts & _ & Hsts).
  assert (Es' : GetCryptoEstablished s' = false). { destruct (Hxs _ _ Hstc) as [st E]. now rewrite (sl_exchange Hsl _ _ _ _ _ _ E). }
  destruct (exchange_step asio t1 t2 eb ea now j i at_b at_a (m_id a) _ _ (client_offers t2 (m_id a) (m_id b) kc (a_forget (client_waits now0 (m_id a) la)))
    rb ra part_size (part_size + part_size) cb ca m INITIAL_SERVER (hs_flag enc) false b a (m_inbox b) (m_inbox a) b1 a3 Hor Ib part_size_nonneg Hq T1 Ia eq_refl Hca)
    as (b2 & a4 & cb' & ra' & qa & na & C1 & Ib2 & Ia4 & Hra & Hqa & Hna); try done.
  { apply flag_byte. }
  { apply flag_small. }
  { intros cfg packet H1 H2 H3 Hh. rewrite <- H1. apply client_offers_sim; try done; [congruence|cbn; now rewrite He]. }
  { now apply client_offers_on. }
  set (A4 := a_forget (client_offers _ _ _ _ _)) in Ia4. apply Forall2_nil_inv_r in Hna as ->. rewrite app_nil_r in Ia4.
  apply one_part in Hqa as (m2 & -> & Hq2). apply (sent_as _ _ _ _ _ false) in Hq2; [|exact Hca].
  destruct (exchange_step asio t3 t4 ea eb t2 i j at_a at_b (m_id b) _ _ (server_exchanges t4 (m_id b) (m_id a) ks s' (a_forget (server_waits now (m_id b) (m_id a) lb)))
    ra' rb part_size part_size ca cb' m2 AUTH_MSG (STATE_KEY_EXCHANGE :: kc ++ hs_flag (GetNeedsChallenge la)) false a b (m_inbox a) (m_inbox b) a4 b2 Hor Ia4 part_size_nonneg Hq2 T3 Ib2 eq_refl Hcb)
    as (a5 & b3 & ca' & rb' & qb & nb & C2 & Ia5 & Ib3 & Hrb & Hqb & Hnb); try done.
  { constructor; [unfold is_byte, STATE_KEY_EXCHANGE; lia|]. apply Forall_app_bytes; [done|apply flag_byte]. }
  { now apply key_fits. }
  { rewrite Hnc. intros cfg packet H1 H2 H3 Hh. set (B := a_forget (server_waits now (m_id b) (m_id a) lb)). rewrite <- H1.
    apply (server_exchanges_sim cfg t4 eb (m_id a) packet B Hor H3 Hida eq_refl eq_refl kc); try done; cbn; now rewrite He. }
  { now apply server_exchanges_on. }
  unfold server_exchanges in Ib3, Hqb, Hnb, Hrb. rewrite auth_continues in Ib3, Hqb, Hnb, Hrb. apply Forall2_nil_inv_r in Hnb as ->. rewrite app_nil_r in Ib3.
  set (B3 := a_forget _) in Ib3. apply one_part in Hqb as (m3 & -> & Hq3). apply (sent_as _ _ _ _ _ false) in Hq3; [|exact Es'].
  destruct (exchange_step asio t5 t6 eb ea t4 j i at_b at_a (m_id a) B3 A4 (client_confirms t6 (m_id a) (m_id b) c' A4)
    rb' ra' 0 part_size cb' ca' m3 AUTH_MSG (STATE_KEY_EXCHANGE :: ks) false b a (m_inbox b) (m_inbox a) b3 a5 Hor Ib3 ltac:(lia) Hq3 T5 Ia5 eq_refl Hca)
    as (b4 & a6 & cb2 & ra2 & qa & na & C3 & Ib4 & Ia6 & Hra2 & Hqa & Hna); try done.
  { constructor; [unfold is_byte, STATE_KEY_EXCHANGE; lia|done]. }
  { rewrite zlength_cons. lia. }
  { intros cfg packet H1 H2 H3 Hh. rewrite <- H1. apply (client_confirms_sim cfg t6 ea (m_id b) packet A4 Hor H3 Hidb eq_refl eq_refl ks); try done. congruence. }
  { now apply client_confirms_on. }
  unfold client_confirms in Ia6, Hqa, Hna, Hra2. rewrite auth_completes in Ia6, Hqa, Hna, Hra2.
  set (A6 := a_forget _) in Ia6. apply one_part in Hqa as (m4 & -> & Hq4). apply (sent_as _ _ _ _ _ true) in Hq4; [|apply (sl_established Hsl)].
  apply one_note in Hna as (na' & -> & Hn1).
  assert (HL' : linked (SetCryptoEstablished c') (SetCryptoEstablished s')) by (apply law_established, law_linked_sym, law_established, law_linked_sym; exact HL).
  destruct (exchange_step asio t7 t8 ea eb t6 i j at_a at_b (m_id b) A6 B3 (server_confirms t8 (m_id b) (m_id a) B3)
    ra2 rb' 0 0 ca' cb2 m4 AUTH_MSG [STATE_DONE] true a b _ (m_inbox b) a6 b4 Hor Ia6 ltac:(lia) Hq4 T7 Ib4 eq_refl)
    as (a7 & b5 & ca2 & rb2 & qb & nb & C4 & Ia7 & Ib5 & Hrb2 & Hqb & Hnb); try done.
  { split; [done|]. split; [exact HL'|]. split; apply (sl_established Hsl). }
  { constructor; [unfold is_byte, STATE_DONE; lia|constructor]. }
  { change (zlength [STATE_DONE]) with 1. lia. }
  { intros cfg packet H1 H2 H3 Hh. rewrite <- H1. apply (server_confirms_sim cfg t8 eb (m_id a) packet B3 Hor H3 Hida eq_refl eq_refl); try done; cbn; now rewrite He. }
  { now apply server_confirms_on. }
  unfold server_confirms in Ib5, Hqb, Hnb, Hrb2. rewrite auth_completes in Ib5, Hqb, Hnb, Hrb2. apply one_note in Hnb as (nb' & -> & Hn2).
  exists a7, b5, (SetCryptoEstablished c'), (SetCryptoEstablished s').
  split; [econstructor; [exact C1|econstructor; [exact C2|econstructor; [exact C3|econstructor; [exact C4|constructor]]]]|].
  split; [exact (idle_established _ _ _ _ _ _ _ _ _ _ _ _ Ia7 eq_refl Hra2 Hn1)|].
  split; [exact (idle_established _ _ _ _ _ _ _ _ _ _ _ _ Ib5 eq_refl Hrb2 Hn2)|]. split; [exact HL'|]. split; apply (sl_established Hsl).
Qed.
End Run.
End PeerConnect.

(** The layer of libsodium is such a layer. *)
Lemma sodium_sealing {sodium : Sodium} : @sealing EncryptionLayerSodium SodiumLayer.
Proof.
  split; [done|]. intros origin c c' ok st st'. cbn [HandleKeyExchange SodiumLayer]. unfold Sodium_HandleKeyExchange, mbind, st_bind, lift, mret, st_ret.
  destruct (read_array KEY_LENGTH st) as [[key s1]|]; [|done]. destruct origin; [|destruct (deref_key (m_kx c)) as [kx|]; [|done]..].
  - now intros [= <- <- <-].
  - destruct (crypto_kx_client_session_keys _ _ _) as [[rx tx]|]; intros [= <- <- <-]; done.
  - destruct (crypto_kx_server_session_keys _ _ _) as [[rx tx]|]; intros [= <- <- <-]; done.
Qed.

(** C3: a connection is made. Peer a, whose socket is open, calls Connect, without a
    public key to expect, with the address of peer b, which has a slot for incoming peers;
    neither knows the other, their out-of-band slots are idle and have room in their
    budgets, and both have encryption enabled or both disabled. Connect reports success
    and the callback begins the handshake. Three datagrams without encryption and five
    with it (no challenge is part of them) go to and fro, the first from a, each sent by
    the write cycle of slot 0 and read by the other end, at any times in that order, none
    lost; then both peers hold an established connection with each other: they find each
    other by ID and by address, the slot is as the theorems on delivery need it, each
    application got exactly one notification, with the ID of the other peer as its sender,
    and no other slot was touched. With encryption both layers hold session keys that fit
    and use them. *)
Theorem connection_established {host : Host} {sign : CharSign} {RemoteAddress : Type} {address_eq : EqDecision RemoteAddress} (no_address : RemoteAddress)
    {crypto : Type} {layer : EncryptionLayer crypto} {laws : EncryptionLaws crypto} make_layer {callback : Type} enc asio ea eb t1 t2 times
    (a b : Peer RemoteAddress crypto callback) at_a at_b i j la lb ca cb hostname port :
  or_left_first = true -> 0 <= m_id a < 2 ^ 64 -> 0 <= m_id b < 2 ^ 64 ->
  vacant no_address make_layer enc ea i at_b (m_id b) la a -> vacant no_address make_layer enc eb j at_a (m_id a) lb b ->
  (enc = true -> sealing (crypto := crypto) /\ ready la lb /\ GetNeedsChallenge la = false) ->
  GetNextAvailableConnectSlot a = Some i -> GetNextAvailableIncomingSlot b = Some j ->
  mailbox (part_size + part_size + part_size) ca [] a -> mailbox (part_size + part_size) cb [] b ->
  m_state (m_masterSocket a) = OPEN -> IsOpenAndReady (m_masterSocket a) = true -> posted (m_masterSocket a) = [] ->
  IsWritePending (m_masterSocket a) = false -> IsWritePending (m_masterSocket b) = false ->
  hostname <> [] -> port <> 0 -> Resolve asio hostname port (m_masterSocket a) = Some at_b ->
  length times = (if enc then 5 else 3)%nat -> in_turn t2 times ->
  exists a1 a2 a' b' la' lb',
    Connect no_address make_layer asio t1 ea hostname port None a = Ret (CAR_OK, a1)
    /\ exec no_address make_layer asio t2 ea Ev_connected a1 = Ret (tt, a2)
    /\ alternates no_address make_layer asio times ea eb at_a at_b a2 b a' b'
    /\ established i at_b (m_id b) la' NOTIFY_CONNECT_SUCCESS a a' /\ established j at_a (m_id a) lb' NOTIFY_CONNECTION_INCOMING b b'
    /\ (if enc then linked la' lb' /\ GetCryptoEstablished la' = true /\ GetCryptoEstablished lb' = true else la' = la /\ lb' = lb).
Proof.
  intros Hor Hida Hidb Hva Hvb Henc Hsa Hsb Hma Hmb Hst Hop Hpost Hfa Hfb Hhost Hport Hres Hlen Hturn.
  pose proof (vacant_clear _ _ _ _ _ _ _ _ _ Hva) as Hca. pose proof (vacant_clear _ _ _ _ _ _ _ _ _ Hvb) as Hcb. pose proof part_size_nonneg as Hps.
  destruct (connect_spec no_address make_layer enc asio t1 ea hostname port i at_b (m_id b) la a Hva Hsa Hst Hop Hpost Hhost Hport Hres) as (h & s & Eh & Hts & Ec).
  destruct (callback_spec no_address make_layer enc asio t2 t1 ea i at_b (m_id b) la _ ca a h s Hva Eh Hts Hma) as (ra & a2 & Ecb & Sa).
  destruct (stepped_idle _ _ _ _ _ _ _ _ _ _ _ Sa Hfa) as (qa & na & Ia & Hqa & Hna). apply Forall2_nil_inv_r in Hna as ->. apply one_part in Hqa as (m1 & -> & Hq1).
  rewrite app_nil_r in Ia. apply (sent_as _ _ _ _ _ false) in Hq1; [|exact Hca].
  destruct times as [|[u1 u2] times]; [now destruct enc|]. destruct Hturn as [T1 Hturn].
  destruct (opening no_address make_layer enc asio ea eb a b at_a at_b i j la lb Hor Hida Hcb u1 u2 t2 ca cb ra m1 (part_size + part_size) (part_size + part_size) a2 Ia
    ltac:(lia) Hq1 T1 Hvb Hsb Hmb Hfb) as (a3 & b1 & ca' & rb & m2 & C1 & Ia3 & Ib1 & Hq2).
  destruct enc.
  - destruct times as [|[u3 u4] [|[u5 u6] [|[u7 u8] [|[u9 u10] [|? ?]]]]]; try discriminate. destruct (Henc eq_refl) as (Hsl & Hrd & Hnc).
    destruct (sealed_rest no_address make_layer true asio ea eb a b at_a at_b i j la lb Hor Hida Hidb Hca Hcb t2 u2 ca' cb ra rb m2 a3 b1 Ib1 Hq2
      u3 u4 u5 u6 u7 u8 u9 u10 eq_refl Hsl Hnc Hrd Hturn Ia3) as (a' & b' & la' & lb' & C & Ha & Hb & H).
    eexists _, a2, a', b', la', lb'. split; [exact Ec|]. split; [exact Ecb|]. split; [econstructor; [exact C1|exact C]|done].
  - destruct times as [|[u3 u4] [|[u5 u6] [|? ?]]]; try discriminate.
    destruct (plain_rest no_address make_layer false asio ea eb a b at_a at_b i j la lb Hor Hida Hidb Hca Hcb t2 u2 ca' cb ra rb m2 a3 b1 Ib1 Hq2
      u3 u4 u5 u6 eq_refl Hturn Ia3) as (a' & b' & C & Ha & Hb).
    eexists _, a2, a', b', la, lb. split; [exact Ec|]. split; [exact Ecb|]. split; [econstructor; [exact C1|exact C]|done].
Qed.

(** ** Witness *)

#[local] Instance demo_host : Host := {| little_endian := true; or_left_first := true |}.
#[local] Instance demo_sign : CharSign := {| char_signed := true |}.
#[local] Instance demo_sodium : Sodium := model_sodium.
#[local] Instance demo_laws : EncryptionLaws EncryptionLayerSodium := @SodiumLayer_laws model_sodium model_sodium_laws.

(** Two peers that were bound, the second open for incoming peers. *)
Definition bound_peer (id incoming : Z) : Peer Z EncryptionLayerSodium Z :=
  mkPeer id 3 incoming (holding []) ∅ (mkSocket OPEN IPv4 true [] true false true false []) [oob_remote; RemotePeer_new 0; RemotePeer_new 0] [] ∅
    [UNORDERED] None true ∅ 0 [].
Definition demo_asio : Asio Z := mkAsio (fun _ _ _ => Some [2]) (fun _ _ => Bound) (fun _ => []).
(** The layer that a slot gets. *)
Definition demo_layer (entropy : Z) : EncryptionLayerSodium :=
  mkSodium None (Some (kx_pair entropy)) (zeroes KEY_LENGTH) (zeroes CHALLENGE_LENGTH) (zeroes KEY_LENGTH) (zeroes KEY_LENGTH) false false false false.

Lemma bound_vacant entropy id incoming i there other : (i = 1 \/ i = 2)%nat ->
  vacant 0 EncryptionLayerSodium_new true entropy i there other (demo_layer entropy) (bound_peer id incoming).
Proof.
  intros Hi. assert (N : forall (j : nat) r, m_remotes (bound_peer id incoming) !! j = Some r -> j <> 0%nat -> active r = true -> False).
  { intros j r Hj H0 Ha. destruct j as [|[|[|j]]]; cbn in Hj; simplify_eq; done. }
  split; try done; [now destruct Hi as [->| ->]|destruct Hi as [->| ->]; cbn; lia|intros; exfalso; eauto|intros; exfalso; eauto|].
  exists (demo_layer entropy). done.
Qed.

Lemma bound_mailbox n id incoming : n <= 1300 -> mailbox n (CongestionControl_new 10) [] (bound_peer id incoming).
Proof. intros Hn. split; [now exists oob_remote|done|cbn; lia|cbn; unfold MTU; lia]. Qed.

Lemma connection_established_witness : exists (a b : Peer Z EncryptionLayerSodium Z) la lb,
  established 1 2 22 la NOTIFY_CONNECT_SUCCESS (bound_peer 11 0) a /\ established 2 1 11 lb NOTIFY_CONNECTION_INCOMING (bound_peer 22 2) b /\ linked la lb.
Proof.
  destruct (connection_established 0 EncryptionLayerSodium_new true demo_asio 5 9 0 100 [(200, 300); (400, 500); (600, 700); (800, 900); (1000, 1100)]
    (bound_peer 11 0) (bound_peer 22 2) 1 2 1 2 (demo_layer 5) (demo_layer 9)
    (CongestionControl_new 10) (CongestionControl_new 10) [104] 7) as (a1 & a2 & a' & b' & la & lb & _ & _ & _ & Ha & Hb & Hl & _).
  - reflexivity.
  - cbn. lia.
  - cbn. lia.
  - apply bound_vacant. lia.
  - apply bound_vacant. lia.
  - intros _. split; [apply sodium_sealing|]. split; [|reflexivity]. split; [done|]. split; [done|]. split; [discriminate|]. exists 5, 9. split; reflexivity.
  - reflexivity.
  - reflexivity.
  - apply bound_mailbox. vm_compute. discriminate.
  - apply bound_mailbox. vm_compute. discriminate.
  - reflexivity.
  - reflexivity.
  - reflexivity.
  - reflexivity.
  - reflexivity.
  - discriminate.
  - discriminate.
  - reflexivity.
  - reflexivity.
  - repeat split; discriminate.
  - exists a', b', la, lb. split; [exact Ha|]. split; [exact Hb|exact Hl].
Defined.
