(* ===== verification/ConnectFailure.v ===== *)
(** * ConnectFailure: a connection attempt that nobody answers

    The statement of ThreadWorker (source/PacketQueue.cpp) that lets the handshaker of a
    slot repeat itself, composed with Handshaker::Update (source/Handshaker.cpp) and the
    handlers of Peer (SendHandshakePart, SendHandshakeCompleteNotification): when the last
    message is queued again, and what the peer does when the retries are used up. *)

From stdpp Require Import base tactics gmap sets list list_numbers numbers option.
From Stdlib Require Import ZArith Lia.
From S2P Require Import Prelude Memory BinaryStream StreamSpec StreamCodec Config PeerStats Packet Headers.
From S2P Require Import ChannelBuffer CongestionControl Reassembly ReceiptTracker RpcController Encryption Handshake Socket RemotePeer PacketQueue Peer PacketFlow HandshakeTheorems DatagramTheorems PeerFrame PeerInvariant PeerEvents Delivery Sessions OutOfBand PeerConnect.

Open Scope Z_scope.

Section ConnectFailure.
Context {host : Host} {sign : CharSign} {RemoteAddress : Type} {address_eq : EqDecision RemoteAddress} (no_address : RemoteAddress).
Context {crypto : Type} {layer : EncryptionLayer crypto} {callback : Type}.

Abbreviation Peer := (Peer RemoteAddress crypto callback).
Abbreviation RemotePeer := (RemotePeer RemoteAddress).

(** Slot [i] has sent the message [bs] of its handshake [n] times, and the next time is
    [next]; [est] says whether its keys are in use. *)
Record unanswered (i : nat) (origin : ConnectionOrigin) (bs : list Z) (est : bool) (n next : Z) (r : RemotePeer) (p : Peer) : Prop := {
  ua_shaking : exists A, shaking i A r p /\ ah_seen A = [] /\ ah_result A = result_code IN_PROGRESS /\ ah_origin A = origin
    /\ ah_last A = bs /\ GetCryptoEstablished (ah_crypto A) = est /\ ah_attempts A = n /\ ah_next A = next;
  ua_message : bs <> [] /\ Forall is_byte bs /\ zlength bs < MTU - 100;
  ua_count : 1 <= n <= 4;
}.

Lemma part_queued_frame now (r r' : RemotePeer) m part : addr r = addr r' -> rp_crypto r = rp_crypto r' -> part_queued now r m part -> part_queued now r' m part.
Proof. intros Ea Ec (H1 & H2 & H3). split; [congruence|]. split; [now rewrite <- Ec|done]. Qed.

(** The handshaker of a slot that is not done is updated. *)
Lemma stage_updates now entropy i A r (p p' : Peer) : shaking i A r p -> ah_result A = result_code IN_PROGRESS ->
  with_handshake no_address now i (fun _ => Handshaker_Update now) p = Ret (tt, p') ->
  worker_stage no_address now entropy i S_handshake p = Ret (Next S_congestion, p').
Proof.
  intros [Hr _ _ (h & k & Hh & _ & _ & HA)] Hres E. unfold worker_stage. rewrite (bind_ret _ _ _ _ _ (slot_found i r p Hr)), Hh. unfold IsDone.
  rewrite (hr_result _ _ HA : m_result h = ah_result A), Hres. cbn [result_code Z.eqb negb]. now rewrite (bind_ret _ _ _ _ _ E).
Qed.

(** Nothing happens before the time. *)
Lemma stage_waits now entropy i origin bs est n next r (p : Peer) : unanswered i origin bs est n next r p -> now < next ->
  worker_stage no_address now entropy i S_handshake p = Ret (Next S_congestion, p).
Proof.
  intros [(A & Hs & _ & Hres & _ & _ & _ & _ & Hnext) _ _] Ht. apply (stage_updates now entropy i A r p p Hs Hres).
  destruct Hs as [Hr _ Ha (h & k & Hh & Hk & Hl & HA)].
  set (s := mkHState h (ah_crypto A) (rp_id r) true []) in HA.
  assert (Eu : Handshaker_Update now s = Ret (tt, s)).
  { unfold Handshaker_Update. rewrite (bind_ret (this (crypto := crypto)) _ s h s eq_refl). unfold Elapsed.
    rewrite (hr_next _ _ HA : m_resendNext h = ah_next A), (proj2 (Z.leb_gt _ _)) by lia. now rewrite orb_true_r. }
  unfold with_handshake.
  rewrite (bind_ret _ _ _ _ _ (slot_found i r p Hr)), Hh, (bind_lift _ _ _ _ eq_refl), bind_get, Hk, Hl, (bind_lift _ _ _ _ eq_refl).
  rewrite (bind_lift _ _ _ _ Eu).
  cbv beta iota. unfold set_slot. rewrite !bind_modify. cbn. rewrite (insert_id _ _ _ Hl).
  assert (Er : set_handshake h (rp_id r) r = r) by (unfold set_handshake; rewrite <- Hh; now destruct r). rewrite Er, (list_insert_id _ _ _ Hr). now destruct p.
Qed.

(** The message is queued again when its time has come. *)
Lemma stage_retries now entropy i origin bs est n next r r0 (p : Peer) : unanswered i origin bs est n next r p -> n < 4 -> next <= now ->
  0 <= now < 2 ^ 64 - FromMilliseconds CONNECT_RETRY_DELAY -> m_remotes p !! 0%nat = Some r0 ->
  exists m r' p', worker_stage no_address now entropy i S_handshake p = Ret (Next S_congestion, p')
    /\ unanswered i origin bs est (n + 1) (now + FromMilliseconds CONNECT_RETRY_DELAY) r' p' /\ part_queued now r m (bs, est)
    /\ m_remotes p' !! 0%nat = Some (set_outbox (outbox r0 ++ [m]) r0) /\ m_inbox p' = m_inbox p
    /\ addr r' = addr r /\ rp_crypto r' = rp_crypto r /\ rp_id r' = rp_id r /\ beside i p p'.
Proof.
  intros [(A & Hs & Hseen & Hres & Ho & Hlast & Hest & Hn & Hnext) (Hne & Hb & Hl) Hc] Hn4 Ht Hnow H0.
  assert (Eu : a_update now A = a_reply now bs true (a_set_attempts (n + 1) A)).
  { unfold a_update, Elapsed. rewrite Hres, Hnext, (proj2 (Z.leb_le _ _) Ht). cbn [negb result_code Z.eqb orb]. rewrite u32_small by lia.
    cbv zeta. cbn [a_set_attempts ah_attempts]. unfold CONNECT_RETRY_COUNT. rewrite (proj2 (Z.ltb_ge _ _)), Hlast, Hn by lia. now destruct bs. }
  assert (Hrem : ah_remote A = rp_id r) by (destruct Hs as [_ _ _ (h & k & _ & _ & _ & HA)]; symmetry; exact (hr_remote _ _ HA)).
  assert (Ha : ah_alive A = true) by apply Hs. pose proof (hsim_update now A Ha) as Hsim. rewrite Eu in Hsim.
  set (A' := a_reply now bs true (a_set_attempts (n + 1) A)) in *.
  assert (Eseen : ah_seen A' = [Sent bs est]) by (cbn; now rewrite Hseen, Hest).
  destruct (with_handshake_step no_address now i (fun _ => Handshaker_Update now) A A' r r0 p Hs H0 Hsim Ha) as (p' & E & [(h & ms & ns & layers & Hp')]).
  { rewrite Eseen. done. }
  { rewrite Eseen. now repeat constructor. }
  cbv zeta in Hp'. set (r' := set_handshake h (ah_remote A') r) in Hp'. destruct Hp' as (-> & Hs' & Hms & Hns).
  rewrite Eseen in Hms, Hns. destruct (one_part _ _ _ _ Hms) as (m & -> & Hm). apply Forall2_nil_inv_r in Hns as ->. rewrite app_nil_r in *.
  eexists m, r', _. split; [exact (stage_updates now entropy i A r p _ Hs Hres E)|]. split; [|split; [exact Hm|]].
  - split; [|done|lia]. exists (a_forget A'). split; [exact Hs'|]. unfold A'. cbn -[Timestamp_add FromMilliseconds]. repeat (split; [done|]).
    unfold Timestamp_add. apply u64_small. change (2 ^ 64) with 18446744073709551616 in Hnow.
    change (FromMilliseconds CONNECT_RETRY_DELAY) with 2000000000 in *. lia.
  - split; [|split; [done|split; [done|split; [done|split; [exact Hrem|]]]]].
    + cbn. apply list_lookup_insert_eq. rewrite length_insert. now apply lookup_lt_Some in H0.
    + eapply beside_trans; [|apply beside_slot0]. eapply beside_trans; [apply beside_layers|apply beside_slot].
Qed.

(** The completion handler of a failure: the slot is emptied, and the user is told unless
    the other side had begun. *)
Lemma failure_note i n code h r (p : Peer) : m_remotes p !! i = Some r -> handshake r = Some h -> m_result h <> result_code CR_OK ->
  holds n NOTIFY_CONNECT_FAILED [code] \/ m_origin h = REMOTE ->
  exists ns, SendHandshakeCompleteNotification no_address i n p = Ret (tt, at_slot i (RemotePeer_new no_address) (m_inbox p ++ ns) p)
    /\ if decide (m_origin h = REMOTE) then ns = [] else exists n', ns = [n'] /\ posted_note r n' (NOTIFY_CONNECT_FAILED, code).
Proof.
  intros Hr Hh Hres Hn. unfold SendHandshakeCompleteNotification. rewrite (bind_ret _ _ _ _ _ (slot_found i r p Hr)), Hh.
  rewrite (bind_lift _ _ _ _ eq_refl). cbv zeta. rewrite (proj2 (Z.eqb_neq _ _) Hres). cbn [negb orb]. rewrite orb_false_r.
  assert (Hreset : forall ns, reset_slot no_address i (set_inbox (m_inbox p ++ ns) p) = Ret (tt, at_slot i (RemotePeer_new no_address) (m_inbox p ++ ns) p)).
  { intros ns. unfold reset_slot. rewrite (bind_ret _ _ _ _ _ (slot_found i r (set_inbox (m_inbox p ++ ns) p) Hr)). reflexivity. }
  destruct (decide (m_origin h = REMOTE)) as [E|E].
  - exists []. rewrite bool_decide_true by done. split; [|done]. rewrite <- Hreset, app_nil_r. cbn [negb]. now destruct p.
  - destruct Hn as [Hn|]; [|done]. rewrite bool_decide_false by done. cbn [negb].
    assert (Hs : holds (SetSender (rp_id r) n) NOTIFY_CONNECT_FAILED [code]) by (destruct Hn; now split).
    destruct (Packet_copy_holds _ _ _ Hs) as (n' & Ec & Hc & Hsend); [unfold max_len; zlen|]. exists [n']. split; [|exists n'; split; [done|now split]].
    rewrite <- Hreset. erewrite bind_ret; [reflexivity|]. unfold SendLoopback, EnqueueLoopback. unfold mbind, st_bind, get. cbn. now rewrite Ec.
Qed.

(** The retries are used up. *)
Lemma stage_fails now entropy i origin bs est next r (p : Peer) : unanswered i origin bs est 4 next r p -> origin <> ORIGIN_INVALID -> next <= now ->
  exists ns p', worker_stage no_address now entropy i S_handshake p = Ret (Next S_congestion, p')
    /\ m_remotes p' !! i = Some (RemotePeer_new no_address) /\ (forall j, j <> i -> m_remotes p' !! j = m_remotes p !! j) /\ m_inbox p' = m_inbox p ++ ns
    /\ if decide (origin = REMOTE) then ns = [] else exists n, ns = [n] /\ posted_note r n (NOTIFY_CONNECT_FAILED, 2).
Proof.
  intros [(A & Hs & Hseen & Hres & Ho & _ & _ & Hn & Hnext) _ _] Hinv Ht.
  assert (Eu : a_update now A = a_complete (result_code CONNECT_FAILED) (a_set_attempts 5 A)).
  { unfold a_update, Elapsed. rewrite Hres, Hnext, (proj2 (Z.leb_le _ _) Ht), Hn. reflexivity. }
  pose proof (hsim_update now A (sk_alive _ _ _ _ Hs)) as Hsim. rewrite Eu in Hsim.
  pose proof Hs as [Hr Hi _ (h & k & Hh & Hk & Hl & HA)]. destruct (Hsim _ HA) as (s & Es & [Eo Er _ _ _ _ _ Ec Eid _ Hobs]).
  cbn in Eo, Er, Ec, Eid, Hobs. rewrite Hseen in Hobs.
  apply Forall2_cons_inv_r in Hobs as (e & es & (n & -> & Hn') & Hnil & Ees). apply Forall2_nil_inv_r in Hnil as ->.
  set (r1 := set_handshake (st_hs s) (st_remote_id s) r).
  set (p1 := at_slot i r1 (m_inbox p) (set_layers (<[k := st_crypto s]> (p_layers p)) (p_fresh p) p)).
  assert (Hlen : (i < length (m_remotes p))%nat) by now apply lookup_lt_Some in Hr.
  destruct (failure_note i n 2 (st_hs s) r1 p1) as (ns & En & Hns).
  { cbn. now rewrite list_lookup_insert_eq. }
  { done. }
  { rewrite Er. done. }
  { rewrite Eo. destruct (ah_origin A); [done|left; exact Hn'|now right]. }
  eexists ns, _. split; [apply (stage_updates now entropy i A r p _ Hs Hres)|].
  { unfold with_handshake. rewrite (bind_ret _ _ _ _ _ (slot_found i r p Hr)), Hh, (bind_lift _ _ _ _ eq_refl), bind_get, Hk, Hl.
    rewrite (bind_lift _ _ _ _ eq_refl), (bind_lift _ _ _ _ Es). cbv beta iota. unfold set_slot. rewrite !bind_modify.
    rewrite Ees. cbn [run_effects]. exact (bind_ret _ _ _ _ _ En). }
  split; [cbn; rewrite list_lookup_insert_eq; [done|now rewrite length_insert]|].
  split; [intros j Hj; cbn; now rewrite !list_lookup_insert_ne by done|]. split; [done|]. rewrite Eo, Ho in Hns. destruct (decide (origin = REMOTE)); [done|].
  destruct Hns as (n' & -> & Hh' & Hsend). exists n'. split; [done|]. split; [done|]. rewrite Hsend. cbn. rewrite Eid. symmetry. exact (hr_remote _ _ HA).
Qed.

(** The state is the one in which a Connect leaves the slot of the client, and the first
    message of an unknown peer the slot of the server. *)
Section Begun.
Context {laws : EncryptionLaws crypto} (enc : bool) (now : Z) (i : nat) (there : RemoteAddress) (id : Z) (l : crypto) (n : Z) (c : CongestionControl).
Context (ms : list (OutgoingPacket RemoteAddress)) (r : RemotePeer) (p p' : Peer) (Hnow : 0 <= now < 2 ^ 64 - FromMilliseconds CONNECT_RETRY_DELAY).
Context (Hclear : GetCryptoEstablished l = false).

Lemma begun_next : Timestamp_add now (FromMilliseconds CONNECT_RETRY_DELAY) = now + FromMilliseconds CONNECT_RETRY_DELAY.
Proof. unfold Timestamp_add. apply u64_small. change (FromMilliseconds CONNECT_RETRY_DELAY) with 2000000000 in *. lia. Qed.

Lemma hello_message me opcode : is_byte opcode -> hs_part me opcode (hs_flag enc) <> [] /\ Forall is_byte (hs_part me opcode (hs_flag enc))
  /\ zlength (hs_part me opcode (hs_flag enc)) < MTU - 100.
Proof.
  intros Ho. destruct (fits_part me opcode (hs_flag enc) false Ho (flag_byte enc) (flag_small enc)) as [Hb Hl]. split; [|done].
  intros E. pose proof (hs_part_length me opcode (hs_flag enc)) as H. rewrite E in H. pose proof (zlength_nonneg (hs_flag enc)). change (zlength (@nil Z)) with 0 in H. lia.
Qed.

Lemma client_unanswered me : stepped enc now i there id (client_waits enc now me l) n c ms r p p' ->
  unanswered i SELF (hs_part me INITIAL_CLIENT (hs_flag enc)) false 1 (now + FromMilliseconds CONNECT_RETRY_DELAY) r p'.
Proof.
  intros H. split; [|apply hello_message; unfold is_byte, INITIAL_CLIENT; lia|lia]. exists (a_forget (client_waits enc now me l)).
  split; [apply (st_party _ _ _ _ _ _ _ _ _ _ _ _ H)|]. rewrite <- begun_next. repeat (split; [done|]). done.
Qed.

Lemma server_unanswered me : stepped enc now i there id (server_waits enc now me id l) n c ms r p p' ->
  unanswered i REMOTE (hs_part me INITIAL_SERVER (hs_flag enc)) false 1 (now + FromMilliseconds CONNECT_RETRY_DELAY) r p'.
Proof.
  intros H. split; [|apply hello_message; unfold is_byte, INITIAL_SERVER; lia|lia]. exists (a_forget (server_waits enc now me id l)).
  split; [apply (st_party _ _ _ _ _ _ _ _ _ _ _ _ H)|]. rewrite <- begun_next. repeat (split; [done|]). done.
Qed.
End Begun.
End ConnectFailure.

(** C35: a connection attempt that nobody answers. The statement of ThreadWorker that
    updates the handshaker of a slot does nothing before the time of the next attempt; at
    the three attempts after that it queues the same message, unchanged, in slot 0 for the
    address of the slot, and waits two seconds more each time; the fourth time it gives
    up, and the slot is empty and free again. If this side had begun, exactly one
    notification NOTIFY_CONNECT_FAILED with the code of CONNECT_FAILED is added to the
    inbox; if the other side had begun, the user is not told. The other slots do not
    change, and nothing else is queued in slot 0. *)
Theorem attempt_gives_up {host : Host} {sign : CharSign} {RemoteAddress : Type} {address_eq : EqDecision RemoteAddress} (no_address : RemoteAddress)
    {crypto : Type} {layer : EncryptionLayer crypto} {callback : Type}
    i origin bs est next r r0 (p : Peer RemoteAddress crypto callback) t1 t2 t3 t4 entropy :
  let delay := FromMilliseconds CONNECT_RETRY_DELAY in
  let update t := worker_stage no_address t entropy i S_handshake in
  let idle_until t p := forall t', t' < t -> update t' p = Ret (Next S_congestion, p) in
  unanswered i origin bs est 1 next r p -> origin <> ORIGIN_INVALID -> m_remotes p !! 0%nat = Some r0 ->
  0 <= next <= t1 -> t1 + delay <= t2 -> t2 + delay <= t3 -> t3 + delay <= t4 -> t4 < 2 ^ 64 ->
  exists p1 p2 p3 p4 m1 m2 m3 ns,
    idle_until next p /\ update t1 p = Ret (Next S_congestion, p1) /\ idle_until (t1 + delay) p1 /\ update t2 p1 = Ret (Next S_congestion, p2)
    /\ idle_until (t2 + delay) p2 /\ update t3 p2 = Ret (Next S_congestion, p3) /\ idle_until (t3 + delay) p3 /\ update t4 p3 = Ret (Next S_congestion, p4)
    /\ part_queued t1 r m1 (bs, est) /\ part_queued t2 r m2 (bs, est) /\ part_queued t3 r m3 (bs, est)
    /\ m_inbox p3 = m_inbox p /\ m_remotes p4 !! 0%nat = Some (set_outbox (outbox r0 ++ [m1; m2; m3]) r0)
    /\ m_remotes p4 !! i = Some (RemotePeer_new no_address) /\ (forall j, j <> 0%nat -> j <> i -> m_remotes p4 !! j = m_remotes p !! j)
    /\ m_inbox p4 = m_inbox p ++ ns
    /\ if decide (origin = REMOTE) then ns = [] else exists n, ns = [n] /\ holds n NOTIFY_CONNECT_FAILED [result_code CONNECT_FAILED] /\ pk_sender n = rp_id r.
Proof.
  intros delay update idle_until U Hinv H0 Hnext H2 H3 H4 Hmax. assert (Hd : delay = 2000000000) by reflexivity. unfold delay in *.
  destruct (stage_retries no_address t1 entropy i origin bs est 1 next r r0 p U) as (m1 & r1 & p1 & E1 & U1 & Q1 & S1 & I1 & A1 & K1 & N1 & B1); [lia..|done|].
  destruct (stage_retries no_address t2 entropy i origin bs est 2 _ r1 (set_outbox (outbox r0 ++ [m1]) r0) p1 U1) as (m2 & r2 & p2 & E2 & U2 & Q2 & S2 & I2 & A2 & K2 & N2 & B2); [lia..|done|].
  destruct (stage_retries no_address t3 entropy i origin bs est 3 _ r2 (set_outbox ((outbox r0 ++ [m1]) ++ [m2]) r0) p2 U2) as (m3 & r3 & p3 & E3 & U3 & Q3 & S3 & I3 & A3 & K3 & N3 & B3); [lia..|done|].
  destruct (stage_fails no_address t4 entropy i origin bs est _ r3 p3 U3 Hinv ltac:(lia)) as (ns & p4 & E4 & Ri & Rj & I4 & Hns).
  assert (Hi : i <> 0%nat) by (destruct U as [(A & Hs & _) _ _]; apply Hs).
  exists p1, p2, p3, p4, m1, m2, m3, ns.
  split; [intros t; now apply (stage_waits no_address t entropy i origin bs est 1 next r p)|]. split; [exact E1|].
  split; [intros t; now apply (stage_waits no_address t entropy i origin bs est 2 _ r1 p1)|]. split; [exact E2|].
  split; [intros t; now apply (stage_waits no_address t entropy i origin bs est 3 _ r2 p2)|]. split; [exact E3|].
  split; [intros t; now apply (stage_waits no_address t entropy i origin bs est 4 _ r3 p3)|]. split; [exact E4|].
  split; [exact Q1|]. split; [apply (part_queued_frame t2 r1 r m2 _ A1 K1 Q2)|]. split; [apply (part_queued_frame t3 r2 r m3); congruence || done|].
  split; [congruence|]. split; [rewrite Rj, S3 by done; cbn; now rewrite <- !app_assoc|]. split; [exact Ri|].
  split; [intros j J0 Ji; rewrite Rj, (be_slots _ _ _ B3), (be_slots _ _ _ B2) by done; now apply (be_slots _ _ _ B1)|]. split; [congruence|].
  destruct (decide (origin = REMOTE)) as [|_]; [done|]. destruct Hns as (n & -> & Hn & Hsend). exists n. split; [done|]. split; [exact Hn|congruence].
Qed.

(** ** Witness *)

#[local] Existing Instances demo_host demo_sign demo_sodium demo_laws.

(** A peer that was bound connects; nobody answers. *)
Lemma attempt_gives_up_witness : exists p r0 p1 p2 p3 p4 m1 m2 m3 n,
  let update t := worker_stage 0 t 5 1 S_handshake in
  m_remotes p !! 0%nat = Some r0 /\ m_inbox p = [] /\ update 1000000100 p = Ret (Next S_congestion, p)
  /\ update 2000000100 p = Ret (Next S_congestion, p1) /\ update 5000000000 p1 = Ret (Next S_congestion, p2)
  /\ update 7000000000 p2 = Ret (Next S_congestion, p3) /\ update 9000000000 p3 = Ret (Next S_congestion, p4)
  /\ m_remotes p4 !! 0%nat = Some (set_outbox (outbox r0 ++ [m1; m2; m3]) r0) /\ m_remotes p4 !! 1%nat = Some (RemotePeer_new (0 : Z))
  /\ m_inbox (callback := Z) (crypto := EncryptionLayerSodium) p4 = [n] /\ holds n NOTIFY_CONNECT_FAILED [2].
Proof.
  pose (l := demo_layer 5). pose (a := bound_peer 11 0). pose proof (bound_vacant 5 11 0 1 2 22 ltac:(lia)) as Hv. fold l a in Hv.
  destruct (connect_spec 0 EncryptionLayerSodium_new true demo_asio 0 5 [104] 7 1 2 22 l a Hv) as (h & s & Eh & Hts & _); try done.
  destruct (callback_spec 0 EncryptionLayerSodium_new true demo_asio 100 0 5 1 2 22 l 0 (CongestionControl_new 10) a h s Hv Eh Hts) as (r & p & _ & S);
    [apply bound_mailbox; lia|].
  pose proof (client_unanswered true 100 1 2 22 l 0 (CongestionControl_new 10) [] r a p ltac:(vm_compute; split; [discriminate|reflexivity]) eq_refl 11 S) as U.
  destruct (st_sent _ _ _ _ _ _ _ _ _ _ _ _ S) as (q & [(r0 & H0 & _) _ _ _] & _).
  destruct (st_noted _ _ _ _ _ _ _ _ _ _ _ _ S) as (ns & Hin & Hns). apply Forall2_nil_inv_r in Hns as ->.
  destruct (attempt_gives_up 0 1 SELF _ false _ r r0 p 2000000100 5000000000 7000000000 9000000000 5 U)
    as (p1 & p2 & p3 & p4 & m1 & m2 & m3 & ns & W & E1 & _ & E2 & _ & E3 & _ & E4 & _ & _ & _ & _ & B & R & _ & I & n & -> & Hn & _);
    [discriminate|exact H0|split; discriminate|discriminate|discriminate|discriminate|reflexivity|].
  exists p, r0, p1, p2, p3, p4, m1, m2, m3, n. cbv zeta.
  split; [exact H0|]. split; [exact Hin|]. split; [apply W; reflexivity|]. split; [exact E1|]. split; [exact E2|]. split; [exact E3|]. split; [exact E4|].
  split; [exact B|]. split; [exact R|]. split; [rewrite I, Hin; reflexivity|exact Hn].
Defined.
