(* ===== verification/Reliability.v ===== *)
(** * Reliability: what an unreliable network does to a stream of messages

    The write cycles of a sender and the read handler of a receiver
    (source/PacketQueue.cpp, source/DatagramBuilder.cpp) with a network in between
    that loses, repeats and reorders datagrams as it likes: what is queued arrives once,
    and on an ordered channel in order. *)

From stdpp Require Import base tactics gmap sets list list_numbers numbers option.
From Stdlib Require Import ZArith Lia.
From S2P Require Import Prelude Memory BinaryStream StreamSpec StreamCodec Config PeerStats Packet Headers.
From S2P Require Import ChannelBuffer CongestionControl Reassembly ReceiptTracker RpcController Encryption Handshake Socket RemotePeer PacketQueue Peer PacketFlow HandshakeTheorems DatagramTheorems PeerFrame PeerInvariant PeerEvents Delivery SplitDelivery EndToEnd.

Open Scope Z_scope.

#[export] Instance message_eq_dec : EqDecision message.
Proof. intros [h1 c1 p1] [h2 c2 p2]. unfold Decision. repeat decide equality. Defined.

(** ** Messages without their times *)

(** What one message that is new does to the channels and the inbox. *)
Definition pass (modes : list ChannelMode) (sender : Z) (st : gmap Z (ChannelBuffer Packet) * list Packet) (m : message)
    : gmap Z (ChannelBuffer Packet) * list Packet :=
  let ch := ph_channel (mg_header m) in
  if ch =? 0 then (st.1, st.2 ++ [packet_of sender m]) else
  match modes !! Z.to_nat ch with
  | None | Some UNORDERED => (st.1, st.2 ++ [packet_of sender m])
  | Some mode =>
      let '(ps, b) := deliver mode (ph_sequence (mg_header m)) (packet_of sender m) (default (ChannelBuffer_new ch) (st.1 !! ch)) in
      (<[ch := b]> st.1, st.2 ++ ps)
  end.

(** The receiver knows the channel. *)
Definition known (modes : list ChannelMode) (m : message) : Prop :=
  ph_channel (mg_header m) = 0 \/ is_Some (modes !! Z.to_nat (ph_channel (mg_header m))).

Lemma accept_new modes now sender m s : known modes m -> if_seen s !! ph_id (mg_header m) = None ->
  let st := pass modes sender (if_channels s, if_inbox s) m in
  accept modes now sender m s = Ret (mkInflow (<[ph_id (mg_header m) := now]> (if_seen s)) st.1 st.2).
Proof.
  intros Hk Hn st. unfold st, pass, accept. rewrite Hn. destruct (Z.eqb_spec (ph_channel (mg_header m)) 0) as [|Hch]; [done|].
  destruct Hk as [|[mode Hm]]; [done|]. rewrite Hm. destruct mode; [done| |]; cbn [fst snd]; now destruct (deliver _ _ _ _).
Qed.

(** ** First arrivals *)

Section Firsts.
Context (modes : list ChannelMode) (sender : Z) (pool : list message).
Context (Hknown : Forall (known modes) pool).
Context (Hids : forall m m', m ∈ pool -> m' ∈ pool -> ph_id (mg_header m) = ph_id (mg_header m') -> m = m').

(** Of the messages in [pool] exactly [firsts] were taken, in this order and each once. *)
Record taken_in (s0 : inflow) (firsts : list message) (s : inflow) : Prop := {
  ti_once : NoDup firsts;
  ti_pool : forall m, m ∈ firsts -> m ∈ pool;
  ti_seen : forall m, m ∈ pool -> is_Some (if_seen s !! ph_id (mg_header m)) <-> m ∈ firsts;
  ti_state : (if_channels s, if_inbox s) = foldl (pass modes sender) (if_channels s0, if_inbox s0) firsts;
}.

Lemma taken_in_start s : (forall m, m ∈ pool -> if_seen s !! ph_id (mg_header m) = None) -> taken_in s [] s.
Proof.
  intros H. split; [constructor|intros m Hm; now apply not_elem_of_nil in Hm| |done]. intros m Hm. rewrite (H m Hm).
  split; [intros []; done|intros Hn; now apply not_elem_of_nil in Hn].
Qed.

Lemma taken_in_step s0 firsts s now m : taken_in s0 firsts s -> m ∈ pool ->
  exists firsts' s', accept modes now sender m s = Ret s' /\ taken_in s0 firsts' s' /\ forall m', m' ∈ firsts' <-> m' ∈ firsts \/ m' = m.
Proof.
  intros [H1 H2 H3 H4] Hm. destruct (if_seen s !! ph_id (mg_header m)) as [t|] eqn:E.
  - exists firsts, s. split; [unfold accept; now rewrite E|]. split; [done|]. intros m'. split; [tauto|]. intros [?| ->]; [done|]. apply H3; [done|]. now exists t.
  - assert (Hf : m ∉ firsts) by (intros Hf%H3; [rewrite E in Hf; now destruct Hf|done]).
    exists (firsts ++ [m]). eexists. split; [apply accept_new; [rewrite list.Forall_forall in Hknown; now apply Hknown|exact E]|]. split.
    + split; cbn [if_seen if_channels if_inbox].
      * apply list.NoDup_app. split; [done|]. split; [|apply NoDup_singleton]. intros x Hx ->%list_elem_of_singleton. done.
      * intros x [Hx| ->%list_elem_of_singleton]%elem_of_app; auto.
      * intros x Hx. rewrite elem_of_app, list_elem_of_singleton, <- (H3 x Hx). destruct (decide (x = m)) as [->|Hne].
        { rewrite lookup_insert_eq. split; eauto. }
        rewrite lookup_insert_ne; [tauto|]. intros Ei. apply Hne. now apply Hids.
      * rewrite foldl_app, <- H4. cbn [foldl]. now destruct (pass _ _ _ _).
    + intros m'. rewrite elem_of_app, list_elem_of_singleton. done.
Qed.

Lemma taken_in_all s0 now ms : forall firsts s, taken_in s0 firsts s -> (forall m, m ∈ ms -> m ∈ pool) ->
  exists firsts' s', accept_all modes now sender ms s = Ret s' /\ taken_in s0 firsts' s' /\ forall m, m ∈ firsts' <-> m ∈ firsts \/ m ∈ ms.
Proof.
  induction ms as [|m ms IH]; intros firsts s Hs Hp.
  { exists firsts, s. split; [done|]. split; [done|]. intros m. rewrite elem_of_nil. tauto. }
  destruct (taken_in_step s0 firsts s now m Hs (Hp m ltac:(constructor))) as (f1 & s1 & E1 & H1 & M1). cbn [accept_all]. rewrite E1. cbn [mbind outcome_bind].
  destruct (IH f1 s1 H1) as (f2 & s2 & E2 & H2 & M2); [intros x Hx; apply Hp; now constructor|]. exists f2, s2. split; [done|]. split; [done|].
  intros x. rewrite M2, M1, elem_of_cons. tauto.
Qed.
End Firsts.

(** ** The receiver *)

(** A datagram on its way: its ID, the messages in it and the bytes on the wire. *)
Record parcel : Type := mkParcel { pc_id : Z; pc_messages : list message; pc_wire : list Z }.

#[export] Instance parcel_eq_dec : EqDecision parcel.
Proof. solve_decision. Defined.

(** The bytes of a data datagram before encryption. *)
Definition parcel_plain (x : parcel) : list Z :=
  let data := concat (map wire_message (pc_messages x)) in wire_datagram_header (mkDH true true [] [] (pc_id x) (zlength data)) ++ data.

(** One arrival of a parcel: the clock and the random bytes of the handler. *)
Record delivery : Type := mkDelivery { dv_now : Z; dv_entropy : Z; dv_parcel : parcel }.

Section Receiver.
Context {host : Host} {sign : CharSign} {RemoteAddress : Type} {address_eq : EqDecision RemoteAddress} (no_address : RemoteAddress).
Context {crypto : Type} {layer : EncryptionLayer crypto} (make_layer : Z -> outcome crypto) {callback : Type}.

Abbreviation Peer := (Peer RemoteAddress crypto callback).
Abbreviation RemotePeer := (RemotePeer RemoteAddress).
Abbreviation PM := (ST Peer).

(** The receiver, with its layer [l], can read the parcel. *)
Record parcel_ok (l : crypto) (x : parcel) : Prop := {
  po_id : 0 <= pc_id x < 4294967296;
  po_some : pc_messages x <> [];
  po_length : zlength (concat (map wire_message (pc_messages x))) + 7 <= MTU;
  po_bytes : Forall is_byte (pc_wire x) /\ zlength (pc_wire x) <= max_len;
  po_plain : unseals l (pc_wire x) (parcel_plain x);
}.

(** The read handler on each arrival in turn. *)
Fixpoint read_parcels (asio : Asio RemoteAddress) (sender : RemoteAddress) (ds : list delivery) : PM unit :=
  match ds with
  | [] => mret tt
  | d :: ds =>
      OnReadFinished no_address make_layer asio (dv_now d) (dv_entropy d) false sender (map Some (pc_wire (dv_parcel d)));;
      read_parcels asio sender ds
  end.

Section Pool.
Context (asio : Asio RemoteAddress) (sender : RemoteAddress) (i : nat) (l : crypto) (id : Z) (pool : list message) (parcels : list parcel) (p0 : Peer).
Context (Hok : Forall message_ok pool) (Hknown : Forall (known (m_channels p0)) pool).
Context (Hids : forall m m', m ∈ pool -> m' ∈ pool -> ph_id (mg_header m) = ph_id (mg_header m') -> m = m').
Context (Hparcels : forall x, x ∈ parcels -> parcel_ok l x /\ forall m, m ∈ pc_messages x -> m ∈ pool).
Context (Hnumbers : forall x y, x ∈ parcels -> y ∈ parcels -> pc_id x = pc_id y -> x = y).

(** After the parcels [arrived]: nothing but slot i and the inbox changed. *)
Record linked_state (s0 : inflow) (arrived : list parcel) (firsts : list message) (p : Peer) : Prop := {
  ls_frame : exists r c, p = at_slot i r (m_inbox p) p0 /\ connected p sender i r c l /\ rp_id r = id
    /\ taken_in (m_channels p0) id pool s0 firsts (mkInflow (m_packetHistory c) (channels r) (m_inbox p))
    /\ (forall x, x ∈ parcels -> is_Some (m_datagramHistory c !! pc_id x) <-> x ∈ arrived);
  ls_firsts : forall m, m ∈ firsts <-> exists x, x ∈ arrived /\ m ∈ pc_messages x;
}.

Lemma at_slot_twice r r' inbox inbox' (p : Peer) : at_slot i r' inbox' (at_slot i r inbox p) = at_slot i r' inbox' p.
Proof. unfold at_slot, set_remotes, set_inbox. cbn. now rewrite list_insert_insert_eq. Qed.

Lemma at_slot_over r r' inbox inbox' p : p = at_slot i r inbox' p0 -> at_slot i r' inbox p = at_slot i r' (m_inbox (at_slot i r' inbox p)) p0.
Proof. intros ->. now rewrite at_slot_twice. Qed.

Lemma read_parcel s0 arrived firsts p d : linked_state s0 arrived firsts p -> dv_parcel d ∈ parcels ->
  exists firsts' p', OnReadFinished no_address make_layer asio (dv_now d) (dv_entropy d) false sender (map Some (pc_wire (dv_parcel d))) p = Ret (tt, p')
    /\ linked_state s0 (dv_parcel d :: arrived) firsts' p'.
Proof.
  intros [(r & c & Ep & Hcn & Hrid & Ht & Hd) Hf] Hx. set (x := dv_parcel d) in *. destruct (Hparcels x Hx) as [[P1 P2 P3 [P4 P5] P6] Hin].
  assert (Hms : Forall message_ok (pc_messages x)).
  { rewrite list.Forall_forall in Hok |- *. auto. }
  pose proof (delivery_spec no_address make_layer asio (dv_now d) (dv_entropy d) p sender i r c l (pc_wire x) (pc_messages x) (pc_id x) Hcn Hms P2 P1 P3 P4 P5 P6) as H.
  unfold delivers in H. destruct (m_datagramHistory c !! pc_id x) as [t|] eqn:Eh.
  - destruct H as [st E]. exists firsts. eexists. split; [exact E|]. assert (Hxa : x ∈ arrived) by (apply Hd; [done|now exists t]). split.
    + exists (set_stats st r), c. split; [exact (at_slot_over r _ _ _ _ Ep)|].
      split; [apply (connected_again p sender i r c l); try done; apply Hcn|]. split; [done|]. split; [exact Ht|].
      intros y Hy. rewrite (Hd y Hy), elem_of_cons. split; [tauto|]. intros [->|?]; done.
    + intros m. rewrite Hf. split; intros (y & Hy & Hm); exists y; (split; [|done]); [now constructor|]. apply elem_of_cons in Hy as [->|Hy]; done.
  - destruct (taken_in_all (m_channels p0) id pool Hknown Hids s0 (dv_now d) (pc_messages x) firsts _ Ht Hin) as (firsts' & s' & E & Ht' & Hm).
    assert (Ech : m_channels p = m_channels p0) by now rewrite Ep. rewrite Ech, Hrid, E in H. destruct H as [st E'].
    exists firsts'. eexists. split; [exact E'|]. split.
    + eexists (received s' _ st r), _. split; [exact (at_slot_over r _ _ _ _ Ep)|].
      split; [apply (connected_again p sender i r c l); done|]. split; [done|]. split; [destruct s'; exact Ht'|].
      intros y Hy. cbn [m_datagramHistory set_history]. unfold NotifyReceivedDatagram. rewrite Eh. cbn [snd m_datagramHistory set_acks set_history].
      rewrite elem_of_cons, <- (Hd y Hy). destruct (decide (y = x)) as [->|Hne].
      { rewrite lookup_insert_eq. split; eauto. }
      rewrite lookup_insert_ne; [tauto|]. intros Ei. apply Hne. now apply Hnumbers.
    + intros m. rewrite Hm, Hf. split.
      * intros [(y & Hy & Hmy)|Hmx]; [exists y; split; [now constructor|done]|exists x; split; [constructor|done]].
      * intros (y & [->|Hy]%elem_of_cons & Hmy); [now right|left; eauto].
Qed.

Lemma read_parcels_spec s0 ds : forall arrived firsts p, linked_state s0 arrived firsts p -> (forall d, d ∈ ds -> dv_parcel d ∈ parcels) ->
  exists arrived' firsts' p', read_parcels asio sender ds p = Ret (tt, p') /\ linked_state s0 arrived' firsts' p'
    /\ forall x, x ∈ arrived' <-> x ∈ arrived \/ x ∈ map dv_parcel ds.
Proof.
  induction ds as [|d ds IH]; intros arrived firsts p Hs Hin.
  { exists arrived, firsts, p. split; [done|]. split; [done|]. intros x. cbn. rewrite elem_of_nil. tauto. }
  destruct (read_parcel s0 arrived firsts p d Hs (Hin d ltac:(constructor))) as (f1 & p1 & E1 & H1). cbn [read_parcels]. rewrite (bind_ret _ _ _ _ _ E1).
  destruct (IH _ f1 p1 H1) as (a2 & f2 & p2 & E2 & H2 & M2); [intros y Hy; apply Hin; now constructor|]. exists a2, f2, p2. split; [done|]. split; [done|].
  intros x. rewrite M2. cbn [map]. rewrite !elem_of_cons. tauto.
Qed.
End Pool.
End Receiver.

(** ** On an ordered channel *)

Section Ordered.
Context (modes : list ChannelMode) (sender ch : Z) (pool : list message).
Context (Hch : ch <> 0) (Hmode : modes !! Z.to_nat ch = Some ORDERED).

(** The messages of a stream: all on one channel, numbered from 0. *)
Definition stream_of : Prop := forall k m, pool !! k = Some m -> ph_channel (mg_header m) = ch /\ ph_sequence (mg_header m) = Z.of_nat k.
Context (Hstream : stream_of) (Hlen : zlength pool <= limit).

Lemma stream_number m : m ∈ pool -> exists k, pool !! k = Some m /\ ph_sequence (mg_header m) = Z.of_nat k.
Proof. intros [k Hk]%list_elem_of_lookup_1. exists k. split; [done|]. apply (Hstream k m Hk). Qed.

Lemma fold_channel firsts : forall st, (forall m, m ∈ firsts -> ph_channel (mg_header m) = ch) ->
  (foldl (pass modes sender) st firsts).2 = st.2 ++
  fst (deliver_all ORDERED (map (fun m => (ph_sequence (mg_header m), packet_of sender m)) firsts) (default (ChannelBuffer_new ch) (st.1 !! ch))).
Proof.
  induction firsts as [|m firsts IH]; intros st Hf; cbn [foldl map deliver_all fst]; [now rewrite app_nil_r|].
  rewrite IH; [|intros x Hx; apply Hf; now constructor]. unfold pass. rewrite (Hf m) by constructor.
  rewrite (proj2 (Z.eqb_neq _ _) Hch), Hmode. destruct (deliver _ _ _ _) as [ps b]. cbn [fst snd].
  rewrite lookup_insert_eq. cbn [default]. destruct (deliver_all _ _ _) as [qs b']. cbn [fst]. now rewrite app_assoc.
Qed.

Definition nth_packet (k : Z) : Packet :=
  match pool !! Z.to_nat k with Some m => packet_of sender m | None => mkPacket 0 0 0 None end.

Lemma nth_packets (d : nat) : (d <= length pool)%nat -> map nth_packet (seqZ 0 (Z.of_nat d)) = map (packet_of sender) (take d pool).
Proof.
  intros Hd. apply list_eq. intros k. change (map nth_packet) with (fmap (M := list) nth_packet). change (map (packet_of sender)) with (fmap (M := list) (packet_of sender)).
  rewrite !list_lookup_fmap. destruct (decide (k < d)%nat) as [Hk|Hk].
  - rewrite lookup_seqZ_lt by lia. rewrite lookup_take_lt by lia. cbn. unfold nth_packet. replace (Z.to_nat (0 + Z.of_nat k)) with k by lia.
    destruct (lookup_lt_is_Some_2 pool k) as [m Hm]; [lia|]. now rewrite Hm.
  - rewrite lookup_seqZ_ge by lia. rewrite lookup_take_ge by lia. done.
Qed.

Lemma stream_delivers st firsts : NoDup firsts -> (forall m, m ∈ firsts -> m ∈ pool) -> st.1 !! ch = None ->
  exists d, (d <= length pool)%nat /\ (foldl (pass modes sender) st firsts).2 = st.2 ++ map (packet_of sender) (take d pool)
    /\ (forall k m, pool !! k = Some m -> (k < d)%nat -> m ∈ firsts) /\ (forall m, pool !! d = Some m -> m ∉ firsts).
Proof.
  intros Hnd Hp Hnew. rewrite fold_channel by (intros m Hm; destruct (stream_number m (Hp m Hm)) as (k & Hk & _); now apply (Hstream k)).
  rewrite Hnew. cbn [default]. set (seqs := map (fun m => ph_sequence (mg_header m)) firsts).
  assert (Hback : forall k m, pool !! k = Some m -> m ∈ firsts <-> Z.of_nat k ∈ seqs).
  { intros k m Hk. unfold seqs. rewrite list_elem_of_fmap. split.
    - intros Hm. exists m. split; [|done]. symmetry. apply (Hstream k m Hk).
    - intros (m' & E & Hm'). destruct (stream_number m' (Hp m' Hm')) as (k' & Hk' & E'). assert (k = k') as -> by lia. congruence. }
  assert (Hseq : forall s, s ∈ seqs -> 0 <= s < zlength pool).
  { unfold seqs. intros s (m & -> & Hm)%list_elem_of_fmap. destruct (stream_number m (Hp m Hm)) as (k & Hk & ->).
    apply lookup_lt_Some in Hk. unfold zlength. lia. }
  assert (Hnds : NoDup seqs).
  { unfold seqs. apply NoDup_fmap_2_strong; [|done]. intros m m' Hm Hm' E. destruct (stream_number m (Hp m Hm)) as (k & Hk & E1).
    destruct (stream_number m' (Hp m' Hm')) as (k' & Hk' & E2). assert (k = k') as -> by lia. congruence. }
  replace (map _ firsts) with (entries nth_packet seqs).
  2:{ unfold entries, seqs. rewrite map_map. apply map_ext_in. intros m Hm%list_elem_of_In. destruct (stream_number m (Hp m Hm)) as (k & Hk & ->).
      unfold nth_packet. now rewrite Nat2Z.id, Hk. }
  destruct (channel_run nth_packet seqs [] [] _ (channel_new nth_packet ch) Hnds) as (rs & (d & ks & _ & _ & Hr & _ & Hd & E & Hrs) & Hm).
  { apply list.Forall_forall. intros s Hs. specialize (Hseq s Hs). split; [unfold limit in *; lia|apply not_elem_of_nil]. }
  assert (Hin : forall s, s ∈ seqs <-> 0 <= s < d \/ s ∈ ks) by (intros s; rewrite <- Hrs, Hm, elem_of_nil; tauto).
  assert (Hdp : d <= zlength pool).
  { destruct (decide (d = 0)) as [->|]; [apply zlength_nonneg|]. specialize (Hseq (d - 1)). rewrite Hin in Hseq. lia. }
  exists (Z.to_nat d). unfold zlength in Hdp. split; [lia|]. cbn [app] in E. rewrite E. rewrite <- (nth_packets (Z.to_nat d)), Z2Nat.id by lia. split; [done|]. split.
  - intros k m Hk Hkd. rewrite (Hback k m Hk), Hin. left. lia.
  - intros m Hk. rewrite (Hback _ m Hk), Hin, Z2Nat.id by lia. intros [?|Hks]; [lia|]. rewrite list.Forall_forall in Hr. specialize (Hr d Hks). lia.
Qed.
End Ordered.
