(* ===== verification/ReliableStream.v ===== *)
(** * ReliableStream: messages on an ordered channel over an unreliable network

    Send, the worker's rounds for one slot (source/Peer.cpp, source/PacketQueue.cpp,
    source/DatagramBuilder.cpp) and, through the file Reliability, the read handler of
    the other end: the stream that an application sends on an ordered channel is what
    the other application receives, as far as it has arrived. *)

From stdpp Require Import base tactics gmap sets list list_numbers numbers option.
From Stdlib Require Import ZArith Lia.
From S2P Require Import Prelude Memory BinaryStream StreamSpec StreamCodec Config PeerStats Packet Headers.
From S2P Require Import ChannelBuffer CongestionControl Reassembly ReceiptTracker RpcController Encryption Handshake Socket RemotePeer PacketQueue Peer PacketFlow HandshakeTheorems DatagramTheorems PeerFrame PeerInvariant PeerEvents Delivery SplitDelivery EndToEnd Sessions Reliability.

Open Scope Z_scope.

(** ** What the worker does before it writes *)

Lemma prune_flight_nonneg now life out : forall bytes, 0 <= bytes -> 0 <= (prune_flight now life bytes out).1.
Proof.
  induction out as [|[k f] out IH]; intros bytes Hb; cbn [prune_flight]; [done|]. destruct (expired _ _ _).
  - apply IH. apply u64_range.
  - specialize (IH bytes Hb). now destruct (prune_flight now life bytes out).
Qed.

Section Upkeep.
Context {host : Host} {RemoteAddress : Type}.
Abbreviation RemotePeer := (RemotePeer RemoteAddress).

(** Only what is in flight and the histories may change. *)
Record aged (c c' : CongestionControl) : Prop := {
  ag_flight : 0 <= m_bytesInFlight c -> 0 <= m_bytesInFlight c';
  ag_window : m_window c' = m_window c;
  ag_ids : m_nextPacket c' = m_nextPacket c /\ m_nextDatagram c' = m_nextDatagram c;
  ag_acks : m_acks c' = m_acks c /\ m_nacks c' = m_nacks c;
  ag_empty : m_outgoing c = [] -> m_bytesInFlight c' = m_bytesInFlight c;
  ag_none : m_outgoing c = [] -> m_outgoing c' = [];
  ag_rto : forall n, GetRetransmissionRTO n c' = GetRetransmissionRTO n c;
}.

Lemma Update_aged now st c : aged c (Update now st c).2.
Proof.
  unfold Update, Update_base. destruct (negb _); [now split|].
  destruct (prune_flight now (u64 (m_rttAvg c * 16)) (m_bytesInFlight c) (m_outgoing c)) as [bytes out] eqn:E. split; try done.
  2,3: intros Ho; rewrite Ho in E; now injection E as <- <-.
  intros H. cbn. pose proof (prune_flight_nonneg now (u64 (m_rttAvg c * 16)) (m_outgoing c) _ H) as Hp. now rewrite E in Hp.
Qed.

Definition upkeep (now : Z) (r : RemotePeer) : list receipt * RemotePeer := update_receipts now (update_congestion now r).

Lemma upkeep_spec now r c : congestion r = Some c ->
  exists c', congestion (upkeep now r).2 = Some c' /\ aged c c' /\ frame r (upkeep now r).2 /\ outbox (upkeep now r).2 = outbox r
    /\ disconnect (upkeep now r).2 = disconnect r /\ channels (upkeep now r).2 = channels r.
Proof.
  intros Hc. pose proof (update_congestion_frame now r) as F1. destruct (upkeep now r) as [rs r2] eqn:E. pose proof (update_receipts_frame _ _ _ _ E) as F2.
  pose proof (Update_aged now (stats r) c) as Ha. unfold upkeep, update_receipts, update_congestion in E. rewrite Hc in E.
  destruct (Update now (stats r) c) as [st c']. cbn [snd] in Ha. exists c'. cbn [rp_receipt set_congestion set_stats] in E.
  assert (F : frame r r2) by (etrans; eassumption).
  destruct (rp_receipt r) as [t|]; [destruct (Receipt_Update _ _ _) as [[? ?] ?]|]; injection E as <- <-; cbn [snd]; done.
Qed.
End Upkeep.

(** ** The sender *)

Section Sender.
Context {host : Host} {sign : CharSign} {RemoteAddress : Type} {address_eq : EqDecision RemoteAddress} (no_address : RemoteAddress).
Context {crypto : Type} {layer : EncryptionLayer crypto} {laws : EncryptionLaws crypto} (make_layer : Z -> outcome crypto) {callback : Type}.

Abbreviation Peer := (Peer RemoteAddress crypto callback).
Abbreviation RemotePeer := (RemotePeer RemoteAddress).
Abbreviation PM := (ST Peer).

(** The slot and its layer, the delays between two attempts and a lower bound of them. *)
Context (i : nat) (l1 l2 : crypto) (there : RemoteAddress) (rto : Z -> Z) (start delay : Z).
Context (Hdelay : 0 < delay) (Hrto : forall n, 0 <= n <= SEND_RETRY_COUNT -> delay <= rto n).

(** A time before any packet queued at [start] or later can have been given up, and
    before the clock wraps. *)
Record in_time (now : Z) : Prop := {
  it_window : start <= now < start + SEND_RETRY_COUNT * delay;
  it_clock : 0 <= now /\ forall n, 0 <= n <= SEND_RETRY_COUNT -> now + rto n < 18446744073709551616;
}.

(** A packet in the outbox. *)
Record pending (m : OutgoingPacket RemoteAddress) : Prop := {
  pd_reliable : HasFlag m RELIABLE = true;
  pd_count : 0 <= op_sendCount m <= SEND_RETRY_COUNT;
  pd_next : start + op_sendCount m * delay <= op_sendNext m;
  pd_address : op_crypto m = None /\ op_addr m = there;
}.

(** A connection whose outbox holds the messages [pool]. *)
Record stream_out (pool : list message) (c : CongestionControl) (r : RemotePeer) : Prop := {
  so_congestion : congestion r = Some c;
  so_numbers : 0 <= m_bytesInFlight c /\ 0 <= m_window c /\ 0 <= m_nextDatagram c < 4294967296;
  so_acks : m_acks c = [] /\ m_nacks c = [];
  so_rto : forall n, GetRetransmissionRTO n c = rto n;
  so_outbox : Forall2 carries (outbox r) (map wire_message pool);
  so_packets : Forall pending (outbox r);
  so_state : active r = true /\ socket r = true /\ disconnect r = 0 /\ addr r = there;
  so_shake : exists h, handshake r = Some h /\ m_result h = result_code CR_OK;
}.

Lemma pending_resendable now m : in_time now -> pending m -> resendable now m.
Proof.
  intros [Ht _] [H1 H2 H3 _]. split; [done|]. split; [lia|]. unfold Elapsed. intros E%Z.leb_le. unfold SEND_RETRY_COUNT in *. nia.
Qed.

Lemma pending_again now c m : in_time now -> (forall n, GetRetransmissionRTO n c = rto n) -> pending m -> Elapsed now (op_sendNext m) = true ->
  pending (set_sendCount (op_sendCount m + 1) (schedule now c m)).
Proof.
  intros Ht Er Hm He. destruct (pending_resendable now m Ht Hm) as (_ & _ & Hlt). specialize (Hlt He). pose proof Hm as [H1 H2 H3 H4]. destruct Ht as [_ [H0 Hc]].
  unfold Elapsed in He. apply Z.leb_le in He. specialize (Hc (op_sendCount m) ltac:(lia)). specialize (Hrto (op_sendCount m) ltac:(lia)).
  split; cbn; [exact H1|lia| |exact H4]. unfold Timestamp_add. rewrite Er, u64_small by lia. lia.
Qed.

Lemma stream_sending now layers pool c r : in_time now -> stream_out pool c r -> (exists k, rp_crypto r = Some k /\ layers !! k = Some l1) ->
  sending now layers l1 pool c r.
Proof.
  intros Ht [H1 H2 [Ha Hn] H4 H5 H6 (Hact & _ & _ & Had) (h & Hh & Hr)] Hl. split; try done.
  - unfold GetNeedsToSendAcks. rewrite Ha, Hn. now rewrite !bool_decide_true.
  - split; [done|]. intros m Hm. rewrite list.Forall_forall in H6. destruct (H6 m Hm) as [_ Hcnt _ _]. destruct Ht as [_ [H0 Hc]].
    specialize (Hc _ Hcnt). specialize (Hrto _ Hcnt). unfold Timestamp_add. rewrite H4, u64_small by lia. lia.
  - eapply list.Forall_impl; [exact H6|]. intros m. now apply pending_resendable.
  - eapply list.Forall_impl; [exact H6|]. intros m Hm. rewrite Had. apply Hm.
  - unfold IsConnected. now rewrite Hact, Hh, Hr.
Qed.

Lemma stream_frame pool c c' r r' : stream_out pool c r -> congestion r' = Some c' -> aged c c' -> frame r r' -> outbox r' = outbox r -> disconnect r' = disconnect r ->
  stream_out pool c' r'.
Proof.
  intros [H1 (Hf & Hw & Hd) [Ha Hn] H4 H5 H6 (Hact & Hso & Hdi & Had) Hsh] Hc' [G1 G2 [_ G3] [G4 G5] _ _ G6] F Eo Ed. pose proof F as [_ F2 F3 _ _ F6 F7 _ _ _]. split.
  - done.
  - rewrite G2, G3. auto.
  - now rewrite G4, G5.
  - intros n. now rewrite G6.
  - now rewrite Eo.
  - now rewrite Eo.
  - rewrite F2, F7, Ed, F6. done.
  - now rewrite F3.
Qed.

(** Writing keeps what it says of the connection. *)
Lemma stream_wrote now pool c r q n r' : in_time now -> stream_out pool c r -> wrote_out now c q n r r' -> m_nextDatagram c < 4294967295 ->
  stream_out pool (NotifySendingBytes now (m_nextDatagram c) n (GetNextDatagramID c).2) r'.
Proof.
  intros Ht Hs [W1 W2 _ W4 F W6] Hn. pose proof Hs as [H1 (Hf & Hw & Hd) Hack H4 H5 H6 (Hact & Hso & Hdi & Had) Hsh]. pose proof F as [_ F2 F3 _ _ F6 F7 _ _ _].
  assert (Hall : forall j m', outbox r' !! j = Some m' -> exists m, outbox r !! j = Some m /\ op_blob m' = op_blob m /\ pending m').
  { intros j m' Hj. destruct (decide (j ∈ q)) as [Hq|Hq].
    - destruct (W1 j Hq) as (m & Hm & He & E). rewrite E in Hj. injection Hj as <-. exists m. split; [done|]. split; [done|].
      apply pending_again; try done. exact (Forall_lookup_1 _ _ _ _ H6 Hm).
    - rewrite (W2 j Hq) in Hj. exists m'. do 2 (split; [done|]). exact (Forall_lookup_1 _ _ _ _ H6 Hj). }
  assert (Hlen : length (outbox r') = length (outbox r)).
  { apply Nat.le_antisymm; apply Nat.le_ngt; intros Hlt.
    - destruct (lookup_lt_is_Some_2 _ _ Hlt) as [m Hm]. destruct (Hall _ _ Hm) as (m0 & E & _). apply lookup_lt_Some in E. lia.
    - destruct (lookup_lt_is_Some_2 _ _ Hlt) as [m Hm]. destruct (decide (length (outbox r') ∈ q)) as [Hq|Hq].
      + destruct (W1 _ Hq) as (m1 & _ & _ & E). apply lookup_lt_Some in E. lia.
      + rewrite <- (W2 _ Hq) in Hm. apply lookup_lt_Some in Hm. lia. }
  split.
  - exact W4.
  - cbn. rewrite u32_small by lia. pose proof (u64_range (m_bytesInFlight c + n)). lia.
  - exact Hack.
  - exact H4.
  - apply Forall2_same_length_lookup_2; [rewrite Hlen; exact (list.Forall2_length _ _ _ H5)|]. intros j m' bs Hm' Hbs. destruct (Hall j m' Hm') as (m & Hm & Eb & _).
    pose proof (Forall2_lookup_lr _ _ _ _ _ _ H5 Hm Hbs) as [(x & Hx & Ex) Hpos]. split; [|done]. exists x. now rewrite Eb.
  - apply Forall_lookup_2. intros j m' Hm'. now destruct (Hall j m' Hm') as (_ & _ & _ & Hp).
  - rewrite F2, F7, W6, F6. done.
  - now rewrite F3.
Qed.

(** ** A round of the worker for the slot *)

Record stream_peer (pool : list message) (c : CongestionControl) (r : RemotePeer) (p : Peer) : Prop := {
  sp_slot : m_remotes p !! i = Some r;
  sp_out : stream_out pool c r;
  sp_layer : exists k, rp_crypto r = Some k /\ p_layers p !! k = Some l1;
  sp_crypto : m_crypto_enabled p && GetCryptoEstablished l1 = GetCryptoEstablished l2;
  sp_socket : IsOpenAndReady (m_masterSocket p) = true /\ IsWritePending (m_masterSocket p) = false;
}.

(** A parcel that is on the wire: the receiver, whose layer is [l2], could read it. *)
Record posted_parcel (pool : list message) (id : Z) (w : RemoteAddress * BinaryStream) (x : parcel) : Prop := {
  pp_wire : w.1 = there /\ exists b a, rel b w.2 a /\ pc_wire x = a_bytes a;
  pp_id : pc_id x = id;
  pp_messages : pc_messages x <> [] /\ forall m, m ∈ pc_messages x -> m ∈ pool;
  pp_plain : unseals l2 (pc_wire x) (parcel_plain x);
}.

(** Nothing is due within the budgets. *)
Definition nothing_due (now : Z) (c : CongestionControl) (r : RemotePeer) : Prop :=
  forall m, m ∈ outbox r -> suitable now (GetRetransmissionBudget c) true m = false /\ suitable now (GetTransmissionBudget c) false m = false.

(** The connection after upkeep and a write cycle: what was written, if anything. *)
Inductive attempt (now : Z) (pool : list message) (c : CongestionControl) (r : RemotePeer) (p : Peer) : CongestionControl -> RemotePeer -> list (RemoteAddress * BinaryStream) -> list parcel -> Prop :=
  | attempt_idle c' r' : aged c c' -> nothing_due now c' r -> stream_out pool c' r' -> rp_crypto r' = rp_crypto r -> attempt now pool c r p c' r' [] []
  | attempt_wrote c' r' w x : posted_parcel pool (m_nextDatagram c) w x -> stream_out pool c' r' -> rp_crypto r' = rp_crypto r ->
      m_nextDatagram c' = m_nextDatagram c + 1 -> attempt now pool c r p c' r' [w] [x].

Lemma write_attempt now entropy pool c r p : linked l1 l2 -> in_time now -> stream_peer pool c r p -> m_nextDatagram c < 4294967295 ->
  exists res c' r' ws xs, DoWriteCycle now entropy (m_crypto_enabled p) false (p_layers p) (upkeep now r).2 = Ret (res, r') /\ attempt now pool c r p c' r' ws xs
    /\ ((res = Idle /\ ws = []) \/ exists a d, res = Wrote a d /\ ws = [(a, d)]).
Proof.
  intros Hl Ht [Hr Hs (k & Hk & Hly) He _] Hn. destruct (upkeep_spec now r c (so_congestion _ _ _ Hs)) as (c1 & Hc1 & Ha & F & Eo & Ed & _).
  set (r1 := (upkeep now r).2) in *. pose proof (stream_frame pool c c1 r r1 Hs Hc1 Ha F Eo Ed) as Hs1.
  pose proof (fr_crypto _ _ F) as Fk. destruct (ag_ids _ _ Ha) as [_ End].
  destruct (write_spec now entropy (m_crypto_enabled p) (p_layers p) l1 l2 pool c1 r1) as [(r' & E & (st & ->) & Hno)|(q & r' & blob & w & a & E & Hrel & Hw & Hq & Hnd & Hin & _ & Hu)];
    [apply stream_sending; try done; exists k; now rewrite Fk|done|done| |].
  - exists Idle, c1, (set_stats st r1), [], []. split; [exact E|]. split; [|now left]. constructor; [done| | |exact Fk].
    + intros m. rewrite <- Eo. apply Hno.
    + apply (stream_frame pool c1 c1 r1); try done; now split.
  - pose proof (so_state _ _ _ Hs1) as (_ & _ & _ & Had). pose proof (wo_frame _ _ _ _ _ _ Hw) as F2. rewrite Had in E.
    exists (Wrote there blob). eexists _, r', [(there, blob)], [mkParcel (m_nextDatagram c1) (chosen pool q) (a_bytes a)]. split; [exact E|].
    split; [|right; eauto]. econstructor.
    + split; cbn [fst snd pc_wire pc_id pc_messages]; [split; [done|]; now exists w, a|exact End| |exact Hu]. split.
      * destruct q as [|j q]; [done|]. destruct (Hin j ltac:(constructor)) as [x Hx]. unfold chosen. cbn. now rewrite Hx.
      * intros x (j & _ & Hj)%list_elem_of_omap. eapply list_elem_of_lookup_2. exact Hj.
    + eapply stream_wrote; try done. lia.
    + rewrite <- Fk. apply F2.
    + cbn. rewrite End, u32_small; [done|]. destruct (so_numbers _ _ _ Hs) as (_ & _ & ?). lia.
Qed.

(** Nothing but the slot, the socket and the inbox, which gets receipts, changes. *)
Record sender_frame (p p' : Peer) : Prop := {
  sf_slots : forall j, j <> i -> m_remotes p' !! j = m_remotes p !! j;
  sf_layers : p_layers p' = p_layers p /\ m_crypto_enabled p' = m_crypto_enabled p;
  sf_settings : m_channels p' = m_channels p /\ m_remoteLookup p' = m_remoteLookup p /\ m_id p' = m_id p;
  sf_inbox : exists l, m_inbox p' = m_inbox p ++ l;
}.

#[local] Instance sender_frame_refl : Reflexive sender_frame.
Proof. intros p. split; try done. exists []. now rewrite app_nil_r. Qed.
#[local] Instance sender_frame_trans : Transitive sender_frame.
Proof.
  intros x y z [A1 [A2 A3] (A4 & A5 & A6) [l Hl]] [B1 [B2 B3] (B4 & B5 & B6) [l' Hl']]. split.
  - intros j Hj. now rewrite B1, A1.
  - split; congruence.
  - split; [congruence|]. split; congruence.
  - exists (l ++ l'). now rewrite Hl', Hl, app_assoc.
Qed.

Lemma frame_at_slot r l p : sender_frame p (at_slot i r (m_inbox p ++ l) p).
Proof. split; try done; [|now exists l]. intros j Hj. cbn. now rewrite list_lookup_insert_ne. Qed.
Lemma frame_socket s p : sender_frame p (set_socket s p).
Proof. split; try done. exists []. now rewrite app_nil_r. Qed.
#[local] Hint Resolve frame_at_slot frame_socket : core.

(** A slot that the worker serves, on a socket that is free. *)
Record served (c : CongestionControl) (r : RemotePeer) (p : Peer) : Prop := {
  sv_slot : m_remotes p !! i = Some r;
  sv_congestion : congestion r = Some c;
  sv_state : active r = true /\ socket r = true /\ disconnect r = 0;
  sv_shake : exists h, handshake r = Some h /\ m_result h = result_code CR_OK;
  sv_socket : IsOpenAndReady (m_masterSocket p) = true /\ IsWritePending (m_masterSocket p) = false;
}.

Lemma stream_served pool c r p : stream_peer pool c r p -> served c r p.
Proof. intros [Hr [Hc _ _ _ _ _ (Hact & Hso & Hdi & _) Hsh] _ _ Hs]. now split. Qed.

(** The round up to the write cycle. *)
Lemma before_write now entropy c r p : served c r p ->
  exists p1, worker_slot no_address now entropy i p = (write_cycle no_address now entropy i;; mret false) p1 /\ sender_frame p p1
    /\ m_remotes p1 !! i = Some (upkeep now r).2 /\ IsOpenAndReady (m_masterSocket p1) = true /\ IsWritePending (m_masterSocket p1) = false
    /\ written (m_masterSocket p1) = written (m_masterSocket p).
Proof.
  intros [Hr Hc (Hact & Hso & Hdi) (h & Hh & Hres) [Ho Hp]]. pose proof (lookup_lt_Some _ _ _ Hr) as Hi.
  destruct (upkeep_spec now r c Hc) as (c1 & _ & _ & F & _ & Ed & _). destruct (upkeep now r) as [rs r1] eqn:Eu. cbn [snd] in *.
  destruct (receipts_posted rs (at_slot i r1 (m_inbox p) p)) as (l & El). set (p0 := at_slot i r1 (m_inbox p ++ l) p).
  assert (E : worker_slot no_address now entropy i p = (DoReadCycle;; write_cycle no_address now entropy i;; mret false) p0).
  { unfold worker_slot. destruct (slot_here i p Hi) as (r' & Hr' & E). assert (r' = r) as -> by congruence.
    rewrite (bind_ret _ _ _ _ _ E), Hact, Hh. cbv beta iota. cbn [negb]. replace (IsDone h) with true by (unfold IsDone; now rewrite Hres). rewrite bind_mret.
    erewrite bind_ret by (rewrite (on_slot_start i r p _ Hr); reflexivity). unfold upkeep in Eu.
    erewrite bind_ret by (rewrite on_slot_at by exact Hi; cbn [mbind outcome_bind mret outcome_ret]; rewrite Eu; reflexivity).
    rewrite (bind_ret _ _ _ _ _ El), set_inbox_at. rewrite (bind_ret _ _ _ _ _ (slot_at _ _ _ _ Hi)), Ed, Hdi. change (Timestamp_IsValid 0) with false. cbn [andb]. cbv iota.
    rewrite bind_get, (fr_socket _ _ F), Hso. cbn [m_masterSocket at_slot set_inbox set_remotes negb]. rewrite Ho. reflexivity. }
  assert (H0 : m_remotes p0 !! i = Some r1) by (cbn; now rewrite list_lookup_insert_eq).
  assert (Hcase : exists s, DoReadCycle p0 = Ret (tt, set_socket s p0) /\ is_open s = true /\ m_sending s = false /\ written s = written (m_masterSocket p)).
  { unfold DoReadCycle. rewrite bind_get. destruct (IsReadPending _); [exists (m_masterSocket p); split; [now destruct p|done]|]. now eexists. }
  destruct Hcase as (s & Es & H1 & H2 & H3). exists (set_socket s p0). split; [now rewrite E, (bind_ret _ _ _ _ _ Es)|].
  split; [etrans; [apply frame_at_slot|apply frame_socket]|]. done.
Qed.

(** One round of the worker for the slot, and the completion of the write it began. *)
Definition serve (asio : Asio RemoteAddress) (now entropy : Z) : PM unit :=
  worker_slot no_address now entropy i;;
  p ← get;
  if IsWritePending (m_masterSocket p) then exec no_address make_layer asio now entropy (Ev_written i false) else mret tt.

(** What the write cycle decides is what the round does. *)
Lemma serve_run asio now entropy c r p res r' ws : served c r p ->
  DoWriteCycle now entropy (m_crypto_enabled p) false (p_layers p) (upkeep now r).2 = Ret (res, r') ->
  (res = Idle /\ ws = []) \/ (exists a d, res = Wrote a d /\ ws = [(a, d)]) ->
  exists p', serve asio now entropy p = Ret (tt, p') /\ sender_frame p p' /\ m_remotes p' !! i = Some r'
    /\ IsOpenAndReady (m_masterSocket p') = true /\ IsWritePending (m_masterSocket p') = false /\ written (m_masterSocket p') = written (m_masterSocket p) ++ ws.
Proof.
  intros Hp Ed Hres. destruct (before_write now entropy c r p Hp) as (p1 & E & F & Hr1 & Ho & Hw & Hwr).
  destruct (sf_layers _ _ F) as [Fl Fe]. pose proof (lookup_lt_Some _ _ _ Hr1) as Hi. set (p2 := at_slot i r' (m_inbox p1) p1).
  assert (F2 : sender_frame p p2) by (etrans; [exact F|unfold p2; rewrite <- (app_nil_r (m_inbox p1)) at 1; apply frame_at_slot]).
  assert (Hr2 : m_remotes p2 !! i = Some r') by (cbn; now rewrite list_lookup_insert_eq).
  assert (Ew : on_slot i (DoWriteCycle now entropy (m_crypto_enabled p1) (IsWritePending (m_masterSocket p1)) (p_layers p1)) p1 = Ret (res, p2)).
  { rewrite (on_slot_start i _ p1 _ Hr1), Hw, Fe, Fl, Ed. reflexivity. }
  unfold serve. destruct Hres as [[-> ->]|(a & d & -> & ->)].
  - exists p2. rewrite (bind_ret _ _ _ false p2).
    2:{ rewrite E. erewrite bind_ret; [reflexivity|]. unfold write_cycle. rewrite bind_get, (bind_ret _ _ _ _ _ Ew). reflexivity. }
    rewrite bind_get. change (m_masterSocket p2) with (m_masterSocket p1). rewrite Hw, Hwr, app_nil_r. done.
  - exists (set_socket (write_done (BeginWrite a d (m_masterSocket p1))) p2). rewrite (bind_ret _ _ _ false (set_socket (BeginWrite a d (m_masterSocket p1)) p2)).
    2:{ rewrite E. erewrite bind_ret; [reflexivity|]. unfold write_cycle. rewrite bind_get, (bind_ret _ _ _ _ _ Ew). reflexivity. }
    rewrite bind_get. cbn [m_masterSocket set_socket BeginWrite IsWritePending m_sending]. split; [reflexivity|].
    split; [etrans; [exact F2|apply frame_socket]|]. cbn [written write_done BeginWrite m_masterSocket set_socket]. rewrite Hwr. done.
Qed.

Lemma serve_spec asio now entropy pool c r p : linked l1 l2 -> in_time now -> stream_peer pool c r p -> m_nextDatagram c < 4294967295 ->
  exists c' r' ws xs p', serve asio now entropy p = Ret (tt, p') /\ stream_peer pool c' r' p' /\ attempt now pool c r p c' r' ws xs
    /\ written (m_masterSocket p') = written (m_masterSocket p) ++ ws /\ sender_frame p p'.
Proof.
  intros Hl Ht Hp Hn. destruct (write_attempt now entropy pool c r p Hl Ht Hp Hn) as (res & c' & r' & ws & xs & Ed & Ha & Hres).
  destruct (serve_run asio now entropy c r p res r' ws (stream_served _ _ _ _ Hp) Ed Hres) as (p' & E & F & Hr' & Ho & Hw & Hwr).
  assert (Hout : stream_out pool c' r' /\ rp_crypto r' = rp_crypto r) by now destruct Ha. pose proof Hp as [Hr Hs (k & Hk & Hly) He _].
  exists c', r', ws, xs, p'. split; [exact E|]. split; [|done]. destruct (sf_layers _ _ F) as [Fl Fe].
  split; [exact Hr'|apply Hout| |now rewrite Fe|done]. exists k. now rewrite Fl, (proj2 Hout).
Qed.

(** ** Rounds *)

(** Nothing in flight, and a first packet in the outbox that is due. *)
Definition unsent_first (now : Z) (c : CongestionControl) (r : RemotePeer) : Prop :=
  m_outgoing c = [] /\ m_bytesInFlight c = 0 /\ MTU <= m_window c
  /\ exists m box, outbox r = m :: box /\ op_sendCount m = 0 /\ Elapsed now (op_sendNext m) = true /\ m_length (op_blob m) <= MTU.

Lemma unsent_goes_out now c c' r : aged c c' -> unsent_first now c r -> ~ nothing_due now c' r.
Proof.
  intros G (Ho & Hf & Hw & m & box & Hb & H0 & He & Hlen) Hno. destruct (Hno m) as [_ H]; [rewrite Hb; constructor|]. revert H. unfold suitable. rewrite He, H0.
  cbn [negb andb orb Z.eqb]. rewrite !andb_true_r. apply not_false_iff_true, Z.leb_le. unfold GetTransmissionBudget, GetRetransmissionBudget.
  rewrite (ag_window _ _ G), (ag_empty _ _ G Ho), Hf. unfold MTU in *. rewrite u64_small by lia. destruct (Z.leb_spec (m_window c) 0); lia.
Qed.

Fixpoint serves (asio : Asio RemoteAddress) (ts : list (Z * Z)) : PM unit :=
  match ts with [] => mret tt | (now, entropy) :: ts => serve asio now entropy;; serves asio ts end.

(** The parcels of a run, with the IDs in the order of writing. *)
Definition posted_parcels (pool : list message) (first : Z) (ws : list (RemoteAddress * BinaryStream)) (xs : list parcel) : Prop :=
  Forall2 (fun w x => posted_parcel pool (pc_id x) w x) ws xs /\ map pc_id xs = seqZ first (zlength xs).

Lemma serves_spec asio ts pool : linked l1 l2 -> Forall in_time (map fst ts) -> forall c r p, stream_peer pool c r p -> m_nextDatagram c + zlength ts <= 4294967295 ->
  exists c' r' ws xs p', serves asio ts p = Ret (tt, p') /\ stream_peer pool c' r' p' /\ written (m_masterSocket p') = written (m_masterSocket p) ++ ws
    /\ posted_parcels pool (m_nextDatagram c) ws xs /\ zlength xs <= zlength ts /\ sender_frame p p'
    /\ (forall now entropy ts', ts = (now, entropy) :: ts' -> unsent_first now c r -> xs <> []).
Proof.
  intros Hl. induction ts as [|[now entropy] ts IH]; intros Hts c r p Hp Hn.
  { exists c, r, [], [], p. rewrite app_nil_r. do 3 (split; [done|]). split; [split; [constructor|done]|]. split; [done|]. split; [reflexivity|done]. }
  cbn [map fst] in Hts. apply list.Forall_cons in Hts as [Ht Hts]. rewrite zlength_cons in *. pose proof (zlength_nonneg ts) as Hpos.
  destruct (serve_spec asio now entropy pool c r p Hl Ht Hp) as (c1 & r1 & w1 & x1 & p1 & E1 & Hp1 & Ha & Hw1 & F1); [lia|].
  assert (Hc1 : m_nextDatagram c1 = m_nextDatagram c + zlength x1 /\ zlength x1 <= 1 /\ posted_parcels pool (m_nextDatagram c) w1 x1).
  { destruct Ha as [c' r' G _ _ _|c' r' w x Hx _ _ Hnx].
    - destruct (ag_ids _ _ G) as [_ ->]. change (zlength (@nil parcel)) with 0. split; [lia|]. split; [lia|]. split; [constructor|done].
    - rewrite Hnx. change (zlength [x]) with 1. split; [done|]. split; [lia|]. split; [|cbn; now rewrite (pp_id _ _ _ _ Hx)]. constructor; [|constructor].
      now rewrite (pp_id _ _ _ _ Hx). }
  destruct Hc1 as (Hc1 & Hx1 & Hpp1).
  destruct (IH Hts c1 r1 p1 Hp1) as (c2 & r2 & w2 & x2 & p2 & E2 & Hp2 & Hw2 & [Hpp2 Hid2] & Hx2 & F2 & _); [lia|].
  exists c2, r2, (w1 ++ w2), (x1 ++ x2), p2. cbn [serves]. rewrite (bind_ret _ _ _ _ _ E1), E2. split; [done|]. split; [done|].
  split; [now rewrite Hw2, Hw1, app_assoc|]. rewrite zlength_app. split; [|split; [lia|split; [etrans; eassumption|]]].
  2:{ intros now' entropy' ts' [= <- <- <-] Hfirst. destruct Ha as [c' r' G Hno _ _|]; [|done]. now apply (unsent_goes_out now c c' r) in Hno. }
  destruct Hpp1 as [Hpp1 Hid1]. split.
  - now apply Forall2_app.
  - rewrite map_app, Hid1, Hid2, Hc1, zlength_app. pose proof (zlength_nonneg x1). pose proof (zlength_nonneg x2). now rewrite seqZ_app by lia.
Qed.


(** ** Queueing the stream *)

Section Stream.
Context (who ch options base : Z).
Context (Hch : 0 < ch < 256) (Hoptions : is_byte options) (Hreliable : options_and options RELIABLE = true) (Hbase : 0 <= base).

(** The k-th message: a command and a payload. *)
Definition stream_message (k : nat) (x : Z * list Z) : message :=
  mkMsg (mkPH false false (base + Z.of_nat k) options ch (Z.of_nat k) (1 + zlength x.2) 0 (base + Z.of_nat k) 0) x.1 x.2.

Definition text_ok (x : Z * list Z) : Prop := USER_PACKET <= x.1 < 256 /\ Forall is_byte x.2 /\ 1 + zlength x.2 <= CHUNK_SIZE.

(** The application has sent [texts]. *)
Record stream_queue (texts : list (Z * list Z)) (c : CongestionControl) (r : RemotePeer) (p : Peer) : Prop := {
  sq_peer : stream_peer (imap stream_message texts) c r p;
  sq_ids : m_nextPacket c = base + zlength texts;
  sq_receipt : is_Some (rp_receipt r);
  sq_channel : ChannelBuffer.m_outgoing (default (ChannelBuffer_new ch) (channels r !! ch)) = zlength texts;
  sq_modes : m_channels p !! Z.to_nat ch = Some ORDERED;
  sq_found : GetRemoteByID_const who p = Some i;
}.

Lemma one_segment x : text_ok x -> segment_count (zlength (x.1 :: x.2)) = 1 /\ chunk (x.1 :: x.2) 0 = x.1 :: x.2.
Proof.
  intros (_ & _ & Hl). pose proof (zlength_nonneg x.2) as H0. assert (E : zlength (x.1 :: x.2) = 1 + zlength x.2) by (rewrite zlength_cons; lia). split.
  - unfold segment_count. rewrite E. change CHUNK_SIZE with 1200 in *. rewrite u64_small by lia. rewrite Z.div_small; lia.
  - unfold chunk, ztake, zdrop. change (Z.to_nat (0 * CHUNK_SIZE)) with 0%nat. rewrite drop_0. apply take_ge. unfold zlength in *. lia.
Qed.

(** What EnqueueOutgoing puts into the outbox is that message. *)
Lemma queued_message now k x m : text_ok x -> base + Z.of_nat k < 4294967296 -> start <= now ->
  queued now x.1 x.2 options ch (Z.of_nat k) (base + Z.of_nat k) there (base + Z.of_nat k + 1) 0 m ->
  carries m (wire_message (stream_message k x)) /\ pending m /\ op_sendCount m = 0 /\ op_sendNext m = now.
Proof.
  intros Hx Hk Hst [Q1 Q2 Q3 [Q4 Q5] [Q6 Q7]]. destruct (one_segment x Hx) as [E1 E2]. rewrite E1 in Q1, Q3. cbn [Z.ltb Z.compare] in Q1, Q3.
  change (1 <? 1) with false in *. cbv iota in *. destruct Hx as (Hu & Hb & Hl). pose proof (zlength_nonneg x.2) as H0. split.
  - rewrite Q1, E2 in Q2. unfold wire_message, stream_message. cbn [mg_header mg_cmd mg_payload].
    replace (segment_header _ _ _ _ _ _ _ _) with (mkPH false false (base + Z.of_nat k) options ch (Z.of_nat k) (1 + zlength x.2) 0 (base + Z.of_nat k) 0) in Q2; [exact Q2|].
    unfold segment_header, segment_length. rewrite E1. change CHUNK_SIZE with 1200 in *. rewrite zlength_cons. rewrite (proj2 (Z.leb_gt 65535 (zlength x.2))) by lia.
    change (0 <? 1 - 1) with false. f_equal; try done. rewrite Z.mul_0_l, Z.sub_0_r, u64_small by lia. rewrite Z.min_l by lia. rewrite u32_small by lia. lia.
  - split; [|done]. split; [unfold HasFlag; now rewrite Q3|rewrite Q5; unfold SEND_RETRY_COUNT; lia|rewrite Q4, Q5; lia|done].
Qed.

Lemma find_id (p : Peer) : GetRemoteByID_const who p = Some i -> exists m, GetRemoteByID who p = Ret (Some i, set_lookup m p) /\ m !! who = Some i.
Proof.
  unfold GetRemoteByID_const, GetRemoteByID. rewrite bind_get. destruct (m_remoteLookup p !! who) as [j|] eqn:E.
  - intros [= ->]. exists (m_remoteLookup p). split; [now destruct p|done].
  - intros ->. eexists. split; [reflexivity|]. apply lookup_insert_eq.
Qed.

Lemma send_queues now packet x texts c r p : start <= now -> stream_queue texts c r p -> text_ok x -> holds packet x.1 x.2 ->
  base + zlength texts < 4294967295 ->
  exists c' r' p', Send now packet who options (mkChannel ch ORDERED) p = Ret (base + zlength texts, p') /\ stream_queue (texts ++ [x]) c' r' p'
    /\ m_masterSocket p' = m_masterSocket p /\ m_inbox p' = m_inbox p
    /\ (m_outgoing c' = m_outgoing c /\ m_bytesInFlight c' = m_bytesInFlight c /\ m_window c' = m_window c /\ m_nextDatagram c' = m_nextDatagram c)
    /\ exists m, outbox r' = outbox r ++ [m] /\ op_sendCount m = 0 /\ op_sendNext m = now /\ carries m (wire_message (stream_message (length texts) x)).
Proof.
  intros Hst [[Hr Hs Hly He Hso] Hids [t Ht] Hcn Hmo Hfd] Hx Hh Hlim. pose proof Hx as (Hu & Hb & Hl). pose proof (zlength_nonneg texts) as H0. pose proof (zlength_nonneg x.2) as H1.
  pose proof Hs as [Hc Hnum Hack Hrt Hbox Hpd (Hact & Hsk & Hdi & Had) Hsh]. change CHUNK_SIZE with 1200 in Hl.
  destruct (find_id p Hfd) as (look & Ef & Hlook). unfold USER_PACKET in Hu.
  set (buf := default (ChannelBuffer_new ch) (channels r !! ch)) in *.
  assert (Hg : GetChannelBuffer (m_channels p) ch r = Ret (Some (ORDERED, buf), set_channels (<[ch := buf]> (channels r)) r)).
  { unfold GetChannelBuffer. rewrite (proj2 (Z.eqb_neq ch 0)) by lia. now rewrite Hmo. }
  destruct (EnqueueOutgoing_queues now (m_channels p) packet x.1 x.2 options (mkChannel ch ORDERED) r (set_channels (<[ch := buf]> (channels r)) r) c t (Some (ORDERED, buf))) as (metas & r' & E & Eo & Hq & Ec & Er & Es & Ed & Ech); try done.
  { unfold IsDisconnecting. now rewrite Hdi. }
  { lia. }
  { constructor; [unfold is_byte; lia|done]. }
  { unfold PACKET_MAX_LENGTH. lia. }
  { unfold is_byte, ch_id. lia. }
  { cbn. lia. }
  cbn [fst GetNextOutgoing ch_id] in Hq. rewrite (proj1 (one_segment x Hx)), Hcn, Had, Hids in Hq. rewrite (proj1 (one_segment x Hx)) in Ec.
  apply Forall2_cons_inv_l in Hq as (m & metas' & Hm & Hnil & ->). apply Forall2_nil_inv_l in Hnil as ->.
  destruct (queued_message now (length texts) x m Hx) as (Q1 & Q2 & Q3 & Q4); [unfold zlength in *; lia|done|exact Hm|].
  pose proof (EnqueueOutgoing_frame now (m_channels p) packet options (mkChannel ch ORDERED) r _ _ E) as F. pose proof F as [_ F2 F3 F4 _ F6 F7 _ _ _].
  eexists (set_ids _ (m_nextDatagram c) c), r', (at_slot i r' (m_inbox p) (set_lookup look p)). split; [|split; [|split; [done|split; [done|split; [done|]]]]].
  - unfold Send. rewrite (proj2 (Z.ltb_ge _ _)) by (rewrite (hd_len _ _ _ Hh); unfold PACKET_MAX_LENGTH; lia).
    rewrite (bind_ret _ _ _ _ _ Ef). cbv beta iota. rewrite bind_get. rewrite (on_slot_start i r (set_lookup look p) _ Hr). cbn [m_channels set_lookup]. rewrite E.
    cbn [mbind outcome_bind]. now rewrite Hids.
  - split.
    + split; [cbn; apply list_lookup_insert_eq; eapply lookup_lt_Some; exact Hr| |now rewrite F4|exact He|exact Hso].
      split; [exact Ec|exact Hnum|exact Hack|exact Hrt| | |rewrite F2, F7, Ed, F6; done|now rewrite F3].
      * rewrite Eo, imap_app, map_app. apply Forall2_app; [exact Hbox|]. cbn. constructor; [|constructor]. now rewrite Nat.add_0_r.
      * rewrite Eo. apply Forall_app. split; [done|]. now constructor.
    + cbn. rewrite zlength_app. change (zlength [x]) with 1. change (1 <? 1) with false. cbv iota. rewrite Hids, Z.add_0_r, u32_small by lia. lia.
    + rewrite Er. eauto.
    + rewrite Ech. cbn [ch_id]. rewrite lookup_insert_eq. cbn. rewrite Hcn, u32_small by lia. rewrite zlength_app. now change (zlength [x]) with 1.
    + exact Hmo.
    + unfold GetRemoteByID_const. cbn. now rewrite Hlook.
  - exists m. split; [done|]. done.
Qed.

(** A packet to send at a time, and what is in it. *)
Definition sends_text (ps : Z * Packet) (x : Z * list Z) : Prop := start <= ps.1 /\ text_ok x /\ holds ps.2 x.1 x.2.

Fixpoint send_all (ps : list (Z * Packet)) : PM (list Z) :=
  match ps with
  | [] => mret []
  | (now, packet) :: ps => id ← Send now packet who options (mkChannel ch ORDERED); ids ← send_all ps; mret (id :: ids)
  end.

Lemma send_all_spec ps xs : Forall2 sends_text ps xs -> forall texts c r p, stream_queue texts c r p -> base + zlength texts + zlength xs <= 4294967295 ->
  exists c' r' p', send_all ps p = Ret (seqZ (base + zlength texts) (zlength xs), p') /\ stream_queue (texts ++ xs) c' r' p'
    /\ m_masterSocket p' = m_masterSocket p /\ m_inbox p' = m_inbox p
    /\ (m_outgoing c' = m_outgoing c /\ m_bytesInFlight c' = m_bytesInFlight c /\ m_window c' = m_window c /\ m_nextDatagram c' = m_nextDatagram c)
    /\ exists metas, outbox r' = outbox r ++ metas /\ Forall2 (fun ps m => op_sendCount m = 0 /\ op_sendNext m = ps.1) ps metas.
Proof.
  induction 1 as [|[now packet] x ps xs (Hst & Hx & Hh) Hf IH]; intros texts c r p Hq Hlim.
  { exists c, r, p. rewrite app_nil_r. do 5 (split; [done|]). exists []. rewrite app_nil_r. done. }
  rewrite zlength_cons in *. pose proof (zlength_nonneg xs) as H0. cbn [fst snd] in *.
  destruct (send_queues now packet x texts c r p Hst Hq Hx Hh) as (c1 & r1 & p1 & E1 & Hq1 & Hs1 & Hi1 & (K1 & K2 & K3 & K4) & m & Eo1 & M1 & M2 & _); [lia|].
  destruct (IH (texts ++ [x]) c1 r1 p1 Hq1) as (c2 & r2 & p2 & E2 & Hq2 & Hs2 & Hi2 & (L1 & L2 & L3 & L4) & metas & Eo2 & M3).
  { rewrite zlength_app. change (zlength [x]) with 1. lia. }
  exists c2, r2, p2. cbn [send_all]. rewrite (bind_ret _ _ _ _ _ E1), (bind_ret _ _ _ _ _ E2). rewrite <- app_assoc in Hq2. split.
  - rewrite zlength_app. change (zlength [x]) with 1. rewrite (seqZ_cons (base + zlength texts)) by lia. replace (Z.pred (1 + zlength xs)) with (zlength xs) by lia.
    now replace (Z.succ (base + zlength texts)) with (base + (zlength texts + 1)) by lia.
  - split; [exact Hq2|]. split; [congruence|]. split; [congruence|]. split; [repeat split; congruence|]. exists (m :: metas). rewrite Eo2, Eo1, <- app_assoc.
    split; [done|]. now constructor.
Qed.

(** The messages make a stream, and they are in order for the receiver. *)
Lemma stream_message_ok k x : text_ok x -> base + Z.of_nat k < 4294967296 -> message_ok (stream_message k x).
Proof.
  intros (Hu & Hb & Hl) Hk. pose proof (zlength_nonneg x.2). change CHUNK_SIZE with 1200 in Hl.
  split; cbn [mg_header mg_cmd mg_payload stream_message]; try done. split; cbn; try done; unfold is_byte, PACKET_MAX_LENGTH; lia.
Qed.

Lemma stream_messages_are_stream xs : stream_of ch (imap stream_message xs).
Proof. intros k m Hk. apply list_lookup_imap_Some in Hk as (x & _ & ->). done. Qed.
End Stream.
End Sender.

(** ** The receiver gets the stream *)

(** The packet that the receiving application sees. *)
Definition text_packet (sender : Z) (x : Z * list Z) : Packet := mkPacket sender x.1 (zlength x.2) (payload_ptr x.2).

Lemma stream_packets sender ch options base xs : map (packet_of sender) (imap (stream_message ch options base) xs) = map (text_packet sender) xs.
Proof. change (map (packet_of sender)) with (fmap (M := list) (packet_of sender)). rewrite fmap_imap. exact (imap_const (text_packet sender) xs). Qed.

(** A datagram that fits with its header. *)
Definition fits (x : parcel) : Prop := zlength (concat (map wire_message (pc_messages x))) + 7 <= MTU.

Lemma parcel_ids first n xs x : map pc_id xs = seqZ first n -> x ∈ xs -> first <= pc_id x < first + n.
Proof. intros E Hx. apply elem_of_seqZ. rewrite <- E. now apply list_elem_of_fmap_2. Qed.

Lemma parcel_unique first n xs x y : map pc_id xs = seqZ first n -> x ∈ xs -> y ∈ xs -> pc_id x = pc_id y -> x = y.
Proof.
  intros E [i Hi]%list_elem_of_lookup_1 [j Hj]%list_elem_of_lookup_1 Hxy. assert (Hnd : NoDup (pc_id <$> xs)) by (change (NoDup (map pc_id xs)); rewrite E; apply NoDup_seqZ).
  assert (i = j) as ->; [|congruence]. eapply (NoDup_lookup _ i j (pc_id x) Hnd); rewrite list_lookup_fmap; [now rewrite Hi|rewrite Hj; cbn; congruence].
Qed.

Section Receive.
Context {host : Host} {sign : CharSign} {RemoteAddress : Type} {address_eq : EqDecision RemoteAddress} (no_address : RemoteAddress).
Context {crypto : Type} {layer : EncryptionLayer crypto} (make_layer : Z -> outcome crypto) {callback : Type}.
Abbreviation Peer := (Peer RemoteAddress crypto callback).

(** The receiver has an ordered channel that nothing came in on, and knows neither the
    packets from [base] on nor the datagrams from [first] on. *)
Record unheard (ch base n first m : Z) (r : RemotePeer RemoteAddress) (c : CongestionControl) (p : Peer) : Prop := {
  uh_mode : m_channels p !! Z.to_nat ch = Some ORDERED;
  uh_channel : channels r !! ch = None;
  uh_packets : forall k, base <= k < base + n -> m_packetHistory c !! k = None;
  uh_datagrams : forall k, first <= k < first + m -> m_datagramHistory c !! k = None;
}.

Lemma stream_received asio here there j l2 r2 c2 ch options base first (xs : list (Z * list Z)) ws ps (b : Peer) ds : 0 < ch < 256 -> is_byte options -> 0 <= base -> 0 <= first ->
  base + zlength xs <= 4294967295 -> zlength xs <= limit -> first + zlength ps <= 4294967296 -> Forall text_ok xs ->
  connected b here j r2 c2 l2 -> unheard ch base (zlength xs) first (zlength ps) r2 c2 b ->
  posted_parcels l2 (there : RemoteAddress) (imap (stream_message ch options base) xs) first ws ps ->
  (forall d, d ∈ ds -> dv_parcel d ∈ ps /\ fits (dv_parcel d)) ->
  exists b' d, read_parcels no_address make_layer asio here ds b = Ret (tt, b') /\ m_inbox b' = m_inbox b ++ map (text_packet (rp_id r2)) (take d xs)
    /\ (forall k x, xs !! k = Some x -> (k < d)%nat -> exists y, y ∈ map dv_parcel ds /\ stream_message ch options base k x ∈ pc_messages y)
    /\ (forall x y, xs !! d = Some x -> y ∈ map dv_parcel ds -> stream_message ch options base d x ∉ pc_messages y).
Proof.
  intros Hch Hopt Hbase Hfirst Hlim Hlen Hps Hxs Hcn [U1 U2 U3 U4] [Hpp Hid] Hds. set (pool := imap (stream_message ch options base) xs) in *.
  assert (Hpool : forall m, m ∈ pool -> exists k x, xs !! k = Some x /\ m = stream_message ch options base k x).
  { intros m [k Hk]%list_elem_of_lookup_1. apply list_lookup_imap_Some in Hk as (x & Hx & ->). eauto. }
  assert (Hk : forall k x, xs !! k = Some x -> 0 <= Z.of_nat k < zlength xs) by (intros k x Hx%lookup_lt_Some; unfold zlength; lia).
  set (good := filter fits ps).
  assert (Hgood : forall x, x ∈ good -> x ∈ ps /\ fits x) by (intros x [? ?]%list_elem_of_filter; done).
  destruct (read_parcels_spec no_address make_layer asio here j l2 (rp_id r2) pool good b) with (s0 := mkInflow (m_packetHistory c2) (channels r2) (m_inbox b)) (ds := ds) (arrived := @nil parcel) (firsts := @nil message) (p := b)
    as (arrived & firsts & b' & E & [(r' & c' & _ & _ & _ & Ht & _) Hf] & Harr).
  - apply list.Forall_forall. intros m (k & x & Hx & ->)%Hpool. apply stream_message_ok; try done; [exact (Forall_lookup_1 _ _ _ _ Hxs Hx)|]. specialize (Hk k x Hx). lia.
  - apply list.Forall_forall. intros m (k & x & _ & ->)%Hpool. right. cbn. now rewrite U1.
  - intros m m' (k & x & Hx & ->)%Hpool (k' & x' & Hx' & ->)%Hpool. cbn. intros Hkk. assert (k = k') as -> by lia. congruence.
  - intros x [Hx Hfit]%Hgood. pose proof Hx as [n Hn]%list_elem_of_lookup_1. destruct (Forall2_lookup_r _ _ _ _ _ Hpp Hn) as (w & _ & [[_ (bb & y & Hy & Ey)] _ [Hne Hin] Hpl]).
    split; [|exact Hin]. split; [|done|exact Hfit|rewrite Ey; split; [exact (rf_bytes _ _ (proj1 Hy))|exact (rf_max _ _ (proj1 Hy))]|exact Hpl].
    pose proof (parcel_ids _ _ _ _ Hid Hx). lia.
  - intros x y [Hx _]%Hgood [Hy _]%Hgood. exact (parcel_unique _ _ _ _ _ Hid Hx Hy).
  - split; [|intros m; split; [intros Hm; now apply not_elem_of_nil in Hm|intros (x & Hx & _); now apply not_elem_of_nil in Hx]].
    exists r2, c2. split; [now rewrite at_slot_id by apply (cn_slot _ _ _ _ _ _ Hcn)|]. split; [done|]. split; [done|]. split.
    + apply taken_in_start. intros m (k & x & Hx & ->)%Hpool. cbn. apply U3. specialize (Hk k x Hx). lia.
    + intros x [Hx _]%Hgood. rewrite U4 by exact (parcel_ids _ _ _ _ Hid Hx). split; [intros []; done|intros N; now apply not_elem_of_nil in N].
  - intros d Hd. destruct (Hds d Hd) as [H1 H2]. apply list_elem_of_filter. done.
  - assert (Hch0 : ch <> 0) by lia. assert (Hzp : zlength pool <= limit) by (unfold pool, zlength in *; now rewrite length_imap).
    pose proof (ti_state _ _ _ _ _ _ Ht) as Hst. cbn [if_channels if_inbox] in Hst.
    destruct (stream_delivers (m_channels b) (rp_id r2) ch pool Hch0 U1 (stream_messages_are_stream ch options base xs) Hzp (channels r2, m_inbox b) firsts (ti_once _ _ _ _ _ _ Ht) (ti_pool _ _ _ _ _ _ Ht) U2)
      as (d & Hd & Ei & Hall & Hnot). rewrite <- Hst in Ei. cbn [snd] in Ei.
    assert (Hmem : forall k x, xs !! k = Some x -> pool !! k = Some (stream_message ch options base k x)) by (intros k x Hx; unfold pool; rewrite list_lookup_imap, Hx; done).
    exists b', d. split; [exact E|]. split.
    { rewrite Ei. f_equal. pose proof (stream_packets (rp_id r2) ch options base xs) as Ep. fold pool in Ep. rewrite <- !firstn_map. now rewrite Ep. }
    split.
    + intros k x Hx Hkd. apply (Hall k _ (Hmem k x Hx)) in Hkd. apply Hf in Hkd as (y & Hy & Hm). exists y. split; [|done]. apply Harr in Hy as [Hy|Hy]; [now apply not_elem_of_nil in Hy|done].
    + intros x y Hx Hy Hm. apply (Hnot _ (Hmem d x Hx)). apply Hf. exists y. split; [|done]. apply Harr. now right.
Qed.
End Receive.


(** ** Witness *)

#[local] Instance demo_host : Host := {| little_endian := true; or_left_first := true |}.
#[local] Instance demo_sign : CharSign := {| char_signed := true |}.

(** An established connection with the peer 22 at the address 5, and an ordered channel. *)
Definition demo_stream_peer : Peer Z unit unit :=
  mkPeer 11 2 0 (holding []) ∅ (mkSocket OPEN IPv4 true [] true false true false []) [RemotePeer_new 0; online_remote] [] ∅ [UNORDERED; ORDERED] None false {[0 := tt]} 1 [].
Definition demo_text (cmd : Z) (payload : list Z) : Packet := mkPacket 0 cmd (zlength payload) (payload_ptr payload).

Lemma demo_stream_queue : stream_queue 1 tt tt 5 (fun _ => 105000000) 100 105000000 22 1 RELIABLE 0 [] (CongestionControl_new 10) online_remote demo_stream_peer.
Proof.
  split; try done. split; try done; [|now exists 0]. split; try done. now eexists.
Qed.

