(* ===== verification/Stall.v ===== *)
(** * Stall: lost packets that are not sent again

    CongestionControl::Update, GetRetransmissionBudget and MakeDatagram together
    (source/CongestionControl.cpp, source/CongestionControlWindow.cpp,
    source/DatagramBuilder.cpp): packets are sent again only out of a budget that is
    bounded by the bytes in flight, and these are forgotten before the packets are due. *)

From stdpp Require Import base tactics gmap sets list list_numbers numbers option.
From Stdlib Require Import ZArith Lia.
From S2P Require Import Prelude Memory BinaryStream StreamSpec StreamCodec Config PeerStats Packet Headers.
From S2P Require Import ChannelBuffer CongestionControl Reassembly ReceiptTracker RpcController Encryption Handshake Socket RemotePeer PacketQueue Peer PacketFlow HandshakeTheorems DatagramTheorems PeerFrame PeerInvariant PeerEvents Delivery EndToEnd Sessions CongestionTheorems ReliableStream.

Open Scope Z_scope.

(** Without a sample of the round-trip time everything in flight has expired. *)
Lemma prune_all now out : Forall (fun d => 0 <= fl_bytes d.2 /\ 0 <= fl_sent d.2 <= now) out -> now < 18446744073709551616 -> flight_sum out < 18446744073709551616 ->
  0 <= flight_sum out /\ prune_flight now 0 (flight_sum out) out = (0, []).
Proof.
  intros H Hn. induction H as [|[k f] out [Hb Hs] H IH]; intros Ht; [done|]. cbn [flight_sum foldr prune_flight snd] in *. fold (flight_sum out) in *.
  assert (H0 : 0 <= flight_sum out).
  { clear - H. induction H as [|d out [Hb _] _ IH]; [done|]. cbn. fold (flight_sum out). lia. }
  destruct IH as [_ IH]; [lia|]. split; [lia|]. unfold expired, Timestamp_add. rewrite Z.add_0_r, u64_small by lia. rewrite (proj2 (Z.leb_le _ _)) by lia.
  replace (fl_bytes f + flight_sum out - fl_bytes f) with (flight_sum out) by lia. rewrite u64_small by lia. exact IH.
Qed.

Section Stall.
Context {host : Host} {sign : CharSign} {RemoteAddress : Type} {address_eq : EqDecision RemoteAddress} (no_address : RemoteAddress).
Context {crypto : Type} {layer : EncryptionLayer crypto} (make_layer : Z -> outcome crypto) {callback : Type}.
Abbreviation Peer := (Peer RemoteAddress crypto callback).
Abbreviation RemotePeer := (RemotePeer RemoteAddress).

(** Every packet was sent before, and nothing is in flight. *)
Record stalled (c : CongestionControl) (r : RemotePeer) : Prop := {
  sl_flight : m_bytesInFlight c = 0 /\ m_outgoing c = [];
  sl_acks : m_acks c = [] /\ m_nacks c = [];
  sl_sent : Forall (fun m => 0 < op_sendCount m) (outbox r);
}.

Lemma no_new_packet now n (box : list (OutgoingPacket RemoteAddress)) : Forall (fun m => 0 < op_sendCount m) box -> GetQueuedPacket now n false box = None.
Proof.
  unfold GetQueuedPacket. induction 1 as [|m box Hm _ IH]; [done|]. cbn [find_index]. unfold suitable at 1. cbn [andb orb negb].
  rewrite (proj2 (Z.eqb_neq _ _)) by lia. now rewrite andb_false_r, IH.
Qed.

Lemma stalled_idle now entropy encryption layers c r : congestion r = Some c -> stalled c r ->
  exists st, DoWriteCycle now entropy encryption false (layers : gmap Z crypto) r = Ret (Idle, set_stats st r).
Proof.
  intros Hc [[Hf _] [Ha Hn] Hs]. eexists. unfold DoWriteCycle. set (r0 := set_stats _ r). unfold GetNextDatagram, get_congestion. change (congestion r0) with (congestion r).
  rewrite Hc. cbn [mbind outcome_bind]. unfold GetNeedsToSendAcks. rewrite Ha, Hn, !bool_decide_true by done. cbn [andb].
  assert (E : MakeDatagram now r0 = Ret (NoDatagram, r0)); [|now rewrite E].
  unfold MakeDatagram. case_bool_decide; [done|]. unfold get_congestion. change (congestion r0) with (congestion r). rewrite Hc. cbn [mbind outcome_bind].
  assert (HB : GetRetransmissionBudget c = 0) by (unfold GetRetransmissionBudget, MTU; lia). rewrite HB. destruct (_ && _); [done|].
  unfold select_packets. cbn [Z.ltb Z.compare mbind outcome_bind]. unfold fill_fuel. cbn [fill_loop]. destruct (_ <=? 0); [done|].
  rewrite bool_decide_true by done. rewrite andb_false_r. unfold Datagram_AddNewPacket. rewrite (no_new_packet now _ (outbox r0) Hs). done.
Qed.

Lemma stalled_upkeep now c r : congestion r = Some c -> stalled c r -> exists c', congestion (upkeep now r).2 = Some c' /\ stalled c' (upkeep now r).2.
Proof.
  intros Hc [[Hf Ho] Hk Hs]. destruct (upkeep_spec now r c Hc) as (c' & Hc' & G & _ & Eo & _). exists c'. split; [done|].
  split; [|now rewrite (proj1 (ag_acks _ _ G)), (proj2 (ag_acks _ _ G))|now rewrite Eo]. split; [now rewrite (ag_empty _ _ G Ho)|exact (ag_none _ _ G Ho)].
Qed.

Lemma served_again i c r (p : Peer) c' r' (p' : Peer) : served i c r p -> m_remotes p' !! i = Some r' -> congestion r' = Some c' -> frame r r' -> disconnect r' = disconnect r ->
  IsOpenAndReady (m_masterSocket p') = true -> IsWritePending (m_masterSocket p') = false -> served i c' r' p'.
Proof.
  intros [_ _ (A & S & D) (h & Hh) _] Hr Hc [_ F2 F3 _ _ _ F7 _ _ _] Ed Ho Hw. split; try done; [now rewrite F2, F7, Ed|]. exists h. now rewrite F3.
Qed.

Lemma stalled_round asio i now entropy c r (p : Peer) : served i c r p -> (exists c', congestion (upkeep now r).2 = Some c' /\ stalled c' (upkeep now r).2) ->
  exists c' r' p', serve no_address make_layer i asio now entropy p = Ret (tt, p') /\ served i c' r' p' /\ stalled c' r' /\ outbox r' = outbox r
    /\ written (m_masterSocket p') = written (m_masterSocket p).
Proof.
  intros Hp (c1 & Hc1 & Hs1). destruct (upkeep_spec now r c (sv_congestion _ _ _ _ Hp)) as (c1' & Hc1' & _ & F & Eo & Ed & _). assert (c1' = c1) as -> by congruence.
  destruct (stalled_idle now entropy (m_crypto_enabled p) (p_layers p) c1 _ Hc1 Hs1) as (st & Ew).
  destruct (serve_run no_address make_layer i asio now entropy c r p Idle _ [] Hp Ew) as (p' & E & _ & Hr' & Ho & Hw & Hwr); [now left|].
  exists c1, (set_stats st (upkeep now r).2), p'. split; [exact E|]. split; [|split; [destruct Hs1; now split|split; [exact Eo|now rewrite Hwr, app_nil_r]]].
  apply (served_again i c r p); try done. etrans; [exact F|apply frame_stats].
Qed.

Lemma stalled_rounds asio i ts : forall c r (p : Peer), served i c r p -> stalled c r ->
  exists r' p', serves no_address make_layer i asio ts p = Ret (tt, p') /\ m_remotes p' !! i = Some r' /\ outbox r' = outbox r
    /\ written (m_masterSocket p') = written (m_masterSocket p).
Proof.
  induction ts as [|[now entropy] ts IH]; intros c r p Hp Hs.
  { exists r, p. split; [done|]. split; [apply Hp|done]. }
  destruct (stalled_round asio i now entropy c r p Hp (stalled_upkeep now c r (sv_congestion _ _ _ _ Hp) Hs)) as (c1 & r1 & p1 & E1 & Hp1 & Hs1 & Eo1 & Hw1).
  destruct (IH c1 r1 p1 Hp1 Hs1) as (r2 & p2 & E2 & Hr2 & Eo2 & Hw2). exists r2, p2. cbn [serves]. rewrite (bind_ret _ _ _ _ _ E1), E2.
  split; [done|]. split; [done|]. split; congruence.
Qed.

(** The first update leaves nothing in flight. *)
Lemma update_stalls t c r : congestion r = Some c -> m_rttAvg c = 0 -> m_acks c = [] /\ m_nacks c = [] ->
  Forall (fun d => 0 <= fl_bytes d.2 /\ 0 <= fl_sent d.2 <= t) (m_outgoing c) -> m_bytesInFlight c = flight_sum (m_outgoing c) -> m_bytesInFlight c < 18446744073709551616 ->
  t < 18446744073709551616 -> Elapsed t (m_nextUpdate c) = true -> Forall (fun m => 0 < op_sendCount m) (outbox r) ->
  exists c', congestion (upkeep t r).2 = Some c' /\ stalled c' (upkeep t r).2.
Proof.
  intros Hc Hr [Ha Hn] Hout Hb Hlim Ht He Hs. exists (Update t (stats r) c).2. destruct (upkeep_spec t r c Hc) as (c' & Hc' & G & _ & Eo & _).
  assert (E : congestion (upkeep t r).2 = Some (Update t (stats r) c).2).
  { unfold upkeep, update_receipts, update_congestion. rewrite Hc. destruct (Update t (stats r) c) as [st c1]. cbn [rp_receipt set_congestion set_stats].
    destruct (rp_receipt r); [destruct (Receipt_Update _ _ _) as [[? ?] ?]|]; done. }
  split; [done|]. assert (c' = (Update t (stats r) c).2) as -> by congruence. destruct (ag_acks _ _ G) as [Ga Gn]. split; [|now rewrite Ga, Gn|now rewrite Eo].
  unfold Update, Update_base. rewrite He, Hr. cbn [negb]. change (u64 (0 * 16)) with 0. rewrite Hb in *. rewrite (proj2 (prune_all t (m_outgoing c) Hout Ht Hlim)). done.
Qed.
End Stall.

(** C37: a reliable packet that is lost before the first sample of the round-trip time is
    not sent again as long as nothing else is sent or acknowledged. On a connection
    without a sample, whose queued packets were all sent before, the next update forgets
    what is in flight, and with it the budget for sending again: from then on the worker,
    as long as it alone works on the slot, writes nothing, however often and whenever it
    serves the slot, and the packets stay in the outbox, neither sent again nor given up. *)
Theorem lost_packets_stall {host : Host} {sign : CharSign} {RemoteAddress : Type} {address_eq : EqDecision RemoteAddress} (no_address : RemoteAddress)
    {crypto : Type} {layer : EncryptionLayer crypto} make_layer {callback : Type} asio i t entropy ts
    c r (p : Peer RemoteAddress crypto callback) :
  served i c r p -> m_rttAvg c = 0 -> m_acks c = [] /\ m_nacks c = [] ->
  Forall (fun d => 0 <= fl_bytes d.2 /\ 0 <= fl_sent d.2 <= t) (m_outgoing c) -> m_bytesInFlight c = flight_sum (m_outgoing c) ->
  m_bytesInFlight c < 18446744073709551616 -> t < 18446744073709551616 -> Elapsed t (m_nextUpdate c) = true ->
  Forall (fun m => 0 < op_sendCount m) (outbox r) ->
  exists r' p', serves no_address make_layer i asio ((t, entropy) :: ts) p = Ret (tt, p') /\ m_remotes p' !! i = Some r' /\ outbox r' = outbox r
    /\ written (m_masterSocket p') = written (m_masterSocket p).
Proof.
  intros Hp Hr Ha Hout Hb Hlim Ht He Hs.
  destruct (stalled_round no_address make_layer asio i t entropy c r p Hp) as (c1 & r1 & p1 & E1 & Hp1 & Hs1 & Eo1 & Hw1).
  { apply (update_stalls t c r); try done. apply Hp. }
  destruct (stalled_rounds no_address make_layer asio i ts c1 r1 p1 Hp1 Hs1) as (r2 & p2 & E2 & Hr2 & Eo2 & Hw2). exists r2, p2. cbn [serves].
  rewrite (bind_ret _ _ _ _ _ E1), E2. split; [done|]. split; [done|]. split; congruence.
Qed.

(** ** Witness *)

#[local] Instance demo_host : Host := {| little_endian := true; or_left_first := true |}.
#[local] Instance demo_sign : CharSign := {| char_signed := true |}.

(** A packet was sent at the time 60 in datagram 0 of 20 bytes, and the datagram was lost. *)
Definition after_loss : CongestionControl := NotifySendingBytes 60 0 20 (GetNextDatagramID (CongestionControl_new 10)).2.
Definition lost_packet : OutgoingPacket Z := mkOut None (holding [1; 2; 3]) 5 105000060 1 0 RELIABLE.
Definition lossy_remote : RemotePeer Z := set_congestion after_loss (set_outbox [lost_packet] online_remote).
Definition lossy_peer : Peer Z unit unit := at_slot 1 lossy_remote [] demo_stream_peer.

(** Years later it is still there. *)
Lemma lost_packets_stall_witness : let ts := [(105000065, 0); (200000000, 0); (100000000000000000, 0)] in
  exists r' p', serves 0 (fun _ => Ret tt) 1 demo_asio ((20000060, 0) :: ts) lossy_peer = Ret (tt, p') /\ m_remotes p' !! 1%nat = Some r' /\ outbox r' = [lost_packet]
    /\ written (m_masterSocket p') = [].
Proof.
  intros ts. apply (lost_packets_stall 0 (fun _ => Ret tt) demo_asio 1 20000060 0 ts after_loss lossy_remote lossy_peer).
  - split; try done. now eexists.
  - reflexivity.
  - done.
  - repeat constructor; cbn; lia.
  - reflexivity.
  - reflexivity.
  - reflexivity.
  - reflexivity.
  - repeat constructor; cbn; lia.
Defined.
