(* ===== verification/AckFlow.v ===== *)
(** * AckFlow: acknowledgements from the receiver back to the sender

    MakeAckgram and the write cycle of the receiver (source/DatagramBuilder.cpp,
    source/PacketQueue.cpp), the read handler of the sender with
    HandleAcknowledgements and HandleNonAcknowledgements (source/RemotePeer.cpp), and
    the notifications of receipts. *)

From stdpp Require Import base tactics gmap sets list list_numbers numbers option.
From Stdlib Require Import ZArith Lia.
From S2P Require Import Prelude Memory BinaryStream StreamSpec StreamCodec Config PeerStats Packet Headers.
From S2P Require Import ChannelBuffer CongestionControl Reassembly ReceiptTracker RpcController Encryption Handshake Socket RemotePeer PacketQueue Peer PacketFlow HandshakeTheorems DatagramTheorems AckTheorems PeerFrame PeerInvariant PeerEvents Delivery SplitDelivery EndToEnd Sessions Reliability.

Open Scope Z_scope.

(** ** The header of an acknowledgement *)

Definition ack_header (acks nacks : list Z) (id : Z) : DatagramHeader := mkDH false true acks nacks id 0.

(** The lists that fit one header. *)
Record ack_lists (acks nacks : list Z) : Prop := {
  al_some : acks <> [] \/ nacks <> [];
  al_acks : Forall (fun x => 0 <= x < 4294967296) acks /\ zlength acks <= 256;
  al_nacks : Forall (fun x => 0 <= x < 4294967296) nacks /\ zlength nacks <= 256;
}.

Lemma ack_header_merge acks nacks id : dh_merge DatagramHeader_default (ack_header acks nacks id) = ack_header acks nacks id.
Proof. unfold dh_merge, ack_header. cbn. now repeat case_bool_decide; subst. Qed.

Lemma ack_header_ok acks nacks id : ack_lists acks nacks -> 0 <= id < 4294967296 -> dh_ok (ack_header acks nacks id).
Proof. intros [_ [Ha _] [Hn _]] Hid. now split. Qed.

Lemma zlength_some_ids ids : ids <> [] -> 5 <= zlength (wire_id_list ids).
Proof. destruct ids as [|x l]; [done|]. intros _. unfold wire_id_list. rewrite zlength_cons, zlength_wire_ids, zlength_cons. pose proof (zlength_nonneg l). lia. Qed.

Lemma ack_header_length acks nacks id : ack_lists acks nacks -> 7 <= zlength (wire_datagram_header (ack_header acks nacks id)).
Proof.
  intros [Hs _ _]. unfold wire_datagram_header. rewrite !zlength_app. cbn [ack_header datagramID dh_acks dh_nacks flag_data].
  pose proof (zlength_nonneg (wire_id_list acks)). pose proof (zlength_nonneg (wire_id_list nacks)).
  change (zlength (be_bytes 4 id)) with 4. change (zlength [pack (dh_flags (ack_header acks nacks id))]) with 1. change (zlength (@nil Z)) with 0.
  destruct Hs as [H1%zlength_some_ids|H1%zlength_some_ids]; lia.
Qed.

Section AckFlow.
Context {host : Host} {sign : CharSign} {RemoteAddress : Type} {address_eq : EqDecision RemoteAddress} (no_address : RemoteAddress).
Context {crypto : Type} {layer : EncryptionLayer crypto} {laws : EncryptionLaws crypto} (make_layer : Z -> outcome crypto) {callback : Type}.
Abbreviation Peer := (Peer RemoteAddress crypto callback).
Abbreviation RemotePeer := (RemotePeer RemoteAddress).
Abbreviation PM := (ST Peer).

(** ** Writing *)

(** A connection whose acknowledgements are due. *)
Record acknowledging (now : Z) (layers : gmap Z crypto) (l : crypto) (c : CongestionControl) (r : RemotePeer) : Prop := {
  ak_congestion : congestion r = Some c;
  ak_id : 0 <= m_nextDatagram c < 4294967296;
  ak_due : GetNeedsToSendAcks now c = true;
  ak_lists : ack_lists (m_acks c) (m_nacks c);
  ak_layer : exists k, rp_crypto r = Some k /\ layers !! k = Some l;
}.

(** The congestion control after the acknowledgements were sent in n bytes. *)
Definition acks_sent (now n : Z) (c : CongestionControl) : CongestionControl :=
  NotifySendingBytes now (m_nextDatagram c) n (GetNextDatagramID (MakeAckList c).2).2.

Lemma MakeAckgram_spec now (r : RemotePeer) c : congestion r = Some c -> ack_lists (m_acks c) (m_nacks c) ->
  exists d, MakeAckgram now r = Ret (d, set_sentbox (sentbox r ++ [d]) (set_congestion (GetNextDatagramID (MakeAckList c).2).2 r)) /\
    rel true (od_blob d) (at_end (wire_datagram_header (ack_header (m_acks c) (m_nacks c) (m_nextDatagram c)))) /\
    od_crypto d = None /\ od_addr d = addr r /\ od_id d = m_nextDatagram c /\ od_packets d = [].
Proof.
  intros Hc [_ [_ Ha] [_ Hn]]. unfold MakeAckgram, get_congestion. rewrite Hc. cbn [mbind outcome_bind MakeAckList GetNextDatagramID].
  destruct (BinaryStream_new_rel BINARYSTREAM_DEFAULT_CAPACITY) as (s0 & E0 & H0); [unfold BINARYSTREAM_DEFAULT_CAPACITY, max_len; lia|].
  rewrite E0. cbn [mbind outcome_bind]. change (m_nextDatagram (set_acks _ _ _ _ c)) with (m_nextDatagram c).
  destruct (sim_DatagramHeader_Serialize [] (ack_header (m_acks c) (m_nacks c) (m_nextDatagram c))) with (s := s0) as (s1 & E1 & H1); [|exact H0|].
  { unfold roomy, dh_size, ids_size, max_len. cbn. change (zlength (@nil Z)) with 0. lia. }
  unfold ack_header in E1 at 1. rewrite E1. cbn [mbind outcome_bind mret outcome_ret]. eexists. split; [reflexivity|]. done.
Qed.

Lemma write_acks now entropy encryption layers l1 l2 c (r : RemotePeer) : acknowledging now layers l1 c r ->
  linked l1 l2 -> encryption && GetCryptoEstablished l1 = GetCryptoEstablished l2 ->
  exists r' blob w a d, DoWriteCycle now entropy encryption false layers r = Ret (Wrote (addr r) blob, r') /\ rel w blob a /\
    unseals l2 (a_bytes a) (wire_datagram_header (ack_header (m_acks c) (m_nacks c) (m_nextDatagram c))) /\
    congestion r' = Some (acks_sent now (m_length blob) c) /\ outbox r' = outbox r /\
    sentbox r' = sentbox r ++ [d] /\ od_id d = m_nextDatagram c /\ od_packets d = [] /\ frame r r'.
Proof.
  intros [Hc Hid Hdue Hls (k & Hk & Hl)] Hlink Henc. set (r0 := set_stats (Stats_Set PACKETS_IN_QUEUE (zlength (outbox r)) (stats r)) r).
  destruct (MakeAckgram_spec now r0 c Hc Hls) as (d & E & Hd & Dc & Da & Di & Dp).
  destruct (protect_unseals entropy encryption l1 l2 _ _ _ Hlink Henc Hd) as (w & blob & a & Ep & Hrel & Hun).
  { destruct Hls as [_ [_ Ha] [_ Hn]]. cbn [at_end a_bytes]. unfold wire_datagram_header. rewrite !zlength_app. pose proof (zlength_wire_id_list (m_acks c)).
    pose proof (zlength_wire_id_list (m_nacks c)). unfold ids_size, max_len in *. cbn [ack_header dh_acks dh_nacks datagramID flag_data].
    change (zlength (be_bytes 4 _)) with 4. change (zlength [pack _]) with 1. change (zlength (@nil Z)) with 0. lia. }
  assert (Ew : exists r', DoWriteCycle now entropy encryption false layers r = Ret (Wrote (addr r) blob, r') /\ congestion r' = Some (acks_sent now (m_length blob) c)
    /\ outbox r' = outbox r /\ sentbox r' = sentbox r ++ [mkDatagram (od_crypto d) blob (od_addr d) (od_id d) (od_discard d) (od_packets d)]).
  { unfold DoWriteCycle. fold r0. unfold GetNextDatagram, get_congestion. change (congestion r0) with (congestion r). rewrite Hc. cbn [mbind outcome_bind]. rewrite Hdue, E.
    cbn [mbind outcome_bind mret outcome_ret]. unfold datagram_layer. rewrite Dc. cbn [rp_crypto set_sentbox set_congestion]. change (rp_crypto r0) with (rp_crypto r). rewrite Hk.
    cbn [mbind option_bind]. rewrite Hl, Ep. cbn [mbind outcome_bind]. cbn [congestion set_sentbox set_congestion mbind outcome_bind].
    rewrite Da, Di. eexists. split; [reflexivity|]. split; [done|]. split; [done|]. cbn [sentbox set_congestion set_stats set_sentbox]. rewrite set_last_snoc.
    now rewrite ?Dc, ?Da, ?Di. }
  destruct Ew as (r' & Ew & Ec & Eo & Es). eexists r', blob, w, a, _. split; [exact Ew|]. split; [done|]. split; [exact Hun|]. split; [exact Ec|]. split; [exact Eo|].
  split; [exact Es|]. split; [exact Di|]. split; [exact Dp|]. exact (DoWriteCycle_frame _ _ _ _ _ _ _ _ Ew).
Qed.

(** ** Reading *)

(** What an acknowledgement tells the congestion control. *)
Definition heard (now : Z) (acks nacks : list Z) (c : CongestionControl) : CongestionControl :=
  let c := foldl (fun c ack => NotifyReceivedAck now ack c) c acks in
  match nacks with [] => c | _ => NotifyReceivedNakGroup c end.

(** The packets that were acknowledged are gone, those that were reported lost are due,
    and each packet that leaves the tracker has its receipt. *)
Record settles (now : Z) (acks nacks : list Z) (c : CongestionControl) (t : ReceiptTracker) (r r' : RemotePeer) (t' : ReceiptTracker) (rs : list receipt) : Prop := {
  st_outbox : outbox r' = map (due_now now (settled nacks (filter (fun d => od_id d ∉ acks) (sentbox r))))
    (filter (fun p => op_id p ∉ settled acks (sentbox r)) (outbox r));
  st_sentbox : sentbox r' = filter (fun d => od_id d ∉ nacks) (filter (fun d => od_id d ∉ acks) (sentbox r));
  st_ready : ack_ready r' (heard now acks nacks c) t';
  st_receipts : tracked (settled acks (sentbox r)) t t' rs;
  st_frame : frame r r';
}.

Lemma due_none now (sent : list (OutgoingDatagram RemoteAddress)) (box : list (OutgoingPacket RemoteAddress)) : map (due_now now (settled [] sent)) box = box.
Proof.
  rewrite <- (map_id box) at 2. apply map_ext. intros p. unfold due_now. rewrite bool_decide_eq_false_2; [done|].
  intros (d & _ & H & _)%elem_settled. now apply not_elem_of_nil in H.
Qed.

(** The two steps of the read handler, one list at a time. *)
Lemma acks_settle now acks i r c t inbox (p : Peer) : (i < length (m_remotes p))%nat -> ack_ready r c t ->
  exists r' t' rs notes,
    (match acks with
     | [] => mret tt
     | x :: l => rs ← on_slot i (fun r => '(r, rs) ← HandleAcknowledgements now (x :: l) r; mret (rs, r)); post_receipts rs
     end : PM unit) (at_slot i r inbox p) = Ret (tt, at_slot i r' (inbox ++ notes) p) /\ settles now acks [] c t r r' t' rs /\ Forall2 receipt_note rs notes.
Proof.
  intros Hi Hr. destruct (HandleAcknowledgements_spec now acks r c t Hr) as (r' & rs & t' & E & Eo & Es & Hr' & Ht').
  destruct (receipts_noted rs (at_slot i r' inbox p)) as (notes & En & Hn). exists r', t', rs, notes. split; [|split; [|exact Hn]].
  - destruct acks as [|x acks].
    { cbn in E. injection E as <- <-. inversion Hn. now rewrite app_nil_r. }
    erewrite bind_ret; [|rewrite on_slot_at by done; rewrite E; reflexivity]. rewrite En. done.
  - split; [|now rewrite Es, (filter_true (fun d => od_id d ∉ [])) by (intros; apply not_elem_of_nil)|done|done|now apply ack_frame in E].
    rewrite due_none. exact Eo.
Qed.

Lemma naks_settle now acks nacks i r0 r c t t0 rs inbox (p : Peer) : (i < length (m_remotes p))%nat -> settles now acks [] c t0 r0 r t rs ->
  exists r', (match nacks with
     | [] => mret tt
     | x :: l => on_slot i (fun r => r ← HandleNonAcknowledgements now (x :: l) r; mret (tt, r))
     end : PM unit) (at_slot i r inbox p) = Ret (tt, at_slot i r' inbox p) /\ settles now acks nacks c t0 r0 r' t rs.
Proof.
  intros Hi Hs. destruct nacks as [|x nacks]; [now exists r|]. destruct Hs as [Eo Es Hr Ht F].
  destruct (HandleNonAcknowledgements_spec now (x :: nacks) r _ t Hr) as (r' & E & Eo' & Es' & Hr' & _). exists r'.
  rewrite on_slot_at, E by done. split; [done|]. rewrite due_none in Eo. rewrite (filter_true (fun d => od_id d ∉ [])) in Es by (intros; apply not_elem_of_nil).
  split; [now rewrite Eo', Eo, Es|now rewrite Es', Es|done|done|]. etrans; [exact F|]. now apply nak_frame in E.
Qed.

(** The read handler on an acknowledgement: a datagram that was seen changes nothing,
    else everything named is settled and the receipts are noted in the inbox. *)
Lemma read_acks asio now entropy (p : Peer) sender i r c l t wire acks nacks id :
  connected p sender i r c l -> ack_ready r c t -> ack_lists acks nacks -> 0 <= id < 4294967296 -> Forall is_byte wire -> zlength wire <= max_len ->
  unseals l wire (wire_datagram_header (ack_header acks nacks id)) -> m_datagramHistory c !! id = None ->
  exists r' t' rs notes, OnReadFinished no_address make_layer asio now entropy false sender (map Some wire) p = Ret (tt, at_slot i r' (m_inbox p ++ notes) p) /\
    settles now acks nacks (NotifyReceivedDatagram now id true c).2 t r r' t' rs /\ Forall2 receipt_note rs notes.
Proof.
  intros Hcn Hrd Hls Hid Hb Hm Hu Hnew. assert (Hi : (i < length (m_remotes p))%nat) by (eapply lookup_lt_Some; apply Hcn).
  destruct (read_header no_address make_layer asio now entropy p sender i r c l wire (ack_header acks nacks id) [] Hcn Hb Hm) as (st & w & s & Hs & E);
    [now apply ack_header_ok|apply Hls..|done|apply ack_header_merge|done|now rewrite app_nil_r|].
  rewrite E. cbn [ack_header flag_data andb]. clear E. unfold read_connected. cbn [datagramID flag_data negb dh_acks dh_nacks ack_header].
  set (c1 := (NotifyReceivedDatagram now id true c).2). set (r1 := set_congestion c1 (set_stats st r)).
  erewrite (bind_ret (on_slot i _)).
  2:{ rewrite on_slot_at by done. unfold get_congestion. change (congestion (set_stats st r)) with (congestion r). rewrite (cn_congestion _ _ _ _ _ _ Hcn).
      cbn [mbind outcome_bind]. rewrite (surjective_pairing (NotifyReceivedDatagram now id true c)). fold c1. cbn [mret outcome_ret mbind outcome_bind]. reflexivity. }
  replace (NotifyReceivedDatagram now id true c).1 with NEW by (unfold NotifyReceivedDatagram; now rewrite Hnew).
  assert (Hr1 : ack_ready r1 c1 t) by (destruct Hrd; now split).
  destruct (acks_settle now acks i r1 c1 t (m_inbox p) p Hi Hr1) as (r2 & t2 & rs & notes & E2 & H2 & Hn). fold r1.
  rewrite (bind_ret _ _ _ _ _ E2). destruct (naks_settle now acks nacks i r1 r2 c1 t2 t rs (m_inbox p ++ notes) p Hi H2) as (r3 & E3 & H3).
  rewrite (bind_ret _ _ _ _ _ E3). exists r3, t2, rs, notes. split; [|split; [|exact Hn]].
  - unfold loop_fuel. cbn [packet_loop]. destruct (sim_header_eof w PacketHeader_default _ (ack_header_length acks nacks id Hls) s Hs) as (s1 & E1 & _).
    rewrite (bind_lift _ _ _ _ E1). done.
  - destruct H3 as [A B C D F]. split; try done. etrans; [|exact F]. unfold r1. etrans; [apply frame_stats|]. eapply frame_set_congestion. apply Hcn.
Qed.

(** ** From the outbox to the other end and back *)

(** What a write cycle sent again keeps its ID, the rest is as it was. *)
Lemma wrote_out_pointwise now c q n (r r' : RemotePeer) : wrote_out now c q n r r' ->
  Forall2 (fun m m' => op_id m' = op_id m /\ (op_id m ∉ queue_ids (outbox r) q -> m' = m)) (outbox r) (outbox r').
Proof.
  intros [Hs Hk _ _ _ _ _]. apply list.Forall2_lookup. intros i. destruct (decide (i ∈ q)) as [Hq|Hq].
  - destruct (Hs i Hq) as (m & Hm & _ & Hm'). rewrite Hm, Hm'. constructor. split; [done|]. intros Hn. exfalso. apply Hn.
    unfold queue_ids. apply list_elem_of_omap. exists i. split; [done|]. now rewrite Hm.
  - rewrite (Hk i Hq). destruct (outbox r !! i); constructor. done.
Qed.

Lemma pointwise_ids (P : OutgoingPacket RemoteAddress -> Prop) box box' :
  Forall2 (fun m m' => op_id m' = op_id m /\ (P m -> m' = m)) box box' -> map op_id box' = map op_id box.
Proof. induction 1 as [|m m' box box' [E _] _ IH]; [done|]. cbn. now rewrite E, IH. Qed.

Lemma pointwise_filter (ids : list Z) box box' : Forall2 (fun m m' : OutgoingPacket RemoteAddress => op_id m' = op_id m /\ (op_id m ∉ ids -> m' = m)) box box' ->
  filter (fun m => op_id m ∉ ids) box' = filter (fun m => op_id m ∉ ids) box.
Proof.
  induction 1 as [|m m' box box' [E Hm] _ IH]; [done|]. rewrite !filter_cons, IH. rewrite E. destruct (decide (op_id m ∉ ids)) as [Hn|]; [|done]. now rewrite (Hm Hn).
Qed.

Lemma settled_last id (sent : list (OutgoingDatagram RemoteAddress)) d : id ∉ map od_id sent -> od_id d = id ->
  settled [id] (sent ++ [d]) = od_packets d /\ filter (fun d => od_id d ∉ [id]) (sent ++ [d]) = sent.
Proof.
  intros Hn Hd. assert (Hne : forall x, x ∈ sent -> od_id x <> id) by now apply key_absent.
  assert (E : filter (fun d => od_id d ∈ [id]) sent = []).
  { apply elem_of_nil_inv. intros x [H1%list_elem_of_singleton H2]%list_elem_of_filter. exact (Hne x H2 H1). }
  split.
  - unfold settled. rewrite list.filter_app, E, filter_cons_True by (now apply list_elem_of_singleton). cbn. apply app_nil_r.
  - rewrite list.filter_app, filter_true, filter_cons_False by (intros; rewrite list_elem_of_singleton; auto). apply app_nil_r.
Qed.

(** Every message is taken when its channel is known. *)
Lemma accept_known modes now sender ms : Forall (known modes) ms -> forall s, exists s', accept_all modes now sender ms s = Ret s'.
Proof.
  induction 1 as [|m ms Hm _ IH]; intros s; [now exists s|]. cbn [accept_all].
  destruct (if_seen s !! ph_id (mg_header m)) as [x|] eqn:E; [|rewrite (accept_new _ _ _ _ _ Hm E); apply IH].
  unfold accept. rewrite E. apply IH.
Qed.

(** A receiver that has nothing to acknowledge and expects datagram [id] next. *)
Record expecting (id : Z) (c : CongestionControl) : Prop := {
  ex_acks : m_acks c = [] /\ m_nacks c = [];
  ex_next : m_remoteDatagram c = id /\ m_datagramHistory c !! id = None;
  ex_id : 0 <= m_nextDatagram c < 4294967296;
}.

Lemma received_acks now now' layers l id s st c (r : RemotePeer) : expecting id c -> 0 <= id < 4294967296 ->
  Elapsed now' (Timestamp_add now (FromMilliseconds 10)) = true -> (exists k, rp_crypto r = Some k /\ layers !! k = Some l) ->
  let c1 := (NotifyReceivedDatagram now id false c).2 in
  exists c', acknowledging now' layers l c' (received s c1 st r) /\ m_acks c' = [id] /\ m_nacks c' = [] /\ m_nextDatagram c' = m_nextDatagram c.
Proof.
  intros [[Ea En] [Ex Eh] Hid] Hi Hdue Hl c1. eexists. assert (Hn : SequenceGreaterThan id id = false) by (unfold SequenceGreaterThan; now rewrite Z.eqb_refl).
  assert (E : m_acks c1 = [id] /\ m_nacks c1 = [] /\ m_nextDatagram c1 = m_nextDatagram c /\ m_oldestUnsentAck c1 = now).
  { unfold c1, NotifyReceivedDatagram. rewrite Eh. cbn. now rewrite Ex, Hn, Ea, En. }
  destruct E as (E1 & E2 & E3 & E4). split; [split; [reflexivity| | | |exact Hl]|cbn; done]; cbn [m_nextDatagram m_acks m_nacks set_history].
  - now rewrite E3.
  - unfold GetNeedsToSendAcks. cbn [m_acks m_nacks m_oldestUnsentAck set_history]. rewrite E1, E2, E4. rewrite bool_decide_false by done. cbn [andb]. rewrite Hdue. apply orb_true_r.
  - rewrite E1, E2. split; [now left| |now split]. split; [now repeat constructor|]. change (zlength [id]) with 1. lia.
Qed.

(** The acknowledgement of the last datagram, read by the peer that sent it. *)
Lemma read_settles asio now now' entropy (p : Peer) sender i r c l t q n r' id wire :
  connected p sender i r c l -> ack_ready r c t -> wrote_out now' c q n r r' -> (m_nextDatagram c ∉ map od_id (sentbox r)) ->
  0 <= m_nextDatagram c < 4294967296 -> 0 <= id < 4294967296 -> m_datagramHistory c !! id = None -> Forall is_byte wire -> zlength wire <= max_len ->
  unseals l wire (wire_datagram_header (ack_header [m_nextDatagram c] [] id)) ->
  exists r3 t' rs notes, OnReadFinished no_address make_layer asio now entropy false sender (map Some wire) (at_slot i r' (m_inbox p) p) =
      Ret (tt, at_slot i r3 (m_inbox p ++ notes) p) /\
    outbox r3 = filter (fun m => op_id m ∉ queue_ids (outbox r) q) (outbox r) /\ sentbox r3 = sentbox r /\ rp_receipt r3 = Some t' /\
    tracked (queue_ids (outbox r) q) t t' rs /\ Forall2 receipt_note rs notes.
Proof.
  intros Hcn [Hc Ht Hw Hp Hd] Hwo Hnew Hn Hid Hhist Hb Hm Hu. destruct (wo_sentbox _ _ _ _ _ _ Hwo) as (d & Es & Ed & Ep).
  pose proof (wrote_out_pointwise _ _ _ _ _ _ Hwo) as Hpw. pose proof (wo_frame _ _ _ _ _ _ Hwo) as F. pose proof (wo_congestion _ _ _ _ _ _ Hwo) as Hc'.
  set (c' := NotifySendingBytes _ _ _ _) in Hc'.
  assert (Hcn' : connected (at_slot i r' (m_inbox p) p) sender i r' c' l) by (apply (connected_again p sender i r c l); try done; apply F).
  assert (Hrd : ack_ready r' c' t).
  { split; try done; [now rewrite (wo_receipt _ _ _ _ _ _ Hwo)|now rewrite (pointwise_ids _ _ _ Hpw)|]. rewrite Es, map_app. apply list.NoDup_app. cbn. rewrite Ed.
    split; [done|]. split; [|apply NoDup_singleton]. intros x Hx ->%list_elem_of_singleton. done. }
  destruct (settled_last (m_nextDatagram c) (sentbox r) d Hnew Ed) as [E1 E2].
  destruct (read_acks asio now entropy _ sender i r' c' l t wire [m_nextDatagram c] [] id Hcn' Hrd) as (r3 & t' & rs & notes & E & [So Ss Sr St _] & Hnotes); try done.
  { split; [now left| |now split]. split; [now repeat constructor|]. now change (zlength [m_nextDatagram c]) with 1. }
  exists r3, t', rs, notes. rewrite E, at_slot_twice. split; [done|]. rewrite Es, E1, Ep in St, So. rewrite Es, E2 in Ss. rewrite due_none in So.
  split; [now rewrite So, (pointwise_filter _ _ _ Hpw)|]. split; [rewrite Ss; apply filter_true; intros; apply not_elem_of_nil|]. split; [apply Sr|done].
Qed.
(** The datagram that is expected, read by the other peer. *)
Lemma read_expected asio now entropy (p : Peer) sender i r c l wire ms id : connected p sender i r c l -> expecting id c -> 0 <= id < 4294967296 ->
  Forall message_ok ms -> Forall (known (m_channels p)) ms -> ms <> [] -> zlength (concat (map wire_message ms)) + 7 <= MTU -> Forall is_byte wire -> zlength wire <= max_len ->
  unseals l wire (wire_datagram_header (mkDH true true [] [] id (zlength (concat (map wire_message ms)))) ++ concat (map wire_message ms)) ->
  exists s st, accept_all (m_channels p) now (rp_id r) ms (mkInflow (m_packetHistory c) (channels r) (m_inbox p)) = Ret s /\
    OnReadFinished no_address make_layer asio now entropy false sender (map Some wire) p =
      Ret (tt, at_slot i (received s (NotifyReceivedDatagram now id false c).2 st r) (if_inbox s) p).
Proof.
  intros Hcn Hex Hid Hms Hk Hne Hmtu Hb Hm Hu. destruct (accept_known (m_channels p) now (rp_id r) ms Hk (mkInflow (m_packetHistory c) (channels r) (m_inbox p))) as (s & Ea).
  pose proof (delivery_spec no_address make_layer asio now entropy p sender i r c l wire ms id Hcn Hms Hne Hid Hmtu Hb Hm Hu) as H. unfold delivers in H.
  rewrite (proj2 (ex_next _ _ Hex)), Ea in H. destruct H as (st & E). now exists s, st.
Qed.
End AckFlow.


(** ** Witness *)

#[local] Instance demo_host : Host := {| little_endian := true; or_left_first := true |}.
#[local] Instance demo_sign : CharSign := {| char_signed := true |}.

(** A peer with one packet to send, which it tracks. *)
Definition tracking_remote : RemotePeer Z := set_receipt (Track 3 ReceiptTracker_new) sending_remote.
Definition tracking_peer : Peer Z unit unit := at_slot 1 tracking_remote [] online_peer.

Lemma tracking_ready : ack_ready tracking_remote (CongestionControl_new 10) (Track 3 ReceiptTracker_new).
Proof.
  split; [done|done| |apply (bool_decide_unpack _); reflexivity..].
  split; [constructor|constructor|]. intros c cs H. now apply not_elem_of_nil in H.
Qed.

